(* ===== verification/_CoqProject ===== *)
-Q . S2P
Prelude.v
PyStr.v
Regex.v
RegexScan.v
Fields.v
PyFloat.v
PyObj.v
Json.v
JsonSpec.v
Process.v
Argparse.v
Validate.v
Deployment.v
ValidateSpec.v
Capability.v
Generate.v
CompileMain.v
GenSpec.v
GenMembers.v
GenProgram.v
Samples.v
CompilerTheorems.v
Config.v
Plan.v
PlanSpec.v
Elf.v
ElfSpec.v
MapFile.v
MapSpec.v
Metrics.v
MetricsSpec.v
Timing.v
TimingSpec.v
CheckTheorems.v
Inventory.v
InventorySpec.v
Admit.v
AdmitSpec.v
C6Theorems.v
Postlink.v
PostlinkSpec.v
ResourceMain.v
ReportSpec.v
CompileSpec.v
PlanFile.v
Toolchain.v
ResourceSamples.v
ResourceTheorems.v
ToolchainTheorems.v
Clock.v
Sources.v
Capture.v
CaptureSpec.v
Prog.v
Rclpy.v
StaticPeer.v
WifiPeer.v
WifiSpec.v
Worker.v
WorkerSpec.v
GraphPeer.v
GraphSpec.v
PeerMain.v
System.v
SystemSpec.v
Cli.v
CliSpec.v
Build.v
BuildSpec.v
BuildTheorems.v
PeerSamples.v
PeerTheorems.v
Allocator.v
AllocatorSpec.v
AllocatorThreads.v
Control.v
ControlSpec.v
Firmware.v
FirmwareSpec.v
DeviceTheorems.v
