(* ===== verification/Prelude.v ===== *)
(** * ros2_zephyr: verification development

    ros2_zephyr runs a fixed ROS 2 graph on Zephyr boards.  Its core logic is in
    Python host tools: a compiler turns a JSON deployment into C source and a
    plan, and a resource tool admits the plan before the build and verifies the
    linked image after it; further programs admit ESP32-C6 images, check logs of
    runs, capture a serial port, and play the desktop side of the acceptance tests.
    This library models all ten programs and proves what they accept, what they
    print, what the printed program does, and when the verdicts are given.  Of the
    firmware it models what the tools judge: the allocator, the static-control
    application with its control thread, and the ESP32-C6 Wi-Fi stack provider.

    ** The tools and how they meet

    [tools/compile_deployment.py] validates a deployment and a backend capability
    document, prints [generated_ros_init.h] and [.c], a configuration, CMake
    features and a report, and writes [deployment-plan.json].
    [tools/verify_resources.py plan] reads that plan and a Zephyr [.config] and
    writes a resource plan; [tools/verify_resources.py verify] reads the resource
    plan, the linked ELF image, its linker map and its [.config], and writes the
    verdict.  The exit status 0 or 2 is what the build acts on:
    [cmake/deployment.cmake] and [cmake/runtime.cmake] start the three with fixed
    command lines and stop at the first that fails.

    The other programs stand alone: [tools/esp32c6_resources.py] inventories an
    ESP32-C6 image and [tools/admit_esp32c6.py] imports it to admit one;
    [tools/check_static_control_metrics.py] and
    [tools/check_static_control_timing.py] judge logs of the static-control sample;
    [samples/loopback/capture_esp32.py] waits for marker lines on a serial port;
    [samples/wifi/peer.py] and [samples/static_control/peer.py] talk to a board
    through rclpy; [verify_sources.py] compares checkouts with pinned commits.

    On the device [platform/allocator.c] serves ROS and, through
    [platform/rmw/cyclonedds_c.c], the middleware, and counts what they allocate;
    [samples/static_control/src/main.c] owns ROS, submits commands to the control
    thread of [control.c], which drives the plant of [plant.c], and prints the
    counters and timings that the two checks above read from a log;
    [platform/esp32c6_wifi_stack.c] returns the stack size that the admission
    recomputes.

    ** The files

    Python and its library:
    - [Prelude]: exceptions, the result monad [res] with [bind_Ok]/[inv_res],
      loops, finite case analysis.
    - [PyStr], [Regex], [PyFloat], [PyObj]: [str], [re], [float] and the objects
      [json.loads] returns, as far as the tools use them.  A text is a list of
      8-bit characters; a code point above U+00FF stands as one character of
      no class the tools test for.  [Regex] is a backtracking matcher with a
      relational semantics ([rmatch]) that [re_matches] is proved to decide;
      [RegexScan] and [Fields] compute the scans the log readers do.
    - [Json], [JsonSpec]: [json.dumps(indent=2, sort_keys=True)] and [json.loads],
      inverse on objects without floats; what is read has distinct keys.
    - [Process]: runs of a tool: the answers of the file system are a parameter
      ([env]), the files written and the lines printed are recorded in order.
    - [Argparse]: [argparse] as far as the programs use it, as Python 3.13 behaves.
    - [Clock]: floats as [time.monotonic] gives them and loops with a deadline.
    - [Prog]: programs that wait for the outside, with a total weakest
      precondition [twp]: a run ends, and as the postcondition says.

    The deployment compiler, [tools/compile_deployment.py]:
    - [Validate]: [validate_deployment] and its helpers, check by check.
    - [Deployment]: the typed contract: [deployment], [valid_deployment], and
      [Represents], which relates a document to its data.
    - [ValidateSpec]: the validator accepts exactly the documents of the contract.
    - [Capability]: [validate_capabilities] and when a backend [supports].
    - [Generate]: the five generated texts, line by line.
    - [GenSpec], [GenMembers]: the texts as renderings of the typed deployment;
      when the members of the generated structure are distinct.
    - [GenProgram]: what the printed [ros2z_deployment_init] and
      [ros2z_deployment_fini] do, as state passing over the calls to rcl and rclc,
      whose answers are a parameter.
    - [CompileMain], [CompileSpec]: [compile_deployment] and [main].

    The resource tool, [tools/verify_resources.py]:
    - [Config]: [parse_config], [integer_config], and the lines Kconfig writes,
      settings and comments.
    - [Plan], [PlanSpec]: [build_prelink_plan]; the interface [ResourcePlan] of
      its document; [admissible], the contract it decides.
    - [Elf], [ElfSpec]: [parse_elf_sections]; what it is for bytes to be an image with
      a given layout ([elf_image]), and an encoder of such images.
    - [MapFile], [MapSpec] (with a module [LogSpec]): linker maps and runtime logs.
    - [Postlink], [PostlinkSpec]: [measure_linked], [build_postlink_report], the
      Markdown texts; the interface [Measured]; [linked_ok], what is decided.
    - [ResourceMain], [ReportSpec]: the two commands and their exit status.
    - [PlanFile], [Toolchain]: the files between the tools, read back.

    The other tools:
    - [Inventory], [InventorySpec]: [tools/esp32c6_resources.py].
    - [Admit], [AdmitSpec]: [tools/admit_esp32c6.py]; what every stack of an image has
      to hold ([demands], [room_for]), computed apart from the program; [qualified],
      the reviewed conditions, and the builds that can be judged ([judgeable]).
    - [Metrics], [MetricsSpec]: [tools/check_static_control_metrics.py].
    - [Timing], [TimingSpec]: [tools/check_static_control_timing.py].
    - [Sources]: [verify_sources.py]; git and the pinned list are parameters.

    The programs that wait:
    - [Capture], [CaptureSpec]: [samples/loopback/capture_esp32.py]; the port is a
      parameter, [CaptureSpec] counts the lines of everything that was read.
    - [Rclpy]: what the peers use of rclpy, as a parameter, and their wait loops; the
      log of a peer has what it did and what the graph queries answered.
    - [StaticPeer]: [samples/static_control/peer.py].
    - [WifiPeer], [WifiSpec]: publisher, subscriber and outbound graph roles of
      [samples/wifi/peer.py].
    - [Worker], [WorkerSpec]: the worker process of its inbound graph role, over its
      end of a pipe, a parameter; the states its loop passes ([reachable]).
    - [GraphPeer], [GraphSpec]: the parent of the workers, over [multiprocessing], a
      parameter; its [main].
    - [PeerMain]: what the outbound role may log, look by look ([looked], [waited],
      [cycles_end]), and the program as a whole.
    - [System], [SystemSpec]: the inbound parent and its workers run together, over
      pipes and a schedule; what each process has told at every stage ([at_work]).

    Command lines and the build:
    - [Cli], [CliSpec]: the parser of each program and what it reads from it; the
      namespaces a parse can give ([typed]) and command lines that are read back.
    - [Build], [BuildSpec]: the tools in the order in which a build runs them, each
      reading what those before it wrote; Kconfig and the linker are parameters.

    The firmware:
    - [Allocator], [AllocatorSpec]: module [Heap] has blocks of bytes, loads and
      stores inside them, and the contract of the heaps ([HeapOps], [HeapLaws]),
      which are a parameter; module [Allocator] has [allocator.c] and
      [cyclonedds_c.c] at the width of [size_t], undefined behaviour being the
      absence of a result; the abstract [ledger] of held blocks and accounts,
      [answers], what an operation may answer, and [session], the game a client and
      other heap users play with it.
    - [AllocatorThreads]: the operations cut where they touch the counters or the
      heaps ([phase], [call_start], [call_continue] of [Allocator]), run by any
      number of threads: every block is a [cell], held or in the hands of a thread,
      and [interleaving] is the game the threads play.
    - [Control], [ControlSpec]: [control.c] and [plant.c]: the thread cut where it
      touches shared state ([control_step]) and its [reachable] states; [observe] reads
      the cycles of the current start off a list of events, and they determine what is
      published ([shows]); module [ProbeSpec] has the histograms of the timing probe
      and their percentiles.
    - [Firmware], [FirmwareSpec]: [main.c]: start-up and cleanup, the loop, the
      printed lines; those lines as the log checks read them.  Module [WifiStack] of
      [Firmware] has [esp32c6_wifi_stack.c].

    [Samples], [ResourceSamples] and [PeerSamples] hold concrete documents, a
    concrete build and scripted outsides; [CompilerTheorems], [ResourceTheorems],
    [ToolchainTheorems], [CheckTheorems], [C6Theorems], [BuildTheorems],
    [PeerTheorems] and [DeviceTheorems] state the properties, each with a witness on
    such inputs.

    ** What the theorems show

    The validator accepts exactly the contract and raises only its own error; the
    capability check is exact; accepted deployments are generated without error,
    and the generated program initializes in order or undoes what it did.  A
    rejected run writes nothing, an accepted one writes six files, and the plan
    file read back is the compiled deployment.  The plan is total on compiled
    deployments and passes exactly when the configuration holds the deployment
    within the budget; the post-link verdict passes exactly when the image with
    the reserve fits the budgets and the budgets fit the regions.  The readers of
    [.config] files with their comments, ELF images of any layout, linker maps and
    runtime logs recover what was written, and the map readers never raise.  What a command of the resource tool cannot judge
    it refuses with one line and without a file.  Composed as a build runs them, the
    tools accept exactly the builds for which all these conditions hold.  Whatever
    its command line, each program gets arguments of the types it reads, or ends in
    its parser; the options of the tools can be given in any order.

    The ESP32-C6 admission of a judgeable build ends and admits it exactly when the
    reviewed conditions hold, among them that every stack holds its TLS copy, overhead,
    execution budget and margin; the inventory counts every section in its region; the
    log checks and the source check give status 0 exactly for the logs and
    checkouts they promise to accept.

    The capture ends, closes the port, and succeeds exactly when enough complete
    marker lines of bounded length were read.  The peers end with any outside whose
    clock gets past their timeout, in the order of their protocol, with their node
    destroyed and their workers disposed of; the outbound role announces a phase
    exactly after a look at the graph that shows it, the publisher passes exactly when
    the device is gone at the end; the subscriber passes exactly on the expected values,
    and does so when the device delivers them in time.  The inbound role passes under
    every schedule of its workers when the device appears in time and the parent
    polls often enough.

    The allocator refines its ledger: no permitted sequence of operations has
    undefined behaviour, blocks keep their contents and go back to the heap they
    came from, and the counters are the accounts; a refused request changes nothing,
    and a size next to the end of the range is shown to overflow the header's sum.
    With several threads inside it, no interleaving has undefined behaviour or puts
    a block into two hands, and the counters are exact when all have left.
    What the control thread publishes is determined by the events of an execution: a
    missed release or deadline is latched until a restart, effort is the control law
    when the command in force was received at most 250 ms before the cycle and zero
    otherwise, position and velocity follow the efforts, and a stop ends the thread
    within five steps.  The
    probe's percentiles are exact up to a bound, beyond which the rank wraps.  A log
    of the application's lines passes the metrics check exactly when the allocator's
    ledger is quiet; the stack provider and the admission agree; a failed start
    releases exactly what it acquired.

    ** Bounds

    The JSON reader takes the length of the text as fuel, one more than the depth
    it can reach, and the round trip shows it suffices; the scan for all
    matches of a regular expression takes the length of the subject.  The capture
    drains its buffer with one more than its length.  [while_loop] and [prog] take
    the number of iterations; their theorems give the fuel from a measure: [left],
    the number of clock readings before a deadline, which every reading decreases: for
    the peers' own waits by [ticks], for the timeout they are given by [passes], which
    excludes an infinite one ([endless_wait]); or for a worker the silence and the
    commands of a [patient] parent.
    So they show that the programs end and not only what they do if they end.

    ** What is not modelled

    Of the target's C code the other sample applications and the qualification
    tests, which mostly drive ROS and the network, and in [main.c] how the Wi-Fi
    connection is made; shell scripts and patches, and of the CMake files all but
    the order and the command lines of the tools; the texts of help and usage
    messages; and the libraries and programs that are called (rcl and rclc, rclpy,
    the Zephyr kernel and its heaps, [multiprocessing], pyserial, git, PyYAML,
    Kconfig, the linker and the binary utilities), whose answers are parameters.

    In [System] a process makes a whole pass of its loop at a time.
    [AllocatorThreads] takes what a lock of the source surrounds, a call to the C
    library's heap, and the report of a failure, which only reads, as one step each;
    memory is sequentially consistent.  [Control] cuts the thread at its locks, so that
    the other thread, the timer and the clock act in between; of [static_control_stop]
    it has the request: that the call re-arms the timer stands in the wait of the
    thread, which the timer can end at any time, and the join in [running] being
    cleared; times are integers that do not wrap, and [float] is IEEE binary32 without
    contraction of products and sums.  A backend is taken as the name of a file in the
    directory of the capabilities.  The printed program is read as C with names in
    which nothing is escaped in a string; the tool prints others as they stand
    ([topic_not_escaped]).  The limit CPython puts
    on the digits of an integer it converts is taken as lifted. *)

From Stdlib Require Import Ascii String.
From stdpp Require Export sorting base gmap strings fin_maps numbers list.

(** ** Python exceptions and the result monad *)

(** The exceptions the host tools raise, or let escape from the Python
    operations they use.  [DeploymentError] and [ResourceError] are the tools'
    own classes; the others are Python's. *)
Inductive exn :=
  | DeploymentError (code msg : string)
  | ResourceError (code msg : string)
  | MetricsError (msg : string)
  | ValueError (msg : string)
  | OSError (msg : string)
  | UnicodeDecodeError
  | JSONDecodeError (msg : string)
  | TypeError
  | KeyError (key : string)
  | IndexError
  | AttributeError
  | AssertionError
  | OverflowError
  | StructError
  | CalledProcessError
  | EOFError.

#[export] Instance exn_eq_dec : EqDecision exn.
Proof. solve_decision. Defined.

(** A Python computation either returns or raises. *)
Inductive res (A : Type) :=
  | Ok (a : A)
  | Raise (e : exn).
Arguments Ok {A} a.
Arguments Raise {A} e.

#[export] Instance res_ret : MRet res := fun A a => Ok a.
#[export] Instance res_bind : MBind res := fun A B f m =>
  match m with Ok a => f a | Raise e => Raise e end.
#[export] Instance res_fmap : FMap res := fun A B f m =>
  match m with Ok a => Ok (f a) | Raise e => Raise e end.

#[export] Instance res_eq_dec {A} `{EqDecision A} : EqDecision (res A).
Proof. solve_decision. Defined.

Definition is_ok {A} (m : res A) : bool :=
  match m with Ok _ => true | Raise _ => false end.

(** [for x in l: s = f s x], stopping at the first exception. *)
Fixpoint foldM {A S} (f : S -> A -> res S) (l : list A) (s : S) : res S :=
  match l with
  | [] => Ok s
  | x :: l => s' ← f s x; foldM f l s'
  end.

(** A loop that only checks: [for x in l: f x]. *)
Fixpoint eachM {A} (f : A -> res unit) (l : list A) : res unit :=
  match l with
  | [] => Ok tt
  | x :: l => f x ;; eachM f l
  end.

(** A list comprehension whose element expression may raise. *)
Fixpoint mapM_res {A B} (f : A -> res B) (l : list A) : res (list B) :=
  match l with
  | [] => Ok []
  | x :: l => y ← f x; ys ← mapM_res f l; Ok (y :: ys)
  end.

(** A guard: [if b: raise e]. *)
Definition raise_if (b : bool) (e : exn) : res unit :=
  if b then Raise e else Ok tt.

(** ** Automation *)

Create HintDb pydb.

Lemma bind_Ok {A B} (m : res A) (f : A -> res B) (b : B) :
  mbind f m = Ok b <-> exists a, m = Ok a /\ f a = Ok b.
Proof.
  split.
  - destruct m as [a|e]; [|discriminate]. intros H. by exists a.
  - by intros (a & -> & H).
Qed.

Lemma bind_Raise {A B} (m : res A) (f : A -> res B) (e : exn) :
  mbind f m = Raise e <-> m = Raise e \/ exists a, m = Ok a /\ f a = Raise e.
Proof.
  split.
  - destruct m as [a|e']; cbn; [right; by exists a|intros [= ->]; by left].
  - by intros [->|(a & -> & H)].
Qed.

Lemma raise_if_Ok b e u : raise_if b e = Ok u <-> b = false.
Proof. destruct b, u; cbn; split; congruence. Qed.

Lemma raise_if_Raise b e e' : raise_if b e = Raise e' <-> b = true /\ e' = e.
Proof.
  destruct b; cbn; split; [intros [= ->]; done|intros [_ ->]; done|done|].
  by intros [? _].
Qed.

Lemma eachM_Ok {A} (f : A -> res unit) l u :
  eachM f l = Ok u <-> Forall (fun x => f x = Ok tt) l.
Proof.
  destruct u. induction l as [|x l IH]; cbn; [split; auto|].
  rewrite bind_Ok, Forall_cons, <- IH.
  split; [intros ([] & ? & ?); done|intros [? ?]; by exists tt].
Qed.

Lemma eachM_Raise {A} (f : A -> res unit) l e :
  eachM f l = Raise e <->
  exists l1 x l2, l = l1 ++ x :: l2 /\ Forall (fun y => f y = Ok tt) l1 /\ f x = Raise e.
Proof.
  induction l as [|x l IH]; cbn.
  { split; [done|]. intros ([] & ? & ? & ? & _); done. }
  rewrite bind_Raise. setoid_rewrite IH. split.
  - intros [H|([] & Hx & l1 & y & l2 & -> & Hl1 & Hy)].
    + by exists [], x, l.
    + exists (x :: l1), y, l2. auto.
  - intros ([|z l1] & y & l2 & Heq & Hl1 & Hy); simplify_eq/=.
    + by left.
    + right. exists tt. inversion Hl1; subst. split; [done|]. by exists l1, y, l2.
Qed.

Lemma mapM_res_Ok {A B} (f : A -> res B) l ys :
  mapM_res f l = Ok ys <-> Forall2 (fun x y => f x = Ok y) l ys.
Proof.
  revert ys. induction l as [|x l IH]; intros ys; cbn.
  { split; [intros [= <-]; constructor|inversion 1; done]. }
  rewrite bind_Ok. setoid_rewrite bind_Ok. split.
  - intros (y & Hy & zs & Hzs & [= <-]). constructor; [done|]. by apply IH.
  - inversion 1; subst. eexists; split; [done|]. eexists. by rewrite IH.
Qed.

Lemma mapM_res_total {A B} (f : A -> res B) l :
  Forall (fun x => exists y, f x = Ok y) l -> exists ys, mapM_res f l = Ok ys.
Proof.
  induction 1 as [|x l [y Hy] _ [ys Hys]]; [by exists []|]. exists (y :: ys). cbn. by rewrite Hy, Hys.
Qed.

(** [inv_res] turns every equation [m = Ok _] or [m = Raise _] on a monadic
    computation into equations on its steps. *)
Ltac inv_res_step :=
  match goal with
  | H : Ok _ = Ok _ |- _ => injection H as H
  | H : Raise _ = Raise _ |- _ => injection H as H
  | H : Ok _ = Raise _ |- _ => discriminate H
  | H : Raise _ = Ok _ |- _ => discriminate H
  | H : mret _ = _ |- _ => unfold mret, res_ret in H
  | H : mbind _ _ = Ok _ |- _ =>
      let a := fresh "a" in let E := fresh "E" in
      apply bind_Ok in H as (a & E & H)
  | H : raise_if _ _ = Ok _ |- _ => apply raise_if_Ok in H
  | H : raise_if _ _ = Raise _ |- _ =>
      let E := fresh "E" in apply raise_if_Raise in H as [E ->]
  end.
Ltac inv_res := repeat (inv_res_step; simplify_eq).

(** ** Lists *)

(** A relation between lists holds up to the order of the first one. *)
Lemma Forall2_perm {A B} (R : A -> B -> Prop) l l' k :
  l ≡ₚ l' -> Forall2 R l k -> exists k', k ≡ₚ k' /\ Forall2 R l' k'.
Proof.
  intros Hp. revert k. induction Hp as [|x l l' Hp IH|x y l|l1 l2 l3 H1 IH1 H2 IH2]; intros k H.
  - by exists k.
  - inversion H as [|? b ? k0 Hx Hk]; subst. destruct (IH k0 Hk) as (k' & Hk' & Hr).
    exists (b :: k'). split; [by constructor|by constructor].
  - inversion H as [|? a ? k0 Hx Hk]; subst. inversion Hk as [|? b ? k1 Hy Hk1]; subst.
    exists (b :: a :: k1). split; [constructor|]. by repeat constructor.
  - destruct (IH1 k H) as (k' & Hk' & Hr). destruct (IH2 k' Hr) as (k'' & Hk'' & Hr').
    exists k''. split; [by transitivity k'|done].
Qed.

(** ** Finite case analysis by computation *)

Lemma Z_range_forallb (P : Z -> bool) (n : nat) :
  forallb P (Z.of_nat <$> seq 0 n) = true ->
  forall d, (0 <= d < Z.of_nat n)%Z -> P d = true.
Proof.
  intros H d Hd. rewrite forallb_forall in H. apply H.
  apply list_elem_of_In, list_elem_of_fmap. exists (Z.to_nat d).
  rewrite elem_of_seq. lia.
Qed.

Definition all_ascii : list ascii := ascii_of_nat <$> seq 0 256.

Lemma ascii_forallb (P : ascii -> bool) :
  forallb P all_ascii = true -> forall c, P c = true.
Proof.
  intros H c. rewrite forallb_forall in H. apply H.
  apply list_elem_of_In, list_elem_of_fmap. exists (nat_of_ascii c).
  rewrite ascii_nat_embedding, elem_of_seq. pose proof (nat_ascii_bounded c). split; [done|lia].
Qed.

(** An implication between two character classes, decided by computation. *)
Lemma ascii_class_impl (p q : ascii -> bool) :
  forallb (fun c => implb (p c) (q c)) all_ascii = true ->
  forall c, p c = true -> q c = true.
Proof.
  intros H c Hp. pose proof (ascii_forallb _ H c) as Hc. cbn in Hc. by rewrite Hp in Hc.
Qed.

Ltac ascii_class := apply ascii_class_impl; vm_compute; reflexivity.
