(* ===== verification/PyStr.v ===== *)
(** * Python strings

    Python's [str] operations used by the host tools.  A string is a sequence
    of code points U+0000..U+00FF, one [ascii] each; the character classes
    ([str.isspace], [\w], [str.splitlines], [str.isprintable]) are Python's on
    that range.  The file also models [int(text, base)] and [str(int)] and
    proves that they are inverse. *)

From Stdlib Require Import Ascii String.
From S2P Require Import Prelude.

(** ** Characters *)

Definition code (c : ascii) : N := N_of_ascii c.

Definition in_range (lo hi : N) (c : ascii) : bool :=
  (lo <=? code c)%N && (code c <=? hi)%N.

Definition is_lower (c : ascii) : bool := in_range 97 122 c.
Definition is_upper (c : ascii) : bool := in_range 65 90 c.
Definition is_alpha (c : ascii) : bool := is_lower c || is_upper c.
Definition is_digit (c : ascii) : bool := in_range 48 57 c.
Definition is_char (x c : ascii) : bool := Ascii.eqb x c.

Definition nl : ascii := "010"%char.
Definition cr : ascii := "013"%char.
Definition dquote : ascii := "034"%char.
Definition squote : ascii := "039"%char.

(** [str.isspace], the class [\s] of a regular expression. *)
Definition is_space (c : ascii) : bool :=
  in_range 9 13 c || in_range 28 32 c || in_range 133 133 c || in_range 160 160 c.

(** The class [\w]. *)
Definition is_word (c : ascii) : bool :=
  is_alpha c || is_digit c || in_range 95 95 c || in_range 170 170 c ||
  in_range 178 179 c || in_range 181 181 c || in_range 185 186 c ||
  in_range 188 190 c || in_range 192 214 c || in_range 216 246 c ||
  in_range 248 255 c.

(** The line boundaries of [str.splitlines]. *)
Definition is_linebreak (c : ascii) : bool :=
  in_range 10 13 c || in_range 28 30 c || in_range 133 133 c.

(** [str.isprintable]. *)
Definition is_printable (c : ascii) : bool :=
  in_range 32 126 c || (in_range 161 255 c && negb (in_range 173 173 c)).

(** ** Predicates, cuts and slices *)

(** The string is made of characters of a class. *)
Fixpoint str_all (p : ascii -> bool) (s : string) : bool :=
  match s with
  | EmptyString => true
  | String c s => p c && str_all p s
  end.

(** [s.startswith(p)] *)
Definition str_startswith (p s : string) : bool := String.prefix p s.

(** [s.endswith(p)] *)
Fixpoint str_endswith (p s : string) : bool :=
  bool_decide (p = s) ||
  match s with
  | EmptyString => false
  | String _ s => str_endswith p s
  end.

(** [p in s] *)
Fixpoint str_contains (p s : string) : bool :=
  String.prefix p s ||
  match s with
  | EmptyString => false
  | String _ s => str_contains p s
  end.

Fixpoint str_drop (n : nat) (s : string) : string :=
  match n, s with
  | S n, String _ s => str_drop n s
  | _, _ => s
  end.

Fixpoint str_take (n : nat) (s : string) : string :=
  match n, s with
  | S n, String c s => String c (str_take n s)
  | _, _ => EmptyString
  end.

(** [s.split(sep, 1)]: the text before and after the first occurrence. *)
Fixpoint str_cut (sep s : string) : option (string * string) :=
  if String.prefix sep s then Some (EmptyString, str_drop (String.length sep) s)
  else match s with
       | EmptyString => None
       | String c s => '(a, b) ← str_cut sep s; Some (String c a, b)
       end.

(** [s.splitlines()] *)
Fixpoint str_splitlines (s : string) : list string :=
  match s with
  | EmptyString => []
  | String c t =>
      if is_linebreak c then
        EmptyString ::
          match t with
          | String d u =>
              if is_char cr c && is_char nl d then str_splitlines u else str_splitlines t
          | EmptyString => []
          end
      else match str_splitlines t with
           | [] => [String c EmptyString]
           | l :: ls => String c l :: ls
           end
  end.

Fixpoint str_lstrip (p : ascii -> bool) (s : string) : string :=
  match s with
  | String c t => if p c then str_lstrip p t else s
  | EmptyString => EmptyString
  end.

Fixpoint str_rstrip (p : ascii -> bool) (s : string) : string :=
  match s with
  | EmptyString => EmptyString
  | String c t =>
      match str_rstrip p t with
      | EmptyString => if p c then EmptyString else String c EmptyString
      | u => String c u
      end
  end.

(** [s.strip(chars)] *)
Definition str_strip (p : ascii -> bool) (s : string) : string :=
  str_rstrip p (str_lstrip p s).

(** [sep.join(l)] *)
Definition str_join (sep : string) (l : list string) : string := String.concat sep l.

(** [s.split()]: the maximal runs of non-space characters. *)
Fixpoint str_words_go (cur : string) (s : string) : list string :=
  match s with
  | EmptyString => if decide (cur = EmptyString) then [] else [cur]
  | String c t =>
      if is_space c
      then (if decide (cur = EmptyString) then [] else [cur]) ++ str_words_go EmptyString t
      else str_words_go (cur +:+ String c EmptyString) t
  end.
Definition str_words (s : string) : list string := str_words_go EmptyString s.

(** ** Case conversion *)

Definition char_lower (c : ascii) : ascii :=
  if is_upper c || (in_range 192 222 c && negb (in_range 215 215 c))
  then ascii_of_N (code c + 32) else c.

(** [str.upper] on ASCII text, the only text the tools apply it to. *)
Definition char_upper (c : ascii) : ascii :=
  if is_lower c then ascii_of_N (code c - 32) else c.

Fixpoint str_map (f : ascii -> ascii) (s : string) : string :=
  match s with
  | EmptyString => EmptyString
  | String c s => String (f c) (str_map f s)
  end.

Definition str_lower : string -> string := str_map char_lower.
Definition str_upper : string -> string := str_map char_upper.

(** ** Integers *)

Definition digit_char (d : Z) : ascii :=
  ascii_of_N (Z.to_N (if (d <? 10)%Z then 48 + d else 87 + d)).

Definition digit_value (c : ascii) : option Z :=
  if is_digit c then Some (Z.of_N (code c) - 48)%Z
  else if is_lower c then Some (Z.of_N (code c) - 87)%Z
  else if is_upper c then Some (Z.of_N (code c) - 55)%Z
  else None.

Fixpoint show_digits (fuel : nat) (b n : Z) (acc : string) : string :=
  match fuel with
  | O => acc
  | S fuel =>
      if (n <? b)%Z then String (digit_char n) acc
      else show_digits fuel b (n / b)%Z (String (digit_char (n mod b)%Z) acc)
  end.

Definition show_nonneg (b n : Z) : string :=
  show_digits (S (Z.to_nat (Z.log2 n))) b n EmptyString.

(** [str(z)] *)
Definition str_of_Z (z : Z) : string :=
  if (z <? 0)%Z then String "-" (show_nonneg 10 (- z)) else show_nonneg 10 z.

(** Thousands separators from the right. *)
Fixpoint group3 (s : string) : string :=
  match s with
  | EmptyString => EmptyString
  | String c t =>
      String c
        (if negb (bool_decide (t = EmptyString)) && (String.length t mod 3 =? 0)
         then String "," (group3 t) else group3 t)
  end.

(** [format(z, ",")] *)
Definition str_of_Z_grouped (z : Z) : string :=
  if (z <? 0)%Z then String "-" (group3 (show_nonneg 10 (- z))) else group3 (show_nonneg 10 z).

(** Digits of base [b] with single underscores between them. *)
Fixpoint digits_val (b acc : Z) (after_us : bool) (s : string) : option Z :=
  match s with
  | EmptyString => if after_us then None else Some acc
  | String c s =>
      if is_char "_" c then (if after_us then None else digits_val b acc true s)
      else match digit_value c with
           | Some d => if (d <? b)%Z then digits_val b (acc * b + d)%Z false s else None
           | None => None
           end
  end.

Definition int_digits (b : Z) (s : string) : option Z := digits_val b 0 true s.

Definition skip_underscore (s : string) : string :=
  match s with String "_" t => t | _ => s end.

(** A base prefix: [0x], [0o] or [0b], in either case. *)
Definition base_prefix (s : string) : option (Z * string) :=
  match s with
  | String "0" (String x r) =>
      if is_char "x" x || is_char "X" x then Some (16%Z, r)
      else if is_char "o" x || is_char "O" x then Some (8%Z, r)
      else if is_char "b" x || is_char "B" x then Some (2%Z, r)
      else None
  | _ => None
  end.

Definition int_unsigned (base : Z) (s : string) : option Z :=
  if (base =? 0)%Z then
    match base_prefix s with
    | Some (b, r) => int_digits b (skip_underscore r)
    | None =>
        v ← int_digits 10 s;
        if str_startswith "0" s && negb (v =? 0)%Z then None else Some v
    end
  else
    match base_prefix s with
    | Some (b, r) =>
        if (b =? base)%Z then int_digits base (skip_underscore r) else int_digits base s
    | None => int_digits base s
    end.

(** The blanks [int] ignores around its text. *)
Definition int_space (c : ascii) : bool :=
  in_range 9 13 c || in_range 32 32 c || in_range 133 133 c || in_range 160 160 c.

(** The sign and the rest; [true] is a minus. *)
Definition split_sign (s : string) : bool * string :=
  match s with
  | String "-" u => (true, u)
  | String "+" u => (false, u)
  | u => (false, u)
  end.

(** [int(s, base)]; [None] is [ValueError]. *)
Definition py_int (base : Z) (s : string) : option Z :=
  let '(neg, u) := split_sign (str_strip int_space s) in
  (if neg then Z.opp else id) <$> int_unsigned base u.

(** ** [repr] of a string *)

Definition hex_escape (c : ascii) : string :=
  let n := Z.of_N (code c) in
  "\x" +:+ String (digit_char (n / 16)%Z) (String (digit_char (n mod 16)%Z) EmptyString).

Definition repr_char (quote c : ascii) : string :=
  if is_char quote c || is_char "\" c then String "\" (String c EmptyString)
  else if is_char "009" c then "\t"
  else if is_char nl c then "\n"
  else if is_char cr c then "\r"
  else if is_printable c then String c EmptyString
  else hex_escape c.

Fixpoint repr_body (quote : ascii) (s : string) : string :=
  match s with
  | EmptyString => EmptyString
  | String c s => repr_char quote c +:+ repr_body quote s
  end.

Definition str_repr (s : string) : string :=
  let sq := String squote EmptyString in
  let dq := String dquote EmptyString in
  let quote := if str_contains sq s && negb (str_contains dq s) then dquote else squote in
  String quote (repr_body quote s +:+ String quote EmptyString).

(** * Properties *)

#[global] Arguments in_range : simpl never.
#[global] Arguments is_lower : simpl never.
#[global] Arguments is_upper : simpl never.
#[global] Arguments is_alpha : simpl never.
#[global] Arguments is_digit : simpl never.
#[global] Arguments is_char : simpl never.
#[global] Arguments is_space : simpl never.
#[global] Arguments is_word : simpl never.
#[global] Arguments is_linebreak : simpl never.
#[global] Arguments is_printable : simpl never.
#[global] Arguments digit_char : simpl never.
#[global] Arguments digit_value : simpl never.
#[global] Arguments show_nonneg : simpl never.
#[local] Arguments String.append !_ _ / : simpl nomatch.

(** ** Append, prefix, suffix, substring *)

Lemma str_app_nil_r s : s +:+ EmptyString = s.
Proof. induction s as [|c s IH]; [done|]. cbn. by f_equal. Qed.

Lemma str_app_assoc a b c : (a +:+ b) +:+ c = a +:+ b +:+ c.
Proof. induction a as [|x a IH]; [done|]. cbn. by f_equal. Qed.

Lemma str_app_cons x a b : String x a +:+ b = String x (a +:+ b).
Proof. done. Qed.

Lemma str_length_app a b : String.length (a +:+ b) = String.length a + String.length b.
Proof. induction a as [|x a IH]; [done|]. cbn. by f_equal. Qed.

Lemma str_app_inv_l a b c : a +:+ b = a +:+ c -> b = c.
Proof. apply (inj (String.append a)). Qed.

Lemma str_app_inv_length a b c d :
  String.length a = String.length c -> a +:+ b = c +:+ d -> a = c /\ b = d.
Proof.
  revert c. induction a as [|x a IH]; intros [|y c] Hlen Heq; try done.
  injection Hlen as Hlen. injection Heq as -> Heq.
  destruct (IH c Hlen Heq) as [-> ->]. done.
Qed.

Lemma str_app_inv_r a b c : a +:+ c = b +:+ c -> a = b.
Proof.
  intros H. assert (String.length a = String.length b) as Hlen.
  { apply (f_equal String.length) in H. rewrite !str_length_app in H. lia. }
  by destruct (str_app_inv_length _ _ _ _ Hlen H).
Qed.

Lemma str_app_eq_nil a b : a +:+ b = EmptyString -> a = EmptyString /\ b = EmptyString.
Proof. by destruct a. Qed.

Lemma str_prefix_spec p s : String.prefix p s = true <-> exists t, s = p +:+ t.
Proof.
  revert s. induction p as [|x p IH]; intros s.
  { destruct s; (split; [intros _; eexists; reflexivity|done]). }
  destruct s as [|y s]; cbn; [split; [done|intros [t Ht]; done]|].
  destruct (ascii_dec x y) as [->|Hne].
  - rewrite IH. split; intros [t Ht]; exists t; [by rewrite Ht|by simplify_eq].
  - split; [done|]. intros [t Ht]. simplify_eq.
Qed.

Lemma str_startswith_spec p s : str_startswith p s = true <-> exists t, s = p +:+ t.
Proof. apply str_prefix_spec. Qed.

Lemma str_endswith_spec p s : str_endswith p s = true <-> exists t, s = t +:+ p.
Proof.
  induction s as [|x s IH].
  - cbn. rewrite orb_false_r, bool_decide_eq_true. split; [intros ->; by exists EmptyString|].
    intros [t Ht]. symmetry in Ht. by apply str_app_eq_nil in Ht as [_ ->].
  - cbn -[bool_decide]. rewrite orb_true_iff, bool_decide_eq_true, IH. split.
    + intros [->|[t ->]]; [by exists EmptyString|by exists (String x t)].
    + intros [[|y t] Ht]; [by left|]. right. exists t. by simplify_eq/=.
Qed.

#[local] Arguments String.prefix : simpl never.

Lemma str_contains_spec p s :
  str_contains p s = true <-> exists a b, s = a +:+ p +:+ b.
Proof.
  induction s as [|x s IH].
  - cbn. rewrite orb_false_r, str_prefix_spec. split.
    + intros [t Ht]. by exists EmptyString, t.
    + intros (a & b & H). symmetry in H. apply str_app_eq_nil in H as [_ H]. by exists b.
  - cbn. rewrite orb_true_iff, str_prefix_spec, IH. split.
    + intros [[t Ht]|(a & b & ->)]; [by exists EmptyString, t|by exists (String x a), b].
    + intros ([|y a] & b & H); [left; by exists b|right].
      exists a, b. by simplify_eq/=.
Qed.

Lemma str_drop_app a b : str_drop (String.length a) (a +:+ b) = b.
Proof. induction a as [|x a IH]; [by destruct b|done]. Qed.

Lemma str_take_app a b : str_take (String.length a) (a +:+ b) = a.
Proof. induction a as [|x a IH]; [by destruct b|]. cbn. by f_equal. Qed.

Lemma str_take_drop n s : str_take n s +:+ str_drop n s = s.
Proof.
  revert s. induction n as [|n IH]; intros [|c s]; [done..|]. cbn. by rewrite IH.
Qed.

Lemma str_prefix_drop p s :
  String.prefix p s = true -> s = p +:+ str_drop (String.length p) s.
Proof. intros [t ->]%str_prefix_spec. by rewrite str_drop_app. Qed.

(** [str_cut] splits at the first occurrence of the separator. *)
Lemma str_cut_Some sep s a b :
  str_cut sep s = Some (a, b) -> s = a +:+ sep +:+ b.
Proof.
  revert a b. induction s as [|x s IH]; intros a b; cbn;
    case_match eqn:Hp; intros H; simplify_eq.
  - by apply str_prefix_drop in Hp.
  - by apply str_prefix_drop in Hp.
  - apply bind_Some in H as ([a' b'] & H & ?). simplify_eq. cbn. f_equal. by apply IH.
Qed.

Lemma str_cut_None sep s : str_cut sep s = None <-> str_contains sep s = false.
Proof.
  induction s as [|x s IH]; cbn; destruct (String.prefix sep _); cbn; [done..|].
  rewrite <- IH. destruct (str_cut sep s) as [[a b]|]; cbn; split; done.
Qed.

(** No earlier split exists. *)
Lemma str_cut_first sep s a b c d :
  str_cut sep s = Some (a, b) -> s = c +:+ sep +:+ d -> String.length a <= String.length c.
Proof.
  revert a b c. induction s as [|x s IH]; intros a b c; cbn;
    case_match eqn:Hp; intros H Hs; simplify_eq; cbn; [lia..|].
  apply bind_Some in H as ([a' b'] & H & ?). simplify_eq. destruct c as [|y c].
  - apply not_true_iff_false in Hp. destruct Hp. apply str_prefix_spec. by exists d.
  - simplify_eq/=. apply le_n_S. eauto.
Qed.

(** ** Character classes over strings *)

Lemma str_all_app p a b : str_all p (a +:+ b) = str_all p a && str_all p b.
Proof. induction a as [|x a IH]; [done|]. cbn. by rewrite IH, andb_assoc. Qed.

Lemma str_all_impl (p q : ascii -> bool) s :
  (forall c, p c = true -> q c = true) -> str_all p s = true -> str_all q s = true.
Proof.
  intros Hpq. induction s as [|x s IH]; [done|]. cbn. rewrite !andb_true_iff.
  intros [H1 H2]. auto.
Qed.

Lemma str_all_not_app p s c t :
  str_all p s = true -> p c = false -> s <> t +:+ String c EmptyString.
Proof.
  intros H Hc ->. rewrite str_all_app in H. cbn in H. rewrite Hc in H.
  by rewrite !andb_false_r in H.
Qed.

(** Two texts delimited by a character outside a class are split alike. *)
Lemma str_all_cut_unique p a b c d x :
  p x = false -> str_all p a = true -> str_all p c = true ->
  a +:+ String x b = c +:+ String x d -> a = c /\ b = d.
Proof.
  intros Hx. revert c. induction a as [|y a IH]; intros [|z c] Ha Hc Heq; cbn in *.
  - by injection Heq as ->.
  - injection Heq as -> _. by rewrite Hx in Hc.
  - injection Heq as -> _. by rewrite Hx in Ha.
  - apply andb_true_iff in Ha as [_ Ha], Hc as [_ Hc]. injection Heq as -> Heq.
    destruct (IH c Ha Hc Heq) as [-> ->]. done.
Qed.

Lemma str_lstrip_id p s c t : s = String c t -> p c = false -> str_lstrip p s = s.
Proof. intros -> Hc. cbn. by rewrite Hc. Qed.

Lemma str_rstrip_all p q s :
  (forall c, q c = true -> p c = false) -> str_all q s = true -> str_rstrip p s = s.
Proof.
  intros Hpq. induction s as [|c s IH]; [done|]. cbn. rewrite andb_true_iff. intros [Hc Hs].
  rewrite IH by done. rewrite (Hpq c Hc). by destruct s.
Qed.

Lemma str_strip_all p q s :
  (forall c, q c = true -> p c = false) -> str_all q s = true -> str_strip p s = s.
Proof.
  intros Hpq Hs. unfold str_strip.
  assert (str_lstrip p s = s) as ->; [|by eapply str_rstrip_all].
  destruct s as [|c s]; [done|]. cbn in *. rewrite andb_true_iff in Hs.
  by rewrite (Hpq c (proj1 Hs)).
Qed.

(** ** [int] and [str] are inverse *)

Definition is_hexdigit (c : ascii) : bool := is_digit c || in_range 97 102 c || in_range 65 70 c.

Lemma digit_value_char d :
  (0 <= d < 36)%Z -> digit_value (digit_char d) = Some d.
Proof.
  intros Hd. pose proof (Z_range_forallb
    (fun d => bool_decide (digit_value (digit_char d) = Some d)) 36 eq_refl d Hd) as H.
  by apply bool_decide_eq_true in H.
Qed.

Lemma digit_char_us d : (0 <= d < 36)%Z -> is_char "_" (digit_char d) = false.
Proof.
  intros Hd. apply negb_true_iff.
  by apply (Z_range_forallb (fun d => negb (is_char "_" (digit_char d))) 36 eq_refl d).
Qed.

Lemma digit_char_digit d : (0 <= d < 10)%Z -> is_digit (digit_char d) = true.
Proof. intros Hd. by apply (Z_range_forallb (fun d => is_digit (digit_char d)) 10 eq_refl d). Qed.

(** The digits written before [acc] are read back as [n]. *)
Lemma digits_val_show fuel b n acc :
  (2 <= b <= 36)%Z -> (0 <= n < b ^ Z.of_nat fuel)%Z -> fuel <> 0 ->
  exists k, forall a us,
    digits_val b a us (show_digits fuel b n acc) = digits_val b (a * k + n)%Z false acc.
Proof.
  intros Hb. revert n acc. induction fuel as [|fuel IH]; intros n acc Hn Hf; [done|]. cbn.
  destruct (n <? b)%Z eqn:Hlt; [apply Z.ltb_lt in Hlt|apply Z.ltb_ge in Hlt].
  - exists b. intros a us. cbn. rewrite digit_char_us, digit_value_char by lia.
    by rewrite (proj2 (Z.ltb_lt n b) Hlt).
  - assert (0 <= n mod b < b)%Z as Hm by (apply Z.mod_pos_bound; lia).
    rewrite Nat2Z.inj_succ, Z.pow_succ_r in Hn by lia.
    destruct (IH (n / b)%Z (String (digit_char (n mod b)) acc)) as [k Hk].
    + split; [apply Z.div_pos; lia|]. apply Z.div_lt_upper_bound; lia.
    + intros ->. change (Z.of_nat 0) with 0%Z in Hn. lia.
    + exists (k * b)%Z. intros a us. rewrite Hk. cbn.
      rewrite digit_char_us, digit_value_char by lia. rewrite (proj2 (Z.ltb_lt _ b)) by lia.
      f_equal. pose proof (Z.div_mod n b). lia.
Qed.

Lemma log2_pow_bound b n : (2 <= b)%Z -> (0 <= n)%Z ->
  (n < b ^ Z.of_nat (S (Z.to_nat (Z.log2 n))))%Z.
Proof.
  intros Hb Hn. rewrite Nat2Z.inj_succ, Z2Nat.id by apply Z.log2_nonneg.
  destruct (Z.eq_dec n 0%Z) as [->|Hne].
  { cbn. lia. }
  apply Z.lt_le_trans with (2 ^ Z.succ (Z.log2 n))%Z; [apply Z.log2_spec; lia|].
  apply Z.pow_le_mono_l. lia.
Qed.

Lemma int_digits_show b n :
  (2 <= b <= 36)%Z -> (0 <= n)%Z -> int_digits b (show_nonneg b n) = Some n.
Proof.
  intros Hb Hn. unfold int_digits, show_nonneg.
  destruct (digits_val_show (S (Z.to_nat (Z.log2 n))) b n EmptyString Hb) as [k Hk].
  - split; [done|]. apply log2_pow_bound; lia.
  - done.
  - rewrite Hk. done.
Qed.

Lemma show_digits_all (p : ascii -> bool) fuel b n acc :
  (2 <= b <= 36)%Z -> (0 <= n)%Z ->
  (forall d, (0 <= d < b)%Z -> p (digit_char d) = true) ->
  str_all p acc = true -> str_all p (show_digits fuel b n acc) = true.
Proof.
  intros Hb. revert n acc. induction fuel as [|fuel IH]; intros n acc Hn Hp Hacc; [done|]. cbn.
  destruct (n <? b)%Z eqn:Hlt; [apply Z.ltb_lt in Hlt|apply Z.ltb_ge in Hlt].
  - cbn. by rewrite Hp by lia.
  - apply IH; [apply Z.div_pos; lia|done|]. cbn.
    rewrite Hp by (apply Z.mod_pos_bound; lia). done.
Qed.

Lemma show_nonneg_digits n : (0 <= n)%Z -> str_all is_digit (show_nonneg 10 n) = true.
Proof. intros Hn. apply show_digits_all; [lia..|apply digit_char_digit|done]. Qed.

(** The first digit is not zero, except for zero itself. *)
Lemma show_digits_head fuel b n acc :
  (2 <= b <= 36)%Z -> (0 < n < b ^ Z.of_nat fuel)%Z -> fuel <> 0 ->
  exists d t, (0 < d < b)%Z /\ show_digits fuel b n acc = String (digit_char d) t.
Proof.
  intros Hb. revert n acc. induction fuel as [|fuel IH]; intros n acc Hn Hf; [done|]. cbn.
  destruct (n <? b)%Z eqn:Hlt; [apply Z.ltb_lt in Hlt|apply Z.ltb_ge in Hlt].
  - exists n, acc. split; [lia|done].
  - rewrite Nat2Z.inj_succ, Z.pow_succ_r in Hn by lia. apply IH.
    + split; [|apply Z.div_lt_upper_bound; lia].
      apply Z.div_str_pos. lia.
    + intros ->. change (Z.of_nat 0) with 0%Z in Hn. lia.
Qed.

Lemma split_sign_digit d u :
  (0 <= d < 36)%Z -> split_sign (String (digit_char d) u) = (false, String (digit_char d) u).
Proof.
  intros Hd. set (c := digit_char d).
  assert (negb (is_char "-" c || is_char "+" c) = true) as Hc.
  { by apply (Z_range_forallb
      (fun d => negb (is_char "-" (digit_char d) || is_char "+" (digit_char d))) 36 eq_refl d). }
  clearbody c. revert Hc. clear. by destruct c as [[] [] [] [] [] [] [] []].
Qed.

Lemma show_nonneg_shape n :
  (0 <= n)%Z -> exists d t, (0 <= d < 10)%Z /\ show_nonneg 10 n = String (digit_char d) t /\
    (d = 0%Z -> n = 0%Z).
Proof.
  intros Hn. destruct (Z.eq_dec n 0%Z) as [->|Hne].
  { exists 0%Z, EmptyString. split; [lia|]. split; [reflexivity|done]. }
  destruct (show_digits_head (S (Z.to_nat (Z.log2 n))) 10 n EmptyString) as (d & t & Hd & Ht);
    [lia|split; [lia|apply log2_pow_bound; lia]|done|].
  exists d, t. split; [lia|]. split; [exact Ht|lia].
Qed.

Lemma is_char_true x c : is_char x c = true <-> x = c.
Proof. unfold is_char. apply Ascii.eqb_eq. Qed.

(** Digits carry no base prefix. *)
Lemma base_prefix_digits s : str_all is_digit s = true -> base_prefix s = None.
Proof.
  destruct s as [|c [|x r]]; cbn; [done|by destruct c as [[] [] [] [] [] [] [] []]|].
  rewrite !andb_true_iff. intros (_ & Hx & _).
  assert (is_char "x" x || is_char "X" x || is_char "o" x || is_char "O" x ||
          is_char "b" x || is_char "B" x = false) as Hn.
  { apply negb_true_iff. revert x Hx. ascii_class. }
  rewrite !orb_false_iff in Hn. destruct Hn as [[[[[H1 H2] H3] H4] H5] H6].
  rewrite H1, H2, H3, H4, H5, H6. cbn. by destruct c as [[] [] [] [] [] [] [] []].
Qed.

Lemma str_startswith_0 d t : (0 <= d < 10)%Z -> d <> 0%Z ->
  str_startswith "0" (String (digit_char d) t) = false.
Proof.
  intros Hd Hne. apply not_true_iff_false. rewrite str_startswith_spec. intros [u Hu].
  injection Hu as Hc _. assert (digit_value (digit_char d) = Some 0%Z) as H by (by rewrite Hc).
  rewrite digit_value_char in H by lia. congruence.
Qed.

(** Reading a printed non-negative integer, in base 10 or in base 0 (where the
    text decides). *)
Lemma int_unsigned_show base n :
  base = 0%Z \/ base = 10%Z -> (0 <= n)%Z -> int_unsigned base (show_nonneg 10 n) = Some n.
Proof.
  intros Hbase Hn. unfold int_unsigned. rewrite base_prefix_digits by by apply show_nonneg_digits.
  destruct Hbase as [-> | ->]; cbn; [|apply int_digits_show; lia].
  rewrite int_digits_show by lia. cbn.
  destruct (show_nonneg_shape n Hn) as (d & t & Hd & -> & Hz).
  destruct (Z.eq_dec d 0%Z) as [->|Hne]; [rewrite Hz by done; by rewrite andb_false_r|].
  by rewrite str_startswith_0.
Qed.

Lemma py_int_str_of_Z base z :
  base = 0%Z \/ base = 10%Z -> py_int base (str_of_Z z) = Some z.
Proof.
  intros Hbase. unfold py_int, str_of_Z.
  assert (forall c, is_digit c || is_char "-" c = true -> int_space c = false) as Hsp.
  { intros c Hc. apply negb_true_iff. revert c Hc. ascii_class. }
  destruct (z <? 0)%Z eqn:Hz; [apply Z.ltb_lt in Hz|apply Z.ltb_ge in Hz].
  - rewrite (str_strip_all _ _ _ Hsp).
    + cbn [split_sign]. rewrite int_unsigned_show by (done || lia). cbn. f_equal. lia.
    + change (true && str_all (fun c => is_digit c || is_char "-" c) (show_nonneg 10 (- z)) = true).
      cbn. eapply str_all_impl, show_nonneg_digits; [|lia]. by intros c ->.
  - rewrite (str_strip_all _ _ _ Hsp).
    + destruct (show_nonneg_shape z Hz) as (d & t & Hd & Heq & _).
      rewrite Heq, split_sign_digit, <- Heq by lia. by rewrite int_unsigned_show.
    + eapply str_all_impl, show_nonneg_digits; [|lia]. by intros c ->.
Qed.

Lemma str_of_Z_inj z1 z2 : str_of_Z z1 = str_of_Z z2 -> z1 = z2.
Proof.
  intros H. apply (f_equal (py_int 10)) in H.
  rewrite !py_int_str_of_Z in H by auto. congruence.
Qed.
