(* ===== verification/Regex.v ===== *)
(** * Regular expressions

    The part of Python's [re] module the host tools use: character classes,
    concatenation, alternation, greedy and lazy repetition, groups, the anchors
    [^] and [$] with and without [re.M], a look-ahead and the look-behind
    [(?<!^)].  A pattern is a syntax tree, so that a pattern of the source and
    its translation can be compared token by token.  [re_matches] lists the
    matches at a position in the order in which Python's backtracking engine
    tries them, so the first element is the match Python reports; [rmatch] is
    the declarative meaning, and the two are proved to agree. *)

From Stdlib Require Import Ascii String.
From S2P Require Import Prelude PyStr.

(** ** Syntax *)

Inductive re :=
  | REps
  | RChr (p : ascii -> bool)
  | RCat (r1 r2 : re)
  | RAlt (r1 r2 : re)
  | RStar (greedy : bool) (r : re)
  | RGroup (n : nat) (r : re)
  | RBol (multiline : bool)
  | REol (multiline : bool)
  | RAhead (r : re)
  | RNotBol.

Declare Scope re_scope.
Delimit Scope re_scope with re.
Bind Scope re_scope with re.
Infix "⋅" := RCat (at level 38, right associativity) : re_scope.
Infix "∥" := RAlt (at level 42, right associativity) : re_scope.
Notation "r ⊛" := (RStar true r) (at level 1, format "r ⊛") : re_scope.
Notation "r ⊕" := (RCat r (RStar true r)) (at level 1, format "r ⊕") : re_scope.
Notation "r ⊘" := (RAlt r REps) (at level 1, format "r ⊘") : re_scope.
Open Scope re_scope.

(** A literal text. *)
Fixpoint rlit (s : string) : re :=
  match s with
  | EmptyString => REps
  | String c s => RChr (is_char c) ⋅ rlit s
  end.

(** [.] without [re.S], and [\s], [\S], [\w], [\d] and [[0-9a-fA-F]]. *)
Definition rdot : re := RChr (fun c => negb (is_char nl c)).
Definition rs : re := RChr is_space.
Definition rS : re := RChr (fun c => negb (is_space c)).
Definition rw : re := RChr is_word.
Definition rd : re := RChr is_digit.
Definition rhex : re := RChr is_hexdigit.

(** ** Matching *)

(** A position in the subject: the character before it, the text after it, and
    the groups captured so far, the latest first. *)
Record rpos := mkpos {
  r_prev : option ascii;
  r_rest : string;
  r_caps : list (nat * string)
}.

Definition rstart (s : string) : rpos := mkpos None s [].

#[export] Instance rpos_eq_dec : EqDecision rpos.
Proof. solve_decision. Defined.

(** The text between two positions of the same subject. *)
Definition consumed (p p' : rpos) : string :=
  str_take (String.length (r_rest p) - String.length (r_rest p')) (r_rest p).

Definition progress (p p' : rpos) : bool :=
  String.length (r_rest p') <? String.length (r_rest p).

Definition at_bol (multiline : bool) (p : rpos) : bool :=
  match r_prev p with
  | None => true
  | Some c => multiline && is_char nl c
  end.

Definition at_eol (multiline : bool) (p : rpos) : bool :=
  match r_rest p with
  | EmptyString => true
  | String c s => is_char nl c && (multiline || bool_decide (s = EmptyString))
  end.

(** Up to [n] repetitions, each of which consumes some text. *)
Fixpoint re_star (body : rpos -> list rpos) (greedy : bool) (n : nat) (p : rpos) : list rpos :=
  match n with
  | O => [p]
  | S n =>
      let more := concat (re_star body greedy n <$> List.filter (progress p) (body p)) in
      if greedy then more ++ [p] else p :: more
  end.

(** All matches of a pattern at a position, in the order of Python's search. *)
Fixpoint re_matches (r : re) (p : rpos) : list rpos :=
  match r with
  | REps => [p]
  | RChr q =>
      match r_rest p with
      | String c s => if q c then [mkpos (Some c) s (r_caps p)] else []
      | EmptyString => []
      end
  | RCat r1 r2 => concat (re_matches r2 <$> re_matches r1 p)
  | RAlt r1 r2 => re_matches r1 p ++ re_matches r2 p
  | RStar g r => re_star (re_matches r) g (String.length (r_rest p)) p
  | RGroup n r =>
      (fun p' => mkpos (r_prev p') (r_rest p') ((n, consumed p p') :: r_caps p'))
        <$> re_matches r p
  | RBol m => if at_bol m p then [p] else []
  | REol m => if at_eol m p then [p] else []
  | RAhead r =>
      match re_matches r p with
      | [] => []
      | p' :: _ => [mkpos (r_prev p) (r_rest p) (r_caps p')]
      end
  | RNotBol => if at_bol false p then [] else [p]
  end.

(** [match.group(n)] *)
Definition group (n : nat) (p : rpos) : option string :=
  snd <$> List.find (fun '(k, _) => k =? n) (r_caps p).

Definition group_or_empty (n : nat) (p : rpos) : string := default EmptyString (group n p).

(** [r.match(s)], [r.fullmatch(s)] *)
Definition re_match (r : re) (s : string) : option rpos := head (re_matches r (rstart s)).

Definition re_fullmatch (r : re) (s : string) : option rpos :=
  List.find (fun p => bool_decide (r_rest p = EmptyString)) (re_matches r (rstart s)).

(** The first match at or after a position, with the position it starts at. *)
Fixpoint re_search_from (r : re) (prev : option ascii) (s : string) : option (rpos * rpos) :=
  let p := mkpos prev s [] in
  match re_matches r p with
  | p' :: _ => Some (p, p')
  | [] => match s with
          | EmptyString => None
          | String c s => re_search_from r (Some c) s
          end
  end.

(** [re.search(r, s)] *)
Definition re_search (r : re) (s : string) : option rpos := snd <$> re_search_from r None s.

(** The successive matches of [re.findall]; after an empty match the scan moves
    on by one character. *)
Fixpoint re_scan (fuel : nat) (r : re) (prev : option ascii) (s : string) : list rpos :=
  match fuel with
  | O => []
  | S fuel =>
      match re_search_from r prev s with
      | None => []
      | Some (p, p') =>
          p' :: if progress p p' then re_scan fuel r (r_prev p') (r_rest p')
                else match r_rest p' with
                     | EmptyString => []
                     | String c s => re_scan fuel r (Some c) s
                     end
      end
  end.

Definition re_findall (r : re) (s : string) : list rpos :=
  re_scan (S (String.length s)) r None s.

(** [re.sub(r, repl, s)] for a pattern that only matches the empty text. *)
Fixpoint re_sub_empty_from (r : re) (repl : string) (prev : option ascii) (s : string) : string :=
  (match re_matches r (mkpos prev s []) with [] => EmptyString | _ => repl end) +:+
  match s with
  | EmptyString => EmptyString
  | String c s => String c (re_sub_empty_from r repl (Some c) s)
  end.

Definition re_sub_empty (r : re) (repl s : string) : string := re_sub_empty_from r repl None s.

(** * Meaning *)

(** [rmatch r p p']: the pattern matches the text from [p] to [p']. *)
Inductive rmatch : re -> rpos -> rpos -> Prop :=
  | M_eps p : rmatch REps p p
  | M_chr q c s prev caps :
      q c = true -> rmatch (RChr q) (mkpos prev (String c s) caps) (mkpos (Some c) s caps)
  | M_cat r1 r2 p p1 p2 : rmatch r1 p p1 -> rmatch r2 p1 p2 -> rmatch (RCat r1 r2) p p2
  | M_alt_l r1 r2 p p' : rmatch r1 p p' -> rmatch (RAlt r1 r2) p p'
  | M_alt_r r1 r2 p p' : rmatch r2 p p' -> rmatch (RAlt r1 r2) p p'
  | M_star_nil g r p : rmatch (RStar g r) p p
  | M_star_cons g r p p1 p2 :
      rmatch r p p1 -> progress p p1 = true -> rmatch (RStar g r) p1 p2 ->
      rmatch (RStar g r) p p2
  | M_group n r p p' :
      rmatch r p p' ->
      rmatch (RGroup n r) p (mkpos (r_prev p') (r_rest p') ((n, consumed p p') :: r_caps p'))
  | M_bol m p : at_bol m p = true -> rmatch (RBol m) p p
  | M_eol m p : at_eol m p = true -> rmatch (REol m) p p
  | M_ahead r p p' l :
      re_matches r p = p' :: l ->
      rmatch (RAhead r) p (mkpos (r_prev p) (r_rest p) (r_caps p'))
  | M_notbol p : at_bol false p = false -> rmatch RNotBol p p.

#[export] Hint Constructors rmatch : pydb.

Lemma elem_of_concat_fmap {A B} (f : A -> list B) (l : list A) (y : B) :
  y ∈ concat (f <$> l) <-> exists x, x ∈ l /\ y ∈ f x.
Proof.
  rewrite list_elem_of_In, in_concat. split.
  - intros (ys & Hys & Hy). apply list_elem_of_In, list_elem_of_fmap in Hys as (x & -> & Hx).
    exists x. by rewrite (list_elem_of_In _ y).
  - intros (x & Hx & Hy). exists (f x). rewrite <- !list_elem_of_In. split; [|done].
    apply list_elem_of_fmap. eauto.
Qed.

Lemma elem_of_filter_bool {A} (f : A -> bool) (l : list A) x :
  x ∈ List.filter f l <-> x ∈ l /\ f x = true.
Proof. rewrite !list_elem_of_In. apply filter_In. Qed.

Lemma elem_of_guard {A} (b : bool) (x y : A) : y ∈ (if b then [x] else []) <-> b = true /\ y = x.
Proof. destruct b; set_solver. Qed.

Lemma re_star_unfold_iff body g n p p' :
  p' ∈ re_star body g (S n) p <->
  p' = p \/ exists p1, p1 ∈ body p /\ progress p p1 = true /\ p' ∈ re_star body g n p1.
Proof.
  cbn. assert (forall l, p' ∈ (if g then l ++ [p] else p :: l) <-> p' = p \/ p' ∈ l) as ->.
  { intros l. destruct g; set_solver. }
  rewrite elem_of_concat_fmap. split.
  - intros [->|(p1 & [H1 H2]%elem_of_filter_bool & H3)]; eauto.
  - intros [->|(p1 & H1 & H2 & H3)]; [by left|right]. exists p1. by rewrite elem_of_filter_bool.
Qed.

(** The repetition bound, the length of the remaining text, is enough. *)
Lemma re_star_iff body g r n p p' :
  (forall q q', q' ∈ body q <-> rmatch r q q') ->
  String.length (r_rest p) <= n ->
  p' ∈ re_star body g n p <-> rmatch (RStar g r) p p'.
Proof.
  intros Hbody. revert p. induction n as [|n IH]; intros p Hlen.
  - cbn. rewrite list_elem_of_singleton. split; [intros ->; constructor|].
    inversion 1; subst; [done|]. unfold progress in *.
    match goal with H : (_ <? _) = true |- _ => apply Nat.ltb_lt in H; lia end.
  - rewrite re_star_unfold_iff. split.
    + intros [->|(p1 & H1 & H2 & H3)]; [constructor|].
      apply M_star_cons with p1; [by apply Hbody|done|]. apply IH; [|done].
      apply Nat.ltb_lt in H2. lia.
    + inversion 1 as [| | | | | |? ? ? p1 ? H1 H2 H3| | | | |]; subst; [by left|right].
      exists p1. rewrite Hbody. split; [done|]. split; [done|].
      apply IH; [|done]. apply Nat.ltb_lt in H2. lia.
Qed.

(** The matcher finds exactly the matches of the declarative meaning. *)
Theorem re_matches_iff r p p' : p' ∈ re_matches r p <-> rmatch r p p'.
Proof.
  revert p p'. induction r as [|q|r1 IH1 r2 IH2|r1 IH1 r2 IH2|g r IH|n r IH|m|m|r IH|]; intros p p'.
  - cbn. rewrite list_elem_of_singleton. split; [intros ->; constructor|by inversion 1].
  - destruct p as [prev [|c s] caps]; cbn; [split; [inversion 1|inversion 1]|].
    destruct (q c) eqn:Hq.
    + rewrite list_elem_of_singleton. split; [intros ->; by constructor|by inversion 1].
    + split; [inversion 1|]. inversion 1; congruence.
  - cbn. rewrite elem_of_concat_fmap. setoid_rewrite IH1. setoid_rewrite IH2.
    split; [intros (x & ? & ?); by econstructor|inversion 1; eauto].
  - cbn. rewrite elem_of_app, IH1, IH2.
    split; [intros [?|?]; auto with pydb|inversion 1; auto].
  - by apply re_star_iff.
  - cbn. rewrite list_elem_of_fmap. setoid_rewrite IH.
    split; [intros (x & -> & ?); by constructor|inversion 1; eauto].
  - cbn. rewrite elem_of_guard. split; [intros [? ->]; by constructor|by inversion 1].
  - cbn. rewrite elem_of_guard. split; [intros [? ->]; by constructor|by inversion 1].
  - cbn. destruct (re_matches r p) as [|x l] eqn:Hm.
    + split; [inversion 1|]. inversion 1; congruence.
    + rewrite list_elem_of_singleton. split; [intros ->; by econstructor|].
      inversion 1; congruence.
  - cbn. destruct (at_bol false p) eqn:Hb; [|rewrite list_elem_of_singleton];
      (split; [|inversion 1; congruence]); [inversion 1|intros ->; by constructor].
Qed.

Lemma re_match_Some r s p : re_match r s = Some p -> rmatch r (rstart s) p.
Proof.
  unfold re_match. destruct (re_matches r (rstart s)) as [|x l] eqn:Hm; [done|].
  cbn. intros [= <-]. apply re_matches_iff. rewrite Hm. set_solver.
Qed.

Lemma re_match_None r s : re_match r s = None <-> forall p, ~ rmatch r (rstart s) p.
Proof.
  unfold re_match. destruct (re_matches r (rstart s)) as [|x l] eqn:Hm; cbn.
  - split; [|done]. intros _ p Hp. apply re_matches_iff in Hp. rewrite Hm in Hp. inversion Hp.
  - split; [done|]. intros H. destruct (H x). apply re_matches_iff. rewrite Hm. set_solver.
Qed.

Lemma re_fullmatch_Some r s p :
  re_fullmatch r s = Some p -> rmatch r (rstart s) p /\ r_rest p = EmptyString.
Proof.
  intros [H1 H2]%find_some. apply bool_decide_eq_true in H2. split; [|done].
  by apply re_matches_iff, list_elem_of_In.
Qed.

Lemma re_fullmatch_is_Some r s :
  is_Some (re_fullmatch r s) <-> exists p, rmatch r (rstart s) p /\ r_rest p = EmptyString.
Proof.
  split.
  - intros [p Hp]. exists p. by apply re_fullmatch_Some.
  - intros (p & Hp & Hr). unfold re_fullmatch.
    destruct (List.find _ _) as [x|] eqn:Hf; [by eexists|].
    eapply find_none in Hf; [|by apply list_elem_of_In, re_matches_iff].
    by rewrite bool_decide_eq_false in Hf.
Qed.

(** ** Inversion lemmas *)

Lemma consumed_app prev t s caps prev' caps' :
  consumed (mkpos prev (t +:+ s) caps) (mkpos prev' s caps') = t.
Proof.
  unfold consumed. cbn. rewrite str_length_app.
  replace (String.length t + String.length s - String.length s) with (String.length t) by lia.
  apply str_take_app.
Qed.

(** A match consumes a prefix of the remaining text. *)
Lemma rmatch_consumed r p p' : rmatch r p p' -> r_rest p = consumed p p' +:+ r_rest p'.
Proof.
  intros H. assert (exists t, r_rest p = t +:+ r_rest p') as [t Ht].
  { induction H as [p|q c s prev caps Hq|r1 r2 p p1 p2 _ [t1 IH1] _ [t2 IH2]| | |
      |g r p p1 p2 _ [t1 IH1] _ _ [t2 IH2]| | | | |]; cbn; try done.
    all: try (by exists EmptyString).
    - by exists (String c EmptyString).
    - exists (t1 +:+ t2). by rewrite IH1, IH2, str_app_assoc.
    - exists (t1 +:+ t2). by rewrite IH1, IH2, str_app_assoc. }
  destruct p as [prev rest caps], p' as [prev' rest' caps']. cbn [r_rest] in *. subst.
  by rewrite consumed_app.
Qed.

Fixpoint str_last (d : option ascii) (t : string) : option ascii :=
  match t with
  | EmptyString => d
  | String c t => str_last (Some c) t
  end.

Lemma rmatch_eps p p' : rmatch REps p p' <-> p' = p.
Proof. split; [by inversion 1|intros ->; constructor]. Qed.

Lemma rmatch_cat r1 r2 p p' :
  rmatch (RCat r1 r2) p p' <-> exists p1, rmatch r1 p p1 /\ rmatch r2 p1 p'.
Proof. split; [inversion 1; eauto|intros (p1 & ? & ?); by econstructor]. Qed.

Lemma rmatch_alt r1 r2 p p' : rmatch (RAlt r1 r2) p p' <-> rmatch r1 p p' \/ rmatch r2 p p'.
Proof. split; [inversion 1; auto|intros [?|?]; auto with pydb]. Qed.

Lemma rmatch_bol m p p' : rmatch (RBol m) p p' <-> at_bol m p = true /\ p' = p.
Proof. split; [by inversion 1|intros [? ->]; by constructor]. Qed.

Lemma rmatch_eol m p p' : rmatch (REol m) p p' <-> at_eol m p = true /\ p' = p.
Proof. split; [by inversion 1|intros [? ->]; by constructor]. Qed.

Lemma rmatch_group n r p p' :
  rmatch (RGroup n r) p p' <->
  exists p1, rmatch r p p1 /\
    p' = mkpos (r_prev p1) (r_rest p1) ((n, consumed p p1) :: r_caps p1).
Proof. split; [inversion 1; eauto|intros (p1 & ? & ->); by constructor]. Qed.

Lemma rmatch_chr q prev s caps p' :
  rmatch (RChr q) (mkpos prev s caps) p' <->
  exists c t, s = String c t /\ q c = true /\ p' = mkpos (Some c) t caps.
Proof.
  split; [inversion 1; subst; eauto|].
  intros (c & t & -> & Hq & ->). by constructor.
Qed.

Lemma rmatch_star_chr g q prev s caps p' :
  rmatch (RStar g (RChr q)) (mkpos prev s caps) p' <->
  exists t u, s = t +:+ u /\ str_all q t = true /\ p' = mkpos (str_last prev t) u caps.
Proof.
  split.
  - intros H. remember (RStar g (RChr q)) as r eqn:Hr.
    remember (mkpos prev s caps) as p eqn:Hp. revert prev s caps Hp.
    induction H; try discriminate; injection Hr as -> ->; intros prev s caps ->.
    + by exists EmptyString, s.
    + match goal with H : rmatch (RChr _) _ _ |- _ =>
        apply rmatch_chr in H as (c & t & -> & Hc & ->) end.
      match goal with IH : _ = _ -> forall prev s caps, _ |- _ =>
        destruct (IH eq_refl _ _ _ eq_refl) as (t' & u & -> & Ht & ->) end.
      exists (String c t'), u. cbn. by rewrite Hc.
  - intros (t & u & -> & Ht & ->). revert prev. induction t as [|c t IH]; intros prev.
    + constructor.
    + cbn in Ht. apply andb_true_iff in Ht as [Hc Ht].
      eapply M_star_cons; [by constructor| |by apply IH].
      unfold progress. cbn [r_rest]. apply Nat.ltb_lt. rewrite !str_length_app. cbn. lia.
Qed.

Lemma rmatch_plus_chr q prev s caps p' :
  rmatch ((RChr q)⊕) (mkpos prev s caps) p' <->
  exists t u, s = t +:+ u /\ t <> EmptyString /\ str_all q t = true /\
    p' = mkpos (str_last prev t) u caps.
Proof.
  rewrite rmatch_cat. split.
  - intros (p1 & (c & t & -> & Hc & ->)%rmatch_chr & (t' & u & -> & Ht & ->)%rmatch_star_chr).
    exists (String c t'), u. cbn. by rewrite Hc, Ht.
  - intros ([|c t] & u & -> & Hne & Ht & ->); [done|]. cbn in Ht.
    apply andb_true_iff in Ht as [Hc Ht]. eexists. rewrite rmatch_chr. split.
    + by exists c, (t +:+ u).
    + rewrite rmatch_star_chr. by exists t, u.
Qed.

Lemma rmatch_lit w prev s caps p' :
  rmatch (rlit w) (mkpos prev s caps) p' <->
  exists u, s = w +:+ u /\ p' = mkpos (str_last prev w) u caps.
Proof.
  revert prev s. induction w as [|c w IH]; intros prev s; cbn.
  - rewrite rmatch_eps. split; [intros ->; by exists s|by intros (u & -> & ->)].
  - rewrite rmatch_cat. split.
    + intros (p1 & (x & t & -> & Hx & ->)%rmatch_chr & H).
      apply IH in H as (u & -> & ->). apply is_char_true in Hx as ->. by exists u.
    + intros (u & -> & ->). eexists. rewrite rmatch_chr. split.
      * exists c, (w +:+ u). split; [done|]. split; [by apply is_char_true|done].
      * apply IH. by exists u.
Qed.

(** Inverts the hypotheses on matches of a pattern built from classes, literals,
    groups and anchors. *)
Ltac inv_rmatch :=
  repeat match goal with
  | H : rmatch (_ ⋅ _) _ _ |- _ =>
      first [ apply rmatch_plus_chr in H; destruct H as (? & ? & ? & ? & ? & ?)
            | apply rmatch_cat in H; destruct H as (? & ? & ?) ]
  | H : rmatch (RChr _) _ _ |- _ =>
      apply rmatch_chr in H; destruct H as (? & ? & ? & ? & ?)
  | H : rmatch (RStar _ (RChr _)) _ _ |- _ =>
      apply rmatch_star_chr in H; destruct H as (? & ? & ? & ? & ?)
  | H : rmatch (rlit _) _ _ |- _ => apply rmatch_lit in H; destruct H as (? & ? & ?)
  | H : rmatch (RGroup _ _) _ _ |- _ => apply rmatch_group in H; destruct H as (? & ? & ?)
  | H : rmatch (RBol _) _ _ |- _ => apply rmatch_bol in H; destruct H as (? & ?)
  | H : rmatch (REol _) _ _ |- _ => apply rmatch_eol in H; destruct H as (? & ?)
  | H : rmatch REps _ _ |- _ => apply rmatch_eps in H
  | H : _ = mkpos _ _ _ |- _ => progress (subst; cbn [r_rest r_caps r_prev] in * )
  | H : _ = _ +:+ _ |- _ => progress (subst; cbn [r_rest r_caps r_prev] in * )
  end.

(** ** Capture-free patterns

    [Simple r P]: from any position, [r] matches the texts that satisfy [P],
    whatever surrounds them, and captures nothing. *)
Class Simple (r : re) (P : string -> Prop) : Prop :=
  simple prev s caps p' :
    rmatch r (mkpos prev s caps) p' <->
    exists t u, s = t +:+ u /\ P t /\ p' = mkpos (str_last prev t) u caps.

Lemma str_last_app d a b : str_last d (a +:+ b) = str_last (str_last d a) b.
Proof. revert d. induction a as [|c a IH]; intros d; [done|]. apply IH. Qed.

#[export] Instance simple_chr q : Simple (RChr q) (fun t => exists c, t = String c EmptyString /\ q c = true).
Proof.
  intros prev s caps p'. rewrite rmatch_chr. split.
  - intros (c & t & -> & Hc & ->). exists (String c EmptyString), t. eauto.
  - intros (t & u & -> & (c & -> & Hc) & ->). eexists c, u. done.
Qed.

#[export] Instance simple_star_chr g q : Simple (RStar g (RChr q)) (fun t => str_all q t = true).
Proof. intros prev s caps p'. apply rmatch_star_chr. Qed.

#[export] Instance simple_lit w : Simple (rlit w) (fun t => t = w).
Proof.
  intros prev s caps p'. rewrite rmatch_lit. split.
  - intros (u & -> & ->). by exists w, u.
  - intros (t & u & -> & -> & ->). by exists u.
Qed.

#[export] Instance simple_eps : Simple REps (fun t => t = EmptyString).
Proof. exact (simple_lit EmptyString). Qed.

#[export] Instance simple_cat r1 r2 P1 P2 : Simple r1 P1 -> Simple r2 P2 ->
  Simple (r1 ⋅ r2) (fun t => exists t1 t2, t = t1 +:+ t2 /\ P1 t1 /\ P2 t2).
Proof.
  intros H1 H2 prev s caps p'. rewrite rmatch_cat. split.
  - intros (p1 & (t1 & u1 & -> & Ht1 & ->)%H1 & (t2 & u2 & -> & Ht2 & ->)%H2).
    exists (t1 +:+ t2), u2. rewrite str_last_app, str_app_assoc. eauto 10.
  - intros (t & u & -> & (t1 & t2 & -> & Ht1 & Ht2) & ->).
    exists (mkpos (str_last prev t1) (t2 +:+ u) caps). rewrite (H1 prev), (H2 (str_last prev t1)).
    rewrite str_last_app, str_app_assoc. eauto 10.
Qed.

#[export] Instance simple_alt r1 r2 P1 P2 : Simple r1 P1 -> Simple r2 P2 ->
  Simple (r1 ∥ r2) (fun t => P1 t \/ P2 t).
Proof.
  intros H1 H2 prev s caps p'. rewrite rmatch_alt, (H1 prev), (H2 prev). naive_solver.
Qed.

Lemma simple_weaken r P Q : Simple r P -> (forall t, P t <-> Q t) -> Simple r Q.
Proof.
  intros H HPQ prev s caps p'. rewrite (H prev).
  split; intros (t & u & ? & Ht & ?); exists t, u; by apply HPQ in Ht.
Qed.

(** A group around a capture-free pattern captures the text it matched. *)
Lemma rmatch_group_simple n r P {H : Simple r P} prev s caps p' :
  rmatch (RGroup n r) (mkpos prev s caps) p' <->
  exists t u, s = t +:+ u /\ P t /\ p' = mkpos (str_last prev t) u ((n, t) :: caps).
Proof.
  rewrite rmatch_group. split.
  - intros (p1 & (t & u & -> & Ht & ->)%H & ->). exists t, u. cbn [r_prev r_rest r_caps].
    by rewrite consumed_app.
  - intros (t & u & -> & Ht & ->). exists (mkpos (str_last prev t) u caps).
    rewrite (H prev), consumed_app. eauto 10.
Qed.

(** [[p][q]*] *)
Definition class_word (p q : ascii -> bool) (t : string) : bool :=
  match t with String c t => p c && str_all q t | EmptyString => false end.

#[export] Instance simple_class_word p q :
  Simple (RChr p ⋅ (RChr q)⊛) (fun t => class_word p q t = true) | 0.
Proof.
  eapply simple_weaken; [apply _|]. intros t. split.
  - intros (t1 & t2 & -> & (c & -> & Hc) & Ht2).
    change (p c && str_all q t2 = true). by rewrite Hc.
  - destruct t as [|c t]; cbn; [done|]. intros [Hc Ht]%andb_true_iff.
    exists (String c EmptyString), t. eauto 10.
Qed.

Lemma rmatch_group_class_word n p q prev s caps p' :
  rmatch (RGroup n (RChr p ⋅ (RChr q)⊛)) (mkpos prev s caps) p' <->
  exists t u, s = t +:+ u /\ class_word p q t = true /\
    p' = mkpos (str_last prev t) u ((n, t) :: caps).
Proof. exact (rmatch_group_simple n (RChr p ⋅ (RChr q)⊛) _ prev s caps p'). Qed.
