(* ===== verification/RegexScan.v ===== *)
(** * Searching with regular expressions

    Which match the backtracking search reports first, for the shapes the tools
    use: a word or a number followed by a separator, and a literal marker in one
    of the lines of a log. *)

From Stdlib Require Import Ascii String.
From S2P Require Import Prelude PyStr Regex.

Module RegexScan.

(** The longest prefix of a class. *)
Fixpoint span (q : ascii -> bool) (s : string) : string * string :=
  match s with
  | EmptyString => (EmptyString, EmptyString)
  | String c t => if q c then let '(a, b) := span q t in (String c a, b) else (EmptyString, s)
  end.

Lemma span_app q s : s = (span q s).1 +:+ (span q s).2.
Proof.
  induction s as [|c t IH]; [done|]. cbn [span]. destruct (q c); [|done]. destruct (span q t) as [a b].
  cbn in *. by rewrite str_app_cons, IH at 1.
Qed.

Lemma span_all q a b :
  str_all q a = true -> match b with EmptyString => True | String c _ => q c = false end -> span q (a +:+ b) = (a, b).
Proof.
  induction a as [|c a IH]; intros Ha Hb.
  - change (EmptyString +:+ b) with b. destruct b as [|c b]; [done|]. cbn [span]. by rewrite Hb.
  - cbn [str_all] in Ha. apply andb_true_iff in Ha as [Hc Ha]. rewrite str_app_cons. cbn [span].
    by rewrite Hc, IH.
Qed.

Section star.
Context (q : ascii -> bool).

Lemma star_step n prev c t caps :
  re_star (re_matches (RChr q)) true (S n) (mkpos prev (String c t) caps) =
  if q c then re_star (re_matches (RChr q)) true n (mkpos (Some c) t caps) ++ [mkpos prev (String c t) caps]
  else [mkpos prev (String c t) caps].
Proof.
  cbn [re_star re_matches r_rest r_caps]. destruct (q c); [|done]. cbn [List.filter].
  assert (progress (mkpos prev (String c t) caps) (mkpos (Some c) t caps) = true) as ->.
  { unfold progress. cbn. by apply Nat.leb_le. }
  cbn [fmap list_fmap concat]. by rewrite app_nil_r.
Qed.

(** The position after the longest repetition. *)
Definition after (prev : option ascii) (s : string) (caps : list (nat * string)) : rpos :=
  mkpos (str_last prev (span q s).1) (span q s).2 caps.

(** The first way to repeat is the longest; the others stop before a character
    of the class. *)
Lemma star_shape prev s caps :
  exists l, re_matches (RStar true (RChr q)) (mkpos prev s caps) = after prev s caps :: l /\
    Forall (fun p => exists c t, q c = true /\ r_rest p = String c t /\ r_caps p = caps) l.
Proof.
  change (re_matches (RStar true (RChr q)) ?p) with (re_star (re_matches (RChr q)) true (String.length (r_rest p)) p).
  cbn [r_rest]. revert prev. induction s as [|c t IH]; intros prev; [by exists []|].
  change (String.length (String c t)) with (S (String.length t)). rewrite star_step. unfold after. cbn [span].
  destruct (q c) eqn:Hc; [|by exists []]. destruct (IH (Some c)) as (l & -> & Hl).
  unfold after. destruct (span q t) as [a b]. cbn [fst snd str_last].
  eexists. split; [reflexivity|]. apply Forall_app. split; [exact Hl|]. repeat constructor. by exists c, t.
Qed.

End star.

(** ** Every match found is a match *)

Lemma search_from_rmatch r prev s p p' :
  re_search_from r prev s = Some (p, p') -> rmatch r p p' /\ r_caps p = [].
Proof.
  revert prev. induction s as [|c s IH]; intros prev; cbn [re_search_from];
    (destruct (re_matches r _) as [|q l] eqn:E; [try done; try apply IH|]);
    (intros [= <- <-]; split; [|done]; apply re_matches_iff; rewrite E; apply elem_of_cons; by left).
Qed.

Lemma findall_rmatch r s p : p ∈ re_findall r s -> exists prev u, rmatch r (mkpos prev u []) p.
Proof.
  unfold re_findall. generalize (S (String.length s)) as fuel, (@None ascii) as prev. intros fuel. revert s.
  induction fuel as [|fuel IH]; intros s prev; cbn [re_scan]; [by intros Hp%elem_of_nil|].
  destruct (re_search_from r prev s) as [[q q']|] eqn:E; [|by intros Hp%elem_of_nil].
  apply search_from_rmatch in E as [Hm Hc]. intros [->|Hp]%elem_of_cons.
  - destruct q as [prev' u caps]. cbn in Hc. subst caps. by exists prev', u.
  - destruct (progress q q'); [by apply IH in Hp|].
    destruct (r_rest q') as [|c t]; [by apply elem_of_nil in Hp|by apply IH in Hp].
Qed.

(** ** Words *)

(** A word [ab*] of two classes: its first character and the others. *)
Definition rword (a b : ascii -> bool) : re := RChr a ⋅ (RChr b)⊛.

Definition word_of (a b : ascii -> bool) (x : string) : bool :=
  match x with EmptyString => false | String c t => a c && str_all b t end.

(** The text does not go on with the class. *)
Definition stops (b : ascii -> bool) (s : string) : Prop :=
  match s with EmptyString => True | String c _ => b c = false end.

Lemma group_word_shape n a b prev c t caps :
  a c = true ->
  exists l, re_matches (RGroup n (rword a b)) (mkpos prev (String c t) caps) =
    mkpos (str_last (Some c) (span b t).1) (span b t).2 ((n, String c (span b t).1) :: caps) :: l /\
    Forall (fun p => exists c t, b c = true /\ r_rest p = String c t) l.
Proof.
  intros Hc. change (re_matches (RGroup n ?r) ?p) with
    ((fun p' => mkpos (r_prev p') (r_rest p') ((n, consumed p p') :: r_caps p')) <$> re_matches r p).
  change (re_matches (rword a b) ?p) with (concat (re_matches (RChr b)⊛ <$> re_matches (RChr a) p)).
  cbn [re_matches r_rest r_caps]. rewrite Hc. cbn [fmap list_fmap concat]. rewrite app_nil_r.
  change (re_star _ true _ ?p) with (re_matches (RStar true (RChr b)) p).
  destruct (star_shape b (Some c) t caps) as (l & -> & Hl). rewrite fmap_cons. eexists. split.
  - unfold after. cbn [r_prev r_rest r_caps]. f_equal. do 3 f_equal.
    assert (String c t = String c (span b t).1 +:+ (span b t).2) as -> by (by rewrite str_app_cons, <- span_app).
    apply consumed_app.
  - apply Forall_forall. intros p (p' & -> & Hp)%list_elem_of_fmap.
    rewrite Forall_forall in Hl. destruct (Hl p' Hp) as (c' & t' & Hc' & Hr & _). by exists c', t'.
Qed.

(** A word followed by a pattern that fails before a character of the word. *)
Lemma word_then n a b r prev s caps :
  (forall p c t, b c = true -> r_rest p = String c t -> re_matches r p = []) ->
  re_matches (RGroup n (rword a b) ⋅ r) (mkpos prev s caps) =
  match s with
  | String c t =>
      if a c then
        re_matches r (mkpos (str_last (Some c) (span b t).1) (span b t).2 ((n, String c (span b t).1) :: caps))
      else []
  | EmptyString => []
  end.
Proof.
  intros Hr. destruct s as [|c t]; [done|].
  change (re_matches (RCat ?x ?y) ?p) with (concat (re_matches y <$> re_matches x p)).
  destruct (a c) eqn:Hc.
  2: { cbn [re_matches r_rest rword]. unfold rword. cbn [re_matches r_rest]. by rewrite Hc. }
  destruct (group_word_shape n a b prev c t caps Hc) as (l & -> & Hl). rewrite fmap_cons. cbn [concat].
  assert (concat (re_matches r <$> l) = []) as ->; [|by rewrite app_nil_r].
  induction Hl as [|p l (c' & t' & Hc' & Hp) _ IH]; [done|]. cbn. by rewrite (Hr _ c' t' Hc' Hp).
Qed.

Lemma word_then_word n a b r prev x rest caps :
  (forall p c t, b c = true -> r_rest p = String c t -> re_matches r p = []) ->
  word_of a b x = true -> stops b rest ->
  re_matches (RGroup n (rword a b) ⋅ r) (mkpos prev (x +:+ rest) caps) =
  re_matches r (mkpos (str_last prev x) rest ((n, x) :: caps)).
Proof.
  intros Hr Hx Hs. rewrite word_then by done. destruct x as [|c x]; [done|]. cbn [word_of] in Hx.
  apply andb_true_iff in Hx as [Hc Hx]. rewrite str_app_cons, Hc, span_all by done. done.
Qed.

(** At the end of a pattern the longest word is reported. *)
Lemma word_longest n a b prev x rest caps :
  word_of a b x = true -> stops b rest ->
  exists l, re_matches (RGroup n (rword a b)) (mkpos prev (x +:+ rest) caps) =
    mkpos (str_last prev x) rest ((n, x) :: caps) :: l.
Proof.
  intros Hx Hs. destruct x as [|c x]; [done|]. cbn [word_of] in Hx. apply andb_true_iff in Hx as [Hc Hx].
  rewrite str_app_cons. destruct (group_word_shape n a b prev c (x +:+ rest) caps Hc) as (l & -> & _).
  rewrite span_all by done. by eexists.
Qed.

(** ** Numbers *)

(** [int(x)] of a text of digits, as [\d+] matches it. *)
Definition digits_value (x : string) : Z := default 0%Z (int_digits 10 x).

Lemma str_of_Z_word z : (0 <= z)%Z -> word_of is_digit is_digit (str_of_Z z) = true.
Proof.
  intros Hz. assert (str_of_Z z = show_nonneg 10 z) as ->.
  { unfold str_of_Z. by rewrite (proj2 (Z.ltb_ge z 0) Hz). }
  pose proof (show_nonneg_digits z Hz) as Hd. pose proof (int_digits_show 10 z ltac:(lia) Hz) as Hv.
  destruct (show_nonneg 10 z) as [|c t]; [done|]. exact Hd.
Qed.

Lemma digits_value_str z : (0 <= z)%Z -> digits_value (str_of_Z z) = z.
Proof.
  intros Hz. assert (str_of_Z z = show_nonneg 10 z) as ->.
  { unfold str_of_Z. by rewrite (proj2 (Z.ltb_ge z 0) Hz). }
  unfold digits_value. by rewrite int_digits_show by lia.
Qed.

(** ** Literals *)

(** The text after a prefix. *)
Fixpoint after_prefix (w s : string) : option string :=
  match w, s with
  | EmptyString, _ => Some s
  | String a w, String b s => if is_char a b then after_prefix w s else None
  | String _ _, EmptyString => None
  end.

Lemma after_prefix_spec w s u : after_prefix w s = Some u <-> s = w +:+ u.
Proof.
  revert s. induction w as [|a w IH]; intros s; [split; [by intros [= ->]|by intros ->]|].
  rewrite str_app_cons. destruct s as [|b s]; [done|]. cbn [after_prefix]. destruct (is_char a b) eqn:E.
  - apply Ascii.eqb_eq in E. subst b. rewrite IH. split; [by intros ->|by intros [= ->]].
  - split; [done|]. intros [= <- _]. unfold is_char in E. by rewrite Ascii.eqb_refl in E.
Qed.

Lemma lit_then w r prev s caps :
  re_matches (rlit w ⋅ r) (mkpos prev s caps) =
  match after_prefix w s with
  | Some u => re_matches r (mkpos (str_last prev w) u caps)
  | None => []
  end.
Proof.
  change (re_matches (RCat ?x ?y) ?p) with (concat (re_matches y <$> re_matches x p)).
  revert prev s. induction w as [|a w IH]; intros prev s.
  - cbn [rlit re_matches fmap list_fmap concat after_prefix str_last]. by rewrite app_nil_r.
  - change (re_matches (rlit (String a w)) ?p) with (concat (re_matches (rlit w) <$> re_matches (RChr (is_char a)) p)).
    cbn [re_matches r_rest r_caps]. destruct s as [|b s]; [done|]. cbn [after_prefix].
    destruct (is_char a b) eqn:E; [|done]. apply Ascii.eqb_eq in E. subst b.
    cbn [fmap list_fmap concat str_last]. rewrite app_nil_r. apply IH.
Qed.

(** ** Markers in lines *)

Section marker.
Context (w : string) (r : re).
Context (Hw : str_all (fun c => negb (is_char nl c)) w = true).

Lemma no_marker t s :
  str_contains w t = false -> str_all (fun c => negb (is_char nl c)) t = true ->
  after_prefix w (t +:+ String nl s) = None.
Proof using Hw.
  intros Hn Ht. destruct (after_prefix w (t +:+ String nl s)) as [u|] eqn:E; [|done]. exfalso.
  apply after_prefix_spec in E. apply not_true_iff_false in Hn. apply Hn, str_contains_spec.
  exists EmptyString. change (EmptyString +:+ ?x) with x. clear Hn.
  revert w Hw E. induction t as [|c t IH]; intros [|a w'] Hw' E.
  - by exists EmptyString.
  - injection E as <- _. done.
  - by exists (String c t).
  - rewrite !str_app_cons in E. injection E as <- E. cbn [str_all] in Hw', Ht.
    apply andb_true_iff in Hw' as [_ Hw'], Ht as [_ Ht].
    destruct (IH Ht w' Hw' E) as [x ->]. by exists x.
Qed.

(** The search passes over a line without the marker. *)
Lemma search_line t s prev :
  w <> EmptyString -> str_contains w t = false -> str_all (fun c => negb (is_char nl c)) t = true ->
  re_search_from (rlit w ⋅ r) prev (t +:+ String nl s) = re_search_from (rlit w ⋅ r) (Some nl) s.
Proof using Hw.
  intros Hne. revert prev. induction t as [|c t IH]; intros prev Hn Ht.
  - change (EmptyString +:+ ?x) with x. cbn [re_search_from]. rewrite lit_then.
    pose proof (no_marker EmptyString s Hn Ht) as H0. change (EmptyString +:+ ?x) with x in H0. by rewrite H0.
  - pose proof (no_marker (String c t) s Hn Ht) as H0. rewrite str_app_cons in *. cbn [re_search_from].
    rewrite lit_then, H0. cbn [str_all] in Ht. apply andb_true_iff in Ht as [_ Ht]. apply IH; [|done].
    apply not_true_iff_false. apply not_true_iff_false in Hn. rewrite str_contains_spec in *.
    intros (x & y & ->). apply Hn. exists (String c x), y. by rewrite !str_app_cons.
Qed.

End marker.

End RegexScan.
