(* ===== verification/Fields.v ===== *)
(** * Key and value fields of log lines

    [re.findall(r"([A-Za-z_][A-Za-z0-9_]* )=(V+)", line)], for a class [V] of
    value characters, reads the [key=value] words of the lines the firmware
    prints.  The backtracking search is deterministic here: the longest name is
    the only one that can be followed by an equals sign. *)

From Stdlib Require Import Ascii String.
From S2P Require Import Prelude PyStr Regex RegexScan.

Module Fields.
Import RegexScan.

Definition name_start (c : ascii) : bool := is_alpha c || is_char "_" c.
Definition name_char (c : ascii) : bool := is_alpha c || is_digit c || is_char "_" c.

(** The pattern for the value characters [v]. *)
Definition FIELD_OF (v : ascii -> bool) : re :=
  RGroup 1 (RChr name_start ⋅ (RChr name_char)⊛) ⋅ rlit "=" ⋅ RGroup 2 (RChr v)⊕.

(** [re.findall]: the pairs of the two groups. *)
Definition fields (v : ascii -> bool) (line : string) : list (string * string) :=
  (fun m => (group_or_empty 1 m, group_or_empty 2 m)) <$> re_findall (FIELD_OF v) line.

(** ** Lines as they are printed *)

Definition field_text (kv : string * string) : string := " " +:+ kv.1 +:+ "=" +:+ kv.2.
Definition name_ok (k : string) : bool := word_of name_start name_char k.
Definition value_ok (v : ascii -> bool) (x : string) : bool := word_of v v x.
Definition field_ok (v : ascii -> bool) (kv : string * string) : bool := name_ok kv.1 && value_ok v kv.2.

(** A word of a line: a field, a field whose value does not start with a value
    character, or a text without an equals sign. *)
Inductive word :=
  | Field (k x : string)
  | Skipped (k x : string)
  | Text (t : string).

Definition word_text (w : word) : string :=
  match w with
  | Field k x | Skipped k x => field_text (k, x)
  | Text t => " " +:+ t
  end.

Definition word_field (w : word) : option (string * string) :=
  match w with Field k x => Some (k, x) | _ => None end.

Fixpoint words_text (l : list word) : string :=
  match l with [] => EmptyString | w :: l => word_text w +:+ words_text l end.

Definition no_equals (s : string) : bool := str_all (fun c => negb (is_char "=" c)) s.

Definition word_ok (v : ascii -> bool) (w : word) : bool :=
  match w with
  | Field k x => field_ok v (k, x)
  | Skipped k x => name_ok k && no_equals x && match x with EmptyString => true | String c _ => negb (v c) end
  | Text t => no_equals t
  end.

(** * Properties *)

(** ** One field *)

Section value.
Context (v : ascii -> bool).

(** The value: the longest one. *)
Definition VALUE : re := rlit "=" ⋅ RGroup 2 (RChr v)⊕.

Lemma value_fails p c t : name_char c = true -> r_rest p = String c t -> re_matches VALUE p = [].
Proof.
  intros Hc Hp. unfold VALUE. cbn [re_matches rlit]. rewrite Hp.
  assert (is_char "=" c = false) as ->; [|done].
  apply negb_true_iff. revert c Hc Hp. assert (forall c, name_char c = true -> negb (is_char "=" c) = true) as H;
    [ascii_class|auto].
Qed.

Lemma name_then prev s caps :
  re_matches (RGroup 1 (RChr name_start ⋅ (RChr name_char)⊛) ⋅ VALUE) (mkpos prev s caps) =
  match s with
  | String c t =>
      if name_start c then
        re_matches VALUE (mkpos (str_last (Some c) (span name_char t).1) (span name_char t).2
                            ((1, String c (span name_char t).1) :: caps))
      else []
  | EmptyString => []
  end.
Proof. apply (word_then 1 name_start name_char), value_fails. Qed.

Lemma value_matches prev x rest caps :
  value_ok v x = true -> stops v rest ->
  exists l, re_matches VALUE (mkpos prev ("=" +:+ x +:+ rest) caps) =
    mkpos (str_last (Some "="%char) x) rest ((2, x) :: caps) :: l.
Proof.
  intros Hx Hrest. unfold VALUE. rewrite lit_then, (proj2 (after_prefix_spec "=" _ (x +:+ rest)) eq_refl).
  by apply (word_longest 2 v v).
Qed.

(** No field starts where the name is not followed by an equals sign. *)
Lemma no_field_here a prev s :
  no_equals a = true -> re_matches (FIELD_OF v) (mkpos prev (a +:+ String " " s) []) = [].
Proof.
  intros Ha. unfold FIELD_OF. change (rlit "=" ⋅ RGroup 2 (RChr v)⊕) with VALUE.
  rewrite name_then.
  destruct (a +:+ String " " s) as [|c t] eqn:E; [done|]. destruct (name_start c) eqn:Hc; [|done].
  assert (exists a', t = a' +:+ String " " s /\ no_equals a' = true) as (a' & -> & Ha').
  { destruct a as [|d a]; [by injection E as <- <-|]. rewrite str_app_cons in E. injection E as <- <-.
    exists a. split; [done|]. by apply andb_true_iff in Ha as [_ Ha]. }
  assert (exists d u, (span name_char (a' +:+ String " " s)).2 = String d u /\ is_char "=" d = false)
    as (d & u & -> & Hd).
  { clear E Ha. induction a' as [|d a' IH]; [by exists " "%char, s|]. rewrite str_app_cons. cbn [span].
    apply andb_true_iff in Ha' as [Hd%negb_true_iff Ha']. destruct (name_char d); [|by exists d, (a' +:+ String " " s)].
    destruct (IH Ha') as (d' & u & H & ?). exists d', u. destruct (span name_char (a' +:+ String " " s)). done. }
  cbn [VALUE re_matches rlit r_rest]. unfold VALUE. cbn [re_matches rlit r_rest]. by rewrite Hd.
Qed.

Lemma field_here k x prev rest :
  field_ok v (k, x) = true -> stops v rest ->
  exists prev' l, re_matches (FIELD_OF v) (mkpos prev (k +:+ "=" +:+ x +:+ rest) []) =
    mkpos prev' rest [(2, x); (1, k)] :: l.
Proof.
  unfold field_ok. rewrite andb_true_iff. intros [Hk Hx] Hrest. cbn [fst snd] in *.
  unfold FIELD_OF. change (rlit "=" ⋅ RGroup 2 (RChr v)⊕) with VALUE.
  rewrite name_then. destruct k as [|c k]; [done|].
  apply andb_true_iff in Hk as [Hc Hk]. rewrite str_app_cons, Hc.
  rewrite span_all by done. cbn [fst snd].
  destruct (value_matches (str_last (Some c) k) x rest [(1, String c k)] Hx Hrest) as [l ->]. by eexists _, _.
Qed.

(** ** All fields of a printed line *)

(** The end of a line, or the blank before the next word. *)
Definition boundary (s : string) : Prop := match s with EmptyString => True | String c _ => c = " "%char end.

Lemma no_field a prev s :
  no_equals a = true -> boundary s -> re_matches (FIELD_OF v) (mkpos prev (a +:+ s) []) = [].
Proof.
  intros Ha Hs. destruct s as [|c s]; [|cbn in Hs; subst c; by apply no_field_here].
  rewrite str_app_nil_r. destruct (re_matches (FIELD_OF v) (mkpos prev a [])) as [|p l] eqn:E; [done|]. exfalso.
  assert (rmatch (FIELD_OF v) (mkpos prev a []) p) as Hm.
  { apply re_matches_iff. rewrite E. apply elem_of_cons. by left. }
  unfold FIELD_OF in Hm. apply rmatch_cat in Hm as (p1 & (k & u & -> & _ & ->)%rmatch_group_class_word & Hm).
  apply rmatch_cat in Hm as (p2 & (u' & -> & ->)%rmatch_lit & _).
  unfold no_equals in Ha. rewrite !str_all_app in Ha. cbn in Ha. by rewrite andb_false_r in Ha.
Qed.

(** The search passes over a text in which no field starts. *)
Definition inert (a : string) : Prop :=
  forall prev s, boundary s ->
    re_search_from (FIELD_OF v) prev (a +:+ s) = re_search_from (FIELD_OF v) (str_last prev a) s.

Lemma search_step prev c t :
  re_matches (FIELD_OF v) (mkpos prev (String c t) []) = [] ->
  re_search_from (FIELD_OF v) prev (String c t) = re_search_from (FIELD_OF v) (Some c) t.
Proof. intros H. cbn [re_search_from]. by rewrite H. Qed.

Lemma inert_no_equals a : no_equals a = true -> inert a.
Proof.
  intros Ha prev s Hs. revert prev. induction a as [|c a IH]; intros prev; [done|].
  pose proof (no_field (String c a) prev s Ha Hs) as H0. rewrite str_app_cons in *.
  rewrite search_step by done. apply IH. by apply andb_true_iff in Ha as [_ Ha].
Qed.

Lemma inert_app a b : inert a -> boundary b -> inert b -> inert (a +:+ b).
Proof.
  intros Ha Hb Hb' prev s Hs. rewrite str_app_assoc, Ha, Hb', str_last_app; [done|done|].
  by destruct b.
Qed.

Lemma not_name_start prev c t :
  name_start c = false -> re_matches (FIELD_OF v) (mkpos prev (String c t) []) = [].
Proof.
  intros Hc. unfold FIELD_OF. change (rlit "=" ⋅ RGroup 2 (RChr v)⊕) with VALUE.
  rewrite name_then. by rewrite Hc.
Qed.

Lemma value_stops prev u caps :
  stops v u ->
  re_matches VALUE (mkpos prev ("=" +:+ u) caps) = [].
Proof.
  intros Hu. unfold VALUE.
  change (re_matches (RCat (rlit "=") ?b) (mkpos prev ("=" +:+ u) caps)) with
    (re_matches b (mkpos (Some "="%char) u caps) ++ []). rewrite app_nil_r.
  destruct u as [|d u]; [done|]. cbn [re_matches r_rest]. by rewrite Hu.
Qed.

Lemma inert_skipped k x :
  str_all name_char k = true -> no_equals x = true -> match x with EmptyString => true | String c _ => negb (v c) end = true ->
  v " "%char = false -> inert (k +:+ "=" +:+ x).
Proof.
  intros Hk Hx Hv Hsp prev s Hs. revert prev. induction k as [|c k IH]; intros prev.
  - change (EmptyString +:+ ?t) with t. change ("=" +:+ ?t) with (String "=" t). rewrite str_app_cons.
    rewrite search_step by (by apply not_name_start). cbn [str_last]. by apply inert_no_equals.
  - apply andb_true_iff in Hk as [Hc Hk]. rewrite !str_app_cons. rewrite search_step; [by apply IH|].
    unfold FIELD_OF. change (rlit "=" ⋅ RGroup 2 (RChr v)⊕) with VALUE.
    rewrite name_then. destruct (name_start c); [|done].
    rewrite !str_app_assoc, span_all by done. cbn [snd fst].
    apply value_stops. destruct x as [|d x]; [|by apply negb_true_iff in Hv].
    destruct s as [|d s]; [done|]. cbn in Hs. by subst d.
Qed.

Lemma inert_word w :
  v " "%char = false -> word_ok v w = true -> word_field w = None -> inert (word_text w).
Proof.
  intros Hsp Hw Hn. destruct w as [k x|k x|t]; [done| |]; clear Hn.
  - cbn [word_ok] in Hw. rewrite !andb_true_iff in Hw. destruct Hw as [[Hk Hx] Hv].
    change (word_text (Skipped k x)) with (String " " (k +:+ "=" +:+ x)). intros prev s Hs.
    rewrite str_app_cons, search_step by (by apply not_name_start). cbn [str_last].
    apply inert_skipped; try done. destruct k as [|c k]; [done|]. apply andb_true_iff in Hk as [Hc Hk].
    cbn [str_all]. rewrite Hk, andb_true_r. revert c Hc. ascii_class.
  - by apply inert_no_equals.
Qed.

Lemma search_field a prev k x rest :
  inert a -> field_ok v (k, x) = true -> v " "%char = false -> boundary rest ->
  exists p prev', re_search_from (FIELD_OF v) prev (a +:+ field_text (k, x) +:+ rest) =
    Some (p, mkpos prev' rest [(2, x); (1, k)]) /\ String.length rest < String.length (r_rest p).
Proof.
  intros Ha Hf Hsp Hrest. rewrite Ha by done. unfold field_text. cbn [fst snd]. rewrite !str_app_assoc.
  change (" " +:+ ?t) with (String " " t). rewrite search_step by (by apply not_name_start).
  destruct (field_here k x (Some " "%char) rest Hf) as (prev' & l & E).
  { destruct rest as [|c rest]; [done|]. cbn in Hrest. by subst c. }
  destruct (k +:+ "=" +:+ x +:+ rest) as [|d u] eqn:Ek; [by destruct k|].
  cbn [re_search_from]. rewrite E. eexists _, _. split; [reflexivity|]. cbn [r_rest].
  rewrite <- Ek, !str_length_app. cbn. lia.
Qed.

Lemma words_boundary l : boundary (words_text l).
Proof. by destruct l as [|[] l]. Qed.

Lemma scan_words l fuel a prev :
  v " "%char = false -> inert a -> Forall (fun w => word_ok v w = true) l ->
  String.length (a +:+ words_text l) < fuel ->
  (fun m => (group_or_empty 1 m, group_or_empty 2 m)) <$> re_scan fuel (FIELD_OF v) prev (a +:+ words_text l) =
  omap word_field l.
Proof.
  intros Hv Ha Hl. revert fuel a prev Ha. induction Hl as [|w l Hw Hl IH]; intros fuel a prev Ha Hf.
  { destruct fuel as [|fuel]; [done|]. cbn [re_scan words_text]. by rewrite Ha. }
  cbn [words_text] in *. destruct (word_field w) as [[k x]|] eqn:Ew.
  - destruct fuel as [|fuel]; [lia|]. cbn [re_scan].
    destruct w as [k' x'|k' x'|t]; [|done|done]. injection Ew as -> ->. cbn [word_text] in *.
    destruct (search_field a prev k x (words_text l) Ha Hw Hv (words_boundary l)) as (p & prev' & -> & Hlen).
    assert (progress p (mkpos prev' (words_text l) [(2, x); (1, k)]) = true) as -> by (by apply Nat.ltb_lt).
    rewrite fmap_cons. cbn [omap list_omap word_field]. f_equal. cbn [r_prev r_rest].
    apply (IH fuel EmptyString prev'); [by intros ? ?|]. change (EmptyString +:+ ?t) with t.
    assert (1 <= String.length (field_text (k, x)))
      by (unfold field_text; rewrite str_length_app; cbn [String.length]; lia).
    rewrite (str_length_app a), (str_length_app (field_text (k, x))) in Hf. lia.
  - cbn [omap list_omap]. rewrite Ew, <- str_app_assoc in *. apply IH; [|done].
    apply inert_app; [done|by destruct w|by apply inert_word].
Qed.

(** A marker followed by words: its fields are read back. *)
Lemma fields_line marker l :
  v " "%char = false -> no_equals marker = true -> Forall (fun w => word_ok v w = true) l ->
  fields v (marker +:+ words_text l) = omap word_field l.
Proof.
  intros Hv Hm Hl. unfold fields, re_findall. apply scan_words; auto with lia. by apply inert_no_equals.
Qed.

End value.

End Fields.
