(* ===== verification/PyFloat.v ===== *)
(** * Python floats

    A JSON number with a fraction or an exponent is a Python [float], a
    binary64 value, here Stdlib's [spec_float].  The tools compare such a value
    with an integer, test its truth and print it; [float_repr] is Python's
    shortest representation that reads back as the same value. *)

From Stdlib Require Import Ascii String.
From Stdlib Require Import SpecFloat.
From S2P Require Import Prelude PyStr.

#[local] Open Scope Z_scope.

Abbreviation pyfloat := spec_float.

#[export] Instance pyfloat_eq_dec : EqDecision pyfloat.
Proof. solve_decision. Defined.

(** [f == z], exact as Python's comparison of a float with an int. *)
Definition float_is_Z (f : pyfloat) (z : Z) : bool :=
  match f with
  | S754_zero _ => z =? 0
  | S754_finite s m e =>
      let sm := if s then Z.neg m else Z.pos m in
      if 0 <=? e then sm * 2 ^ e =? z else sm =? z * 2 ^ (- e)
  | _ => false
  end.

Definition float_truthy (f : pyfloat) : bool :=
  match f with S754_zero _ => false | _ => true end.

Definition float_eqb (f g : pyfloat) : bool := SFeqb f g.

(** [f <= z] and [z <= f]; a NaN compares with nothing. *)
Definition float_le_Z (f : pyfloat) (z : Z) : bool :=
  match f with
  | S754_zero _ => 0 <=? z
  | S754_infinity s => s
  | S754_nan => false
  | S754_finite s m e =>
      let sm := if s then Z.neg m else Z.pos m in
      if 0 <=? e then sm * 2 ^ e <=? z else sm <=? z * 2 ^ (- e)
  end.

Definition Z_le_float (z : Z) (f : pyfloat) : bool :=
  match f with
  | S754_zero _ => z <=? 0
  | S754_infinity s => negb s
  | S754_nan => false
  | S754_finite s m e =>
      let sm := if s then Z.neg m else Z.pos m in
      if 0 <=? e then z <=? sm * 2 ^ e else z * 2 ^ (- e) <=? sm
  end.

Definition float_leb (f g : pyfloat) : bool := SFleb f g.

(** ** Arithmetic *)

Definition prec : Z := 53.
Definition emax : Z := 1024.

Definition float_add (f g : pyfloat) : pyfloat := SFadd prec emax f g.
Definition float_sub (f g : pyfloat) : pyfloat := SFsub prec emax f g.

(** [float(z)], rounded to nearest; an integer too large is refused. *)
Definition float_of_Z (z : Z) : res pyfloat :=
  match binary_normalize prec emax z 0 false with
  | S754_infinity _ => Raise OverflowError
  | f => Ok f
  end.

(** ** Shortest decimal representation *)

(** A non-negative rational as a pair of integers, the second positive. *)
Definition scale2 (n e : Z) : Z * Z := if 0 <=? e then (n * 2 ^ e, 1) else (n, 2 ^ (- e)).
Definition scale10 (n e : Z) : Z * Z := if 0 <=? e then (n * 10 ^ e, 1) else (n, 10 ^ (- e)).
Definition rat_leb (x y : Z * Z) : bool := fst x * snd y <=? fst y * snd x.
Definition rat_ltb (x y : Z * Z) : bool := fst x * snd y <? fst y * snd x.

(** The least [k] from [k0] up with [x < 10 ^ k]. *)
Fixpoint decimal_point (fuel : nat) (x : Z * Z) (k : Z) : Z :=
  match fuel with
  | O => k
  | S fuel => if rat_ltb x (scale10 1 k) then k else decimal_point fuel x (k + 1)
  end.

(** A binary64 value lies between 1e-324 and 1e309. *)
Definition float_decpt (x : Z * Z) : Z := decimal_point 640 x (-325).

(** The best [n]-digit decimal within the interval of values that round to
    the float, if there is one. *)
Definition digits_candidate (m : positive) (e decpt n : Z) : option Z :=
  let x := scale2 (Z.pos m) e in
  let hi := scale2 (4 * Z.pos m + 2) (e - 2) in
  let lo := scale2 (4 * Z.pos m - (if (Z.pos m =? 2 ^ 52) && (-1074 <? e) then 1 else 2)) (e - 2) in
  let closed := Z.even (Z.pos m) in
  let inside c :=
    let d := scale10 c (decpt - n) in
    if closed then rat_leb lo d && rat_leb d hi else rat_ltb lo d && rat_ltb d hi in
  let u := scale10 1 (decpt - n) in
  let q := (fst x * snd u) / (snd x * fst u) in
  let twice_frac := 2 * (fst x * snd u - q * (snd x * fst u)) in
  let nearer_up := if twice_frac =? snd x * fst u then Z.odd q else snd x * fst u <? twice_frac in
  match inside q, inside (q + 1) with
  | true, true => Some (if nearer_up then q + 1 else q)
  | true, false => Some q
  | false, true => Some (q + 1)
  | false, false => None
  end.

Fixpoint shortest_digits (fuel : nat) (m : positive) (e decpt n : Z) : Z * Z :=
  match fuel with
  | O => (0, n)
  | S fuel =>
      match digits_candidate m e decpt n with
      | Some c => (c, n)
      | None => shortest_digits fuel m e decpt (n + 1)
      end
  end.

Fixpoint zeros (n : nat) : string :=
  match n with O => EmptyString | S n => String "0" (zeros n) end.

Fixpoint strip_trailing_zeros (s : string) : string :=
  match s with
  | EmptyString => EmptyString
  | String c t =>
      match strip_trailing_zeros t with
      | EmptyString => if is_char "0" c then EmptyString else String c EmptyString
      | u => String c u
      end
  end.

(** Digits [ds] with the decimal point after [decpt] of them. *)
Definition place_point (ds : string) (decpt : Z) : string :=
  let len := Z.of_nat (String.length ds) in
  if decpt <=? 0 then "0." +:+ zeros (Z.to_nat (- decpt)) +:+ ds
  else if len <=? decpt then ds +:+ zeros (Z.to_nat (decpt - len)) +:+ ".0"
  else str_take (Z.to_nat decpt) ds +:+ "." +:+ str_drop (Z.to_nat decpt) ds.

Definition exponent_form (ds : string) (decpt : Z) : string :=
  let x := decpt - 1 in
  let ax := Z.abs x in
  str_take 1 ds +:+
  (if bool_decide (str_drop 1 ds = EmptyString) then EmptyString else "." +:+ str_drop 1 ds) +:+
  "e" +:+ (if x <? 0 then "-" else "+") +:+
  (if ax <? 10 then "0" else EmptyString) +:+ show_nonneg 10 ax.

(** [repr(f)] *)
Definition float_repr (f : pyfloat) : string :=
  match f with
  | S754_nan => "nan"
  | S754_infinity s => if s then "-inf" else "inf"
  | S754_zero s => if s then "-0.0" else "0.0"
  | S754_finite s m e =>
      let decpt0 := float_decpt (scale2 (Z.pos m) e) in
      let '(c, n) := shortest_digits 17 m e decpt0 1 in
      let text := show_nonneg 10 c in
      let decpt := decpt0 + (Z.of_nat (String.length text) - n) in
      let ds := strip_trailing_zeros text in
      (if s then "-" else EmptyString) +:+
      (if (-4 <? decpt) && (decpt <=? 16) then place_point ds decpt else exponent_form ds decpt)
  end.
