(* ===== verification/PyObj.v ===== *)
(** * Python objects

    The values [json.loads] produces and the operations the tools apply to
    them: subscripts, [dict.get], [in], [isinstance], [==], truth, [str] and
    [repr].  A [dict] keeps its insertion order.  An operation that Python
    refuses raises the exception Python raises. *)

From Stdlib Require Import Ascii String.
From S2P Require Import Prelude PyStr PyFloat.

Inductive pyobj :=
  | PyNone
  | PyBool (b : bool)
  | PyInt (z : Z)
  | PyFloat (f : pyfloat)
  | PyStr (s : string)
  | PyList (l : list pyobj)
  | PyDict (d : list (string * pyobj)).

Abbreviation pydict := (list (string * pyobj)).

(** ** Types and truth *)

(** [isinstance(v, int)]: a [bool] is an [int] of Python. *)
Definition as_int (v : pyobj) : option Z :=
  match v with
  | PyBool b => Some (if b then 1 else 0)%Z
  | PyInt z => Some z
  | _ => None
  end.

(** [isinstance(v, int) and not isinstance(v, bool)] *)
Definition strict_int (v : pyobj) : option Z :=
  match v with PyInt z => Some z | _ => None end.

Definition as_str (v : pyobj) : option string :=
  match v with PyStr s => Some s | _ => None end.

Definition is_bool (v : pyobj) : bool := match v with PyBool _ => true | _ => false end.
Definition is_str (v : pyobj) : bool := match v with PyStr _ => true | _ => false end.

(** [bool(v)] *)
Definition truthy (v : pyobj) : bool :=
  match v with
  | PyNone => false
  | PyBool b => b
  | PyInt z => negb (z =? 0)%Z
  | PyFloat f => float_truthy f
  | PyStr s => negb (bool_decide (s = EmptyString))
  | PyList l => match l with [] => false | _ => true end
  | PyDict d => match d with [] => false | _ => true end
  end.

Definition hashable (v : pyobj) : bool :=
  match v with PyList _ | PyDict _ => false | _ => true end.

(** ** Dictionaries *)

Fixpoint dict_get (d : pydict) (k : string) : option pyobj :=
  match d with
  | [] => None
  | (k', v) :: d => if decide (k = k') then Some v else dict_get d k
  end.

(** [d[k] = v]: an existing key keeps its place. *)
Fixpoint dict_set {A} (d : list (string * A)) (k : string) (v : A) : list (string * A) :=
  match d with
  | [] => [(k, v)]
  | (k', v') :: d => if decide (k = k') then (k, v) :: d else (k', v') :: dict_set d k v
  end.

Definition dict_has (d : pydict) (k : string) : bool :=
  match dict_get d k with Some _ => true | None => false end.

(** [v[k]] *)
Definition getitem (v : pyobj) (k : string) : res pyobj :=
  match v with
  | PyDict d => match dict_get d k with Some x => Ok x | None => Raise (KeyError k) end
  | _ => Raise TypeError
  end.

(** [v.get(k, default)] *)
Definition get_default (v : pyobj) (k : string) (default : pyobj) : res pyobj :=
  match v with
  | PyDict d => Ok (from_option id default (dict_get d k))
  | _ => Raise AttributeError
  end.

(** ** Equality and membership *)

Definition num_eqb (a b : pyobj) : bool :=
  match a, b with
  | PyFloat f, PyFloat g => float_eqb f g
  | PyFloat f, _ => match as_int b with Some z => float_is_Z f z | None => false end
  | _, PyFloat g => match as_int a with Some z => float_is_Z g z | None => false end
  | _, _ => match as_int a, as_int b with Some x, Some y => (x =? y)%Z | _, _ => false end
  end.

(** [a == b] *)
Fixpoint py_eqb (a b : pyobj) {struct a} : bool :=
  match a, b with
  | PyNone, PyNone => true
  | PyStr s, PyStr t => bool_decide (s = t)
  | PyList l, PyList k =>
      (fix list_eqb (l k : list pyobj) : bool :=
         match l, k with
         | [], [] => true
         | x :: l, y :: k => py_eqb x y && list_eqb l k
         | _, _ => false
         end) l k
  | PyDict d, PyDict e =>
      (length d =? length e) &&
      (fix dict_sub (d : pydict) : bool :=
         match d with
         | [] => true
         | (k, x) :: d =>
             match dict_get e k with Some y => py_eqb x y | None => false end && dict_sub d
         end) d
  | _, _ => num_eqb a b
  end.

(** [x in c] *)
Definition py_in (x c : pyobj) : res bool :=
  match c with
  | PyList l => Ok (existsb (py_eqb x) l)
  | PyStr s => match x with PyStr t => Ok (str_contains t s) | _ => Raise TypeError end
  | PyDict d =>
      if hashable x then Ok (match x with PyStr k => dict_has d k | _ => false end)
      else Raise TypeError
  | _ => Raise TypeError
  end.

(** [lo <= v <= hi] *)
Definition py_between (lo : Z) (v : pyobj) (hi : Z) : res bool :=
  match v with
  | PyFloat f => Ok (Z_le_float lo f && float_le_Z f hi)
  | _ => match as_int v with
         | Some z => Ok ((lo <=? z)%Z && (z <=? hi)%Z)
         | None => Raise TypeError
         end
  end.

(** [a <= b] *)
Definition num_le (a b : pyobj) : res bool :=
  match a, b with
  | PyFloat f, PyFloat g => Ok (float_leb f g)
  | PyFloat f, _ => match as_int b with Some z => Ok (float_le_Z f z) | None => Raise TypeError end
  | _, PyFloat g => match as_int a with Some z => Ok (Z_le_float z g) | None => Raise TypeError end
  | _, _ => match as_int a, as_int b with Some x, Some y => Ok (x <=? y)%Z | _, _ => Raise TypeError end
  end.

Fixpoint py_le (a b : pyobj) {struct a} : res bool :=
  match a, b with
  | PyStr s, PyStr t => Ok (String.leb s t)
  | PyList l, PyList k =>
      (fix list_le (l k : list pyobj) : res bool :=
         match l, k with
         | [], _ => Ok true
         | _ :: _, [] => Ok false
         | x :: l, y :: k => if py_eqb x y then list_le l k else py_le x y
         end) l k
  | _, _ => num_le a b
  end.

(** Arithmetic on numbers; an [int] meets a [float] as a [float]. *)
Definition num_op (zop : Z -> Z -> Z) (fop : pyfloat -> pyfloat -> pyfloat) (a b : pyobj) : res pyobj :=
  match a, b with
  | PyFloat f, PyFloat g => Ok (PyFloat (fop f g))
  | PyFloat f, _ =>
      match as_int b with
      | Some z => g ← float_of_Z z; Ok (PyFloat (fop f g))
      | None => Raise TypeError
      end
  | _, PyFloat g =>
      match as_int a with
      | Some z => f ← float_of_Z z; Ok (PyFloat (fop f g))
      | None => Raise TypeError
      end
  | _, _ =>
      match as_int a, as_int b with
      | Some x, Some y => Ok (PyInt (zop x y))
      | _, _ => Raise TypeError
      end
  end.

(** [a + b] and [a - b] *)
Definition py_add (a b : pyobj) : res pyobj :=
  match a, b with
  | PyStr s, PyStr t => Ok (PyStr (s +:+ t))
  | PyList l, PyList k => Ok (PyList (l ++ k))
  | _, _ => num_op Z.add float_add a b
  end.
Definition py_sub (a b : pyobj) : res pyobj := num_op Z.sub float_sub a b.

(** [list(c)], the objects an iteration yields. *)
Definition py_iter (c : pyobj) : res (list pyobj) :=
  match c with
  | PyList l => Ok l
  | PyStr s => Ok ((fun c => PyStr (String c EmptyString)) <$> list_ascii_of_string s)
  | PyDict d => Ok (PyStr <$> d.*1)
  | _ => Raise TypeError
  end.

(** [set(c)], as the list of the elements added. *)
Definition py_set (c : pyobj) : res (list pyobj) :=
  l ← py_iter c; raise_if (negb (forallb hashable l)) TypeError ;; Ok l.

(** [sorted] of a set of strings: Python orders strings by code points. *)
Definition sorted_strs (s : gset string) : list string := merge_sort String.le (elements s).

(** [len(v)] of a list. *)
Definition as_list (v : pyobj) : option (list pyobj) :=
  match v with PyList l => Some l | _ => None end.

(** ** Printing *)

Fixpoint py_repr (v : pyobj) : string :=
  match v with
  | PyNone => "None"
  | PyBool b => if b then "True" else "False"
  | PyInt z => str_of_Z z
  | PyFloat f => float_repr f
  | PyStr s => str_repr s
  | PyList l =>
      "[" +:+ str_join ", " ((fix reprs (l : list pyobj) :=
        match l with [] => [] | x :: l => py_repr x :: reprs l end) l) +:+ "]"
  | PyDict d =>
      "{" +:+ str_join ", " ((fix items (d : pydict) :=
        match d with
        | [] => []
        | (k, x) :: d => (str_repr k +:+ ": " +:+ py_repr x) :: items d
        end) d) +:+ "}"
  end.

(** [format(f, ",")]: the digits before the point are grouped. *)
Fixpoint split_digits (s : string) : string * string :=
  match s with
  | String c t =>
      if is_digit c then let '(a, b) := split_digits t in (String c a, b) else (EmptyString, s)
  | EmptyString => (EmptyString, EmptyString)
  end.

Definition group_repr (s : string) : string :=
  let '(sign, body) := match s with String "-" t => ("-", t) | _ => (EmptyString, s) end in
  let '(digits, rest) := split_digits body in
  sign +:+ group3 digits +:+ rest.

(** [format(v, ",")] *)
Definition py_format_grouped (v : pyobj) : res string :=
  match v with
  | PyFloat f => Ok (group_repr (float_repr f))
  | PyStr _ => Raise (ValueError "Cannot specify ',' with 's'.")
  | _ => match as_int v with Some z => Ok (str_of_Z_grouped z) | None => Raise TypeError end
  end.

(** [str(v)], what an f-string interpolates. *)
Definition py_str (v : pyobj) : string :=
  match v with PyStr s => s | _ => py_repr v end.

(** [sorted(d.items())]: the keys of a dict differ, so the values are never
    compared. *)
Definition item_le (a b : string * pyobj) : Prop := String.le a.1 b.1.

#[export] Instance item_le_dec : RelDecision item_le.
Proof. intros a b. unfold item_le. apply _. Defined.

Definition sorted_items (d : pydict) : pydict := merge_sort item_le d.

(** The keys of a dict are distinct, at every depth. *)
Fixpoint wf_obj (v : pyobj) : bool :=
  match v with
  | PyList l => (fix all (l : list pyobj) := match l with [] => true | x :: l => wf_obj x && all l end) l
  | PyDict d =>
      bool_decide (NoDup d.*1) &&
      (fix all (d : pydict) := match d with [] => true | (_, x) :: d => wf_obj x && all d end) d
  | _ => true
  end.

(** * Properties *)

(** Induction on objects. *)
Lemma pyobj_ind' (P : pyobj -> Prop) :
  P PyNone -> (forall b, P (PyBool b)) -> (forall z, P (PyInt z)) -> (forall f, P (PyFloat f)) ->
  (forall s, P (PyStr s)) -> (forall l, Forall P l -> P (PyList l)) ->
  (forall d, Forall (fun kv => P kv.2) d -> P (PyDict d)) -> forall v, P v.
Proof.
  intros Hn Hb Hz Hf Hs Hl Hd. fix IH 1.
  intros [ |b|z|f|s|l|d]; [apply Hn|apply Hb|apply Hz|apply Hf|apply Hs| |].
  - apply Hl. induction l as [|x l IHl]; constructor; [apply IH|exact IHl].
  - apply Hd. induction d as [|[k x] d IHd]; constructor; [apply IH|exact IHd].
Qed.

Lemma wf_list l : wf_obj (PyList l) = true <-> Forall (fun x => wf_obj x = true) l.
Proof.
  cbn. induction l as [|x l IH]; [split; [constructor|done]|].
  rewrite andb_true_iff, Forall_cons, IH. done.
Qed.

Lemma wf_dict d :
  wf_obj (PyDict d) = true <-> NoDup d.*1 /\ Forall (fun kv => wf_obj kv.2 = true) d.
Proof.
  cbn [wf_obj]. rewrite andb_true_iff, bool_decide_eq_true. f_equiv.
  induction d as [|[k x] d IH]; [split; [constructor|done]|].
  rewrite andb_true_iff, Forall_cons, IH. done.
Qed.

(** ** Dictionaries *)

Lemma dict_get_elem d k v : dict_get d k = Some v -> (k, v) ∈ d.
Proof.
  induction d as [|[k' v'] d IH]; cbn; [done|]. case_decide; [intros [= ->]; subst; left|].
  intros Hd. right. auto.
Qed.

Lemma dict_get_is_Some d k : is_Some (dict_get d k) <-> k ∈ d.*1.
Proof.
  induction d as [|[k' v'] d IH]; cbn.
  { split; [by intros []|inversion 1]. }
  rewrite elem_of_cons. case_decide; [split; [by left|by eauto]|].
  rewrite IH. naive_solver.
Qed.

Lemma dict_get_None d k : dict_get d k = None <-> k ∉ d.*1.
Proof. rewrite <- dict_get_is_Some, eq_None_not_Some. done. Qed.

Lemma elem_dict_get d k v : NoDup d.*1 -> (k, v) ∈ d -> dict_get d k = Some v.
Proof.
  induction d as [|[k' v'] d IH]; cbn; [inversion 2|].
  rewrite NoDup_cons, elem_of_cons. intros [Hk Hd] [[= -> ->]|Hin].
  - by rewrite decide_True.
  - case_decide as Heq; [|auto]. subst. destruct Hk. apply list_elem_of_fmap. by exists (k', v).
Qed.

Lemma dict_get_wf d k v :
  wf_obj (PyDict d) = true -> dict_get d k = Some v -> wf_obj v = true.
Proof.
  intros [_ Hd]%wf_dict Hk. rewrite Forall_forall in Hd.
  by apply (Hd (k, v)), dict_get_elem.
Qed.

Lemma dict_set_get {A} (d : list (string * A)) k v :
  forall k', List.find (fun kv => bool_decide (kv.1 = k')) (dict_set d k v) =
    if decide (k = k') then Some (k, v) else List.find (fun kv => bool_decide (kv.1 = k')) d.
Proof.
  intros k'. induction d as [|[k1 v1] d IH]; cbn.
  - case_bool_decide; case_decide; congruence.
  - destruct (decide (k = k1)) as [<-|Hne]; cbn; [|rewrite IH];
      case_bool_decide; case_decide; congruence.
Qed.

Lemma getitem_dict d k v : getitem (PyDict d) k = Ok v <-> dict_get d k = Some v.
Proof. cbn. destruct (dict_get d k); split; congruence. Qed.

(** ** Sorted sets *)

#[export] Instance item_le_total : Total item_le.
Proof. intros a b. apply (total String.le). Qed.

Lemma sorted_strs_elem s x : x ∈ sorted_strs s <-> x ∈ s.
Proof.
  unfold sorted_strs. rewrite merge_sort_Permutation. apply elem_of_elements.
Qed.

Lemma sorted_strs_nil s : sorted_strs s = [] <-> s = ∅.
Proof.
  split.
  - intros H. apply set_eq. intros x. rewrite <- sorted_strs_elem, H. set_solver.
  - intros ->. unfold sorted_strs. by rewrite elements_empty.
Qed.

Lemma sorted_items_elem d x : x ∈ sorted_items d <-> x ∈ d.
Proof. unfold sorted_items. by rewrite merge_sort_Permutation. Qed.

(** Sorting gives the same list for every enumeration of a set. *)
Lemma sorted_strs_sorted s : StronglySorted String.le (sorted_strs s).
Proof. apply (StronglySorted_merge_sort String.le). Qed.

(** ** Equality *)

Lemma py_eqb_str v s : py_eqb v (PyStr s) = true <-> v = PyStr s.
Proof.
  destruct v; cbn; try (split; [discriminate|discriminate]).
  - by rewrite bool_decide_eq_true; split; [intros ->|intros [= ->]].
Qed.

Lemma py_eqb_int v z : py_eqb v (PyInt z) = num_eqb v (PyInt z).
Proof. by destruct v. Qed.
