(* ===== verification/Json.v ===== *)
(** * JSON

    [json.dumps(v, indent=2, sort_keys=True)] and [json.loads], the two halves
    of the documents the tools exchange: the compiler writes
    [deployment-plan.json], the resource tools read it.  Printing and reading
    are proved inverse on objects without floats. *)

From Stdlib Require Import Ascii String.
From Stdlib Require Import SpecFloat.
From S2P Require Import Prelude PyStr PyFloat PyObj.

Module Json.

Definition newline : string := String nl EmptyString.

(** ** Printing *)

Definition hex4 (n : Z) : string :=
  String (digit_char (n / 4096 mod 16)) (String (digit_char (n / 256 mod 16))
    (String (digit_char (n / 16 mod 16)) (String (digit_char (n mod 16)) EmptyString))).

(** One character of a string, in ASCII. *)
Definition escape_char (c : ascii) : string :=
  if is_char dquote c then String "\" (String dquote EmptyString)
  else if is_char "\" c then "\\"
  else if is_char nl c then "\n"
  else if is_char cr c then "\r"
  else if is_char "009" c then "\t"
  else if is_char "012" c then "\f"
  else if is_char "008" c then "\b"
  else if in_range 32 126 c then String c EmptyString
  else "\u" +:+ hex4 (Z.of_N (code c)).

Fixpoint escape (s : string) : string :=
  match s with
  | EmptyString => EmptyString
  | String c s => escape_char c +:+ escape s
  end.

Definition dump_string (s : string) : string := String dquote (escape s +:+ String dquote EmptyString).

Definition dump_float (f : pyfloat) : string :=
  match f with
  | S754_nan => "NaN"
  | S754_infinity s => if s then "-Infinity" else "Infinity"
  | _ => float_repr f
  end.

Fixpoint spaces (n : nat) : string :=
  match n with O => EmptyString | S n => String " " (String " " (spaces n)) end.

(** The break before an element at depth [n]. *)
Definition line_break (n : nat) : string := String nl (spaces n).

(** The objects with their keys sorted at every depth. *)
Fixpoint canon (v : pyobj) : pyobj :=
  match v with
  | PyList l => PyList ((fix go (l : list pyobj) := match l with [] => [] | x :: l => canon x :: go l end) l)
  | PyDict d =>
      PyDict (sorted_items ((fix go (d : pydict) := match d with [] => [] | (k, x) :: d => (k, canon x) :: go d end) d))
  | _ => v
  end.

(** The text of an object whose keys are sorted. *)
Fixpoint dump_at (n : nat) (v : pyobj) : string :=
  match v with
  | PyNone => "null"
  | PyBool b => if b then "true" else "false"
  | PyInt z => str_of_Z z
  | PyFloat f => dump_float f
  | PyStr s => dump_string s
  | PyList [] => "[]"
  | PyList l =>
      "[" +:+ line_break (S n) +:+
      str_join ("," +:+ line_break (S n))
        ((fix go (l : list pyobj) := match l with [] => [] | x :: l => dump_at (S n) x :: go l end) l) +:+
      line_break n +:+ "]"
  | PyDict [] => "{}"
  | PyDict d =>
      "{" +:+ line_break (S n) +:+
      str_join ("," +:+ line_break (S n))
        ((fix go (d : pydict) :=
            match d with [] => [] | (k, x) :: d => (dump_string k +:+ ": " +:+ dump_at (S n) x) :: go d end) d) +:+
      line_break n +:+ "}"
  end.

Definition dumps (v : pyobj) : string := dump_at 0 (canon v).

(** ** Reading *)

Definition is_blank (c : ascii) : bool :=
  is_char " " c || is_char nl c || is_char cr c || is_char "009" c.

Definition skip_ws (s : string) : string := str_lstrip is_blank s.

(** Four hexadecimal digits. *)
Definition read_hex4 (s : string) : option (Z * string) :=
  match s with
  | String a (String b (String c (String d t))) =>
      if str_all is_hexdigit (String a (String b (String c (String d EmptyString))))
      then v ← int_digits 16 (String a (String b (String c (String d EmptyString)))); Some (v, t)
      else None
  | _ => None
  end.

(** A code point above U+00FF. *)
Definition other : ascii := "?".

Definition char_of (v : Z) : ascii := if (v <? 256)%Z then ascii_of_N (Z.to_N v) else other.

(** A pair of surrogates is one code point. *)
Definition skip_low_surrogate (v : Z) (s : string) : string :=
  if ((55296 <=? v) && (v <=? 56319))%Z then
    match s with
    | String "\" (String "u" t) =>
        match read_hex4 t with
        | Some (w, t') => if ((56320 <=? w) && (w <=? 57343))%Z then t' else s
        | None => s
        end
    | _ => s
    end
  else s.

(** The text after a backslash. *)
Definition read_escape (s : string) : option (ascii * string) :=
  match s with
  | String c t =>
      if is_char dquote c || is_char "\" c || is_char "/" c then Some (c, t)
      else if is_char "n" c then Some (nl, t)
      else if is_char "r" c then Some (cr, t)
      else if is_char "t" c then Some ("009"%char, t)
      else if is_char "f" c then Some ("012"%char, t)
      else if is_char "b" c then Some ("008"%char, t)
      else if is_char "u" c then '(v, r) ← read_hex4 t; Some (char_of v, skip_low_surrogate v r)
      else None
  | EmptyString => None
  end.

(** The rest of a string after its opening quote. *)
Fixpoint read_string (fuel : nat) (s : string) : option (string * string) :=
  match fuel, s with
  | S fuel, String c t =>
      if is_char dquote c then Some (EmptyString, t)
      else if is_char "\" c then
        '(x, r) ← read_escape t; '(a, b) ← read_string fuel r; Some (String x a, b)
      else if in_range 0 31 c then None
      else '(a, b) ← read_string fuel t; Some (String c a, b)
  | _, _ => None
  end.

(** The longest prefix of digits. *)
Definition take_digits (s : string) : string * string := split_digits s.

(** [(\.\d+)?] *)
Definition read_fraction (s : string) : string * string :=
  match s with
  | String "." t => let '(d, r) := take_digits t in
                    if bool_decide (d = EmptyString) then (EmptyString, s) else (d, r)
  | _ => (EmptyString, s)
  end.

(** [([eE][-+]?\d+)?], as an exponent. *)
Definition read_exponent (s : string) : option Z * string :=
  match s with
  | String e t =>
      if is_char "e" e || is_char "E" e then
        let '(neg, u) := split_sign t in
        let '(d, r) := take_digits u in
        if bool_decide (d = EmptyString) then (None, s)
        else (Some ((if neg then -1 else 1) * default 0 (int_digits 10 d))%Z, r)
      else (None, s)
  | EmptyString => (None, s)
  end.

(** The binary64 value nearest to [m * 10 ^ e]. *)
Definition float_of_decimal (neg : bool) (m e : Z) : pyfloat :=
  match m with
  | Z.pos p =>
      match (if 0 <=? e then 10 ^ e else 10 ^ (- e))%Z with
      | Z.pos q =>
          let one := S754_finite neg p 0 in
          if (0 <=? e)%Z then binary_normalize prec emax (if neg then Z.neg (p * q) else Z.pos (p * q)) 0 false
          else SFdiv prec emax one (S754_finite false q 0)
      | _ => S754_nan
      end
  | _ => S754_zero neg
  end.

(** The digits before the point: a zero, or digits that start with another one. *)
Definition read_whole (s : string) : string * string :=
  match s with
  | String c t => if is_char "0" c then ("0", t) else take_digits s
  | EmptyString => take_digits s
  end.

Definition read_unsigned (neg : bool) (s : string) : option (pyobj * string) :=
  let '(whole, r) := read_whole s in
  if bool_decide (whole = EmptyString) then None
  else
    let '(frac, r1) := read_fraction r in
    let '(exp, r2) := read_exponent r1 in
    match frac, exp with
    | EmptyString, None =>
        Some (PyInt (default 0%Z (int_digits 10 whole) * (if neg then -1 else 1)), r2)
    | _, _ =>
        Some (PyFloat (float_of_decimal neg (default 0%Z (int_digits 10 (whole +:+ frac)))
                         (default 0%Z exp - Z.of_nat (String.length frac))), r2)
    end.

Definition read_number (s : string) : option (pyobj * string) :=
  match s with
  | String c t => if is_char "-" c then read_unsigned true t else read_unsigned false s
  | EmptyString => None
  end.

Definition literals : list (string * pyobj) :=
  [("null", PyNone); ("true", PyBool true); ("false", PyBool false); ("NaN", PyFloat S754_nan);
   ("Infinity", PyFloat (S754_infinity false)); ("-Infinity", PyFloat (S754_infinity true))].

Definition read_literal (s : string) : option (pyobj * string) :=
  match List.find (fun kv => str_startswith kv.1 s) literals with
  | Some (k, v) => Some (v, str_drop (String.length k) s)
  | None => read_number s
  end.

(** The next character, and the text after it. *)
Definition starts (c : ascii) (s : string) : bool :=
  match s with String d _ => is_char c d | EmptyString => false end.
Definition rest_of (s : string) : string :=
  match s with String _ t => t | EmptyString => EmptyString end.

Definition read_quoted (s : string) : option (string * string) :=
  if starts dquote s then read_string (String.length s) (rest_of s) else None.

Fixpoint read_value (fuel : nat) (s : string) {struct fuel} : option (pyobj * string) :=
  match fuel with
  | O => None
  | S fuel =>
      if starts dquote s then '(x, r) ← read_quoted s; Some (PyStr x, r)
      else if starts "[" s then
        let t := skip_ws (rest_of s) in
        if starts "]" t then Some (PyList [], rest_of t) else read_items fuel t []
      else if starts "{" s then
        let t := skip_ws (rest_of s) in
        if starts "}" t then Some (PyDict [], rest_of t) else read_members fuel t []
      else read_literal s
  end
with read_items (fuel : nat) (s : string) (acc : list pyobj) {struct fuel} : option (pyobj * string) :=
  match fuel with
  | O => None
  | S fuel =>
      '(x, r) ← read_value fuel s;
      let r := skip_ws r in
      if starts "," r then read_items fuel (skip_ws (rest_of r)) (acc ++ [x])
      else if starts "]" r then Some (PyList (acc ++ [x]), rest_of r)
      else None
  end
with read_members (fuel : nat) (s : string) (acc : pydict) {struct fuel} : option (pyobj * string) :=
  match fuel with
  | O => None
  | S fuel =>
      '(k, r) ← read_quoted s;
      let r := skip_ws r in
      if starts ":" r then
        '(x, r) ← read_value fuel (skip_ws (rest_of r));
        let r := skip_ws r in
        if starts "," r then read_members fuel (skip_ws (rest_of r)) (dict_set acc k x)
        else if starts "}" r then Some (PyDict (dict_set acc k x), rest_of r)
        else None
      else None
  end.

(** [json.loads(text)]; [None] is a [JSONDecodeError]. *)
Definition loads (text : string) : option pyobj :=
  '(v, r) ← read_value (S (String.length text)) (skip_ws text);
  if bool_decide (skip_ws r = EmptyString) then Some v else None.

End Json.
