(* ===== verification/JsonSpec.v ===== *)
(** * Printing and reading JSON are inverse

    Reading the text of an object without floats gives the object back, with
    its keys in the printed order. *)

From Stdlib Require Import Ascii String.
From Stdlib Require Import SpecFloat.
From S2P Require Import Prelude PyStr PyFloat PyObj Json.

Module JsonSpec.
Import Json.

(** No float at any depth. *)
Fixpoint plain (v : pyobj) : bool :=
  match v with
  | PyFloat _ => false
  | PyList l => (fix all (l : list pyobj) := match l with [] => true | x :: l => plain x && all l end) l
  | PyDict d => (fix all (d : pydict) := match d with [] => true | (_, x) :: d => plain x && all d end) d
  | _ => true
  end.

Lemma plain_list l : plain (PyList l) = true <-> Forall (fun x => plain x = true) l.
Proof.
  cbn. induction l as [|x l IH]; [split; [constructor|done]|].
  rewrite andb_true_iff, Forall_cons, IH. done.
Qed.

Lemma plain_dict d : plain (PyDict d) = true <-> Forall (fun kv => plain kv.2 = true) d.
Proof.
  cbn. induction d as [|[k x] d IH]; [split; [constructor|done]|].
  rewrite andb_true_iff, Forall_cons, IH. done.
Qed.

(** ** Strings *)

Lemma read_string_char fuel c t :
  read_string (S fuel) (escape_char c +:+ t) = ('(a, b) ← read_string fuel t; Some (String c a, b)).
Proof. by destruct c as [[] [] [] [] [] [] [] []]. Qed.

Lemma escape_char_length c : 1 <= String.length (escape_char c).
Proof.
  assert (forall c, (1 <=? String.length (escape_char c)) = true) as H.
  { apply ascii_forallb. vm_compute. reflexivity. }
  apply Nat.leb_le, H.
Qed.

Lemma read_string_escape fuel s t :
  String.length (escape s) < fuel -> read_string fuel (escape s +:+ String dquote t) = Some (s, t).
Proof.
  revert fuel. induction s as [|c s IH]; intros fuel Hf; cbn [escape] in *.
  - destruct fuel; [lia|]. done.
  - rewrite str_length_app in Hf. pose proof (escape_char_length c).
    destruct fuel; [lia|]. rewrite str_app_assoc, read_string_char, IH by lia. done.
Qed.

(** ** Numbers *)

(** [t] cannot continue a number. *)
Definition ends_number (t : string) : bool :=
  match t with
  | EmptyString => true
  | String c _ => negb (is_digit c || is_char "." c || is_char "e" c || is_char "E" c)
  end.

Lemma split_digits_app d t :
  str_all is_digit d = true -> ends_number t = true -> split_digits (d +:+ t) = (d, t).
Proof.
  intros Hd Ht. induction d as [|c d IH].
  - change (EmptyString +:+ t) with t. destruct t as [|c t]; [done|]. cbn in *.
    rewrite !negb_orb, !andb_true_iff in Ht. destruct Ht as [[[Ht%negb_true_iff _] _] _]. by rewrite Ht.
  - rewrite str_app_cons. cbn [str_all split_digits] in *. apply andb_true_iff in Hd as [Hc Hd].
    by rewrite Hc, IH.
Qed.

Lemma read_fraction_none t : ends_number t = true -> read_fraction t = (EmptyString, t).
Proof.
  destruct t as [|c t]; [done|]. cbn [ends_number]. rewrite !negb_orb, !andb_true_iff, !negb_true_iff.
  intros [[[_ H] _] _]. revert H. clear. by destruct c as [[] [] [] [] [] [] [] []].
Qed.

Lemma read_exponent_none t : ends_number t = true -> read_exponent t = (None, t).
Proof.
  destruct t as [|c t]; [done|]. cbn [ends_number]. rewrite !negb_orb, !andb_true_iff, !negb_true_iff.
  intros [[_ H1] H2]. cbn [read_exponent]. by rewrite H1, H2.
Qed.

Lemma digit_char_not c d :
  (0 <= d < 10)%Z -> is_digit c = false -> is_char c (digit_char d) = false.
Proof.
  intros Hd Hc. apply not_true_iff_false. intros ->%is_char_true.
  by rewrite digit_char_digit in Hc.
Qed.

Lemma read_whole_show n t :
  (0 <= n)%Z -> ends_number t = true -> read_whole (show_nonneg 10 n +:+ t) = (show_nonneg 10 n, t).
Proof.
  intros Hn Ht.
  pose proof (split_digits_app (show_nonneg 10 n) t (show_nonneg_digits n Hn) Ht) as Hs.
  destruct (show_nonneg_shape n Hn) as (d & u & Hd & Heq & Hz).
  destruct (Z.eq_dec d 0%Z) as [->|Hne].
  - rewrite (Hz eq_refl). reflexivity.
  - rewrite Heq in *. rewrite str_app_cons in *. unfold read_whole, take_digits. rewrite Hs.
    assert (is_char "0" (digit_char d) = false) as ->; [|done].
    apply negb_true_iff.
    pose proof (Z_range_forallb (fun d => (d =? 0)%Z || negb (is_char "0" (digit_char d))) 10 eq_refl d Hd) as H.
    cbn beta in H. apply orb_true_iff in H as [H%Z.eqb_eq|H]; done.
Qed.

Lemma read_unsigned_show neg n t :
  (0 <= n)%Z -> ends_number t = true ->
  read_unsigned neg (show_nonneg 10 n +:+ t) = Some (PyInt (n * (if neg then -1 else 1)), t).
Proof.
  intros Hn Ht. unfold read_unsigned. rewrite read_whole_show by done. rewrite bool_decide_false.
  2: { destruct (show_nonneg_shape n Hn) as (d & u & _ & -> & _). done. }
  rewrite (read_fraction_none t Ht), (read_exponent_none t Ht), int_digits_show by lia. done.
Qed.

Lemma read_number_show z t :
  ends_number t = true -> read_number (str_of_Z z +:+ t) = Some (PyInt z, t).
Proof.
  intros Ht. unfold str_of_Z. destruct (Z.ltb_spec z 0) as [Hz|Hz].
  - rewrite str_app_cons. cbn [read_number]. change (is_char "-" "-") with true. cbn iota.
    rewrite read_unsigned_show by (done || lia). do 3 f_equal. lia.
  - pose proof (read_unsigned_show false z t Hz Ht) as H.
    destruct (show_nonneg_shape z Hz) as (d & u & Hd & Heq & _). rewrite Heq in *. rewrite str_app_cons in *.
    cbn [read_number]. rewrite (digit_char_not "-" d), H by done. do 3 f_equal. lia.
Qed.

(** A printed integer starts with a digit or a sign and a digit. *)
Lemma str_of_Z_shape z :
  exists d u, (0 <= d < 10)%Z /\ (str_of_Z z = String (digit_char d) u \/ str_of_Z z = String "-" (String (digit_char d) u)).
Proof.
  unfold str_of_Z. destruct (Z.ltb_spec z 0) as [Hz|Hz].
  - destruct (show_nonneg_shape (- z) ltac:(lia)) as (d & u & Hd & -> & _). exists d, u. auto.
  - destruct (show_nonneg_shape z Hz) as (d & u & Hd & -> & _). exists d, u. auto.
Qed.

Lemma find_literal_digit c t : is_digit c = true ->
  List.find (fun kv : string * pyobj => str_startswith kv.1 (String c t)) literals = None /\
  List.find (fun kv : string * pyobj => str_startswith kv.1 (String "-" (String c t))) literals = None.
Proof. destruct c as [[] [] [] [] [] [] [] []]; try discriminate; intros _; by split. Qed.

Lemma read_literal_int z t :
  ends_number t = true -> read_literal (str_of_Z z +:+ t) = Some (PyInt z, t).
Proof.
  intros Ht. unfold read_literal. rewrite read_number_show by done.
  destruct (str_of_Z_shape z) as (d & u & Hd & [E|E]); rewrite E;
    rewrite !str_app_cons;
    destruct (find_literal_digit (digit_char d) (u +:+ t) (digit_char_digit d Hd)) as [H1 H2];
    by rewrite ?H1, ?H2.
Qed.

(** ** Layout *)

Lemma skip_ws_spaces n t : skip_ws (spaces n +:+ t) = skip_ws t.
Proof. induction n as [|n IH]; [done|]. cbn [spaces]. rewrite !str_app_cons. apply IH. Qed.

Lemma skip_ws_break n t : skip_ws (line_break n +:+ t) = skip_ws t.
Proof. unfold line_break. rewrite str_app_cons. apply (skip_ws_spaces n). Qed.

(** The text does not start with a blank, nor with a character that would close
    an empty container. *)
Definition solid (t : string) : bool :=
  match t with
  | EmptyString => false
  | String c _ => negb (is_blank c || is_char "]" c || is_char "}" c)
  end.

Lemma skip_ws_solid t u : solid t = true -> skip_ws (t +:+ u) = t +:+ u.
Proof.
  destruct t as [|c t]; [done|]. cbn [solid]. rewrite !negb_orb, !andb_true_iff, negb_true_iff.
  intros [[H _] _]. rewrite str_app_cons. unfold skip_ws. cbn. by rewrite H.
Qed.

Lemma dump_list n x l :
  dump_at n (PyList (x :: l)) =
  "[" +:+ line_break (S n) +:+ str_join ("," +:+ line_break (S n)) (dump_at (S n) <$> x :: l) +:+
  line_break n +:+ "]".
Proof. reflexivity. Qed.

Definition dump_member (n : nat) (kv : string * pyobj) : string :=
  dump_string kv.1 +:+ ": " +:+ dump_at n kv.2.

Lemma dump_dict n kv d :
  dump_at n (PyDict (kv :: d)) =
  "{" +:+ line_break (S n) +:+ str_join ("," +:+ line_break (S n)) (dump_member (S n) <$> kv :: d) +:+
  line_break n +:+ "}".
Proof.
  destruct kv as [k x]. cbn [dump_at]. do 3 f_equal. unfold dump_member. cbn [fmap list_fmap fst snd].
  do 2 f_equal. f_equal. induction d as [|[k' x'] d IH]; [done|]. cbn. by rewrite IH.
Qed.

Lemma digit_solid d u : (0 <= d < 10)%Z -> solid (String (digit_char d) u) = true.
Proof.
  intros Hd. cbn. by apply (Z_range_forallb
    (fun d => negb (is_blank (digit_char d) || is_char "]" (digit_char d) || is_char "}" (digit_char d))) 10 eq_refl d).
Qed.

Lemma dump_solid n v : plain v = true -> solid (dump_at n v) = true.
Proof.
  destruct v as [ |b|z|f|s|l|d]; intros Hp; try done.
  - by destruct b.
  - cbn [dump_at]. destruct (str_of_Z_shape z) as (d & u & Hd & [-> | ->]); [by apply digit_solid|done].
  - by destruct l.
  - by destruct d.
Qed.

(** Texts joined with a separator. *)
Lemma join_cons sep x y l : str_join sep (x :: y :: l) = x +:+ sep +:+ str_join sep (y :: l).
Proof. reflexivity. Qed.

Lemma read_quoted_dump s t : read_quoted (dump_string s +:+ t) = Some (s, t).
Proof.
  unfold dump_string, read_quoted. rewrite str_app_cons, str_app_assoc, str_app_cons.
  change (starts dquote (String dquote _)) with true. cbn iota. cbn [rest_of].
  change (EmptyString +:+ t) with t. apply read_string_escape. cbn. rewrite str_length_app. lia.
Qed.

(** Reading back what was printed, after any text that cannot continue it. *)
Definition reads_back (v : pyobj) : Prop :=
  forall n fuel rest, plain v = true -> wf_obj v = true -> ends_number rest = true ->
    String.length (dump_at n v +:+ rest) < fuel -> read_value fuel (dump_at n v +:+ rest) = Some (v, rest).

Lemma read_items_dump n x l acc fuel rest :
  Forall reads_back (x :: l) -> Forall (fun v => plain v = true) (x :: l) ->
  Forall (fun v => wf_obj v = true) (x :: l) ->
  S (String.length (str_join ("," +:+ line_break (S n)) (dump_at (S n) <$> x :: l) +:+
     line_break n +:+ "]" +:+ rest)) < fuel ->
  read_items fuel
    (str_join ("," +:+ line_break (S n)) (dump_at (S n) <$> x :: l) +:+ line_break n +:+ "]" +:+ rest) acc =
  Some (PyList (acc ++ x :: l), rest).
Proof.
  revert x acc fuel. induction l as [|y l IH]; intros x acc fuel Hrb Hp Hwf Hf.
  - cbn [fmap list_fmap str_join String.concat] in *. destruct fuel as [|fuel]; [lia|]. cbn [read_items].
    inversion Hrb as [|? ? Hx _]; inversion Hp; inversion Hwf; subst.
    rewrite (Hx (S n) fuel) by (done || lia). cbn [mbind option_bind].
    rewrite skip_ws_break. change (skip_ws ("]" +:+ rest)) with (String "]" rest).
    change (starts "," (String "]" rest)) with false. change (starts "]" (String "]" rest)) with true. done.
  - rewrite !fmap_cons, join_cons in *. rewrite !str_app_assoc in *.
    set (tl := str_join _ _) in *. destruct fuel as [|fuel]; [lia|]. cbn [read_items].
    inversion Hrb as [|? ? Hx Hrb']; inversion Hp as [|? ? Px Hp']; inversion Hwf as [|? ? Wx Hwf']; subst.
    rewrite (Hx (S n) fuel) by (done || lia). cbn [mbind option_bind].
    change (skip_ws ("," +:+ ?t)) with (String "," t).
    change (starts "," (String "," ?t)) with true. cbn iota. cbn [rest_of]. rewrite skip_ws_break.
    rewrite !str_length_app in Hf. cbn in Hf.
    assert (skip_ws (tl +:+ line_break n +:+ "]" +:+ rest) = tl +:+ line_break n +:+ "]" +:+ rest) as ->.
    { apply skip_ws_solid. unfold tl. inversion Hp' as [|? ? Py _]; subst.
      pose proof (dump_solid (S n) y Py) as Hs. destruct l as [|z l]; [exact Hs|].
      rewrite !fmap_cons, join_cons. destruct (dump_at (S n) y); [done|exact Hs]. }
    etransitivity; [apply (IH y (acc ++ [x]) fuel); try done|by rewrite <- app_assoc].
    change (str_join _ _) with tl. rewrite !str_length_app. cbn. lia.
Qed.

Lemma dict_set_new (d : pydict) k v : k ∉ d.*1 -> dict_set d k v = d ++ [(k, v)].
Proof.
  induction d as [|[k' v'] d IH]; [done|]. rewrite fmap_cons, not_elem_of_cons. intros [Hne Hd]. cbn in *.
  case_decide; [done|]. by rewrite IH.
Qed.

Lemma read_members_dump n kv d acc fuel rest :
  Forall (fun kv => reads_back kv.2) (kv :: d) -> Forall (fun kv => plain kv.2 = true) (kv :: d) ->
  Forall (fun kv => wf_obj kv.2 = true) (kv :: d) -> NoDup (acc ++ kv :: d).*1 ->
  S (String.length (str_join ("," +:+ line_break (S n)) (dump_member (S n) <$> kv :: d) +:+
     line_break n +:+ "}" +:+ rest)) < fuel ->
  read_members fuel
    (str_join ("," +:+ line_break (S n)) (dump_member (S n) <$> kv :: d) +:+ line_break n +:+ "}" +:+ rest) acc =
  Some (PyDict (acc ++ kv :: d), rest).
Proof.
  revert kv acc fuel. induction d as [|kv' d IH]; intros [k x] acc fuel Hrb Hp Hwf Hnd Hf;
    inversion Hrb as [|? ? Hx Hrb']; inversion Hp as [|? ? Px Hp']; inversion Hwf as [|? ? Wx Hwf']; subst;
    cbn [snd] in Hx, Px, Wx;
    assert (k ∉ acc.*1) as Hk by (rewrite fmap_app, NoDup_app in Hnd; destruct Hnd as (_ & Hnd & _);
      intros Hin; apply (Hnd k Hin); apply elem_of_cons; by left).
  - change (str_join _ (dump_member (S n) <$> [(k, x)])) with (dump_member (S n) (k, x)) in *.
    unfold dump_member in *. cbn [fst snd] in *. rewrite !str_app_assoc in *.
    destruct fuel as [|fuel]; [lia|]. cbn [read_members]. rewrite read_quoted_dump. cbn [mbind option_bind].
    change (skip_ws (": " +:+ ?t)) with (String ":" (String " " t)).
    change (starts ":" (String ":" ?t)) with true. cbn iota. cbn [rest_of].
    change (skip_ws (String " " ?t)) with (skip_ws t).
    rewrite skip_ws_solid by (by apply dump_solid).
    rewrite !str_length_app in Hf. cbn in Hf.
    rewrite (Hx (S n) fuel) by (done || (rewrite !str_length_app; cbn; lia)). cbn [mbind option_bind].
    rewrite skip_ws_break. change (skip_ws ("}" +:+ rest)) with (String "}" rest).
    change (starts "," (String "}" rest)) with false. change (starts "}" (String "}" rest)) with true.
    cbn iota. by rewrite dict_set_new.
  - rewrite !fmap_cons, join_cons in *. rewrite !str_app_assoc in *.
    set (tl := str_join _ _) in *.
    assert (skip_ws (tl +:+ line_break n +:+ "}" +:+ rest) = tl +:+ line_break n +:+ "}" +:+ rest) as Htl.
    { apply skip_ws_solid. unfold tl. by destruct d. }
    change (dump_member (S n) (k, x)) with (dump_string k +:+ ": " +:+ dump_at (S n) x) in *.
    rewrite !str_app_assoc in *.
    destruct fuel as [|fuel]; [lia|]. cbn [read_members]. rewrite read_quoted_dump. cbn [mbind option_bind].
    change (skip_ws (": " +:+ ?t)) with (String ":" (String " " t)).
    change (starts ":" (String ":" ?t)) with true. cbn iota. cbn [rest_of].
    change (skip_ws (String " " ?t)) with (skip_ws t).
    rewrite skip_ws_solid by (by apply dump_solid).
    rewrite !str_length_app in Hf. cbn in Hf.
    rewrite (Hx (S n) fuel) by (done || (rewrite !str_length_app; cbn; lia)). cbn [mbind option_bind].
    change (skip_ws ("," +:+ ?t)) with (String "," t).
    change (starts "," (String "," ?t)) with true. cbn iota. cbn [rest_of]. rewrite skip_ws_break, Htl.
    rewrite dict_set_new by done.
    etransitivity; [apply (IH kv' (acc ++ [(k, x)]) fuel); try done|by rewrite <- app_assoc].
    + by rewrite <- app_assoc.
    + change (str_join _ _) with tl. rewrite !str_length_app. cbn. lia.
Qed.

Lemma read_dump v : reads_back v.
Proof.
  induction v as [ |b|z|f|s|l Hl|d Hd] using pyobj_ind'; intros n fuel rest Hp Hwf Hr Hf;
    (destruct fuel as [|fuel]; [lia|]).
  - by destruct rest.
  - by destruct b, rest.
  - cbn [dump_at]. cbn [read_value].
    assert (starts dquote (str_of_Z z +:+ rest) = false /\ starts "[" (str_of_Z z +:+ rest) = false /\
      starts "{" (str_of_Z z +:+ rest) = false) as (-> & -> & ->); [|by apply read_literal_int].
    destruct (str_of_Z_shape z) as (d & u & Hd & [-> | ->]); rewrite str_app_cons; cbn [starts]; [|done].
    by rewrite !digit_char_not.
  - done.
  - cbn [dump_at read_value]. rewrite read_quoted_dump. done.
  - destruct l as [|x l]; [done|]. rewrite dump_list in *. rewrite !str_app_assoc in *.
    cbn [read_value]. change (starts dquote ("[" +:+ ?t)) with false. change (starts "[" ("[" +:+ ?t)) with true.
    cbn iota zeta. change (rest_of ("[" +:+ ?t)) with t. rewrite skip_ws_break.
    apply plain_list in Hp. apply wf_list in Hwf.
    set (tl := str_join _ _) in *.
    assert (solid tl = true) as Hs.
    { unfold tl. inversion Hp as [|? ? Px _]; subst. pose proof (dump_solid (S n) x Px) as Hs.
      destruct l as [|z l]; [exact Hs|]. rewrite !fmap_cons, join_cons. by destruct (dump_at (S n) x). }
    rewrite skip_ws_solid by done.
    assert (starts "]" (tl +:+ line_break n +:+ "]" +:+ rest) = false) as ->.
    { destruct tl as [|c tl]; [done|]. rewrite str_app_cons. cbn in Hs |- *.
      rewrite !negb_orb, !andb_true_iff, !negb_true_iff in Hs. apply Hs. }
    assert (S (String.length (tl +:+ line_break n +:+ "]" +:+ rest)) < fuel) as Hlen.
    { clearbody tl. rewrite !str_length_app in Hf. rewrite !str_length_app. cbn in Hf |- *. lia. }
    exact (read_items_dump n _ _ [] fuel rest ltac:(done) ltac:(done) ltac:(done) Hlen).
  - destruct d as [|kv d]; [done|]. rewrite dump_dict in *. rewrite !str_app_assoc in *.
    cbn [read_value]. change (starts dquote ("{" +:+ ?t)) with false. change (starts "[" ("{" +:+ ?t)) with false.
    change (starts "{" ("{" +:+ ?t)) with true.
    cbn iota zeta. change (rest_of ("{" +:+ ?t)) with t. rewrite skip_ws_break.
    apply plain_dict in Hp. apply wf_dict in Hwf as [Hnd Hwf].
    set (tl := str_join _ _) in *.
    assert (exists u, tl = String dquote u) as [u Hu] by (unfold tl; destruct d; eexists; reflexivity).
    rewrite skip_ws_solid by (by rewrite Hu).
    assert (starts "}" (tl +:+ line_break n +:+ "}" +:+ rest) = false) as -> by (by rewrite Hu).
    assert (S (String.length (tl +:+ line_break n +:+ "}" +:+ rest)) < fuel) as Hlen.
    { clearbody tl. rewrite !str_length_app in Hf. rewrite !str_length_app. cbn in Hf |- *. lia. }
    exact (read_members_dump n _ _ [] fuel rest ltac:(done) ltac:(done) ltac:(done) ltac:(done) Hlen).
Qed.

(** ** Canonical objects *)

Lemma canon_list l : canon (PyList l) = PyList (canon <$> l).
Proof. reflexivity. Qed.

Definition canon_item (kv : string * pyobj) : string * pyobj := (kv.1, canon kv.2).

Lemma canon_dict d : canon (PyDict d) = PyDict (sorted_items (canon_item <$> d)).
Proof.
  cbn [canon]. do 2 f_equal. induction d as [|[k x] d IH]; [done|]. cbn. by rewrite IH.
Qed.

Lemma Forall_mp {A} (P Q : A -> Prop) l : Forall (fun x => P x -> Q x) l -> Forall P l -> Forall Q l.
Proof. induction 1 as [|x l Hx _ IH]; [done|]. intros [Px Pl]%Forall_cons. constructor; auto. Qed.

Lemma sorted_items_perm d : sorted_items d ≡ₚ d.
Proof. apply merge_sort_Permutation. Qed.

Lemma canon_keys d : (canon_item <$> d).*1 = d.*1.
Proof. rewrite <- list_fmap_compose. apply list_fmap_ext. done. Qed.

Lemma canon_plain v : plain v = true -> plain (canon v) = true.
Proof.
  induction v as [ |b|z|f|s|l Hl|d Hd] using pyobj_ind'; try done.
  - rewrite canon_list, !plain_list, Forall_fmap. by apply Forall_mp.
  - rewrite canon_dict, !plain_dict, sorted_items_perm, Forall_fmap.
    by apply (Forall_mp (fun kv => plain kv.2 = true)).
Qed.

Lemma canon_wf v : wf_obj v = true -> wf_obj (canon v) = true.
Proof.
  induction v as [ |b|z|f|s|l Hl|d Hd] using pyobj_ind'; try done.
  - rewrite canon_list, !wf_list, Forall_fmap. by apply Forall_mp.
  - rewrite canon_dict, !wf_dict, sorted_items_perm, Forall_fmap, canon_keys.
    intros [Hnd H]. split; [done|]. by apply (Forall_mp (fun kv => wf_obj kv.2 = true)).
Qed.

(** What was written is read back. *)
Lemma loads_dumps v : plain v = true -> wf_obj v = true -> loads (dumps v) = Some (canon v).
Proof.
  intros Hp Hwf. unfold loads, dumps. apply canon_plain in Hp. apply canon_wf in Hwf.
  set (w := canon v) in *. clearbody w. clear v.
  assert (skip_ws (dump_at 0 w) = dump_at 0 w) as ->.
  { pose proof (skip_ws_solid (dump_at 0 w) EmptyString (dump_solid 0 w Hp)) as H.
    by rewrite str_app_nil_r in H. }
  pose proof (read_dump w 0 (S (String.length (dump_at 0 w))) EmptyString Hp Hwf eq_refl) as H.
  rewrite str_app_nil_r in H. rewrite H by lia. done.
Qed.

(** Also with the final newline of a file. *)
Lemma loads_dumps_line v :
  plain v = true -> wf_obj v = true -> loads (dumps v +:+ newline) = Some (canon v).
Proof.
  intros Hp Hwf. unfold loads, dumps. apply canon_plain in Hp. apply canon_wf in Hwf.
  set (w := canon v) in *. clearbody w. clear v.
  rewrite skip_ws_solid by (by apply dump_solid).
  rewrite (read_dump w 0 _ newline Hp Hwf eq_refl) by lia. done.
Qed.

(** Looking a key up in a document read back. *)
Lemma dict_get_perm (d e : pydict) k : NoDup d.*1 -> d ≡ₚ e -> dict_get d k = dict_get e k.
Proof.
  intros Hnd Hp. destruct (dict_get d k) as [v|] eqn:H.
  - apply dict_get_elem in H. symmetry. apply elem_dict_get; [by rewrite <- Hp|by rewrite <- Hp].
  - symmetry. apply dict_get_None. apply dict_get_None in H. by rewrite <- Hp.
Qed.

Lemma dict_get_canon_items d k : dict_get (canon_item <$> d) k = canon <$> dict_get d k.
Proof.
  induction d as [|[k' v] d IH]; [done|]. cbn. case_decide; [done|]. exact IH.
Qed.

Lemma dict_get_canon d k :
  NoDup d.*1 -> dict_get (sorted_items (canon_item <$> d)) k = canon <$> dict_get d k.
Proof.
  intros Hnd. rewrite <- dict_get_canon_items. apply dict_get_perm; [|apply sorted_items_perm].
  by rewrite sorted_items_perm, canon_keys.
Qed.

(** ** What is read has distinct keys *)

Lemma dict_set_keys {A} (d : list (string * A)) k v x : x ∈ (dict_set d k v).*1 <-> x = k \/ x ∈ d.*1.
Proof.
  induction d as [|[k' v'] d IH]; cbn; [set_solver|]. case_decide; subst; set_solver.
Qed.

Lemma dict_set_NoDup {A} (d : list (string * A)) k v : NoDup d.*1 -> NoDup (dict_set d k v).*1.
Proof.
  induction d as [|[k' v'] d IH]; cbn; [intros _; apply NoDup_singleton|].
  intros [Hn Hd]%NoDup_cons. case_decide as E; cbn; apply NoDup_cons; subst; [done|].
  split; [|auto]. rewrite dict_set_keys. naive_solver.
Qed.

Lemma dict_set_wf d k v :
  wf_obj (PyDict d) = true -> wf_obj v = true -> wf_obj (PyDict (dict_set d k v)) = true.
Proof.
  rewrite !wf_dict. intros [Hn Hd] Hv. split; [by apply dict_set_NoDup|].
  clear Hn. induction Hd as [|[k' v'] d Hx Hd IH]; cbn; [by repeat constructor|].
  case_decide; by constructor.
Qed.

Lemma read_literal_wf s v r : read_literal s = Some (v, r) -> wf_obj v = true.
Proof.
  assert (forall neg t x u, read_unsigned neg t = Some (x, u) -> wf_obj x = true) as Hn.
  { intros neg t x u. unfold read_unsigned. destruct (read_whole t) as [whole r1].
    case_bool_decide; [done|]. destruct (read_fraction r1) as [frac r2].
    destruct (read_exponent r2) as [exp r3]. destruct frac, exp; by intros [= <- _]. }
  unfold read_literal. destruct (List.find _ literals) as [[k x]|] eqn:E.
  { apply find_some in E as [Hin _]. intros [= <- _].
    by repeat destruct Hin as [[= <- <-]|Hin]. }
  unfold read_number. destruct s as [|c t]; [done|]. destruct (is_char "-" c); apply Hn.
Qed.

Lemma read_wf fuel :
  (forall s v r, read_value fuel s = Some (v, r) -> wf_obj v = true) /\
  (forall s acc v r, wf_obj (PyList acc) = true -> read_items fuel s acc = Some (v, r) -> wf_obj v = true) /\
  (forall s acc v r, wf_obj (PyDict acc) = true -> read_members fuel s acc = Some (v, r) -> wf_obj v = true).
Proof.
  induction fuel as [|fuel (IHv & IHi & IHm)]; [done|]. split; [|split].
  - intros s v r. cbn [read_value].
    destruct (starts dquote s).
    { destruct (read_quoted s) as [[x u]|]; [|done]. by intros [= <- _]. }
    destruct (starts "[" s).
    { destruct (starts "]" _); [by intros [= <- _]|]. by apply IHi. }
    destruct (starts "{" s); [|apply read_literal_wf].
    destruct (starts "}" _); [by intros [= <- _]|]. by apply IHm.
  - intros s acc v r Ha. cbn [read_items].
    destruct (read_value fuel s) as [[x u]|] eqn:E; [|done]. cbn [mbind option_bind].
    assert (wf_obj (PyList (acc ++ [x])) = true) as Hx.
    { apply wf_list. apply wf_list in Ha. apply Forall_app. split; [done|]. repeat constructor. by eapply IHv. }
    destruct (starts "," _); [by apply IHi|]. destruct (starts "]" _); [by intros [= <- _]|done].
  - intros s acc v r Ha. cbn [read_members].
    destruct (read_quoted s) as [[k u]|]; [|done]. cbn [mbind option_bind].
    destruct (starts ":" _); [|done]. destruct (read_value fuel _) as [[x t]|] eqn:E; [|done].
    cbn [mbind option_bind].
    assert (wf_obj (PyDict (dict_set acc k x)) = true) as Hx by (apply dict_set_wf; [done|by eapply IHv]).
    destruct (starts "," _); [by apply IHm|]. destruct (starts "}" _); [by intros [= <- _]|done].
Qed.

Lemma loads_wf text v : loads text = Some v -> wf_obj v = true.
Proof.
  unfold loads. destruct (read_value _ _) as [[x r]|] eqn:E; [|done]. cbn [mbind option_bind].
  case_bool_decide; [|done]. intros [= <-]. by apply read_wf in E.
Qed.

End JsonSpec.
