(* ===== verification/Process.v ===== *)
(** * Processes

    What a command-line tool does to the outside: the files it reads are the
    environment's, the files it writes and the text it prints are recorded in
    order.  A tool ends with an exit status or with an exception that escapes. *)

From Stdlib Require Import Ascii String.
From S2P Require Import Prelude PyStr PyFloat PyObj Json.

Module Process.

(** The environment of a run: the outcome of each file operation, and the text
    of the error [json.loads] raises on a text that is not JSON. *)
Record env := Env {
  env_read : string -> res string;
  env_mkdir : string -> res unit;
  env_write : string -> res unit;
  json_error : string -> string
}.

(** [d / x] as text. *)
Definition path_join (d x : string) : string :=
  if bool_decide (d = ".") then x
  else if str_endswith "/" d then d +:+ x else d +:+ "/" +:+ x.

(** The files written so far. *)
Abbreviation written := (list (string * string)).

(** A computation that may write. *)
Definition io (A : Type) : Type := written -> res A * written.

#[export] Instance io_ret : MRet io := fun A a w => (Ok a, w).
#[export] Instance io_bind : MBind io := fun A B f m w =>
  match m w with
  | (Ok a, w) => f a w
  | (Raise e, w) => (Raise e, w)
  end.

(** A computation without effects. *)
Definition lift {A} (m : res A) : io A := fun w => (m, w).

(** [path.write_text(content)] *)
Definition write (en : env) (path content : string) : io unit := fun w =>
  match env_write en path with
  | Ok _ => (Ok tt, w ++ [(path, content)])
  | Raise e => (Raise e, w)
  end.

Fixpoint write_all (en : env) (dir : string) (outputs : list (string * string)) : io unit :=
  match outputs with
  | [] => lift (Ok tt)
  | (name, content) :: l => write en (path_join dir name) content ;; write_all en dir l
  end.

(** [json.loads(path.read_text(encoding="utf-8"))] *)
Definition read_json (en : env) (path : string) : res pyobj :=
  text ← env_read en path;
  match Json.loads text with
  | Some v => Ok v
  | None => Raise (JSONDecodeError (json_error en text))
  end.

(** ** Paths *)

(** The parts of a path between its slashes. *)
Fixpoint split_on (x : ascii) (s : string) : list string :=
  match s with
  | EmptyString => [EmptyString]
  | String c s =>
      if is_char x c then EmptyString :: split_on x s
      else match split_on x s with
           | [] => [String c EmptyString]
           | p :: ps => String c p :: ps
           end
  end.

Definition path_parts (s : string) : list string :=
  List.filter (fun p => negb (bool_decide (p = EmptyString) || bool_decide (p = "."))) (split_on "/" s).

(** The root of a POSIX path: two leading slashes, and only two, are kept. *)
Definition path_root (s : string) : string :=
  if str_startswith "///" s then "/" else if str_startswith "//" s then "//"
  else if str_startswith "/" s then "/" else EmptyString.

(** [str(pathlib.Path(d) / x)] *)
Definition path_div (d x : string) : string :=
  let '(root, parts) :=
    if bool_decide (path_root x = EmptyString) then (path_root d, path_parts d ++ path_parts x)
    else (path_root x, path_parts x) in
  match root, parts with
  | EmptyString, [] => "."
  | _, _ => root +:+ str_join "/" parts
  end.

(** [str(pathlib.Path(s))] *)
Definition path_text (s : string) : string := path_div EmptyString s.

(** How a run ends. *)
Record outcome := Outcome {
  exit : res Z;
  stdout : list string;
  stderr : list string;
  files : written
}.

(** * Properties *)

Lemma lift_bind {A B} (m : res A) (f : A -> io B) w :
  (lift m ≫= f) w = match m with Ok a => f a w | Raise e => (Raise e, w) end.
Proof. done. Qed.

(** A bind that succeeds: its parts do, one after the other. *)
Lemma io_bind_Ok {A B} (m : io A) (f : A -> io B) w b w' :
  (m ≫= f) w = (Ok b, w') -> exists a w1, m w = (Ok a, w1) /\ f a w1 = (Ok b, w').
Proof. unfold mbind, io_bind. destruct (m w) as [[a|e] w1]; [eauto|done]. Qed.

Lemma lift_bind_Ok {A B} (m : res A) (f : A -> io B) w b w' :
  (lift m ≫= f) w = (Ok b, w') -> exists a, m = Ok a /\ f a w = (Ok b, w').
Proof. rewrite lift_bind. destruct m; [eauto|done]. Qed.

Lemma lift_Ok_bind {A B} (m : res A) (f : A -> io B) w a : m = Ok a -> (lift m ≫= f) w = f a w.
Proof. by intros ->. Qed.

Lemma write_bind_Ok {B} en path content (f : unit -> io B) w b w' :
  (write en path content ≫= f) w = (Ok b, w') -> f tt (w ++ [(path, content)]) = (Ok b, w').
Proof. unfold mbind, io_bind, write. by destruct (env_write en path). Qed.

(** Writing every file, when the system allows it. *)
Lemma write_all_ok en dir outputs w :
  (forall p, env_write en p = Ok tt) ->
  write_all en dir outputs w = (Ok tt, w ++ ((fun nc => (path_join dir nc.1, nc.2)) <$> outputs)).
Proof.
  intros H. revert w. induction outputs as [|[n c] l IH]; intros w; cbn [write_all].
  - cbn. by rewrite app_nil_r.
  - unfold mbind, io_bind, write. rewrite H, IH. by rewrite <- app_assoc.
Qed.

Lemma write_all_raise en dir outputs w e w' :
  write_all en dir outputs w = (Raise e, w') -> exists p, env_write en p = Raise e.
Proof.
  revert w. induction outputs as [|[n c] l IH]; intros w; cbn [write_all]; [done|].
  unfold mbind, io_bind, write. destruct (env_write en (path_join dir n)) as [u|e'] eqn:E; [apply IH|].
  intros [= <- _]. eauto.
Qed.

End Process.
