(* ===== verification/Argparse.v ===== *)
(** * Command lines

    [argparse], as far as the programs use it: options with one value, with one or
    more values or without a value, positional arguments, [--help], choices, types,
    defaults and required options, unambiguous prefixes of long options,
    [--option=value], [--], negative numbers as values, and subcommands.  A parse
    gives a namespace, or it ends the program: with status 0 after the help, with
    status 2 after an error.  The behaviour is that of Python 3.13, in which only a
    [--] that stands alone is a separator. *)

From Stdlib Require Import Ascii String SpecFloat.
From S2P Require Import Prelude PyStr Regex PyFloat PyObj Json Process.

Module Argparse.
Import Process.

(** ** Values and types *)

Inductive value :=
  | VNone
  | VBool (b : bool)
  | VInt (z : Z)
  | VFloat (f : pyfloat)
  | VText (s : string)
  | VTexts (l : list string).

(** The [type] of an argument; without one it is a text. *)
Inductive conversion := AsText | AsPath | AsInt | AsFloat.

(** A text without underscores. *)
Fixpoint no_underscores (s : string) : string :=
  match s with
  | EmptyString => EmptyString
  | String c s => if is_char "_" c then no_underscores s else String c (no_underscores s)
  end.

(** Digits, if any, with single underscores between them. *)
Definition digits_or_none (s : string) : bool :=
  bool_decide (s = EmptyString) || bool_decide (is_Some (int_digits 10 s)).

Fixpoint cut_exponent (s : string) : string * option string :=
  match s with
  | EmptyString => (EmptyString, None)
  | String c s => if is_char "e" c || is_char "E" c then (EmptyString, Some s)
                  else let '(m, e) := cut_exponent s in (String c m, e)
  end.

(** The decimal part of [float]'s syntax. *)
Definition decimal (neg : bool) (s : string) : option pyfloat :=
  let '(mantissa, exponent) := cut_exponent s in
  let '(whole, frac) := default (mantissa, EmptyString) (str_cut "." mantissa) in
  e ← match exponent with
      | None => Some 0%Z
      | Some t => let '(minus, u) := split_sign t in
                  (fun z => if minus then (- z)%Z else z) <$> int_digits 10 u
      end;
  if digits_or_none whole && digits_or_none frac && negb (bool_decide (whole +:+ frac = EmptyString)) then
    m ← int_digits 10 (no_underscores (whole +:+ frac));
    Some (Json.float_of_decimal neg m (e - Z.of_nat (String.length (no_underscores frac))))
  else None.

(** [float(s)]; [None] is [ValueError]. *)
Definition py_float (s : string) : option pyfloat :=
  let '(neg, u) := split_sign (str_strip int_space s) in
  let word := str_lower u in
  if bool_decide (word = "inf") || bool_decide (word = "infinity") then Some (S754_infinity neg)
  else if bool_decide (word = "nan") then Some S754_nan
  else decimal neg u.

Definition convert (c : conversion) (s : string) : option value :=
  match c with
  | AsText => Some (VText s)
  | AsPath => Some (VText (path_text s))
  | AsInt => VInt <$> py_int 10 s
  | AsFloat => VFloat <$> py_float s
  end.

(** ** Parsers *)

Inductive action :=
  | StoreOne (c : conversion) (choices : option (list string))
  | StoreSome (c : conversion)
  | StoreTrue
  | ShowHelp.

Record option_spec := Opt { flags : list string; dest : string; act : action; unset : value; required : bool }.
Record positional := Pos { pos_dest : string; pos_type : conversion; pos_choices : option (list string) }.
Record parser := Parser { options : list option_spec; positionals : list positional }.

(** Every parser has an option for its help. *)
Definition help_option : option_spec := Opt ["-h"; "--help"] "help" ShowHelp VNone false.
Definition all_options (p : parser) : list option_spec := help_option :: options p.

(** The option strings, in the order they were added. *)
Definition option_strings (p : parser) : list (string * option_spec) :=
  concat ((fun o => (fun f => (f, o)) <$> flags o) <$> all_options p).

Arguments option_strings : simpl never.

Fixpoint assoc_string {A} (l : list (string * A)) (k : string) : option A :=
  match l with
  | [] => None
  | (k', v) :: l => if decide (k = k') then Some v else assoc_string l k
  end.

(** ** What an argument is *)

(** An option that an argument may stand for, with the value in the same argument. *)
Definition candidate : Type := option_spec * string * option string.

Definition NEGATIVE_NUMBER : re :=
  (RChr (is_char "-") ⋅ rd⊕ ⋅ REol false) ∥ (RChr (is_char "-") ⋅ rd⊛ ⋅ RChr (is_char ".") ⋅ rd⊕ ⋅ REol false).

(** [_get_option_tuples]: a prefix of a long option, or a short option together
    with its value. *)
Definition option_tuples (p : parser) (s : string) : list candidate :=
  if str_startswith "--" s then
    let '(prefix, explicit) := match str_cut "=" s with Some (a, b) => (a, Some b) | None => (s, None) end in
    omap (fun fo => if str_startswith prefix fo.1 then Some (fo.2, fo.1, explicit) else None) (option_strings p)
  else
    omap (fun fo => if bool_decide (fo.1 = str_take 2 s) then Some (fo.2, fo.1, Some (str_drop 2 s))
                    else if str_startswith s fo.1 then Some (fo.2, fo.1, None) else None) (option_strings p).

(** [_parse_optional]: [None] is an argument, the empty list an unknown option. *)
Definition parse_optional (p : parser) (s : string) : option (list candidate) :=
  if negb (str_startswith "-" s) then None
  else
    match assoc_string (option_strings p) s with
    | Some o => Some [(o, s, None)]
    | None =>
        if String.length s =? 1 then None
        else
          match str_cut "=" s ≫= fun ab => (fun o => (o, ab.1, Some ab.2)) <$> assoc_string (option_strings p) ab.1 with
          | Some x => Some [x]
          | None =>
              match option_tuples p s with
              | [] => if bool_decide (is_Some (re_match NEGATIVE_NUMBER s)) || str_contains " " s then None else Some []
              | l => Some l
              end
          end
    end.

Inductive token :=
  | TDash
  | TArg (s : string)
  | TOpt (s : string) (l : list candidate).

(** After [--] everything is an argument. *)
Fixpoint tokens (p : parser) (argv : list string) : list token :=
  match argv with
  | [] => []
  | s :: argv =>
      if bool_decide (s = "--") then TDash :: (TArg <$> argv)
      else (match parse_optional p s with None => TArg s | Some l => TOpt s l end) :: tokens p argv
  end.

(** ** Parsing *)

(** A parse goes on, or it ends the program with a status. *)
Inductive parsed (A : Type) :=
  | Parsed (a : A)
  | Exit (status : Z).
Arguments Parsed {A} a.
Arguments Exit {A} status.

#[export] Instance parsed_ret : MRet parsed := fun A a => Parsed a.
#[export] Instance parsed_bind : MBind parsed := fun A B f m =>
  match m with Parsed a => f a | Exit n => Exit n end.

(** [parser.error(...)] *)
Definition usage_error {A} : parsed A := Exit 2.
Definition or_error {A} (o : option A) : parsed A := match o with Some a => Parsed a | None => usage_error end.

Definition namespace : Type := list (string * value).

(** The state of a parse: the attributes, the options that were given, the
    positionals that are left, the option whose values are being read, whether an
    argument could not be used, whether the last one went to a positional, and
    whether a [--] waits for one. *)
Record pstate := PState {
  attributes : namespace;
  given : list string;
  expected : list positional;
  pending : option (option_spec * list string);
  extras : bool;
  placed : bool;
  dashed : bool
}.

Definition set_attribute (k : string) (v : value) (st : pstate) : pstate :=
  PState (dict_set (attributes st) k v) (k :: given st) (expected st) (pending st) (extras st) (placed st) (dashed st).
Definition set_expected (l : list positional) (st : pstate) : pstate :=
  PState (attributes st) (given st) l (pending st) (extras st) true false.
Definition set_pending (w : option (option_spec * list string)) (st : pstate) : pstate :=
  PState (attributes st) (given st) (expected st) w (extras st) false (dashed st).
Definition set_extras (st : pstate) : pstate :=
  PState (attributes st) (given st) (expected st) (pending st) true false (dashed st).
Definition set_dashed (st : pstate) : pstate :=
  PState (attributes st) (given st) (expected st) (pending st) (extras st) (placed st) (negb (placed st)).

(** A converted value that is one of the choices. *)
Definition choose (choices : option (list string)) (v : value) : option value :=
  match choices, v with
  | None, _ => Some v
  | Some l, VText s => if bool_decide (s ∈ l) then Some v else None
  | Some _, _ => None
  end.

(** The action of an option on its values. *)
Definition take_action (o : option_spec) (vals : list string) (st : pstate) : parsed pstate :=
  match act o, vals with
  | StoreOne c choices, [s] => v ← or_error (convert c s ≫= choose choices); Parsed (set_attribute (dest o) v st)
  | StoreSome c, _ :: _ =>
      l ← or_error (mapM (fun s => v ← convert c s; match v with VText t => Some t | _ => None end) vals);
      Parsed (set_attribute (dest o) (VTexts l) st)
  | StoreTrue, [] => Parsed (set_attribute (dest o) (VBool true) st)
  | ShowHelp, [] => Exit 0
  | _, _ => usage_error
  end.

(** The values of the last option are complete. *)
Definition flush (st : pstate) : parsed pstate :=
  match pending st with
  | None => Parsed st
  | Some (o, vals) => take_action o vals (set_pending None st)
  end.

(** An option, with the value in the same argument if there is one; only the help
    has a short name, whose repetitions can be written together. *)
Definition begin_option (o : option_spec) (flag : string) (explicit : option string) (st : pstate) : parsed pstate :=
  match explicit, act o with
  | None, (StoreTrue | ShowHelp) => take_action o [] st
  | None, _ => Parsed (set_pending (Some (o, [])) st)
  | Some e, (StoreOne _ _ | StoreSome _) => take_action o [e] st
  | Some e, ShowHelp =>
      if bool_decide (flag = "-h") && negb (bool_decide (e = EmptyString)) && str_all (is_char "h") e then Exit 0
      else usage_error
  | Some _, StoreTrue => usage_error
  end.

(** An argument that no option waits for. *)
Definition take_positional (s : string) (st : pstate) : parsed pstate :=
  match expected st with
  | [] => Parsed (set_extras st)
  | p :: l =>
      v ← or_error (convert (pos_type p) s ≫= choose (pos_choices p));
      Parsed (set_expected l (set_attribute (pos_dest p) v st))
  end.

Definition parse_step (st : pstate) (t : token) : parsed pstate :=
  match t with
  | TArg s =>
      match pending st with
      | Some (o, vals) =>
          match act o with
          | StoreOne _ _ => take_action o [s] (set_pending None st)
          | _ => Parsed (set_pending (Some (o, vals ++ [s])) st)
          end
      | None => take_positional s st
      end
  | TDash => st ← flush st; Parsed (set_dashed st)
  | TOpt _ l =>
      st ← flush st;
      match l with
      | [] => Parsed (set_extras st)
      | [(o, flag, explicit)] => begin_option o flag explicit (set_pending None st)
      | _ => usage_error
      end
  end.

Fixpoint parse_tokens (st : pstate) (l : list token) : parsed pstate :=
  match l with
  | [] => flush st
  | t :: l => st ← parse_step st t; parse_tokens st l
  end.

(** The namespace starts with the defaults; a positional has none. *)
Definition defaults (p : parser) : namespace :=
  ((fun o => (dest o, unset o)) <$> options p) ++ ((fun x => (pos_dest x, VNone)) <$> positionals p).

Definition start_parse (p : parser) : pstate := PState (defaults p) [] (positionals p) None false false false.

(** Every required argument was given. *)
Definition complete (p : parser) (st : pstate) : bool :=
  forallb (fun o => negb (required o) || bool_decide (dest o ∈ given st)) (options p) &&
  match expected st with [] => true | _ => false end.

(** [parse_known_args]: the namespace and whether there are other arguments. *)
Definition parse_known_args (p : parser) (argv : list string) : parsed (namespace * bool) :=
  st ← parse_tokens (start_parse p) (tokens p argv);
  if complete p st then Parsed (attributes st, extras st || dashed st) else usage_error.

Definition parse_args (p : parser) (argv : list string) : parsed namespace :=
  '(ns, others) ← parse_known_args p argv;
  if others : bool then usage_error else Parsed ns.

(** ** Subcommands *)

(** The options before the command: only the help is known. *)
Fixpoint parse_command (commands : list (string * parser)) (others : bool) (argv : list string) :
    parsed (string * namespace) :=
  let run name rest :=
    p ← or_error (assoc_string commands name);
    '(ns, more) ← parse_known_args p rest;
    if others || more then usage_error else Parsed (name, ns) in
  match argv with
  | [] => usage_error
  | s :: rest =>
      if bool_decide (s = "--") then match rest with [] => usage_error | name :: rest => run name rest end
      else
        match parse_optional (Parser [] []) s with
        | None => run s rest
        | Some [] => parse_command commands true rest
        | Some [(o, flag, explicit)] =>
            begin_option o flag explicit (start_parse (Parser [] [])) ;; usage_error
        | _ => usage_error
        end
  end.

(** ** Reading a namespace *)

(** An attribute that a program reads with a type. *)
Definition get_text (ns : namespace) (k : string) : option string :=
  match assoc_string ns k with Some (VText s) => Some s | _ => None end.
Definition get_texts (ns : namespace) (k : string) : option (list string) :=
  match assoc_string ns k with Some (VTexts l) => Some l | _ => None end.
Definition get_int (ns : namespace) (k : string) : option Z :=
  match assoc_string ns k with Some (VInt z) => Some z | _ => None end.
Definition get_float (ns : namespace) (k : string) : option pyfloat :=
  match assoc_string ns k with Some (VFloat f) => Some f | _ => None end.
Definition get_bool (ns : namespace) (k : string) : option bool :=
  match assoc_string ns k with Some (VBool b) => Some b | _ => None end.
Definition get_optional_text (ns : namespace) (k : string) : option (option string) :=
  match assoc_string ns k with Some (VText s) => Some (Some s) | Some VNone => Some None | _ => None end.

End Argparse.
