(* ===== verification/Validate.v ===== *)
(** * Deployment validation

    [tools/compile_deployment.py], first half: the schema constants, the
    [require_*] helpers and [validate_deployment], translated statement by
    statement over the objects [json.loads] returns. *)

From Stdlib Require Import Ascii String.
From S2P Require Import Prelude PyStr Regex PyFloat PyObj.

Module Deploy.

(** ** Constants *)

Definition word_char (c : ascii) : bool := is_alpha c || is_digit c || is_char "_" c.

(** [^[A-Za-z_][A-Za-z0-9_]*$] *)
Definition IDENTIFIER : re :=
  RBol false ⋅ RChr (fun c => is_alpha c || is_char "_" c) ⋅ (RChr word_char)⊛ ⋅ REol false.

(** [^[a-z][a-z0-9_]*$] *)
Definition LOWER_IDENTIFIER : re :=
  RBol false ⋅ RChr is_lower ⋅
  (RChr (fun c => is_lower c || is_digit c || is_char "_" c))⊛ ⋅ REol false.

(** [^(P)/msg/(P)$] with [P = [A-Za-z][A-Za-z0-9_]*]. *)
Definition MESSAGE_TYPE : re :=
  RBol false ⋅ RGroup 1 (RChr is_alpha ⋅ (RChr word_char)⊛) ⋅ rlit "/msg/" ⋅
  RGroup 2 (RChr is_alpha ⋅ (RChr word_char)⊛) ⋅ REol false.

Definition ROOT_KEYS : gset string :=
  list_to_set ["schema_version"; "name"; "domain_id"; "node"; "rmw"; "message_profile";
               "graph"; "endpoints"; "resources"].
Definition NODE_KEYS : gset string := list_to_set ["name"; "namespace"].
Definition GRAPH_KEYS : gset string := list_to_set ["outbound"; "inbound"; "api"].
Definition ENDPOINT_KEYS : gset string :=
  list_to_set ["id"; "kind"; "topic"; "type"; "callback"; "qos"; "lifetime"].
Definition QOS_KEYS : gset string := list_to_set ["reliability"; "durability"; "history"; "depth"].
Definition RESOURCE_KEYS : gset string :=
  list_to_set ["local_endpoints"; "remote"; "workers"; "application"; "targets"].
Definition REMOTE_RESOURCE_KEYS : gset string := list_to_set ["participants"; "nodes"; "endpoints"].
Definition WORKER_RESOURCE_KEYS : gset string := list_to_set ["maximum"].
Definition APPLICATION_RESOURCE_KEYS : gset string := list_to_set ["static_reserve_bytes"].
Definition TARGET_BUDGET_KEYS : gset string := list_to_set ["flash_bytes"; "ram_bytes"].
Definition SUPPORTED_BACKENDS : gset string := list_to_set ["rmw_cyclonedds_c"; "rmw_zenoh_pico"].

#[global] Arguments ROOT_KEYS : simpl never.
#[global] Arguments NODE_KEYS : simpl never.
#[global] Arguments GRAPH_KEYS : simpl never.
#[global] Arguments ENDPOINT_KEYS : simpl never.
#[global] Arguments QOS_KEYS : simpl never.
#[global] Arguments RESOURCE_KEYS : simpl never.
#[global] Arguments REMOTE_RESOURCE_KEYS : simpl never.
#[global] Arguments WORKER_RESOURCE_KEYS : simpl never.
#[global] Arguments APPLICATION_RESOURCE_KEYS : simpl never.
#[global] Arguments TARGET_BUDGET_KEYS : simpl never.
#[global] Arguments SUPPORTED_BACKENDS : simpl never.

(** ** Helpers *)

Definition reject {A} (code msg : string) : res A := Raise (DeploymentError code msg).

Definition reject_if (b : bool) (code msg : string) : res unit :=
  raise_if b (DeploymentError code msg).

Definition require_object (value : pyobj) (path : string) : res pydict :=
  match value with
  | PyDict d => Ok d
  | _ => reject "E_SCHEMA" (path +:+ " must be an object")
  end.

Definition dict_keys (d : pydict) : gset string := list_to_set d.*1.

Definition exact_keys (value : pydict) (allowed required : gset string) (path : string) : res unit :=
  let unknown := sorted_strs (dict_keys value ∖ allowed) in
  let missing := sorted_strs (required ∖ dict_keys value) in
  match unknown with
  | k :: _ => reject "E_SCHEMA" (path +:+ " contains unknown field " +:+ str_repr k)
  | [] =>
      match missing with
      | k :: _ => reject "E_SCHEMA" (path +:+ " is missing required field " +:+ str_repr k)
      | [] => Ok tt
      end
  end.

Definition require_string (value : pyobj) (path : string) (pattern : option re) : res string :=
  match value with
  | PyStr s =>
      if match pattern with
         | Some r => match re_fullmatch r s with Some _ => true | None => false end
         | None => true
         end
      then Ok s else reject "E_SCHEMA" (path +:+ " has an invalid string value")
  | _ => reject "E_SCHEMA" (path +:+ " has an invalid string value")
  end.

Definition require_integer (value : pyobj) (path : string) (minimum : Z) : res Z :=
  let bad := reject "E_SCHEMA"
    (path +:+ " must be an integer greater than or equal to " +:+ str_of_Z minimum) in
  match strict_int value with
  | Some z => if (z <? minimum)%Z then bad else Ok z
  | None => bad
  end.

(** [d[k]] on a dict. *)
Definition item (d : pydict) (k : string) : res pyobj := getitem (PyDict d) k.

(** [v not in (a, b, ...)] for strings [a], [b], ... *)
Definition not_in_strs (v : pyobj) (l : list string) : bool :=
  negb (existsb (fun s => py_eqb v (PyStr s)) l).

(** ** [validate_deployment] *)

(** The node identity. *)
Definition validate_node (value : pydict) : res unit :=
  raw ← item value "node";
  node ← require_object raw "node";
  exact_keys node NODE_KEYS NODE_KEYS "node" ;;
  name ← item node "name";
  require_string name "node.name" (Some IDENTIFIER) ;;
  ns ← item node "namespace";
  namespace ← require_string ns "node.namespace" None;
  reject_if (negb (bool_decide (namespace = EmptyString)) &&
             (negb (str_startswith "/" namespace) || str_endswith "/" namespace))
    "E_SCHEMA" "node.namespace must be empty or an absolute namespace without a trailing slash".

(** The permitted backends. *)
Definition validate_rmw (value : pydict) : res unit :=
  rmw ← item value "rmw";
  let bad := reject "E_SCHEMA" "rmw must be a non-empty string array" in
  match rmw with
  | PyList [] => bad
  | PyList l =>
      match mapM as_str l with
      | None => bad
      | Some names =>
          reject_if (negb (size (list_to_set names : gset string) =? length names))
            "E_SCHEMA" "rmw entries must be unique" ;;
          match sorted_strs ((list_to_set names : gset string) ∖ SUPPORTED_BACKENDS) with
          | b :: _ => reject "E_BACKEND_UNKNOWN" ("unknown backend " +:+ b)
          | [] => Ok tt
          end
      end
  | _ => bad
  end.

(** The graph requirements. *)
Definition validate_graph (value : pydict) : res unit :=
  raw ← item value "graph";
  graph ← require_object raw "graph";
  exact_keys graph GRAPH_KEYS GRAPH_KEYS "graph" ;;
  outbound ← item graph "outbound";
  inbound ← item graph "inbound";
  reject_if (negb (is_bool outbound) || negb (is_bool inbound))
    "E_SCHEMA" "graph outbound/inbound requirements must be boolean" ;;
  api ← item graph "api";
  let bad := reject "E_SCHEMA" "graph.api must be a string array" in
  match api with
  | PyList l =>
      match mapM as_str l with
      | None => bad
      | Some names =>
          reject_if (negb (size (list_to_set names : gset string) =? length names))
            "E_SCHEMA" "graph.api entries must be unique"
      end
  | _ => bad
  end.

(** The QoS object of one endpoint. *)
Definition validate_qos (endpoint : pydict) (path : string) : res unit :=
  raw ← item endpoint "qos";
  qos ← require_object raw (path +:+ ".qos");
  exact_keys qos QOS_KEYS QOS_KEYS (path +:+ ".qos") ;;
  reliability ← item qos "reliability";
  reject_if (not_in_strs reliability ["best_effort"; "reliable"])
    "E_SCHEMA" (path +:+ ".qos.reliability is invalid") ;;
  durability ← item qos "durability";
  reject_if (not_in_strs durability ["volatile"; "transient_local"])
    "E_SCHEMA" (path +:+ ".qos.durability is invalid") ;;
  history ← item qos "history";
  reject_if (negb (py_eqb history (PyStr "keep_last")))
    "E_SCHEMA" (path +:+ ".qos.history must be keep_last") ;;
  depth ← item qos "depth";
  match strict_int depth with
  | Some z => reject_if (z <? 1)%Z "E_SCHEMA" (path +:+ ".qos.depth must be a positive integer")
  | None => reject "E_SCHEMA" (path +:+ ".qos.depth must be a positive integer")
  end.

(** The body of the loop over the endpoints; [ids] are the ids seen so far. *)
Definition validate_endpoint (ids : gset string) (entry : nat * pyobj) : res (gset string) :=
  let '(index, raw_endpoint) := entry in
  let path := "endpoints[" +:+ str_of_Z (Z.of_nat index) +:+ "]" in
  endpoint ← require_object raw_endpoint path;
  exact_keys endpoint ENDPOINT_KEYS (ENDPOINT_KEYS ∖ {["callback"]}) path ;;
  raw_id ← item endpoint "id";
  endpoint_id ← require_string raw_id (path +:+ ".id") (Some LOWER_IDENTIFIER);
  reject_if (bool_decide (endpoint_id ∈ ids))
    "E_DUPLICATE_ENDPOINT" ("duplicate endpoint id " +:+ str_repr endpoint_id) ;;
  let ids := {[endpoint_id]} ∪ ids in
  kind ← item endpoint "kind";
  reject_if (not_in_strs kind ["publisher"; "subscription"])
    "E_SCHEMA" (path +:+ ".kind must be publisher or subscription") ;;
  raw_topic ← item endpoint "topic";
  topic ← require_string raw_topic (path +:+ ".topic") None;
  reject_if (bool_decide (topic = EmptyString) || str_endswith "/" topic || str_contains "//" topic)
    "E_SCHEMA" (path +:+ ".topic is invalid") ;;
  type ← item endpoint "type";
  require_string type (path +:+ ".type") (Some MESSAGE_TYPE) ;;
  lifetime ← item endpoint "lifetime";
  reject_if (negb (py_eqb lifetime (PyStr "fixed_startup")))
    "E_LIFETIME_UNSUPPORTED" (path +:+ " must use fixed_startup lifetime") ;;
  (if py_eqb kind (PyStr "subscription") then
     require_string (from_option id PyNone (dict_get endpoint "callback"))
       (path +:+ ".callback") (Some IDENTIFIER) ;; Ok tt
   else reject_if (dict_has endpoint "callback")
          "E_SCHEMA" (path +:+ ".callback is only valid for a subscription")) ;;
  validate_qos endpoint path ;;
  Ok ids.

(** One target budget. *)
Definition validate_budget (entry : string * pyobj) : res unit :=
  let '(target, raw_budget) := entry in
  let path := "resources.targets[" +:+ str_repr target +:+ "]" in
  require_string (PyStr target) "resources.targets key" None ;;
  budget ← require_object raw_budget path;
  exact_keys budget TARGET_BUDGET_KEYS TARGET_BUDGET_KEYS path ;;
  flash ← item budget "flash_bytes";
  require_integer flash (path +:+ ".flash_bytes") 1 ;;
  ram ← item budget "ram_bytes";
  require_integer ram (path +:+ ".ram_bytes") 1 ;;
  Ok tt.

(** The resource contract; [count] is [len(endpoints)]. *)
Definition validate_resources (value : pydict) (count : Z) : res unit :=
  raw ← item value "resources";
  resources ← require_object raw "resources";
  exact_keys resources RESOURCE_KEYS RESOURCE_KEYS "resources" ;;
  raw_capacity ← item resources "local_endpoints";
  local_capacity ← require_integer raw_capacity "resources.local_endpoints" 0;
  reject_if (local_capacity <? count)%Z "E_RESOURCE_ENDPOINT_CAPACITY"
    ("deployment declares " +:+ str_of_Z count +:+
     " endpoints but resources.local_endpoints is " +:+ str_of_Z local_capacity) ;;
  raw_remote ← item resources "remote";
  remote ← require_object raw_remote "resources.remote";
  exact_keys remote REMOTE_RESOURCE_KEYS REMOTE_RESOURCE_KEYS "resources.remote" ;;
  eachM (fun key =>
           bound ← item remote key;
           require_integer bound ("resources.remote." +:+ key) 0 ;; Ok tt)
    (sorted_strs REMOTE_RESOURCE_KEYS) ;;
  raw_workers ← item resources "workers";
  workers ← require_object raw_workers "resources.workers";
  exact_keys workers WORKER_RESOURCE_KEYS WORKER_RESOURCE_KEYS "resources.workers" ;;
  maximum ← item workers "maximum";
  require_integer maximum "resources.workers.maximum" 1 ;;
  raw_application ← item resources "application";
  application ← require_object raw_application "resources.application";
  exact_keys application APPLICATION_RESOURCE_KEYS APPLICATION_RESOURCE_KEYS "resources.application" ;;
  reserve ← item application "static_reserve_bytes";
  require_integer reserve "resources.application.static_reserve_bytes" 0 ;;
  raw_targets ← item resources "targets";
  targets ← require_object raw_targets "resources.targets";
  reject_if (match targets with [] => true | _ => false end)
    "E_SCHEMA" "resources.targets must contain at least one target budget" ;;
  eachM validate_budget (sorted_items targets).

(** [enumerate(l)] *)
Definition enumerate {A} (l : list A) : list (nat * A) := zip (seq 0 (length l)) l.

Definition validate_deployment (value : pydict) : res pydict :=
  exact_keys value ROOT_KEYS ROOT_KEYS "deployment" ;;
  version ← item value "schema_version";
  reject_if (negb (py_eqb version (PyInt 2))) "E_SCHEMA_VERSION" "schema_version must be 2" ;;
  name ← item value "name";
  require_string name "name" (Some LOWER_IDENTIFIER) ;;
  domain ← item value "domain_id";
  reject_if (match strict_int domain with
             | Some z => negb ((0 <=? z) && (z <=? 232))%Z
             | None => true
             end) "E_SCHEMA" "domain_id must be an integer from 0 through 232" ;;
  profile ← item value "message_profile";
  reject_if (negb (py_eqb profile (PyStr "fixed_size")))
    "E_MESSAGE_PROFILE_UNSUPPORTED" "only fixed_size messages are accepted" ;;
  validate_node value ;;
  validate_rmw value ;;
  validate_graph value ;;
  raw_endpoints ← item value "endpoints";
  match raw_endpoints with
  | PyList endpoints =>
      foldM validate_endpoint (enumerate endpoints) ∅ ;;
      validate_resources value (Z.of_nat (length endpoints)) ;;
      Ok value
  | _ => reject "E_SCHEMA" "endpoints must be an array"
  end.

End Deploy.
