(* ===== verification/Deployment.v ===== *)
(** * The deployment contract

    What a fixed ROS boundary is, independently of its JSON text: the typed
    deployment of [docs/deployment-compiler.md] and
    [schema/deployment.schema.json], the conditions it has to meet, and the
    relation between a JSON object and the deployment it describes.  The
    validator is proved to accept exactly the objects that represent a valid
    deployment; the code generators are proved against this interface. *)

From Stdlib Require Import Ascii String.
From S2P Require Import Prelude PyStr Regex PyFloat PyObj Validate.

Module Contract.

(** ** Typed deployments *)

Inductive reliability := BestEffort | Reliable.
Inductive durability := Volatile | TransientLocal.

Record qos := Qos {
  qos_reliability : reliability;
  qos_durability : durability;
  qos_depth : Z
}.

(** Only a subscription has a callback. *)
Inductive endpoint_kind := Publisher | Subscription (callback : string).

Record endpoint := Endpoint {
  ep_id : string;
  ep_kind : endpoint_kind;
  ep_topic : string;
  ep_package : string;
  ep_message : string;
  ep_qos : qos
}.

Record budget := Budget { flash_bytes : Z; ram_bytes : Z }.

Record deployment := Deployment {
  dep_name : string;
  dep_domain : Z;
  dep_node : string;
  dep_namespace : string;
  dep_rmw : list string;
  dep_outbound : bool;
  dep_inbound : bool;
  dep_api : list string;
  dep_endpoints : list endpoint;
  dep_local_endpoints : Z;
  dep_remote_participants : Z;
  dep_remote_nodes : Z;
  dep_remote_endpoints : Z;
  dep_workers : Z;
  dep_reserve : Z;
  dep_targets : list (string * budget)
}.

Definition reliability_str (r : reliability) : string :=
  match r with BestEffort => "best_effort" | Reliable => "reliable" end.
Definition durability_str (d : durability) : string :=
  match d with Volatile => "volatile" | TransientLocal => "transient_local" end.
Definition kind_str (k : endpoint_kind) : string :=
  match k with Publisher => "publisher" | Subscription _ => "subscription" end.
Definition is_subscription (e : endpoint) : bool :=
  match ep_kind e with Subscription _ => true | Publisher => false end.
Definition ep_type (e : endpoint) : string := ep_package e +:+ "/msg/" +:+ ep_message e.

(** ** Validity *)

(** A C identifier; a lower-case identifier; a message or package name. *)
Definition c_identifier (s : string) : bool :=
  match s with
  | String c t => (is_alpha c || is_char "_" c) && str_all Deploy.word_char t
  | EmptyString => false
  end.
Definition lower_identifier (s : string) : bool :=
  match s with
  | String c t => is_lower c && str_all (fun c => is_lower c || is_digit c || is_char "_" c) t
  | EmptyString => false
  end.
Definition type_name (s : string) : bool :=
  match s with
  | String c t => is_alpha c && str_all Deploy.word_char t
  | EmptyString => false
  end.

(** Empty, or absolute with no trailing slash. *)
Definition valid_namespace (s : string) : Prop :=
  s = EmptyString \/ (str_startswith "/" s = true /\ str_endswith "/" s = false).

Definition valid_topic (s : string) : Prop :=
  s <> EmptyString /\ str_endswith "/" s = false /\ str_contains "//" s = false.

Record valid_endpoint (e : endpoint) : Prop := {
  ve_id : lower_identifier (ep_id e) = true;
  ve_topic : valid_topic (ep_topic e);
  ve_package : type_name (ep_package e) = true;
  ve_message : type_name (ep_message e) = true;
  ve_callback : forall cb, ep_kind e = Subscription cb -> c_identifier cb = true;
  ve_depth : (1 <= qos_depth (ep_qos e))%Z
}.

Definition valid_budget (b : budget) : Prop := (1 <= flash_bytes b)%Z /\ (1 <= ram_bytes b)%Z.

Record valid_deployment (d : deployment) : Prop := {
  vd_name : lower_identifier (dep_name d) = true;
  vd_domain : (0 <= dep_domain d <= 232)%Z;
  vd_node : c_identifier (dep_node d) = true;
  vd_namespace : valid_namespace (dep_namespace d);
  vd_rmw_nonempty : dep_rmw d <> [];
  vd_rmw_unique : NoDup (dep_rmw d);
  vd_rmw_known : forall b, b ∈ dep_rmw d -> b = "rmw_cyclonedds_c" \/ b = "rmw_zenoh_pico";
  vd_api_unique : NoDup (dep_api d);
  vd_endpoints : Forall valid_endpoint (dep_endpoints d);
  vd_ids_unique : NoDup (ep_id <$> dep_endpoints d);
  vd_capacity : (Z.of_nat (length (dep_endpoints d)) <= dep_local_endpoints d)%Z;
  vd_remote_participants : (0 <= dep_remote_participants d)%Z;
  vd_remote_nodes : (0 <= dep_remote_nodes d)%Z;
  vd_remote_endpoints : (0 <= dep_remote_endpoints d)%Z;
  vd_workers : (1 <= dep_workers d)%Z;
  vd_reserve : (0 <= dep_reserve d)%Z;
  vd_targets_nonempty : dep_targets d <> [];
  vd_targets : Forall (fun tb => valid_budget tb.2) (dep_targets d)
}.

(** ** Representation *)

(** The keys of an object are exactly the given ones. *)
Definition keys_are (d : pydict) (ks : gset string) : Prop := Deploy.dict_keys d = ks.

Record represents_qos (q : pydict) (x : qos) : Prop := {
  rq_keys : keys_are q Deploy.QOS_KEYS;
  rq_reliability : dict_get q "reliability" = Some (PyStr (reliability_str (qos_reliability x)));
  rq_durability : dict_get q "durability" = Some (PyStr (durability_str (qos_durability x)));
  rq_history : dict_get q "history" = Some (PyStr "keep_last");
  rq_depth : dict_get q "depth" = Some (PyInt (qos_depth x))
}.

Record represents_endpoint (v : pyobj) (e : endpoint) : Prop := {
  re_dict : exists d, v = PyDict d /\
    Deploy.dict_keys d ⊆ Deploy.ENDPOINT_KEYS /\
    dict_get d "id" = Some (PyStr (ep_id e)) /\
    dict_get d "kind" = Some (PyStr (kind_str (ep_kind e))) /\
    dict_get d "topic" = Some (PyStr (ep_topic e)) /\
    dict_get d "type" = Some (PyStr (ep_type e)) /\
    dict_get d "lifetime" = Some (PyStr "fixed_startup") /\
    dict_get d "callback" =
      match ep_kind e with Publisher => None | Subscription cb => Some (PyStr cb) end /\
    exists q, dict_get d "qos" = Some (PyDict q) /\ represents_qos q (ep_qos e)
}.

Definition represents_budget (kv : string * pyobj) (tb : string * budget) : Prop :=
  kv.1 = tb.1 /\ exists b, kv.2 = PyDict b /\ keys_are b Deploy.TARGET_BUDGET_KEYS /\
    dict_get b "flash_bytes" = Some (PyInt (flash_bytes tb.2)) /\
    dict_get b "ram_bytes" = Some (PyInt (ram_bytes tb.2)).

Record represents_resources (r : pydict) (d : deployment) : Prop := {
  rr_keys : keys_are r Deploy.RESOURCE_KEYS;
  rr_local : dict_get r "local_endpoints" = Some (PyInt (dep_local_endpoints d));
  rr_remote : exists m, dict_get r "remote" = Some (PyDict m) /\
    keys_are m Deploy.REMOTE_RESOURCE_KEYS /\
    dict_get m "participants" = Some (PyInt (dep_remote_participants d)) /\
    dict_get m "nodes" = Some (PyInt (dep_remote_nodes d)) /\
    dict_get m "endpoints" = Some (PyInt (dep_remote_endpoints d));
  rr_workers : exists w, dict_get r "workers" = Some (PyDict w) /\
    keys_are w Deploy.WORKER_RESOURCE_KEYS /\ dict_get w "maximum" = Some (PyInt (dep_workers d));
  rr_application : exists a, dict_get r "application" = Some (PyDict a) /\
    keys_are a Deploy.APPLICATION_RESOURCE_KEYS /\
    dict_get a "static_reserve_bytes" = Some (PyInt (dep_reserve d));
  rr_targets : exists t, dict_get r "targets" = Some (PyDict t) /\
    Forall2 represents_budget t (dep_targets d)
}.

(** [Represents v d]: the JSON object [v] describes the deployment [d].  This is
    what the code generators rely on. *)
Class Represents (v : pydict) (d : deployment) : Prop := {
  rp_keys : keys_are v Deploy.ROOT_KEYS;
  rp_version : exists x, dict_get v "schema_version" = Some x /\ py_eqb x (PyInt 2) = true;
  rp_name : dict_get v "name" = Some (PyStr (dep_name d));
  rp_domain : dict_get v "domain_id" = Some (PyInt (dep_domain d));
  rp_profile : dict_get v "message_profile" = Some (PyStr "fixed_size");
  rp_node : exists n, dict_get v "node" = Some (PyDict n) /\ keys_are n Deploy.NODE_KEYS /\
    dict_get n "name" = Some (PyStr (dep_node d)) /\
    dict_get n "namespace" = Some (PyStr (dep_namespace d));
  rp_rmw : dict_get v "rmw" = Some (PyList (PyStr <$> dep_rmw d));
  rp_graph : exists g, dict_get v "graph" = Some (PyDict g) /\ keys_are g Deploy.GRAPH_KEYS /\
    dict_get g "outbound" = Some (PyBool (dep_outbound d)) /\
    dict_get g "inbound" = Some (PyBool (dep_inbound d)) /\
    dict_get g "api" = Some (PyList (PyStr <$> dep_api d));
  rp_endpoints : exists l, dict_get v "endpoints" = Some (PyList l) /\
    Forall2 represents_endpoint l (dep_endpoints d);
  rp_resources : exists r, dict_get v "resources" = Some (PyDict r) /\ represents_resources r d
}.

End Contract.
