(* ===== verification/ValidateSpec.v ===== *)
(** * The validator meets the deployment contract

    [validate_deployment] accepts a JSON object exactly when it represents a
    valid deployment, returns it unchanged, and rejects every other object with
    a [DeploymentError]: no malformed document makes it fail with one of
    Python's own exceptions. *)

From Stdlib Require Import Ascii String.
From S2P Require Import Prelude PyStr Regex PyFloat PyObj Validate Deployment.
Import Deploy Contract.

(** ** The patterns *)

Definition fullmatchb (r : re) (s : string) : bool :=
  match re_fullmatch r s with Some _ => true | None => false end.

Lemma fullmatchb_iff r s :
  fullmatchb r s = true <-> exists p, rmatch r (rstart s) p /\ r_rest p = EmptyString.
Proof.
  rewrite <- re_fullmatch_is_Some. unfold fullmatchb.
  destruct (re_fullmatch r s); split; [by eauto|done|done|by intros []].
Qed.

(** A one-class pattern [^[p][q]*$]. *)
Lemma fullmatch_class_word (p q : ascii -> bool) s :
  fullmatchb (RBol false ⋅ RChr p ⋅ (RChr q)⊛ ⋅ REol false) s = true <->
  exists c t, s = String c t /\ p c = true /\ str_all q t = true.
Proof.
  rewrite fullmatchb_iff. split.
  - intros (x & H & Hr). unfold rstart in H. inv_rmatch. subst. cbn in *. subst.
    eexists _, _. rewrite str_app_nil_r. eauto.
  - intros (c & t & -> & Hc & Ht). exists (mkpos (str_last (Some c) t) EmptyString []).
    split; [|done]. unfold rstart. rewrite rmatch_cat. eexists. split; [apply rmatch_bol; split; reflexivity|].
    rewrite rmatch_cat. eexists. split; [apply rmatch_chr; eexists _, _; repeat split; eauto|].
    rewrite rmatch_cat. exists (mkpos (str_last (Some c) t) EmptyString []).
    split; [|apply rmatch_eol; split; reflexivity].
    apply rmatch_star_chr. exists t, EmptyString. by rewrite str_app_nil_r.
Qed.

Lemma fullmatch_IDENTIFIER s : fullmatchb IDENTIFIER s = c_identifier s.
Proof.
  apply eq_iff_eq_true. unfold IDENTIFIER. rewrite fullmatch_class_word.
  destruct s as [|c t]; cbn; [naive_solver|]. rewrite andb_true_iff. naive_solver.
Qed.

Lemma fullmatch_LOWER_IDENTIFIER s : fullmatchb LOWER_IDENTIFIER s = lower_identifier s.
Proof.
  apply eq_iff_eq_true. unfold LOWER_IDENTIFIER. rewrite fullmatch_class_word.
  destruct s as [|c t]; cbn; [naive_solver|]. rewrite andb_true_iff. naive_solver.
Qed.

Lemma type_name_iff s :
  type_name s = true <-> exists c t, s = String c t /\ is_alpha c = true /\ str_all word_char t = true.
Proof. destruct s as [|c t]; cbn; [naive_solver|]. rewrite andb_true_iff. naive_solver. Qed.

Lemma type_name_class s : type_name s = class_word is_alpha word_char s.
Proof. done. Qed.

(** A matched message type is split at [/msg/] into its groups. *)
Lemma fullmatch_MESSAGE_TYPE s x :
  re_fullmatch MESSAGE_TYPE s = Some x ->
  exists pkg msg, s = pkg +:+ "/msg/" +:+ msg /\ type_name pkg = true /\ type_name msg = true /\
    group 1 x = Some pkg /\ group 2 x = Some msg.
Proof.
  intros [H Hr]%re_fullmatch_Some. unfold rstart, MESSAGE_TYPE in H.
  apply rmatch_cat in H as (p1 & [_ ->]%rmatch_bol & H).
  apply rmatch_cat in H as (p2 & (pkg & u & -> & Hpkg & ->)%rmatch_group_class_word & H).
  apply rmatch_cat in H as (p3 & (u' & -> & ->)%rmatch_lit & H).
  apply rmatch_cat in H as (p4 & (msg & u & -> & Hmsg & ->)%rmatch_group_class_word & H).
  apply rmatch_eol in H as [_ ->]. cbn [r_rest] in Hr. subst.
  exists pkg, msg. by rewrite str_app_nil_r.
Qed.

Lemma fullmatch_MESSAGE_TYPE_is_Some pkg msg :
  type_name pkg = true -> type_name msg = true ->
  is_Some (re_fullmatch MESSAGE_TYPE (pkg +:+ "/msg/" +:+ msg)).
Proof.
  intros Hpkg Hmsg. apply re_fullmatch_is_Some. eexists (mkpos _ EmptyString _).
  split; [|reflexivity]. unfold rstart, MESSAGE_TYPE.
  rewrite rmatch_cat. eexists. split; [apply rmatch_bol; split; reflexivity|].
  rewrite rmatch_cat. eexists.
  split; [apply rmatch_group_class_word; eexists pkg, _; repeat split; eauto|].
  rewrite rmatch_cat. eexists.
  split; [apply rmatch_lit; eexists; repeat split; reflexivity|].
  rewrite rmatch_cat. eexists.
  split; [apply rmatch_group_class_word; eexists msg, EmptyString;
          rewrite str_app_nil_r; repeat split; eauto|].
  apply rmatch_eol. split; reflexivity.
Qed.

(** ** What each helper accepts *)

Lemma reject_if_Ok b code msg u : reject_if b code msg = Ok u <-> b = false.
Proof. apply raise_if_Ok. Qed.

Lemma item_Ok d k v : item d k = Ok v <-> dict_get d k = Some v.
Proof. apply getitem_dict. Qed.

Lemma require_object_Ok v path d : require_object v path = Ok d <-> v = PyDict d.
Proof. destruct v; cbn; split; try discriminate; [by intros [= ->]|by intros [= ->]]. Qed.

Lemma require_string_Ok v path r s :
  require_string v path r = Ok s <->
  v = PyStr s /\ match r with Some r => fullmatchb r s = true | None => True end.
Proof.
  destruct v; cbn; try (split; [discriminate|intros [? _]; discriminate]).
  destruct r as [r|].
  - unfold fullmatchb. destruct (re_fullmatch r s0) eqn:E; split.
    + intros [= ->]. by rewrite E.
    + intros [[= ->] _]. done.
    + discriminate.
    + intros [[= ->] H]. by rewrite E in H.
  - split; [by intros [= ->]|by intros [[= ->] _]].
Qed.

Lemma require_integer_Ok v path m z :
  require_integer v path m = Ok z <-> v = PyInt z /\ (m <= z)%Z.
Proof.
  destruct v as [ | |z'| | | |]; cbn; try (split; [discriminate|intros [? _]; discriminate]).
  destruct (z' <? m)%Z eqn:E; split.
  - discriminate.
  - intros [[= ->] H]. apply Z.ltb_lt in E. lia.
  - intros [= ->]. apply Z.ltb_ge in E. done.
  - intros [[= ->] _]. done.
Qed.

Lemma exact_keys_Ok d allowed required path u :
  exact_keys d allowed required path = Ok u <->
  dict_keys d ⊆ allowed /\ required ⊆ dict_keys d.
Proof.
  unfold exact_keys. destruct u.
  destruct (sorted_strs (dict_keys d ∖ allowed)) as [|k l] eqn:E1.
  - apply sorted_strs_nil in E1. destruct (sorted_strs (required ∖ dict_keys d)) as [|k l] eqn:E2.
    + apply sorted_strs_nil in E2. split; [intros _|done].
      split; intros x Hx; destruct (decide (x ∈ dict_keys d)); set_solver.
    + split; [discriminate|]. intros [_ H]. assert (k ∈ required ∖ dict_keys d) as Hk.
      { rewrite <- sorted_strs_elem, E2. set_solver. } set_solver.
  - split; [discriminate|]. intros [H _]. assert (k ∈ dict_keys d ∖ allowed) as Hk.
    { rewrite <- sorted_strs_elem, E1. set_solver. } set_solver.
Qed.

Lemma exact_keys_same d ks path u : exact_keys d ks ks path = Ok u <-> keys_are d ks.
Proof. rewrite exact_keys_Ok. unfold keys_are. set_solver. Qed.

Lemma not_in_strs_false v l : not_in_strs v l = false <-> exists s, s ∈ l /\ v = PyStr s.
Proof.
  unfold not_in_strs. rewrite negb_false_iff, existsb_exists.
  split; intros (s & H1 & H2); exists s.
  - split; [by apply list_elem_of_In|by apply py_eqb_str].
  - split; [by apply list_elem_of_In|by apply py_eqb_str].
Qed.

(** [inv_check] reads off what a successful check established; [ok_step] runs
    one check that is known to succeed. *)
Ltac inv_check_step :=
  match goal with
  | H : item _ _ = Ok _ |- _ => apply item_Ok in H
  | H : require_object _ _ = Ok _ |- _ => apply require_object_Ok in H
  | H : exact_keys _ ?k ?k _ = Ok _ |- _ => apply exact_keys_same in H
  | H : exact_keys _ _ _ _ = Ok _ |- _ => apply exact_keys_Ok in H as [? ?]
  | H : require_string _ _ _ = Ok _ |- _ => apply require_string_Ok in H as [? ?]
  | H : require_integer _ _ _ = Ok _ |- _ => apply require_integer_Ok in H as [? ?]
  | H : reject_if _ _ _ = Ok _ |- _ => apply reject_if_Ok in H
  | H : reject _ _ = Ok _ |- _ => discriminate H
  | H : _ || _ = false |- _ => apply orb_false_iff in H as [? ?]
  | H : negb (py_eqb _ (PyStr _)) = false |- _ => apply negb_false_iff, py_eqb_str in H
  | H : fullmatchb IDENTIFIER _ = true |- _ => rewrite fullmatch_IDENTIFIER in H
  | H : fullmatchb LOWER_IDENTIFIER _ = true |- _ => rewrite fullmatch_LOWER_IDENTIFIER in H
  end.
Ltac inv_check := repeat ((inv_res_step || inv_check_step); simplify_eq).

Ltac ok_check :=
  first [ apply item_Ok; eassumption
        | apply require_object_Ok; reflexivity
        | apply exact_keys_same; assumption
        | apply exact_keys_Ok; split; assumption
        | apply require_string_Ok; split;
            [reflexivity|rewrite ?fullmatch_IDENTIFIER, ?fullmatch_LOWER_IDENTIFIER; assumption || exact I]
        | apply require_integer_Ok; split; [reflexivity|lia]
        | apply reject_if_Ok; (assumption || reflexivity) ].
Ltac ok_step := apply bind_Ok; (exists tt || eexists); split; [ok_check|].

Lemma str_empty_false s : bool_decide (s = EmptyString) = false <-> s <> EmptyString.
Proof. apply bool_decide_eq_false. Qed.

Lemma namespace_check s :
  negb (bool_decide (s = EmptyString)) && (negb (str_startswith "/" s) || str_endswith "/" s) = false
  <-> valid_namespace s.
Proof.
  unfold valid_namespace. rewrite andb_false_iff, orb_false_iff, !negb_false_iff.
  by rewrite bool_decide_eq_true.
Qed.

Lemma validate_node_Ok v u :
  validate_node v = Ok u <->
  exists n name ns, dict_get v "node" = Some (PyDict n) /\ keys_are n NODE_KEYS /\
    dict_get n "name" = Some (PyStr name) /\ dict_get n "namespace" = Some (PyStr ns) /\
    c_identifier name = true /\ valid_namespace ns.
Proof.
  unfold validate_node. split.
  - intros H. inv_check. apply namespace_check in H. eauto 12.
  - intros (n & name & ns & H1 & H2 & H3 & H4 & H5 & H6%namespace_check).
    do 7 ok_step. by apply reject_if_Ok.
Qed.

Lemma mapM_as_str l names : mapM as_str l = Some names <-> l = PyStr <$> names.
Proof.
  rewrite mapM_Some. split.
  - induction 1 as [|x s l names Hx Hl IH]; [done|]. destruct x; simplify_eq/=. done.
  - intros ->. induction names as [|s names IH]; constructor; done.
Qed.

Lemma size_list_to_set_NoDup (l : list string) :
  (size (list_to_set l : gset string) =? length l) = true <-> NoDup l.
Proof.
  rewrite Nat.eqb_eq. split.
  - induction l as [|x l IH]; [constructor|]. cbn [list_to_set length].
    assert (size (list_to_set l : gset string) <= length l) as Hle.
    { clear IH. induction l as [|y l IH]; cbn [list_to_set length]; [done|].
      rewrite size_union_alt, size_singleton.
      pose proof (subseteq_size (list_to_set l ∖ {[y]}) (list_to_set l : gset string)) as Hs.
      specialize (Hs ltac:(set_solver)). lia. }
    intros Hs. destruct (decide (x ∈ (list_to_set l : gset string))) as [Hin|Hnin].
    + rewrite subseteq_union_1_L in Hs by set_solver. lia.
    + rewrite size_union in Hs by set_solver. rewrite size_singleton in Hs.
      constructor; [set_solver|]. apply IH. lia.
  - apply size_list_to_set.
Qed.

Lemma unique_check (l : list string) :
  negb (size (list_to_set l : gset string) =? length l) = false <-> NoDup l.
Proof. by rewrite negb_false_iff, size_list_to_set_NoDup. Qed.

Lemma validate_rmw_Ok v u :
  validate_rmw v = Ok u <->
  exists names, dict_get v "rmw" = Some (PyList (PyStr <$> names)) /\ names <> [] /\
    NoDup names /\ forall b, b ∈ names -> b = "rmw_cyclonedds_c" \/ b = "rmw_zenoh_pico".
Proof.
  unfold validate_rmw. destruct u. split.
  - intros H. inv_check. destruct a as [ | | | | |l| ]; try discriminate.
    destruct l as [|x l]; [discriminate|].
    destruct (mapM as_str (x :: l)) as [names|] eqn:Hn; [|discriminate].
    apply mapM_as_str in Hn. rewrite Hn in *. exists names. inv_check.
    match goal with H : negb (size _ =? _) = false |- _ => apply unique_check in H end.
    split; [done|]. split; [intros ->; discriminate|]. split; [done|].
    destruct (sorted_strs _) as [|b bs] eqn:Hs in H; [|discriminate].
    apply sorted_strs_nil in Hs. intros b Hb.
    assert (b ∈ SUPPORTED_BACKENDS) as Hb'.
    { destruct (decide (b ∈ SUPPORTED_BACKENDS)); [done|set_solver]. }
    unfold SUPPORTED_BACKENDS in Hb'. set_solver.
  - intros (names & H1 & H2 & H3%unique_check & H4). ok_step.
    destruct names as [|x names]; [done|].
    change (PyStr <$> x :: names) with (PyStr x :: (PyStr <$> names)).
    cbv iota beta. rewrite (proj2 (mapM_as_str _ (x :: names))) by done.
    ok_step. rewrite (proj2 (sorted_strs_nil _)); [done|].
    apply set_eq. intros b. unfold SUPPORTED_BACKENDS. set_solver.
Qed.

Lemma is_bool_inv v : negb (is_bool v) = false -> exists b, v = PyBool b.
Proof. destruct v; try discriminate. eauto. Qed.

Lemma validate_graph_Ok v u :
  validate_graph v = Ok u <->
  exists g outb inb api, dict_get v "graph" = Some (PyDict g) /\ keys_are g GRAPH_KEYS /\
    dict_get g "outbound" = Some (PyBool outb) /\ dict_get g "inbound" = Some (PyBool inb) /\
    dict_get g "api" = Some (PyList (PyStr <$> api)) /\ NoDup api.
Proof.
  unfold validate_graph. destruct u. split.
  - intros H. inv_check.
    repeat match goal with H : negb (is_bool _) = false |- _ => apply is_bool_inv in H as [? ->] end.
    match goal with H : match ?a with _ => _ end = Ok tt |- _ => destruct a as [ | | | | |l| ] end;
      try discriminate.
    destruct (mapM as_str l) as [names|] eqn:Hn; [|discriminate].
    apply mapM_as_str in Hn as ->. inv_check. apply unique_check in H. eauto 12.
  - intros (g & outb & inb & api & H1 & H2 & H3 & H4 & H5 & H6%unique_check).
    do 7 ok_step. cbv iota beta zeta. rewrite (proj2 (mapM_as_str _ api)) by done. by apply reject_if_Ok.
Qed.

Lemma reliability_cases v :
  not_in_strs v ["best_effort"; "reliable"] = false <-> exists r, v = PyStr (reliability_str r).
Proof.
  rewrite not_in_strs_false. split.
  - intros (s & Hs & ->). set_unfold in Hs. destruct Hs as [->|[->|[]]]; [by exists BestEffort|by exists Reliable].
  - intros [[] ->]; eexists; (split; [|reflexivity]); set_solver.
Qed.

Lemma durability_cases v :
  not_in_strs v ["volatile"; "transient_local"] = false <-> exists r, v = PyStr (durability_str r).
Proof.
  rewrite not_in_strs_false. split.
  - intros (s & Hs & ->). set_unfold in Hs. destruct Hs as [->|[->|[]]]; [by exists Volatile|by exists TransientLocal].
  - intros [[] ->]; eexists; (split; [|reflexivity]); set_solver.
Qed.

Lemma validate_qos_Ok d path u :
  validate_qos d path = Ok u <->
  exists q x, dict_get d "qos" = Some (PyDict q) /\ represents_qos q x /\ (1 <= qos_depth x)%Z.
Proof.
  unfold validate_qos. destruct u. split.
  - intros H. apply bind_Ok in H as (raw & Hraw & H). apply bind_Ok in H as (q & Hq & H).
    apply bind_Ok in H as ([] & Hk & H). apply bind_Ok in H as (r & Hr & H).
    apply bind_Ok in H as ([] & Hr' & H). apply bind_Ok in H as (du & Hd & H).
    apply bind_Ok in H as ([] & Hd' & H). inv_check.
    apply reliability_cases in Hr' as [x ->]. apply durability_cases in Hd' as [y ->].
    match goal with H : match strict_int ?a with _ => _ end = _ |- _ => destruct a; try discriminate end.
    cbn in H. inv_check. apply Z.ltb_ge in H.
    exists q, (Qos x y z). by split.
  - intros (q & [rel dur depth] & H1 & [Hk Hr Hd Hh Hz] & H3). cbn in *.
    do 4 ok_step.
    apply bind_Ok. exists tt. split; [apply reject_if_Ok, reliability_cases; eauto|]. ok_step.
    apply bind_Ok. exists tt. split; [apply reject_if_Ok, durability_cases; eauto|]. ok_step.
    ok_step. ok_step. cbn. apply reject_if_Ok, Z.ltb_ge. lia.
Qed.

Lemma type_Ok v path u :
  require_string v path (Some MESSAGE_TYPE) = Ok u <->
  v = PyStr u /\ exists pkg msg, u = pkg +:+ "/msg/" +:+ msg /\
    type_name pkg = true /\ type_name msg = true.
Proof.
  rewrite require_string_Ok. apply and_iff_compat_l. unfold fullmatchb. split.
  - destruct (re_fullmatch MESSAGE_TYPE u) as [x|] eqn:E; [intros _|discriminate].
    apply fullmatch_MESSAGE_TYPE in E as (pkg & msg & -> & ? & ? & _). eauto.
  - intros (pkg & msg & -> & Hp & Hm).
    destruct (fullmatch_MESSAGE_TYPE_is_Some pkg msg Hp Hm) as [x Hx]. by rewrite Hx.
Qed.

Lemma topic_check s :
  bool_decide (s = EmptyString) || str_endswith "/" s || str_contains "//" s = false <->
  valid_topic s.
Proof.
  unfold valid_topic. rewrite !orb_false_iff, bool_decide_eq_false. tauto.
Qed.

(** The endpoint kind and the callback field together. *)
Definition callback_check (d : pydict) (path : string) (kind : pyobj) : res unit :=
  if py_eqb kind (PyStr "subscription") then
    require_string (from_option id PyNone (dict_get d "callback"))
      (path +:+ ".callback") (Some IDENTIFIER) ;; Ok tt
  else reject_if (dict_has d "callback")
         "E_SCHEMA" (path +:+ ".callback is only valid for a subscription").

Definition callback_of (k : endpoint_kind) : option pyobj :=
  match k with Publisher => None | Subscription cb => Some (PyStr cb) end.

Lemma callback_check_Ok d path kind :
  not_in_strs kind ["publisher"; "subscription"] = false /\ callback_check d path kind = Ok tt <->
  exists k, kind = PyStr (kind_str k) /\ dict_get d "callback" = callback_of k /\
    (forall cb, k = Subscription cb -> c_identifier cb = true).
Proof.
  unfold callback_check. rewrite not_in_strs_false. split.
  - intros [(s & Hs & ->) H]. set_unfold in Hs. destruct Hs as [->|[->|[]]].
    + change (py_eqb (PyStr "publisher") (PyStr "subscription")) with false in H. cbv iota in H.
      exists Publisher. inv_check. unfold dict_has in H.
      destruct (dict_get d "callback"); [discriminate|]. split; [done|]. by split.
    + change (py_eqb (PyStr "subscription") (PyStr "subscription")) with true in H. cbv iota in H.
      inv_check. destruct (dict_get d "callback") as [x|] eqn:Hcb; cbn in *; simplify_eq.
      eexists (Subscription _). cbn. split; [done|]. split; [done|]. by intros ? [= <-].
  - intros ([|cb] & -> & Hcb & Hid); cbn [kind_str callback_of] in *.
    + change (py_eqb (PyStr "publisher") (PyStr "subscription")) with false. cbv iota.
      split; [exists "publisher"; set_solver|]. apply reject_if_Ok.
      unfold dict_has. by rewrite Hcb.
    + change (py_eqb (PyStr "subscription") (PyStr "subscription")) with true. cbv iota.
      split; [exists "subscription"; set_solver|]. rewrite Hcb. cbn [from_option].
      specialize (Hid cb eq_refl). by ok_step.
Qed.

Lemma validate_endpoint_Ok ids i v ids' :
  validate_endpoint ids (i, v) = Ok ids' <->
  exists e, represents_endpoint v e /\ valid_endpoint e /\ (ep_id e ∉ ids) /\
    ids' = {[ep_id e]} ∪ ids.
Proof.
  unfold validate_endpoint. set (path := "endpoints[" +:+ _). split.
  - intros H. apply bind_Ok in H as (d & Hd & H). apply bind_Ok in H as ([] & Hk & H).
    apply bind_Ok in H as (rid & Hrid & H). apply bind_Ok in H as (eid & Heid & H).
    apply bind_Ok in H as ([] & Hdup & H). apply bind_Ok in H as (kind & Hkind & H).
    apply bind_Ok in H as ([] & Hkind' & H). apply bind_Ok in H as (rt & Hrt & H).
    apply bind_Ok in H as (topic & Htopic & H). apply bind_Ok in H as ([] & Htopic' & H).
    apply bind_Ok in H as (ty & Hty & H). apply bind_Ok in H as (ty' & Hty' & H).
    apply bind_Ok in H as (lt & Hlt & H). apply bind_Ok in H as ([] & Hlt' & H).
    apply bind_Ok in H as ([] & Hcb & H). apply bind_Ok in H as ([] & Hq & H).
    apply type_Ok in Hty' as (-> & pkg & msg & -> & Hpkg & Hmsg).
    apply validate_qos_Ok in Hq as (q & x & Hq & Hrq & Hdepth).
    apply reject_if_Ok in Hkind'. apply reject_if_Ok, topic_check in Htopic'.
    destruct (proj1 (callback_check_Ok d path kind) (conj Hkind' Hcb)) as (k & -> & Hcbk & Hcbi).
    inv_check. exists (Endpoint eid k topic pkg msg x). split; [|split; [|split]].
    + split. eexists; split; [done|]. cbn. repeat split; try done. eauto.
    + by split.
    + by apply bool_decide_eq_false in Hdup.
    + done.
  - intros ([eid k topic pkg msg x] & [(d & -> & Hk & H1 & H2 & H3 & H4 & H5 & H6 & q & Hq & Hrq)]
      & [Vid Vt Vp Vm Vc Vd] & Hnin & ->).
    unfold ep_type in H4. cbn [ep_id ep_kind ep_topic ep_package ep_message ep_qos] in *.
    apply bind_Ok. eexists. split; [by apply require_object_Ok|].
    apply bind_Ok. exists tt. split.
    { apply exact_keys_Ok. split; [done|]. intros y Hy.
      apply elem_of_list_to_set, dict_get_is_Some. unfold ENDPOINT_KEYS in Hy. set_unfold in Hy.
      destruct Hy as [Hy Hne]. naive_solver. }
    ok_step. ok_step.
    apply bind_Ok. exists tt. split; [by apply reject_if_Ok, bool_decide_eq_false|]. ok_step.
    destruct (proj2 (callback_check_Ok d path (PyStr (kind_str k)))) as [Hki Hcb]; [eauto|].
    apply bind_Ok. exists tt. split; [by apply reject_if_Ok|]. ok_step. ok_step.
    apply bind_Ok. exists tt. split; [by apply reject_if_Ok, topic_check|]. ok_step.
    apply bind_Ok. eexists. split; [apply type_Ok; split; [reflexivity|]; by eexists _, _|].
    ok_step. ok_step.
    apply bind_Ok. exists tt. split; [exact Hcb|].
    apply bind_Ok. exists tt. split; [apply validate_qos_Ok; eauto|]. done.
Qed.

Lemma foldM_endpoints n l ids :
  (exists ids', foldM validate_endpoint (zip (seq n (length l)) l) ids = Ok ids') <->
  exists es, Forall2 represents_endpoint l es /\ Forall valid_endpoint es /\
    NoDup (ep_id <$> es) /\ Forall (fun e => ep_id e ∉ ids) es.
Proof.
  revert n ids. induction l as [|v l IH]; intros n ids; cbn [length seq zip_with foldM].
  - split; [|by eauto]. intros _. exists []. repeat constructor.
  - split.
    + intros (ids' & (ids1 & He & H)%bind_Ok).
      apply validate_endpoint_Ok in He as (e & Hr & Hv & Hn & ->).
      destruct (proj1 (IH _ _) (ex_intro _ _ H)) as (es & H1 & H2 & H3 & H4).
      exists (e :: es). cbn. repeat split; [by constructor|by constructor| |].
      * constructor; [|done]. rewrite list_elem_of_fmap. intros (e' & Heq & Hin).
        rewrite Forall_forall in H4. apply H4 in Hin. set_solver.
      * constructor; [done|]. eapply Forall_impl; [exact H4|]. set_solver.
    + intros (es & H1 & H2 & H3 & H4). destruct es as [|e es]; inversion H1; subst.
      apply Forall_cons in H2 as [Hv2 H2]. apply Forall_cons in H4 as [Hn4 H4].
      cbn in H3. apply NoDup_cons in H3 as [Hnin Hnd].
      destruct (proj2 (IH (S n) ({[ep_id e]} ∪ ids))) as [ids' Hids'].
      { exists es. split; [done|]. split; [done|]. split; [done|].
        apply Forall_forall. intros e' He'. rewrite Forall_forall in H4.
        specialize (H4 e' He'). rewrite list_elem_of_fmap in Hnin. set_solver. }
      exists ids'. apply bind_Ok. eexists. split; [|exact Hids'].
      apply validate_endpoint_Ok. eauto 10.
Qed.

Lemma validate_budget_Ok kv u :
  validate_budget kv = Ok u <-> exists b, represents_budget kv (kv.1, b) /\ valid_budget b.
Proof.
  destruct kv as [k v], u. unfold validate_budget. split.
  - intros H. apply bind_Ok in H as (s & Hs & H). apply bind_Ok in H as (b & Hb & H).
    apply bind_Ok in H as ([] & Hk & H). apply bind_Ok in H as (rf & Hrf & H).
    apply bind_Ok in H as (f & Hf & H). apply bind_Ok in H as (rr & Hrr & H).
    apply bind_Ok in H as (r & Hr & _). inv_check.
    exists (Budget f r). split; [|by split]. split; [done|]. by exists b.
  - intros ([f r] & [_ (b & Hb & Hk & Hf & Hr)] & [H1 H2]).
    cbn [fst snd flash_bytes ram_bytes] in *. subst v. do 7 ok_step. done.
Qed.

Lemma validate_budgets_Ok t u :
  eachM validate_budget (sorted_items t) = Ok u <->
  exists bs, Forall2 represents_budget t bs /\ Forall (fun tb => valid_budget tb.2) bs.
Proof.
  rewrite eachM_Ok. assert (Forall (fun x => validate_budget x = Ok tt) (sorted_items t) <->
    Forall (fun x => validate_budget x = Ok tt) t) as ->.
  { rewrite !Forall_forall. by setoid_rewrite sorted_items_elem. }
  split.
  - induction 1 as [|kv t Hkv Ht (bs & H1 & H2)]; [by exists []; repeat constructor|].
    apply validate_budget_Ok in Hkv as (b & Hb & Hvb).
    exists ((kv.1, b) :: bs). split; by constructor.
  - intros (bs & H1 & H2). induction H1 as [|kv [k b] t bs Hkv Ht IH]; constructor.
    + apply validate_budget_Ok. inversion H2; subst. exists b. split; [|done].
      destruct Hkv as [Heq Hb]. by split.
    + inversion H2; auto.
Qed.

Lemma remote_keys_sorted : sorted_strs REMOTE_RESOURCE_KEYS = ["endpoints"; "nodes"; "participants"].
Proof. vm_compute. reflexivity. Qed.

(** The numeric bounds of the resource contract. *)
Record valid_resources (d : deployment) (count : Z) : Prop := {
  vr_capacity : (0 <= dep_local_endpoints d /\ count <= dep_local_endpoints d)%Z;
  vr_participants : (0 <= dep_remote_participants d)%Z;
  vr_nodes : (0 <= dep_remote_nodes d)%Z;
  vr_endpoints : (0 <= dep_remote_endpoints d)%Z;
  vr_workers : (1 <= dep_workers d)%Z;
  vr_reserve : (0 <= dep_reserve d)%Z;
  vr_targets_nonempty : dep_targets d <> [];
  vr_targets : Forall (fun tb => valid_budget tb.2) (dep_targets d)
}.

Definition resources_only (l p n e w a : Z) (t : list (string * budget)) : deployment :=
  Deployment "" 0 "" "" [] false false [] [] l p n e w a t.

Lemma validate_resources_Ok v count u :
  validate_resources v count = Ok u <->
  exists r d, dict_get v "resources" = Some (PyDict r) /\ represents_resources r d /\
    valid_resources d count.
Proof.
  unfold validate_resources. rewrite remote_keys_sorted. destruct u. split.
  - intros H. cbn [eachM] in H.
    apply bind_Ok in H as (raw & Hraw & H). apply bind_Ok in H as (r & Hr & H).
    apply bind_Ok in H as ([] & Hk & H). apply bind_Ok in H as (rl & Hrl & H).
    apply bind_Ok in H as (l & Hl & H). apply bind_Ok in H as ([] & Hcap & H).
    apply bind_Ok in H as (rm & Hrm & H). apply bind_Ok in H as (m & Hm & H).
    apply bind_Ok in H as ([] & Hmk & H). apply bind_Ok in H as ([] & Hrem & H).
    apply bind_Ok in H as (rw & Hrw & H). apply bind_Ok in H as (w & Hw & H).
    apply bind_Ok in H as ([] & Hwk & H). apply bind_Ok in H as (rwm & Hrwm & H).
    apply bind_Ok in H as (wm & Hwm & H). apply bind_Ok in H as (ra & Hra & H).
    apply bind_Ok in H as (a & Ha & H). apply bind_Ok in H as ([] & Hak & H).
    apply bind_Ok in H as (rb & Hrb & H). apply bind_Ok in H as (b & Hb & H).
    apply bind_Ok in H as (rt & Hrt & H). apply bind_Ok in H as (t & Ht & H).
    apply bind_Ok in H as ([] & Htn & H).
    apply validate_budgets_Ok in H as (bs & Hbs & Hv).
    apply bind_Ok in Hrem as ([] & He & Hrem). apply bind_Ok in Hrem as ([] & Hn & Hrem).
    apply bind_Ok in Hrem as ([] & Hp & _).
    apply bind_Ok in He as (re & He & (ze & He' & _)%bind_Ok).
    apply bind_Ok in Hn as (rn & Hn & (zn & Hn' & _)%bind_Ok).
    apply bind_Ok in Hp as (rp & Hp & (zp & Hp' & _)%bind_Ok).
    inv_check. apply Z.ltb_ge in Hcap.
    exists r, (resources_only l zp zn ze wm b bs). split; [done|]. split.
    + split; [done|done|exists m|exists w|exists a|exists t]; done.
    + split; cbn; try (done || lia). intros ->. by inversion Hbs; subst.
  - intros (r & [? ? ? ? ? ? ? ? ? l p n e wm b bs] & Hr & [Hk Hl (m & Hm & Hmk & Hp & Hn & He)
      (w & Hw & Hwk & Hwm) (a & Ha & Hak & Hb) (t & Ht & Hbs)] & [? ? ? ? ? ? Hne Hv]).
    cbn [dep_local_endpoints dep_remote_participants dep_remote_nodes dep_remote_endpoints
         dep_workers dep_reserve dep_targets] in *.
    do 5 ok_step. apply bind_Ok. exists tt. split; [apply reject_if_Ok, Z.ltb_ge; lia|].
    do 3 ok_step. apply bind_Ok. exists tt. split.
    { cbn [eachM]. apply bind_Ok. exists tt. split; [do 2 ok_step; done|].
      apply bind_Ok. exists tt. split; [do 2 ok_step; done|].
      apply bind_Ok. exists tt. split; [do 2 ok_step; done|]. done. }
    do 12 ok_step. apply bind_Ok. exists tt. split.
    { apply reject_if_Ok. destruct t; [|done]. by inversion Hbs; subst. }
    apply validate_budgets_Ok. eauto.
Qed.

Lemma domain_check v :
  match strict_int v with Some z => negb ((0 <=? z) && (z <=? 232))%Z | None => true end = false <->
  exists z, v = PyInt z /\ (0 <= z <= 232)%Z.
Proof.
  destruct v as [ | |z| | | |]; cbn; try (split; [discriminate|by intros (? & ? & _)]).
  rewrite negb_false_iff, andb_true_iff, !Z.leb_le. split; [by eauto|].
  by intros (? & [= ->] & ?).
Qed.

(** The resource part of a deployment depends on its resource fields only. *)
Lemma represents_resources_ext r d d' :
  dep_local_endpoints d = dep_local_endpoints d' ->
  dep_remote_participants d = dep_remote_participants d' ->
  dep_remote_nodes d = dep_remote_nodes d' -> dep_remote_endpoints d = dep_remote_endpoints d' ->
  dep_workers d = dep_workers d' -> dep_reserve d = dep_reserve d' ->
  dep_targets d = dep_targets d' ->
  represents_resources r d -> represents_resources r d'.
Proof.
  intros H1 H2 H3 H4 H5 H6 H7 [A1 A2 A3 A4 A5 A6].
  rewrite H1 in A2. rewrite H2, H3, H4 in A3. rewrite H5 in A4. rewrite H6 in A5.
  rewrite H7 in A6. by split.
Qed.

(** The validator accepts exactly the representations of valid deployments. *)
Lemma validate_deployment_accepts v v' :
  validate_deployment v = Ok v' <->
  v' = v /\ exists d, Represents v d /\ valid_deployment d.
Proof.
  unfold validate_deployment. split.
  - intros H. apply bind_Ok in H as ([] & Hk & H). apply bind_Ok in H as (ver & Hver & H).
    apply bind_Ok in H as ([] & Hver' & H). apply bind_Ok in H as (rn & Hrn & H).
    apply bind_Ok in H as (name & Hname & H). apply bind_Ok in H as (dom & Hdom & H).
    apply bind_Ok in H as ([] & Hdom' & H). apply bind_Ok in H as (prof & Hprof & H).
    apply bind_Ok in H as ([] & Hprof' & H). apply bind_Ok in H as ([] & Hnode & H).
    apply bind_Ok in H as ([] & Hrmw & H). apply bind_Ok in H as ([] & Hgraph & H).
    apply bind_Ok in H as (eps & Heps & H).
    destruct eps as [ | | | | |l| ]; try discriminate.
    apply bind_Ok in H as (ids & Hids & H). apply bind_Ok in H as ([] & Hres & [= <-]).
    split; [done|]. apply reject_if_Ok, domain_check in Hdom' as (z & -> & Hz).
    apply reject_if_Ok, negb_false_iff in Hver'. inv_check.
    apply validate_node_Ok in Hnode as (n & nn & ns & ? & ? & ? & ? & ? & ?).
    apply validate_rmw_Ok in Hrmw as (rmw & ? & ? & ? & ?).
    apply validate_graph_Ok in Hgraph as (g & ob & ib & api & ? & ? & ? & ? & ? & ?).
    destruct (proj1 (foldM_endpoints 0 l ∅) (ex_intro _ _ Hids)) as (es & ? & ? & ? & _).
    apply validate_resources_Ok in Hres as (r & d & ? & ? & [? ? ? ? ? ? ? ?]).
    assert (length l = length es) as Hlen by (by eapply Forall2_length).
    exists (Deployment name z nn ns rmw ob ib api es (dep_local_endpoints d)
      (dep_remote_participants d) (dep_remote_nodes d) (dep_remote_endpoints d)
      (dep_workers d) (dep_reserve d) (dep_targets d)).
    split.
    + split; cbn; eauto 12. exists r. split; [done|].
      by eapply represents_resources_ext; [..|eassumption].
    + split; cbn; try (done || lia).
  - intros (-> & d & [Hk (x & Hx & Hx2) Hname Hdom Hprof (n & Hn & Hnk & Hnn & Hns) Hrmw
      (g & Hg & Hgk & Hgo & Hgi & Hga) (l & Hl & Hes) (r & Hr & Hrr)] & [V1 V2 V3 V4 V5 V6 V7 V8
      V9 V10 V11 V12 V13 V14 V15 V16 V17 V18]).
    assert (length l = length (dep_endpoints d)) as Hlen by (by eapply Forall2_length).
    do 2 ok_step. apply bind_Ok. exists tt. split; [by apply reject_if_Ok; rewrite Hx2|].
    do 3 ok_step. apply bind_Ok. exists tt.
    split; [apply reject_if_Ok, domain_check; eauto|]. ok_step.
    apply bind_Ok. exists tt. split; [done|].
    apply bind_Ok. exists tt. split; [apply validate_node_Ok; by eexists _, _, _|].
    apply bind_Ok. exists tt. split; [apply validate_rmw_Ok; by eexists|].
    apply bind_Ok. exists tt. split; [apply validate_graph_Ok; by eexists _, _, _, _|].
    ok_step. destruct (proj2 (foldM_endpoints 0 l ∅)) as [ids Hids].
    { exists (dep_endpoints d). repeat split; try done. apply Forall_forall. set_solver. }
    apply bind_Ok. exists ids. split; [exact Hids|].
    apply bind_Ok. exists tt. split; [|done]. apply validate_resources_Ok.
    exists r, d. split; [done|]. split; [done|]. split; try (done || lia).
Qed.

(** ** Only [DeploymentError] escapes *)

(** [rejects_only m]: the exceptions of [m] are all [DeploymentError]s. *)
Definition rejects_only {A} (m : res A) : Prop :=
  forall e, m = Raise e -> exists code msg, e = DeploymentError code msg.

Lemma rejects_ok {A} (a : A) : rejects_only (Ok a).
Proof. by intros e. Qed.

Lemma rejects_reject {A} code msg : rejects_only (@reject A code msg).
Proof. intros e [= <-]. eauto. Qed.

Lemma rejects_reject_if b code msg : rejects_only (reject_if b code msg).
Proof. destruct b; [apply rejects_reject|apply rejects_ok]. Qed.

Lemma rejects_bind {A B} (m : res A) (f : A -> res B) :
  rejects_only m -> (forall a, m = Ok a -> rejects_only (f a)) -> rejects_only (mbind f m).
Proof.
  intros Hm Hf e [H|(a & Ha & H)]%bind_Raise; [by apply Hm|by apply (Hf a Ha)].
Qed.

Lemma rejects_require_object v path : rejects_only (require_object v path).
Proof. destruct v; (apply rejects_ok || apply rejects_reject). Qed.

Lemma rejects_require_string v path r : rejects_only (require_string v path r).
Proof. destruct v; cbn; try case_match; (apply rejects_ok || apply rejects_reject). Qed.

Lemma rejects_require_integer v path m : rejects_only (require_integer v path m).
Proof. unfold require_integer. repeat case_match; (apply rejects_ok || apply rejects_reject). Qed.

Lemma rejects_exact_keys d a r path : rejects_only (exact_keys d a r path).
Proof. unfold exact_keys. repeat case_match; (apply rejects_ok || apply rejects_reject). Qed.

(** Subscripts are guarded by the key check that precedes them. *)
Lemma rejects_item d ks k : ks ⊆ dict_keys d -> k ∈ ks -> rejects_only (item d k).
Proof.
  intros Hks Hk e He. apply Hks, elem_of_list_to_set, dict_get_is_Some in Hk as [v Hv].
  unfold item, getitem in He. by rewrite Hv in He.
Qed.

Lemma rejects_eachM {A} (f : A -> res unit) l :
  (forall x, x ∈ l -> rejects_only (f x)) -> rejects_only (eachM f l).
Proof.
  induction l as [|x l IH]; intros H; [apply rejects_ok|]. cbn. apply rejects_bind.
  - apply H. left.
  - intros _ _. apply IH. intros y Hy. apply H. by right.
Qed.

Lemma rejects_foldM {A S} (f : S -> A -> res S) l s :
  (forall s x, rejects_only (f s x)) -> rejects_only (foldM f l s).
Proof.
  intros H. revert s. induction l as [|x l IH]; intros s; [apply rejects_ok|]. cbn.
  by apply rejects_bind.
Qed.

(** Runs the checks one by one, remembering the key checks passed. *)
Ltac in_keys := refine (bool_decide_unpack _ _); vm_compute; exact I.
Ltac rejects_step :=
  match goal with
  | |- rejects_only (mbind _ _) => apply rejects_bind; [|intros ? ?]
  | H : exact_keys ?d _ ?ks _ = Ok _ |- rejects_only (item ?d _) =>
      apply (rejects_item d ks); [apply exact_keys_Ok in H; apply H|in_keys]
  | |- rejects_only (Ok _) => apply rejects_ok
  | |- rejects_only (reject _ _) => apply rejects_reject
  | |- rejects_only (reject_if _ _ _) => apply rejects_reject_if
  | |- rejects_only (require_object _ _) => apply rejects_require_object
  | |- rejects_only (require_string _ _ _) => apply rejects_require_string
  | |- rejects_only (require_integer _ _ _) => apply rejects_require_integer
  | |- rejects_only (exact_keys _ _ _ _) => apply rejects_exact_keys
  | |- rejects_only (match ?x with _ => _ end) => destruct x
  | |- rejects_only (let _ := _ in _) => cbv zeta
  end.
Ltac rejects_solve := repeat rejects_step.

Section guarded.
Context (v : pydict) (Hv : ROOT_KEYS ⊆ dict_keys v).

Ltac root_item := apply (rejects_item v ROOT_KEYS); [exact Hv|in_keys].

Lemma rejects_validate_node : rejects_only (validate_node v).
Proof. unfold validate_node. apply rejects_bind; [root_item|intros]. rejects_solve. Qed.

Lemma rejects_validate_rmw : rejects_only (validate_rmw v).
Proof. unfold validate_rmw. apply rejects_bind; [root_item|intros]. rejects_solve. Qed.

Lemma rejects_validate_graph : rejects_only (validate_graph v).
Proof. unfold validate_graph. apply rejects_bind; [root_item|intros]. rejects_solve. Qed.

Lemma rejects_validate_budget kv : rejects_only (validate_budget kv).
Proof. unfold validate_budget. rejects_solve. Qed.

Lemma rejects_validate_resources n : rejects_only (validate_resources v n).
Proof.
  unfold validate_resources. apply rejects_bind; [root_item|intros]. rejects_solve.
  - apply rejects_eachM. intros k Hk%sorted_strs_elem. apply rejects_bind; [|intros; rejects_solve].
    eapply rejects_item; [|exact Hk].
    match goal with H : exact_keys _ _ REMOTE_RESOURCE_KEYS _ = Ok _ |- _ =>
      apply exact_keys_Ok in H; apply H end.
  - apply rejects_eachM. intros kv _. apply rejects_validate_budget.
Qed.
End guarded.

Lemma rejects_validate_endpoint ids entry : rejects_only (validate_endpoint ids entry).
Proof.
  unfold validate_endpoint. rejects_solve.
  all: match goal with H : exact_keys ?d _ ?ks _ = Ok _ |- _ =>
         apply exact_keys_Ok in H as [_ H] end.
  all: unfold validate_qos; apply rejects_bind; [eapply rejects_item; [eassumption|in_keys]|intros];
       rejects_solve.
Qed.

Lemma rejects_validate_deployment v : rejects_only (validate_deployment v).
Proof.
  unfold validate_deployment. apply rejects_bind; [apply rejects_exact_keys|].
  intros [] [_ Hv]%exact_keys_Ok.
  repeat first
    [ apply rejects_validate_node, Hv | apply rejects_validate_rmw, Hv
    | apply rejects_validate_graph, Hv | apply rejects_validate_resources, Hv
    | apply rejects_foldM; apply rejects_validate_endpoint
    | (apply (rejects_item v ROOT_KEYS); [exact Hv|in_keys]) | rejects_step ].
Qed.
