(* ===== verification/Capability.v ===== *)
(** * Backend capabilities

    [validate_capabilities] of [tools/compile_deployment.py] and its contract:
    a deployment is accepted for a backend exactly when the backend is one the
    deployment permits and its capability document covers every QoS policy,
    depth, graph direction and graph API the deployment asks for.  Nothing is
    weakened: the check has no other effect than to accept or reject. *)

From Stdlib Require Import Ascii String.
From S2P Require Import Prelude PyStr Regex PyFloat PyObj Validate Deployment ValidateSpec.

Module Capability.
Import Deploy.

(** [d.get(k)] *)
Definition get (d : pydict) (k : string) : pyobj := from_option id PyNone (dict_get d k).
(** [d.get(k, [])] *)
Definition get_list (d : pydict) (k : string) : pyobj := from_option id (PyList []) (dict_get d k).

(** One policy of one endpoint. *)
Definition check_policy (qos_cap : pydict) (backend : string) (endpoint qos : pyobj)
    (policy : string) : res unit :=
  value ← getitem qos policy;
  supported ← py_in value (get_list qos_cap policy);
  if supported : bool then Ok tt
  else topic ← getitem endpoint "topic";
       reject "E_QOS_UNSUPPORTED"
         ("endpoint " +:+ py_str topic +:+ " requests " +:+ policy +:+ "=" +:+ py_str value +:+
          "; backend " +:+ backend +:+ " does not support it").

(** The body of the loop over the endpoints. *)
Definition check_endpoint (qos_cap : pydict) (minimum_depth maximum_depth : Z) (backend : string)
    (endpoint : pyobj) : res unit :=
  qos ← getitem endpoint "qos";
  eachM (check_policy qos_cap backend endpoint qos) ["reliability"; "durability"; "history"] ;;
  depth ← getitem qos "depth";
  fits ← py_between minimum_depth depth maximum_depth;
  if fits : bool then Ok tt
  else topic ← getitem endpoint "topic";
       reject "E_QOS_UNSUPPORTED"
         ("endpoint " +:+ py_str topic +:+ " requests depth=" +:+ py_str depth +:+
          "; backend " +:+ backend +:+ " accepts " +:+ str_of_Z minimum_depth +:+ ".." +:+
          str_of_Z maximum_depth).

(** One direction of the graph requirement. *)
Definition check_direction (graph : pyobj) (graph_cap : pydict) (backend direction : string) : res unit :=
  wanted ← getitem graph direction;
  reject_if (truthy wanted && negb (truthy (get graph_cap direction))) "E_GRAPH_UNSUPPORTED"
    ("deployment requires " +:+ direction +:+ " graph behavior; backend " +:+ backend +:+ " lacks it").

(** The strings of a set; the validator admits no other element in [graph.api]. *)
Definition string_set (l : list pyobj) : res (gset string) :=
  match mapM as_str l with Some names => Ok (list_to_set names) | None => Raise TypeError end.

Definition validate_capabilities (deployment capability : pydict) (backend : string) : res unit :=
  rmw ← item deployment "rmw";
  selected ← py_in (PyStr backend) rmw;
  reject_if (negb selected) "E_BACKEND_NOT_SELECTED"
    ("backend " +:+ backend +:+ " is not allowed by this deployment") ;;
  reject_if (negb (py_eqb (get capability "schema_version") (PyInt 1)) ||
             negb (py_eqb (get capability "backend") (PyStr backend)))
    "E_CAPABILITY_SCHEMA" ("invalid capability document for " +:+ backend) ;;
  profile ← item deployment "message_profile";
  profile_ok ← py_in profile (get_list capability "message_profiles");
  reject_if (negb profile_ok) "E_MESSAGE_PROFILE_UNSUPPORTED"
    ("backend " +:+ backend +:+ " does not support " +:+ py_str profile) ;;
  qos_cap ← require_object (get capability "qos") ("capability " +:+ backend +:+ ".qos");
  depth_cap ← require_object (get qos_cap "depth") ("capability " +:+ backend +:+ ".qos.depth");
  match strict_int (get depth_cap "minimum"), strict_int (get depth_cap "maximum") with
  | Some minimum_depth, Some maximum_depth =>
      reject_if ((minimum_depth <? 1) || (maximum_depth <? minimum_depth))%Z
        "E_CAPABILITY_SCHEMA" ("invalid QoS depth range for " +:+ backend) ;;
      endpoints ← item deployment "endpoints";
      l ← py_iter endpoints;
      eachM (check_endpoint qos_cap minimum_depth maximum_depth backend) l ;;
      graph_cap ← require_object (get capability "graph") ("capability " +:+ backend +:+ ".graph");
      graph ← item deployment "graph";
      eachM (check_direction graph graph_cap backend) ["outbound"; "inbound"] ;;
      api ← getitem graph "api";
      wanted ← py_set api;
      wanted_names ← string_set wanted;
      offered ← py_set (get_list graph_cap "api");
      match sorted_strs (wanted_names ∖ list_to_set (omap as_str offered)) with
      | a :: _ =>
          reject "E_GRAPH_UNSUPPORTED"
            ("deployment requires graph API " +:+ a +:+ "; backend " +:+ backend +:+ " lacks it")
      | [] => Ok tt
      end
  | _, _ => reject "E_CAPABILITY_SCHEMA" ("invalid QoS depth range for " +:+ backend)
  end.

(** ** The contract of a backend *)

Import Contract.

Record capability := Cap {
  cap_backend : string;
  cap_profiles : list string;
  cap_reliability : list string;
  cap_durability : list string;
  cap_history : list string;
  cap_min_depth : Z;
  cap_max_depth : Z;
  cap_outbound : bool;
  cap_inbound : bool;
  cap_api : list string
}.

Definition str_list (d : pydict) (k : string) (l : list string) : Prop :=
  dict_get d k = Some (PyList (PyStr <$> l)).

(** A capability document in the form of the files under [capabilities/]. *)
Record represents_cap (v : pydict) (c : capability) : Prop := {
  rc_version : dict_get v "schema_version" = Some (PyInt 1);
  rc_backend : dict_get v "backend" = Some (PyStr (cap_backend c));
  rc_profiles : str_list v "message_profiles" (cap_profiles c);
  rc_qos : exists q dd, dict_get v "qos" = Some (PyDict q) /\
    str_list q "reliability" (cap_reliability c) /\ str_list q "durability" (cap_durability c) /\
    str_list q "history" (cap_history c) /\ dict_get q "depth" = Some (PyDict dd) /\
    dict_get dd "minimum" = Some (PyInt (cap_min_depth c)) /\
    dict_get dd "maximum" = Some (PyInt (cap_max_depth c));
  rc_graph : exists g, dict_get v "graph" = Some (PyDict g) /\
    dict_get g "outbound" = Some (PyBool (cap_outbound c)) /\
    dict_get g "inbound" = Some (PyBool (cap_inbound c)) /\ str_list g "api" (cap_api c);
  rc_depths : (1 <= cap_min_depth c <= cap_max_depth c)%Z
}.

Record supports_qos (c : capability) (q : qos) : Prop := {
  sq_reliability : reliability_str (qos_reliability q) ∈ cap_reliability c;
  sq_durability : durability_str (qos_durability q) ∈ cap_durability c;
  sq_history : "keep_last" ∈ cap_history c;
  sq_depth : (cap_min_depth c <= qos_depth q <= cap_max_depth c)%Z
}.

(** Everything the deployment asks for is offered. *)
Record supports (c : capability) (d : deployment) : Prop := {
  su_selected : cap_backend c ∈ dep_rmw d;
  su_profile : "fixed_size" ∈ cap_profiles c;
  su_qos : Forall (fun e => supports_qos c (ep_qos e)) (dep_endpoints d);
  su_outbound : dep_outbound d = true -> cap_outbound c = true;
  su_inbound : dep_inbound d = true -> cap_inbound c = true;
  su_api : forall a, a ∈ dep_api d -> a ∈ cap_api c
}.

(** * Properties *)

Lemma py_in_strs s (l : list string) : py_in (PyStr s) (PyList (PyStr <$> l)) = Ok (bool_decide (s ∈ l)).
Proof.
  cbn [py_in]. f_equal. apply eq_iff_eq_true. rewrite bool_decide_eq_true, existsb_exists. split.
  - intros (x & Hx & He). apply list_elem_of_In, list_elem_of_fmap in Hx as (t & -> & Ht).
    apply bool_decide_eq_true in He as ->. done.
  - intros Hs. exists (PyStr s). split; [|by apply bool_decide_eq_true].
    apply list_elem_of_In, list_elem_of_fmap. eauto.
Qed.

Lemma get_Some d k v : dict_get d k = Some v -> get d k = v.
Proof. unfold get. by intros ->. Qed.

Lemma get_list_Some d k v : dict_get d k = Some v -> get_list d k = v.
Proof. unfold get_list. by intros ->. Qed.

Lemma check_policy_Ok qc backend e q l policy s u :
  dict_get q policy = Some (PyStr s) -> str_list qc policy l ->
  check_policy qc backend e (PyDict q) policy = Ok u <-> s ∈ l.
Proof.
  intros Hq Hl. unfold check_policy. rewrite bind_Ok. split.
  - intros (v & Hv%getitem_dict & H). rewrite Hq in Hv. injection Hv as <-.
    rewrite (get_list_Some _ _ _ Hl), py_in_strs in H. cbn [mbind res_bind] in H.
    case_bool_decide; [done|]. inv_res; discriminate.
  - intros Hs. eexists. split; [by apply getitem_dict|].
    rewrite (get_list_Some _ _ _ Hl), py_in_strs, bool_decide_eq_true_2 by done. by destruct u.
Qed.

Lemma check_endpoint_Ok qc backend e v c u :
  represents_endpoint v e ->
  str_list qc "reliability" (cap_reliability c) -> str_list qc "durability" (cap_durability c) ->
  str_list qc "history" (cap_history c) ->
  check_endpoint qc (cap_min_depth c) (cap_max_depth c) backend v = Ok u <->
  supports_qos c (ep_qos e).
Proof.
  intros [(d & -> & _ & _ & _ & _ & _ & _ & _ & q & Hq & [_ Qr Qd Qh Qz])] Hr Hd Hh.
  unfold check_endpoint. destruct u. split.
  - intros H. apply bind_Ok in H as (q' & Hq'%getitem_dict & H). rewrite Hq in Hq'.
    injection Hq' as <-. apply bind_Ok in H as ([] & Hp & H). apply eachM_Ok in Hp.
    rewrite !Forall_cons in Hp. destruct Hp as (H1 & H2 & H3 & _).
    apply bind_Ok in H as (z & Hz%getitem_dict & H). rewrite Qz in Hz. injection Hz as <-.
    cbn [py_between as_int mbind res_bind] in H.
    apply (check_policy_Ok _ _ _ _ _ _ _ _ Qr Hr) in H1.
    apply (check_policy_Ok _ _ _ _ _ _ _ _ Qd Hd) in H2.
    apply (check_policy_Ok _ _ _ _ _ _ _ _ Qh Hh) in H3. split; [done..|].
    destruct (_ && _) eqn:E in H; [lia|]. inv_res; discriminate.
  - intros [H1 H2 H3 H4]. apply bind_Ok. eexists. split; [by apply getitem_dict|].
    apply bind_Ok. exists tt. split.
    { apply eachM_Ok. rewrite !Forall_cons. repeat split; [by eapply check_policy_Ok..|constructor]. }
    apply bind_Ok. eexists. split; [by apply getitem_dict|].
    cbn [py_between as_int mbind res_bind].
    rewrite (proj2 (Z.leb_le _ _)), (proj2 (Z.leb_le _ _)) by lia. done.
Qed.

Lemma check_direction_Ok g gc backend dir (w o : bool) u :
  dict_get g dir = Some (PyBool w) -> dict_get gc dir = Some (PyBool o) ->
  check_direction (PyDict g) gc backend dir = Ok u <-> (w = true -> o = true).
Proof.
  intros Hw Ho. unfold check_direction. rewrite bind_Ok. setoid_rewrite getitem_dict.
  rewrite (get_Some _ _ _ Ho), Hw. split.
  - intros (x & [= <-] & H%reject_if_Ok). cbn in H. by destruct w, o.
  - intros H. eexists. split; [done|]. apply reject_if_Ok. cbn. destruct w, o; naive_solver.
Qed.

Lemma omap_as_str (l : list string) : omap as_str (PyStr <$> l) = l.
Proof. induction l as [|x l IH]; [done|]. cbn. by f_equal. Qed.

Lemma py_set_strs (l : list string) : py_set (PyList (PyStr <$> l)) = Ok (PyStr <$> l).
Proof.
  unfold py_set. cbn [py_iter mbind res_bind].
  assert (forallb hashable (PyStr <$> l) = true) as ->; [|done].
  induction l as [|x l IH]; [done|]. exact IH.
Qed.

(** The capability check is exactly the contract. *)
Lemma validate_capabilities_accepts v d cv c u :
  Represents v d -> represents_cap cv c ->
  validate_capabilities v cv (cap_backend c) = Ok u <-> supports c d.
Proof.
  intros [_ _ _ _ Hprof _ Hrmw (g & Hg & _ & Hgo & Hgi & Hga) (l & Hl & Hes) _]
    [Cv Cb Cp (q & dd & Cq & Cr & Cd & Ch & Cdd & Cmin & Cmax) (gc & Cg & Co & Ci & Ca) Cdep].
  assert (Forall (fun x => check_endpoint q (cap_min_depth c) (cap_max_depth c) (cap_backend c) x = Ok tt) l
    <-> Forall (fun e => supports_qos c (ep_qos e)) (dep_endpoints d)) as Heps.
  { clear - Hes Cr Cd Ch. induction Hes as [|x e l es Hx Hes IH]; [split; constructor|].
    rewrite !Forall_cons, IH. by rewrite (check_endpoint_Ok _ _ _ _ _ _ Hx Cr Cd Ch). }
  unfold validate_capabilities. destruct u.
  rewrite (proj2 (item_Ok v _ _) Hrmw), (proj2 (item_Ok v _ _) Hprof),
    (proj2 (item_Ok v _ _) Hl), (proj2 (item_Ok v _ _) Hg).
  rewrite (get_Some _ _ _ Cv), (get_Some _ _ _ Cb), (get_list_Some _ _ _ Cp),
    (get_Some _ _ _ Cq), (get_Some _ _ _ Cg).
  cbn [mbind res_bind require_object]. rewrite !py_in_strs, (get_Some _ _ _ Cdd).
  cbn [mbind res_bind require_object py_iter].
  rewrite (get_Some _ _ _ Cmin), (get_Some _ _ _ Cmax), (get_list_Some _ _ _ Ca).
  rewrite (proj2 (getitem_dict g _ _) Hga).
  cbn [mbind res_bind strict_int]. rewrite !py_set_strs. cbn [mbind res_bind].
  unfold string_set. rewrite (proj2 (mapM_as_str _ _) eq_refl), omap_as_str.
  cbn [mbind res_bind]. change (py_eqb (PyInt 1) (PyInt 1)) with true.
  rewrite (proj2 (py_eqb_str _ _) eq_refl). cbn [negb orb].
  assert (((cap_min_depth c <? 1) || (cap_max_depth c <? cap_min_depth c))%Z = false) as ->.
  { apply orb_false_iff. rewrite !Z.ltb_ge. lia. }
  split.
  - intros ([] & H1%reject_if_Ok & ([] & _ & ([] & H2%reject_if_Ok & ([] & _ & ([] & H3%eachM_Ok &
      ([] & H4%eachM_Ok & H)%bind_Ok)%bind_Ok)%bind_Ok)%bind_Ok)%bind_Ok)%bind_Ok.
    rewrite !Forall_cons in H4. destruct H4 as (H4 & H5 & _).
    rewrite (check_direction_Ok _ _ _ _ _ _ _ Hgo Co) in H4.
    rewrite (check_direction_Ok _ _ _ _ _ _ _ Hgi Ci) in H5.
    apply negb_false_iff, bool_decide_eq_true in H1, H2.
    split; [done|done|by apply Heps|done|done|].
    destruct (sorted_strs _) as [|a0 ?] eqn:Hs in H; [|discriminate].
    apply sorted_strs_nil in Hs. intros a Ha.
    destruct (decide (a ∈ cap_api c)); [done|]. set_solver.
  - intros [S1 S2 S3 S4 S5 S6].
    apply bind_Ok. exists tt. split; [by apply reject_if_Ok, negb_false_iff, bool_decide_eq_true|].
    apply bind_Ok. exists tt. split; [done|].
    apply bind_Ok. exists tt. split; [by apply reject_if_Ok, negb_false_iff, bool_decide_eq_true|].
    apply bind_Ok. exists tt. split; [done|].
    apply bind_Ok. exists tt. split; [by apply eachM_Ok, Heps|].
    apply bind_Ok. exists tt. split.
    { apply eachM_Ok. rewrite !Forall_cons.
      split; [by eapply check_direction_Ok|]. split; [by eapply check_direction_Ok|constructor]. }
    rewrite (proj2 (sorted_strs_nil _)); [done|]. apply set_eq. set_solver.
Qed.

End Capability.
