(* ===== verification/Generate.v ===== *)
(** * Code generation

    [tools/compile_deployment.py], second half: the C header and source, the
    Kconfig fragment, the CMake features and the report, line by line as the
    tool appends them.  Interpolated values go through Python's [str]. *)

From Stdlib Require Import Ascii String.
From S2P Require Import Prelude PyStr Regex PyFloat PyObj Validate.

Module Generate.
Import Deploy.

(** A quoted C string. *)
Definition quoted (s : string) : string := String dquote (s +:+ String dquote EmptyString).

Definition newline : string := String nl EmptyString.

(** The lines joined with newlines, as a generator returns them. *)
Definition unlines (l : list string) : string := str_join newline l.

(** [f"{v[k]}"] *)
Definition field (v : pyobj) (k : string) : res string := x ← getitem v k; Ok (py_str x).

(** The endpoints of a deployment. *)
Definition endpoints_of (deployment : pyobj) : res (list pyobj) :=
  e ← getitem deployment "endpoints"; py_iter e.

(** [[item for item in endpoints if item["kind"] == "subscription"]] *)
Fixpoint subscriptions_of (endpoints : list pyobj) : res (list pyobj) :=
  match endpoints with
  | [] => Ok []
  | e :: l =>
      kind ← getitem e "kind";
      rest ← subscriptions_of l;
      Ok (if py_eqb kind (PyStr "subscription") then e :: rest else rest)
  end.

(** The lines a loop over the endpoints appends. *)
Definition lines_for (f : pyobj -> res (list string)) (l : list pyobj) : res (list string) :=
  blocks ← mapM_res f l; Ok (concat blocks).

Definition split_type (type_name : pyobj) : res (string * string) :=
  match type_name with
  | PyStr s =>
      match re_fullmatch MESSAGE_TYPE s with
      | Some m => Ok (group_or_empty 1 m, group_or_empty 2 m)
      | None => Raise AssertionError
      end
  | _ => Raise TypeError
  end.

(** [re.sub(r"(?<!^)(?=[A-Z])", "_", name).lower()] *)
Definition snake_case (name : string) : string :=
  str_lower (re_sub_empty (RNotBol ⋅ RAhead (RChr is_upper)) "_" name).

(** [v.upper()] *)
Definition upper (v : pyobj) : res string :=
  match v with PyStr s => Ok (str_upper s) | _ => Raise AttributeError end.

(** Tuples of two strings in Python's order. *)
Definition pair_le (a b : string * string) : Prop :=
  String.le a.1 b.1 /\ (a.1 = b.1 -> String.le a.2 b.2).

#[export] Instance pair_le_dec : RelDecision pair_le.
Proof. intros a b. unfold pair_le. apply _. Defined.

Definition sorted_pairs (s : gset (string * string)) : list (string * string) :=
  merge_sort pair_le (elements s).

Definition qos_initializer (endpoint : pyobj) : res (list string) :=
  qos ← getitem endpoint "qos";
  id ← field endpoint "id";
  let variable := "qos_" +:+ id in
  rel ← getitem qos "reliability"; rel ← upper rel;
  dur ← getitem qos "durability"; dur ← upper dur;
  his ← getitem qos "history"; his ← upper his;
  depth ← field qos "depth";
  Ok ["  rmw_qos_profile_t " +:+ variable +:+ " = rmw_qos_profile_default;";
      "  " +:+ variable +:+ ".reliability = " +:+ "RMW_QOS_POLICY_RELIABILITY_" +:+ rel +:+ ";";
      "  " +:+ variable +:+ ".durability = " +:+ "RMW_QOS_POLICY_DURABILITY_" +:+ dur +:+ ";";
      "  " +:+ variable +:+ ".history = " +:+ "RMW_QOS_POLICY_HISTORY_" +:+ his +:+ ";";
      "  " +:+ variable +:+ ".depth = " +:+ depth +:+ "U;"].

(** ** [generated_ros_init.h] *)

Definition header_prefix : list string :=
  ["/* Generated by compile_deployment.py; do not edit. */";
   "#ifndef ROS2_ZEPHYR_GENERATED_ROS_INIT_H";
   "#define ROS2_ZEPHYR_GENERATED_ROS_INIT_H";
   EmptyString;
   "#include <stdbool.h>";
   "#include <rcl/rcl.h>";
   "#include <rclc/executor.h>";
   "#include <rclc/rclc.h>"].

Definition include_line (pm : string * string) : string :=
  "#include <" +:+ pm.1 +:+ "/msg/" +:+ snake_case pm.2 +:+ ".h>".

Definition header_entity (endpoint : pyobj) : res (list string) :=
  kind ← field endpoint "kind";
  id ← field endpoint "id";
  k ← getitem endpoint "kind";
  let entity := "  rcl_" +:+ kind +:+ "_t " +:+ kind +:+ "_" +:+ id +:+ ";" in
  if py_eqb k (PyStr "subscription") then
    type ← getitem endpoint "type";
    '(package, message) ← split_type type;
    Ok [entity; "  " +:+ package +:+ "__msg__" +:+ message +:+ " subscription_" +:+ id +:+ "_message;"]
  else Ok [entity].

Definition header_flag (endpoint : pyobj) : res (list string) :=
  kind ← field endpoint "kind";
  id ← field endpoint "id";
  Ok ["  bool " +:+ kind +:+ "_" +:+ id +:+ "_initialized;"].

Definition header_callback (endpoint : pyobj) : res (list string) :=
  callback ← field endpoint "callback";
  Ok ["void " +:+ callback +:+ "(const void *message);"].

Definition header_suffix : list string :=
  ["} ros2z_deployment_context_t;";
   EmptyString;
   "rcl_ret_t ros2z_deployment_init(ros2z_deployment_context_t *context,";
   "                                   rclc_support_t *support,";
   "                                   rcl_allocator_t *allocator);";
   "rcl_ret_t ros2z_deployment_fini(ros2z_deployment_context_t *context);";
   EmptyString].

Definition generate_header (deployment : pyobj) : res string :=
  endpoints ← endpoints_of deployment;
  types ← mapM_res (fun e => t ← getitem e "type"; split_type t) endpoints;
  let includes := sorted_pairs (list_to_set types) in
  subscriptions ← subscriptions_of endpoints;
  entities ← lines_for header_entity endpoints;
  flags ← lines_for header_flag endpoints;
  callbacks ← lines_for header_callback subscriptions;
  Ok (unlines (header_prefix ++ (include_line <$> includes) ++
               [EmptyString; "typedef struct ros2z_deployment_context {"; "  rcl_node_t node;"] ++
               entities ++ ["  rclc_executor_t executor;"; "  bool node_initialized;"] ++
               flags ++ ["  bool executor_initialized;"] ++
               header_suffix ++ callbacks ++ [EmptyString; "#endif"; EmptyString])).

(** ** [generated_ros_init.c] *)

Definition fail_line : string :=
  "  if (result != RCL_RET_OK) { (void)ros2z_deployment_fini(context); return result; }".

Definition fini_line (endpoint : pyobj) : res (list string) :=
  kind ← field endpoint "kind";
  id ← field endpoint "id";
  Ok ["  if (context->" +:+ kind +:+ "_" +:+ id +:+ "_initialized && " +:+
      "rcl_" +:+ kind +:+ "_fini(&context->" +:+ kind +:+ "_" +:+ id +:+
      ", &context->node) != RCL_RET_OK) " +:+ "{ result = RCL_RET_ERROR; }"].

Definition zero_line (endpoint : pyobj) : res (list string) :=
  kind ← field endpoint "kind";
  id ← field endpoint "id";
  Ok ["  context->" +:+ kind +:+ "_" +:+ id +:+ " = rcl_get_zero_initialized_" +:+ kind +:+ "();"].

Definition endpoint_init (builtin_uint32 : bool) (endpoint : pyobj) : res (list string) :=
  type ← getitem endpoint "type";
  '(package, message) ← split_type type;
  kind ← field endpoint "kind";
  qos_lines ← qos_initializer endpoint;
  let type_support :=
    if builtin_uint32 && py_eqb type (PyStr "std_msgs/msg/UInt32")
    then "ROSIDL_TYPESUPPORT_INTERFACE__MESSAGE_SYMBOL_NAME(" +:+
         "rosidl_typesupport_introspection_c, std_msgs, msg, UInt32)()"
    else "ROSIDL_GET_MSG_TYPE_SUPPORT(" +:+ package +:+ ", msg, " +:+ message +:+ ")" in
  id ← field endpoint "id";
  topic ← field endpoint "topic";
  Ok (qos_lines ++
      ["  result = rclc_" +:+ kind +:+ "_init(&context->" +:+ kind +:+ "_" +:+ id +:+ ", &context->node,";
       "      " +:+ type_support +:+ ", " +:+ quoted topic +:+ ", &qos_" +:+ id +:+ ");";
       fail_line;
       "  context->" +:+ kind +:+ "_" +:+ id +:+ "_initialized = true;"]).

Definition add_subscription (endpoint : pyobj) : res (list string) :=
  id ← field endpoint "id";
  callback ← field endpoint "callback";
  Ok ["  result = rclc_executor_add_subscription(&context->executor, &context->subscription_" +:+ id +:+ ",";
      "      &context->subscription_" +:+ id +:+ "_message, " +:+ callback +:+ ", ON_NEW_DATA);";
      fail_line].

Definition fini_prefix (builtin_uint32 : bool) : list string :=
  ["/* Generated by compile_deployment.py; do not edit. */";
   "#include " +:+ quoted "generated_ros_init.h"] ++
  (if builtin_uint32
   then ["#include <std_msgs/msg/detail/u_int32__rosidl_typesupport_introspection_c.h>"]
   else []) ++
  [EmptyString;
   "#include <string.h>";
   EmptyString;
   "rcl_ret_t ros2z_deployment_fini(ros2z_deployment_context_t *context)";
   "{";
   "  rcl_ret_t result = RCL_RET_OK;";
   "  if (context == NULL) { return RCL_RET_INVALID_ARGUMENT; }";
   "  if (context->executor_initialized && rclc_executor_fini(&context->executor) != RCL_RET_OK) { result = RCL_RET_ERROR; }"].

Definition init_prefix : list string :=
  ["  if (context->node_initialized && rcl_node_fini(&context->node) != RCL_RET_OK) { result = RCL_RET_ERROR; }";
   "  return result;";
   "}";
   EmptyString;
   "rcl_ret_t ros2z_deployment_init(ros2z_deployment_context_t *context,";
   "                                   rclc_support_t *support,";
   "                                   rcl_allocator_t *allocator)";
   "{";
   "  if (context == NULL || support == NULL || allocator == NULL) { return RCL_RET_INVALID_ARGUMENT; }";
   "  memset(context, 0, sizeof(*context));";
   "  context->node = rcl_get_zero_initialized_node();";
   "  context->executor = rclc_executor_get_zero_initialized_executor();"].

Definition node_lines (name namespace : string) : list string :=
  ["  rcl_ret_t result = rclc_node_init_default(&context->node, " +:+ quoted name +:+ ", " +:+
     quoted namespace +:+ ", support);";
   "  if (result != RCL_RET_OK) { return result; }";
   "  context->node_initialized = true;"].

(** The executor section, for a deployment with subscriptions. *)
Definition executor_lines (subscriptions : list pyobj) : res (list string) :=
  match subscriptions with
  | [] => Ok []
  | _ =>
      adds ← lines_for add_subscription subscriptions;
      Ok (["  result = rclc_executor_init(&context->executor, &support->context, " +:+
             str_of_Z (Z.of_nat (length subscriptions)) +:+ "U, allocator);";
           fail_line;
           "  context->executor_initialized = true;"] ++ adds ++
          ["  result = rclc_executor_prepare(&context->executor);"; fail_line])
  end.

(** [any(endpoint["type"] == "std_msgs/msg/UInt32" for endpoint in endpoints)] *)
Fixpoint any_uint32 (endpoints : list pyobj) : res bool :=
  match endpoints with
  | [] => Ok false
  | e :: l =>
      t ← getitem e "type";
      if py_eqb t (PyStr "std_msgs/msg/UInt32") then Ok true else any_uint32 l
  end.

Definition generate_source (deployment : pyobj) (backend : string) : res string :=
  endpoints ← endpoints_of deployment;
  subscriptions ← subscriptions_of endpoints;
  builtin_uint32 ←
    (if bool_decide (backend = "rmw_cyclonedds_c") then any_uint32 endpoints else Ok false);
  finis ← lines_for fini_line (rev endpoints);
  zeros ← lines_for zero_line endpoints;
  node ← getitem deployment "node";
  name ← field node "name";
  namespace ← field node "namespace";
  inits ← lines_for (endpoint_init builtin_uint32) endpoints;
  executor ← executor_lines subscriptions;
  Ok (unlines (fini_prefix builtin_uint32 ++ finis ++ init_prefix ++ zeros ++
               node_lines name namespace ++ inits ++ executor ++
               ["  return RCL_RET_OK;"; "}"; EmptyString])).

(** ** Kconfig fragment, CMake features, report *)

Definition backend_symbol (backend : string) : option string :=
  if bool_decide (backend = "rmw_cyclonedds_c") then Some "CONFIG_ROS2_ZEPHYR_RMW_CYCLONEDDS_C"
  else if bool_decide (backend = "rmw_zenoh_pico") then Some "CONFIG_ROS2_ZEPHYR_RMW_ZENOH_PICO"
  else None.

Definition generate_config (deployment : pyobj) (backend : string) : res string :=
  match backend_symbol backend with
  | None => reject "E_BACKEND_UNKNOWN" ("unknown backend " +:+ backend)
  | Some symbol =>
      domain ← field deployment "domain_id";
      Ok (unlines (["# Generated by compile_deployment.py; do not edit.";
                    "CONFIG_ROS2_ZEPHYR=y";
                    symbol +:+ "=y";
                    "CONFIG_ROS2_ZEPHYR_DOMAIN_ID=" +:+ domain] ++
                   (if bool_decide (backend = "rmw_zenoh_pico") then ["CONFIG_NET_TCP=y"] else []) ++
                   [EmptyString]))
  end.

Definition generate_features (deployment : pyobj) : res string :=
  endpoints ← endpoints_of deployment;
  types ← mapM_res (fun e => t ← getitem e "type"; split_type t) endpoints;
  let message_packages := sorted_strs (list_to_set types.*1) in
  Ok (unlines ["# Generated by compile_deployment.py; do not edit.";
               "set(ROS2_ZEPHYR_RCLC_ENABLE_ACTIONS OFF)";
               "set(ROS2_ZEPHYR_MESSAGE_PACKAGES " +:+ quoted (str_join ";" message_packages) +:+ ")";
               EmptyString]).

Definition report_row (endpoint : pyobj) : res (list string) :=
  qos ← getitem endpoint "qos";
  id ← field endpoint "id"; kind ← field endpoint "kind";
  topic ← field endpoint "topic"; type ← field endpoint "type";
  rel ← field qos "reliability"; dur ← field qos "durability";
  his ← field qos "history"; depth ← field qos "depth";
  Ok ["| " +:+ id +:+ " | " +:+ kind +:+ " | `" +:+ topic +:+ "` | `" +:+ type +:+ "` | " +:+
      rel +:+ ", " +:+ dur +:+ ", " +:+ his +:+ "(" +:+ depth +:+ ") |"].

Definition generate_report (deployment capability : pyobj) (backend : string) : res string :=
  node ← getitem deployment "node";
  namespace ← getitem node "namespace";
  node_name ← field node "name";
  let node_path := if truthy namespace then py_str namespace +:+ "/" +:+ node_name else node_name in
  name ← field deployment "name";
  endpoints ← endpoints_of deployment;
  rows ← lines_for report_row endpoints;
  profile ← field deployment "message_profile";
  graph ← getitem deployment "graph";
  outbound ← field graph "outbound"; inbound ← field graph "inbound";
  runtime ← getitem capability "runtime_allocation";
  allocates ← getitem runtime "ros_after_executor_prepare";
  resources ← getitem deployment "resources";
  local_endpoints ← field resources "local_endpoints";
  workers ← getitem resources "workers"; maximum ← field workers "maximum";
  application ← getitem resources "application"; reserve ← field application "static_reserve_bytes";
  Ok (unlines
    (["# Deployment report"; EmptyString; "Deployment: `" +:+ name +:+ "`"; EmptyString;
      "Backend: `" +:+ backend +:+ "`"; EmptyString; "Node: `" +:+ node_path +:+ "`"; EmptyString;
      "## Endpoints"; EmptyString; "| ID | Kind | Topic | Type | QoS |"; "|---|---|---|---|---|"] ++
     rows ++
     [EmptyString; "## Accepted contract"; EmptyString; "- Endpoint lifetime is fixed at startup.";
      "- Message profile: `" +:+ profile +:+ "`.";
      "- Graph outbound/inbound required: `" +:+ outbound +:+ "` / `" +:+ inbound +:+ "`.";
      "- ROS allocation after executor preparation promised by backend: `" +:+
        py_str (PyBool (negb (truthy allocates))) +:+ "`.";
      "- Local endpoint capacity: `" +:+ local_endpoints +:+ "`.";
      "- Maximum middleware workers: `" +:+ maximum +:+ "`.";
      "- Application static reserve: `" +:+ reserve +:+ "` bytes.";
      EmptyString])).

End Generate.
