(* ===== verification/CompileMain.v ===== *)
(** * The deployment compiler as a program

    [load_json], [compile_deployment] and [main] of
    [tools/compile_deployment.py].  The arguments are those [argparse] returns. *)

From Stdlib Require Import Ascii String.
From S2P Require Import Prelude PyStr Regex PyFloat PyObj Json Process Validate Capability Generate.

Module CompileMain.
Import Process Deploy Capability Generate.

Definition load_json (en : env) (path : string) : res pydict :=
  match read_json en path with
  | Raise (OSError e) => reject "E_INPUT" ("cannot read " +:+ path +:+ ": " +:+ e)
  | Raise (JSONDecodeError e) => reject "E_INPUT" ("cannot read " +:+ path +:+ ": " +:+ e)
  | Raise e => Raise e
  | Ok v => require_object v path
  end.

Definition plan_of (backend : string) (deployment capability : pydict) : pyobj :=
  PyDict [("schema_version", PyInt 2); ("backend", PyStr backend); ("deployment", PyDict deployment);
          ("capability", PyDict capability)].

(** The generated files, computed before the first is written. *)
Definition outputs_of (backend : string) (deployment capability : pydict) : res (list (string * string)) :=
  header ← generate_header (PyDict deployment);
  source ← generate_source (PyDict deployment) backend;
  config ← generate_config (PyDict deployment) backend;
  features ← generate_features (PyDict deployment);
  let plan := Json.dumps (plan_of backend deployment capability) +:+ newline in
  report ← generate_report (PyDict deployment) (PyDict capability) backend;
  Ok [("generated_ros_init.h", header);
      ("generated_ros_init.c", source);
      ("generated_ros2_zephyr.conf", config);
      ("generated_features.cmake", features);
      ("deployment-plan.json", plan);
      ("deployment-report.md", report)].

Definition compile_deployment (en : env) (deployment_path backend capability_dir output_dir : string) : io unit :=
  raw ← lift (load_json en deployment_path);
  deployment ← lift (validate_deployment raw);
  capability ← lift (load_json en (path_join capability_dir (backend +:+ ".json")));
  lift (validate_capabilities deployment capability backend) ;;
  lift (env_mkdir en output_dir) ;;
  outputs ← lift (outputs_of backend deployment capability);
  write_all en output_dir outputs.

Record args := Args {
  arg_deployment : string;
  arg_backend : string;
  arg_capabilities_dir : string;
  arg_output_dir : string
}.

Definition main (en : env) (a : args) : outcome :=
  match compile_deployment en (arg_deployment a) (arg_backend a) (arg_capabilities_dir a) (arg_output_dir a) [] with
  | (Ok _, w) => Outcome (Ok 0%Z) [] [] w
  | (Raise (DeploymentError code msg), w) => Outcome (Ok 2%Z) [] [code +:+ ": " +:+ msg] w
  | (Raise e, w) => Outcome (Raise e) [] [] w
  end.

End CompileMain.
