(* ===== verification/GenSpec.v ===== *)
(** * The generated text

    What [generate_header] and [generate_source] print for a valid deployment,
    as a rendering of typed data: the context structure is a list of members,
    the C source a list of steps.  The generators of [Generate.v], which work on
    JSON objects, are proved to print exactly this rendering, and never to
    raise.  [GenProgram.v] gives the steps their meaning. *)

From Stdlib Require Import Ascii String.
From S2P Require Import Prelude PyStr Regex PyFloat PyObj Validate Deployment ValidateSpec Generate.

Module GenSpec.
Import Deploy Contract Generate.

(** ** The context structure *)

(** A structure member: its C type and its name. *)
Definition member : Type := string * string.

Definition entity_name (e : endpoint) : string := kind_str (ep_kind e) +:+ "_" +:+ ep_id e.

Definition entity_members (e : endpoint) : list member :=
  ("rcl_" +:+ kind_str (ep_kind e) +:+ "_t", entity_name e) ::
  (if is_subscription e
   then [(ep_package e +:+ "__msg__" +:+ ep_message e, entity_name e +:+ "_message")] else []).

Definition flag_member (e : endpoint) : member := ("bool", entity_name e +:+ "_initialized").

Definition context_members (d : deployment) : list member :=
  [("rcl_node_t", "node")] ++ concat (entity_members <$> dep_endpoints d) ++
  [("rclc_executor_t", "executor"); ("bool", "node_initialized")] ++
  (flag_member <$> dep_endpoints d) ++ [("bool", "executor_initialized")].

Definition member_line (m : member) : string := "  " +:+ m.1 +:+ " " +:+ m.2 +:+ ";".

Definition message_types (d : deployment) : gset (string * string) :=
  list_to_set ((fun e => (ep_package e, ep_message e)) <$> dep_endpoints d).

Definition subscriptions (d : deployment) : list endpoint :=
  List.filter is_subscription (dep_endpoints d).

Definition callback_name (e : endpoint) : string :=
  match ep_kind e with Subscription cb => cb | Publisher => EmptyString end.

Definition render_header (d : deployment) : string :=
  unlines (header_prefix ++ (include_line <$> sorted_pairs (message_types d)) ++
           [EmptyString; "typedef struct ros2z_deployment_context {"] ++
           (member_line <$> context_members d) ++ header_suffix ++
           ((fun e => "void " +:+ callback_name e +:+ "(const void *message);") <$> subscriptions d) ++
           [EmptyString; "#endif"; EmptyString]).

(** ** The steps of the C source *)

Inductive step :=
  | StepEndpoint (e : endpoint)
  | StepExecutor (capacity : nat)
  | StepSubscribe (e : endpoint)
  | StepPrepare.

(** The steps of [ros2z_deployment_init] after the node has been created. *)
Definition executor_steps (subs : list endpoint) : list step :=
  match subs with
  | [] => []
  | _ => StepExecutor (length subs) :: (StepSubscribe <$> subs) ++ [StepPrepare]
  end.

Definition init_steps (d : deployment) : list step :=
  (StepEndpoint <$> dep_endpoints d) ++ executor_steps (subscriptions d).

(** The C RMW has its own adapter for one standard message. *)
Definition uses_uint32 (d : deployment) (backend : string) : bool :=
  bool_decide (backend = "rmw_cyclonedds_c") &&
  existsb (fun e => bool_decide (ep_type e = "std_msgs/msg/UInt32")) (dep_endpoints d).

Definition type_support (uint32 : bool) (e : endpoint) : string :=
  if uint32 && bool_decide (ep_type e = "std_msgs/msg/UInt32")
  then "ROSIDL_TYPESUPPORT_INTERFACE__MESSAGE_SYMBOL_NAME(" +:+
       "rosidl_typesupport_introspection_c, std_msgs, msg, UInt32)()"
  else "ROSIDL_GET_MSG_TYPE_SUPPORT(" +:+ ep_package e +:+ ", msg, " +:+ ep_message e +:+ ")".

Definition qos_lines (e : endpoint) : list string :=
  let v := "qos_" +:+ ep_id e in
  ["  rmw_qos_profile_t " +:+ v +:+ " = rmw_qos_profile_default;";
   "  " +:+ v +:+ ".reliability = " +:+ "RMW_QOS_POLICY_RELIABILITY_" +:+
     str_upper (reliability_str (qos_reliability (ep_qos e))) +:+ ";";
   "  " +:+ v +:+ ".durability = " +:+ "RMW_QOS_POLICY_DURABILITY_" +:+
     str_upper (durability_str (qos_durability (ep_qos e))) +:+ ";";
   "  " +:+ v +:+ ".history = " +:+ "RMW_QOS_POLICY_HISTORY_" +:+ "KEEP_LAST" +:+ ";";
   "  " +:+ v +:+ ".depth = " +:+ str_of_Z (qos_depth (ep_qos e)) +:+ "U;"].

Definition render_step (uint32 : bool) (s : step) : list string :=
  match s with
  | StepEndpoint e =>
      qos_lines e ++
      ["  result = rclc_" +:+ kind_str (ep_kind e) +:+ "_init(&context->" +:+
         kind_str (ep_kind e) +:+ "_" +:+ ep_id e +:+ ", &context->node,";
       "      " +:+ type_support uint32 e +:+ ", " +:+ quoted (ep_topic e) +:+ ", &qos_" +:+ ep_id e +:+ ");";
       fail_line;
       "  context->" +:+ kind_str (ep_kind e) +:+ "_" +:+ ep_id e +:+ "_initialized = true;"]
  | StepExecutor n =>
      ["  result = rclc_executor_init(&context->executor, &support->context, " +:+
         str_of_Z (Z.of_nat n) +:+ "U, allocator);";
       fail_line;
       "  context->executor_initialized = true;"]
  | StepSubscribe e =>
      ["  result = rclc_executor_add_subscription(&context->executor, &context->subscription_" +:+ ep_id e +:+ ",";
       "      &context->subscription_" +:+ ep_id e +:+ "_message, " +:+ callback_name e +:+ ", ON_NEW_DATA);";
       fail_line]
  | StepPrepare => ["  result = rclc_executor_prepare(&context->executor);"; fail_line]
  end.

Definition render_fini (e : endpoint) : string :=
  "  if (context->" +:+ kind_str (ep_kind e) +:+ "_" +:+ ep_id e +:+ "_initialized && " +:+
  "rcl_" +:+ kind_str (ep_kind e) +:+ "_fini(&context->" +:+ kind_str (ep_kind e) +:+ "_" +:+ ep_id e +:+
  ", &context->node) != RCL_RET_OK) " +:+ "{ result = RCL_RET_ERROR; }".

Definition render_zero (e : endpoint) : string :=
  "  context->" +:+ kind_str (ep_kind e) +:+ "_" +:+ ep_id e +:+ " = rcl_get_zero_initialized_" +:+
  kind_str (ep_kind e) +:+ "();".

Definition render_source (uint32 : bool) (d : deployment) : string :=
  unlines (fini_prefix uint32 ++ (render_fini <$> rev (dep_endpoints d)) ++ init_prefix ++
           (render_zero <$> dep_endpoints d) ++ node_lines (dep_node d) (dep_namespace d) ++
           concat (render_step uint32 <$> init_steps d) ++
           ["  return RCL_RET_OK;"; "}"; EmptyString]).

(** * The generators print the rendering *)

Lemma field_Ok d k v : dict_get d k = Some v -> field (PyDict d) k = Ok (py_str v).
Proof. intros H. unfold field, getitem. by rewrite H. Qed.

Lemma getitem_Ok d k v : dict_get d k = Some v -> getitem (PyDict d) k = Ok v.
Proof. intros H. by apply getitem_dict. Qed.

(** What an endpoint object answers to each subscript. *)
Section endpoint.
Context (v : pyobj) (e : endpoint) (Hv : represents_endpoint v e) (He : valid_endpoint e).

Lemma ep_item_kind : getitem v "kind" = Ok (PyStr (kind_str (ep_kind e))).
Proof. destruct Hv as [(d & -> & _ & _ & H & _)]. by apply getitem_Ok. Qed.
Lemma ep_item_type : getitem v "type" = Ok (PyStr (ep_type e)).
Proof. destruct Hv as [(d & -> & _ & _ & _ & _ & H & _)]. by apply getitem_Ok. Qed.
Lemma ep_field_kind : field v "kind" = Ok (kind_str (ep_kind e)).
Proof. unfold field. by rewrite ep_item_kind. Qed.
Lemma ep_field_id : field v "id" = Ok (ep_id e).
Proof. destruct Hv as [(d & -> & _ & H & _)]. by apply (field_Ok d _ _ H). Qed.
Lemma ep_field_topic : field v "topic" = Ok (ep_topic e).
Proof. destruct Hv as [(d & -> & _ & _ & _ & H & _)]. by apply (field_Ok d _ _ H). Qed.
Lemma ep_field_type : field v "type" = Ok (ep_type e).
Proof. unfold field. by rewrite ep_item_type. Qed.
Lemma ep_field_callback cb : ep_kind e = Subscription cb -> field v "callback" = Ok cb.
Proof.
  intros Hk. destruct Hv as [(d & -> & _ & _ & _ & _ & _ & _ & H & _)].
  rewrite Hk in H. by apply (field_Ok d _ _ H).
Qed.
Lemma ep_item_qos : exists q, getitem v "qos" = Ok (PyDict q) /\ represents_qos q (ep_qos e).
Proof.
  destruct Hv as [(d & -> & _ & _ & _ & _ & _ & _ & _ & q & Hq & Hr)]. exists q.
  split; [by apply getitem_Ok|done].
Qed.

Lemma kind_is_subscription :
  py_eqb (PyStr (kind_str (ep_kind e))) (PyStr "subscription") = is_subscription e.
Proof. unfold is_subscription. by destruct (ep_kind e). Qed.

(** [/msg/] cannot be found elsewhere: names hold no slash. *)
Lemma split_type_spec : split_type (PyStr (ep_type e)) = Ok (ep_package e, ep_message e).
Proof.
  destruct He as [_ _ Hp Hm _ _]. cbn [split_type].
  destruct (fullmatch_MESSAGE_TYPE_is_Some _ _ Hp Hm) as [x Hx].
  unfold ep_type. rewrite Hx.
  apply fullmatch_MESSAGE_TYPE in Hx as (pkg & msg & Heq & Hp' & Hm' & G1 & G2).
  unfold group_or_empty. rewrite G1, G2. cbn [from_option].
  assert (forall s, type_name s = true -> str_all word_char s = true) as Hw.
  { intros [|c t]; [done|]. cbn. unfold word_char. intros [Hc Ht]%andb_true_iff. by rewrite Hc, Ht. }
  destruct (str_all_cut_unique word_char (ep_package e) ("msg/" +:+ ep_message e)
    pkg ("msg/" +:+ msg) "/") as [-> Htail]; [done|by apply Hw..|exact Heq|].
  apply str_app_inv_l in Htail. by rewrite Htail.
Qed.
End endpoint.

(** Loops over represented endpoints. *)
Definition ep_ok (v : pyobj) (e : endpoint) : Prop := represents_endpoint v e /\ valid_endpoint e.
Definition sub_ok (v : pyobj) (e : endpoint) : Prop := ep_ok v e /\ is_subscription e = true.

Lemma eps_ok l es :
  Forall2 represents_endpoint l es -> Forall valid_endpoint es -> Forall2 ep_ok l es.
Proof.
  induction 1 as [|v e l es Hv Hl IH]; [constructor|].
  intros [He Hes]%Forall_cons. constructor; [by split|auto].
Qed.

Lemma lines_for_spec (R : pyobj -> endpoint -> Prop) f (g : endpoint -> list string) l es :
  Forall2 R l es -> (forall v e, R v e -> f v = Ok (g e)) ->
  lines_for f l = Ok (concat (g <$> es)).
Proof.
  intros H Hf. unfold lines_for.
  assert (mapM_res f l = Ok (g <$> es)) as ->; [|done].
  apply mapM_res_Ok, Forall2_fmap_r. eapply Forall2_impl; [exact H|]. auto.
Qed.

Lemma mapM_split_type l es :
  Forall2 ep_ok l es ->
  mapM_res (fun e => t ← getitem e "type"; split_type t) l =
  Ok ((fun e => (ep_package e, ep_message e)) <$> es).
Proof.
  intros H. apply mapM_res_Ok, Forall2_fmap_r. eapply Forall2_impl; [exact H|].
  intros v e [Hv He]. cbn beta. rewrite (ep_item_type v e Hv). cbn [mbind res_bind].
  by apply split_type_spec.
Qed.

Lemma subscriptions_of_spec l es :
  Forall2 ep_ok l es ->
  exists ls, subscriptions_of l = Ok ls /\ Forall2 sub_ok ls (List.filter is_subscription es).
Proof.
  induction 1 as [|v e l es [Hv He] Hl (ls & Hls & Hr)]; [by exists []|].
  cbn [subscriptions_of List.filter].
  rewrite (ep_item_kind v e Hv). cbn [mbind res_bind]. rewrite Hls. cbn [mbind res_bind].
  rewrite kind_is_subscription. destruct (is_subscription e) eqn:Hs; eexists; (split; [done|]); [|done].
  by constructor.
Qed.

Lemma any_uint32_spec l es :
  Forall2 ep_ok l es ->
  any_uint32 l = Ok (existsb (fun e => bool_decide (ep_type e = "std_msgs/msg/UInt32")) es).
Proof.
  induction 1 as [|v e l es [Hv He] Hl IH]; [done|]. cbn [any_uint32 existsb].
  rewrite (ep_item_type v e Hv). cbn [mbind res_bind py_eqb].
  destruct (bool_decide (ep_type e = _)); [done|by apply IH].
Qed.

Lemma header_entity_spec v e :
  ep_ok v e -> header_entity v = Ok (member_line <$> entity_members e).
Proof.
  intros [Hv He]. unfold header_entity, entity_members.
  rewrite (ep_field_kind v e Hv), (ep_field_id v e Hv), (ep_item_kind v e Hv).
  cbn [mbind res_bind]. rewrite kind_is_subscription. unfold is_subscription, entity_name.
  destruct (ep_kind e) as [|cb] eqn:Hk; cbn [kind_str].
  - unfold member_line. cbn [fmap list_fmap fst snd]. by rewrite !str_app_assoc.
  - rewrite (ep_item_type v e Hv). cbn [mbind res_bind]. rewrite (split_type_spec e He).
    cbn [mbind res_bind fmap list_fmap fst snd]. unfold member_line. cbn [fst snd].
    by rewrite !str_app_assoc.
Qed.

Lemma header_flag_spec v e : ep_ok v e -> header_flag v = Ok [member_line (flag_member e)].
Proof.
  intros [Hv _]. unfold header_flag, flag_member, member_line, entity_name.
  rewrite (ep_field_kind v e Hv), (ep_field_id v e Hv). cbn [mbind res_bind fst snd].
  by rewrite !str_app_assoc.
Qed.

Lemma header_callback_spec v e :
  sub_ok v e -> header_callback v = Ok ["void " +:+ callback_name e +:+ "(const void *message);"].
Proof.
  intros [[Hv _] Hs]. unfold header_callback, callback_name, is_subscription in *.
  destruct (ep_kind e) as [|cb] eqn:Hk; [done|]. by rewrite (ep_field_callback v e Hv cb Hk).
Qed.

Lemma Forall2_rev {A B} (R : A -> B -> Prop) l k : Forall2 R l k -> Forall2 R (rev l) (rev k).
Proof.
  induction 1 as [|x y l k Hx _ IH]; [constructor|]. apply Forall2_app; [done|]. by constructor.
Qed.

Lemma concat_singletons {A B} (f : A -> B) (l : list A) : concat ((fun x => [f x]) <$> l) = f <$> l.
Proof. induction l as [|x l IH]; [done|]. cbn. by f_equal. Qed.

Lemma fmap_concat {A B C} (f : A -> B) (g : C -> list A) (l : list C) :
  f <$> concat (g <$> l) = concat ((fun x => f <$> g x) <$> l).
Proof. induction l as [|x l IH]; [done|]. cbn. by rewrite fmap_app, IH. Qed.

(** The header printed for a valid deployment. *)
Lemma generate_header_renders v d :
  Represents v d -> valid_deployment d -> generate_header (PyDict v) = Ok (render_header d).
Proof.
  intros Hr Hd. destruct (@rp_endpoints _ _ Hr) as (l & Hl & Hes).
  pose proof (eps_ok _ _ Hes (vd_endpoints _ Hd)) as Hok.
  unfold generate_header, endpoints_of. rewrite (getitem_Ok v _ _ Hl). cbn [mbind res_bind py_iter].
  rewrite (mapM_split_type _ _ Hok). cbn [mbind res_bind].
  destruct (subscriptions_of_spec _ _ Hok) as (ls & -> & Hls). cbn [mbind res_bind].
  rewrite (lines_for_spec _ _ _ _ _ Hok header_entity_spec). cbn [mbind res_bind].
  rewrite (lines_for_spec _ _ _ _ _ Hok header_flag_spec). cbn [mbind res_bind].
  rewrite (lines_for_spec _ _ _ _ _ Hls header_callback_spec). cbn [mbind res_bind].
  unfold render_header, context_members, message_types, subscriptions.
  rewrite !concat_singletons, !fmap_app, fmap_concat, <- list_fmap_compose.
  cbn [fmap list_fmap]. rewrite <- !app_assoc. done.
Qed.

(** ** The source *)

Lemma fini_line_spec v e : ep_ok v e -> fini_line v = Ok [render_fini e].
Proof.
  intros [Hv _]. unfold fini_line, render_fini.
  by rewrite (ep_field_kind v e Hv), (ep_field_id v e Hv).
Qed.

Lemma zero_line_spec v e : ep_ok v e -> zero_line v = Ok [render_zero e].
Proof.
  intros [Hv _]. unfold zero_line, render_zero.
  by rewrite (ep_field_kind v e Hv), (ep_field_id v e Hv).
Qed.

Lemma qos_initializer_spec v e : ep_ok v e -> qos_initializer v = Ok (qos_lines e).
Proof.
  intros [Hv _]. unfold qos_initializer, qos_lines.
  destruct (ep_item_qos v e Hv) as (q & -> & [_ Hr Hd Hh Hn]). cbn [mbind res_bind].
  rewrite (ep_field_id v e Hv). cbn [mbind res_bind].
  rewrite (getitem_Ok q _ _ Hr), (getitem_Ok q _ _ Hd), (getitem_Ok q _ _ Hh), (field_Ok q _ _ Hn).
  done.
Qed.

Lemma endpoint_init_spec uint32 v e :
  ep_ok v e -> endpoint_init uint32 v = Ok (render_step uint32 (StepEndpoint e)).
Proof.
  intros Hok. pose proof Hok as [Hv He]. unfold endpoint_init, render_step.
  rewrite (ep_item_type v e Hv). cbn [mbind res_bind].
  rewrite (split_type_spec e He). cbn [mbind res_bind].
  rewrite (ep_field_kind v e Hv), (qos_initializer_spec v e Hok). cbn [mbind res_bind].
  rewrite (ep_field_id v e Hv), (ep_field_topic v e Hv). done.
Qed.

Lemma add_subscription_spec uint32 v e :
  sub_ok v e -> add_subscription v = Ok (render_step uint32 (StepSubscribe e)).
Proof.
  intros [[Hv _] Hs]. unfold add_subscription, render_step, callback_name, is_subscription in *.
  destruct (ep_kind e) as [|cb] eqn:Hk; [done|].
  by rewrite (ep_field_id v e Hv), (ep_field_callback v e Hv cb Hk).
Qed.

Lemma executor_lines_spec uint32 ls es :
  Forall2 sub_ok ls es ->
  executor_lines ls = Ok (concat (render_step uint32 <$> executor_steps es)).
Proof.
  intros H. destruct es as [|e es]; inversion H as [|v ? ls' ? Hv Hls]; subst; [done|].
  cbn [executor_lines]. set (ls := v :: ls') in *. set (l := e :: es) in *.
  rewrite (lines_for_spec _ _ _ _ _ H (add_subscription_spec uint32)). cbn [mbind res_bind].
  rewrite (Forall2_length _ _ _ H). unfold executor_steps, l. fold l.
  rewrite fmap_cons, concat_cons, fmap_app, concat_app, <- list_fmap_compose.
  cbn [concat fmap list_fmap]. by rewrite app_nil_r.
Qed.

(** The source printed for a valid deployment. *)
Lemma generate_source_renders v d backend :
  Represents v d -> valid_deployment d ->
  generate_source (PyDict v) backend = Ok (render_source (uses_uint32 d backend) d).
Proof.
  intros Hr Hd. destruct (@rp_endpoints _ _ Hr) as (l & Hl & Hes).
  destruct (@rp_node _ _ Hr) as (n & Hn & _ & Hname & Hns).
  pose proof (eps_ok _ _ Hes (vd_endpoints _ Hd)) as Hok.
  unfold generate_source, endpoints_of. rewrite (getitem_Ok v _ _ Hl). cbn [mbind res_bind py_iter].
  destruct (subscriptions_of_spec _ _ Hok) as (ls & -> & Hls). cbn [mbind res_bind].
  rewrite (any_uint32_spec _ _ Hok).
  assert ((if bool_decide (backend = "rmw_cyclonedds_c")
           then Ok (existsb (fun e => bool_decide (ep_type e = "std_msgs/msg/UInt32")) (dep_endpoints d))
           else Ok false) = Ok (uses_uint32 d backend)) as ->.
  { unfold uses_uint32. by destruct (bool_decide (backend = _)). }
  cbn [mbind res_bind].
  rewrite (lines_for_spec _ _ _ _ _ (Forall2_rev _ _ _ Hok) fini_line_spec). cbn [mbind res_bind].
  rewrite (lines_for_spec _ _ _ _ _ Hok zero_line_spec). cbn [mbind res_bind].
  rewrite (getitem_Ok v _ _ Hn). cbn [mbind res_bind].
  rewrite (field_Ok n _ _ Hname), (field_Ok n _ _ Hns). cbn [mbind res_bind].
  rewrite (lines_for_spec _ _ _ _ _ Hok (endpoint_init_spec _)). cbn [mbind res_bind].
  rewrite (executor_lines_spec (uses_uint32 d backend) _ _ Hls). cbn [mbind res_bind py_str].
  unfold render_source, init_steps, subscriptions. f_equal.
  rewrite !concat_singletons, fmap_app, concat_app, <- list_fmap_compose. by rewrite <- !app_assoc.
Qed.

End GenSpec.
