(* ===== verification/GenMembers.v ===== *)
(** * The context structure of the generated header

    A C structure needs distinct member names.  The names are built from the
    endpoint identifiers, so this is a condition on the identifiers: the
    structure is well formed exactly when no identifier is another one followed
    by a suffix the generator uses itself. *)

From Stdlib Require Import Ascii String.
From S2P Require Import Prelude PyStr Regex PyFloat PyObj Validate Deployment ValidateSpec Generate GenSpec.

Module GenMembers.
Import Deploy Contract Generate GenSpec.

Definition member_names (d : deployment) : list string := (context_members d).*2.

(** [e1] is declared under a name the generator derives from [e2]. *)
Definition collides (e1 e2 : endpoint) : Prop :=
  kind_str (ep_kind e1) = kind_str (ep_kind e2) /\
  (ep_id e1 = ep_id e2 +:+ "_initialized" \/
   is_subscription e2 = true /\ ep_id e1 = ep_id e2 +:+ "_message").

#[export] Instance collides_dec : RelDecision collides.
Proof. intros e1 e2. unfold collides. apply _. Defined.

Definition message_name (e : endpoint) : string := entity_name e +:+ "_message".
Definition flag_name (e : endpoint) : string := entity_name e +:+ "_initialized".

(** The names, entities first. *)
Definition names (es : list endpoint) : list string :=
  "node" :: "executor" :: "node_initialized" :: "executor_initialized" ::
  (entity_name <$> es) ++ (message_name <$> List.filter is_subscription es) ++ (flag_name <$> es).

Lemma entity_members_names es :
  (concat (entity_members <$> es)).*2 ≡ₚ
  (entity_name <$> es) ++ (message_name <$> List.filter is_subscription es).
Proof.
  induction es as [|e es IH]; [done|].
  rewrite fmap_cons, concat_cons, fmap_app, IH. unfold entity_members. cbn [List.filter].
  destruct (is_subscription e); cbn; constructor; [|done]. by rewrite <- Permutation_middle.
Qed.

Lemma member_names_perm d : member_names d ≡ₚ names (dep_endpoints d).
Proof.
  unfold member_names, context_members, names. rewrite !fmap_app, entity_members_names.
  rewrite <- list_fmap_compose. cbn [fmap list_fmap app snd].
  change (list_fmap _ _ (snd ∘ flag_member) (dep_endpoints d)) with (flag_name <$> dep_endpoints d).
  constructor. rewrite <- !app_assoc. cbn [app].
  set (a := list_fmap endpoint string entity_name (dep_endpoints d)).
  set (b := message_name <$> List.filter is_subscription (dep_endpoints d)).
  set (c := flag_name <$> dep_endpoints d).
  solve_Permutation.
Qed.

(** ** Names of different endpoints *)

Lemma entity_name_suffix e1 e2 s :
  entity_name e1 = entity_name e2 +:+ s <->
  kind_str (ep_kind e1) = kind_str (ep_kind e2) /\ ep_id e1 = ep_id e2 +:+ s.
Proof.
  unfold entity_name. rewrite !str_app_assoc. split.
  - intros H. destruct (ep_kind e1), (ep_kind e2); cbn [kind_str] in *; try discriminate H;
      (split; [done|]); repeat apply str_app_inv_l in H; done.
  - by intros [-> ->].
Qed.

Lemma entity_name_head e : exists t, entity_name e = String "p" t \/ entity_name e = String "s" t.
Proof.
  unfold entity_name. destruct (ep_kind e); cbn [kind_str]; eexists; [left|right];
    unfold String.append; fold String.append; reflexivity.
Qed.

(** No reserved member starts like an entity. *)
Lemma entity_not_reserved e s x :
  x ∈ ["node"; "executor"; "node_initialized"; "executor_initialized"] -> entity_name e +:+ s <> x.
Proof.
  intros Hx H. destruct (entity_name_head e) as (t & [E|E]); rewrite E in H;
    rewrite str_app_cons in H; subst x; repeat (apply elem_of_cons in Hx as [Hx|Hx]; [done|]);
    by apply elem_of_nil in Hx.
Qed.

Lemma message_flag_distinct e1 e2 : message_name e1 <> flag_name e2.
Proof.
  intros H. assert (str_endswith "e" (message_name e1) = true) as He.
  { apply str_endswith_spec. exists (entity_name e1 +:+ "_messag"). by rewrite str_app_assoc. }
  assert (str_endswith "d" (flag_name e2) = true) as Hd.
  { apply str_endswith_spec. exists (entity_name e2 +:+ "_initialize"). by rewrite str_app_assoc. }
  rewrite H in He. apply str_endswith_spec in He as [a Ha], Hd as [b Hb].
  rewrite Ha in Hb. apply str_app_inv_length in Hb; [by destruct Hb|].
  apply (f_equal String.length) in Hb. rewrite !str_length_app in Hb. cbn in Hb. lia.
Qed.

(** Suffixed names are as distinct as the identifiers. *)
Lemma suffixed_NoDup (f : endpoint -> string) s es :
  (forall e, f e = entity_name e +:+ s) -> NoDup (ep_id <$> es) -> NoDup (f <$> es).
Proof.
  intros Hf H. induction es as [|e es IH]; [constructor|].
  rewrite fmap_cons in *. apply NoDup_cons in H as [Hn H]. apply NoDup_cons. split; [|by apply IH].
  intros (e' & Heq & He')%list_elem_of_fmap. apply Hn. apply list_elem_of_fmap. exists e'. split; [|done].
  rewrite !Hf in Heq. apply str_app_inv_r in Heq.
  rewrite <- (str_app_nil_r (entity_name e')) in Heq.
  apply entity_name_suffix in Heq as [_ Heq]. by rewrite str_app_nil_r in Heq.
Qed.

Lemma NoDup_ids_filter (p : endpoint -> bool) es :
  NoDup (ep_id <$> es) -> NoDup (ep_id <$> List.filter p es).
Proof.
  induction es as [|e es IH]; [done|]. rewrite fmap_cons. intros [Hn H]%NoDup_cons. cbn [List.filter].
  destruct (p e); [|by apply IH]. rewrite fmap_cons. apply NoDup_cons. split; [|by apply IH].
  intros (x & Heq & Hx)%list_elem_of_fmap. apply Hn. apply list_elem_of_fmap. exists x. split; [done|].
  apply list_elem_of_In in Hx. apply filter_In in Hx as [Hx _]. by apply list_elem_of_In.
Qed.

Lemma elem_filter (p : endpoint -> bool) es e :
  e ∈ List.filter p es <-> e ∈ es /\ p e = true.
Proof. rewrite !list_elem_of_In. apply filter_In. Qed.

Lemma reserved_NoDup (l : list string) :
  (forall x, x ∈ l -> exists e s, x = entity_name e +:+ s) -> NoDup l ->
  NoDup ("node" :: "executor" :: "node_initialized" :: "executor_initialized" :: l).
Proof.
  intros Hl H.
  change (NoDup (["node"; "executor"; "node_initialized"; "executor_initialized"] ++ l)).
  apply NoDup_app. split_and!; [by apply (bool_decide_unpack _)|intros x Hx Hx'|done].
  apply Hl in Hx' as (e & s & ->). by apply (entity_not_reserved e s _ Hx).
Qed.

Lemma names_shape es x :
  x ∈ (entity_name <$> es) ++ (message_name <$> List.filter is_subscription es) ++ (flag_name <$> es) ->
  exists e s, x = entity_name e +:+ s.
Proof.
  rewrite !elem_of_app, !list_elem_of_fmap. intros [(e & -> & _)|[(e & -> & _)|(e & -> & _)]]; exists e.
  - exists EmptyString. by rewrite str_app_nil_r.
  - by exists "_message".
  - by exists "_initialized".
Qed.

(** ** The structure is well formed exactly when no identifiers collide *)

Lemma names_NoDup es :
  NoDup (ep_id <$> es) ->
  NoDup (names es) <-> forall e1 e2, e1 ∈ es -> e2 ∈ es -> ~ collides e1 e2.
Proof.
  intros Hids. unfold names. split.
  - intros H e1 e2 H1 H2 [Hk Hc]. do 4 apply NoDup_cons in H as [_ H].
    apply NoDup_app in H as (_ & H & _). apply (H (entity_name e1)); [by apply list_elem_of_fmap_2|].
    rewrite elem_of_app, !list_elem_of_fmap. destruct Hc as [Hc|[Hs Hc]]; [right|left]; exists e2.
    + split; [by apply entity_name_suffix|done].
    + split; [by apply entity_name_suffix|]. by apply elem_filter.
  - intros Hn. apply reserved_NoDup; [apply names_shape|]. apply NoDup_app. split_and!.
    + apply (suffixed_NoDup _ EmptyString); [intros e; by rewrite str_app_nil_r|done].
    + intros x (e1 & -> & H1)%list_elem_of_fmap. rewrite elem_of_app, !list_elem_of_fmap.
      intros [(e2 & Heq & [H2 Hs]%elem_filter)|(e2 & Heq & H2)];
        apply entity_name_suffix in Heq as [Hk Hi]; apply (Hn e1 e2 H1 H2);
        (split; [done|]); [right|left]; done.
    + apply NoDup_app. split_and!.
      * apply (suffixed_NoDup _ "_message"); [done|]. by apply NoDup_ids_filter.
      * intros x (e1 & -> & _)%list_elem_of_fmap (e2 & Heq & _)%list_elem_of_fmap.
        by apply (message_flag_distinct e1 e2).
      * by apply (suffixed_NoDup _ "_initialized").
Qed.

Lemma member_names_NoDup d :
  valid_deployment d ->
  NoDup (member_names d) <->
  forall e1 e2, e1 ∈ dep_endpoints d -> e2 ∈ dep_endpoints d -> ~ collides e1 e2.
Proof.
  intros Hd. rewrite member_names_perm. apply names_NoDup, Hd.
Qed.

End GenMembers.
