(* ===== verification/GenProgram.v ===== *)
(** * The generated program

    What the C text of [generated_ros_init.c] does when it runs.  The functions
    it calls belong to rcl and rclc: what they answer is a parameter, a function
    of the calls made so far.  [ros2z_deployment_init] and
    [ros2z_deployment_fini] run over the steps that [GenSpec.render_source]
    prints, with the flags of the context structure as their state; topic and node
    names are those of the deployment, which is what the printed C strings denote when
    the names have no quote, backslash or line end. *)

From Stdlib Require Import Ascii String.
From S2P Require Import Prelude PyStr Regex PyFloat PyObj Validate Deployment ValidateSpec Generate GenSpec GenMembers.

Module GenProgram.
Import Contract GenSpec GenMembers.

(** The calls the generated code makes. *)
Inductive call :=
  | NodeInit (name namespace : string)
  | EndpointInit (e : endpoint)
  | ExecutorInit (capacity : nat)
  | AddSubscription (e : endpoint)
  | Prepare
  | ExecutorFini
  | EndpointFini (e : endpoint)
  | NodeFini.

(** The flags of [ros2z_deployment_context_t], endpoint flags by member name,
    and the calls made so far. *)
Record state := State {
  node_initialized : bool;
  executor_initialized : bool;
  initialized : gset string;
  trace : list call
}.

Section program.
(** The return codes of rcl and the answers of its functions. *)
Context (RCL_RET_OK RCL_RET_ERROR RCL_RET_INVALID_ARGUMENT : Z) (ret : list call -> call -> Z).

Definition push (s : state) (c : call) : state :=
  State (node_initialized s) (executor_initialized s) (initialized s) (trace s ++ [c]).

(** [if (flag && fini(...) != RCL_RET_OK) { result = RCL_RET_ERROR; }] *)
Definition finalize (rs : Z * state) (fc : (state -> bool) * call) : Z * state :=
  let '(result, s) := rs in
  let '(flag, c) := fc in
  if flag s
  then (if (ret (trace s) c =? RCL_RET_OK)%Z then result else RCL_RET_ERROR, push s c)
  else (result, s).

Definition endpoint_flag (e : endpoint) (s : state) : bool :=
  bool_decide (flag_name e ∈ initialized s).

Definition finalizers (es : list endpoint) : list ((state -> bool) * call) :=
  [(executor_initialized, ExecutorFini)] ++
  ((fun e => (endpoint_flag e, EndpointFini e)) <$> rev es) ++
  [(node_initialized, NodeFini)].

(** [null] says that [context] is a null pointer. *)
Definition ros2z_deployment_fini (d : deployment) (null : bool) (s : state) : Z * state :=
  if null then (RCL_RET_INVALID_ARGUMENT, s)
  else foldl finalize (RCL_RET_OK, s) (finalizers (dep_endpoints d)).

Definition step_call (st : step) : call :=
  match st with
  | StepEndpoint e => EndpointInit e
  | StepExecutor n => ExecutorInit n
  | StepSubscribe e => AddSubscription e
  | StepPrepare => Prepare
  end.

(** The flag a step sets when its call succeeds. *)
Definition set_flag (st : step) (s : state) : state :=
  match st with
  | StepEndpoint e =>
      State (node_initialized s) (executor_initialized s) ({[flag_name e]} ∪ initialized s) (trace s)
  | StepExecutor _ => State (node_initialized s) true (initialized s) (trace s)
  | _ => s
  end.

Fixpoint run_steps (d : deployment) (sts : list step) (s : state) : Z * state :=
  match sts with
  | [] => (RCL_RET_OK, s)
  | st :: sts =>
      let result := ret (trace s) (step_call st) in
      let s' := push s (step_call st) in
      if (result =? RCL_RET_OK)%Z then run_steps d sts (set_flag st s')
      else (result, (ros2z_deployment_fini d false s').2)
  end.

(** [null] says that one of the three arguments is a null pointer; [memset]
    clears the flags. *)
Definition ros2z_deployment_init (d : deployment) (null : bool) (s : state) : Z * state :=
  if null then (RCL_RET_INVALID_ARGUMENT, s)
  else
    let s := State false false ∅ (trace s) in
    let c := NodeInit (dep_node d) (dep_namespace d) in
    let result := ret (trace s) c in
    let s := push s c in
    if (result =? RCL_RET_OK)%Z
    then run_steps d (init_steps d) (State true (executor_initialized s) (initialized s) (trace s))
    else (result, s).

(** ** Specification *)

(** Every call of a complete initialization, in order. *)
Definition init_calls (d : deployment) : list call :=
  NodeInit (dep_node d) (dep_namespace d) :: (step_call <$> init_steps d).

(** What has to be undone once a call has succeeded. *)
Definition finalizer (c : call) : option call :=
  match c with
  | NodeInit _ _ => Some NodeFini
  | EndpointInit e => Some (EndpointFini e)
  | ExecutorInit _ => Some ExecutorFini
  | _ => None
  end.

Definition cleanup (l : list call) : list call := rev (omap finalizer l).

(** The answers to a sequence of calls made after [tr]. *)
Fixpoint all_ok (tr l : list call) : bool :=
  match l with
  | [] => true
  | c :: l => (ret tr c =? RCL_RET_OK)%Z && all_ok (tr ++ [c]) l
  end.

(** What the calls [l] created. *)
Definition made_node (l : list call) : bool :=
  existsb (fun c => match c with NodeInit _ _ => true | _ => false end) l.
Definition made_executor (l : list call) : bool :=
  existsb (fun c => match c with ExecutorInit _ => true | _ => false end) l.
Definition made_endpoints (l : list call) : list endpoint :=
  omap (fun c => match c with EndpointInit e => Some e | _ => None end) l.

(** The flags record exactly what the calls [l] created. *)
Definition flags_of (l : list call) (s : state) : Prop :=
  node_initialized s = made_node l /\ executor_initialized s = made_executor l /\
  initialized s = list_to_set (flag_name <$> made_endpoints l).

(** ** Lemmas *)

(** A run of finalizers makes the enabled calls and reports their answers. *)
Lemma foldl_finalize (fs : list ((state -> bool) * call)) r s :
  (forall f c s' c', (f, c) ∈ fs -> f (push s' c') = f s') ->
  let enabled := (List.filter (fun fc => fc.1 s) fs).*2 in
  foldl finalize (r, s) fs =
  (if all_ok (trace s) enabled then r else RCL_RET_ERROR,
   State (node_initialized s) (executor_initialized s) (initialized s) (trace s ++ enabled)).
Proof.
  revert r s. induction fs as [|[f c] fs IH]; intros r s Hst; cbn [foldl].
  { destruct s. cbn. by rewrite app_nil_r. }
  assert (forall f' c' s' c'', (f', c') ∈ fs -> f' (push s' c'') = f' s') as Hst'.
  { intros f' c' s' c'' Hin. apply (Hst f' c'). by apply elem_of_cons; right. }
  unfold finalize at 2. cbn [List.filter fst]. destruct (f s) eqn:Hf.
  - rewrite (IH _ _ Hst'). cbn [push trace node_initialized executor_initialized initialized].
    assert (List.filter (fun fc => fc.1 (push s c)) fs = List.filter (fun fc => fc.1 s) fs) as ->.
    { apply filter_ext_in. intros [f' c'] Hin%list_elem_of_In. by apply (Hst' f' c'). }
    cbn [fmap list_fmap snd all_ok]. rewrite <- app_assoc. cbn [app].
    destruct (ret (trace s) c =? RCL_RET_OK)%Z; cbn [andb]; [done|].
    by destruct (all_ok _ _).
  - by rewrite (IH _ _ Hst').
Qed.

Lemma finalizers_stable es f c s c' : (f, c) ∈ finalizers es -> f (push s c') = f s.
Proof.
  unfold finalizers. rewrite !elem_of_app, !list_elem_of_singleton, list_elem_of_fmap.
  intros [[= -> ->]|[(e & [= -> ->] & _)|[= -> ->]]]; done.
Qed.

(** The calls a finalization makes from a given state. *)
Definition enabled (d : deployment) (s : state) : list call :=
  (if executor_initialized s then [ExecutorFini] else []) ++
  (EndpointFini <$> List.filter (fun e => endpoint_flag e s) (rev (dep_endpoints d))) ++
  (if node_initialized s then [NodeFini] else []).

Lemma enabled_filter d s :
  (List.filter (fun fc => fc.1 s) (finalizers (dep_endpoints d))).*2 = enabled d s.
Proof.
  unfold finalizers, enabled. rewrite !List.filter_app, !fmap_app. f_equal; [|f_equal].
  - cbn. by destruct (executor_initialized s).
  - induction (rev (dep_endpoints d)) as [|e l IH]; [done|].
    rewrite fmap_cons. cbn [List.filter fst].
    destruct (endpoint_flag e s); [|done]. rewrite !fmap_cons. by f_equal.
  - cbn. by destruct (node_initialized s).
Qed.

Lemma fini_run d s :
  ros2z_deployment_fini d false s =
  (if all_ok (trace s) (enabled d s) then RCL_RET_OK else RCL_RET_ERROR,
   State (node_initialized s) (executor_initialized s) (initialized s) (trace s ++ enabled d s)).
Proof.
  unfold ros2z_deployment_fini. rewrite foldl_finalize; [by rewrite enabled_filter|].
  intros. by eapply finalizers_stable.
Qed.

(** A part of the initialization ends among the endpoints or after the
    executor has been created. *)
Lemma init_calls_prefix d l r :
  init_calls d = l ++ r ->
  l = [] \/
  exists es1 es2 k, dep_endpoints d = es1 ++ es2 /\
    l = NodeInit (dep_node d) (dep_namespace d) :: (EndpointInit <$> es1) ++ k /\
    (k = [] \/ es2 = [] /\ exists n k', k = ExecutorInit n :: k' /\
                 forall c, c ∈ k' -> c = Prepare \/ exists e, c = AddSubscription e).
Proof.
  unfold init_calls, init_steps. destruct l as [|c l]; [by left|]. intros [= <- H]. right.
  rewrite fmap_app, <- list_fmap_compose in H.
  change (step_call ∘ StepEndpoint) with EndpointInit in H.
  apply app_eq_inv in H as [(k & Hk & _)|(k & -> & Hk)].
  - apply fmap_app_inv in Hk as (es1 & es2 & -> & -> & He). exists es1, es2, [].
    rewrite app_nil_r. auto.
  - exists (dep_endpoints d), [], k. rewrite app_nil_r. split_and!; [done..|].
    destruct k as [|c k]; [by left|]. right. split; [done|].
    unfold executor_steps in Hk. destruct (subscriptions d) as [|e es]; [done|].
    rewrite fmap_cons in Hk. remember (e :: es) as subs eqn:Hsubs.
    injection Hk as <- Hk. eexists _, k. split; [done|]. intros c Hc.
    assert (c ∈ k ++ r) as Hin by (apply elem_of_app; by left). rewrite <- Hk in Hin.
    apply list_elem_of_fmap in Hin as (st & -> & Hst).
    apply elem_of_app in Hst as [(x & -> & _)%list_elem_of_fmap|Hst%list_elem_of_singleton];
      [right; by exists x|left; by rewrite Hst].
Qed.

Lemma omap_finalizer_endpoints (es : list endpoint) : omap finalizer (EndpointInit <$> es) = EndpointFini <$> es.
Proof. induction es as [|e es IH]; [done|]. cbn. by f_equal. Qed.

Lemma omap_finalizer_none (k : list call) :
  (forall c, c ∈ k -> c = Prepare \/ exists e, c = AddSubscription e) -> omap finalizer k = [].
Proof.
  induction k as [|c k IH]; [done|]. intros H. cbn.
  assert (finalizer c = None) as ->.
  { destruct (H c) as [->|(e & ->)]; [apply elem_of_cons; by left|done..]. }
  apply IH. intros x Hx. apply H, elem_of_cons. by right.
Qed.

Lemma made_endpoints_map (es : list endpoint) : made_endpoints (EndpointInit <$> es) = es.
Proof. induction es as [|e es IH]; [done|]. cbn. by f_equal. Qed.

Lemma made_endpoints_app l k : made_endpoints (l ++ k) = made_endpoints l ++ made_endpoints k.
Proof. apply omap_app. Qed.

Lemma made_none (k : list call) :
  (forall c, c ∈ k -> c = Prepare \/ exists e, c = AddSubscription e) -> made_endpoints k = [].
Proof.
  induction k as [|c k IH]; [done|]. intros H. unfold made_endpoints in *. cbn.
  destruct (H c) as [->|(e & ->)]; [apply elem_of_cons; by left| |];
    apply IH; intros x Hx; apply H, elem_of_cons; by right.
Qed.

Lemma made_executor_endpoints (es : list endpoint) k :
  made_executor ((EndpointInit <$> es) ++ k) = made_executor k.
Proof. induction es as [|e es IH]; [done|]. cbn. apply IH. Qed.

(** Of distinct endpoints, exactly the first [es1] are flagged. *)
Lemma filter_flagged es1 es2 s :
  NoDup (flag_name <$> es1 ++ es2) -> initialized s = list_to_set (flag_name <$> es1) ->
  List.filter (fun e => endpoint_flag e s) (rev (es1 ++ es2)) = rev es1.
Proof.
  intros Hnd Hs. rewrite rev_app_distr, List.filter_app.
  rewrite fmap_app in Hnd. apply NoDup_app in Hnd as (_ & Hnd & _).
  assert (forall l, l ⊆ es1 -> List.filter (fun e => endpoint_flag e s) l = l) as Hall.
  { induction l as [|e l IH]; [done|]. intros H. cbn [List.filter]. rewrite IH; [|set_solver].
    unfold endpoint_flag. rewrite bool_decide_true; [done|]. rewrite Hs. set_solver. }
  assert (forall l, l ⊆ es2 -> List.filter (fun e => endpoint_flag e s) l = []) as Hnone.
  { induction l as [|e l IH]; [done|]. intros H. cbn [List.filter]. rewrite IH; [|set_solver].
    unfold endpoint_flag. rewrite bool_decide_false; [done|]. rewrite Hs.
    intros H1%elem_of_list_to_set. apply (Hnd _ H1). apply list_elem_of_fmap_2. set_solver. }
  rewrite (Hall (rev es1)), (Hnone (rev es2)); [done|..]; intros e; by rewrite !list_elem_of_In, <- in_rev.
Qed.

(** Finalization undoes exactly the calls that have succeeded. *)
Lemma enabled_cleanup d l r s :
  NoDup (ep_id <$> dep_endpoints d) -> init_calls d = l ++ r -> flags_of l s ->
  enabled d s = cleanup l.
Proof.
  intros Hnd%(suffixed_NoDup flag_name "_initialized"); [|done].
  intros Hl (Hn & He & Hi). unfold enabled. rewrite Hn, He.
  destruct (init_calls_prefix d l r Hl) as [->|(es1 & es2 & k & Hes & -> & Hk)].
  - pose proof (filter_flagged [] (dep_endpoints d) s Hnd Hi) as Hf. cbn [app rev] in Hf. by rewrite Hf.
  - unfold made_endpoints in Hi. cbn [omap list_omap] in Hi.
    change (list_omap call endpoint _ ?x) with (made_endpoints x) in Hi.
    rewrite made_endpoints_app, made_endpoints_map in Hi.
    cbn [made_executor made_node existsb orb]. fold (made_executor ((EndpointInit <$> es1) ++ k)).
    rewrite made_executor_endpoints. unfold cleanup. cbn [omap list_omap finalizer rev].
    change (list_omap call call finalizer ?x) with (omap finalizer x).
    rewrite omap_app, omap_finalizer_endpoints, rev_app_distr, <- map_rev.
    rewrite Hes, (filter_flagged es1 es2 s); [|by rewrite <- Hes|].
    + destruct Hk as [->|(-> & n & k' & -> & Hk)]; [done|].
      cbn. change (list_omap call call finalizer ?x) with (omap finalizer x).
      by rewrite (omap_finalizer_none k' Hk).
    + rewrite Hi. destruct Hk as [->|(-> & n & k' & -> & Hk)]; [by rewrite app_nil_r|].
      assert (made_endpoints (ExecutorInit n :: k') = []) as -> by exact (made_none k' Hk).
      by rewrite app_nil_r.
Qed.

(** Flags follow the calls. *)
Lemma flags_of_snoc l s st :
  flags_of l s -> flags_of (l ++ [step_call st]) (set_flag st (push s (step_call st))).
Proof.
  intros (Hn & He & Hi). unfold flags_of, made_node, made_executor.
  rewrite made_endpoints_app, !existsb_app, fmap_app, list_to_set_app_L.
  fold (made_node l) (made_executor l). rewrite <- Hn, <- He, <- Hi.
  destruct st; cbn; rewrite ?orb_false_r, ?orb_true_r; split_and!; set_solver.
Qed.

Lemma push_trace st s : trace (set_flag st (push s (step_call st))) = trace s ++ [step_call st].
Proof. by destruct st. Qed.

Lemma cleanup_snoc_none l c : finalizer c = None -> cleanup (l ++ [c]) = cleanup l.
Proof. intros H. unfold cleanup. rewrite omap_app. cbn. rewrite H. by rewrite app_nil_r. Qed.

(** A run of the remaining steps after [l] has been done: it completes, or it
    stops at the first refused call and undoes [l]. *)
Lemma run_steps_spec d l sts s :
  NoDup (ep_id <$> dep_endpoints d) -> init_calls d = l ++ (step_call <$> sts) -> flags_of l s ->
  let '(r, s') := run_steps d sts s in
  let calls := step_call <$> sts in
  (r = RCL_RET_OK /\ all_ok (trace s) calls = true /\ flags_of (l ++ calls) s' /\
   trace s' = trace s ++ calls) \/
  (r <> RCL_RET_OK /\ exists done c rest, calls = done ++ c :: rest /\
   all_ok (trace s) done = true /\ r = ret (trace s ++ done) c /\
   trace s' = trace s ++ done ++ [c] ++ cleanup (l ++ done)).
Proof.
  intros Hnd. revert l s. induction sts as [|st sts IH]; intros l s Hl Hs; cbn [run_steps].
  { left. by rewrite !app_nil_r. }
  rewrite fmap_cons in *. destruct (ret (trace s) (step_call st) =? RCL_RET_OK)%Z eqn:Hr.
  - specialize (IH (l ++ [step_call st]) (set_flag st (push s (step_call st)))).
    rewrite push_trace, <- !app_assoc in IH.
    specialize (IH Hl (flags_of_snoc l s st Hs)). destruct (run_steps d sts _) as [r s'].
    destruct IH as [(-> & Ha & Hf & Ht)|(Hne & don & c & rest & Hc & Ha & Hrr & Ht)]; [left|right].
    + cbn [all_ok]. by rewrite Hr, Ha, <- app_assoc in *.
    + split; [done|]. exists (step_call st :: don), c, rest. rewrite Hc. cbn [all_ok]. rewrite Hr, Ha.
      rewrite <- app_assoc in Hrr. rewrite Ht, <- !app_assoc. done.
  - right. apply Z.eqb_neq in Hr. split; [done|].
    exists [], (step_call st), (step_call <$> sts). rewrite !app_nil_r. split_and!; [done..|].
    rewrite fini_run. cbn [snd trace push]. rewrite <- app_assoc. cbn [app]. do 2 f_equal.
    by apply (enabled_cleanup d l (step_call <$> (st :: sts))).
Qed.

(** Initialization completes, or stops at the first refused call and undoes
    the calls that succeeded before it. *)
Lemma init_run d s :
  NoDup (ep_id <$> dep_endpoints d) ->
  let '(r, s') := ros2z_deployment_init d false s in
  (r = RCL_RET_OK /\ all_ok (trace s) (init_calls d) = true /\ flags_of (init_calls d) s' /\
   trace s' = trace s ++ init_calls d) \/
  (r <> RCL_RET_OK /\ exists done c rest, init_calls d = done ++ c :: rest /\
   all_ok (trace s) done = true /\ r = ret (trace s ++ done) c /\
   trace s' = trace s ++ done ++ [c] ++ cleanup done).
Proof.
  intros Hnd. unfold ros2z_deployment_init, init_calls. cbn [trace push executor_initialized initialized].
  set (c := NodeInit (dep_node d) (dep_namespace d)).
  destruct (ret (trace s) c =? RCL_RET_OK)%Z eqn:Hr.
  - pose proof (run_steps_spec d [c] (init_steps d) (State true false ∅ (trace s ++ [c]))
      Hnd eq_refl) as H.
    destruct (run_steps d (init_steps d) _) as [r s']. cbn [trace] in H. rewrite <- !app_assoc in H.
    destruct H as [(-> & Ha & Hf & Ht)|(Hne & don & c' & rest & Hc & Ha & Hrr & Ht)]; [done|left|right].
    + cbn [all_ok]. rewrite Hr. done.
    + split; [done|]. exists (c :: don), c', rest. rewrite Hc. cbn [all_ok]. rewrite Hr, Ha.
      rewrite <- app_assoc in Hrr. by rewrite Ht, <- !app_assoc.
  - right. apply Z.eqb_neq in Hr. split; [done|]. exists [], c, (step_call <$> init_steps d).
    by rewrite app_nil_r.
Qed.

(** The number of subscriptions the executor serves. *)
Definition added (l : list call) : list endpoint :=
  omap (fun c => match c with AddSubscription e => Some e | _ => None end) l.

Lemma added_app l k : added (l ++ k) = added l ++ added k.
Proof. apply omap_app. Qed.

Lemma added_init_calls d : added (init_calls d) = subscriptions d.
Proof.
  unfold init_calls, init_steps. rewrite fmap_app.
  change (added (?c :: ?l)) with (added [c] ++ added l). rewrite added_app.
  assert (added (step_call <$> (StepEndpoint <$> dep_endpoints d)) = []) as ->.
  { by induction (dep_endpoints d). }
  cbn [app]. unfold executor_steps. destruct (subscriptions d) as [|e es] eqn:Hs; [done|].
  rewrite <- Hs. rewrite fmap_cons, fmap_app.
  change (added (?c :: ?l)) with (added [c] ++ added l). rewrite added_app. cbn [fmap list_fmap].
  rewrite app_nil_r. clear. induction (subscriptions d) as [|x l IH]; [done|].
  cbn. by f_equal.
Qed.

Lemma capacity_init_calls d n : ExecutorInit n ∈ init_calls d -> n = length (subscriptions d).
Proof.
  unfold init_calls, init_steps. rewrite elem_of_cons, list_elem_of_fmap.
  intros [?|(st & Hst & Hin)]; [done|].
  apply elem_of_app in Hin as [(e & -> & _)%list_elem_of_fmap|Hin]; [done|].
  unfold executor_steps in Hin. destruct (subscriptions d) as [|e es]; [by apply elem_of_nil in Hin|].
  apply elem_of_cons in Hin as [->|Hin]; [by injection Hst|].
  apply elem_of_app in Hin as [(x & -> & _)%list_elem_of_fmap|Hin]; [done|].
  apply list_elem_of_singleton in Hin as ->. done.
Qed.

End program.
End GenProgram.
