(* ===== verification/Samples.v ===== *)
(** * Sample documents

    The loopback deployment and the Cyclone DDS capability document of the
    repository, as [json.loads] returns them, with the typed data they
    represent: the concrete inputs of the witnesses. *)

From Stdlib Require Import Ascii String.
From S2P Require Import Prelude PyStr Regex PyFloat PyObj Validate Deployment ValidateSpec Capability.

Module Samples.
Import Contract Capability.

(** [samples/loopback/deployment.json] *)
Definition loopback : pydict :=
  [("schema_version", PyInt 2);
   ("name", PyStr "minimal_pubsub");
   ("domain_id", PyInt 95);
   ("node", PyDict [("name", PyStr "ros2_zephyr_loopback"); ("namespace", PyStr EmptyString)]);
   ("rmw", PyList [PyStr "rmw_cyclonedds_c";
     PyStr "rmw_zenoh_pico"]);
   ("message_profile", PyStr "fixed_size");
   ("graph", PyDict [("outbound", PyBool false); ("inbound", PyBool false); ("api", PyList [])]);
   ("resources", PyDict [("local_endpoints", PyInt 2);
     ("remote", PyDict [("participants", PyInt 0); ("nodes", PyInt 0); ("endpoints", PyInt 0)]);
     ("workers", PyDict [("maximum", PyInt 8)]);
     ("application", PyDict [("static_reserve_bytes", PyInt 16384)]);
     ("targets", PyDict [("native_sim/native/64", PyDict [("flash_bytes", PyInt 1000000); ("ram_bytes", PyInt 1500000)]);
       ("esp32_devkitc/esp32/procpu", PyDict [("flash_bytes", PyInt 1500000); ("ram_bytes", PyInt 350000)]);
       ("esp32s3_devkitc/esp32s3/procpu", PyDict [("flash_bytes", PyInt 1500000); ("ram_bytes", PyInt 350000)])])]);
   ("endpoints", PyList [PyDict [("id", PyStr "outgoing");
      ("kind", PyStr "publisher");
      ("topic", PyStr "ros2_zephyr_loopback");
      ("type", PyStr "ros2_zephyr_test_msgs/msg/NestedFixed");
      ("qos", PyDict [("reliability", PyStr "best_effort");
        ("durability", PyStr "volatile");
        ("history", PyStr "keep_last");
        ("depth", PyInt 5)]);
      ("lifetime", PyStr "fixed_startup")];
     PyDict [("id", PyStr "incoming");
      ("kind", PyStr "subscription");
      ("topic", PyStr "ros2_zephyr_loopback");
      ("type", PyStr "ros2_zephyr_test_msgs/msg/NestedFixed");
      ("callback", PyStr "subscription_callback");
      ("qos", PyDict [("reliability", PyStr "best_effort");
        ("durability", PyStr "volatile");
        ("history", PyStr "keep_last");
        ("depth", PyInt 5)]);
      ("lifetime", PyStr "fixed_startup")]])].

(** [capabilities/rmw_cyclonedds_c.json] *)
Definition cyclonedds : pydict :=
  [("schema_version", PyInt 1);
   ("backend", PyStr "rmw_cyclonedds_c");
   ("message_profiles", PyList [PyStr "fixed_size"]);
   ("qos", PyDict [("reliability", PyList [PyStr "best_effort";
       PyStr "reliable"]);
     ("durability", PyList [PyStr "volatile";
       PyStr "transient_local"]);
     ("history", PyList [PyStr "keep_last"]);
     ("depth", PyDict [("minimum", PyInt 1); ("maximum", PyInt 32)])]);
   ("graph", PyDict [("outbound", PyBool true);
     ("inbound", PyBool true);
     ("api", PyList [PyStr "node_names";
       PyStr "publishers_info_by_topic";
       PyStr "subscriptions_info_by_topic";
       PyStr "topic_names_and_types"])]);
   ("endpoint_lifetime", PyList [PyStr "fixed_startup"]);
   ("services", PyBool false);
   ("actions", PyBool false);
   ("runtime_allocation", PyDict [("ros_after_executor_prepare", PyBool false);
     ("middleware_after_executor_prepare", PyBool true)]);
   ("workers", PyDict [("minimum", PyInt 5); ("configuration", PyStr "CONFIG_ROS2_ZEPHYR_CYCLONEDDS_THREAD_COUNT")]);
   ("peer_compatibility", PyList [PyStr "stock ROS 2 rmw_cyclonedds_cpp"]);
   ("reconnection", PyStr "DDS discovery retries after interface recovery")].

(** The typed data. *)
Definition sample_qos : qos := Qos BestEffort Volatile 5.
Definition outgoing : endpoint :=
  Endpoint "outgoing" Publisher "ros2_zephyr_loopback" "ros2_zephyr_test_msgs" "NestedFixed" sample_qos.
Definition incoming : endpoint :=
  Endpoint "incoming" (Subscription "subscription_callback") "ros2_zephyr_loopback"
    "ros2_zephyr_test_msgs" "NestedFixed" sample_qos.

Definition loopback_deployment : deployment :=
  Deployment "minimal_pubsub" 95 "ros2_zephyr_loopback" EmptyString
    ["rmw_cyclonedds_c"; "rmw_zenoh_pico"] false false [] [outgoing; incoming] 2 0 0 0 8 16384
    [("native_sim/native/64", Budget 1000000 1500000);
     ("esp32_devkitc/esp32/procpu", Budget 1500000 350000);
     ("esp32s3_devkitc/esp32s3/procpu", Budget 1500000 350000)].

Definition cyclonedds_capability : capability :=
  Cap "rmw_cyclonedds_c" ["fixed_size"] ["best_effort"; "reliable"] ["volatile"; "transient_local"]
    ["keep_last"] 1 32 true true
    ["node_names"; "publishers_info_by_topic"; "subscriptions_info_by_topic"; "topic_names_and_types"].

Ltac by_computation := first [reflexivity | refine (bool_decide_unpack _ _); vm_compute; exact I].

(** A concrete document represents its deployment: every part by evaluation. *)
Ltac represent_document :=
  split; try by_computation;
  [ by exists (PyInt 2)
  | eexists; repeat split; by_computation
  | eexists; repeat split; by_computation
  | eexists; split; [by_computation|];
    constructor; [|constructor; [|constructor]]; split; eexists; repeat split; try by_computation;
      eexists; (split; [by_computation|]); split; by_computation
  | eexists; split; [by_computation|]; split; try by_computation; eexists; (split; [by_computation|]);
      [repeat split; by_computation..|];
    repeat constructor; eexists; repeat split; by_computation ].

Lemma loopback_represents : Represents loopback loopback_deployment.
Proof. represent_document. Qed.

Lemma loopback_valid : valid_deployment loopback_deployment.
Proof.
  split; try by_computation; cbn; try lia.
  - intros b Hb. apply elem_of_cons in Hb as [->|Hb]; [by left|].
    apply list_elem_of_singleton in Hb as ->. by right.
  - repeat constructor; cbn; try by_computation; try lia; try done; by intros cb [= <-].
Qed.

(** The same for a capability. *)
Ltac represent_capability :=
  split; [by_computation..| | |by_computation];
  [eexists _, _; split; [by_computation|]|eexists]; repeat split; by_computation.

Lemma cyclonedds_represents : represents_cap cyclonedds cyclonedds_capability.
Proof. represent_capability. Qed.

End Samples.
