(* ===== verification/CompilerTheorems.v ===== *)
(** * The deployment compiler: theorems

    The properties of [tools/compile_deployment.py], from the lemmas of the
    component files: what the validator accepts, what the generators print, and
    what the printed program does. *)

From Stdlib Require Import Ascii String.
From S2P Require Import Prelude PyStr Regex PyFloat PyObj Validate Deployment ValidateSpec Capability.
From S2P Require Import Generate GenSpec GenMembers GenProgram Samples.

Module CompilerTheorems.
Import Deploy Contract Capability Generate GenSpec GenMembers GenProgram Samples.

(** C1: [validate_deployment] accepts an object exactly when it describes a
    deployment that meets the contract, and it returns the object unchanged. *)
Theorem validator_accepts_contract (v v' : pydict) :
  validate_deployment v = Ok v' <-> v' = v /\ exists d, Represents v d /\ valid_deployment d.
Proof. apply validate_deployment_accepts. Qed.

(** C27: whatever object it is given, the validator raises nothing but
    [DeploymentError]: no missing key, type or index error escapes. *)
Theorem validator_raises_deployment_error (v : pydict) (e : exn) :
  validate_deployment v = Raise e -> exists code msg, e = DeploymentError code msg.
Proof. apply rejects_validate_deployment. Qed.

Lemma validator_raises_deployment_error_witness :
  exists code msg, (match validate_deployment (tail loopback) with Raise e => e | Ok _ => TypeError end)
                   = DeploymentError code msg.
Proof. apply (validator_raises_deployment_error (tail loopback)). vm_compute. reflexivity. Defined.

(** C9: [validate_capabilities] accepts a deployment for a backend exactly when
    the backend is permitted and offers every policy, depth, direction and graph
    API the deployment asks for. *)
Theorem capabilities_exact (v cv : pydict) (d : deployment) (c : capability) (u : unit) :
  Represents v d -> represents_cap cv c ->
  validate_capabilities v cv (cap_backend c) = Ok u <-> supports c d.
Proof. apply validate_capabilities_accepts. Qed.

Lemma capabilities_exact_witness : supports cyclonedds_capability loopback_deployment.
Proof.
  apply (capabilities_exact loopback cyclonedds loopback_deployment cyclonedds_capability tt).
  - exact loopback_represents.
  - exact cyclonedds_represents.
  - vm_compute. reflexivity.
Defined.

(** C6: for an accepted deployment the generators never raise, and print the
    rendering of the typed deployment: the structure with its members, and the
    source with one step per endpoint, executor, subscription and preparation. *)
Theorem generators_render (v v' : pydict) (backend : string) :
  validate_deployment v = Ok v' ->
  exists d, Represents v d /\ valid_deployment d /\
    generate_header (PyDict v') = Ok (render_header d) /\
    generate_source (PyDict v') backend = Ok (render_source (uses_uint32 d backend) d).
Proof.
  intros [-> (d & Hr & Hd)]%validate_deployment_accepts. exists d.
  auto using generate_header_renders, generate_source_renders.
Qed.

Lemma generators_render_witness :
  exists d, Represents loopback d /\ valid_deployment d /\
    generate_header (PyDict loopback) = Ok (render_header d) /\
    generate_source (PyDict loopback) "rmw_cyclonedds_c" =
      Ok (render_source (uses_uint32 d "rmw_cyclonedds_c") d).
Proof.
  apply (generators_render loopback loopback "rmw_cyclonedds_c"). vm_compute. reflexivity.
Defined.

(** C5: the printed [ros2z_deployment_init] either makes every call of the
    deployment once, in order, all answered [RCL_RET_OK], or stops at the first
    refused call, returns its code, and undoes exactly the calls that succeeded,
    in reverse order. *)
Theorem init_completes_or_undoes (ok err inval : Z) (ret : list call -> call -> Z)
    (d : deployment) (s s' : state) (r : Z) :
  valid_deployment d -> ros2z_deployment_init ok err inval ret d false s = (r, s') ->
  (r = ok /\ all_ok ok ret (trace s) (init_calls d) = true /\ trace s' = trace s ++ init_calls d) \/
  (r <> ok /\ exists done c rest, init_calls d = done ++ c :: rest /\
     all_ok ok ret (trace s) done = true /\ r = ret (trace s ++ done) c /\
     trace s' = trace s ++ done ++ [c] ++ cleanup done).
Proof.
  intros Hd H. pose proof (init_run ok err inval ret d s (vd_ids_unique d Hd)) as Hi. rewrite H in Hi.
  destruct Hi as [(? & ? & _ & ?)|?]; auto.
Qed.

(** A run in which the second endpoint cannot be created. *)
Definition refuse_incoming (tr : list call) (c : call) : Z :=
  match c with EndpointInit e => if bool_decide (ep_id e = "incoming") then 1%Z else 0%Z | _ => 0%Z end.

Definition start : state := State true true {["leftover"]} [].

Lemma init_completes_or_undoes_witness :
  let '(r, s') := ros2z_deployment_init 0 1 11 refuse_incoming loopback_deployment false start in
  r <> 0%Z /\ exists done c rest, init_calls loopback_deployment = done ++ c :: rest /\
    all_ok 0 refuse_incoming (trace start) done = true /\ r = refuse_incoming (trace start ++ done) c /\
    trace s' = trace start ++ done ++ [c] ++ cleanup done.
Proof.
  destruct (ros2z_deployment_init 0 1 11 refuse_incoming loopback_deployment false start) as [r s'] eqn:E.
  destruct (init_completes_or_undoes 0 1 11 refuse_incoming loopback_deployment start s' r
    loopback_valid E) as [[Hr _]|H]; [|exact H].
  vm_compute in E. injection E as <- _. discriminate Hr.
Defined.

(** C10: after a successful initialization, [ros2z_deployment_fini] finalizes
    everything that was created, once and in reverse order, and returns
    [RCL_RET_OK] exactly when every finalizer does. *)
Theorem fini_undoes_init (ok err inval : Z) (ret : list call -> call -> Z)
    (d : deployment) (s s' : state) :
  valid_deployment d -> err <> ok -> ros2z_deployment_init ok err inval ret d false s = (ok, s') ->
  exists r s'', ros2z_deployment_fini ok err inval ret d false s' = (r, s'') /\
    (r = ok <-> all_ok ok ret (trace s') (cleanup (init_calls d)) = true) /\ (r = ok \/ r = err) /\
    trace s'' = trace s' ++ cleanup (init_calls d).
Proof.
  intros Hd Hne H. pose proof (init_run ok err inval ret d s (vd_ids_unique d Hd)) as Hi. rewrite H in Hi.
  destruct Hi as [(_ & _ & Hf & _)|[? _]]; [|done].
  rewrite fini_run, (enabled_cleanup d (init_calls d) [] s'); [|apply Hd|by rewrite app_nil_r|done].
  eexists _, _. split; [reflexivity|]. cbn [trace].
  destruct (all_ok ok ret (trace s') (cleanup (init_calls d))); repeat split; auto; done.
Qed.

Lemma fini_undoes_init_witness :
  let s' := (ros2z_deployment_init 0 1 11 (fun _ _ => 0%Z) loopback_deployment false start).2 in
  exists r s'', ros2z_deployment_fini 0 1 11 (fun _ _ => 0%Z) loopback_deployment false s' = (r, s'') /\
    (r = 0%Z <-> all_ok 0 (fun _ _ => 0%Z) (trace s') (cleanup (init_calls loopback_deployment)) = true) /\
    (r = 0%Z \/ r = 1%Z) /\
    trace s'' = trace s' ++ cleanup (init_calls loopback_deployment).
Proof.
  intros s'. apply (fini_undoes_init 0 1 11 (fun _ _ => 0%Z) loopback_deployment start s').
  - exact loopback_valid.
  - lia.
  - vm_compute. reflexivity.
Defined.

(** The executor is created with exactly the capacity it needs: the calls
    add each subscription of the deployment once, in order, and every capacity
    they ask for is the number of subscriptions. *)
Theorem executor_capacity_exact (d : deployment) :
  added (init_calls d) = subscriptions d /\
  (forall n, ExecutorInit n ∈ init_calls d -> n = length (subscriptions d)) /\
  (subscriptions d = [] -> made_executor (init_calls d) = false).
Proof.
  split; [apply added_init_calls|]. split; [apply capacity_init_calls|].
  intros H. unfold init_calls, init_steps. rewrite H, app_nil_r. clear.
  cbn. induction (dep_endpoints d) as [|e es IH]; [done|exact IH].
Qed.

(** The members of the generated structure have distinct names exactly when
    no endpoint identifier is another one of the same kind followed by
    [_initialized] or, for a subscription, [_message]. *)
Theorem context_members_distinct (d : deployment) :
  valid_deployment d ->
  NoDup (member_names d) <->
  forall e1 e2, e1 ∈ dep_endpoints d -> e2 ∈ dep_endpoints d -> ~ collides e1 e2.
Proof. apply member_names_NoDup. Qed.

(** Two subscriptions whose members collide. *)
Definition colliding_subscription (id : string) : pyobj :=
  PyDict [("id", PyStr id); ("kind", PyStr "subscription"); ("topic", PyStr "chatter");
    ("type", PyStr "std_msgs/msg/UInt32"); ("callback", PyStr ("on_" +:+ id));
    ("qos", PyDict [("reliability", PyStr "best_effort"); ("durability", PyStr "volatile");
      ("history", PyStr "keep_last"); ("depth", PyInt 1)]);
    ("lifetime", PyStr "fixed_startup")].

Definition colliding : pydict :=
  dict_set loopback "endpoints" (PyList [colliding_subscription "a"; colliding_subscription "a_message"]).

Lemma colliding_endpoint id e :
  represents_endpoint (colliding_subscription id) e ->
  ep_id e = id /\ (match ep_kind e with Publisher => False | Subscription _ => True end).
Proof.
  intros [(d & [= <-] & _ & I & K & _)]. cbn in I, K. injection I as <-. split; [done|].
  by destruct (ep_kind e).
Qed.

(** The validator accepts deployments whose generated structure declares a
    member twice: identifiers [a] and [a_message] of two subscriptions. *)
Theorem validator_misses_collision :
  validate_deployment colliding = Ok colliding /\
  forall d, Represents colliding d -> valid_deployment d -> ~ NoDup (member_names d).
Proof.
  split; [vm_compute; reflexivity|]. intros d Hr Hd. rewrite member_names_NoDup by done. intros H.
  destruct (@rp_endpoints _ _ Hr) as (l & Hl & Hes).
  change (Some (PyList [colliding_subscription "a"; colliding_subscription "a_message"]) = Some (PyList l)) in Hl.
  injection Hl as <-.
  apply Forall2_cons_inv_l in Hes as (e1 & es & H1 & Hes & He).
  apply Forall2_cons_inv_l in Hes as (e2 & es2 & H2 & _ & ->).
  apply colliding_endpoint in H1 as [I1 K1], H2 as [I2 K2]. apply (H e2 e1).
  - rewrite He. set_solver.
  - rewrite He. set_solver.
  - unfold collides, is_subscription. rewrite I1, I2. split.
    + by destruct (ep_kind e1), (ep_kind e2).
    + right. by destruct (ep_kind e1).
Qed.

(** Topics are printed between quotes as they stand, and the validator does not keep
    quotes out of them: the string of this accepted deployment ends after [/a]. *)
Definition quoting : pydict :=
  dict_set loopback "endpoints"
    (PyList [match colliding_subscription "a" with
             | PyDict e => PyDict (dict_set e "topic" (PyStr ("/a" +:+ String dquote "b")))
             | x => x
             end]).

Lemma topic_not_escaped :
  validate_deployment quoting = Ok quoting /\
  exists text, generate_source (PyDict quoting) "rmw_cyclonedds_c" = Ok text /\
    str_contains (String dquote ("/a" +:+ String dquote ("b" +:+ String dquote ", &qos_a);"))) text = true.
Proof. split; [vm_compute; reflexivity|]. eexists. split; vm_compute; reflexivity. Qed.

(** C30: the members of the generated structure have distinct names exactly when
    no endpoint identifier is another one of the same kind followed by
    [_initialized] or, for a subscription, [_message]; and the validator does not
    see to it: it accepts a deployment, the identifiers [a] and [a_message] of two
    subscriptions, whose structure declares a member twice. *)
Theorem member_collisions :
  (forall d, valid_deployment d ->
     NoDup (member_names d) <->
     forall e1 e2, e1 ∈ dep_endpoints d -> e2 ∈ dep_endpoints d -> ~ collides e1 e2) /\
  validate_deployment colliding = Ok colliding /\
  forall d, Represents colliding d -> valid_deployment d -> ~ NoDup (member_names d).
Proof. split; [exact context_members_distinct|exact validator_misses_collision]. Qed.

Lemma member_collisions_witness : NoDup (member_names loopback_deployment).
Proof.
  apply (proj1 member_collisions loopback_deployment); [exact loopback_valid|].
  intros e1 e2 H1 H2. cbn [dep_endpoints loopback_deployment] in *.
  repeat (apply elem_of_cons in H1 as [->|H1]); try (by apply elem_of_nil in H1);
  repeat (apply elem_of_cons in H2 as [->|H2]); try (by apply elem_of_nil in H2);
  refine (bool_decide_unpack _ _); vm_compute; exact I.
Defined.

End CompilerTheorems.
