(* ===== verification/Config.v ===== *)
(** * Zephyr configuration files

    [parse_config] and [integer_config] of [tools/verify_resources.py].  A file
    is what reading it as text gives: its text, or the exception the operating
    system or the decoder raises.  The Kconfig output [.config], with its comments,
    headings and empty lines, is proved to be read back as the settings it was
    written from. *)

From Stdlib Require Import Ascii String.
From S2P Require Import Prelude PyStr PyFloat PyObj.

Module Config.

Definition reject {A} (code msg : string) : res A := Raise (ResourceError code msg).

Definition reject_if (b : bool) (code msg : string) : res unit :=
  raise_if b (ResourceError code msg).

(** The message of an exception, [str(error)]. *)
Definition exn_str (e : exn) : string :=
  match e with
  | DeploymentError _ m | ResourceError _ m | MetricsError m | ValueError m | OSError m
  | JSONDecodeError m => m
  | KeyError k => str_repr k
  | _ => EmptyString
  end.

(** [try: ... except OSError as error: reject(code, f"cannot read {what}: {error}")] *)
Definition or_unreadable {A} (code what : string) (m : res A) : res A :=
  match m with
  | Raise (OSError e) => reject code ("cannot read " +:+ what +:+ ": " +:+ e)
  | _ => m
  end.

(** A parsed configuration, only ever looked up by key. *)
Abbreviation config := (gmap string string).

(** One line of the file. *)
Definition config_line (values : config) (line : string) : config :=
  if str_startswith "CONFIG_" line && str_contains "=" line then
    match str_cut "=" line with
    | Some (key, value) => <[key := str_strip (is_char dquote) value]> values
    | None => values
    end
  else if str_startswith "# CONFIG_" line && str_endswith " is not set" line then
    <[str_take (String.length line - 2 - 11) (str_drop 2 line) := "n"]> values
  else values.

Definition parse_lines (lines : list string) : config := foldl config_line ∅ lines.

Definition parse_config (path : string) (content : res string) : res config :=
  text ← or_unreadable "E_RESOURCE_INPUT" path content;
  Ok (parse_lines (str_splitlines text)).

Definition integer_config (c : config) (key : string) : option Z :=
  match c !! key with
  | None => None
  | Some value => if bool_decide (value = "n") || bool_decide (value = "y") then None else py_int 0 value
  end.

(** ** What Kconfig writes *)

(** A symbol of Zephyr's generated [.config]: set to a text, printed bare or
    quoted, or unset.  A quoted text is as it stands between the quotes, with the
    backslashes Kconfig puts before quotes and backslashes. *)
Inductive setting :=
  | Bare (key value : string)
  | Quoted (key value : string)
  | Unset (key : string).

Definition setting_key (s : setting) : string :=
  match s with Bare k _ | Quoted k _ | Unset k => k end.
Definition setting_value (s : setting) : string :=
  match s with Bare _ v | Quoted _ v => v | Unset _ => "n" end.

Definition quote : string := String dquote EmptyString.

Definition setting_line (s : setting) : string :=
  match s with
  | Bare k v => "CONFIG_" +:+ k +:+ "=" +:+ v
  | Quoted k v => "CONFIG_" +:+ k +:+ "=" +:+ quote +:+ v +:+ quote
  | Unset k => "# CONFIG_" +:+ k +:+ " is not set"
  end.

Fixpoint text_of_lines (l : list string) : string :=
  match l with [] => EmptyString | x :: l => x +:+ String nl (text_of_lines l) end.

(** Symbol characters; texts of one line; texts that neither begin nor end with a
    quote (a text may have quotes inside). *)
Definition key_char (c : ascii) : bool := is_alpha c || is_digit c || is_char "_" c.
Definition one_line (s : string) : bool := str_all (fun c => negb (is_linebreak c)) s.
Definition bare_ends (s : string) : bool := negb (str_startswith quote s) && negb (str_endswith quote s).

Definition setting_ok (s : setting) : bool :=
  str_all key_char (setting_key s) && one_line (setting_value s) && bare_ends (setting_value s).

(** The settings as a map; a later one wins. *)
Definition settings (l : list setting) : config :=
  foldl (fun m s => <["CONFIG_" +:+ setting_key s := setting_value s]> m) ∅ l.

(** The lines of the file: symbols, and comments, headings and empty lines. *)
Inductive config_entry := Setting (s : setting) | Comment (line : string).

Definition config_entry_line (x : config_entry) : string := match x with Setting s => setting_line s | Comment line => line end.
Definition config_entry_setting (x : config_entry) : option setting := match x with Setting s => Some s | Comment _ => None end.

(** A line that says something of a symbol. *)
Definition symbol_line (line : string) : Prop :=
  (exists k v, line = "CONFIG_" +:+ k +:+ "=" +:+ v) \/ (exists k, line = "# CONFIG_" +:+ k +:+ " is not set").

Definition config_entry_ok (x : config_entry) : Prop :=
  match x with Setting s => setting_ok s = true | Comment line => one_line line = true /\ ~ symbol_line line end.

(** * Properties *)

Lemma splitlines_cons l t :
  str_all (fun c => negb (is_linebreak c)) l = true ->
  str_splitlines (l +:+ String nl t) = l :: str_splitlines t.
Proof.
  induction l as [|c l IH]; intros H.
  - change (EmptyString +:+ String nl t) with (String nl t). cbn [str_splitlines].
    change (is_linebreak nl) with true. cbn iota. destruct t as [|d u]; [done|].
    by change (is_char cr nl) with false.
  - rewrite str_app_cons. cbn [str_splitlines str_all] in *.
    apply andb_true_iff in H as [Hc%negb_true_iff Hl]. rewrite Hc, IH by done. done.
Qed.

Lemma splitlines_text l :
  Forall (fun x => str_all (fun c => negb (is_linebreak c)) x = true) l ->
  str_splitlines (text_of_lines l) = l.
Proof.
  induction 1 as [|x l Hx Hl IH]; [done|]. cbn [text_of_lines]. by rewrite splitlines_cons, IH.
Qed.

Lemma str_cut_key k v :
  str_all key_char k = true -> str_cut "=" ("CONFIG_" +:+ k +:+ "=" +:+ v) = Some ("CONFIG_" +:+ k, v).
Proof.
  intros Hk. rewrite <- str_app_assoc. set (a := "CONFIG_" +:+ k).
  assert (str_all (fun c => negb (is_char "=" c)) a = true) as Ha.
  { unfold a. rewrite str_all_app. apply andb_true_iff. split; [reflexivity|].
    eapply str_all_impl, Hk. ascii_class. }
  clearbody a. clear k Hk. induction a as [|c a IH]; [by destruct v|].
  cbn [str_all] in Ha. apply andb_true_iff in Ha as [Hc%negb_true_iff Ha].
  rewrite str_app_cons. cbn [str_cut]. rewrite IH by done.
  assert (String.prefix "=" (String c (a +:+ "=" +:+ v)) = false) as ->; [|done].
  apply not_true_iff_false. rewrite str_prefix_spec. intros [t [= -> _]]. done.
Qed.

Lemma str_snoc s : s = EmptyString \/ exists t c, s = t +:+ String c EmptyString.
Proof.
  induction s as [|c s [->|(t & d & ->)]]; [by left|right; by exists EmptyString, c|right; by exists (String c t), d].
Qed.

Lemma str_rstrip_keeps p t c : p c = false -> str_rstrip p (t +:+ String c EmptyString) = t +:+ String c EmptyString.
Proof.
  intros Hc. induction t as [|x t IH].
  - change (EmptyString +:+ String c EmptyString) with (String c EmptyString). cbn. by rewrite Hc.
  - rewrite str_app_cons. cbn [str_rstrip]. rewrite IH. by destruct t.
Qed.

Lemma str_rstrip_snoc p s c : p c = true -> str_rstrip p (s +:+ String c EmptyString) = str_rstrip p s.
Proof.
  intros Hc. induction s as [|x s IH].
  - change (EmptyString +:+ String c EmptyString) with (String c EmptyString). cbn. by rewrite Hc.
  - rewrite str_app_cons. cbn [str_rstrip]. by rewrite IH.
Qed.

Lemma is_char_neq c d : d <> c -> is_char c d = false.
Proof. intros Hne. unfold is_char. apply not_true_iff_false. intros H. apply Hne. symmetry. by apply Ascii.eqb_eq. Qed.

Lemma rstrip_bare v : str_endswith quote v = false -> str_rstrip (is_char dquote) v = v.
Proof.
  intros Hv. destruct (str_snoc v) as [->|(t & c & ->)]; [done|]. apply str_rstrip_keeps, is_char_neq. intros ->.
  apply not_true_iff_false in Hv. apply Hv, str_endswith_spec. by exists t.
Qed.

Lemma lstrip_bare v w : str_startswith quote v = false -> v <> EmptyString ->
  str_lstrip (is_char dquote) (v +:+ w) = v +:+ w.
Proof.
  intros Hv Hne. destruct v as [|c v]; [done|]. rewrite str_app_cons. apply (str_lstrip_id _ _ c (v +:+ w)); [done|].
  apply is_char_neq. intros ->. apply not_true_iff_false in Hv. apply Hv, str_startswith_spec. by exists v.
Qed.

Lemma str_strip_value v : bare_ends v = true -> str_strip (is_char dquote) v = v.
Proof.
  unfold bare_ends. rewrite andb_true_iff, !negb_true_iff. intros [Hs He]. unfold str_strip.
  destruct (decide (v = EmptyString)) as [->|Hne]; [done|].
  pose proof (lstrip_bare v EmptyString Hs Hne) as Hl. rewrite str_app_nil_r in Hl. rewrite Hl. by apply rstrip_bare.
Qed.

Lemma str_strip_quoted v : bare_ends v = true -> str_strip (is_char dquote) (quote +:+ v +:+ quote) = v.
Proof.
  unfold bare_ends. rewrite andb_true_iff, !negb_true_iff. intros [Hs He]. unfold str_strip, quote.
  rewrite str_app_cons. cbn [str_lstrip]. change (is_char dquote dquote) with true. cbn iota.
  change (EmptyString +:+ ?x) with x.
  destruct (decide (v = EmptyString)) as [->|Hne]; [done|].
  rewrite lstrip_bare, str_rstrip_snoc by done. by apply rstrip_bare.
Qed.

Lemma str_startswith_app p t : str_startswith p (p +:+ t) = true.
Proof. apply str_startswith_spec. by exists t. Qed.

Lemma str_endswith_app p t : str_endswith p (t +:+ p) = true.
Proof. apply str_endswith_spec. by exists t. Qed.

Lemma config_line_assign m k v w :
  str_all key_char k = true -> str_strip (is_char dquote) v = w ->
  config_line m ("CONFIG_" +:+ k +:+ "=" +:+ v) = <["CONFIG_" +:+ k := w]> m.
Proof.
  intros Hk Hv. unfold config_line. rewrite str_startswith_app, str_cut_key, Hv by done.
  assert (str_contains "=" ("CONFIG_" +:+ k +:+ "=" +:+ v) = true) as ->; [|done].
  apply str_contains_spec. exists ("CONFIG_" +:+ k), v. by rewrite str_app_assoc.
Qed.

Lemma config_line_unset m k :
  config_line m ("# CONFIG_" +:+ k +:+ " is not set") = <["CONFIG_" +:+ k := "n"]> m.
Proof.
  unfold config_line.
  change ("# CONFIG_" +:+ k +:+ " is not set") with (String "#" (String " " ("CONFIG_" +:+ k +:+ " is not set"))).
  change (str_startswith "CONFIG_" (String "#" _)) with false. cbn iota.
  change (String "#" (String " " ("CONFIG_" +:+ k +:+ " is not set"))) with ("# CONFIG_" +:+ k +:+ " is not set").
  rewrite str_startswith_app.
  assert (str_endswith " is not set" ("# CONFIG_" +:+ k +:+ " is not set") = true) as ->.
  { rewrite <- str_app_assoc. apply str_endswith_app. }
  cbn iota. f_equal.
  change (str_drop 2 ("# CONFIG_" +:+ k +:+ " is not set")) with ("CONFIG_" +:+ k +:+ " is not set").
  rewrite <- (str_app_assoc "CONFIG_").
  assert (String.length ("# CONFIG_" +:+ k +:+ " is not set") - 2 - 11 = String.length ("CONFIG_" +:+ k)) as ->.
  { rewrite !str_length_app. cbn. lia. }
  apply str_take_app.
Qed.

Lemma config_line_setting m s :
  setting_ok s = true -> config_line m (setting_line s) = <["CONFIG_" +:+ setting_key s := setting_value s]> m.
Proof.
  unfold setting_ok. rewrite !andb_true_iff. intros [[Hk _] Hv]. destruct s as [k v|k v|k]; cbn [setting_line setting_key setting_value] in *.
  - by apply config_line_assign, str_strip_value.
  - by apply config_line_assign, str_strip_quoted.
  - apply config_line_unset.
Qed.

Lemma setting_line_oneline s : setting_ok s = true -> one_line (setting_line s) = true.
Proof.
  unfold setting_ok, one_line. rewrite !andb_true_iff. intros [[Hk Hv] _].
  assert (str_all (fun c => negb (is_linebreak c)) (setting_key s) = true) as Hk'.
  { eapply str_all_impl, Hk. ascii_class. }
  destruct s as [k v|k v|k]; cbn [setting_line setting_key setting_value] in *;
    repeat (rewrite str_all_app || cbn [str_all quote]); by rewrite ?Hk', ?Hv.
Qed.

(** ** Lines that say nothing of a symbol *)

Lemma contains_assign t : str_contains "=" ("CONFIG_" +:+ t) = true -> exists k v, t = k +:+ "=" +:+ v.
Proof.
  intros (a & b & E)%str_contains_spec. do 7 (destruct a as [|? a]; [discriminate E|rewrite str_app_cons in E; injection E as _ E]).
  exists a, b. exact E.
Qed.

Lemma ends_unset t u : "# CONFIG_" +:+ t = u +:+ " is not set" -> exists k, t = k +:+ " is not set".
Proof.
  intros E. do 9 (destruct u as [|? u]; [discriminate E|rewrite str_app_cons in E; injection E as _ E]).
  exists u. exact E.
Qed.

Lemma config_line_comment m line : ~ symbol_line line -> config_line m line = m.
Proof.
  intros Hn. unfold config_line. destruct (str_startswith "CONFIG_" line && str_contains "=" line) eqn:E1.
  { exfalso. apply andb_true_iff in E1 as [(t & ->)%str_startswith_spec (k & v & ->)%contains_assign].
    apply Hn. left. by exists k, v. }
  destruct (str_startswith "# CONFIG_" line && str_endswith " is not set" line) eqn:E2; [|done].
  exfalso. apply andb_true_iff in E2 as [(t & ->)%str_startswith_spec (u & (k & ->)%ends_unset)%str_endswith_spec].
  apply Hn. right. by exists k.
Qed.

(** A comment, a heading or an empty line, by how it begins. *)
Lemma comment_line line :
  str_startswith "CONFIG_" line = false -> str_startswith "# CONFIG_" line = false -> ~ symbol_line line.
Proof.
  intros H1 H2 [(k & v & ->)|(k & ->)]; [rewrite str_startswith_app in H1|rewrite str_startswith_app in H2]; done.
Qed.

(** Reading a written configuration gives its settings. *)
Lemma parse_settings path l :
  Forall config_entry_ok l -> parse_config path (Ok (text_of_lines (config_entry_line <$> l))) = Ok (settings (omap config_entry_setting l)).
Proof.
  intros H. unfold parse_config. cbn [or_unreadable mbind res_bind]. f_equal. rewrite splitlines_text.
  2: { apply Forall_fmap. eapply Forall_impl; [exact H|]. intros [s|line]; [apply setting_line_oneline|by intros [? _]]. }
  unfold parse_lines, settings. generalize (∅ : config) as m. induction H as [|[s|line] l Hs Hl IH]; [done|..]; intros m.
  - cbn [fmap list_fmap foldl config_entry_line omap list_omap config_entry_setting]. rewrite config_line_setting by done. apply IH.
  - cbn [fmap list_fmap foldl config_entry_line omap list_omap config_entry_setting]. rewrite config_line_comment by apply Hs. apply IH.
Qed.

Lemma str_of_Z_not_yn z : str_of_Z z <> "n" /\ str_of_Z z <> "y".
Proof.
  split; intros H; apply (f_equal (py_int 10)) in H; rewrite py_int_str_of_Z in H; auto; discriminate.
Qed.

Lemma integer_config_str c key z : c !! key = Some (str_of_Z z) -> integer_config c key = Some z.
Proof.
  intros H. unfold integer_config. rewrite H. destruct (str_of_Z_not_yn z) as [Hn Hy].
  rewrite !bool_decide_false by done. cbn [orb]. apply py_int_str_of_Z. auto.
Qed.

End Config.
