(* ===== verification/Plan.v ===== *)
(** * The pre-link resource plan

    [make_check], [configured_reservations] and [build_prelink_plan] of
    [tools/verify_resources.py]: the deployment plan written by the compiler and
    the Zephyr configuration are compared check by check.  Numbers stay the
    Python objects they are in the documents, because the report prints them. *)

From Stdlib Require Import Ascii String.
From S2P Require Import Prelude PyStr PyFloat PyObj Config.

Module Plan.
Import Config.

Definition REMOTE_CONFIG_KEYS : list (string * string) :=
  [("participants", "CONFIG_ROS2_ZEPHYR_GRAPH_CACHE_MAX_PARTICIPANTS");
   ("nodes", "CONFIG_ROS2_ZEPHYR_GRAPH_CACHE_MAX_NODES");
   ("endpoints", "CONFIG_ROS2_ZEPHYR_GRAPH_CACHE_MAX_ENDPOINTS")].

Definition STATIC_BUFFER_KEYS : list string :=
  ["CONFIG_NET_PKT_RX_COUNT"; "CONFIG_NET_PKT_TX_COUNT"; "CONFIG_NET_BUF_RX_COUNT";
   "CONFIG_NET_BUF_TX_COUNT"; "CONFIG_NET_BUF_DATA_SIZE"; "CONFIG_NET_MAX_CONTEXTS";
   "CONFIG_MAX_PTHREAD_MUTEX_COUNT"; "CONFIG_MAX_PTHREAD_COND_COUNT"].

(** [int | None] as an object. *)
Definition opt_int (z : option Z) : pyobj := match z with Some z => PyInt z | None => PyNone end.

(** [d.get(k)] *)
Definition get (d : pydict) (k : string) : pyobj := from_option id PyNone (dict_get d k).

Definition check_dict (check_id code : string) (required available : pyobj) (status detail : string) : pydict :=
  [("id", PyStr check_id); ("code", PyStr code); ("required", required); ("available", available);
   ("status", PyStr status); ("detail", PyStr detail)].

Definition make_check (check_id code : string) (required available : pyobj) (detail : string) : res pyobj :=
  passed ← match available with PyNone => Ok false | _ => py_le required available end;
  Ok (PyDict (check_dict check_id code required available (if passed : bool then "PASS" else "FAIL") detail)).

(** A row of the stack and heap tables. *)
Definition row (name : string) (bytes : pyobj) (source : string) : pyobj :=
  PyDict [("name", PyStr name); ("bytes", bytes); ("source", PyStr source)].

Definition STACK_KEYS : list (string * string) :=
  [("main stack", "CONFIG_MAIN_STACK_SIZE");
   ("idle stack", "CONFIG_IDLE_STACK_SIZE");
   ("system workqueue stack", "CONFIG_SYSTEM_WORKQUEUE_STACK_SIZE")].

(** The loop over the configured stacks: rows and running total. *)
Definition stack_rows (c : config) (acc : list pyobj * Z) (nk : string * string) : list pyobj * Z :=
  match integer_config c nk.2 with
  | Some value => (acc.1 ++ [row nk.1 (PyInt value) nk.2], (acc.2 + value)%Z)
  | None => acc
  end.

Definition configured_reservations (c : config) (backend : string) (worker_count : pyobj) (workers : Z) :
    list pyobj * list pyobj * Z :=
  let '(stacks, known_total) := foldl (stack_rows c) ([], 0%Z) STACK_KEYS in
  let '(stacks, known_total) :=
    if bool_decide (backend = "rmw_cyclonedds_c") then
      match integer_config c "CONFIG_ROS2_ZEPHYR_CYCLONEDDS_THREAD_STACK_SIZE" with
      | Some worker_stack =>
          let value := (workers * worker_stack)%Z in
          (stacks ++ [row "Cyclone DDS worker stacks" (PyInt value)
                        (py_str worker_count +:+ " x " +:+ str_of_Z worker_stack)],
           (known_total + value)%Z)
      | None => (stacks, known_total)
      end
    else (stacks, known_total) in
  let '(heaps, known_total) :=
    match integer_config c "CONFIG_HEAP_MEM_POOL_SIZE" with
    | Some zephyr_heap =>
        ([row "Zephyr heap backing" (PyInt zephyr_heap) "CONFIG_HEAP_MEM_POOL_SIZE"],
         (known_total + zephyr_heap)%Z)
    | None => ([], known_total)
    end in
  match integer_config c "CONFIG_COMMON_LIBC_MALLOC_ARENA_SIZE" with
  | Some libc_heap =>
      if (0 <=? libc_heap)%Z then
        (stacks, heaps ++ [row "libc heap backing" (PyInt libc_heap) "CONFIG_COMMON_LIBC_MALLOC_ARENA_SIZE"],
         (known_total + libc_heap)%Z)
      else (stacks, heaps ++ [row "libc heap backing" PyNone "target-resolved linker remainder"], known_total)
  | None => (stacks, heaps ++ [row "libc heap backing" PyNone "target-resolved linker remainder"], known_total)
  end.

(** [isinstance(v, int)]: the object with its value. *)
Definition require_int (v : pyobj) (msg : string) : res Z :=
  match as_int v with Some z => Ok z | None => reject "E_RESOURCE_INPUT" msg end.

(** [isinstance(v, dict)] *)
Definition require_dict (v : pyobj) (msg : string) : res pydict :=
  match v with PyDict d => Ok d | _ => reject "E_RESOURCE_INPUT" msg end.

(** One remote bound. *)
Definition remote_check (c : config) (remote : pydict) (nk : string * string) : res pyobj :=
  let '(name, config_key) := nk in
  let required := get remote name in
  bound ← require_int required ("invalid remote " +:+ name +:+ " bound");
  if (bound =? 0)%Z then
    Ok (PyDict (check_dict ("configured_remote_" +:+ name +:+ "_capacity") "E_RESOURCE_GRAPH_CAPACITY"
          (PyInt 0) (opt_int (integer_config c config_key)) "PASS"
          "deployment does not require inbound graph capacity"))
  else make_check ("configured_remote_" +:+ name +:+ "_capacity") "E_RESOURCE_GRAPH_CAPACITY" required
         (opt_int (integer_config c config_key))
         ("declared remote " +:+ name +:+ " must fit " +:+ config_key).

(** The configured target replaces the one of the command line when it has a budget. *)
Definition select_target (targets : pyobj) (c : config) (target : string) : string :=
  match c !! "CONFIG_BOARD_TARGET", targets with
  | Some t, PyDict d => if negb (bool_decide (t = EmptyString)) && dict_has d t then t else target
  | _, _ => target
  end.

(** [item["status"] == "FAIL"] *)
Definition is_failed (check : pyobj) : res bool :=
  status ← getitem check "status"; Ok (py_eqb status (PyStr "FAIL")).

(** [[item for item in checks if item["status"] == "FAIL"]] *)
Fixpoint failed_checks (checks : list pyobj) : res (list pyobj) :=
  match checks with
  | [] => Ok []
  | x :: l => f ← is_failed x; rest ← failed_checks l; Ok (if f : bool then x :: rest else rest)
  end.

Definition status_of (failed : list pyobj) : pyobj :=
  PyStr (match failed with [] => "PASS" | _ => "FAIL" end).

Definition static_buffers (c : config) : pydict :=
  omap (fun key => (fun z => (key, PyInt z)) <$> integer_config c key) STATIC_BUFFER_KEYS.

Definition is_missing_plan (deployment capability backend : pyobj) : res (pydict * pydict * string) :=
  match deployment, capability, backend with
  | PyDict d, PyDict c, PyStr b => Ok (d, c, b)
  | _, _, _ => reject "E_RESOURCE_INPUT" "deployment plan is missing deployment, capability, or backend"
  end.

Definition ddsrt_choices : list string := ["posix"; "zephyr-native"; "not-applicable"].

(** What the plan says of the reservations. *)
Definition planned_part (endpoint_count capacity : pyobj) (remote : pydict) (stacks : list pyobj) (buffers : pydict)
    (heaps : list pyobj) (configured_workers minimum_workers maximum_workers application_reserve : pyobj) (known_ram : Z) :
    pyobj :=
  PyDict
    [("local_endpoint_resources", PyDict [("required", endpoint_count); ("capacity", capacity)]);
     ("remote_discovery_bounds", PyDict remote);
     ("thread_stacks", PyList stacks);
     ("static_buffers", PyDict buffers);
     ("heap_backing", PyList heaps);
     ("middleware_reservations", PyDict
       [("workers", configured_workers); ("minimum_workers", minimum_workers);
        ("maximum_workers", maximum_workers)]);
     ("application_reservations", PyDict [("static_reserve_bytes", application_reserve)]);
     ("known_ram_slices_bytes", PyInt known_ram)].

Definition build_prelink_plan (deployment_plan : pydict) (c : config) (target ddsrt_sync : string) : res pydict :=
  reject_if (negb (py_eqb (get deployment_plan "schema_version") (PyInt 2)))
    "E_RESOURCE_INPUT" "deployment plan schema_version must be 2" ;;
  '(deployment, capability, backend) ←
    is_missing_plan (get deployment_plan "deployment") (get deployment_plan "capability")
      (get deployment_plan "backend");
  reject_if (bool_decide (backend = "rmw_cyclonedds_c") && negb (bool_decide (ddsrt_sync ∈ ddsrt_choices)))
    "E_RESOURCE_INPUT" ("invalid DDSRT synchronization selection " +:+ ddsrt_sync) ;;
  '(resources, endpoints) ←
    match get deployment "resources", get deployment "endpoints" with
    | PyDict r, PyList e => Ok (r, e)
    | _, _ => reject "E_RESOURCE_INPUT" "deployment plan has no validated resource contract"
    end;
  let targets := get resources "targets" in
  let target := select_target targets c target in
  raw_budget ←
    match targets with
    | PyDict d =>
        match dict_get d target with
        | Some b => Ok b
        | None => reject "E_RESOURCE_TARGET" ("deployment has no resource budget for target " +:+ target)
        end
    | _ => reject "E_RESOURCE_TARGET" ("deployment has no resource budget for target " +:+ target)
    end;
  budget ← require_dict raw_budget ("invalid resource budget for target " +:+ target);
  let endpoint_count := PyInt (Z.of_nat (length endpoints)) in
  let local := get resources "local_endpoints" in
  check1 ← make_check "declared_local_endpoint_capacity" "E_RESOURCE_ENDPOINT_CAPACITY" endpoint_count
             (match as_int local with Some _ => local | None => PyNone end)
             "declared fixed endpoints must fit the deployment capacity";
  check2 ← make_check "configured_local_node_capacity" "E_RESOURCE_GRAPH_CAPACITY" (PyInt 1)
             (opt_int (integer_config c "CONFIG_ROS2_ZEPHYR_GRAPH_MAX_LOCAL_NODES"))
             "one generated node must fit the configured outbound graph capacity";
  check3 ← make_check "configured_local_endpoint_capacity" "E_RESOURCE_GRAPH_CAPACITY" endpoint_count
             (opt_int (integer_config c "CONFIG_ROS2_ZEPHYR_GRAPH_MAX_ENDPOINTS_PER_NODE"))
             "generated endpoints must fit the configured per-node graph capacity";
  remote ← require_dict (get resources "remote") "deployment resource contract has no remote bounds";
  remote_checks ← mapM_res (remote_check c remote) REMOTE_CONFIG_KEYS;
  '(workers, worker_contract) ←
    match get capability "workers", get resources "workers" with
    | PyDict w, PyDict m => Ok (w, m)
    | _, _ => reject "E_RESOURCE_INPUT" "worker capability or resource contract is invalid"
    end;
  let minimum_workers := get workers "minimum" in
  let maximum_workers := get worker_contract "maximum" in
  minimum ← require_int minimum_workers "worker bounds must be integers";
  maximum ← require_int maximum_workers "worker bounds must be integers";
  let configured_workers :=
    if bool_decide (backend = "rmw_cyclonedds_c")
    then opt_int (integer_config c "CONFIG_ROS2_ZEPHYR_CYCLONEDDS_THREAD_COUNT")
    else minimum_workers in
  check4 ← make_check "backend_minimum_workers" "E_RESOURCE_WORKERS" minimum_workers configured_workers
             "configured middleware worker count must meet the backend minimum";
  check5 ← make_check "deployment_maximum_workers" "E_RESOURCE_WORKERS"
             (match configured_workers with PyNone => PyInt (maximum + 1) | _ => configured_workers end)
             maximum_workers
             "configured middleware worker count must not exceed the deployment contract";
  let worker_count := if truthy configured_workers then configured_workers else minimum_workers in
  let '(stacks, heaps, known_ram) :=
    configured_reservations c backend worker_count (from_option id 0%Z (as_int worker_count)) in
  application ← require_dict (get resources "application") "application static reserve is invalid";
  let application_reserve := get application "static_reserve_bytes" in
  reserve ← require_int application_reserve "application static reserve is invalid";
  let known_ram := (known_ram + reserve)%Z in
  let ram_budget := get budget "ram_bytes" in
  let flash_budget := get budget "flash_bytes" in
  require_int ram_budget ("invalid target budget for " +:+ target) ;;
  require_int flash_budget ("invalid target budget for " +:+ target) ;;
  check6 ← make_check "known_prelink_ram_slices" "E_RESOURCE_RAM_BUDGET" (PyInt known_ram) ram_budget
             "known stack, heap, and application reservations must fit the RAM budget";
  let checks := [check1; check2; check3] ++ remote_checks ++ [check4; check5; check6] in
  failed ← failed_checks checks;
  capacity ← getitem (PyDict resources) "local_endpoints";
  Ok [("schema_version", PyInt 1);
      ("status", status_of failed);
      ("target", PyStr target);
      ("backend", PyStr backend);
      ("ddsrt_sync", PyStr ddsrt_sync);
      ("deployment", get deployment "name");
      ("budgets", PyDict [("flash_bytes", flash_budget); ("ram_bytes", ram_budget)]);
      ("planned", planned_part endpoint_count capacity remote stacks (static_buffers c) heaps
        configured_workers minimum_workers maximum_workers application_reserve known_ram);
      ("checks", PyList checks)].

End Plan.
