(* ===== verification/PlanSpec.v ===== *)
(** * The resource plan against the deployment contract

    What the pre-link plan promises: for a deployment plan the compiler has
    written, the tool never raises, and its verdict is [PASS] exactly when the
    configuration can hold the deployment within the target's RAM budget.
    [ResourcePlan] is the interface the post-link verifier relies on. *)

From Stdlib Require Import Ascii String.
From S2P Require Import Prelude PyStr PyFloat PyObj Validate Deployment ValidateSpec Config Plan.

Module PlanSpec.
Import Contract Config Plan.

(** ** The interface of a plan *)

(** A plan document: its verdict, its budgets and the application reserve. *)
Record planned := Planned {
  pl_pass : bool;
  pl_flash : Z;
  pl_ram : Z;
  pl_reserve : Z;
  pl_target : string;
  pl_backend : string
}.

Definition verdict (b : bool) : string := if b then "PASS" else "FAIL".

(** A check of a report: its verdict, and the entries the reports print. *)
Definition check_entries : list string := ["id"; "code"; "required"; "available"; "detail"].

Definition is_check (x : pyobj) (b : bool) : Prop :=
  exists c, x = PyDict c /\ dict_get c "status" = Some (PyStr (verdict b)) /\
    Forall (fun k => is_Some (dict_get c k)) check_entries.

Class ResourcePlan (plan : pydict) (p : planned) : Prop := {
  rpl_status : dict_get plan "status" = Some (PyStr (verdict (pl_pass p)));
  rpl_budgets : exists b, dict_get plan "budgets" = Some (PyDict b) /\
    dict_get b "flash_bytes" = Some (PyInt (pl_flash p)) /\
    dict_get b "ram_bytes" = Some (PyInt (pl_ram p));
  rpl_planned : exists q a, dict_get plan "planned" = Some (PyDict q) /\
    dict_get q "application_reservations" = Some (PyDict a) /\
    dict_get a "static_reserve_bytes" = Some (PyInt (pl_reserve p));
  rpl_target : dict_get plan "target" = Some (PyStr (pl_target p));
  rpl_backend : dict_get plan "backend" = Some (PyStr (pl_backend p));
  rpl_deployment : is_Some (dict_get plan "deployment");
  rpl_checks : exists l, dict_get plan "checks" = Some (PyList l) /\
    exists bs, Forall2 is_check l bs /\ forallb id bs = pl_pass p
}.

(** A row of a stack or heap table: a size, or none when the linker decides. *)
Definition row_like (x : pyobj) : Prop :=
  exists n b s, x = row n b s /\ (b = PyNone \/ exists z, b = PyInt z).

(** The entries of the plan that its Markdown report prints. *)
Record printable_plan (plan : pydict) : Prop := {
  pp_planned : exists q, dict_get plan "planned" = Some (PyDict q) /\
    (exists le, dict_get q "local_endpoint_resources" = Some (PyDict le) /\
       is_Some (dict_get le "required") /\ is_Some (dict_get le "capacity")) /\
    is_Some (dict_get q "remote_discovery_bounds") /\
    (exists mw, dict_get q "middleware_reservations" = Some (PyDict mw) /\
       is_Some (dict_get mw "workers") /\ is_Some (dict_get mw "maximum_workers")) /\
    (exists st, dict_get q "thread_stacks" = Some (PyList st) /\ Forall row_like st) /\
    (exists hp, dict_get q "heap_backing" = Some (PyList hp) /\ Forall row_like hp)
}.

(** ** What a plan has to check *)

(** [fits r a]: a requirement and what a configuration offers, if it says. *)
Definition fits (required : Z) (available : option Z) : bool :=
  match available with Some a => (required <=? a)%Z | None => false end.

Definition bytes_of (c : config) (key : string) : Z := from_option id 0%Z (integer_config c key).

(** The worker stacks are reserved for the configured count, or for the minimum
    when the configuration gives none. *)
Definition configured_workers (c : config) (backend : string) (minimum : Z) : option Z :=
  if bool_decide (backend = "rmw_cyclonedds_c")
  then integer_config c "CONFIG_ROS2_ZEPHYR_CYCLONEDDS_THREAD_COUNT" else Some minimum.

Definition reserved_workers (c : config) (backend : string) (minimum : Z) : Z :=
  match configured_workers c backend minimum with
  | Some w => if (w =? 0)%Z then minimum else w
  | None => minimum
  end.

(** The RAM known before linking. *)
Definition known_ram (c : config) (backend : string) (minimum reserve : Z) : Z :=
  (bytes_of c "CONFIG_MAIN_STACK_SIZE" + bytes_of c "CONFIG_IDLE_STACK_SIZE" +
   bytes_of c "CONFIG_SYSTEM_WORKQUEUE_STACK_SIZE" +
   (if bool_decide (backend = "rmw_cyclonedds_c")
    then reserved_workers c backend minimum *
         bytes_of c "CONFIG_ROS2_ZEPHYR_CYCLONEDDS_THREAD_STACK_SIZE" else 0) +
   bytes_of c "CONFIG_HEAP_MEM_POOL_SIZE" +
   Z.max 0 (bytes_of c "CONFIG_COMMON_LIBC_MALLOC_ARENA_SIZE") + reserve)%Z.

(** The configuration holds the deployment, and its known slices fit the budget. *)
Record admissible (d : deployment) (backend : string) (minimum : Z) (c : config) (b : budget) : Prop := {
  ad_nodes : fits 1 (integer_config c "CONFIG_ROS2_ZEPHYR_GRAPH_MAX_LOCAL_NODES") = true;
  ad_endpoints : fits (Z.of_nat (length (dep_endpoints d)))
    (integer_config c "CONFIG_ROS2_ZEPHYR_GRAPH_MAX_ENDPOINTS_PER_NODE") = true;
  ad_participants : dep_remote_participants d = 0%Z \/
    fits (dep_remote_participants d)
      (integer_config c "CONFIG_ROS2_ZEPHYR_GRAPH_CACHE_MAX_PARTICIPANTS") = true;
  ad_remote_nodes : dep_remote_nodes d = 0%Z \/
    fits (dep_remote_nodes d) (integer_config c "CONFIG_ROS2_ZEPHYR_GRAPH_CACHE_MAX_NODES") = true;
  ad_remote_endpoints : dep_remote_endpoints d = 0%Z \/
    fits (dep_remote_endpoints d) (integer_config c "CONFIG_ROS2_ZEPHYR_GRAPH_CACHE_MAX_ENDPOINTS") = true;
  ad_workers : exists w, configured_workers c backend minimum = Some w /\ (minimum <= w <= dep_workers d)%Z;
  ad_ram : (known_ram c backend minimum (dep_reserve d) <= ram_bytes b)%Z
}.

(** A deployment plan as the compiler writes it. *)
Record compiled (dp : pydict) (d : deployment) (backend : string) (minimum : Z) : Prop := {
  cp_version : dict_get dp "schema_version" = Some (PyInt 2);
  cp_deployment : exists v, dict_get dp "deployment" = Some (PyDict v) /\ Represents v d;
  cp_valid : valid_deployment d;
  cp_backend : dict_get dp "backend" = Some (PyStr backend);
  cp_capability : exists cv w, dict_get dp "capability" = Some (PyDict cv) /\
    dict_get cv "workers" = Some (PyDict w) /\ dict_get w "minimum" = Some (PyInt minimum)
}.

(** The first value of a key. *)
Fixpoint assoc {A} (l : list (string * A)) (k : string) : option A :=
  match l with
  | [] => None
  | (k', v) :: l => if decide (k = k') then Some v else assoc l k
  end.

(** The target whose budget applies. *)
Definition effective_target (d : deployment) (c : config) (target : string) : string :=
  match c !! "CONFIG_BOARD_TARGET" with
  | Some t => if negb (bool_decide (t = EmptyString)) && bool_decide (is_Some (assoc (dep_targets d) t))
              then t else target
  | None => target
  end.

(** * Properties *)

Lemma get_entry d k v : dict_get d k = Some v -> get d k = v.
Proof. unfold get. by intros ->. Qed.

Lemma make_check_fits id code r a detail :
  make_check id code (PyInt r) (opt_int a) detail =
  Ok (PyDict (check_dict id code (PyInt r) (opt_int a) (verdict (fits r a)) detail)).
Proof. destruct a as [a|]; [|done]. unfold make_check. cbn. by destruct (r <=? a)%Z. Qed.

Lemma make_check_int id code r a detail :
  make_check id code (PyInt r) (PyInt a) detail =
  Ok (PyDict (check_dict id code (PyInt r) (PyInt a) (verdict (fits r (Some a))) detail)).
Proof. apply (make_check_fits id code r (Some a)). Qed.

Lemma check_dict_is_check id code r a b detail :
  is_check (PyDict (check_dict id code r a (verdict b) detail)) b.
Proof.
  eexists. split; [reflexivity|]. split; [reflexivity|]. repeat constructor; by eexists.
Qed.

Lemma is_check_failed x b : is_check x b -> is_failed x = Ok (negb b).
Proof.
  intros (c & -> & Hs & _). unfold is_failed. rewrite (proj2 (getitem_dict c _ _) Hs). by destruct b.
Qed.

Lemma failed_checks_spec l bs :
  Forall2 is_check l bs ->
  exists f, failed_checks l = Ok f /\ status_of f = PyStr (verdict (forallb id bs)).
Proof.
  induction 1 as [|x b l bs Hx%is_check_failed Hl (f & Hf & Hs)]; [by exists []|]. cbn [failed_checks].
  rewrite Hx. cbn [mbind res_bind]. rewrite Hf. cbn [mbind res_bind].
  destruct b; cbn [negb]; eexists; (split; [done|]); [exact Hs|done].
Qed.

Lemma assoc_budget t ts k :
  Forall2 represents_budget t ts ->
  match dict_get t k with
  | Some v => exists b m, assoc ts k = Some b /\ v = PyDict m /\
      dict_get m "flash_bytes" = Some (PyInt (flash_bytes b)) /\
      dict_get m "ram_bytes" = Some (PyInt (ram_bytes b))
  | None => assoc ts k = None
  end.
Proof.
  induction 1 as [|[k1 v1] [k2 b2] t ts (Hk & m & Hv & _ & Hf & Hr) Ht IH]; [done|].
  cbn in *. subst. case_decide; [|exact IH]. by exists b2, m.
Qed.

Lemma configured_reservations_total c backend wc w stacks heaps total :
  configured_reservations c backend wc w = (stacks, heaps, total) ->
  total = (bytes_of c "CONFIG_MAIN_STACK_SIZE" + bytes_of c "CONFIG_IDLE_STACK_SIZE" +
    bytes_of c "CONFIG_SYSTEM_WORKQUEUE_STACK_SIZE" +
    (if bool_decide (backend = "rmw_cyclonedds_c")
     then w * bytes_of c "CONFIG_ROS2_ZEPHYR_CYCLONEDDS_THREAD_STACK_SIZE" else 0) +
    bytes_of c "CONFIG_HEAP_MEM_POOL_SIZE" +
    Z.max 0 (bytes_of c "CONFIG_COMMON_LIBC_MALLOC_ARENA_SIZE"))%Z.
Proof.
  unfold configured_reservations, bytes_of, STACK_KEYS, stack_rows. cbn [foldl fst snd].
  destruct (integer_config c "CONFIG_MAIN_STACK_SIZE"), (integer_config c "CONFIG_IDLE_STACK_SIZE"),
    (integer_config c "CONFIG_SYSTEM_WORKQUEUE_STACK_SIZE"); cbn [fst snd from_option];
  destruct (bool_decide (backend = "rmw_cyclonedds_c"));
  destruct (integer_config c "CONFIG_ROS2_ZEPHYR_CYCLONEDDS_THREAD_STACK_SIZE");
  destruct (integer_config c "CONFIG_HEAP_MEM_POOL_SIZE");
  destruct (integer_config c "CONFIG_COMMON_LIBC_MALLOC_ARENA_SIZE") as [arena|];
  try destruct (Z.leb_spec 0 arena); intros [= <- <- <-]; cbn [from_option id]; unfold id; lia.
Qed.

Lemma row_like_int n z s : row_like (row n (PyInt z) s).
Proof. eexists _, _, _. split; [reflexivity|]. right. by eexists. Qed.

Lemma configured_reservations_rows c backend wc w stacks heaps total :
  configured_reservations c backend wc w = (stacks, heaps, total) ->
  Forall row_like stacks /\ Forall row_like heaps.
Proof.
  assert (forall keys acc, Forall row_like acc.1 -> Forall row_like (foldl (stack_rows c) acc keys).1) as Hs.
  { induction keys as [|nk keys IH]; intros acc Ha; [done|]. cbn [foldl]. apply IH. unfold stack_rows.
    destruct (integer_config c nk.2); [|done]. cbn [fst]. apply Forall_app. split; [done|].
    constructor; [apply row_like_int|constructor]. }
  unfold configured_reservations. pose proof (Hs STACK_KEYS ([], 0%Z) ltac:(constructor)) as H.
  destruct (foldl (stack_rows c) ([], 0%Z) STACK_KEYS) as [st t]. cbn [fst] in H.
  assert (row_like (row "libc heap backing" PyNone "target-resolved linker remainder")) as Hn.
  { eexists _, _, _. split; [reflexivity|by left]. }
  intros E. repeat case_match; simplify_eq; rewrite ?Forall_app;
    repeat split; repeat constructor; auto using row_like_int.
Qed.

Lemma select_target_spec t d c target :
  Forall2 represents_budget t (dep_targets d) ->
  select_target (PyDict t) c target = effective_target d c target.
Proof.
  intros H. unfold select_target, effective_target.
  destruct (c !! "CONFIG_BOARD_TARGET") as [k|]; [|done].
  assert (dict_has t k = bool_decide (is_Some (assoc (dep_targets d) k))) as ->; [|done].
  unfold dict_has. pose proof (assoc_budget t (dep_targets d) k H) as Hk.
  destruct (dict_get t k); [|by rewrite Hk]. destruct Hk as (b & m & -> & _). done.
Qed.

Lemma worker_checks c backend minimum maximum :
  let w := configured_workers c backend minimum in
  fits minimum w && fits (match w with None => maximum + 1 | Some x => x end)%Z (Some maximum) = true <->
  exists x, w = Some x /\ (minimum <= x <= maximum)%Z.
Proof.
  intros w. destruct w as [x|]; cbn [fits].
  - rewrite andb_true_iff, !Z.leb_le. split; [intros; exists x; auto with lia|].
    intros (y & [= <-] & ?). lia.
  - split; [done|]. intros (x & [=] & _).
Qed.

Lemma reserved_workers_spec c backend minimum :
  let w := opt_int (configured_workers c backend minimum) in
  from_option id 0%Z (as_int (if truthy w then w else PyInt minimum)) = reserved_workers c backend minimum.
Proof.
  unfold reserved_workers. destruct (configured_workers c backend minimum) as [w|]; [|done]. cbn.
  by destruct (w =? 0)%Z.
Qed.

Lemma configured_reservations_known c backend wc minimum reserve stacks heaps total :
  configured_reservations c backend wc (reserved_workers c backend minimum) = (stacks, heaps, total) ->
  (total + reserve)%Z = known_ram c backend minimum reserve.
Proof.
  intros ->%configured_reservations_total. unfold known_ram. by destruct (bool_decide (backend = _)).
Qed.

(** The worker count the tool computes is the specified one. *)
Lemma configured_workers_obj c backend minimum :
  (if bool_decide (backend = "rmw_cyclonedds_c")
   then opt_int (integer_config c "CONFIG_ROS2_ZEPHYR_CYCLONEDDS_THREAD_COUNT") else PyInt minimum) =
  opt_int (configured_workers c backend minimum).
Proof. unfold configured_workers. by destruct (bool_decide _). Qed.

Lemma required_workers w maximum :
  match opt_int w with PyNone => PyInt (maximum + 1) | _ => opt_int w end =
  PyInt (match w with None => maximum + 1 | Some x => x end)%Z.
Proof. by destruct w. Qed.

(** The verdicts of the checks, in the order of the report. *)
Definition fits_remote (bound : Z) (available : option Z) : bool := (bound =? 0)%Z || fits bound available.

Definition plan_checks (d : deployment) (backend : string) (minimum : Z) (c : config) (b : budget) : list bool :=
  let n := Z.of_nat (length (dep_endpoints d)) in
  let w := configured_workers c backend minimum in
  [fits n (Some (dep_local_endpoints d));
   fits 1 (integer_config c "CONFIG_ROS2_ZEPHYR_GRAPH_MAX_LOCAL_NODES");
   fits n (integer_config c "CONFIG_ROS2_ZEPHYR_GRAPH_MAX_ENDPOINTS_PER_NODE");
   fits_remote (dep_remote_participants d)
     (integer_config c "CONFIG_ROS2_ZEPHYR_GRAPH_CACHE_MAX_PARTICIPANTS");
   fits_remote (dep_remote_nodes d) (integer_config c "CONFIG_ROS2_ZEPHYR_GRAPH_CACHE_MAX_NODES");
   fits_remote (dep_remote_endpoints d) (integer_config c "CONFIG_ROS2_ZEPHYR_GRAPH_CACHE_MAX_ENDPOINTS");
   fits minimum w;
   fits (match w with None => dep_workers d + 1 | Some x => x end)%Z (Some (dep_workers d));
   fits (known_ram c backend minimum (dep_reserve d)) (Some (ram_bytes b))].

Lemma fits_remote_true bound a : fits_remote bound a = true <-> bound = 0%Z \/ fits bound a = true.
Proof. unfold fits_remote. by rewrite orb_true_iff, Z.eqb_eq. Qed.

Lemma plan_checks_admissible d backend minimum c b :
  valid_deployment d ->
  forallb id (plan_checks d backend minimum c b) = true <-> admissible d backend minimum c b.
Proof.
  intros Hd. pose proof (worker_checks c backend minimum (dep_workers d)) as Hw.
  unfold plan_checks. cbn [forallb]. unfold id. cbn zeta in Hw. rewrite andb_true_iff in Hw.
  assert (fits (Z.of_nat (length (dep_endpoints d))) (Some (dep_local_endpoints d)) = true) as ->
    by (apply Z.leb_le, Hd).
  rewrite !andb_true_iff, !fits_remote_true.
  assert (forall x y, fits x (Some y) = true <-> (x <= y)%Z) as Hf by (intros; apply Z.leb_le).
  rewrite (Hf (known_ram _ _ _ _)). split.
  - intros (_ & H1 & H2 & H3 & H4 & H5 & H6 & H7 & H8 & _). split; auto. apply Hw. auto.
  - intros [? ? ? ? ? Hwk ?]. apply Hw in Hwk as [? ?]. auto 12.
Qed.

Lemma remote_check_spec c remote name key r :
  dict_get remote name = Some (PyInt r) ->
  exists x, remote_check c remote (name, key) = Ok x /\
    is_check x (fits_remote r (integer_config c key)).
Proof.
  intros H. unfold remote_check. rewrite (get_entry _ _ _ H). cbn [require_int as_int mbind res_bind].
  unfold fits_remote. destruct (r =? 0)%Z; cbn [orb].
  { eexists. split; [reflexivity|]. apply (check_dict_is_check _ _ _ _ true). }
  rewrite make_check_fits. eexists. split; [reflexivity|]. apply check_dict_is_check.
Qed.

Lemma remote_checks_spec c m p n e :
  dict_get m "participants" = Some (PyInt p) -> dict_get m "nodes" = Some (PyInt n) ->
  dict_get m "endpoints" = Some (PyInt e) ->
  exists xs, mapM_res (remote_check c m) REMOTE_CONFIG_KEYS = Ok xs /\
    Forall2 is_check xs
      [fits_remote p (integer_config c "CONFIG_ROS2_ZEPHYR_GRAPH_CACHE_MAX_PARTICIPANTS");
       fits_remote n (integer_config c "CONFIG_ROS2_ZEPHYR_GRAPH_CACHE_MAX_NODES");
       fits_remote e (integer_config c "CONFIG_ROS2_ZEPHYR_GRAPH_CACHE_MAX_ENDPOINTS")].
Proof.
  intros Hp Hn He.
  destruct (remote_check_spec c m _ "CONFIG_ROS2_ZEPHYR_GRAPH_CACHE_MAX_PARTICIPANTS" _ Hp) as (x1 & E1 & F1).
  destruct (remote_check_spec c m _ "CONFIG_ROS2_ZEPHYR_GRAPH_CACHE_MAX_NODES" _ Hn) as (x2 & E2 & F2).
  destruct (remote_check_spec c m _ "CONFIG_ROS2_ZEPHYR_GRAPH_CACHE_MAX_ENDPOINTS" _ He) as (x3 & E3 & F3).
  exists [x1; x2; x3]. split; [|by repeat constructor].
  cbn [mapM_res REMOTE_CONFIG_KEYS]. by rewrite E1, E2, E3.
Qed.

(** Read the members of dictionaries that are known to have them. *)
Ltac run_entries :=
  cbn [mbind res_bind require_dict require_int as_int];
  repeat (match goal with
    | H : dict_get ?d ?k = Some _ |- context [get ?d ?k] => rewrite (get_entry _ _ _ H)
    end; cbn [mbind res_bind require_dict require_int as_int]).

(** The plan for a compiled deployment whose target has a budget. *)
Lemma plan_spec dp d backend minimum c target sync b :
  compiled dp d backend minimum -> sync ∈ ddsrt_choices ->
  assoc (dep_targets d) (effective_target d c target) = Some b ->
  exists plan p, build_prelink_plan dp c target sync = Ok plan /\ ResourcePlan plan p /\ printable_plan plan /\
    pl_flash p = flash_bytes b /\ pl_ram p = ram_bytes b /\ pl_reserve p = dep_reserve d /\
    pl_target p = effective_target d c target /\ pl_backend p = backend /\
    (pl_pass p = true <-> admissible d backend minimum c b).
Proof.
  intros [Hver (v & Hv & [_ _ Hname _ _ _ _ _ (l & Hl & Hes) (r & Hr & [_ Rl (m & Rm & _ & Mp & Mn & Me)
    (w & Rw & _ & Ww) (a & Ra & _ & Aa) (t & Rt & Ht)])]) Hvalid Hb (cv & cw & Hcv & Hcw & Hmin)] Hsync Hbud.
  pose proof (select_target_spec t d c target Ht) as Hsel.
  pose proof (assoc_budget t (dep_targets d) (effective_target d c target) Ht) as Hbg.
  rewrite Hbud in Hbg.
  destruct (dict_get t (effective_target d c target)) as [vb|] eqn:Hvb; [|discriminate].
  destruct Hbg as (b' & bm & [= <-] & -> & Hflash & Hram).
  assert (length l = length (dep_endpoints d)) as Hlen by (by eapply Forall2_length).
  destruct (remote_checks_spec c m _ _ _ Mp Mn Me) as (xs & Exs & Fxs).
  unfold build_prelink_plan. run_entries. cbn [is_missing_plan mbind res_bind].
  change (reject_if (negb (py_eqb (PyInt 2) (PyInt 2))) ?x ?y) with (Ok tt).
  rewrite (bool_decide_true (sync ∈ ddsrt_choices)) by done. rewrite andb_false_r.
  cbn [mbind res_bind reject_if raise_if]. run_entries. rewrite Hsel, Hvb. run_entries.
  rewrite make_check_int, !make_check_fits. run_entries. rewrite Exs. run_entries.
  rewrite configured_workers_obj, required_workers, make_check_fits. run_entries.
  rewrite make_check_int. run_entries.
  rewrite reserved_workers_spec.
  destruct (configured_reservations c backend _ _) as [[stacks heaps] total] eqn:Ecr.
  pose proof (configured_reservations_rows _ _ _ _ _ _ _ Ecr) as [Hst1 Hst2].
  run_entries. rewrite (configured_reservations_known _ _ _ _ _ _ _ _ Ecr), make_check_int. cbn [mbind res_bind app].
  match goal with |- context [failed_checks ?l] => set (checks := l) end.
  set (bs := plan_checks d backend minimum c b).
  assert (Forall2 is_check checks bs) as Hbs.
  { unfold checks, bs, plan_checks. rewrite Hlen. do 3 (constructor; [apply check_dict_is_check|]).
    apply (Forall2_app (l1' := [_; _; _])); [done|]. by repeat constructor; apply check_dict_is_check. }
  destruct (failed_checks_spec checks bs Hbs) as (f & -> & Hst). cbn [mbind res_bind].
  rewrite (proj2 (getitem_dict r _ _) Rl). cbn [mbind res_bind].
  eexists _, (Planned (forallb id bs) (flash_bytes b) (ram_bytes b) (dep_reserve d)
    (effective_target d c target) backend). split; [reflexivity|].
  split; [|split; [|repeat (split; [reflexivity|])]].
  - split; cbn [pl_pass pl_flash pl_ram pl_reserve pl_target pl_backend].
    + cbn. by rewrite Hst.
    + eexists. repeat split; reflexivity.
    + eexists _, _. repeat split; reflexivity.
    + reflexivity.
    + reflexivity.
    + cbn. by eexists.
    + exists checks. split; [reflexivity|]. by exists bs.
  - split. eexists. split; [reflexivity|].
    split; [eexists; split; [reflexivity|]; split; by eexists|]. split; [by eexists|].
    split; [eexists; split; [reflexivity|]; split; by eexists|].
    split; eexists; (split; [reflexivity|done]).
  - by apply plan_checks_admissible.
Qed.

(** A target without a budget is refused. *)
Lemma plan_no_budget dp d backend minimum c target sync :
  compiled dp d backend minimum -> sync ∈ ddsrt_choices ->
  assoc (dep_targets d) (effective_target d c target) = None ->
  build_prelink_plan dp c target sync =
  reject "E_RESOURCE_TARGET" ("deployment has no resource budget for target " +:+ effective_target d c target).
Proof.
  intros [Hver (v & Hv & Hrep) _ Hb (cv & cw & Hcv & _)] Hsync Hbud.
  destruct (@rp_endpoints _ _ Hrep) as (l & Hl & _).
  destruct (@rp_resources _ _ Hrep) as (r & Hr & Hres).
  destruct (rr_targets _ _ Hres) as (t & Rt & Ht).
  pose proof (select_target_spec t d c target Ht) as Hsel.
  pose proof (assoc_budget t (dep_targets d) (effective_target d c target) Ht) as Hbg.
  unfold build_prelink_plan.
  rewrite (get_entry _ _ _ Hver), (get_entry _ _ _ Hv), (get_entry _ _ _ Hcv), (get_entry _ _ _ Hb).
  cbn [is_missing_plan mbind res_bind].
  change (reject_if (negb (py_eqb (PyInt 2) (PyInt 2))) ?x ?y) with (Ok tt). cbn [mbind res_bind].
  rewrite (bool_decide_true (sync ∈ ddsrt_choices)) by done. rewrite andb_false_r.
  cbn [mbind res_bind reject_if raise_if].
  rewrite (get_entry _ _ _ Hr), (get_entry _ _ _ Hl). cbn [mbind res_bind].
  rewrite (get_entry _ _ _ Rt), Hsel.
  destruct (dict_get t (effective_target d c target)); [|done].
  destruct Hbg as (? & ? & Hs & _). congruence.
Qed.

End PlanSpec.
