(* ===== verification/ElfSpec.v ===== *)
(** * Writing and reading ELF images

    [elf_image] says which bytes are an ELF file with given sections, after the ELF
    specification and independent of the reader: the header names the place, the
    stride and the length of the section table and the section of the names; table,
    names and everything else may be anywhere.  [parse_elf_sections] reads the
    sections of every such file, for both classes and both byte orders.
    [encode_elf] writes one, laid out as linkers do: header, contents, names, and
    the table at the end. *)

From Stdlib Require Import Ascii String.
From S2P Require Import Prelude PyStr PyFloat PyObj Config Elf.

Module ElfSpec.
Import Config Elf.

#[local] Open Scope Z_scope.

(** ** Writing *)

Fixpoint le_bytes (w : nat) (v : Z) : bytes :=
  match w with
  | O => []
  | S w => ascii_of_N (Z.to_N (v mod 256)) :: le_bytes w (v / 256)
  end.

Definition put (little : bool) (w : nat) (v : Z) : bytes :=
  if little then le_bytes w v else rev (le_bytes w v).

Fixpoint put_fields (little : bool) (widths : list nat) (vals : list Z) : bytes :=
  match widths, vals with
  | w :: widths, v :: vals => put little w v ++ put_fields little widths vals
  | _, _ => []
  end.

Definition chars (s : string) : bytes := list_ascii_of_string s.

(** Every value fits its field. *)
Definition fits_fields (widths : list nat) (vals : list Z) : Prop :=
  Forall2 (fun w v => 0 <= v < 256 ^ Z.of_nat w) widths vals.

(** ** Images *)

(** [Elf32_Half], [Elf32_Word], and what the class widens: addresses, offsets and
    [Elf64_Xword]. *)
Definition half : nat := 2.
Definition word4 : nat := 4.
Definition native (is64 : bool) : nat := if is64 then 8 else 4.

(** The fields after the identification, and those of a section header. *)
Definition ehdr (is64 : bool) : list nat :=
  [half; half; word4; native is64; native is64; native is64; word4; half; half; half; half; half; half].
Definition shdr (is64 : bool) : list nat :=
  [word4; word4; native is64; native is64; native is64; native is64; word4; word4; native is64; native is64].

Record section_header := SectionHeader {
  sh_name : Z; sh_offset : Z; sh_link : Z; sh_info : Z; sh_addralign : Z; sh_entsize : Z;
  section : ElfSection
}.

Record layout := Layout {
  e_padding : bytes;
  e_type : Z; e_machine : Z; e_version : Z; e_entry : Z; e_phoff : Z; e_shoff : Z; e_flags : Z; e_ehsize : Z;
  e_phentsize : Z; e_phnum : Z; e_shentsize : Z; e_shstrndx : nat;
  entries : list section_header
}.

Definition ident (is64 little : bool) (padding : bytes) : bytes :=
  magic ++ [if is64 then "002"%char else "001"%char; if little then "001"%char else "002"%char] ++ padding.

Definition header_fields (L : layout) : list Z :=
  [e_type L; e_machine L; e_version L; e_entry L; e_phoff L; e_shoff L; e_flags L; e_ehsize L; e_phentsize L;
   e_phnum L; e_shentsize L; Z.of_nat (length (entries L)); Z.of_nat (e_shstrndx L)].

Definition entry_fields (x : section_header) : list Z :=
  let s := section x in
  [sh_name x; section_type s; flags s; address s; sh_offset x; size s; sh_link x; sh_info x; sh_addralign x; sh_entsize x].

Definition header_bytes (is64 little : bool) (L : layout) : bytes :=
  ident is64 little (e_padding L) ++ put_fields little (ehdr is64) (header_fields L).

Definition entry_bytes (is64 little : bool) (x : section_header) : bytes := put_fields little (shdr is64) (entry_fields x).

(** The bytes at a place of a file. *)
Definition at_offset (data : bytes) (off : Z) (x : bytes) : Prop :=
  exists pre post, data = pre ++ x ++ post /\ zlength pre = off.

Definition name_ok (s : string) : bool := str_all (in_range 1 127) s.

(** The name of a section is in the table of names, with a zero byte after it. *)
Definition named (names : bytes) (x : section_header) : Prop :=
  name_ok (name (section x)) = true /\ at_offset names (sh_name x) (chars (name (section x)) ++ ["000"%char]).

Record elf_image (is64 little : bool) (L : layout) (names data : bytes) : Prop := {
  im_size : zlength data < 2 ^ 63;
  im_padding : length (e_padding L) = 10%nat;
  im_fits : fits_fields (ehdr is64) (header_fields L);
  im_entries : Forall (fun x => fits_fields (shdr is64) (entry_fields x)) (entries L);
  im_header : at_offset data 0 (header_bytes is64 little L);
  im_table : forall i x, entries L !! i = Some x ->
    at_offset data (e_shoff L + Z.of_nat i * e_shentsize L) (entry_bytes is64 little x);
  im_index : exists x, entries L !! e_shstrndx L = Some x /\ size (section x) = zlength names /\
    at_offset data (sh_offset x) names;
  im_names : Forall (named names) (entries L)
}.

(** ** An image *)

(** The string table: every name with its final zero byte. *)
Definition name_bytes (s : ElfSection) : bytes := chars (name s) ++ ["000"%char].
Definition string_table (secs : list ElfSection) : bytes := concat (name_bytes <$> secs).
Definition name_offset (secs : list ElfSection) (i : nat) : Z := zlength (string_table (take i secs)).

Definition header_size (is64 : bool) : Z := 16 + total (ehdr is64).
Definition entry_size (is64 : bool) : Z := total (shdr is64).

(** The names come after the contents, the table after the names. *)
Definition names_offset (is64 : bool) (body : bytes) : Z := header_size is64 + zlength body.
Definition table_offset (is64 : bool) (body : bytes) (secs : list ElfSection) : Z :=
  names_offset is64 body + zlength (string_table secs).

Definition linked_layout (is64 : bool) (body : bytes) (secs : list ElfSection) (names_index : nat) : layout :=
  Layout (replicate 10 "000"%char) 2 243 1 0 0 (table_offset is64 body secs) 0 (header_size is64) 0 0 (entry_size is64)
    names_index (imap (fun i s => SectionHeader (name_offset secs i) (names_offset is64 body) 0 0 0 0 s) secs).

Definition encode_elf (is64 little : bool) (body : bytes) (secs : list ElfSection) (names_index : nat) : bytes :=
  let L := linked_layout is64 body secs names_index in
  header_bytes is64 little L ++ body ++ string_table secs ++ concat (entry_bytes is64 little <$> entries L).

(** What can be written. *)
Definition word (is64 : bool) : Z := if is64 then 2 ^ 64 else 2 ^ 32.

Record encodable (is64 : bool) (body : bytes) (secs : list ElfSection) (names_index : nat) : Prop := {
  en_count : Z.of_nat (length secs) < 2 ^ 16;
  en_index : exists s, secs !! names_index = Some s /\ size s = zlength (string_table secs);
  en_names : Forall (fun s => name_ok (name s) = true) secs;
  en_address : Forall (fun s => 0 <= address s < word is64) secs;
  en_size : Forall (fun s => 0 <= size s < word is64) secs;
  en_type : Forall (fun s => 0 <= section_type s < 2 ^ 32) secs;
  en_flags : Forall (fun s => 0 <= flags s < word is64) secs;
  en_length : table_offset is64 body secs < 2 ^ 32
}.

(** * Properties *)

Lemma byte_of_N n : 0 <= n < 256 -> byte (ascii_of_N (Z.to_N n)) = n.
Proof.
  intros H. unfold byte, code. rewrite N_ascii_embedding by lia. lia.
Qed.

Lemma length_le_bytes w v : length (le_bytes w v) = w.
Proof. revert v. induction w as [|w IH]; intros v; [done|]. cbn. by rewrite IH. Qed.

Lemma length_put little w v : length (put little w v) = w.
Proof. unfold put. destruct little; [|rewrite length_rev]; apply length_le_bytes. Qed.

Lemma be_value_rev l : be_value (rev l) = foldr (fun c acc => acc * 256 + byte c) 0 l.
Proof.
  unfold be_value. induction l as [|c l IH]; [done|]. cbn [rev foldr]. by rewrite foldl_app, IH.
Qed.

Lemma le_bytes_value w v :
  0 <= v < 256 ^ Z.of_nat w -> foldr (fun c acc => acc * 256 + byte c) 0 (le_bytes w v) = v.
Proof.
  revert v. induction w as [|w IH]; intros v Hv; cbn [le_bytes foldr].
  { change (256 ^ Z.of_nat 0) with 1 in Hv. lia. }
  rewrite Nat2Z.inj_succ, Z.pow_succ_r in Hv by lia.
  pose proof (Z.mod_pos_bound v 256 ltac:(lia)) as Hm.
  rewrite byte_of_N by done. rewrite IH.
  - pose proof (Z.div_mod v 256). lia.
  - split; [apply Z.div_pos; lia|]. apply Z.div_lt_upper_bound; lia.
Qed.

Lemma uint_put little w v : 0 <= v < 256 ^ Z.of_nat w -> uint little (put little w v) = v.
Proof.
  intros Hv. unfold uint, put. destruct little; rewrite be_value_rev; by apply le_bytes_value.
Qed.

Lemma fields_put little widths vals rest :
  fits_fields widths vals -> fields little widths (put_fields little widths vals ++ rest) = vals.
Proof.
  intros H. revert rest. induction H as [|w v widths vals Hv H IH]; intros rest; [done|].
  cbn [fields put_fields]. rewrite <- app_assoc.
  rewrite take_app_length', drop_app_length' by (symmetry; apply length_put).
  rewrite uint_put by done. by rewrite IH.
Qed.

Lemma length_put_fields little widths vals :
  length widths = length vals -> length (put_fields little widths vals) = sum_list widths.
Proof.
  revert vals. induction widths as [|w widths IH]; intros [|v vals] H; try done.
  cbn. rewrite length_app, length_put, IH; [done|]. by injection H.
Qed.

Lemma slice_app pre x post : slice (pre ++ x ++ post) (zlength pre) (zlength x) = x.
Proof.
  unfold slice, zlength. rewrite !length_app. destruct (Z.leb_spec (Z.of_nat (length pre + (length x + length post)))
    (Z.of_nat (length pre))) as [H|H].
  - destruct x; [done|]. cbn in H. lia.
  - rewrite Z.min_l by lia. rewrite !Nat2Z.id, drop_app_length, take_app_length. done.
Qed.

(** Reading a record anywhere in a file. *)
Lemma unpack_put little widths vals pre post :
  fits_fields widths vals -> zlength pre < 2 ^ 63 ->
  unpack_from little widths (pre ++ put_fields little widths vals ++ post) (zlength pre) = Ok vals.
Proof.
  intros Hf Hp. unfold unpack_from.
  assert (length (put_fields little widths vals) = sum_list widths) as Hlen.
  { apply length_put_fields. by eapply Forall2_length. }
  destruct (Z.leb_spec (2 ^ 63) (zlength pre)); [lia|].
  assert (total widths = zlength (put_fields little widths vals)) as -> by (unfold total, zlength; lia).
  destruct (Z.ltb_spec (zlength (pre ++ put_fields little widths vals ++ post))
    (zlength pre + zlength (put_fields little widths vals))) as [H1|_].
  - unfold zlength in H1. rewrite !length_app in H1. lia.
  - rewrite slice_app. f_equal. rewrite <- (app_nil_r (put_fields _ _ _)). by apply fields_put.
Qed.

(** ** Names *)

Lemma until_nul_name s rest :
  name_ok s = true -> until_nul (chars s ++ "000"%char :: rest) = chars s.
Proof.
  unfold name_ok. induction s as [|c s IH]; [done|]. cbn [str_all]. rewrite andb_true_iff. intros [Hc Hs].
  cbn [chars list_ascii_of_string app until_nul].
  assert (is_char "000" c = false) as ->. { apply negb_true_iff. revert c Hc. ascii_class. }
  f_equal. by apply IH.
Qed.

Lemma decode_ascii s : name_ok s = true -> decode_replace (chars s) = s.
Proof.
  unfold name_ok. induction s as [|c s IH]; [done|]. cbn [str_all]. rewrite andb_true_iff. intros [Hc Hs].
  cbn [chars list_ascii_of_string decode_replace].
  assert (in_range 0 127 c = true) as ->. { revert c Hc. ascii_class. }
  f_equal. by apply IH.
Qed.

Lemma string_table_split secs i s :
  secs !! i = Some s ->
  string_table secs = string_table (take i secs) ++ name_bytes s ++ string_table (drop (S i) secs).
Proof.
  intros H. rewrite <- (take_drop_middle secs i s H) at 1. unfold string_table.
  by rewrite fmap_app, concat_app, fmap_cons.
Qed.

Lemma slice_rest pre x : x <> [] -> slice (pre ++ x) (zlength pre) (zlength (pre ++ x)) = x.
Proof.
  intros Hx. unfold slice, zlength. rewrite !length_app.
  assert (0 < length x)%nat by (destruct x; [done|cbn; lia]).
  destruct (Z.leb_spec (Z.of_nat (length pre + length x)) (Z.of_nat (length pre))); [lia|].
  rewrite Z.min_r by lia.
  rewrite Nat2Z.id, drop_app_length.
  rewrite take_ge; [done|]. lia.
Qed.

Lemma section_name_at names x :
  named names x -> section_name names (sh_name x) = name (section x).
Proof.
  intros [Hn (pre & post & -> & <-)]. unfold section_name. rewrite slice_rest.
  - rewrite <- app_assoc. cbn [app]. rewrite until_nul_name by done. by apply decode_ascii.
  - by destruct (chars (name (section x))).
Qed.

(** ** Reading an image *)

Section image.
Context (is64 little : bool) (L : layout) (names data : bytes) (Him : elf_image is64 little L names data).

Lemma header_format : HEADER_FORMAT is64 = 16%nat :: ehdr is64.
Proof. by destruct is64. Qed.

Lemma section_format : SECTION_FORMAT is64 = shdr is64.
Proof. by destruct is64. Qed.

Lemma length_ident : length (ident is64 little (e_padding L)) = 16%nat.
Proof using Him. unfold ident. by rewrite !length_app, (im_padding _ _ _ _ _ Him). Qed.

(** The image begins with its header. *)
Lemma image_begins : exists post, data = header_bytes is64 little L ++ post.
Proof using Him.
  destruct (im_header _ _ _ _ _ Him) as ([|c pre] & post & -> & Hp); [by exists post|]. unfold zlength in Hp. cbn in Hp. lia.
Qed.

Lemma length_header : length (header_bytes is64 little L) = sum_list (HEADER_FORMAT is64).
Proof using Him.
  unfold header_bytes. by rewrite length_app, length_ident, length_put_fields, header_format.
Qed.

Lemma unpack_header :
  unpack_from little (HEADER_FORMAT is64) data 0 = Ok (uint little (ident is64 little (e_padding L)) :: header_fields L).
Proof using Him.
  destruct image_begins as [post Hd]. pose proof length_header as Hlen. rewrite Hd. set (h := header_bytes is64 little L) in *.
  unfold unpack_from. change (2 ^ 63 <=? 0) with false. cbn iota.
  assert (total (HEADER_FORMAT is64) = zlength h) as -> by (unfold total, zlength; lia).
  destruct (Z.ltb_spec (zlength (h ++ post)) (0 + zlength h)) as [Hl|_].
  { unfold zlength in Hl. rewrite length_app in Hl. lia. }
  pose proof (slice_app [] h post) as Hs. cbn [app] in Hs. change (zlength []) with 0 in Hs. rewrite Hs. f_equal.
  rewrite header_format. cbn [fields]. unfold h, header_bytes.
  rewrite take_app_length', drop_app_length' by (symmetry; apply length_ident).
  f_equal. rewrite <- (app_nil_r (put_fields _ _ _)). apply fields_put, (im_fits _ _ _ _ _ Him).
Qed.

Lemma unpack_entry i x :
  entries L !! i = Some x ->
  unpack_from little (SECTION_FORMAT is64) data (e_shoff L + Z.of_nat i * e_shentsize L) = Ok (entry_fields x).
Proof using Him.
  intros Hi. pose proof (im_entries _ _ _ _ _ Him) as Hf. rewrite Forall_lookup in Hf. specialize (Hf i x Hi).
  destruct (im_table _ _ _ _ _ Him i x Hi) as (pre & post & Hd & <-). rewrite section_format, Hd.
  apply unpack_put; [done|]. pose proof (im_size _ _ _ _ _ Him) as Hz. rewrite Hd in Hz.
  unfold zlength in *. rewrite length_app in Hz. lia.
Qed.

(** The sections are read. *)
Lemma parse_image path : parse_elf_sections path (Ok data) = Ok (section <$> entries L).
Proof using Him.
  destruct (im_index _ _ _ _ _ Him) as (x & Hx & Hsize & (pre & post & Hd & Hoff)).
  pose proof (lookup_lt_Some _ _ _ Hx) as Hk. destruct image_begins as [rest Hrest].
  unfold parse_elf_sections. cbn [or_unreadable mbind res_bind].
  assert (take 4 data = magic) as -> by (rewrite Hrest; by destruct is64, little).
  rewrite bool_decide_true by done. cbn [negb reject_if raise_if mbind res_bind].
  assert (data !! 4%nat = Some (if is64 then "002"%char else "001"%char)) as -> by (rewrite Hrest; by destruct is64, little).
  assert (data !! 5%nat = Some (if little then "001"%char else "002"%char)) as -> by (rewrite Hrest; by destruct is64, little).
  assert (byte (if little then "001"%char else "002"%char) = if little then 1 else 2) as -> by (by destruct little).
  assert (byte (if is64 then "002"%char else "001"%char) = if is64 then 2 else 1) as -> by (by destruct is64).
  assert (((if little then 1 else 2) =? 1) = little) as Hl by (by destruct little).
  assert (((if is64 then 2 else 1) =? 2) = is64) as H6 by (by destruct is64).
  rewrite Hl, H6.
  assert (reject_if (negb (little || ((if little then 1 else 2) =? 2)) ||
    negb (((if is64 then 2 else 1) =? 1) || is64)) "E_RESOURCE_ARTIFACT"
    (path +:+ " has an unsupported ELF format") = Ok tt) as -> by (by destruct is64, little).
  cbn [mbind res_bind]. rewrite unpack_header. cbn [mbind res_bind]. unfold header_fields. cbn [field nth].
  destruct (Z.eqb_spec (Z.of_nat (length (entries L))) 0); [lia|].
  destruct (Z.leb_spec (Z.of_nat (length (entries L))) (Z.of_nat (e_shstrndx L))); [lia|].
  cbn [orb reject_if raise_if mbind res_bind]. rewrite !Nat2Z.id.
  assert (mapM_res (fun index => unpack_from little (SECTION_FORMAT is64) data
    (e_shoff L + Z.of_nat index * e_shentsize L)) (seq 0 (length (entries L))) = Ok (entry_fields <$> entries L)) as ->.
  { apply mapM_res_Ok, Forall2_same_length_lookup_2; [by rewrite length_seq, length_fmap|].
    intros i j item [-> _]%lookup_seq Hitem. rewrite list_lookup_fmap in Hitem.
    apply fmap_Some in Hitem as (y & Hy & ->). by apply unpack_entry. }
  cbn [mbind res_bind]. f_equal.
  assert (nth (e_shstrndx L) (entry_fields <$> entries L) [] = entry_fields x) as ->.
  { apply nth_lookup_Some. by rewrite list_lookup_fmap, Hx. }
  unfold entry_fields at 1 2. cbn [field nth]. rewrite Hsize, <- Hoff, Hd, slice_app.
  rewrite <- list_fmap_compose. apply list_fmap_ext. intros i y Hy. unfold compose, section_of, entry_fields. cbn [field nth].
  pose proof (im_names _ _ _ _ _ Him) as Hn. rewrite Forall_lookup in Hn.
  rewrite (section_name_at names y) by (by eapply Hn). by destruct (section y).
Qed.

End image.

(** What does not begin like an ELF file is refused. *)
Lemma parse_refuses path data :
  take 4 data <> magic ->
  parse_elf_sections path (Ok data) = Raise (ResourceError "E_RESOURCE_ARTIFACT" (path +:+ " is not an ELF file")).
Proof. intros Hm. unfold parse_elf_sections. cbn [or_unreadable mbind res_bind]. by rewrite bool_decide_false. Qed.

(** ** The written image *)

Ltac split_fields := repeat match goal with |- Forall2 _ _ _ => constructor end.
Ltac show_widths :=
  change (256 ^ Z.of_nat half) with (2 ^ 16); change (256 ^ Z.of_nat word4) with (2 ^ 32);
  change (256 ^ Z.of_nat (native true)) with (2 ^ 64); change (256 ^ Z.of_nat (native false)) with (2 ^ 32).

Lemma concat_blocks {A} (l : list (list A)) (n i : nat) x :
  Forall (fun b => length b = n) l -> l !! i = Some x ->
  concat l = concat (take i l) ++ x ++ concat (drop (S i) l) /\ length (concat (take i l)) = (i * n)%nat.
Proof.
  intros Hl Hi. split.
  - rewrite <- (take_drop_middle l i x Hi) at 1. by rewrite concat_app.
  - revert l Hl Hi. induction i as [|i IH]; intros [|b l] Hl Hi; try done.
    inversion Hl; subst. cbn. rewrite length_app. erewrite IH by eauto. done.
Qed.

Section written.
Context (is64 little : bool) (body : bytes) (secs : list ElfSection) (k : nat) (Hen : encodable is64 body secs k).
Local Abbreviation L := (linked_layout is64 body secs k).
Local Abbreviation image := (encode_elf is64 little body secs k).

Lemma header_length : zlength (header_bytes is64 little L) = header_size is64.
Proof.
  unfold zlength, header_bytes. rewrite length_app, length_put_fields by done.
  by destruct is64, little.
Qed.

Lemma sizes_bound : 0 <= header_size is64 < 100 /\ 0 <= entry_size is64 < 100.
Proof. by destruct is64. Qed.

Lemma entry_lookup i x :
  entries L !! i = Some x ->
  exists s, secs !! i = Some s /\ x = SectionHeader (name_offset secs i) (names_offset is64 body) 0 0 0 0 s.
Proof. cbn [entries linked_layout]. rewrite list_lookup_imap. intros (s & Hs & ->)%fmap_Some. by exists s. Qed.

Lemma name_offset_bound i s : secs !! i = Some s -> 0 <= name_offset secs i <= zlength (string_table secs).
Proof. intros Hi. unfold name_offset, zlength. rewrite (string_table_split secs i s Hi), length_app. lia. Qed.

Lemma offsets_bound :
  0 <= names_offset is64 body /\ names_offset is64 body <= table_offset is64 body secs /\ table_offset is64 body secs < 2 ^ 32.
Proof using Hen.
  pose proof (en_length _ _ _ _ Hen). pose proof sizes_bound. unfold table_offset, names_offset, zlength in *. lia.
Qed.

Lemma entry_fits i x : entries L !! i = Some x -> fits_fields (shdr is64) (entry_fields x).
Proof using Hen.
  intros (s & Hi & ->)%entry_lookup. pose proof (name_offset_bound i s Hi). pose proof offsets_bound.
  destruct Hen as [_ _ _ Ha Hs Ht Hf _]. rewrite Forall_lookup in Ha, Hs, Ht, Hf.
  pose proof (Ha i s Hi). pose proof (Hs i s Hi). pose proof (Ht i s Hi). pose proof (Hf i s Hi).
  assert (2 ^ 32 <= word is64) by (unfold word; destruct is64; lia).
  unfold fits_fields, entry_fields, table_offset in *. unfold word in *.
  destruct is64; cbn [shdr section sh_name sh_offset sh_link sh_info sh_addralign sh_entsize]; split_fields;
    show_widths; unfold zlength in *; lia.
Qed.

Lemma layout_fits : fits_fields (ehdr is64) (header_fields L).
Proof using Hen.
  pose proof offsets_bound. pose proof sizes_bound. pose proof (en_count _ _ _ _ Hen). destruct (en_index _ _ _ _ Hen) as (s & Hs & _).
  apply lookup_lt_Some in Hs. unfold fits_fields, header_fields. cbn [linked_layout entries e_type e_machine e_version e_entry e_phoff e_shoff
    e_flags e_ehsize e_phentsize e_phnum e_shentsize e_shstrndx]. rewrite length_imap.
  destruct is64; cbn [ehdr]; split_fields; show_widths; lia.
Qed.

Lemma table_at i x :
  entries L !! i = Some x -> at_offset image (table_offset is64 body secs + Z.of_nat i * entry_size is64) (entry_bytes is64 little x).
Proof.
  intros Hi. set (blocks := entry_bytes is64 little <$> entries L).
  assert (blocks !! i = Some (entry_bytes is64 little x)) as Hb by (unfold blocks; by rewrite list_lookup_fmap, Hi).
  assert (Forall (fun b => length b = sum_list (shdr is64)) blocks) as Hl.
  { apply Forall_fmap, Forall_forall. intros y _. by apply length_put_fields. }
  destruct (concat_blocks blocks _ i _ Hl Hb) as [Hc Hlen].
  exists (header_bytes is64 little L ++ body ++ string_table secs ++ concat (take i blocks)), (concat (drop (S i) blocks)). split.
  - unfold encode_elf. cbn zeta. fold blocks. rewrite Hc. by rewrite <- !app_assoc.
  - unfold table_offset, names_offset. rewrite <- header_length. unfold entry_size, total, zlength.
    rewrite !length_app, Hlen. lia.
Qed.

Lemma names_at : at_offset image (names_offset is64 body) (string_table secs).
Proof.
  exists (header_bytes is64 little L ++ body), (concat (entry_bytes is64 little <$> entries L)). split.
  - unfold encode_elf. by rewrite <- !app_assoc.
  - unfold names_offset. rewrite <- header_length. unfold zlength. rewrite length_app. lia.
Qed.

Lemma image_length : zlength image < 2 ^ 63.
Proof using Hen.
  pose proof offsets_bound as Hb. pose proof (en_count _ _ _ _ Hen) as Hn.
  assert (length (concat (entry_bytes is64 little <$> entries L)) = (length secs * sum_list (shdr is64))%nat) as Hlen.
  { cbn [entries linked_layout]. set (f := fun i s => _). rewrite <- (length_imap f secs).
    generalize (imap f secs). intros l. induction l as [|x l IH]; [done|].
    change (concat (entry_bytes is64 little <$> x :: l)) with (entry_bytes is64 little x ++ concat (entry_bytes is64 little <$> l)).
    rewrite length_app, IH. unfold entry_bytes. by rewrite length_put_fields. }
  unfold encode_elf. cbn zeta. unfold zlength. rewrite !length_app, Hlen. unfold table_offset, names_offset, zlength in Hb.
  pose proof header_length as Hh. unfold zlength in Hh.
  assert (sum_list (shdr is64) <= 64)%nat by (destruct is64; vm_compute; lia). nia.
Qed.

Lemma encode_image : elf_image is64 little L (string_table secs) image.
Proof using Hen.
  split.
  - apply image_length.
  - apply length_replicate.
  - apply layout_fits.
  - apply Forall_lookup. apply entry_fits.
  - exists [], (body ++ string_table secs ++ concat (entry_bytes is64 little <$> entries L)). by split.
  - intros i x. apply table_at.
  - destruct (en_index _ _ _ _ Hen) as (s & Hs & Hz).
    exists (SectionHeader (name_offset secs k) (names_offset is64 body) 0 0 0 0 s). split; [|split; [done|apply names_at]].
    cbn [entries linked_layout e_shstrndx]. by rewrite list_lookup_imap, Hs.
  - apply Forall_lookup. intros i x (s & Hs & ->)%entry_lookup. pose proof (en_names _ _ _ _ Hen) as Hn.
    rewrite Forall_lookup in Hn. split; [by eapply Hn|]. cbn [section sh_name].
    exists (string_table (take i secs)), (string_table (drop (S i) secs)). split; [by apply string_table_split|done].
Qed.

(** The image is read back. *)
Lemma parse_encode path : parse_elf_sections path (Ok image) = Ok secs.
Proof using Hen.
  rewrite (parse_image _ _ _ _ _ encode_image). f_equal. cbn [entries linked_layout].
  apply list_eq. intros i. rewrite list_lookup_fmap, list_lookup_imap. by destruct (secs !! i).
Qed.

End written.

End ElfSpec.
