(* ===== verification/MapFile.v ===== *)
(** * Linker maps and runtime logs

    The text parsers of [tools/verify_resources.py]: the memory configuration
    and the stack symbols of a GNU ld map, and the resource markers of a runtime
    log. *)

From Stdlib Require Import Ascii String.
From S2P Require Import Prelude PyStr Regex PyFloat PyObj Config Plan Elf.

Module MapFile.
Import Config Plan Elf.

(** [int(text, 16)] *)
Definition int16 (s : string) : res Z :=
  match py_int 16 s with Some z => Ok z | None => Raise (ValueError "invalid literal for int()") end.

(** ** Memory regions *)

Record region := Region { origin : Z; length_ : Z }.

(** Regions by name, in the order of the map. *)
Abbreviation regions := (list (string * region)).

(** [^([^\s*][^\s]* )\s+0x([0-9a-fA-F]+)\s+0x([0-9a-fA-F]+)(?:\s+\S+)?$], without the blank *)
Definition REGION_LINE : re :=
  RBol false ⋅
  RGroup 1 (RChr (fun c => negb (is_space c) && negb (is_char "*" c)) ⋅ rS⊛) ⋅ rs⊕ ⋅
  rlit "0x" ⋅ RGroup 2 rhex⊕ ⋅ rs⊕ ⋅ rlit "0x" ⋅ RGroup 3 rhex⊕ ⋅ (rs⊕ ⋅ rS⊕)⊘ ⋅ REol false.

Definition region_line (acc : regions) (line : string) : res regions :=
  match re_match REGION_LINE (str_strip is_space line) with
  | None => Ok acc
  | Some m =>
      o ← int16 (group_or_empty 2 m);
      l ← int16 (group_or_empty 3 m);
      Ok (dict_set acc (group_or_empty 1 m) (Region o l))
  end.

(** [text.split(sep, 1)[0]] *)
Definition before (sep text : string) : string :=
  match str_cut sep text with Some (a, _) => a | None => text end.

Definition parse_memory_regions (map_text : string) : res regions :=
  if str_contains "Memory Configuration" map_text && str_contains "Linker script and memory map" map_text then
    match str_cut "Memory Configuration" map_text with
    | Some (_, rest) =>
        foldM region_line (str_splitlines (before "Linker script and memory map" rest)) []
    | None => Ok []
    end
  else Ok [].

Fixpoint region_get (rs : regions) (k : string) : option region :=
  match rs with
  | [] => None
  | (k', r) :: rs => if decide (k = k') then Some r else region_get rs k
  end.

(** [max(l, default=d)] *)
Definition max_default (d : Z) (l : list Z) : Z :=
  match l with [] => d | x :: l => foldl Z.max x l end.

Definition section_end (s : ElfSection) : Z := (address s + size s)%Z.

Definition region_usage (sections : list ElfSection) (r : region) : Z :=
  let stop := (origin r + length_ r)%Z in
  let ends := section_end <$>
    List.filter (fun s => alloc s && (origin r <=? address s)%Z && (address s <? stop)%Z &&
                          (section_end s <=? stop)%Z) sections in
  (max_default (origin r) ends - origin r)%Z.

(** ** Linked stacks *)

(** [^\s(\.noinit\S* )\s+0x([0-9a-fA-F]+)\s+0x([0-9a-fA-F]+)\s+(.+)$], without the blank *)
Definition one_line : re :=
  RBol false ⋅ rs ⋅ RGroup 1 (rlit ".noinit" ⋅ rS⊛) ⋅ rs⊕ ⋅ rlit "0x" ⋅ RGroup 2 rhex⊕ ⋅ rs⊕ ⋅
  rlit "0x" ⋅ RGroup 3 rhex⊕ ⋅ rs⊕ ⋅ RGroup 4 rdot⊕ ⋅ REol false.

(** [^\s(\.noinit\S* )\s*$], without the blank *)
Definition name_line : re := RBol false ⋅ rs ⋅ RGroup 1 (rlit ".noinit" ⋅ rS⊛) ⋅ rs⊛ ⋅ REol false.

(** [^\s+0x([0-9a-fA-F]+)\s+0x([0-9a-fA-F]+)\s+(.+)$] *)
Definition detail_line : re :=
  RBol false ⋅ rs⊕ ⋅ rlit "0x" ⋅ RGroup 1 rhex⊕ ⋅ rs⊕ ⋅ rlit "0x" ⋅ RGroup 2 rhex⊕ ⋅ rs⊕ ⋅
  RGroup 3 rdot⊕ ⋅ REol false.

(** [^\s+0x[0-9a-fA-F]+\s+([A-Za-z_][A-Za-z0-9_]*stack(?:s)?)\s*$] *)
Definition stack_symbol : re :=
  RBol false ⋅ rs⊕ ⋅ rlit "0x" ⋅ rhex⊕ ⋅ rs⊕ ⋅
  RGroup 1 (RChr (fun c => is_alpha c || is_char "_" c) ⋅
            (RChr (fun c => is_alpha c || is_digit c || is_char "_" c))⊛ ⋅ rlit "stack" ⋅ (rlit "s")⊘) ⋅
  rs⊛ ⋅ REol false.

(** The section being read: its size, where it comes from and the stack
    symbols seen in it. *)
Record current_section := Current { cur_bytes : Z; cur_source : string; cur_names : list string }.

Record stacks_state := Stacks {
  pending : string;
  current : option current_section;
  rows : list pyobj
}.

(** [sorted(names)]: duplicates stay. *)
Definition sorted_names (l : list string) : list string := merge_sort String.le l.

Definition finish_current (st : stacks_state) : stacks_state :=
  Stacks (pending st) None
    (match current st with
     | Some c =>
         match cur_names c with
         | [] => rows st
         | names => rows st ++ [row (str_join ", " (sorted_names names)) (PyInt (cur_bytes c)) (cur_source c)]
         end
     | None => rows st
     end).

Definition open_section (st : stacks_state) (size source : string) : res stacks_state :=
  bytes ← int16 size;
  Ok (Stacks EmptyString (Some (Current bytes source [])) (rows (finish_current st))).

(** One line of the map. *)
Definition stacks_line (st : stacks_state) (line : string) : res stacks_state :=
  match re_match one_line line with
  | Some m => open_section st (group_or_empty 3 m) (group_or_empty 4 m)
  | None =>
  match re_match name_line line with
  | Some m =>
      let st := finish_current st in
      Ok (Stacks (group_or_empty 1 m) (current st) (rows st))
  | None =>
  match (if bool_decide (pending st = EmptyString) then None else re_match detail_line line) with
  | Some m => open_section st (group_or_empty 2 m) (group_or_empty 3 m)
  | None =>
  match current st with
  | Some c =>
      match re_match stack_symbol line with
      | Some m =>
          Ok (Stacks (pending st)
                (Some (Current (cur_bytes c) (cur_source c) (cur_names c ++ [group_or_empty 1 m]))) (rows st))
      | None => Ok (finish_current st)
      end
  | None => Ok st
  end
  end
  end
  end.

Definition parse_linked_stacks (map_text : string) : res (list pyobj) :=
  st ← foldM stacks_line (str_splitlines map_text) (Stacks EmptyString None []);
  Ok (rows (finish_current st)).

(** ** Runtime logs *)

(** [([A-Za-z_][A-Za-z0-9_]* )=([^\s]+)], without the blank *)
Definition FIELD : re :=
  RGroup 1 (RChr (fun c => is_alpha c || is_char "_" c) ⋅
            (RChr (fun c => is_alpha c || is_digit c || is_char "_" c))⊛) ⋅
  rlit "=" ⋅ RGroup 2 rS⊕.

Definition field_value (text : string) : pyobj :=
  match py_int 0 text with Some z => PyInt z | None => PyStr text end.

Definition log_fields (line : string) : pydict :=
  foldl (fun d m => dict_set d (group_or_empty 1 m) (field_value (group_or_empty 2 m))) []
    (re_findall FIELD line).

Fixpoint log_records (lines : list string) : res (list pyobj) :=
  match lines with
  | [] => Ok []
  | line :: lines =>
      if negb (str_contains "_METRICS" line) && negb (str_contains "_RESOURCES" line) then log_records lines
      else match str_words line with
           | [] => Raise IndexError
           | marker :: _ =>
               rest ← log_records lines;
               Ok (PyDict [("marker", PyStr marker); ("values", PyDict (log_fields line))] :: rest)
           end
  end.

(** [log] is the path of the log, if one is given, with what reading it gives. *)
Definition parse_runtime_log (log : option (string * res string)) : res pydict :=
  match log with
  | None => Ok [("status", PyStr "not_provided")]
  | Some (path, content) =>
      text ← or_unreadable "E_RESOURCE_INPUT" ("runtime log " +:+ path) content;
      records ← log_records (str_splitlines text);
      Ok [("status", PyStr (match records with [] => "no_resource_markers" | _ => "measured" end));
          ("source", PyStr path);
          ("records", PyList records)]
  end.

End MapFile.
