(* ===== verification/MapSpec.v ===== *)
(** * What the map parsers read

    Every number the patterns capture is a hexadecimal literal, so the parsers
    never raise; a memory configuration written in the format of GNU ld is read
    back; and the usage of a region is the smallest extent that holds the
    allocated sections placed in it. *)

From Stdlib Require Import Ascii String.
From S2P Require Import Prelude PyStr Regex RegexScan Fields PyFloat PyObj Config Plan Elf MapFile.

Module MapSpec.
Import Config Elf MapFile.

(** ** Hexadecimal literals *)

Definition hex_word (s : string) : bool := class_word is_hexdigit is_hexdigit s.

Lemma hex_digit_value c : is_hexdigit c = true ->
  is_char "_" c = false /\ exists d, digit_value c = Some d /\ (0 <= d < 16)%Z.
Proof.
  intros H. split.
  - apply negb_true_iff. revert c H. ascii_class.
  - assert (match digit_value c with Some d => (0 <=? d)%Z && (d <? 16)%Z | None => false end = true) as Hd.
    { revert c H. ascii_class. }
    destruct (digit_value c) as [d|]; [|done]. exists d. split; [done|]. lia.
Qed.

Lemma digits_val_hex s acc us :
  str_all is_hexdigit s = true -> (0 <= acc)%Z -> (s = EmptyString -> us = false) ->
  exists z, digits_val 16 acc us s = Some z /\ (0 <= z)%Z.
Proof.
  revert acc us. induction s as [|c s IH]; intros acc us Hs Ha Hus; cbn [digits_val].
  { rewrite Hus by done. by exists acc. }
  cbn [str_all] in Hs. apply andb_true_iff in Hs as [Hc Hs].
  destruct (hex_digit_value c Hc) as (-> & d & -> & Hd).
  rewrite (proj2 (Z.ltb_lt d 16)) by lia. apply IH; [done|lia|done].
Qed.

(** A hexadecimal literal carries no prefix of base 16. *)
Lemma base_prefix_hex s b r :
  str_all is_hexdigit s = true -> base_prefix s = Some (b, r) -> b <> 16%Z.
Proof.
  intros Hs Hp ->. destruct s as [|c [|x s]]; try (by cbn in Hp; repeat case_match).
  cbn [str_all] in Hs. rewrite !andb_true_iff in Hs. destruct Hs as (_ & Hx & _).
  assert (is_char "x" x || is_char "X" x = false) as Hn.
  { apply negb_true_iff. clear - Hx. revert x Hx. ascii_class. }
  unfold base_prefix in Hp. rewrite Hn in Hp. repeat case_match; simplify_eq.
Qed.

Lemma int_unsigned_hex s :
  str_all is_hexdigit s = true -> int_unsigned 16 s = int_digits 16 s.
Proof.
  intros Hs. unfold int_unsigned. cbn [Z.eqb].
  destruct (base_prefix s) as [[b r]|] eqn:Hp; [|done].
  pose proof (base_prefix_hex s b r Hs Hp). by destruct (Z.eqb_spec b 16).
Qed.

Lemma py_int_hex s : hex_word s = true -> py_int 16 s = int_digits 16 s.
Proof.
  intros H. assert (str_all is_hexdigit s = true) as Hs by (by destruct s).
  unfold py_int. rewrite (str_strip_all _ is_hexdigit s).
  - assert (split_sign s = (false, s)) as ->.
    { destruct s as [|c s]; [done|]. cbn [str_all] in Hs. apply andb_true_iff in Hs as [Hc _].
      assert (is_char "-" c || is_char "+" c = false) as Hn.
      { apply negb_true_iff. clear - Hc. revert c Hc. ascii_class. }
      revert Hn. clear. by destruct c as [[] [] [] [] [] [] [] []]. }
    rewrite int_unsigned_hex by done. by destruct (int_digits 16 s).
  - intros c Hc. apply negb_true_iff. revert c Hc. ascii_class.
  - done.
Qed.

Lemma int16_hex s : hex_word s = true -> exists z, int16 s = Ok z /\ (0 <= z)%Z.
Proof.
  intros H. unfold int16. rewrite py_int_hex by done.
  destruct (digits_val_hex s 0 true) as (z & Hz & Hp); [by destruct s|lia|by destruct s|].
  unfold int_digits. rewrite Hz. by exists z.
Qed.

Lemma show_hex_word n : (0 <= n)%Z -> hex_word (show_nonneg 16 n) = true.
Proof.
  intros Hn. assert (str_all is_hexdigit (show_nonneg 16 n) = true) as H.
  { apply show_digits_all; [lia..| |done]. intros d Hd.
    by apply (Z_range_forallb (fun d => is_hexdigit (digit_char d)) 16 eq_refl d). }
  destruct (show_nonneg 16 n) as [|c s] eqn:E; [|exact H].
  exfalso. pose proof (int_digits_show 16 n ltac:(lia) Hn) as Hi. by rewrite E in Hi.
Qed.

Lemma int16_show n : (0 <= n)%Z -> int16 (show_nonneg 16 n) = Ok n.
Proof.
  intros Hn. unfold int16. rewrite py_int_hex by (by apply show_hex_word).
  by rewrite int_digits_show by lia.
Qed.

(** ** Tokens *)

(** [t] does not start in the class. *)
Definition starts_out (p : ascii -> bool) (t : string) : Prop :=
  match t with EmptyString => True | String c _ => p c = false end.

Lemma span_unique p a b c d :
  str_all p a = true -> str_all p c = true -> starts_out p b -> starts_out p d ->
  a +:+ b = c +:+ d -> a = c /\ b = d.
Proof.
  revert c. induction a as [|x a IH]; intros [|y c] Ha Hc Hb Hd H.
  - done.
  - change (EmptyString +:+ b) with b in H. subst b. rewrite str_app_cons in Hb. cbn in Hb, Hc.
    by rewrite Hb in Hc.
  - change (EmptyString +:+ d) with d in H. subst d. rewrite str_app_cons in Hd. cbn in Hd, Ha.
    by rewrite Hd in Ha.
  - rewrite !str_app_cons in H. injection H as -> H. cbn in Ha, Hc.
    apply andb_true_iff in Ha as [_ Ha], Hc as [_ Hc].
    destruct (IH c Ha Hc Hb Hd H) as [-> ->]. done.
Qed.

Lemma class_word_all q t : class_word q q t = true <-> t <> EmptyString /\ str_all q t = true.
Proof. destruct t as [|c t]; cbn; [naive_solver|]. naive_solver. Qed.

(** [\s+] followed by text that is not blank. *)
Lemma rmatch_blanks prev s caps p' :
  rmatch rs⊕ (mkpos prev s caps) p' <->
  exists t u, s = t +:+ u /\ class_word is_space is_space t = true /\ p' = mkpos (str_last prev t) u caps.
Proof. exact (simple_class_word is_space is_space prev s caps p'). Qed.

(** ** Memory regions *)

Definition name_start (c : ascii) : bool := negb (is_space c) && negb (is_char "*" c).
Definition not_space (c : ascii) : bool := negb (is_space c).

(** The parts of a region line. *)
Record region_parts (s name o l : string) : Prop := {
  rp_name : class_word name_start not_space name = true;
  rp_origin : hex_word o = true;
  rp_length : hex_word l = true;
  rp_text : exists w1 w2 tl, s = name +:+ w1 +:+ "0x" +:+ o +:+ w2 +:+ "0x" +:+ l +:+ tl /\
    class_word is_space is_space w1 = true /\ class_word is_space is_space w2 = true /\
    starts_out is_hexdigit tl
}.

Lemma space_not_hex c : is_space c = true -> is_hexdigit c = false.
Proof. intros H. apply negb_true_iff. revert c H. ascii_class. Qed.

Lemma blank_starts_out (p : ascii -> bool) w u :
  (forall c, is_space c = true -> p c = false) ->
  class_word is_space is_space w = true -> starts_out p (w +:+ u).
Proof.
  intros Hp H. destruct w as [|c w]; [done|]. cbn in H. apply andb_true_iff in H as [H _].
  rewrite str_app_cons. by apply Hp.
Qed.

Lemma eol_starts_out p : at_eol false p = true -> starts_out is_hexdigit (r_rest p).
Proof.
  unfold at_eol, starts_out. destruct (r_rest p) as [|c s]; [done|].
  rewrite andb_true_iff. intros [<-%is_char_true _]. done.
Qed.

Lemma region_match s m :
  re_match REGION_LINE s = Some m ->
  exists name o l, region_parts s name o l /\
    group 1 m = Some name /\ group 2 m = Some o /\ group 3 m = Some l.
Proof.
  intros H%re_match_Some. unfold rstart, REGION_LINE in H.
  apply rmatch_cat in H as (p1 & [_ ->]%rmatch_bol & H).
  apply rmatch_cat in H as (p2 & (name & u & -> & Hname & ->)%rmatch_group_class_word & H).
  apply rmatch_cat in H as (p3 & (w1 & u1 & -> & Hw1 & ->)%rmatch_blanks & H).
  apply rmatch_cat in H as (p4 & (u2 & -> & ->)%rmatch_lit & H).
  apply rmatch_cat in H as (p5 & (o & u3 & -> & Ho & ->)%rmatch_group_class_word & H).
  apply rmatch_cat in H as (p6 & (w2 & u4 & -> & Hw2 & ->)%rmatch_blanks & H).
  apply rmatch_cat in H as (p7 & (u5 & -> & ->)%rmatch_lit & H).
  apply rmatch_cat in H as (p8 & (l & tl & -> & Hl & ->)%rmatch_group_class_word & H).
  exists name, o, l. split; [|apply rmatch_cat in H as (p9 & H & [_ ->]%rmatch_eol)].
  - split; [done..|]. exists w1, w2, tl. split; [done|]. split; [done|]. split; [done|].
    apply rmatch_cat in H as (p9 & [H|H]%rmatch_alt & [Heol ->]%rmatch_eol).
    + apply rmatch_cat in H as (p10 & (w3 & u6 & -> & Hw3 & ->)%rmatch_blanks & _).
      by apply blank_starts_out; [apply space_not_hex|].
    + apply rmatch_eps in H as ->. by apply eol_starts_out in Heol.
  - apply rmatch_alt in H as [H|H].
    + apply rmatch_cat in H as (p10 & (w3 & u6 & -> & Hw3 & ->)%rmatch_blanks & H).
      apply (simple_class_word not_space not_space) in H as (t & u & -> & _ & ->). done.
    + apply rmatch_eps in H as ->. done.
Qed.

(** No map text makes the region parser raise. *)
Lemma region_line_total acc line : exists rs, region_line acc line = Ok rs.
Proof.
  unfold region_line. destruct (re_match REGION_LINE _) as [m|] eqn:Hm; [|by eexists].
  apply region_match in Hm as (name & o & l & [_ Ho Hl _] & G1 & G2 & G3).
  unfold group_or_empty. rewrite G2, G3. cbn [default].
  destruct (int16_hex o Ho) as (z & Hz & _), (int16_hex l Hl) as (y & Hy & _).
  cbn [from_option id]. unfold id. rewrite Hz, Hy. by eexists.
Qed.

Lemma foldM_total {A S} (f : S -> A -> res S) l s :
  (forall s x, exists s', f s x = Ok s') -> exists s', foldM f l s = Ok s'.
Proof.
  intros H. revert s. induction l as [|x l IH]; intros s; [by eexists|]. cbn.
  destruct (H s x) as [s' ->]. apply IH.
Qed.

Lemma parse_memory_regions_total text : exists rs, parse_memory_regions text = Ok rs.
Proof.
  unfold parse_memory_regions. repeat case_match; try by eexists. apply foldM_total, region_line_total.
Qed.

(** *** Reading back *)

(** Two decompositions of a line agree. *)
Lemma region_parts_unique s n1 o1 l1 n2 o2 l2 :
  region_parts s n1 o1 l1 -> region_parts s n2 o2 l2 -> n1 = n2 /\ o1 = o2 /\ l1 = l2.
Proof.
  assert (forall n, class_word name_start not_space n = true -> str_all not_space n = true) as Hn.
  { intros [|c n]; [done|]. cbn. unfold name_start, not_space at 2.
    rewrite !andb_true_iff. naive_solver. }
  assert (forall c, is_space c = true -> not_space c = false) as Hns.
  { intros c Hc. unfold not_space. by rewrite Hc. }
  assert (forall u, starts_out is_space ("0x" +:+ u)) as H0 by done.
  intros [N1 O1 L1 (w1 & w2 & t1 & -> & W1 & W2 & T1)] [N2 O2 L2 (v1 & v2 & t2 & H & V1 & V2 & T2)].
  pose proof (proj2 (proj1 (class_word_all _ _) W1)) as W1'. pose proof (proj2 (proj1 (class_word_all _ _) W2)) as W2'.
  pose proof (proj2 (proj1 (class_word_all _ _) V1)) as V1'. pose proof (proj2 (proj1 (class_word_all _ _) V2)) as V2'.
  pose proof (proj2 (proj1 (class_word_all _ _) O1)) as O1'. pose proof (proj2 (proj1 (class_word_all _ _) O2)) as O2'.
  pose proof (proj2 (proj1 (class_word_all _ _) L1)) as L1'. pose proof (proj2 (proj1 (class_word_all _ _) L2)) as L2'.
  apply (span_unique not_space) in H as [-> H]; auto using blank_starts_out.
  apply (span_unique is_space) in H as [-> H]; auto.
  apply str_app_inv_l in H.
  apply (span_unique is_hexdigit) in H as [-> H]; auto using blank_starts_out, space_not_hex.
  apply (span_unique is_space) in H as [-> H]; auto.
  apply str_app_inv_l in H.
  apply (span_unique is_hexdigit) in H as [-> H]; auto.
Qed.

(** A line of the memory configuration, with the blanks and the zero padding the
    linker chose. *)
Record entry := Entry {
  e_name : string;
  e_pad1 : string;
  e_origin : string;
  e_pad2 : string;
  e_length : string;
  e_attrs : string
}.

Definition entry_text (e : entry) : string :=
  e_name e +:+ e_pad1 e +:+ "0x" +:+ e_origin e +:+ e_pad2 e +:+ "0x" +:+ e_length e +:+
  (if bool_decide (e_attrs e = EmptyString) then EmptyString else " " +:+ e_attrs e).

Definition entry_ok (e : entry) : bool :=
  class_word name_start not_space (e_name e) && class_word is_space is_space (e_pad1 e) &&
  hex_word (e_origin e) && class_word is_space is_space (e_pad2 e) && hex_word (e_length e) &&
  str_all not_space (e_attrs e).

Definition hex_value (s : string) : Z := default 0%Z (int_digits 16 s).
Definition entry_region (e : entry) : region := Region (hex_value (e_origin e)) (hex_value (e_length e)).

Lemma int16_value s : hex_word s = true -> int16 s = Ok (hex_value s).
Proof.
  intros H. destruct (int16_hex s H) as (z & Hz & _). rewrite Hz. unfold int16 in Hz.
  rewrite py_int_hex in Hz by done. unfold hex_value. destruct (int_digits 16 s); [|done].
  by injection Hz as ->.
Qed.

Lemma rstrip_app p a b : str_rstrip p b <> EmptyString -> str_rstrip p (a +:+ b) = a +:+ str_rstrip p b.
Proof.
  intros Hb. induction a as [|c a IH]; [done|]. rewrite !str_app_cons. cbn [str_rstrip]. rewrite IH.
  destruct (a +:+ str_rstrip p b) eqn:E; [|done]. apply str_app_eq_nil in E as [_ E]. done.
Qed.

Lemma strip_words p a b c t :
  a = String c t -> p c = false -> b <> EmptyString -> str_all (fun x => negb (p x)) b = true ->
  str_strip p (a +:+ b) = a +:+ b.
Proof.
  intros -> Hc Hb Hall. unfold str_strip. rewrite str_app_cons.
  rewrite (str_lstrip_id p _ c (t +:+ b)) by done. rewrite <- str_app_cons.
  assert (str_rstrip p b = b) as Hr.
  { apply (str_rstrip_all p (fun x => negb (p x))); [|done]. intros x. by rewrite negb_true_iff. }
  rewrite rstrip_app; rewrite Hr; done.
Qed.

Lemma hex_not_space c : is_hexdigit c = true -> negb (is_space c) = true.
Proof. revert c. ascii_class. Qed.

(** The last token of a line. *)
Lemma entry_strip e : entry_ok e = true -> str_strip is_space (entry_text e) = entry_text e.
Proof.
  unfold entry_ok. rewrite !andb_true_iff. intros [[[[[Hn _] _] _] Hl] Ha].
  destruct (e_name e) as [|c t] eqn:En; [done|]. cbn in Hn. apply andb_true_iff in Hn as [Hc _].
  assert (is_space c = false) as Hsp.
  { unfold name_start in Hc. apply andb_true_iff in Hc as [Hc _]. by apply negb_true_iff in Hc. }
  unfold entry_text. rewrite En. case_bool_decide as Hat.
  - rewrite str_app_nil_r. rewrite <- !str_app_assoc. apply (strip_words _ _ _ c
      (t +:+ e_pad1 e +:+ "0x" +:+ e_origin e +:+ e_pad2 e +:+ "0x")); [|done|..].
    + by rewrite !str_app_assoc, str_app_cons.
    + by destruct (e_length e).
    + apply class_word_all in Hl as [_ Hl]. eapply str_all_impl, Hl. apply hex_not_space.
  - rewrite <- !str_app_assoc. apply (strip_words _ _ _ c
      (t +:+ e_pad1 e +:+ "0x" +:+ e_origin e +:+ e_pad2 e +:+ "0x" +:+ e_length e +:+ " ")); [|done..].
    by rewrite !str_app_assoc, str_app_cons.
Qed.

Lemma entry_parts e : entry_ok e = true -> region_parts (entry_text e) (e_name e) (e_origin e) (e_length e).
Proof.
  unfold entry_ok. rewrite !andb_true_iff. intros [[[[[Hn H1] Ho] H2] Hl] Ha]. split; [done..|].
  eexists (e_pad1 e), (e_pad2 e), _. split; [reflexivity|]. split; [done|]. split; [done|].
  case_bool_decide; done.
Qed.

Lemma entry_matches e : entry_ok e = true -> is_Some (re_match REGION_LINE (entry_text e)).
Proof.
  unfold entry_ok. rewrite !andb_true_iff. intros [[[[[Hn H1] Ho] H2] Hl] Ha].
  destruct (re_match REGION_LINE (entry_text e)) as [m|] eqn:E; [by eexists|]. exfalso.
  revert E. rewrite re_match_None. intros E. unfold rstart, REGION_LINE, entry_text in E.
  set (tl := if bool_decide (e_attrs e = EmptyString) then EmptyString else " " +:+ e_attrs e) in E.
  assert (exists prev, forall caps pr, rmatch (RCat (RAlt (rs⊕ ⋅ rS⊕) REps) (REol false)) (mkpos pr tl caps)
    (mkpos (prev pr) EmptyString caps)) as [prev Htl].
  { exists (fun pr => str_last pr tl). intros caps pr. rewrite rmatch_cat.
    exists (mkpos (str_last pr tl) EmptyString caps).
    split; [|apply rmatch_eol; split; reflexivity]. rewrite rmatch_alt. subst tl. case_bool_decide as Hat.
    - right. by apply rmatch_eps.
    - left. rewrite rmatch_cat. eexists.
      split; [apply rmatch_blanks; eexists " ", _; repeat split; reflexivity|].
      apply (simple_class_word not_space not_space). eexists _, EmptyString.
      rewrite str_app_nil_r. repeat split. by apply class_word_all. }
  eapply E.
  rewrite rmatch_cat. eexists. split; [apply rmatch_bol; split; reflexivity|].
  rewrite rmatch_cat. eexists. split; [apply rmatch_group_class_word; eexists _, _; repeat split; eauto|].
  rewrite rmatch_cat. eexists. split; [apply rmatch_blanks; eexists _, _; repeat split; eauto|].
  rewrite rmatch_cat. eexists. split; [apply rmatch_lit; eexists; split; reflexivity|].
  rewrite rmatch_cat. eexists. split; [apply rmatch_group_class_word; eexists _, _; repeat split; eauto|].
  rewrite rmatch_cat. eexists. split; [apply rmatch_blanks; eexists _, _; repeat split; eauto|].
  rewrite rmatch_cat. eexists. split; [apply rmatch_lit; eexists; split; reflexivity|].
  rewrite rmatch_cat. eexists. split; [apply rmatch_group_class_word; eexists _, _; repeat split; eauto|].
  apply Htl.
Qed.

Lemma region_line_entry acc e :
  entry_ok e = true -> region_line acc (entry_text e) = Ok (dict_set acc (e_name e) (entry_region e)).
Proof.
  intros He. unfold region_line. rewrite entry_strip by done.
  destruct (entry_matches e He) as [m Hm]. rewrite Hm.
  apply region_match in Hm as (name & o & l & Hp & G1 & G2 & G3).
  destruct (region_parts_unique _ _ _ _ _ _ _ Hp (entry_parts e He)) as (-> & -> & ->).
  unfold group_or_empty. rewrite G1, G2, G3. cbn [default from_option]. unfold id.
  destruct (entry_parts e He) as [_ Ho Hl _]. by rewrite !int16_value.
Qed.

(** The lines of a memory configuration: entries, and lines that are none. *)
Inductive map_line :=
  | Listed (e : entry)
  | Other (text : string).

Definition map_line_text (l : map_line) : string := match l with Listed e => entry_text e | Other t => t end.

Definition map_line_ok (l : map_line) : bool :=
  match l with
  | Listed e => entry_ok e
  | Other t => bool_decide (re_match REGION_LINE (str_strip is_space t) = None)
  end.

Definition listed (l : map_line) : option entry := match l with Listed e => Some e | Other _ => None end.

Definition entries_regions (es : list entry) (acc : regions) : regions :=
  foldl (fun a e => dict_set a (e_name e) (entry_region e)) acc es.

(** Lines that are not entries are skipped. *)
Lemma region_lines_entries ls acc :
  Forall (fun l => map_line_ok l = true) ls ->
  foldM region_line (map_line_text <$> ls) acc = Ok (entries_regions (omap listed ls) acc).
Proof.
  intros H. revert acc. induction H as [|l ls Hl _ IH]; intros acc; [done|].
  rewrite fmap_cons. cbn [foldM]. destruct l as [e|t]; cbn in Hl; cbn [map_line_text].
  - rewrite region_line_entry by done. cbn [mbind res_bind]. apply IH.
  - apply bool_decide_eq_true in Hl.
    assert (region_line acc t = Ok acc) as -> by (unfold region_line; by rewrite Hl).
    cbn [mbind res_bind]. apply IH.
Qed.

Lemma parse_regions_entries text pre rest block post ls :
  str_cut "Memory Configuration" text = Some (pre, rest) ->
  str_cut "Linker script and memory map" rest = Some (block, post) ->
  str_splitlines block = map_line_text <$> ls -> Forall (fun l => map_line_ok l = true) ls ->
  parse_memory_regions text = Ok (entries_regions (omap listed ls) []).
Proof.
  intros H1 H2 Hl Hok. unfold parse_memory_regions.
  assert (str_contains "Memory Configuration" text = true) as ->.
  { apply str_contains_spec. apply str_cut_Some in H1 as ->. by eexists _, _. }
  assert (str_contains "Linker script and memory map" text = true) as ->.
  { apply str_contains_spec. apply str_cut_Some in H1 as ->, H2 as ->.
    exists (pre +:+ "Memory Configuration" +:+ block), post. by rewrite !str_app_assoc. }
  cbn [andb]. rewrite H1. unfold before. rewrite H2, Hl. by apply region_lines_entries.
Qed.

(** ** Region usage *)

(** The sections that count: allocated and wholly inside the region. *)
Definition placed (r : region) (s : ElfSection) : Prop :=
  alloc s = true /\ (origin r <= address s < origin r + length_ r)%Z /\
  (section_end s <= origin r + length_ r)%Z.

Lemma max_default_spec d l :
  (forall x, x ∈ l -> (x <= max_default d l)%Z) /\ (max_default d l = d \/ max_default d l ∈ l).
Proof.
  assert (forall l x, (x <= foldl Z.max x l)%Z /\ (forall y, y ∈ l -> (y <= foldl Z.max x l)%Z) /\
    (foldl Z.max x l = x \/ foldl Z.max x l ∈ l)) as H.
  { clear. induction l as [|y l IH]; intros x; cbn [foldl].
    - split; [lia|]. split; [intros y Hy%elem_of_nil; done|by left].
    - destruct (IH (Z.max x y)) as (H1 & H2 & H3). split; [lia|]. split.
      + intros z [->|Hz]%elem_of_cons; [lia|auto].
      + destruct H3 as [->|H3]; [|right; by apply elem_of_cons; right].
        destruct (Z.max_spec x y) as [[_ ->]|[_ ->]]; [right; apply elem_of_cons; by left|by left]. }
  destruct l as [|x l]; cbn [max_default].
  - split; [intros y Hy%elem_of_nil; done|by left].
  - destruct (H l x) as (H1 & H2 & H3). split.
    + intros y [->|Hy]%elem_of_cons; auto.
    + right. destruct H3 as [->|H3]; apply elem_of_cons; auto.
Qed.

Lemma region_ends_elem sections r x :
  x ∈ (section_end <$> List.filter (fun s => alloc s && (origin r <=? address s)%Z &&
         (address s <? origin r + length_ r)%Z && (section_end s <=? origin r + length_ r)%Z) sections) <->
  exists s, s ∈ sections /\ placed r s /\ x = section_end s.
Proof.
  rewrite list_elem_of_fmap. setoid_rewrite list_elem_of_In. setoid_rewrite filter_In.
  unfold placed. split.
  - intros (s & -> & Hin & H). rewrite !andb_true_iff, !Z.leb_le, Z.ltb_lt in H. exists s. intuition.
  - intros (s & Hin & H & ->). exists s. rewrite !andb_true_iff, !Z.leb_le, Z.ltb_lt. intuition.
Qed.

(** The usage holds every placed section, stays within the region, and is
    reached by one of the sections unless the region is empty. *)
Lemma region_usage_spec sections r :
  (forall s, s ∈ sections -> (0 <= size s)%Z) -> (0 <= length_ r)%Z ->
  (0 <= region_usage sections r <= length_ r)%Z /\
  (forall s, s ∈ sections -> placed r s -> (section_end s <= origin r + region_usage sections r)%Z) /\
  (region_usage sections r = 0%Z \/
   exists s, s ∈ sections /\ placed r s /\ section_end s = (origin r + region_usage sections r)%Z).
Proof.
  intros Hsz Hlen. unfold region_usage.
  match goal with |- context [max_default ?o ?l] =>
    destruct (max_default_spec o l) as [Hub Hin]; set (m := max_default o l) in * end.
  assert (forall s, s ∈ sections -> placed r s -> (section_end s <= m)%Z) as Hall.
  { intros s Hs Hp. apply Hub, region_ends_elem. by exists s. }
  assert (m = origin r \/ exists s, s ∈ sections /\ placed r s /\ section_end s = m) as Hm.
  { destruct Hin as [->|Hin]; [by left|right]. apply region_ends_elem in Hin as (s & ? & ? & ?). by exists s. }
  split; [|split].
  - destruct Hm as [->|(s & Hs & (_ & Ha & He) & <-)]; [lia|]. pose proof (Hsz s Hs).
    unfold section_end in *. lia.
  - intros s Hs Hp. pose proof (Hall s Hs Hp). lia.
  - destruct Hm as [->|(s & Hs & Hp & Heq)]; [left; lia|]. right. exists s. split; [done|]. split; [done|]. lia.
Qed.

(** ** Linked stacks *)

#[export] Instance simple_noinit : Simple (rlit ".noinit" ⋅ rS⊛)
  (fun t => exists t1 t2, t = t1 +:+ t2 /\ t1 = ".noinit" /\ str_all not_space t2 = true).
Proof. apply simple_cat; [apply simple_lit|apply simple_star_chr]. Qed.

#[export] Instance simple_dots : Simple rdot⊕
  (fun t => class_word (fun c => negb (is_char nl c)) (fun c => negb (is_char nl c)) t = true).
Proof. apply simple_class_word. Qed.

Lemma one_line_size line m :
  re_match one_line line = Some m -> exists size, group 3 m = Some size /\ hex_word size = true.
Proof.
  intros H%re_match_Some. unfold rstart, one_line in H.
  apply rmatch_cat in H as (p1 & [_ ->]%rmatch_bol & H).
  apply rmatch_cat in H as (p2 & (c & u & -> & _ & ->)%rmatch_chr & H).
  apply rmatch_cat in H as (p3 & (n & u1 & -> & _ & ->)%(@rmatch_group_simple 1 _ _ simple_noinit) & H).
  apply rmatch_cat in H as (p4 & (w & u2 & -> & _ & ->)%rmatch_blanks & H).
  apply rmatch_cat in H as (p5 & (u3 & -> & ->)%rmatch_lit & H).
  apply rmatch_cat in H as (p6 & (a & u4 & -> & _ & ->)%rmatch_group_class_word & H).
  apply rmatch_cat in H as (p7 & (w2 & u5 & -> & _ & ->)%rmatch_blanks & H).
  apply rmatch_cat in H as (p8 & (u6 & -> & ->)%rmatch_lit & H).
  apply rmatch_cat in H as (p9 & (size & u7 & -> & Hs & ->)%rmatch_group_class_word & H).
  apply rmatch_cat in H as (p10 & (w3 & u8 & -> & _ & ->)%rmatch_blanks & H).
  apply rmatch_cat in H as (p11 & (src & u9 & -> & _ & ->)%(@rmatch_group_simple 4 _ _ simple_dots) & H).
  apply rmatch_eol in H as [_ ->]. by exists size.
Qed.

Lemma detail_line_size line m :
  re_match detail_line line = Some m -> exists size, group 2 m = Some size /\ hex_word size = true.
Proof.
  intros H%re_match_Some. unfold rstart, detail_line in H.
  apply rmatch_cat in H as (p1 & [_ ->]%rmatch_bol & H).
  apply rmatch_cat in H as (p4 & (w & u2 & -> & _ & ->)%rmatch_blanks & H).
  apply rmatch_cat in H as (p5 & (u3 & -> & ->)%rmatch_lit & H).
  apply rmatch_cat in H as (p6 & (a & u4 & -> & _ & ->)%rmatch_group_class_word & H).
  apply rmatch_cat in H as (p7 & (w2 & u5 & -> & _ & ->)%rmatch_blanks & H).
  apply rmatch_cat in H as (p8 & (u6 & -> & ->)%rmatch_lit & H).
  apply rmatch_cat in H as (p9 & (size & u7 & -> & Hs & ->)%rmatch_group_class_word & H).
  apply rmatch_cat in H as (p10 & (w3 & u8 & -> & _ & ->)%rmatch_blanks & H).
  apply rmatch_cat in H as (p11 & (src & u9 & -> & _ & ->)%(@rmatch_group_simple 3 _ _ simple_dots) & H).
  apply rmatch_eol in H as [_ ->]. by exists size.
Qed.

(** Every row counts the bytes of its section. *)
Definition row_ok (x : pyobj) : Prop :=
  exists n z s, x = Plan.row n (PyInt z) s /\ (0 <= z)%Z.

Definition stacks_ok (st : stacks_state) : Prop :=
  Forall row_ok (rows st) /\
  match current st with Some c => (0 <= cur_bytes c)%Z | None => True end.

Lemma finish_current_ok st : stacks_ok st -> stacks_ok (finish_current st).
Proof.
  intros [Hr Hc]. split; [|done]. cbn [finish_current rows].
  destruct (current st) as [c|]; [|done]. destruct (cur_names c) as [|n l]; [done|].
  apply Forall_app. split; [done|]. constructor; [|constructor]. by eexists _, _, _.
Qed.

Lemma open_section_ok st size source :
  hex_word size = true -> stacks_ok st ->
  exists st', open_section st size source = Ok st' /\ stacks_ok st'.
Proof.
  intros Hs Hst. unfold open_section. destruct (int16_hex size Hs) as (z & -> & Hz).
  eexists. split; [reflexivity|]. destruct (finish_current_ok st Hst) as [Hr _]. split; [exact Hr|exact Hz].
Qed.

Lemma stacks_line_ok st line :
  stacks_ok st -> exists st', stacks_line st line = Ok st' /\ stacks_ok st'.
Proof.
  intros Hst. unfold stacks_line.
  destruct (re_match one_line line) as [m|] eqn:H1.
  { apply one_line_size in H1 as (size & Hg & Hh). unfold group_or_empty at 1. rewrite Hg.
    by apply open_section_ok. }
  destruct (re_match name_line line) as [m|].
  { eexists. split; [reflexivity|]. by destruct (finish_current_ok st Hst). }
  destruct (if bool_decide _ then None else re_match detail_line line) as [m|] eqn:H3.
  { case_bool_decide; [done|]. apply detail_line_size in H3 as (size & Hg & Hh).
    unfold group_or_empty at 1. rewrite Hg. by apply open_section_ok. }
  destruct (current st) as [c|] eqn:Hc; [|by eexists].
  destruct (re_match stack_symbol line) as [m|]; eexists; (split; [reflexivity|]).
  - destruct Hst as [Hr Hc']. rewrite Hc in Hc'. by split.
  - by apply finish_current_ok.
Qed.

Lemma parse_linked_stacks_ok text :
  exists rs, parse_linked_stacks text = Ok rs /\ Forall row_ok rs.
Proof.
  unfold parse_linked_stacks.
  assert (forall lines st, stacks_ok st -> exists st', foldM stacks_line lines st = Ok st' /\ stacks_ok st') as H.
  { induction lines as [|l lines IH]; intros st Hst; [by exists st|]. cbn [foldM].
    destruct (stacks_line_ok st l Hst) as (st' & -> & Hst'). by apply IH. }
  destruct (H (str_splitlines text) (Stacks EmptyString None [])) as (st & -> & Hst); [by split|].
  eexists. split; [reflexivity|]. by apply finish_current_ok.
Qed.

End MapSpec.

(** * What the log reader reads

    The lines of a runtime log that carry a resource marker are read back: the
    marker, and the fields with their values, integers as integers. *)

Module LogSpec.
Import RegexScan Fields Config MapFile.

Definition solid (c : ascii) : bool := negb (is_space c).

(** A line of a log: a marker with its words, or a line that says nothing of
    resources. *)
Inductive log_line :=
  | Marked (marker : string) (words : list word)
  | Plain (text : string).

Definition log_line_text (l : log_line) : string :=
  match l with Marked m ws => m +:+ words_text ws | Plain t => t end.

Definition tells_resources (t : string) : bool := str_contains "_METRICS" t || str_contains "_RESOURCES" t.

Definition log_line_ok (l : log_line) : bool :=
  match l with
  | Marked m ws =>
      word_of solid solid m && no_equals m && forallb (word_ok solid) ws && tells_resources (m +:+ words_text ws)
  | Plain t => negb (tells_resources t)
  end.

(** What is made of a line. *)
Definition log_values (ws : list word) : pydict :=
  foldl (fun d kv => dict_set d kv.1 (field_value kv.2)) [] (omap word_field ws).

Definition log_record (l : log_line) : option pyobj :=
  match l with
  | Marked m ws => Some (PyDict [("marker", PyStr m); ("values", PyDict (log_values ws))])
  | Plain _ => None
  end.

Lemma words_first m cur s : str_all solid m = true -> cur +:+ m <> EmptyString -> boundary s ->
  exists rest, str_words_go cur (m +:+ s) = (cur +:+ m) :: rest.
Proof.
  revert cur. induction m as [|c m IH]; intros cur Hm Hne Hs.
  - rewrite str_app_nil_r in *. change (EmptyString +:+ s) with s. destruct s as [|c s]; cbn [str_words_go].
    + rewrite decide_False by done. by eexists.
    + cbn in Hs. subst c. cbn [is_space]. change (is_space " "%char) with true. cbn. rewrite decide_False by done. by eexists.
  - cbn [str_all] in Hm. apply andb_prop in Hm as [Hc Hm]. unfold solid in Hc. apply negb_true_iff in Hc.
    rewrite str_app_cons. cbn [str_words_go]. rewrite Hc.
    destruct (IH (cur +:+ String c EmptyString) Hm) as [rest E]; [|done|].
    + rewrite str_app_assoc. done.
    + exists rest. rewrite E, str_app_assoc. done.
Qed.

Lemma log_fields_line m ws : no_equals m = true -> Forall (fun w => word_ok solid w = true) ws ->
  log_fields (m +:+ words_text ws) = log_values ws.
Proof.
  intros Hm Hws. unfold log_fields, log_values. rewrite <- (fields_line solid m ws) by done. unfold fields.
  change FIELD with (FIELD_OF solid). generalize (@nil (string * pyobj)).
  induction (re_findall (FIELD_OF solid) (m +:+ words_text ws)) as [|x l IH]; intros d; [done|]. cbn. apply IH.
Qed.

Lemma log_records_read ls : Forall (fun l => log_line_ok l = true) ls ->
  log_records (log_line_text <$> ls) = Ok (omap log_record ls).
Proof.
  induction 1 as [|l ls Hl _ IH]; [done|]. rewrite fmap_cons. cbn [log_records]. rewrite <- negb_orb.
  change (str_contains "_METRICS" ?t || str_contains "_RESOURCES" ?t) with (tells_resources t).
  destruct l as [m ws|t]; cbn [log_line_ok log_line_text] in *; [|by rewrite Hl].
  rewrite !andb_true_iff in Hl. destruct Hl as [[[Hm Hne] Hws] ->]. cbn [negb].
  destruct (words_first m EmptyString (words_text ws)) as [rest E]; [by destruct m..|apply words_boundary|].
  unfold str_words. rewrite E, IH. cbn [mbind res_bind]. rewrite log_fields_line; [done|done|].
  apply Forall_forall. intros w Hw. rewrite forallb_forall in Hws. apply Hws. by apply list_elem_of_In.
Qed.

Lemma log_read_back path text ls :
  str_splitlines text = log_line_text <$> ls -> Forall (fun l => log_line_ok l = true) ls ->
  parse_runtime_log (Some (path, Ok text)) =
  Ok [("status", PyStr (if decide (omap log_record ls = []) then "no_resource_markers" else "measured"));
      ("source", PyStr path); ("records", PyList (omap log_record ls))].
Proof.
  intros Ht Hls. unfold parse_runtime_log. cbn [or_unreadable mbind res_bind]. rewrite Ht, log_records_read by done.
  cbn [mbind res_bind]. by destruct (omap log_record ls).
Qed.

Lemma field_value_int z : field_value (str_of_Z z) = PyInt z.
Proof. unfold field_value. rewrite py_int_str_of_Z by auto. done. Qed.

End LogSpec.
