(* ===== verification/Metrics.v ===== *)
(** * Steady-state allocation metrics

    [tools/check_static_control_metrics.py]: the allocation counters a
    static-control node prints are read from a log, and the log passes when ROS
    never allocates after preparation and the middleware counter grows by at most
    a bound between samples. *)

From Stdlib Require Import Ascii String.
From S2P Require Import Prelude PyStr Regex RegexScan Fields PyFloat PyObj Process Config MapFile.

Module Metrics.
Import RegexScan Process Fields MapFile.

(** ** The program *)

Definition reject {A} (msg : string) : res A := Raise (MetricsError msg).

Abbreviation record := (list (string * Z)).

Fixpoint record_get (r : record) (k : string) : option Z :=
  match r with
  | [] => None
  | (k', z) :: r => if decide (k = k') then Some z else record_get r k
  end.

(** [record[k]] *)
Definition record_item (r : record) (k : string) : res Z :=
  match record_get r k with Some z => Ok z | None => Raise (KeyError k) end.

Definition metric_values (line : string) : record :=
  foldl (fun d kv => dict_set d kv.1 (digits_value kv.2)) [] (fields is_digit line).

Definition REQUIRED : list string := ["ros_steady_alloc_calls"; "middleware_steady_alloc_calls"].

Definition require_metric (values : record) (required : string) : res unit :=
  match record_get values required with
  | Some _ => Ok tt
  | None => reject ("metrics marker is missing " +:+ required)
  end.

Fixpoint metric_lines (lines : list string) : res (list record) :=
  match lines with
  | [] => Ok []
  | line :: lines =>
      if negb (str_contains "STATIC_CONTROL_METRICS" line) then metric_lines lines
      else
        let values := metric_values line in
        eachM (require_metric values) REQUIRED ;;
        rest ← metric_lines lines;
        Ok (values :: rest)
  end.

Definition parse_metrics (text : string) : res (list record) := metric_lines (str_splitlines text).

(** [any(record[k] != 0 for record in records)], which stops at the first *)
Fixpoint any_nonzero (k : string) (records : list record) : res bool :=
  match records with
  | [] => Ok false
  | r :: records => z ← record_item r k; if (z =? 0)%Z then any_nonzero k records else Ok true
  end.

(** [later - earlier for earlier, later in zip(l, l[1:])] *)
Definition increments (l : list Z) : list Z := zip_with (fun earlier later => later - earlier)%Z l (tail l).

Record result := Result { samples : Z; maximum_delta : Z; final_calls : Z }.

Definition check_metrics (records : list record) (minimum_samples maximum_middleware_delta : Z) : res result :=
  let found := Z.of_nat (length records) in
  raise_if (found <? minimum_samples)%Z
    (MetricsError ("expected at least " +:+ str_of_Z minimum_samples +:+ " metrics samples, found " +:+ str_of_Z found)) ;;
  allocates ← any_nonzero "ros_steady_alloc_calls" records;
  raise_if allocates (MetricsError "ROS steady-state allocation attempts must remain zero") ;;
  middleware ← mapM_res (fun r => record_item r "middleware_steady_alloc_calls") records;
  let deltas := increments middleware in
  raise_if (existsb (fun delta => delta <? 0)%Z deltas)
    (MetricsError "middleware allocation counter decreased between samples") ;;
  match head middleware with
  | Some first =>
      let maximum_observed := max_default first deltas in
      raise_if (maximum_middleware_delta <? maximum_observed)%Z
        (MetricsError ("middleware allocation delta exceeds bound: observed=" +:+ str_of_Z maximum_observed +:+
                       " allowed=" +:+ str_of_Z maximum_middleware_delta)) ;;
      Ok (Result found maximum_observed (List.last middleware 0%Z))
  | None => Raise IndexError
  end.

Record args := Args { log : string; minimum_samples : Z; maximum_middleware_delta : Z }.

(** [content] is what reading the log gives; undecodable bytes are replaced. *)
Definition run (a : args) (content : res string) : res result :=
  raise_if ((minimum_samples a <? 1) || (maximum_middleware_delta a <? 0))%Z
    (MetricsError "metric bounds must be non-negative and require at least one sample") ;;
  text ← match content with
         | Raise (OSError e) => reject ("cannot read " +:+ log a +:+ ": " +:+ e)
         | _ => content
         end;
  records ← parse_metrics text;
  check_metrics records (minimum_samples a) (maximum_middleware_delta a).

Definition main (a : args) (content : res string) : outcome :=
  match run a content with
  | Ok r =>
      Outcome (Ok 0%Z)
        ["ROS2_ZEPHYR_STATIC_CONTROL_METRICS_PASS samples=" +:+ str_of_Z (samples r) +:+
         " max_middleware_delta=" +:+ str_of_Z (maximum_delta r) +:+
         " final_middleware_calls=" +:+ str_of_Z (final_calls r)] [] []
  | Raise (MetricsError msg) => Outcome (Ok 2%Z) [] ["E_STATIC_CONTROL_METRICS: " +:+ msg] []
  | Raise e => Outcome (Raise e) [] [] []
  end.

(** ** What a log has to show *)

(** One sample: the two counters. *)
Record sample := Sample { ros_calls : Z; middleware_calls : Z }.

(** Growth from one sample to the next is within [0..delta]. *)
Fixpoint grows_within (delta : Z) (l : list Z) : Prop :=
  match l with
  | a :: (b :: _) as t => (0 <= b - a <= delta)%Z /\ grows_within delta t
  | _ => True
  end.

Record steady (minimum delta : Z) (l : list sample) : Prop := {
  st_count : (minimum <= Z.of_nat (length l))%Z;
  st_ros : Forall (fun s => ros_calls s = 0%Z) l;
  st_growth : grows_within delta (middleware_calls <$> l);
  st_single : forall s, l = [s] -> (middleware_calls s <= delta)%Z
}.

(** A record with the counters of a sample. *)
Definition records_sample (r : record) (s : sample) : Prop :=
  record_get r "ros_steady_alloc_calls" = Some (ros_calls s) /\
  record_get r "middleware_steady_alloc_calls" = Some (middleware_calls s).

End Metrics.
