(* ===== verification/MetricsSpec.v ===== *)
(** * When a metrics log passes

    The tool reads the counters back from the lines the firmware prints, and ends
    with status 0 exactly when the samples are steady, with 2 otherwise. *)

From Stdlib Require Import Ascii String.
From S2P Require Import Prelude PyStr Regex RegexScan Fields PyFloat PyObj Process Config MapFile MapSpec Metrics.

Module MetricsSpec.
Import RegexScan Process Fields MapFile MapSpec Metrics.

(** ** The verdict on the samples *)

Lemma increments_cons a b l : increments (a :: b :: l) = (b - a)%Z :: increments (b :: l).
Proof. done. Qed.

Lemma grows_within_increments delta l :
  grows_within delta l <-> Forall (fun d => (0 <= d <= delta)%Z) (increments l).
Proof.
  induction l as [|a [|b l] IH]; [split; [constructor|done]..|].
  rewrite increments_cons, Forall_cons, <- IH. done.
Qed.

(** An accepted log grows by at most the bound times the number of intervals. *)
Lemma grows_within_total delta a l :
  grows_within delta (a :: l) ->
  (0 <= List.last (a :: l) 0 - a <= Z.of_nat (length l) * delta)%Z.
Proof.
  revert a. induction l as [|b l IH]; intros a; [cbn; lia|]. intros [Hab Hl].
  specialize (IH b Hl). change (List.last (a :: b :: l) 0%Z) with (List.last (b :: l) 0%Z). cbn [length] in *. lia.
Qed.

(** The largest growth, or the only sample. *)
Lemma max_growth (l : list sample) s l' delta :
  l = s :: l' -> existsb (fun d => d <? 0)%Z (increments (middleware_calls <$> l)) = false ->
  (max_default (middleware_calls s) (increments (middleware_calls <$> l)) <= delta)%Z <->
  grows_within delta (middleware_calls <$> l) /\ (l' = [] -> (middleware_calls s <= delta)%Z).
Proof.
  intros -> Hneg. rewrite grows_within_increments.
  assert (Forall (fun d => (0 <= d)%Z) (increments (middleware_calls <$> s :: l'))) as Hpos.
  { apply Forall_forall. intros d Hd. destruct (Z.ltb_spec d 0) as [Hlt|]; [|done]. exfalso.
    apply not_true_iff_false in Hneg. apply Hneg, existsb_exists. exists d.
    split; [by apply list_elem_of_In|by apply Z.ltb_lt]. }
  destruct (max_default_spec (middleware_calls s) (increments (middleware_calls <$> s :: l'))) as [Hub _].
  rewrite Forall_forall in Hpos. rewrite Forall_forall. split.
  - intros Hmax. split.
    + intros d Hd. specialize (Hub d Hd). specialize (Hpos d Hd). lia.
    + intros ->. cbn in Hmax. exact Hmax.
  - intros [Hall Hone]. destruct l' as [|s' l']; [by apply Hone|].
    rewrite !fmap_cons, increments_cons in *. set (d := (_ - _)%Z) in *. set (t := increments _) in *.
    change (max_default (middleware_calls s) (d :: t)) with (max_default d (d :: t)).
    destruct (max_default_spec d (d :: t)) as [_ [-> | Hd]]; [apply (Hall d), elem_of_cons; by left|].
    by apply (Hall _ Hd).
Qed.

Section samples.
Context (rs : list record) (l : list sample) (Hrs : Forall2 records_sample rs l).

Lemma any_nonzero_spec :
  any_nonzero "ros_steady_alloc_calls" rs = Ok (negb (forallb (fun s => ros_calls s =? 0)%Z l)).
Proof using Hrs.
  induction Hrs as [|r s rs' l' [Hr _] _ IH]; [done|]. cbn [any_nonzero forallb]. unfold record_item. rewrite Hr.
  cbn [mbind res_bind]. destruct (ros_calls s =? 0)%Z; [|done]. apply IH. by inversion Hrs.
Qed.

Lemma middleware_spec :
  mapM_res (fun r => record_item r "middleware_steady_alloc_calls") rs = Ok (middleware_calls <$> l).
Proof using Hrs.
  induction Hrs as [|r s rs' l' [_ Hm] _ IH]; [done|]. cbn [mapM_res fmap list_fmap].
  assert (record_item r "middleware_steady_alloc_calls" = Ok (middleware_calls s)) as ->
    by (unfold record_item; by rewrite Hm).
  cbn [mbind res_bind]. rewrite IH by (by inversion Hrs). done.
Qed.

(** The check accepts exactly the steady samples, and rejects with its own error. *)
Lemma check_metrics_spec minimum delta :
  (1 <= minimum)%Z ->
  match check_metrics rs minimum delta with
  | Ok r => steady minimum delta l /\ samples r = Z.of_nat (length l) /\
            final_calls r = List.last (middleware_calls <$> l) 0%Z
  | Raise e => (exists msg, e = MetricsError msg) /\ ~ steady minimum delta l
  end.
Proof using Hrs.
  intros Hmin. unfold check_metrics. assert (length rs = length l) as -> by (by eapply Forall2_length).
  destruct (Z.ltb_spec (Z.of_nat (length l)) minimum) as [Hlt|Hle]; cbn [raise_if mbind res_bind].
  { split; [by eexists|]. intros [Hc _ _ _]. lia. }
  rewrite any_nonzero_spec. cbn [mbind res_bind].
  destruct (forallb (fun s => ros_calls s =? 0)%Z l) eqn:Hros; cbn [negb raise_if mbind res_bind].
  2: { split; [by eexists|]. intros [_ Hr _ _]. apply not_true_iff_false in Hros. apply Hros, forallb_forall.
       intros s Hs%list_elem_of_In. rewrite Forall_forall in Hr. by apply Z.eqb_eq, Hr. }
  assert (Forall (fun s => ros_calls s = 0%Z) l) as Hr0.
  { apply Forall_forall. intros s Hs%list_elem_of_In. rewrite forallb_forall in Hros. by apply Z.eqb_eq, Hros. }
  rewrite middleware_spec. cbn [mbind res_bind].
  destruct (existsb (fun d => d <? 0)%Z (increments (middleware_calls <$> l))) eqn:Hneg; cbn [raise_if mbind res_bind].
  { split; [by eexists|]. intros [_ _ Hg _]. apply existsb_exists in Hneg as (d & Hd%list_elem_of_In & Hlt%Z.ltb_lt).
    rewrite grows_within_increments, Forall_forall in Hg. apply Hg in Hd. lia. }
  destruct l as [|s l'] eqn:El; [cbn in Hle; lia|]. rewrite <- El in *.
  pose proof (max_growth l s l' delta El Hneg) as Hmax.
  assert (head (middleware_calls <$> l) = Some (middleware_calls s)) as -> by (by rewrite El).
  destruct (Z.ltb_spec delta (max_default (middleware_calls s) (increments (middleware_calls <$> l)))) as [Hd|Hd];
    cbn [raise_if mbind res_bind].
  - split; [by eexists|]. intros [_ _ Hg H1]. assert (~ (max_default (middleware_calls s)
      (increments (middleware_calls <$> l)) <= delta)%Z) as Hn by lia.
    apply Hn, Hmax. split; [done|]. intros ->. by apply H1.
  - apply Hmax in Hd as [Hg H1]. split; [|done]. split; [done|done|done|].
    intros s' E. rewrite El in E. injection E as <- ->. auto.
Qed.

End samples.

(** ** Reading the log *)

(** The lines of a log: markers with their words, and anything else. *)
Inductive log_line :=
  | Marker (before : string) (ws : list word)
  | Noise (t : string).

Definition marker : string := "STATIC_CONTROL_METRICS".

Definition log_text (x : log_line) : string :=
  match x with Marker b ws => b +:+ marker +:+ words_text ws | Noise t => t end.

Definition marker_values (ws : list word) : record :=
  foldl (fun d kv => dict_set d kv.1 (digits_value kv.2)) [] (omap word_field ws).

Definition log_values (x : log_line) : option record :=
  match x with Marker _ ws => Some (marker_values ws) | Noise _ => None end.

Definition one_line (t : string) : bool := str_all (fun c => negb (is_linebreak c)) t.

Definition log_ok (x : log_line) : bool :=
  one_line (log_text x) &&
  match x with
  | Marker b ws => no_equals b && forallb (word_ok is_digit) ws
  | Noise t => negb (str_contains marker t)
  end.

Lemma metric_values_line b ws :
  no_equals b = true -> Forall (fun w => word_ok is_digit w = true) ws ->
  metric_values (log_text (Marker b ws)) = marker_values ws.
Proof.
  intros Hb Hw. unfold metric_values, marker_values. cbn [log_text]. rewrite <- str_app_assoc, fields_line; try done.
  unfold no_equals in *. by rewrite str_all_app, Hb.
Qed.

(** The samples of the markers, each with both counters. *)
Lemma metric_lines_spec ls l :
  Forall (fun x => log_ok x = true) ls -> Forall2 records_sample (omap log_values ls) l ->
  metric_lines (log_text <$> ls) = Ok (omap log_values ls).
Proof.
  intros Hok. revert l. induction Hok as [|x ls Hx _ IH]; intros l Hl; [done|]. rewrite fmap_cons.
  cbn [metric_lines]. unfold log_ok in Hx. apply andb_true_iff in Hx as [_ Hx]. destruct x as [b ws|t].
  - apply andb_true_iff in Hx as [Hb Hws].
    assert (str_contains "STATIC_CONTROL_METRICS" (log_text (Marker b ws)) = true) as ->.
    { apply str_contains_spec. by exists b, (words_text ws). }
    cbn [negb]. rewrite metric_values_line; [|done|].
    2: { apply Forall_forall. intros w Hw%list_elem_of_In. rewrite forallb_forall in Hws. by apply Hws. }
    cbn [omap list_omap log_values] in *. apply Forall2_cons_inv_l in Hl as (s & l' & [H1 H2] & Hl & ->).
    cbn [eachM REQUIRED]. unfold require_metric. rewrite H1, H2. cbn [mbind res_bind].
    by rewrite (IH l' Hl).
  - cbn [log_text]. change "STATIC_CONTROL_METRICS" with marker. rewrite Hx. by apply (IH l).
Qed.

Lemma parse_metrics_log ls l :
  Forall (fun x => log_ok x = true) ls -> Forall2 records_sample (omap log_values ls) l ->
  parse_metrics (Config.text_of_lines (log_text <$> ls)) = Ok (omap log_values ls).
Proof.
  intros Hok Hl. unfold parse_metrics. rewrite Config.splitlines_text; [by eapply metric_lines_spec|].
  apply Forall_fmap. eapply Forall_impl; [exact Hok|]. intros x Hx.
  unfold log_ok in Hx. by apply andb_true_iff in Hx as [Hx _].
Qed.

(** ** The program *)

Lemma main_decides a ls l :
  (1 <= minimum_samples a)%Z -> (0 <= maximum_middleware_delta a)%Z ->
  Forall (fun x => log_ok x = true) ls -> Forall2 records_sample (omap log_values ls) l ->
  let o := main a (Ok (Config.text_of_lines (log_text <$> ls))) in
  (exit o = Ok 0%Z /\ steady (minimum_samples a) (maximum_middleware_delta a) l) \/
  (exit o = Ok 2%Z /\ ~ steady (minimum_samples a) (maximum_middleware_delta a) l).
Proof.
  intros H1 H2 Hok Hl. unfold main, run.
  rewrite (proj2 (Z.ltb_ge _ _) H1), (proj2 (Z.ltb_ge _ _) H2). cbn [orb raise_if mbind res_bind].
  rewrite (parse_metrics_log ls l Hok Hl). cbn [mbind res_bind].
  pose proof (check_metrics_spec _ l Hl (minimum_samples a) (maximum_middleware_delta a) H1) as Hc.
  destruct (check_metrics _ _ _) as [r|e].
  - left. by destruct Hc as [? _].
  - right. destruct Hc as [[msg ->] ?]. done.
Qed.

(** Whatever the log holds, a readable one ends with a status. *)
Lemma main_total a text :
  exists code, exit (main a (Ok text)) = Ok code /\ (code = 0%Z \/ code = 2%Z).
Proof.
  assert (forall lines, match metric_lines lines with
    | Ok rs => exists l, Forall2 records_sample rs l
    | Raise e => exists msg, e = MetricsError msg end) as Hp.
  { induction lines as [|x lines IH]; [by exists []|]. cbn [metric_lines].
    destruct (negb _); [exact IH|]. cbn [eachM REQUIRED]. unfold require_metric.
    destruct (record_get (metric_values x) "ros_steady_alloc_calls") as [z1|] eqn:E1;
      cbn [mbind res_bind]; [|by eexists].
    destruct (record_get (metric_values x) "middleware_steady_alloc_calls") as [z2|] eqn:E2;
      cbn [mbind res_bind]; [|by eexists].
    destruct (metric_lines lines) as [rs|e]; cbn [mbind res_bind]; [|exact IH].
    destruct IH as [l Hl]. exists (Sample z1 z2 :: l). by repeat constructor. }
  unfold main, run.
  destruct (Z.ltb_spec (minimum_samples a) 1) as [|H1]; cbn [orb raise_if mbind res_bind]; [by eauto|].
  destruct (maximum_middleware_delta a <? 0)%Z; cbn [raise_if mbind res_bind]; [by eauto|].
  unfold parse_metrics. specialize (Hp (str_splitlines text)).
  destruct (metric_lines (str_splitlines text)) as [rs|e]; cbn [mbind res_bind]; [|destruct Hp as [msg ->]; by eauto].
  destruct Hp as [l Hl].
  pose proof (check_metrics_spec rs l Hl (minimum_samples a) (maximum_middleware_delta a) H1) as Hc.
  destruct (check_metrics _ _ _) as [r|e]; [by eauto|]. destruct Hc as [[msg ->] _]. by eauto.
Qed.

End MetricsSpec.
