(* ===== verification/Timing.v ===== *)
(** * Matched timing windows

    [tools/check_static_control_timing.py]: the timing records of matched runs
    on the POSIX and on the native synchronization layer are read from their
    logs, and a native run passes when no gated measure grew beyond a limit. *)

From Stdlib Require Import Ascii String.
From S2P Require Import Prelude PyStr Regex RegexScan PyFloat PyObj Process.

Module Timing.
Import RegexScan Process.

(** ** The program *)

Definition FIELDS : list string :=
  ["samples"; "release_p50_us"; "release_p95_us"; "release_p99_us"; "release_max_us";
   "completion_p50_us"; "completion_p95_us"; "completion_p99_us"; "completion_max_us"].

(** [" ".join(rf"{field}=(\d+)" for field in FIELDS)], the groups from [n] on *)
Fixpoint fields_re (n : nat) (fields : list string) : re :=
  match fields with
  | [] => REps
  | [f] => rlit (f +:+ "=") ⋅ RGroup n rd⊕
  | f :: fields => rlit (f +:+ "=") ⋅ RGroup n rd⊕ ⋅ rlit " " ⋅ fields_re (S n) fields
  end.

Definition MARKER : string := "STATIC_CONTROL_TIMING ".
Definition PATTERN : re := rlit MARKER ⋅ fields_re 1 FIELDS.

Definition TIMING_GATES : list string :=
  ["release_p99_us"; "release_max_us"; "completion_p99_us"; "completion_max_us"].

(** A record: the value of each field. *)
Record timing := Timing {
  t_samples : Z;
  release_p50 : Z; release_p95 : Z; release_p99 : Z; release_max : Z;
  completion_p50 : Z; completion_p95 : Z; completion_p99 : Z; completion_max : Z
}.

(** [dict(zip(FIELDS, map(int, values)))] *)
Definition record_of (m : rpos) : timing :=
  let v n := digits_value (group_or_empty n m) in
  Timing (v 1) (v 2) (v 3) (v 4) (v 5) (v 6) (v 7) (v 8) (v 9).

(** [record[gate]] *)
Definition gate_value (gate : string) (r : timing) : Z :=
  if bool_decide (gate = "release_p99_us") then release_p99 r
  else if bool_decide (gate = "release_max_us") then release_max r
  else if bool_decide (gate = "completion_p99_us") then completion_p99 r
  else completion_max r.

Definition parse_records (text : string) : list timing := record_of <$> re_findall PATTERN text.

(** [any(next["samples"] <= record["samples"] for ... in zip(records, records[1:]))] *)
Fixpoint stalls (records : list timing) : bool :=
  match records with
  | a :: (b :: _) as t => (t_samples b <=? t_samples a)%Z || stalls t
  | _ => false
  end.

Definition in_order (p50 p95 p99 : Z) : bool := ((p50 <=? p95) && (p95 <=? p99))%Z.

Definition final_record (path : string) (content : res string) (minimum_records : Z) : res timing :=
  text ← content;
  let records := parse_records text in
  let found := Z.of_nat (length records) in
  raise_if (found <? minimum_records)%Z
    (ValueError (path +:+ ": only " +:+ str_of_Z found +:+ " timing records; need " +:+ str_of_Z minimum_records)) ;;
  raise_if (stalls records) (ValueError (path +:+ ": sample count did not increase")) ;;
  match records !! Z.to_nat (minimum_records - 1) with
  | None => Raise IndexError
  | Some record =>
      raise_if ((t_samples record <? 50 * minimum_records) || (release_max record =? 0))%Z
        (ValueError (path +:+ ": cycle counter did not produce useful release measurements")) ;;
      raise_if (negb (in_order (release_p50 record) (release_p95 record) (release_p99 record)))
        (ValueError (path +:+ ": invalid release percentile order")) ;;
      raise_if (negb (in_order (completion_p50 record) (completion_p95 record) (completion_p99 record)))
        (ValueError (path +:+ ": invalid completion percentile order")) ;;
      Ok record
  end.

Definition check_gate (index : nat) (limit : Z) (posix native : timing) (gate : string) : res unit :=
  raise_if (gate_value gate posix + limit <? gate_value gate native)%Z
    (ValueError ("run " +:+ str_of_Z (Z.of_nat index) +:+ ": " +:+ gate +:+ " grew from " +:+
                 str_of_Z (gate_value gate posix) +:+ " to " +:+ str_of_Z (gate_value gate native) +:+ " us")).

Definition pass_line (index : nat) (posix native : timing) : string :=
  "STATIC_CONTROL_TIMING_PASS run=" +:+ str_of_Z (Z.of_nat index) +:+
  " posix_samples=" +:+ str_of_Z (t_samples posix) +:+ " native_samples=" +:+ str_of_Z (t_samples native) +:+ " " +:+
  str_join " " ((fun gate => gate +:+ "=" +:+ str_of_Z (gate_value gate posix) +:+ "/" +:+
                             str_of_Z (gate_value gate native)) <$> TIMING_GATES).

Record args := Args {
  posix_logs : list string;
  native_logs : list string;
  minimum_records : Z;
  maximum_regression_us : Z
}.

Definition check_run (read : string -> res string) (a : args) (index : nat) (posix_path native_path : string) :
    res string :=
  posix ← final_record posix_path (read posix_path) (minimum_records a);
  native ← final_record native_path (read native_path) (minimum_records a);
  eachM (check_gate index (maximum_regression_us a) posix native) TIMING_GATES ;;
  Ok (pass_line index posix native).

(** The loop over the matched runs: the lines printed so far and the result. *)
Fixpoint check_runs (read : string -> res string) (a : args) (index : nat) (runs : list (string * string)) :
    list string * res unit :=
  match runs with
  | [] => ([], Ok tt)
  | (posix_path, native_path) :: runs =>
      match check_run read a index posix_path native_path with
      | Raise e => ([], Raise e)
      | Ok line => let '(lines, r) := check_runs read a (S index) runs in (line :: lines, r)
      end
  end.

(** [read] is the text of each log; [usage] is the text of [parser.error]. *)
Definition main (read : string -> res string) (usage : string) (a : args) : outcome :=
  if negb (length (posix_logs a) =? length (native_logs a)) || (minimum_records a <? 1)%Z then
    Outcome (Ok 2%Z) [] [usage] []
  else
    match check_runs read a 1 (zip (posix_logs a) (native_logs a)) with
    | (lines, Ok _) => Outcome (Ok 0%Z) lines [] []
    | (lines, Raise (OSError e)) | (lines, Raise (ValueError e)) =>
        Outcome (Ok 1%Z) lines ["STATIC_CONTROL_TIMING_ERROR " +:+ e] []
    | (lines, Raise e) => Outcome (Raise e) lines [] []
    end.

(** ** What a run has to show *)

(** Sample counts increase from record to record. *)
Fixpoint increasing (l : list timing) : Prop :=
  match l with
  | a :: (b :: _) as t => (t_samples a < t_samples b)%Z /\ increasing t
  | _ => True
  end.

(** The record a log is judged by. *)
Record judged (minimum : Z) (l : list timing) (r : timing) : Prop := {
  jd_increasing : increasing l;
  jd_record : l !! Z.to_nat (minimum - 1) = Some r;
  jd_samples : (50 * minimum <= t_samples r)%Z;
  jd_clock : release_max r <> 0%Z;
  jd_release : (release_p50 r <= release_p95 r <= release_p99 r)%Z;
  jd_completion : (completion_p50 r <= completion_p95 r <= completion_p99 r)%Z
}.

Definition within_limit (limit : Z) (posix native : timing) : Prop :=
  Forall (fun gate => (gate_value gate native <= gate_value gate posix + limit)%Z) TIMING_GATES.

End Timing.
