(* ===== verification/TimingSpec.v ===== *)
(** * When matched runs pass

    The records are read back from the lines the firmware prints, and the tool
    ends with status 0 exactly when every run has a record to be judged by and no
    gated measure grew beyond the limit. *)

From Stdlib Require Import Ascii String.
From S2P Require Import Prelude PyStr Regex RegexScan PyFloat PyObj Process Config Timing.

Module TimingSpec.
Import RegexScan Process Timing.

(** ** The judged record *)

Lemma stalls_spec l : stalls l = false <-> increasing l.
Proof.
  induction l as [|a [|b l] IH]; [done..|]. cbn [stalls increasing].
  rewrite orb_false_iff, Z.leb_gt, IH. done.
Qed.

Lemma final_record_spec path text minimum :
  (1 <= minimum)%Z ->
  match final_record path (Ok text) minimum with
  | Ok r => judged minimum (parse_records text) r
  | Raise e => (exists msg, e = ValueError msg) /\ forall r, ~ judged minimum (parse_records text) r
  end.
Proof.
  intros Hmin. unfold final_record. cbn [mbind res_bind]. set (l := parse_records text).
  destruct (Z.ltb_spec (Z.of_nat (length l)) minimum) as [Hlt|Hle]; cbn [raise_if mbind res_bind].
  { split; [by eexists|]. intros r [_ Hr%lookup_lt_Some _ _ _ _]. lia. }
  destruct (stalls l) eqn:Hs; cbn [raise_if mbind res_bind].
  { split; [by eexists|]. intros r [Hi%stalls_spec _ _ _ _ _]. congruence. }
  apply stalls_spec in Hs.
  destruct (l !! Z.to_nat (minimum - 1)) as [r|] eqn:Hr; [|apply lookup_ge_None in Hr; lia].
  destruct (Z.ltb_spec (t_samples r) (50 * minimum)) as [H1|H1]; cbn [orb raise_if mbind res_bind].
  { split; [by eexists|]. intros r' [_ Hr' ? _ _ _]. simplify_eq. lia. }
  destruct (Z.eqb_spec (release_max r) 0) as [H2|H2]; cbn [raise_if mbind res_bind].
  { split; [by eexists|]. intros r' [_ Hr' _ ? _ _]. by simplify_eq. }
  unfold in_order.
  destruct (Z.leb_spec (release_p50 r) (release_p95 r)), (Z.leb_spec (release_p95 r) (release_p99 r));
    cbn [andb negb raise_if mbind res_bind];
    try (split; [by eexists|]; intros r' [_ Hr' _ _ ? _]; simplify_eq; lia).
  destruct (Z.leb_spec (completion_p50 r) (completion_p95 r)), (Z.leb_spec (completion_p95 r) (completion_p99 r));
    cbn [andb negb raise_if mbind res_bind];
    try (split; [by eexists|]; intros r' [_ Hr' _ _ _ ?]; simplify_eq; lia).
  by split.
Qed.

Lemma judged_unique minimum l r r' : judged minimum l r -> judged minimum l r' -> r = r'.
Proof. intros [_ H _ _ _ _] [_ H' _ _ _ _]. congruence. Qed.

Lemma gates_spec index limit posix native :
  match eachM (check_gate index limit posix native) TIMING_GATES with
  | Ok _ => within_limit limit posix native
  | Raise e => (exists msg, e = ValueError msg) /\ ~ within_limit limit posix native
  end.
Proof.
  unfold within_limit. induction TIMING_GATES as [|gate gates IH]; [constructor|]. cbn [eachM].
  destruct (check_gate index limit posix native gate) as [[]|e] eqn:E; unfold check_gate in E;
    destruct (Z.ltb_spec (gate_value gate posix + limit) (gate_value gate native)) as [H|H];
    cbn [raise_if] in E; simplify_eq; cbn [mbind res_bind].
  - destruct (eachM _ gates); [by constructor|]. destruct IH as [? IH]. split; [done|].
    by intros [_ Hg]%Forall_cons.
  - split; [by eexists|]. intros [Hg _]%Forall_cons. lia.
Qed.

(** ** The runs *)

(** A matched run passes. *)
Definition run_passes (text : string -> string) (a : args) (run : string * string) : Prop :=
  exists posix native, judged (minimum_records a) (parse_records (text run.1)) posix /\
    judged (minimum_records a) (parse_records (text run.2)) native /\
    within_limit (maximum_regression_us a) posix native.

Section runs.
Context (text : string -> string) (a : args) (Hmin : (1 <= minimum_records a)%Z).
Let read (path : string) : res string := Ok (text path).

Lemma check_run_spec index posix_path native_path :
  match check_run read a index posix_path native_path with
  | Ok _ => run_passes text a (posix_path, native_path)
  | Raise e => (exists msg, e = ValueError msg) /\ ~ run_passes text a (posix_path, native_path)
  end.
Proof using Hmin.
  unfold check_run, run_passes, read.
  pose proof (final_record_spec posix_path (text posix_path) (minimum_records a) Hmin) as Hp.
  destruct (final_record posix_path _ _) as [posix|e]; cbn [mbind res_bind].
  2: { destruct Hp as [? Hp]. split; [done|]. intros (p & n & Hj & _). by apply (Hp p). }
  pose proof (final_record_spec native_path (text native_path) (minimum_records a) Hmin) as Hn.
  destruct (final_record native_path _ _) as [native|e]; cbn [mbind res_bind].
  2: { destruct Hn as [? Hn]. split; [done|]. intros (p & n & _ & Hj & _). by apply (Hn n). }
  pose proof (gates_spec index (maximum_regression_us a) posix native) as Hg.
  destruct (eachM _ _) as [[]|e]; cbn [mbind res_bind]; [by exists posix, native|].
  destruct Hg as [? Hg]. split; [done|]. intros (p & n & Hj1 & Hj2 & Hw). apply Hg.
  by rewrite (judged_unique _ _ _ _ Hp Hj1), (judged_unique _ _ _ _ Hn Hj2).
Qed.

Lemma check_runs_spec index runs :
  match check_runs read a index runs with
  | (lines, Ok _) => Forall (run_passes text a) runs /\ length lines = length runs
  | (_, Raise e) => (exists msg, e = ValueError msg) /\ ~ Forall (run_passes text a) runs
  end.
Proof using Hmin.
  revert index. induction runs as [|[p n] runs IH]; intros index; [by split|]. cbn [check_runs].
  pose proof (check_run_spec index p n) as Hr. destruct (check_run read a index p n) as [line|e].
  - specialize (IH (S index)). destruct (check_runs read a (S index) runs) as [lines [u|e]].
    + destruct IH as [Hall Hlen]. split; [by constructor|]. cbn. by rewrite Hlen.
    + destruct IH as [? Hn]. split; [done|]. by intros [_ ?]%Forall_cons.
  - destruct Hr as [? Hn]. split; [done|]. by intros [? _]%Forall_cons.
Qed.

(** The status: 0 when every run passes, 1 otherwise. *)
Lemma timing_main usage :
  length (posix_logs a) = length (native_logs a) ->
  let o := main read usage a in
  let runs := zip (posix_logs a) (native_logs a) in
  (exit o = Ok 0%Z /\ Forall (run_passes text a) runs /\ length (stdout o) = length runs) \/
  (exit o = Ok 1%Z /\ ~ Forall (run_passes text a) runs).
Proof using Hmin.
  intros Hlen. unfold main. rewrite (proj2 (Nat.eqb_eq _ _) Hlen), (proj2 (Z.ltb_ge _ _) Hmin). cbn [negb orb].
  pose proof (check_runs_spec 1 (zip (posix_logs a) (native_logs a))) as H.
  destruct (check_runs read a 1 _) as [lines [u|e]].
  - left. by destruct H.
  - right. destruct H as [[msg ->] ?]. done.
Qed.

End runs.

(** ** Reading the log *)

Definition tail_of (s : string) : string := match s with String _ t => t | EmptyString => EmptyString end.

Definition timing_values (t : timing) : list Z :=
  [t_samples t; release_p50 t; release_p95 t; release_p99 t; release_max t;
   completion_p50 t; completion_p95 t; completion_p99 t; completion_max t].

Definition field_value (f : string) (v : Z) : string := f +:+ "=" +:+ str_of_Z v.

(** The record as the firmware prints it. *)
Definition timing_text (t : timing) : string :=
  MARKER +:+ str_join " " (zip_with field_value FIELDS (timing_values t)).

(** The groups of the values, from [n] on. *)
Fixpoint groups (n : nat) (vs : list Z) (caps : list (nat * string)) : list (nat * string) :=
  match vs with [] => caps | v :: vs => groups (S n) vs ((n, str_of_Z v) :: caps) end.

Lemma blank_before_digit r p c t :
  is_digit c = true -> r_rest p = String c t -> re_matches (rlit " " ⋅ r) p = [].
Proof.
  intros Hc Hp. destruct p as [prev s caps]. cbn in Hp. subst s. rewrite lit_then. cbn [after_prefix].
  assert (is_char " " c = false) as ->; [|done]. apply negb_true_iff. revert c Hc. ascii_class.
Qed.

Lemma fields_re_match fs vs n prev rest caps :
  length fs = length vs -> fs <> [] -> Forall (fun v => (0 <= v)%Z) vs -> stops is_digit rest ->
  exists prev' l, re_matches (fields_re n fs) (mkpos prev (str_join " " (zip_with field_value fs vs) +:+ rest) caps) =
    mkpos prev' rest (groups n vs caps) :: l.
Proof.
  intros Hlen Hne Hvs Hrest. revert vs n prev caps Hlen Hne Hvs.
  induction fs as [|f fs IH]; intros vs n prev caps Hlen Hne Hvs; [done|].
  destruct vs as [|v vs]; [done|]. apply Forall_cons in Hvs as [Hv Hvs].
  destruct fs as [|f' fs], vs as [|v' vs]; try done.
  - cbn [fields_re zip_with]. change (str_join " " [?x]) with x. unfold field_value. rewrite lit_then.
    rewrite (proj2 (after_prefix_spec (f +:+ "=") _ (str_of_Z v +:+ rest))) by (by rewrite !str_app_assoc).
    destruct (word_longest n is_digit is_digit (str_last prev (f +:+ "=")) (str_of_Z v) rest caps) as [l E];
      [by apply str_of_Z_word|done|]. eexists _, l. exact E.
  - cbn [zip_with]. change (str_join " " (field_value f v :: ?l)) with (field_value f v +:+ " " +:+ str_join " " l).
    change (fields_re n (f :: f' :: fs)) with
      (rlit (f +:+ "=") ⋅ RGroup n rd⊕ ⋅ rlit " " ⋅ fields_re (S n) (f' :: fs)).
    rewrite lit_then. unfold field_value at 1.
    match goal with |- context [str_join " " ?l] => set (tl := str_join " " l) end.
    rewrite (proj2 (after_prefix_spec (f +:+ "=") _ (str_of_Z v +:+ " " +:+ tl +:+ rest)))
      by (by rewrite !str_app_assoc).
    change (RGroup n rd⊕) with (RGroup n (rword is_digit is_digit)).
    rewrite word_then_word; [|apply blank_before_digit|by apply str_of_Z_word|done].
    rewrite lit_then, (proj2 (after_prefix_spec " " _ (tl +:+ rest)) eq_refl).
    apply (IH (v' :: vs) (S n)); [by injection Hlen as Hlen; cbn; f_equal|done|done].
Qed.

Definition printable (t : timing) : Prop := Forall (fun v => (0 <= v)%Z) (timing_values t).

Lemma record_of_groups prev rest t :
  printable t -> record_of (mkpos prev rest (groups 1 (timing_values t) [])) = t.
Proof.
  unfold printable, timing_values. rewrite !Forall_cons. intros (H1 & H2 & H3 & H4 & H5 & H6 & H7 & H8 & H9 & _).
  unfold record_of, group_or_empty, group.
  cbv [groups List.find Nat.eqb r_caps fmap option_fmap option_map default from_option id snd].
  rewrite !digits_value_str by done. by destruct t.
Qed.

(** The lines of a log: records, with anything after them, and other lines. *)
Inductive log_line :=
  | Recorded (t : timing) (after : string)
  | Silent (line : string).

Definition log_text (x : log_line) : string :=
  match x with Recorded t after => timing_text t +:+ after | Silent line => line end.

Definition log_record (x : log_line) : option timing :=
  match x with Recorded t _ => Some t | Silent _ => None end.

Definition silent (line : string) : Prop :=
  str_contains MARKER line = false /\ str_all (fun c => negb (is_char nl c)) line = true.

Definition log_ok (x : log_line) : Prop :=
  match x with
  | Recorded t after => printable t /\ stops is_digit after /\ silent after
  | Silent line => silent line
  end.

Lemma scan_silent fuel line s prev :
  silent line -> re_scan fuel PATTERN prev (line +:+ String nl s) = re_scan fuel PATTERN (Some nl) s.
Proof.
  intros [Hn Hl]. destruct fuel as [|fuel]; [done|]. cbn [re_scan]. unfold PATTERN.
  by rewrite (search_line MARKER (fields_re 1 FIELDS) eq_refl line s prev).
Qed.

Lemma scan_log ls fuel prev :
  Forall log_ok ls -> length ls < fuel ->
  record_of <$> re_scan fuel PATTERN prev (Config.text_of_lines (log_text <$> ls)) = omap log_record ls.
Proof.
  intros Hls. revert fuel prev. induction Hls as [|x ls Hx _ IH]; intros fuel prev Hf.
  { by destruct fuel. }
  rewrite fmap_cons. cbn [Config.text_of_lines]. destruct x as [t after|line]; cbn [log_text log_ok] in *.
  2: { rewrite scan_silent by done. apply IH. cbn in Hf. lia. }
  destruct Hx as (Ht & Hs & Hsil). rewrite str_app_assoc. destruct fuel as [|fuel]; [cbn in Hf; lia|].
  set (rest := after +:+ String nl (Config.text_of_lines (log_text <$> ls))).
  assert (stops is_digit rest) as Hrest by (unfold rest; by destruct after).
  unfold timing_text. rewrite str_app_assoc.
  destruct (fields_re_match FIELDS (timing_values t) 1 (str_last prev MARKER) rest []) as (prev' & l & E); try done.
  set (tl := str_join " " _) in *.
  assert (re_matches PATTERN (mkpos prev (MARKER +:+ tl +:+ rest) []) =
    mkpos prev' rest (groups 1 (timing_values t) []) :: l) as Hm.
  { unfold PATTERN. by rewrite lit_then, (proj2 (after_prefix_spec MARKER _ (tl +:+ rest)) eq_refl). }
  cbn [re_scan]. change (MARKER +:+ tl +:+ rest) with (String "S" (tail_of MARKER +:+ tl +:+ rest)) in *.
  cbn [re_search_from]. rewrite Hm.
  assert (progress (mkpos prev (String "S" (tail_of MARKER +:+ tl +:+ rest)) [])
    (mkpos prev' rest (groups 1 (timing_values t) [])) = true) as ->.
  { unfold progress. cbn [r_rest]. apply Nat.ltb_lt. cbn [String.length]. rewrite !str_length_app. lia. }
  rewrite fmap_cons, record_of_groups by done. cbn [omap list_omap log_record r_prev r_rest]. f_equal.
  unfold rest. rewrite scan_silent by done. apply IH. cbn in Hf. lia.
Qed.

(** The records of a log are read back. *)
Lemma parse_records_log ls :
  Forall log_ok ls -> parse_records (Config.text_of_lines (log_text <$> ls)) = omap log_record ls.
Proof.
  intros H. apply scan_log; [done|].
  assert (forall l, length l <= String.length (Config.text_of_lines l)) as Hlen.
  { induction l as [|x l IH]; [done|]. cbn. rewrite str_length_app. cbn. lia. }
  specialize (Hlen (log_text <$> ls)). rewrite length_fmap in Hlen. lia.
Qed.

End TimingSpec.
