(* ===== verification/CheckTheorems.v ===== *)
(** * The static-control checks: theorems

    The properties of [tools/check_static_control_metrics.py] and
    [tools/check_static_control_timing.py]. *)

From Stdlib Require Import Ascii String.
From S2P Require Import Prelude PyStr Regex RegexScan Fields PyFloat PyObj Process Config MapFile Metrics MetricsSpec.
From S2P Require Import Timing TimingSpec.

Module CheckTheorems.
Import Process Fields.

(** For a log of printed metrics, with a count of at least one and a bound
    that is not negative, the metrics check ends with status 0 exactly when the
    samples are steady, and with 2 otherwise. *)
Theorem metrics_check_decides (a : Metrics.args) (ls : list MetricsSpec.log_line) (l : list Metrics.sample) :
  (1 <= Metrics.minimum_samples a)%Z -> (0 <= Metrics.maximum_middleware_delta a)%Z ->
  Forall (fun x => MetricsSpec.log_ok x = true) ls ->
  Forall2 Metrics.records_sample (omap MetricsSpec.log_values ls) l ->
  let o := Metrics.main a (Ok (Config.text_of_lines (MetricsSpec.log_text <$> ls))) in
  (exit o = Ok 0%Z /\ Metrics.steady (Metrics.minimum_samples a) (Metrics.maximum_middleware_delta a) l) \/
  (exit o = Ok 2%Z /\ ~ Metrics.steady (Metrics.minimum_samples a) (Metrics.maximum_middleware_delta a) l).
Proof. apply MetricsSpec.main_decides. Qed.

(** A log with two samples, as the firmware prints it. *)
Definition metrics_words (middleware : string) : list word :=
  [Field "accepted" "12"; Field "rejected" "0"; Field "ros_steady_alloc_calls" "0";
   Field "middleware_steady_alloc_calls" middleware; Field "ros_high_water" "4096";
   Skipped "control_stack_unused" "measured"; Field "unused_bytes" "512"].

Definition metrics_log : list MetricsSpec.log_line :=
  [MetricsSpec.Noise "*** Booting Zephyr OS ***";
   MetricsSpec.Marker EmptyString (metrics_words "34");
   MetricsSpec.Noise "STATIC_CONTROL_READY";
   MetricsSpec.Marker "[00:01] " (metrics_words "50")].

Definition metrics_args : Metrics.args := Metrics.Args "run.log" 2 32.

Lemma metrics_check_decides_witness : Metrics.steady 2 32 [Metrics.Sample 0 34; Metrics.Sample 0 50].
Proof.
  destruct (metrics_check_decides metrics_args metrics_log [Metrics.Sample 0 34; Metrics.Sample 0 50])
    as [[_ H]|[H _]].
  - cbn. lia.
  - cbn. lia.
  - refine (bool_decide_unpack _ _). vm_compute. exact I.
  - repeat constructor.
  - exact H.
  - exfalso. vm_compute in H. discriminate H.
Defined.

(** The records of a printed timing log. *)
Definition printed_records (ls : list TimingSpec.log_line) : list Timing.timing := omap TimingSpec.log_record ls.

(** A matched run passes on the printed records. *)
Definition printed_run_passes (logs : string -> list TimingSpec.log_line) (a : Timing.args) (run : string * string) : Prop :=
  exists posix native, Timing.judged (Timing.minimum_records a) (printed_records (logs run.1)) posix /\
    Timing.judged (Timing.minimum_records a) (printed_records (logs run.2)) native /\
    Timing.within_limit (Timing.maximum_regression_us a) posix native.

(** C33: for logs of printed timing records, matched in number, the timing check
    ends with status 0 exactly when in every run both logs have a record to be
    judged by and no gated measure of the native run exceeds the POSIX one by
    more than the limit, and with status 1 otherwise. *)
Theorem timing_check_decides (logs : string -> list TimingSpec.log_line) (usage : string) (a : Timing.args) :
  (1 <= Timing.minimum_records a)%Z -> length (Timing.posix_logs a) = length (Timing.native_logs a) ->
  (forall path, Forall TimingSpec.log_ok (logs path)) ->
  let o := Timing.main (fun path => Ok (Config.text_of_lines (TimingSpec.log_text <$> logs path))) usage a in
  let runs := zip (Timing.posix_logs a) (Timing.native_logs a) in
  (exit o = Ok 0%Z /\ Forall (printed_run_passes logs a) runs) \/
  (exit o = Ok 1%Z /\ ~ Forall (printed_run_passes logs a) runs).
Proof.
  intros Hmin Hlen Hok. set (text path := Config.text_of_lines (TimingSpec.log_text <$> logs path)).
  assert (forall run, TimingSpec.run_passes text a run <-> printed_run_passes logs a run) as Hiff.
  { intros [p n]. unfold TimingSpec.run_passes, printed_run_passes, text.
    by rewrite !TimingSpec.parse_records_log. }
  cbn zeta. rewrite <- (Forall_iff (TimingSpec.run_passes text a) _ (printed_run_passes logs a) Hiff).
  destruct (TimingSpec.timing_main text a Hmin usage Hlen) as [(H1 & H2 & _)|H]; [by left|by right].
Qed.

(** One run: three increasing records each. *)
Definition timing_log (base : Z) (slow : Z) : list TimingSpec.log_line :=
  [TimingSpec.Silent "boot";
   TimingSpec.Recorded (Timing.Timing (base + 50) 10 20 30 40 100 200 300 400) EmptyString;
   TimingSpec.Recorded (Timing.Timing (base + 100) 10 20 30 (40 + slow) 100 200 300 400) " end"].

Definition timing_logs (path : string) : list TimingSpec.log_line :=
  if bool_decide (path = "native.log") then timing_log 0 900 else timing_log 20 0.

Definition timing_args : Timing.args := Timing.Args ["posix.log"] ["native.log"] 2 1000.

Lemma timing_check_decides_witness :
  Forall (printed_run_passes timing_logs timing_args) [("posix.log", "native.log")].
Proof.
  destruct (timing_check_decides timing_logs "usage" timing_args) as [[_ H]|[H _]].
  - cbn. lia.
  - reflexivity.
  - intros path. unfold timing_logs. destruct (bool_decide (path = "native.log"));
      (repeat constructor; cbn; try lia; reflexivity).
  - exact H.
  - exfalso. vm_compute in H. discriminate H.
Defined.

End CheckTheorems.
