(* ===== verification/Inventory.v ===== *)
(** * The RAM inventory of an ESP32-C6 image

    [inventory] of [tools/esp32c6_resources.py]: which allocated sections lie in
    the two RAM regions of the linker map, how far each region is filled, and
    what the image commits.  The ELF file is read by pyelftools, whose answer, the
    sections and the symbol table, is a parameter; so are the files and the hash. *)

From Stdlib Require Import Ascii String.
From S2P Require Import Prelude PyStr Regex RegexScan PyFloat PyObj Json Process Config MapFile.

Module Inventory.
Import Process Config.

(** ** What pyelftools returns *)

Record elf_section := ElfSec {
  sh_name : string; sh_flags : Z; sh_addr : Z; sh_size : Z; sh_type : string
}.

Record elf_symbol := ElfSym { sy_name : string; sy_value : Z; sy_size : Z; sy_type : string }.

(** [symtab] is [None] when there is no symbol table. *)
Record elf_file := ElfFile { elf_secs : list elf_section; symtab : option (list elf_symbol) }.

(** The artifacts of a build. *)
Record c6_build := C6Build {
  b_config : res string;
  b_map : res string;
  b_elf : res elf_file;
  b_image_size : res Z;
  b_image_sha256 : res string
}.

(** ** The configuration *)

(** [^(CONFIG_\w+)=(.* )$] with [re.M], without the blank *)
Definition CONFIG_LINE : re :=
  RBol true ⋅ RGroup 1 (rlit "CONFIG_" ⋅ rw⊕) ⋅ rlit "=" ⋅ RGroup 2 rdot⊛ ⋅ REol true.

(** [dict(re.findall(...))]: the last value of a name wins. *)
Definition config_of (text : string) : config :=
  foldl (fun c m => <[group_or_empty 1 m := group_or_empty 2 m]> c) ∅ (re_findall CONFIG_LINE text).

(** ** Regions *)

Definition any_char : re := RChr (fun _ => true).

(** [^(sram0_0_seg|lp_ram_seg)\s+(0x\w+)\s+(0x\w+)] with [re.M] *)
Definition C6_REGION : re :=
  RBol true ⋅ RGroup 1 (rlit "sram0_0_seg" ∥ rlit "lp_ram_seg") ⋅ rs⊕ ⋅ RGroup 2 (rlit "0x" ⋅ rw⊕) ⋅ rs⊕ ⋅
  RGroup 3 (rlit "0x" ⋅ rw⊕).

Record item := Item { i_name : string; i_address : Z; i_bytes : Z; i_nobits : bool }.

Record c6_region := C6Region { c_origin : Z; c_capacity : Z; c_sections : list item }.

Abbreviation c6_regions := (list (string * c6_region)).

Definition add_region (regions : c6_regions) (m : rpos) : res c6_regions :=
  o ← MapFile.int16 (group_or_empty 2 m);
  l ← MapFile.int16 (group_or_empty 3 m);
  Ok (dict_set regions (group_or_empty 1 m) (C6Region o l [])).

(** [text.split("Memory Configuration\n", 1)[1].split("Linker script", 1)[0]] *)
Definition memory_block (map_text : string) : res string :=
  match str_cut ("Memory Configuration" +:+ String nl EmptyString) map_text with
  | None => Raise IndexError
  | Some (_, rest) => Ok (match str_cut "Linker script" rest with Some (a, _) => a | None => rest end)
  end.

Definition REGION_NAMES : gset string := {["sram0_0_seg"; "lp_ram_seg"]}.

Definition read_regions (map_text : string) : res c6_regions :=
  memory ← memory_block map_text;
  regions ← foldM add_region (re_findall C6_REGION memory) [];
  raise_if (negb (bool_decide (list_to_set (C := gset string) regions.*1 = REGION_NAMES)))
    (ValueError "Unrecognized C6 linker regions") ;;
  Ok regions.

(** ** Sections *)

Definition alloc_item (sec : elf_section) : option item :=
  if (Z.land (sh_flags sec) 2 =? 0)%Z || (sh_size sec =? 0)%Z then None
  else Some (Item (sh_name sec) (sh_addr sec) (sh_size sec) (bool_decide (sh_type sec = "SHT_NOBITS"))).

(** An item goes to the region it starts in, and must not leave it. *)
Definition place_in (x : item) (nr : string * c6_region) : res (string * c6_region) :=
  let '(name, r) := nr in
  if ((c_origin r <=? i_address x) && (i_address x <? c_origin r + c_capacity r))%Z then
    if (c_origin r + c_capacity r <? i_address x + i_bytes x)%Z
    then Raise (ValueError "Section crosses physical RAM boundary")
    else Ok (name, C6Region (c_origin r) (c_capacity r) (c_sections r ++ [x]))
  else Ok nr.

Definition place (regions : c6_regions) (x : item) : res c6_regions := mapM_res (place_in x) regions.

Definition linked_span (r : c6_region) : Z :=
  (MapFile.max_default (c_origin r) ((fun x => i_address x + i_bytes x)%Z <$> c_sections r) - c_origin r)%Z.

Definition section_bytes (r : c6_region) : Z := foldl Z.add 0%Z (i_bytes <$> c_sections r).

(** ** Symbols *)

(** [{s.name: int(s["st_value"]) for s in ...}] *)
Definition symbol_values (l : list elf_symbol) : gmap string Z :=
  foldl (fun m s => <[sy_name s := sy_value s]> m) ∅ l.

Record tls := Tls {
  tdata_size : option Z; tbss_size : option Z; tdata_align : option Z; tbss_align : option Z;
  emulated_tls_present : bool
}.

Definition read_tls (l : list elf_symbol) : tls :=
  let symbols := symbol_values l in
  Tls (symbols !! "__tdata_size") (symbols !! "__tbss_size") (symbols !! "__tdata_align") (symbols !! "__tbss_align")
    (existsb (fun s => str_startswith "__emutls" (sy_name s)) l).

(** ** The inventory *)

Record inventory_result := InventoryResult {
  board : string;
  image_bytes : Z;
  image_sha256 : string;
  ram_regions : c6_regions;
  linked_ram_span : Z;
  malloc_arena : Z;
  dynamic_tail : Z;
  ram_committed : Z;
  inv_tls : tls;
  allocated_sections : list item
}.

(** [int(config.get(key, "0"))] *)
Definition config_int (c : config) (key : string) : res Z :=
  match py_int 10 (default "0" (c !! key)) with
  | Some z => Ok z
  | None => Raise (ValueError "invalid literal for int()")
  end.

Definition total_span (regions : c6_regions) : Z := foldl Z.add 0%Z ((fun nr => linked_span nr.2) <$> regions).

Definition inventory (b : c6_build) : res inventory_result :=
  text ← b_config b;
  let c := config_of text in
  raise_if (negb (bool_decide (c !! "CONFIG_SOC_ESP32C6_HPCORE" = Some "y"))) (ValueError "C6 HP-core only") ;;
  map_text ← b_map b;
  regions ← read_regions map_text;
  elf ← b_elf b;
  syms ← match symtab elf with Some l => Ok l | None => Raise AttributeError end;
  let alloc := omap alloc_item (elf_secs elf) in
  regions ← foldM place alloc regions;
  let symbols := symbol_values syms in
  arena ← config_int c "CONFIG_COMMON_LIBC_MALLOC_ARENA_SIZE";
  let tail :=
    if (arena =? -1)%Z
    then Z.max 0 (default 0%Z (symbols !! "_heap_sentry") - default 0%Z (symbols !! "_end")) else 0%Z in
  target ← match c !! "CONFIG_BOARD_TARGET" with Some t => Ok t | None => Raise (KeyError "CONFIG_BOARD_TARGET") end;
  size ← b_image_size b;
  sha ← b_image_sha256 b;
  Ok (InventoryResult (str_strip (is_char dquote) target) size sha regions (total_span regions) arena tail
        (total_span regions + tail) (read_tls syms) alloc).

(** ** The program *)

Definition item_dict (x : item) : pyobj :=
  PyDict [("name", PyStr (i_name x)); ("address", PyInt (i_address x)); ("bytes", PyInt (i_bytes x));
          ("nobits", PyBool (i_nobits x))].

Definition region_dict (r : c6_region) : pyobj :=
  PyDict [("origin", PyInt (c_origin r)); ("capacity_bytes", PyInt (c_capacity r));
          ("sections", PyList (item_dict <$> c_sections r)); ("linked_span_bytes", PyInt (linked_span r));
          ("section_bytes", PyInt (section_bytes r))].

Definition symbol_entry (v : option Z) : pyobj := match v with Some z => PyInt z | None => PyNone end.

Definition tls_dict (t : tls) : pyobj :=
  PyDict [("__tdata_size", symbol_entry (tdata_size t)); ("__tbss_size", symbol_entry (tbss_size t));
          ("__tdata_align", symbol_entry (tdata_align t)); ("__tbss_align", symbol_entry (tbss_align t));
          ("emulated_tls_present", PyBool (emulated_tls_present t))].

Definition notes : list string :=
  ["RAM spans count alignment holes and .noinit; flash aliases are excluded.";
   "Stacks, static heaps and network pools already in these regions are counted once.";
   "TLS copies consume stack reservations; TLS template sections are not multiplied here.";
   "Image bytes are the actual zephyr.bin programmed by the simple-boot runner.";
   "No claim of minimum RAM or measured stack margin."].

Definition inventory_dict (r : inventory_result) : pyobj :=
  PyDict [("board", PyStr (board r)); ("image_bytes", PyInt (image_bytes r)); ("image_sha256", PyStr (image_sha256 r));
          ("ram_regions", PyDict ((fun nr => (nr.1, region_dict nr.2)) <$> ram_regions r));
          ("linked_ram_span_bytes", PyInt (linked_ram_span r));
          ("malloc_arena_config_bytes", PyInt (malloc_arena r));
          ("additional_dynamic_tail_commitment_bytes", PyInt (dynamic_tail r));
          ("ram_committed_bytes", PyInt (ram_committed r));
          ("tls", tls_dict (inv_tls r));
          ("allocated_sections", PyList (item_dict <$> allocated_sections r));
          ("observed_stack_margins", PyNone);
          ("qualification", PyStr "inventory only; not a full candidate stack-budget admission");
          ("notes", PyList (PyStr <$> notes))].

(** The main program writes the inventory. *)
Definition main (en : env) (b : c6_build) (output : string) : outcome :=
  match (r ← lift (inventory b); write en output (Json.dump_at 0 (inventory_dict r) +:+ Json.newline)) [] with
  | (Raise x, w) => Outcome (Raise x) [] [] w
  | (Ok _, w) => Outcome (Ok 0%Z) [] [] w
  end.

(** ** What the inventory promises *)

(** An item starts in a region; it leaves it. *)
Definition startsb (r : c6_region) (x : item) : bool :=
  ((c_origin r <=? i_address x) && (i_address x <? c_origin r + c_capacity r))%Z.
Definition leavesb (r : c6_region) (x : item) : bool := (c_origin r + c_capacity r <? i_address x + i_bytes x)%Z.

(** A region filled with the items that start in it. *)
Definition filled (xs : list item) (r : c6_region) : c6_region :=
  C6Region (c_origin r) (c_capacity r) (c_sections r ++ List.filter (startsb r) xs).

Definition fill (xs : list item) (nr : string * c6_region) : string * c6_region := (nr.1, filled xs nr.2).

(** No item leaves a region it starts in. *)
Definition contained (regions : c6_regions) (xs : list item) : bool :=
  forallb (fun x => forallb (fun nr => negb (startsb nr.2 x && leavesb nr.2 x)) regions) xs.

(** * Properties *)

Lemma place_in_spec x nr :
  place_in x nr =
  if startsb nr.2 x && leavesb nr.2 x then Raise (ValueError "Section crosses physical RAM boundary")
  else Ok (fill [x] nr).
Proof.
  destruct nr as [name r]. unfold place_in, fill, filled. cbn [fst snd List.filter].
  fold (startsb r x). fold (leavesb r x). destruct (startsb r x); cbn [andb].
  - by destruct (leavesb r x).
  - rewrite app_nil_r. by destruct r.
Qed.

Lemma place_spec x regions :
  place regions x =
  if forallb (fun nr => negb (startsb nr.2 x && leavesb nr.2 x)) regions
  then Ok (fill [x] <$> regions) else Raise (ValueError "Section crosses physical RAM boundary").
Proof.
  unfold place. induction regions as [|nr regions IH]; [done|]. cbn [mapM_res forallb]. rewrite place_in_spec, IH.
  destruct (startsb nr.2 x && leavesb nr.2 x); [done|]. cbn [mbind res_bind negb andb].
  by destruct (forallb _ regions).
Qed.

Lemma fill_app xs ys nr : fill ys (fill xs nr) = fill (xs ++ ys) nr.
Proof.
  destruct nr as [name r]. unfold fill, filled. cbn. f_equal. f_equal. rewrite <- app_assoc. f_equal.
  by rewrite List.filter_app.
Qed.

Lemma contained_fill regions xs ys : contained (fill ys <$> regions) xs = contained regions xs.
Proof.
  unfold contained. induction xs as [|x xs IH]; [done|]. cbn [forallb]. rewrite IH. f_equal.
  clear IH. induction regions as [|nr regions IHr]; [done|]. cbn. by rewrite IHr.
Qed.

(** The regions after every section has been placed. *)
Lemma foldM_place xs regions :
  foldM place xs regions =
  if contained regions xs then Ok (fill xs <$> regions)
  else Raise (ValueError "Section crosses physical RAM boundary").
Proof.
  revert regions. induction xs as [|x xs IH]; intros regions; cbn [foldM].
  - cbn [contained forallb]. f_equal. induction regions as [|[n r] regions IH]; [done|].
    rewrite fmap_cons, <- IH. f_equal. unfold fill, filled. cbn. rewrite app_nil_r. by destruct r.
  - rewrite place_spec. unfold contained. cbn [forallb]. destruct (forallb _ regions); [|done].
    cbn [mbind res_bind andb]. rewrite IH, contained_fill. destruct (contained regions xs) eqn:E; unfold contained in E;
      rewrite E; [|done].
    f_equal. rewrite <- list_fmap_compose. apply list_fmap_ext. intros i nr _. apply (fill_app [x] xs).
Qed.

End Inventory.
