(* ===== verification/InventorySpec.v ===== *)
(** * What the inventory of an image shows

    Every allocated section that starts in a RAM region is counted there once, no
    region is filled beyond its capacity, and what the image commits is the sum of
    the spans and of the dynamic tail. *)

From Stdlib Require Import Ascii String.
From S2P Require Import Prelude PyStr Regex RegexScan PyFloat PyObj Process Config MapFile MapSpec Inventory.

Module InventorySpec.
Import RegexScan Process Config MapSpec Inventory.

(** ** A filled region *)

Section region.
Context (r : c6_region) (xs : list item).
Context (Hempty : c_sections r = []) (Hsz : Forall (fun x => (0 <= i_bytes x)%Z) xs) (Hcap : (0 <= c_capacity r)%Z).
Context (Hin : forall x, x ∈ xs -> startsb r x = true -> leavesb r x = false).

Lemma filled_sections x : x ∈ c_sections (filled xs r) <-> x ∈ xs /\ startsb r x = true.
Proof using Hempty.
  unfold filled. cbn [c_sections]. rewrite Hempty. cbn [app]. rewrite !list_elem_of_In, filter_In. done.
Qed.

Lemma span_bounds : (0 <= linked_span (filled xs r) <= c_capacity r)%Z.
Proof using Hempty Hsz Hcap Hin.
  unfold linked_span.
  destruct (max_default_spec (c_origin (filled xs r))
    ((fun x => i_address x + i_bytes x)%Z <$> c_sections (filled xs r))) as [_ Hm].
  destruct Hm as [->|Hm]; [cbn; lia|].
  apply list_elem_of_fmap in Hm as (x & -> & [Hx Hs]%filled_sections).
  pose proof (Hin x Hx Hs) as Hl. rewrite Forall_forall in Hsz. specialize (Hsz x Hx).
  unfold startsb, leavesb in *. rewrite andb_true_iff, Z.leb_le, Z.ltb_lt in Hs. apply Z.ltb_ge in Hl.
  cbn [filled c_origin]. lia.
Qed.

Lemma span_covers x :
  x ∈ xs -> startsb r x = true -> (i_address x + i_bytes x <= c_origin r + linked_span (filled xs r))%Z.
Proof using Hempty.
  intros Hx Hs. unfold linked_span.
  destruct (max_default_spec (c_origin (filled xs r))
    ((fun x => i_address x + i_bytes x)%Z <$> c_sections (filled xs r))) as [Hub _].
  specialize (Hub (i_address x + i_bytes x)%Z). cbn [filled c_origin] in *.
  assert (i_address x + i_bytes x <= MapFile.max_default (c_origin r)
    ((fun x => i_address x + i_bytes x)%Z <$> c_sections (filled xs r)))%Z; [|lia].
  apply Hub, list_elem_of_fmap. exists x. split; [done|]. by apply filled_sections.
Qed.

End region.

(** ** The regions of the map *)


(** The regions of a map start empty. *)
Lemma add_region_empty regions m regions' :
  Forall (fun nr => c_sections nr.2 = []) regions -> add_region regions m = Ok regions' ->
  Forall (fun nr => c_sections nr.2 = []) regions'.
Proof.
  intros H E. unfold add_region in E. inv_res.
  induction H as [|[k r] regions Hr H IH]; cbn; [by repeat constructor|].
  case_decide; constructor; done.
Qed.

Lemma read_regions_empty text regions :
  read_regions text = Ok regions ->
  Forall (fun nr => c_sections nr.2 = []) regions /\ list_to_set (C := gset string) regions.*1 = REGION_NAMES.
Proof.
  unfold read_regions. intros H. inv_res. split.
  2: { match goal with E : negb _ = false |- _ => by apply negb_false_iff, bool_decide_eq_true in E end. }
  match goal with E : foldM add_region ?l [] = Ok _ |- _ => revert E; generalize l end. intros l.
  assert (forall acc, Forall (fun nr => c_sections nr.2 = []) acc -> foldM add_region l acc = Ok regions ->
    Forall (fun nr => c_sections nr.2 = []) regions) as Hf; [|by apply Hf].
  induction l as [|m l IH]; intros acc Hacc; cbn [foldM]; [by intros [= <-]|].
  intros (acc' & Ha & Hl)%bind_Ok. apply (IH acc'); [|done]. by eapply add_region_empty.
Qed.

(** ** Capacities *)

Lemma digit_value_nonneg c d : digit_value c = Some d -> (0 <= d)%Z.
Proof.
  assert (forall c, match digit_value c with Some d => (0 <=? d)%Z | None => true end = true) as H.
  { apply ascii_forallb. vm_compute. reflexivity. }
  intros E. specialize (H c). rewrite E in H. by apply Z.leb_le.
Qed.

Lemma digits_val_nonneg b acc us s z :
  (0 <= b)%Z -> (0 <= acc)%Z -> digits_val b acc us s = Some z -> (0 <= z)%Z.
Proof.
  intros Hb. revert acc us. induction s as [|c s IH]; intros acc us Hacc; cbn [digits_val].
  - destruct us; [done|]. by intros [= <-].
  - destruct (is_char "_" c); [destruct us; [done|]; by apply IH|].
    destruct (digit_value c) as [d|] eqn:Hd; [|done]. apply digit_value_nonneg in Hd.
    destruct (d <? b)%Z; [|done]. apply IH. lia.
Qed.

(** A text that starts with [0x] has no sign. *)
Lemma hex_word_nonneg w z : str_all is_word w = true -> py_int 16 ("0x" +:+ w) = Some z -> (0 <= z)%Z.
Proof.
  intros Hw. unfold py_int.
  assert (str_strip int_space ("0x" +:+ w) = "0x" +:+ w) as ->.
  { apply (str_strip_all _ is_word); [|done]. intros c Hc. apply negb_true_iff. revert c Hc. ascii_class. }
  change (split_sign ("0x" +:+ w)) with (false, "0x" +:+ w). cbn iota beta.
  change (int_unsigned 16 ("0x" +:+ w)) with (int_digits 16 (skip_underscore w)).
  destruct (int_digits 16 (skip_underscore w)) as [v|] eqn:E; [|done]. cbn. intros [= <-].
  apply digits_val_nonneg in E; lia.
Qed.

#[export] Instance simple_hex : Simple (rlit "0x" ⋅ rw⊕)
  (fun t => exists t1 t2, t = t1 +:+ t2 /\ t1 = "0x" /\ class_word is_word is_word t2 = true).
Proof. apply simple_cat; [apply simple_lit|apply simple_class_word]. Qed.

Lemma class_word_all_word t : class_word is_word is_word t = true -> str_all is_word t = true.
Proof. by destruct t. Qed.

(** The third group of a region line is a number. *)
Lemma region_length_text m prev u :
  rmatch C6_REGION (mkpos prev u []) m ->
  exists w, group 3 m = Some ("0x" +:+ w) /\ str_all is_word w = true.
Proof.
  unfold C6_REGION. intros H.
  apply rmatch_cat in H as (p1 & [_ ->]%rmatch_bol & H).
  apply rmatch_cat in H as (p2 & (n & u1 & -> & _ & ->)%(@rmatch_group_simple 1 _ _
    (simple_alt _ _ _ _ (simple_lit "sram0_0_seg") (simple_lit "lp_ram_seg"))) & H).
  apply rmatch_cat in H as (p3 & (w & u2 & -> & _ & ->)%rmatch_blanks & H).
  apply rmatch_cat in H as (p4 & (o & u3 & -> & _ & ->)%(@rmatch_group_simple 2 _ _ simple_hex) & H).
  apply rmatch_cat in H as (p5 & (w2 & u4 & -> & _ & ->)%rmatch_blanks & H).
  apply (@rmatch_group_simple 3 _ _ simple_hex) in H as (l & u5 & -> & (l1 & l2 & -> & -> & Hl) & ->).
  exists l2. split; [done|]. by apply class_word_all_word.
Qed.

Lemma add_region_capacity regions m prev u regions' :
  rmatch C6_REGION (mkpos prev u []) m -> Forall (fun nr => (0 <= c_capacity nr.2)%Z) regions ->
  add_region regions m = Ok regions' -> Forall (fun nr => (0 <= c_capacity nr.2)%Z) regions'.
Proof.
  intros (w & Hg & Hw)%region_length_text Hr E. unfold add_region, group_or_empty at 2 in E.
  apply bind_Ok in E as (o & _ & E). apply bind_Ok in E as (l & El & [= <-]).
  unfold group_or_empty in El. rewrite Hg in El. cbn [default from_option] in El. unfold id in El.
  unfold MapFile.int16 in El. destruct (py_int 16 ("0x" +:+ w)) as [z|] eqn:Ez; [|done]. injection El as ->.
  apply hex_word_nonneg in Ez; [|done].
  induction Hr as [|[k r] regions Hk Hr IH]; cbn; [by repeat constructor|]. case_decide; by constructor.
Qed.

Lemma read_regions_capacity text regions :
  read_regions text = Ok regions -> Forall (fun nr => (0 <= c_capacity nr.2)%Z) regions.
Proof.
  unfold read_regions. intros (block & _ & H)%bind_Ok. apply bind_Ok in H as (rs & Hf & H).
  apply bind_Ok in H as (u & _ & [= <-]).
  assert (forall l acc, (forall m, m ∈ l -> exists prev u, rmatch C6_REGION (mkpos prev u []) m) ->
    Forall (fun nr => (0 <= c_capacity nr.2)%Z) acc -> foldM add_region l acc = Ok rs ->
    Forall (fun nr => (0 <= c_capacity nr.2)%Z) rs) as Hl.
  { induction l as [|m l IH]; intros acc Hm Hacc; cbn [foldM]; [by intros [= <-]|].
    intros (acc' & Ha & Hr)%bind_Ok. destruct (Hm m) as (prev & v & Hmm); [apply elem_of_cons; by left|].
    apply (IH acc'); [|by eapply add_region_capacity|done]. intros m' Hm'. apply Hm, elem_of_cons. by right. }
  apply (Hl (re_findall C6_REGION block) []); [|constructor|done]. intros m. apply findall_rmatch.
Qed.

(** ** The inventory *)

(** What the numbers of an inventory mean for one region. *)
Record region_sound (xs : list item) (r : c6_region) : Prop := {
  rs_bounds : (0 <= linked_span r <= c_capacity r)%Z;
  rs_sections : forall x, x ∈ c_sections r <-> x ∈ xs /\ startsb r x = true;
  rs_covers : forall x, x ∈ xs -> startsb r x = true ->
    (i_address x + i_bytes x <= c_origin r + linked_span r)%Z /\ leavesb r x = false
}.

Lemma contained_spec regions xs n r x :
  contained regions xs = true -> (n, r) ∈ regions -> x ∈ xs -> startsb r x = true -> leavesb r x = false.
Proof.
  unfold contained. rewrite forallb_forall. intros H Hr Hx Hs. apply list_elem_of_In in Hx. apply H in Hx.
  rewrite forallb_forall in Hx. apply list_elem_of_In in Hr. apply Hx in Hr. cbn in Hr. rewrite Hs in Hr.
  by apply negb_true_iff in Hr.
Qed.

Lemma inventory_sound b r elf :
  inventory b = Ok r -> b_elf b = Ok elf -> Forall (fun s => (0 <= sh_size s)%Z) (elf_secs elf) ->
  allocated_sections r = omap alloc_item (elf_secs elf) /\
  list_to_set (C := gset string) (ram_regions r).*1 = REGION_NAMES /\
  Forall (fun nr => region_sound (allocated_sections r) nr.2) (ram_regions r) /\
  linked_ram_span r = total_span (ram_regions r) /\ (0 <= dynamic_tail r)%Z /\
  ram_committed r = (linked_ram_span r + dynamic_tail r)%Z.
Proof.
  unfold inventory. intros H He Hsz. rewrite He in H.
  apply bind_Ok in H as (text & _ & H). apply bind_Ok in H as ([] & _ & H). apply bind_Ok in H as (mt & _ & H).
  apply bind_Ok in H as (regions & Hreg & H). cbn [mbind res_bind] in H. apply bind_Ok in H as (syms & _ & H).
  cbn zeta in H. apply bind_Ok in H as (regions' & Hpl & H). apply bind_Ok in H as (arena & _ & H).
  apply bind_Ok in H as (target & _ & H). apply bind_Ok in H as (size & _ & H). apply bind_Ok in H as (sha & _ & H).
  injection H as <-. cbn [allocated_sections ram_regions linked_ram_span dynamic_tail ram_committed].
  rewrite foldM_place in Hpl. destruct (contained regions _) eqn:Hc; [|done]. injection Hpl as <-.
  destruct (read_regions_empty _ _ Hreg) as [Hempty Hnames]. apply read_regions_capacity in Hreg as Hcap.
  set (xs := omap alloc_item (elf_secs elf)) in *.
  assert (Forall (fun x => (0 <= i_bytes x)%Z) xs) as Hxs.
  { apply Forall_forall. intros x (s & Hs & Hx)%list_elem_of_omap. rewrite Forall_forall in Hsz.
    specialize (Hsz s Hs). unfold alloc_item in Hx. destruct (_ || _); [done|]. by injection Hx as <-. }
  split; [done|]. split; [|split; [|split; [done|split; [destruct (_ =? _)%Z; lia|done]]]].
  - rewrite <- Hnames. f_equal. rewrite <- list_fmap_compose. by apply list_fmap_ext.
  - apply Forall_fmap, Forall_forall. intros [n r] Hr. cbn [fill fst snd compose].
    rewrite Forall_forall in Hempty, Hcap. specialize (Hempty _ Hr). specialize (Hcap _ Hr). cbn in Hempty, Hcap.
    assert (forall x, x ∈ xs -> startsb r x = true -> leavesb r x = false) as Hin.
    { intros x Hx Hs. by eapply contained_spec. }
    split.
    + exact (span_bounds r xs Hempty Hxs Hcap Hin).
    + exact (filled_sections r xs Hempty).
    + intros x Hx Hs. split; [exact (span_covers r xs Hempty x Hx Hs)|exact (Hin x Hx Hs)].
Qed.

End InventorySpec.
