(* ===== verification/Admit.v ===== *)
(** * Admission of an ESP32-C6 image for qualification

    [stack_budget] and [admit] of [tools/admit_esp32c6.py].  The inventory, the
    ELF symbols, the generated offsets, the disassembly and the resource check
    are gathered; every stack gets a budget, and each condition that is not met
    is a failure.  What the other programs answer is a parameter: pyelftools, the
    disassembler ([objdump]) and the run of [verify_resources.py]. *)

From Stdlib Require Import Ascii String.
From S2P Require Import Prelude PyStr Regex RegexScan PyFloat PyObj Json Process Config MapFile Inventory.

Module Admit.
Import Process Config Inventory.

(** ** Stack budgets *)

(** The result of [stack_budget], with the name and the source [add] puts in. *)
Record stack_row := StackRow {
  backing_bytes : Z;
  tls_upper_bytes : Z;
  other_upper_bytes : Z;
  execution_budget_bytes : Z;
  margin_bytes : Z;
  required_bytes : Z;
  remaining_after_budget_bytes : Z;
  row_pass : bool
}.

Definition stack_budget (backing execution tls_size tls_alignment overhead margin : Z) (isr : bool) : res stack_row :=
  raise_if ((Z.min backing (Z.min execution (Z.min tls_size (Z.min overhead margin))) <? 0) || (tls_alignment <? 1))%Z
    (ValueError "Invalid stack budget") ;;
  let reserve := if isr then 0%Z else (tls_size + tls_alignment - 1)%Z in
  let required := (reserve + overhead + execution + margin)%Z in
  Ok (StackRow backing reserve overhead execution margin required (backing - required) (required <=? backing)%Z).

(** ** The reviewed stacks and callers *)

Definition STATIC : list (string * (string * Z)) :=
  [("z_main_stack", ("main", 6144%Z));
   ("z_idle_stacks", ("idle", 512%Z));
   ("sys_work_q_stack", ("system workqueue", 3072%Z));
   ("logging_stack", ("logger", 1024%Z));
   ("mgmt_stack", ("network management", 1408%Z));
   ("rx_stack", ("network RX", 1408%Z));
   ("work_q_stack", ("TCP workqueue", 1408%Z));
   ("timer_task_stack", ("ESP timer", 3072%Z));
   ("z_interrupt_stacks", ("ISR (no TLS)", 1536%Z))].

Definition BASE_CALLERS : gset string :=
  list_to_set
    ["bg_thread_main"; "z_init_cpu"; "z_cstart"; "z_impl_k_thread_create"; "k_work_queue_start"; "k_sys_work_q_init";
     "enable_logger"; "esp_timer_init"; "task_create_wrapper"; "task_create_pinned_to_core_wrapper";
     "net_mgmt_event_init"; "net_tc_rx_init"; "net_tcp_init"].

(** ** The environment *)

Record admission_env := AdmissionEnv {
  ae_build : c6_build;
  ae_config : res string;
  ae_symbols : res elf_file;
  ae_offsets : res string;
  ae_disassembly : res string;
  (** the exit status and the standard error of [verify_resources.py verify] *)
  ae_verify : Z * string;
  ae_elf_sha256 : res string
}.

(** Symbols by name, in the order of the table; the last of a name wins. *)
Abbreviation symbol_table := (list (string * elf_symbol)).

Definition symbols_of (l : list elf_symbol) : symbol_table :=
  foldl (fun t s => dict_set t (sy_name s) s) [] l.

Fixpoint symbol_get (t : symbol_table) (k : string) : option elf_symbol :=
  match t with
  | [] => None
  | (k', s) :: t => if decide (k = k') then Some s else symbol_get t k
  end.

(** [symbols.get(name, (0, 0))[1]] *)
Definition symbol_size (t : symbol_table) (k : string) : Z :=
  match symbol_get t k with Some s => sy_size s | None => 0%Z end.

(** [x or d] for an integer or [None] *)
Definition or_int (x : option Z) (d : Z) : Z :=
  match x with Some z => if (z =? 0)%Z then d else z | None => d end.

(** [int(cfg[key])] *)
Definition required_int (c : config) (key : string) : res Z :=
  match c !! key with
  | None => Raise (KeyError key)
  | Some t => match py_int 10 t with Some z => Ok z | None => Raise (ValueError "invalid literal for int()") end
  end.

(** ** The disassembly *)

(** [<name>:\n(.*?)(?=\n\n)] with [re.S] *)
Definition FUNCTION (name : string) : re :=
  rlit ("<" +:+ name +:+ ">:" +:+ String nl EmptyString) ⋅ RGroup 1 (RStar false any_char) ⋅
  RAhead (rlit (String nl (String nl EmptyString))).

(** The body of a function, if the disassembly has it. *)
Definition function_body (name dis : string) : option string := group_or_empty 1 <$> re_search (FUNCTION name) dis.

Definition vendor_known (dis : string) : bool :=
  match function_body "config_get_wifi_task_stack_size" dis with
  | Some body => str_contains "0x2" body && str_contains "-2048" body && str_contains "-1024" body && str_contains "512" body
  | None => false
  end.

(** [^[0-9a-f]+ <(.+)>:] *)
Definition FUNCTION_LINE : re :=
  RBol false ⋅ (RChr (fun c => is_digit c || in_range 97 102 c))⊕ ⋅ rlit " <" ⋅ RGroup 1 rdot⊕ ⋅ rlit ">:".

Definition CREATORS : list string :=
  ["z_impl_k_thread_create"; "k_work_queue_start"; "z_setup_new_thread"; "pthread_create"].

(** One line: the function being read and the callers so far. *)
Definition caller_line (st : string * gset string) (line : string) : string * gset string :=
  match re_match FUNCTION_LINE line with
  | Some m => (group_or_empty 1 m, st.2)
  | None =>
      if existsb (fun x => str_contains ("<" +:+ x +:+ ">") line) CREATORS then (st.1, {[st.1]} ∪ st.2) else st
  end.

Definition callers_of (dis : string) : gset string := (foldl caller_line (EmptyString, ∅) (str_splitlines dis)).2.

(** [#define __struct_arch_esf_SIZEOF (0x[0-9a-f]+)] *)
Definition ESF_SIZE : re :=
  rlit "#define __struct_arch_esf_SIZEOF " ⋅ RGroup 1 (rlit "0x" ⋅ (RChr (fun c => is_digit c || in_range 97 102 c))⊕).

Definition esf_size (offsets : string) : res Z :=
  match re_search ESF_SIZE offsets with
  | None => Raise TypeError
  | Some m => MapFile.int16 (group_or_empty 1 m)
  end.

(** ** The admission *)

(** A row with its thread and source. *)
Record thread_row := ThreadRow { thread : string; source : string; budget : stack_row }.

(** The parameters every row shares. *)
Record stack_policy := StackPolicy { sp_tls : Z; sp_align : Z; sp_other : Z; sp_margin : Z }.

Definition add (p : stack_policy) (rows : list thread_row) (name : string) (backing execution : Z) (source : string)
    (isr : bool) : res (list thread_row) :=
  row ← stack_budget backing execution (sp_tls p) (sp_align p) (sp_other p) (sp_margin p) isr;
  Ok (rows ++ [ThreadRow name source row]).

(** The budget of a static stack. *)
Definition static_execution (a_profile c_profile : bool) (main_execution_bytes : Z) (symbol : string) (budget : Z) : Z :=
  if bool_decide (symbol = "z_main_stack") then
    if c_profile then 12288%Z else if a_profile then main_execution_bytes else budget
  else budget.

Definition static_rows (p : stack_policy) (symbols : symbol_table) (a_profile c_profile : bool) (main_execution_bytes : Z) :
    res (list thread_row) :=
  foldM (fun rows '(symbol, (name, budget)) =>
    match symbol_get symbols symbol with
    | None => Ok rows
    | Some s => add p rows name (sy_size s) (static_execution a_profile c_profile main_execution_bytes symbol budget)
                  ("ELF:" +:+ symbol) (bool_decide (symbol = "z_interrupt_stacks"))
    end) STATIC [].

(** The vendor Wi-Fi task: its row and the failures it gives. *)
Definition vendor_row (p : stack_policy) (symbols : symbol_table) (a_profile : bool) (dis : string)
    (rows : list thread_row) (failures : list string) : res (list thread_row * list string) :=
  if vendor_known dis then
    if a_profile then
      let wrapped := match symbol_get symbols "__wrap_config_get_wifi_task_stack_size" with Some _ => true | None => false end in
      let called := match function_body "pp_create_task" dis with
                    | Some body => str_contains "<__wrap_config_get_wifi_task_stack_size>" body
                    | None => false
                    end in
      let failures := if negb wrapped || negb called
                      then failures ++ ["A vendor provider wrapper missing from actual pp_create_task call"]
                      else failures in
      let reserve := (sp_tls p + sp_align p - 1)%Z in
      let backing := if wrapped then ((3072 + reserve + 99 + 256 + 15) / 16 * 16)%Z else 3072%Z in
      rows ← add p rows "vendor Wi-Fi minimum (A explicit provider)" backing 3072
               "A vendor_stack.c and linked pp_create_task call" false;
      Ok (rows, failures)
    else
      rows ← add p rows "vendor Wi-Fi (minimum of 3072/3584/6144/6656)" 3072 2048
        "config_get_wifi_task_stack_size -> pp_create_task -> OS adapter -> k_thread_stack_alloc (system heap)" false;
      Ok (rows, failures)
  else Ok (rows, failures ++ ["Unknown vendor Wi-Fi stack argument"]).

(** [for i in range(slots): add(...)] *)
Definition slot_rows (p : stack_policy) (label : string) (slots each execution : Z) (source : string)
    (rows : list thread_row) : res (list thread_row) :=
  foldM (fun rows i => add p rows (label +:+ str_of_Z (Z.of_nat i)) each execution source false)
    (seq 0 (Z.to_nat slots)) rows.

Record admission_state := AdmissionState {
  st_rows : list thread_row;
  st_failures : list string;
  st_callers : gset string;
  st_stacks : gset string
}.

Definition fail (s : admission_state) (b : bool) (msg : string) : admission_state :=
  if b then AdmissionState (st_rows s) (st_failures s ++ [msg]) (st_callers s) (st_stacks s) else s.

(** The Cyclone DDS profile. *)
Definition cyclone_part (e : admission_env) (p : stack_policy) (c : config) (symbols : symbol_table) (s : admission_state) :
    res admission_state :=
  let '(returncode, stderr) := ae_verify e in
  let s := fail s (negb (returncode =? 0)%Z) ("Deployment resource check failed: " +:+ str_strip is_space stderr) in
  let callers := {["ddsrt_thread_create"; "pthread_create"]} ∪ st_callers s in
  let stacks := {["zephyr_stacks"]} ∪ st_stacks s in
  slots ← required_int c "CONFIG_ROS2_ZEPHYR_CYCLONEDDS_THREAD_COUNT";
  each ← required_int c "CONFIG_ROS2_ZEPHYR_CYCLONEDDS_THREAD_STACK_SIZE";
  let s := fail s (negb (symbol_size symbols "zephyr_stacks" =? slots * each)%Z) "Cyclone stack pool extent mismatch" in
  rows ← slot_rows p "Cyclone reserved slot " slots each 8192
           "ELF zephyr_stacks / configured count; DDSRT pthread_attr_setstack" (st_rows s);
  Ok (AdmissionState rows (st_failures s) callers stacks).

(** The nano-ROS profile. *)
Definition nano_part (p : stack_policy) (c : config) (symbols : symbol_table) (s : admission_state) : res admission_state :=
  let callers := {["nros_zephyr_task_create_prio"; "pthread_create"]} ∪ st_callers s in
  let stacks := {["nros_thread_stacks"]} ∪ st_stacks s in
  slots ← required_int c "CONFIG_NROS_ZEPHYR_TASK_SLOTS";
  size ← required_int c "CONFIG_NROS_ZEPHYR_TASK_STACK_SIZE";
  each ← (if (size =? 0)%Z then required_int c "CONFIG_MAIN_STACK_SIZE" else Ok size);
  let s := fail s (negb (symbol_size symbols "nros_thread_stacks" =? slots * each)%Z) "nano-ROS stack pool extent mismatch" in
  rows ← slot_rows p "nano-ROS reserved task slot " slots each 6144
           "ELF nros_thread_stacks; official nros_zephyr_task_create_prio pthread_attr_setstack" (st_rows s);
  Ok (AdmissionState rows (st_failures s) callers stacks).

(** Symbols that look like stacks and are not reviewed. *)
Definition unreviewed_stacks (symbols : symbol_table) (allowed : gset string) : list string :=
  omap (fun '(n, s) =>
    if bool_decide (sy_type s = "STT_OBJECT") && (256 <=? sy_size s)%Z && str_contains "stack" (str_lower n) &&
       negb (bool_decide (n ∈ allowed)) then Some n else None) symbols.

Record admission := Admission {
  ad_status : string;
  ad_elf_sha256 : string;
  ad_image_sha256 : string;
  ad_ram_committed : Z;
  ad_image_bytes : Z;
  ad_tls_template : Z;
  ad_stack_checks : list thread_row;
  ad_callers : list string;
  ad_unreviewed : list string;
  ad_dynamic_pool : Z;
  ad_thread_pool : Z;
  ad_failures : list string
}.

Definition policy_of (r : inventory_result) (c : config) (esf : Z) : stack_policy :=
  let t := inv_tls r in
  StackPolicy (or_int (tdata_size t) 0 + or_int (tbss_size t) 0)
    (Z.max (or_int (tdata_align t) 1) (or_int (tbss_align t) 1))
    (esf + 15 + (if bool_decide (c !! "CONFIG_STACK_SENTINEL" = Some "y") then 4 else 0)) 256.

(** The last conditions, in order. *)
Definition final_failures (r : inventory_result) (unknown unknown_stacks : list string) (pool : Z)
    (s : admission_state) : list string :=
  let s := fail s (negb (bool_decide (unknown = [])))
             ("Unreviewed linked thread/workqueue callers: " +:+ str_join ", " unknown) in
  let s := fail s (negb (bool_decide (unknown_stacks = [])))
             ("Unreviewed stack backing: " +:+ str_join ", " unknown_stacks) in
  let s := fail s (negb (pool =? 0)%Z) "Reserved dynamic stack pool needs explicit review" in
  let s := fail s (emulated_tls_present (inv_tls r)) "Emulated TLS" in
  let s := fail s (existsb (fun x => negb (row_pass (budget x))) (st_rows s))
             "TLS + overhead + execution + margin exceeds backing" in
  let s := fail s (450000 <? ram_committed r + 16384)%Z
             "RAM plus 16384-byte application reserve exceeds 450000-byte contract" in
  let s := fail s (2097152 <? image_bytes r)%Z "Flash contract 2097152 bytes exceeded" in
  st_failures s.

Definition admit_image (en : env) (build : string) (e : admission_env) (main_execution_bytes : Z) : io admission :=
  r ← lift (inventory (ae_build e));
  text ← lift (ae_config e);
  let c := config_of text in
  elf ← lift (ae_symbols e);
  syms ← lift match symtab elf with Some l => Ok l | None => Raise AttributeError end;
  let symbols := symbols_of syms in
  offsets ← lift (ae_offsets e);
  esf ← lift (esf_size offsets);
  let p := policy_of r c esf in
  let a_profile := bool_decide (c !! "CONFIG_ROS2_ZEPHYR_RMW_CYCLONEDDS_C" = Some "y") in
  let c_profile := bool_decide (c !! "CONFIG_NROS_C_API" = Some "y") in
  rows ← lift (static_rows p symbols a_profile c_profile main_execution_bytes);
  dis ← lift (ae_disassembly e);
  write en (path_join build "disassembly.txt") dis ;;
  '(rows, failures) ← lift (vendor_row p symbols a_profile dis rows []);
  let callers := callers_of dis in
  let s := AdmissionState rows failures BASE_CALLERS (list_to_set STATIC.*1) in
  s ← lift (if a_profile then cyclone_part e p c symbols s else Ok s);
  s ← lift (if c_profile then nano_part p c symbols s else Ok s);
  let unknown := sorted_strs (callers ∖ st_callers s) in
  let unknown_stacks := unreviewed_stacks symbols (st_stacks s) in
  pool ← lift (config_int c "CONFIG_DYNAMIC_THREAD_POOL_SIZE");
  let failures := final_failures r unknown unknown_stacks pool s in
  sha ← lift (ae_elf_sha256 e);
  mret (Admission (match failures with [] => "ADMITTED_FOR_QUALIFICATION" | _ => "NOT_ADMITTED" end) sha
          (image_sha256 r) (ram_committed r) (image_bytes r) (sp_tls p) (st_rows s) (sorted_strs callers) unknown_stacks
          pool (symbol_size symbols "posix_thread_pool") failures).

(** ** The program *)

Definition row_dict (x : thread_row) : pyobj :=
  let b := budget x in
  PyDict [("backing_bytes", PyInt (backing_bytes b));
          ("tls_upper_bytes", PyInt (tls_upper_bytes b));
          ("other_upper_bytes", PyInt (other_upper_bytes b));
          ("execution_budget_bytes", PyInt (execution_budget_bytes b));
          ("margin_bytes", PyInt (margin_bytes b));
          ("required_bytes", PyInt (required_bytes b));
          ("remaining_after_budget_bytes", PyInt (remaining_after_budget_bytes b));
          ("status", PyStr (if row_pass b then "PASS" else "FAIL"));
          ("thread", PyStr (thread x));
          ("source", PyStr (source x))].

Definition note : string :=
  "Preflash qualification admission only. 256-byte common margin policy; per-thread execution budgets differ. " +:+
  "Vendor dynamic allocation is inside the counted heap, never added twice. Dead POSIX create paths must be " +:+
  "absent or reviewed. ISR has no TLS. Watermarks do not prove worst-case safety.".

Definition admission_dict (a : admission) : pyobj :=
  PyDict [("status", PyStr (ad_status a));
          ("elf_sha256", PyStr (ad_elf_sha256 a));
          ("image_sha256", PyStr (ad_image_sha256 a));
          ("ram_committed_bytes", PyInt (ad_ram_committed a));
          ("application_reserve_bytes", PyInt 16384);
          ("ram_contract_bytes", PyInt 450000);
          ("image_bytes", PyInt (ad_image_bytes a));
          ("tls_template_bytes", PyInt (ad_tls_template a));
          ("stack_checks", PyList (row_dict <$> ad_stack_checks a));
          ("linked_thread_creation_callers", PyList (PyStr <$> ad_callers a));
          ("unreviewed_stack_symbols", PyList (PyStr <$> ad_unreviewed a));
          ("dynamic_stack_pool_count", PyInt (ad_dynamic_pool a));
          ("posix_thread_control_pool_bytes", PyInt (ad_thread_pool a));
          ("vendor_dynamic_stack_from_already_counted_system_heap", PyBool true);
          ("failures", PyList (PyStr <$> ad_failures a));
          ("observed_margins_required", PyBool true);
          ("note", PyStr note)].

(** The main program: the report, the status and the failures, and exit status 1
    when there is one.  The report is printed without sorting its keys. *)
Definition main (en : env) (build : string) (e : admission_env) (output : string) (main_execution_bytes : Z) : outcome :=
  match (a ← admit_image en build e main_execution_bytes;
         write en output (Json.dump_at 0 (admission_dict a) +:+ Json.newline) ;; mret a) [] with
  | (Raise x, w) => Outcome (Raise x) [] [] w
  | (Ok a, w) =>
      Outcome (Ok (match ad_failures a with [] => 0 | _ => 1 end)%Z)
        [ad_status a; str_join Json.newline (ad_failures a)] [] w
  end.

End Admit.
