(* ===== verification/AdmitSpec.v ===== *)
(** * When an image is admitted

    [demands] is what the reviewed stacks of a build have to hold, stated apart from
    the program: the linked static stacks, the vendor's task, the slots of the
    pools.  The report has a row for each of them, and the status is
    [ADMITTED_FOR_QUALIFICATION] exactly when every stack holds its demand and every
    other reviewed condition is met. *)

From Stdlib Require Import Ascii String.
From S2P Require Import Prelude PyStr Regex RegexScan PyFloat PyObj Json Process Config MapFile Inventory Admit.

Module AdmitSpec.
Import Process Config Inventory Admit.

(** ** Stack budgets *)

(** What a stack has to hold: its TLS copy wherever it is aligned, which an interrupt
    stack does not have, the overhead, the execution budget and the margin. *)
Definition needs (execution tls align overhead margin : Z) (isr : bool) : Z :=
  ((if isr then 0 else tls + align - 1) + overhead + execution + margin)%Z.

Definition holds (backing execution tls align overhead margin : Z) (isr : bool) : Prop :=
  (needs execution tls align overhead margin isr <= backing)%Z.

Lemma stack_budget_spec backing execution tls align overhead margin isr :
  (0 <= backing)%Z -> (0 <= execution)%Z -> (0 <= tls)%Z -> (0 <= overhead)%Z -> (0 <= margin)%Z -> (1 <= align)%Z ->
  exists row, stack_budget backing execution tls align overhead margin isr = Ok row /\
    backing_bytes row = backing /\ execution_budget_bytes row = execution /\
    (row_pass row = true <-> holds backing execution tls align overhead margin isr) /\
    remaining_after_budget_bytes row = (backing - required_bytes row)%Z /\
    (row_pass row = true <-> (0 <= remaining_after_budget_bytes row)%Z).
Proof.
  intros. unfold stack_budget.
  assert ((Z.min backing (Z.min execution (Z.min tls (Z.min overhead margin))) <? 0)%Z = false) as ->
    by (apply Z.ltb_ge; lia).
  assert ((align <? 1)%Z = false) as -> by (apply Z.ltb_ge; lia).
  cbn [orb raise_if mbind res_bind]. eexists. split; [reflexivity|]. cbn. unfold holds, needs.
  rewrite Z.leb_le. repeat split; destruct isr; lia.
Qed.

(** A budget with a negative part, or without an alignment, is refused. *)
Lemma stack_budget_invalid backing execution tls align overhead margin isr :
  (backing < 0 \/ execution < 0 \/ tls < 0 \/ overhead < 0 \/ margin < 0 \/ align < 1)%Z ->
  stack_budget backing execution tls align overhead margin isr = Raise (ValueError "Invalid stack budget").
Proof.
  intros H. unfold stack_budget.
  assert ((Z.min backing (Z.min execution (Z.min tls (Z.min overhead margin))) <? 0)%Z || (align <? 1)%Z = true)
    as ->; [|done].
  apply orb_true_iff. rewrite !Z.ltb_lt. lia.
Qed.

(** ** Failures *)

Lemma fail_nil s b msg : st_failures (fail s b msg) = [] <-> st_failures s = [] /\ b = false.
Proof.
  unfold fail. destruct b; cbn; [|tauto]. split; [|by intros [_ ?]]. by intros [? ?]%app_eq_nil.
Qed.

Lemma fail_rows s b msg : st_rows (fail s b msg) = st_rows s.
Proof. by destruct b. Qed.
Lemma fail_callers s b msg : st_callers (fail s b msg) = st_callers s.
Proof. by destruct b. Qed.
Lemma fail_stacks s b msg : st_stacks (fail s b msg) = st_stacks s.
Proof. by destruct b. Qed.

(** ** What the stacks have to hold *)

(** A stack: what backs it and what runs on it. *)
Record demand := Demand { dm_thread : string; dm_backing : Z; dm_execution : Z; dm_isr : bool }.

Definition room_for (p : stack_policy) (d : demand) : Prop :=
  holds (dm_backing d) (dm_execution d) (sp_tls p) (sp_align p) (sp_other p) (sp_margin p) (dm_isr d).

(** The row of the report for a stack. *)
Record row_for (p : stack_policy) (d : demand) (x : thread_row) : Prop := {
  rf_thread : thread x = dm_thread d;
  rf_backing : backing_bytes (budget x) = dm_backing d;
  rf_execution : execution_budget_bytes (budget x) = dm_execution d;
  rf_required : required_bytes (budget x) = needs (dm_execution d) (sp_tls p) (sp_align p) (sp_other p) (sp_margin p) (dm_isr d);
  rf_remaining : remaining_after_budget_bytes (budget x) = (dm_backing d - required_bytes (budget x))%Z;
  rf_pass : row_pass (budget x) = true <-> room_for p d
}.

(** Rows are appended, one for each stack. *)
Definition adds (p : stack_policy) (ds : list demand) (rows rows' : list thread_row) : Prop :=
  exists t, rows' = rows ++ t /\ Forall2 (row_for p) ds t.

Lemma adds_nil p rows : adds p [] rows rows.
Proof. exists []. by rewrite app_nil_r. Qed.

Lemma adds_app p ds1 ds2 r1 r2 r3 : adds p ds1 r1 r2 -> adds p ds2 r2 r3 -> adds p (ds1 ++ ds2) r1 r3.
Proof. intros (t1 & -> & H1) (t2 & -> & H2). exists (t1 ++ t2). split; [by rewrite app_assoc|by apply Forall2_app]. Qed.

Lemma add_adds p rows name backing execution source isr rows' :
  add p rows name backing execution source isr = Ok rows' -> adds p [Demand name backing execution isr] rows rows'.
Proof.
  unfold add, stack_budget. intros H. inv_res. eexists. split; [done|]. repeat constructor; cbn; unfold room_for, holds;
    cbn [dm_backing dm_execution dm_isr]; rewrite ?Z.leb_le; tauto.
Qed.

Lemma foldM_adds {A} p (g : A -> option demand) (f : list thread_row -> A -> res (list thread_row)) l rows rows' :
  (forall rows x rows', f rows x = Ok rows' -> adds p (option_list (g x)) rows rows') ->
  foldM f l rows = Ok rows' -> adds p (omap g l) rows rows'.
Proof.
  intros Hf. revert rows. induction l as [|x l IH]; intros rows; cbn [foldM]; [intros [= <-]; apply adds_nil|].
  intros (rows1 & H1 & H2)%bind_Ok. apply Hf in H1. apply IH in H2.
  assert (omap g (x :: l) = option_list (g x) ++ omap g l) as -> by (cbn; by destruct (g x)). by eapply adds_app.
Qed.

Lemma option_list_omap {A B} (f : A -> B) (l : list A) : omap (fun x => Some (f x)) l = f <$> l.
Proof. induction l as [|x l IH]; [done|]. cbn. by rewrite IH. Qed.

(** The reviewed static stacks that are linked.  What runs on the main stack depends
    on the profile, and interrupts have no TLS. *)
Definition main_execution (cyclone nano : bool) (n b : Z) : Z := if nano then 12288 else if cyclone then n else b.

Definition static_demand (symbols : symbol_table) (cyclone nano : bool) (n : Z) (x : string * (string * Z)) : option demand :=
  (fun s => Demand x.2.1 (sy_size s) (if decide (x.1 = "z_main_stack") then main_execution cyclone nano n x.2.2 else x.2.2)
              (bool_decide (x.1 = "z_interrupt_stacks"))) <$> symbol_get symbols x.1.

Definition static_demands (symbols : symbol_table) (cyclone nano : bool) (n : Z) : list demand :=
  omap (static_demand symbols cyclone nano n)
    [("z_main_stack", ("main", 6144%Z)); ("z_idle_stacks", ("idle", 512%Z)); ("sys_work_q_stack", ("system workqueue", 3072%Z));
     ("logging_stack", ("logger", 1024%Z)); ("mgmt_stack", ("network management", 1408%Z)); ("rx_stack", ("network RX", 1408%Z));
     ("work_q_stack", ("TCP workqueue", 1408%Z)); ("timer_task_stack", ("ESP timer", 3072%Z));
     ("z_interrupt_stacks", ("ISR (no TLS)", 1536%Z))].

Lemma static_rows_spec p symbols a c n rows :
  static_rows p symbols a c n = Ok rows -> Forall2 (row_for p) (static_demands symbols a c n) rows.
Proof.
  unfold static_rows. intros H.
  assert (adds p (static_demands symbols a c n) [] rows) as (t & -> & Ht); [|done].
  eapply (foldM_adds p (static_demand symbols a c n)); [|exact H]. intros r [symbol [name b]] r'. unfold static_demand. cbn [fst snd].
  destruct (symbol_get symbols symbol) as [s|]; [|intros [= <-]; apply adds_nil]. intros Ha%add_adds. cbn.
  unfold static_execution in Ha. unfold main_execution.
  destruct (decide (symbol = "z_main_stack")) as [->|Hne]; [|by rewrite bool_decide_false in Ha].
  by rewrite bool_decide_true in Ha.
Qed.

(** ** The disassembly *)

(** The text of a function: from its heading to the next blank line. *)
Definition function_text (name dis : string) : option string :=
  '(_, rest) ← str_cut ("<" +:+ name +:+ ">:" +:+ String nl EmptyString) dis;
  fst <$> str_cut (String nl (String nl EmptyString)) rest.

Lemma ahead_lit w prev s caps :
  re_matches (RAhead (rlit w)) (mkpos prev s caps) = if str_startswith w s then [mkpos prev s caps] else [].
Proof.
  pose proof (RegexScan.lit_then w REps prev s caps) as H.
  assert (re_matches (rlit w ⋅ REps) (mkpos prev s caps) = re_matches (rlit w) (mkpos prev s caps)) as E.
  { change (re_matches (RCat ?x ?y) ?p) with (concat (re_matches y <$> re_matches x p)).
    induction (re_matches (rlit w) _) as [|x l IH]; [done|]. cbn in *. by rewrite IH. }
  rewrite E in H. change (re_matches (RAhead ?r) ?p) with
    (match re_matches r p with [] => [] | p' :: _ => [mkpos (r_prev p) (r_rest p) (r_caps p')] end). rewrite H.
  unfold str_startswith. destruct (RegexScan.after_prefix w s) as [u|] eqn:Ea.
  - apply RegexScan.after_prefix_spec in Ea. rewrite (proj2 (str_prefix_spec w s)) by eauto. done.
  - destruct (String.prefix w s) eqn:Ep; [|done]. apply str_prefix_spec in Ep as [t Ht].
    apply RegexScan.after_prefix_spec in Ht. congruence.
Qed.

Lemma lazy_step n prev c t caps :
  re_star (re_matches any_char) false (S n) (mkpos prev (String c t) caps) =
  mkpos prev (String c t) caps :: re_star (re_matches any_char) false n (mkpos (Some c) t caps).
Proof.
  cbn [re_star re_matches any_char r_rest r_caps List.filter].
  assert (progress (mkpos prev (String c t) caps) (mkpos (Some c) t caps) = true) as ->.
  { unfold progress. cbn. by apply Nat.leb_le. }
  cbn [fmap list_fmap concat]. by rewrite app_nil_r.
Qed.

(** A lazy repetition stops at the first place its end is found. *)
Lemma lazy_until w prev0 prev pre s :
  group_or_empty 1 <$> head (concat (re_matches (RAhead (rlit w)) <$>
    ((fun p => mkpos (r_prev p) (r_rest p) ((1, consumed (mkpos prev0 (pre +:+ s) []) p) :: r_caps p)) <$>
     re_star (re_matches any_char) false (String.length s) (mkpos prev s [])))) =
  (fun x => pre +:+ x.1) <$> str_cut w s.
Proof.
  assert (forall prev s, consumed (mkpos prev0 (pre +:+ s) []) (mkpos prev s []) = pre) as Hc.
  { intros. apply consumed_app. }
  revert prev pre Hc. induction s as [|c t IH]; intros prev pre Hc.
  - cbn [String.length re_star fmap list_fmap concat r_prev r_rest r_caps]. rewrite Hc, ahead_lit, app_nil_r.
    cbn [str_cut]. destruct (str_startswith w EmptyString) eqn:E; unfold str_startswith in E; rewrite E; cbn; [|done].
    by rewrite str_app_nil_r.
  - change (String.length (String c t)) with (S (String.length t)). rewrite lazy_step.
    cbn [fmap list_fmap concat r_prev r_rest r_caps]. rewrite Hc, ahead_lit. cbn [str_cut].
    destruct (str_startswith w (String c t)) eqn:E; unfold str_startswith in E; rewrite E; cbn [app head]; [cbn; by rewrite str_app_nil_r|].
    assert (pre +:+ String c t = (pre +:+ String c EmptyString) +:+ t) as Hp by (rewrite str_app_assoc; done).
    specialize (IH (Some c) (pre +:+ String c EmptyString)). rewrite <- Hp in IH. rewrite IH.
    + destruct (str_cut w t) as [[a b]|]; [|done]. cbn. f_equal. by rewrite str_app_assoc.
    + intros. apply consumed_app.
Qed.

Lemma str_drop_prefix n a b : n <= String.length a -> str_drop n (a +:+ b) = str_drop n a +:+ b.
Proof. revert n. induction a as [|c a IH]; intros [|n] H; cbn in *; [done|lia|done|]. apply IH. lia. Qed.

(** What follows a later marker is the end of what follows an earlier one. *)
Lemma later_marker m c t u a rest :
  String c t = m +:+ u -> str_cut m t = Some (a, rest) -> exists x, u = x +:+ rest.
Proof.
  intros Hs Ht%str_cut_Some. exists (str_drop (String.length m) (String c (a +:+ m))).
  rewrite <- str_drop_prefix by (cbn; rewrite str_length_app; lia). rewrite str_app_cons, str_app_assoc, <- Ht, Hs.
  by rewrite str_drop_app.
Qed.

Lemma function_body_text name dis : function_body name dis = function_text name dis.
Proof.
  unfold function_body, function_text, re_search, FUNCTION. set (m := "<" +:+ _). set (w := String nl (String nl EmptyString)).
  set (R := RGroup 1 _ ⋅ _).
  assert (forall prev u, group_or_empty 1 <$> head (re_matches R (mkpos prev u [])) = fst <$> str_cut w u) as HR.
  { intros prev u. pose proof (lazy_until w prev prev EmptyString u) as H. change (EmptyString +:+ u) with u in H.
    etransitivity; [exact H|]. by destruct (str_cut w u). }
  generalize (@None ascii) as prev. induction dis as [|c t IH]; intros prev; [done|].
  cbn [re_search_from str_cut]. rewrite RegexScan.lit_then.
  destruct (RegexScan.after_prefix m (String c t)) as [u|] eqn:E.
  - apply RegexScan.after_prefix_spec in E. rewrite (proj2 (str_prefix_spec m (String c t))) by eauto.
    rewrite E, str_drop_app. cbn [mbind option_bind]. rewrite <- (HR (str_last prev m)).
    specialize (HR (str_last prev m) u). destruct (re_matches R _) as [|p l]; [|done]. cbn in HR |- *. rewrite IH.
    destruct (str_cut m t) as [[a rest]|] eqn:Ec; [|done]. destruct (later_marker _ _ _ _ _ _ E Ec) as [x ->]. cbn.
    destruct (str_cut w rest) as [[y z]|] eqn:Ew; [|done]. exfalso. apply str_cut_Some in Ew as ->.
    destruct (str_cut w (x +:+ _)) eqn:En; [done|]. apply str_cut_None, not_true_iff_false in En. apply En, str_contains_spec.
    exists (x +:+ y), z. by rewrite str_app_assoc.
  - destruct (String.prefix m (String c t)) eqn:Ep.
    { apply str_prefix_spec in Ep as [v Hv]. apply RegexScan.after_prefix_spec in Hv. congruence. }
    rewrite IH. by destruct (str_cut m t) as [[a b]|].
Qed.

(** The function a line begins. *)
Definition heading (line : string) : option string := group_or_empty 1 <$> re_match FUNCTION_LINE line.

(** A line of the function [f], after its heading, calls one of the four functions
    that create threads. *)
Definition creates_threads (dis f : string) : Prop :=
  exists before line after x, str_splitlines dis = before ++ line :: after /\ heading line = None /\
    x ∈ ["z_impl_k_thread_create"; "k_work_queue_start"; "z_setup_new_thread"; "pthread_create"] /\
    str_contains ("<" +:+ x +:+ ">") line = true /\ f = default EmptyString (last (omap heading before)).

Lemma reading_function lines :
  (foldl caller_line (EmptyString, ∅) lines).1 = default EmptyString (last (omap heading lines)).
Proof.
  induction lines as [|line lines IH] using rev_ind; [done|]. rewrite foldl_app, omap_app, last_app.
  cbn [foldl omap list_omap]. unfold caller_line at 1. destruct (heading line) as [h|] eqn:E; unfold heading in E.
  - destruct (re_match FUNCTION_LINE line); [|done]. by injection E as <-.
  - destruct (re_match FUNCTION_LINE line); [done|]. cbn -[existsb]. rewrite <- IH. by destruct (existsb _ _).
Qed.

Lemma callers_of_spec dis f : f ∈ callers_of dis <-> creates_threads dis f.
Proof.
  unfold callers_of, creates_threads. generalize (str_splitlines dis) as lines. intros lines.
  induction lines as [|line lines IH] using rev_ind.
  { split; [by intros ?%elem_of_empty|]. by intros ([|? ?] & ? & ? & ? & ? & _). }
  rewrite foldl_app. cbn [foldl]. unfold caller_line at 1. split.
  - intros H. assert (f ∈ (foldl caller_line (EmptyString, ∅) lines).2 \/
      heading line = None /\ existsb (fun x => str_contains ("<" +:+ x +:+ ">") line) CREATORS = true /\
      f = (foldl caller_line (EmptyString, ∅) lines).1) as [Hold|(Hh & Hx & ->)].
    { unfold heading. destruct (re_match FUNCTION_LINE line); [by left|]. destruct (existsb _ _); set_solver. }
    + apply IH in Hold as (pre & l & post & x & -> & Hx). exists pre, l, (post ++ [line]), x. by rewrite <- app_assoc.
    + apply existsb_exists in Hx as (x & Hx%list_elem_of_In & Hc). exists lines, line, [], x. by rewrite reading_function.
  - intros (pre & l & post & x & Hl & Hh & Hx & Hc & ->).
    destruct post as [|y post _] using rev_ind.
    + apply app_inj_tail in Hl as [-> ->]. unfold heading in Hh. destruct (re_match FUNCTION_LINE l); [done|].
      assert (existsb (fun x => str_contains ("<" +:+ x +:+ ">") l) CREATORS = true) as ->.
      { apply existsb_exists. exists x. by rewrite <- list_elem_of_In. }
      cbn. rewrite reading_function. set_solver.
    + rewrite app_comm_cons, app_assoc in Hl. apply app_inj_tail in Hl as [-> ->].
      assert (default EmptyString (last (omap heading pre)) ∈ (foldl caller_line (EmptyString, ∅) (pre ++ l :: post)).2) as Hin
        by (apply IH; eauto 10).
      destruct (re_match FUNCTION_LINE y); [done|]. destruct (existsb _ _); set_solver.
Qed.

(** ** The vendor task *)

(** The wrapper of the vendor function is linked, and the task calls it. *)
Definition wrapper_used (symbols : symbol_table) (dis : string) : Prop :=
  is_Some (symbol_get symbols "__wrap_config_get_wifi_task_stack_size") /\
  exists body, function_text "pp_create_task" dis = Some body /\
    str_contains "<__wrap_config_get_wifi_task_stack_size>" body = true.

(** The disassembly of the vendor's function has the numbers its four results come
    from. *)
Definition vendor_reviewed (dis : string) : Prop :=
  exists body, function_text "config_get_wifi_task_stack_size" dis = Some body /\
    Forall (fun x => str_contains x body = true) ["0x2"; "-2048"; "-1024"; "512"].

Lemma vendor_known_spec dis : vendor_known dis = true <-> vendor_reviewed dis.
Proof.
  unfold vendor_known, vendor_reviewed. rewrite function_body_text. destruct (function_text _ dis) as [body|]; [|split; [done|naive_solver]].
  rewrite !andb_true_iff. split.
  - intros [[[? ?] ?] ?]. exists body. by repeat constructor.
  - intros (b & [= <-] & H). rewrite !Forall_cons in H. tauto.
Qed.

(** The vendor's task: its smallest stack, or what the wrapper makes of it. *)
Definition vendor_demand (p : stack_policy) (symbols : symbol_table) (cyclone : bool) : demand :=
  if cyclone then
    Demand "vendor Wi-Fi minimum (A explicit provider)"
      match symbol_get symbols "__wrap_config_get_wifi_task_stack_size" with
      | Some _ => (3072 + (sp_tls p + sp_align p - 1) + 99 + 256 + 15) / 16 * 16
      | None => 3072
      end 3072 false
  else Demand "vendor Wi-Fi (minimum of 3072/3584/6144/6656)" 3072 2048 false.

Definition vendor_demands (p : stack_policy) (symbols : symbol_table) (cyclone : bool) (dis : string) : list demand :=
  if vendor_known dis then [vendor_demand p symbols cyclone] else [].

Lemma vendor_row_spec p symbols a dis rows failures rows' failures' :
  vendor_row p symbols a dis rows failures = Ok (rows', failures') ->
  adds p (vendor_demands p symbols a dis) rows rows' /\
  (failures' = [] <-> failures = [] /\ vendor_reviewed dis /\ (a = true -> wrapper_used symbols dis)).
Proof.
  rewrite <- vendor_known_spec. unfold vendor_row, vendor_demands, vendor_demand. destruct (vendor_known dis).
  2: { intros [= <- <-]. split; [apply adds_nil|]. split; [by intros [_ ?]%app_eq_nil|by intros (_ & ? & _)]. }
  destruct a; intros (rows1 & Ha & [= <- <-])%bind_Ok.
  - split; [apply add_adds in Ha; by destruct (symbol_get symbols _)|].
    assert (negb (match symbol_get symbols "__wrap_config_get_wifi_task_stack_size" with Some _ => true | None => false end) ||
      negb (match function_body "pp_create_task" dis with
            | Some body => str_contains "<__wrap_config_get_wifi_task_stack_size>" body | None => false end) = false <->
      wrapper_used symbols dis) as <-.
    { unfold wrapper_used. rewrite function_body_text, orb_false_iff, !negb_false_iff. f_equiv.
      - split; [|by intros [? ->]]. destruct (symbol_get symbols _); [by eexists|done].
      - destruct (function_text "pp_create_task" dis) as [body|]; split; try done; [eauto|naive_solver..]. }
    destruct (_ || _); split; [by intros [_ ?]%app_eq_nil|intros (_ & _ & H); by specialize (H eq_refl)|auto|by intros [? _]].
  - split; [by apply add_adds in Ha|]. split; [by intros ->|by intros [-> _]].
Qed.

(** ** The pools *)

(** The slots of a pool, each of the same size. *)
Definition pool_demands (label : string) (slots each execution : Z) : list demand :=
  (fun i => Demand (label +:+ str_of_Z (Z.of_nat i)) each execution false) <$> seq 0 (Z.to_nat slots).

Lemma slot_rows_spec p label slots each execution source rows rows' :
  slot_rows p label slots each execution source rows = Ok rows' ->
  adds p (pool_demands label slots each execution) rows rows'.
Proof.
  unfold slot_rows, pool_demands. rewrite <- option_list_omap. apply foldM_adds. intros r i r'. apply add_adds.
Qed.

Definition cyclone_demands (c : config) : list demand :=
  match required_int c "CONFIG_ROS2_ZEPHYR_CYCLONEDDS_THREAD_COUNT",
        required_int c "CONFIG_ROS2_ZEPHYR_CYCLONEDDS_THREAD_STACK_SIZE" with
  | Ok slots, Ok each => pool_demands "Cyclone reserved slot " slots each 8192
  | _, _ => []
  end.

(** A slot of size zero has the size of the main stack. *)
Definition nano_slot (c : config) : res Z :=
  size ← required_int c "CONFIG_NROS_ZEPHYR_TASK_STACK_SIZE";
  if (size =? 0)%Z then required_int c "CONFIG_MAIN_STACK_SIZE" else Ok size.

Definition nano_demands (c : config) : list demand :=
  match required_int c "CONFIG_NROS_ZEPHYR_TASK_SLOTS", nano_slot c with
  | Ok slots, Ok each => pool_demands "nano-ROS reserved task slot " slots each 6144
  | _, _ => []
  end.

(** The pool of a profile has the configured extent. *)
Definition pool_matches (symbols : symbol_table) (pool : string) (slots each : Z) : Prop :=
  symbol_size symbols pool = (slots * each)%Z.

Record cyclone_ok (e : admission_env) (c : config) (symbols : symbol_table) : Prop := {
  co_check : (ae_verify e).1 = 0%Z;
  co_pool : exists slots each, required_int c "CONFIG_ROS2_ZEPHYR_CYCLONEDDS_THREAD_COUNT" = Ok slots /\
    required_int c "CONFIG_ROS2_ZEPHYR_CYCLONEDDS_THREAD_STACK_SIZE" = Ok each /\
    pool_matches symbols "zephyr_stacks" slots each
}.

Lemma cyclone_part_spec e p c symbols s s' :
  cyclone_part e p c symbols s = Ok s' ->
  adds p (cyclone_demands c) (st_rows s) (st_rows s') /\
  (st_failures s' = [] <-> st_failures s = [] /\ cyclone_ok e c symbols) /\
  st_callers s' = {["ddsrt_thread_create"; "pthread_create"]} ∪ st_callers s /\
  st_stacks s' = {["zephyr_stacks"]} ∪ st_stacks s.
Proof.
  unfold cyclone_part. destruct (ae_verify e) as [code err] eqn:Ev.
  intros (slots & Hs & H)%bind_Ok. apply bind_Ok in H as (each & He & H). apply bind_Ok in H as (rows & Hr & [= <-]).
  rewrite !fail_rows in Hr. apply slot_rows_spec in Hr. cbn [st_rows st_failures st_callers st_stacks].
  rewrite fail_callers, fail_stacks, !fail_nil, !negb_false_iff, !Z.eqb_eq. unfold cyclone_demands. rewrite Hs, He. split; [done|].
  split; [|done]. split.
  - intros [[Hf Hc] Hp]. split; [done|]. split; [by rewrite Ev|]. by exists slots, each.
  - intros [Hf [Hc (slots' & each' & Hs' & He' & Hp)]]. rewrite Ev in Hc.
    rewrite Hs in Hs'. rewrite He in He'. injection Hs' as <-. by injection He' as <-.
Qed.

Record nano_ok (c : config) (symbols : symbol_table) : Prop := {
  no_pool : exists slots each, required_int c "CONFIG_NROS_ZEPHYR_TASK_SLOTS" = Ok slots /\ nano_slot c = Ok each /\
    pool_matches symbols "nros_thread_stacks" slots each
}.

Lemma nano_part_spec p c symbols s s' :
  nano_part p c symbols s = Ok s' ->
  adds p (nano_demands c) (st_rows s) (st_rows s') /\
  (st_failures s' = [] <-> st_failures s = [] /\ nano_ok c symbols) /\
  st_callers s' = {["nros_zephyr_task_create_prio"; "pthread_create"]} ∪ st_callers s /\
  st_stacks s' = {["nros_thread_stacks"]} ∪ st_stacks s.
Proof.
  unfold nano_part. intros (slots & Hs & H)%bind_Ok. apply bind_Ok in H as (size & Hz & H).
  apply bind_Ok in H as (each & He & H). apply bind_Ok in H as (rows & Hr & [= <-]).
  assert (nano_slot c = Ok each) as Hn by (unfold nano_slot; by rewrite Hz).
  rewrite !fail_rows in Hr. apply slot_rows_spec in Hr. cbn [st_rows st_failures st_callers st_stacks].
  rewrite !fail_nil, negb_false_iff, Z.eqb_eq. unfold nano_demands. rewrite Hs, Hn. split; [done|]. split; [|done]. split.
  - intros [Hf Hp]. split; [done|]. split. by exists slots, each.
  - intros [Hf [(slots' & each' & Hs' & Hn' & Hp)]]. 
    rewrite Hs in Hs'. rewrite Hn in Hn'. injection Hs' as <-. by injection Hn' as <-.
Qed.

(** ** The image *)

(** The callers and the stacks that are reviewed for a profile. *)
Definition reviewed_callers (a c : bool) : gset string :=
  (if c then {["nros_zephyr_task_create_prio"; "pthread_create"]} else ∅) ∪
  ((if a then {["ddsrt_thread_create"; "pthread_create"]} else ∅) ∪
   list_to_set ["bg_thread_main"; "z_init_cpu"; "z_cstart"; "z_impl_k_thread_create"; "k_work_queue_start"; "k_sys_work_q_init";
     "enable_logger"; "esp_timer_init"; "task_create_wrapper"; "task_create_pinned_to_core_wrapper";
     "net_mgmt_event_init"; "net_tc_rx_init"; "net_tcp_init"]).

Definition reviewed_stacks (a c : bool) : gset string :=
  (if c then {["nros_thread_stacks"]} else ∅) ∪ ((if a then {["zephyr_stacks"]} else ∅) ∪
   list_to_set ["z_main_stack"; "z_idle_stacks"; "sys_work_q_stack"; "logging_stack"; "mgmt_stack"; "rx_stack"; "work_q_stack";
     "timer_task_stack"; "z_interrupt_stacks"]).

(** A symbol that is the backing of a stack, by its type, size and name. *)
Definition stack_backing (n : string) (s : elf_symbol) : Prop :=
  sy_type s = "STT_OBJECT" /\ (256 <= sy_size s)%Z /\ str_contains "stack" (str_lower n) = true.

Definition is_cyclone (c : config) : bool := bool_decide (c !! "CONFIG_ROS2_ZEPHYR_RMW_CYCLONEDDS_C" = Some "y").
Definition is_nano (c : config) : bool := bool_decide (c !! "CONFIG_NROS_C_API" = Some "y").

(** The overhead, the margin and the TLS copy every thread has, from the symbols of
    the image: an absent size is none, and an alignment is at least one. *)
Definition symbol_value (l : list elf_symbol) (k : string) : Z := default 0%Z (symbol_values l !! k).

Definition reviewed_policy (l : list elf_symbol) (c : config) (esf : Z) : stack_policy :=
  StackPolicy (symbol_value l "__tdata_size" + symbol_value l "__tbss_size")
    (Z.max 1 (Z.max (symbol_value l "__tdata_align") (symbol_value l "__tbss_align")))
    (esf + 15 + (if decide (c !! "CONFIG_STACK_SENTINEL" = Some "y") then 4 else 0)) 256.

(** Every stack of the image. *)
Definition demands (p : stack_policy) (c : config) (symbols : symbol_table) (dis : string) (n : Z) : list demand :=
  ((static_demands symbols (is_cyclone c) (is_nano c) n ++ vendor_demands p symbols (is_cyclone c) dis) ++
   (if is_cyclone c then cyclone_demands c else [])) ++ (if is_nano c then nano_demands c else []).

(** Every condition of the admission. *)
Record qualified (e : admission_env) (r : inventory_result) (c : config) (symbols : symbol_table) (dis : string)
    (p : stack_policy) (n : Z) : Prop := {
  qu_stacks : Forall (room_for p) (demands p c symbols dis n);
  qu_ram : (ram_committed r + 16384 <= 450000)%Z;
  qu_flash : (image_bytes r <= 2097152)%Z;
  qu_tls : emulated_tls_present (inv_tls r) = false;
  qu_vendor : vendor_reviewed dis;
  qu_wrapper : is_cyclone c = true -> wrapper_used symbols dis;
  qu_cyclone : is_cyclone c = true -> cyclone_ok e c symbols;
  qu_nano : is_nano c = true -> nano_ok c symbols;
  qu_callers : forall f, creates_threads dis f -> f ∈ reviewed_callers (is_cyclone c) (is_nano c);
  qu_backing : forall n s, (n, s) ∈ symbols -> stack_backing n s -> n ∈ reviewed_stacks (is_cyclone c) (is_nano c);
  qu_pool : config_int c "CONFIG_DYNAMIC_THREAD_POOL_SIZE" = Ok 0%Z
}.

Lemma unreviewed_nil symbols allowed :
  unreviewed_stacks symbols allowed = [] <-> forall n s, (n, s) ∈ symbols -> stack_backing n s -> n ∈ allowed.
Proof.
  unfold unreviewed_stacks, stack_backing. split.
  - intros H n s Hin (Ht & Hz & Hn). destruct (decide (n ∈ allowed)) as [|Hno]; [done|]. exfalso.
    assert (n ∈ @nil string) as []%elem_of_nil. rewrite <- H. apply list_elem_of_omap. exists (n, s).
    split; [done|]. rewrite bool_decide_true, (proj2 (Z.leb_le _ _) Hz), Hn, bool_decide_false by done. done.
  - intros H. destruct (omap _ symbols) as [|n l] eqn:E; [done|]. exfalso.
    assert (n ∈ n :: l) as Hin by (apply elem_of_cons; by left). rewrite <- E in Hin.
    apply list_elem_of_omap in Hin as ([n' s] & Hin & Hc).
    destruct (bool_decide (sy_type s = "STT_OBJECT")) eqn:H1; [|done].
    destruct (256 <=? sy_size s)%Z eqn:H2; [|done]. destruct (str_contains _ _) eqn:H3; [|done].
    destruct (bool_decide (n' ∈ allowed)) eqn:H4; [done|]. apply bool_decide_eq_true in H1.
    apply Z.leb_le in H2. apply bool_decide_eq_false in H4. by apply H4, (H n' s).
Qed.

Lemma rows_pass p ds rows :
  Forall2 (row_for p) ds rows ->
  existsb (fun x => negb (row_pass (budget x))) rows = false <-> Forall (room_for p) ds.
Proof.
  induction 1 as [|d x ds rows Hx _ IH]; [split; [constructor|done]|]. cbn [existsb].
  rewrite orb_false_iff, Forall_cons, IH, negb_false_iff. by rewrite (rf_pass p d x Hx).
Qed.

Lemma final_failures_nil r unknown unknown_stacks pool p ds s :
  Forall2 (row_for p) ds (st_rows s) ->
  final_failures r unknown unknown_stacks pool s = [] <->
  st_failures s = [] /\ unknown = [] /\ unknown_stacks = [] /\ pool = 0%Z /\
  emulated_tls_present (inv_tls r) = false /\ Forall (room_for p) ds /\
  (ram_committed r + 16384 <= 450000)%Z /\ (image_bytes r <= 2097152)%Z.
Proof.
  intros Hr. unfold final_failures. rewrite !fail_nil, !fail_rows, (rows_pass p ds) by done.
  rewrite !negb_false_iff, !bool_decide_eq_true, Z.eqb_eq, !Z.ltb_ge. tauto.
Qed.

Lemma unknown_nil dis (allowed : gset string) :
  sorted_strs (callers_of dis ∖ allowed) = [] <-> forall f, creates_threads dis f -> f ∈ allowed.
Proof.
  assert ((forall f, creates_threads dis f -> f ∈ allowed) <-> callers_of dis ⊆ allowed) as ->
    by (unfold subseteq, set_subseteq_instance; setoid_rewrite callers_of_spec; done).
  rewrite sorted_strs_nil. split; [|set_solver]. intros H x Hx. destruct (decide (x ∈ allowed)) as [|Hn]; [done|].
  assert (x ∈ (∅ : gset string)) as H0 by (rewrite <- H; set_solver). set_solver.
Qed.

(** What the admission of a build starts from. *)
Record inputs (e : admission_env) (r : inventory_result) (c : config) (l : list elf_symbol) (dis : string) (esf : Z) : Prop := {
  in_inventory : inventory (ae_build e) = Ok r;
  in_config : exists text, ae_config e = Ok text /\ c = config_of text;
  in_symbols : exists elf, ae_symbols e = Ok elf /\ symtab elf = Some l;
  in_offsets : exists text, ae_offsets e = Ok text /\ esf_size text = Ok esf;
  in_disassembly : ae_disassembly e = Ok dis
}.

Lemma inputs_unique e r c l dis esf r' c' l' dis' esf' :
  inputs e r c l dis esf -> inputs e r' c' l' dis' esf' -> r' = r /\ c' = c /\ l' = l /\ dis' = dis /\ esf' = esf.
Proof.
  intros [H1 (t & H2 & ->) (elf & H3 & H4) (o & H5 & H6) H7] [G1 (t' & G2 & ->) (elf' & G3 & G4) (o' & G5 & G6) G7].
  rewrite H1 in G1. rewrite H2 in G2. rewrite H3 in G3. rewrite H5 in G5. rewrite H7 in G7. simplify_eq. repeat split; congruence.
Qed.

(** A part that a profile adds, or none. *)
Lemma profile_part p ds (b : bool) (part : res admission_state) (s s' : admission_state) (P : Prop) (cs ss : gset string) :
  (if b then part else Ok s) = Ok s' ->
  (part = Ok s' ->
   adds p ds (st_rows s) (st_rows s') /\ (st_failures s' = [] <-> st_failures s = [] /\ P) /\
   st_callers s' = cs ∪ st_callers s /\ st_stacks s' = ss ∪ st_stacks s) ->
  adds p (if b then ds else []) (st_rows s) (st_rows s') /\
  (st_failures s' = [] <-> st_failures s = [] /\ (b = true -> P)) /\
  st_callers s' = (if b then cs else ∅) ∪ st_callers s /\ st_stacks s' = (if b then ss else ∅) ∪ st_stacks s.
Proof.
  intros H Hpart. destruct b.
  - destruct (Hpart H) as (H1 & H2 & H3). split; [done|]. split; [|done]. rewrite H2. naive_solver.
  - injection H as <-. split; [apply adds_nil|]. split; [naive_solver|]. split; set_solver.
Qed.

(** The status that a list of failures means. *)
Definition verdict (failures : list string) : string :=
  match failures with [] => "ADMITTED_FOR_QUALIFICATION" | _ => "NOT_ADMITTED" end.

Lemma admit_spec en build e n a w :
  admit_image en build e n [] = (Ok a, w) ->
  exists r c l dis esf, inputs e r c l dis esf /\ w = [(path_join build "disassembly.txt", dis)] /\
    let p := policy_of r c esf in
    (ad_status a = "ADMITTED_FOR_QUALIFICATION" <-> qualified e r c (symbols_of l) dis p n) /\
    ad_status a = verdict (ad_failures a) /\ Forall2 (row_for p) (demands p c (symbols_of l) dis n) (ad_stack_checks a).
Proof.
  unfold admit_image. intros (r & Hinv & H)%lift_bind_Ok. apply lift_bind_Ok in H as (text & Htext & H).
  apply lift_bind_Ok in H as (elf & Helf & H). apply lift_bind_Ok in H as (syms & Hsyms & H).
  destruct (symtab elf) as [l|] eqn:Hl; [|done]. injection Hsyms as ->. cbn zeta in H.
  apply lift_bind_Ok in H as (offsets & Hoff & H). apply lift_bind_Ok in H as (esf & Hesf & H).
  fold (is_cyclone (config_of text)) in H. fold (is_nano (config_of text)) in H.
  set (c := config_of text) in *. set (symbols := symbols_of syms) in *. set (p := policy_of r c esf) in *.
  apply lift_bind_Ok in H as (rows0 & Hst & H). apply lift_bind_Ok in H as (dis & Hdis & H).
  apply write_bind_Ok in H. apply lift_bind_Ok in H as ([rows1 f1] & Hv & H).
  apply lift_bind_Ok in H as (s1 & Hs1 & H). apply lift_bind_Ok in H as (s2 & Hs2 & H).
  apply lift_bind_Ok in H as (pool & Hpool & H). apply lift_bind_Ok in H as (sha & _ & [= <- <-]).
  apply static_rows_spec in Hst. apply vendor_row_spec in Hv as (Ht1 & Hf1).
  destruct (profile_part p _ _ _ _ _ _ _ _ Hs1 (cyclone_part_spec _ _ _ _ _ _)) as (Ht2 & Hf2 & Hcal2 & Hstk2).
  destruct (profile_part p _ _ _ _ _ _ _ _ Hs2 (nano_part_spec _ _ _ _ _)) as (Ht3 & Hf3 & Hcal3 & Hstk3).
  cbn [st_rows st_failures st_callers st_stacks] in *.
  assert (Forall2 (row_for p) (demands p c symbols dis n) (st_rows s2)) as Hrt.
  { assert (adds p (demands p c symbols dis n) [] (st_rows s2)) as (t & -> & Ht); [|done].
    eapply adds_app; [eapply adds_app; [eapply adds_app|]|]; [by exists rows0|exact Ht1|exact Ht2|exact Ht3]. }
  pose proof (final_failures_nil r (sorted_strs (callers_of dis ∖ st_callers s2))
    (unreviewed_stacks symbols (st_stacks s2)) pool p _ s2 Hrt) as Hff.
  set (ff := final_failures _ _ _ _ _) in *.
  exists r, c, syms, dis, esf. cbn [ad_status ad_failures ad_stack_checks].
  split; [split; [done|by exists text|by exists elf|by exists offsets|done]|]. split; [done|]. cbn zeta. fold p symbols.
  assert ((match ff with [] => "ADMITTED_FOR_QUALIFICATION" | _ :: _ => "NOT_ADMITTED" end) =
    "ADMITTED_FOR_QUALIFICATION" <-> ff = []) as Hst' by (by destruct ff).
  split; [|done].
  rewrite Hst', Hff, Hf3, Hf2, Hf1, unknown_nil, unreviewed_nil, Hcal3, Hcal2, Hstk3, Hstk2. split.
  - intros ((((_ & ? & ?) & ?) & ?) & ? & ? & -> & ? & ? & ? & ?). by split.
  - intros [? ? ? ? ? ? ? ? ? ? Hp]. rewrite Hpool in Hp. injection Hp as ->. auto 20.
Qed.

(** ** The admission returns *)

Record policy_ok (p : stack_policy) : Prop := {
  po_tls : (0 <= sp_tls p)%Z; po_align : (1 <= sp_align p)%Z; po_other : (0 <= sp_other p)%Z; po_margin : (0 <= sp_margin p)%Z
}.

(** Addresses and sizes of ELF symbols are unsigned. *)
Definition unsigned_symbol (s : elf_symbol) : Prop := (0 <= sy_value s)%Z /\ (0 <= sy_size s)%Z.

Lemma add_returns p rows name backing execution source isr :
  policy_ok p -> (0 <= backing)%Z -> (0 <= execution)%Z -> exists rows', add p rows name backing execution source isr = Ok rows'.
Proof.
  intros [] Hb He. unfold add.
  destruct (stack_budget_spec backing execution (sp_tls p) (sp_align p) (sp_other p) (sp_margin p) isr) as (row & -> & _);
    [done..|]. by eexists.
Qed.

Lemma foldM_returns {A S} (f : S -> A -> res S) l s :
  (forall s x, x ∈ l -> exists s', f s x = Ok s') -> exists s', foldM f l s = Ok s'.
Proof.
  revert s. induction l as [|x l IH]; intros s H; cbn [foldM]; [by eexists|].
  destruct (H s x) as [s' ->]; [apply elem_of_cons; by left|]. cbn. apply IH. intros t y Hy. apply H, elem_of_cons. by right.
Qed.

Lemma symbol_get_set (t : symbol_table) k s k' :
  symbol_get (dict_set t k s) k' = if decide (k' = k) then Some s else symbol_get t k'.
Proof.
  induction t as [|[k0 s0] t IH]; cbn; [repeat case_decide; congruence|].
  destruct (decide (k = k0)); cbn; repeat case_decide; try congruence. 
Qed.

Lemma symbols_of_unsigned l k s :
  Forall unsigned_symbol l -> symbol_get (symbols_of l) k = Some s -> (0 <= sy_size s)%Z.
Proof.
  intros Hl. unfold symbols_of.
  assert (forall t, (forall k s, symbol_get t k = Some s -> (0 <= sy_size s)%Z) ->
    forall k s, symbol_get (foldl (fun t s => dict_set t (sy_name s) s) t l) k = Some s -> (0 <= sy_size s)%Z) as H;
    [|by apply H].
  induction Hl as [|x l [_ Hx] _ IH]; intros t Ht; [done|]. cbn [foldl]. apply IH. intros k' s'.
  rewrite symbol_get_set. case_decide; [by intros [= <-]|apply Ht].
Qed.

Lemma symbol_values_unsigned l k z : Forall unsigned_symbol l -> symbol_values l !! k = Some z -> (0 <= z)%Z.
Proof.
  intros Hl. unfold symbol_values.
  assert (forall m : gmap string Z, (forall k z, m !! k = Some z -> (0 <= z)%Z) ->
    forall k z, foldl (fun m s => <[sy_name s := sy_value s]> m) m l !! k = Some z -> (0 <= z)%Z) as H.
  { induction Hl as [|x l [Hx _] _ IH]; intros m Hm; [done|]. cbn [foldl]. apply IH. intros k' z'.
    rewrite lookup_insert_Some. intros [[_ <-]|[_ ?]]; [done|by eapply Hm]. }
  apply H. intros k' z'. by rewrite lookup_empty.
Qed.

Lemma policy_of_reviewed r c esf l :
  inv_tls r = read_tls l -> Forall unsigned_symbol l -> policy_of r c esf = reviewed_policy l c esf.
Proof.
  intros Ht Hl. unfold policy_of, reviewed_policy, symbol_value. rewrite Ht.
  cbn [read_tls tdata_size tbss_size tdata_align tbss_align].
  assert (forall k, or_int (symbol_values l !! k) 0 = default 0%Z (symbol_values l !! k)) as H0.
  { intros k. destruct (symbol_values l !! k) as [z|]; [|done]. cbn. destruct (Z.eqb_spec z 0); [done|done]. }
  assert (forall k, or_int (symbol_values l !! k) 1 = Z.max 1 (default 0%Z (symbol_values l !! k))) as H1.
  { intros k. destruct (symbol_values l !! k) as [z|] eqn:E; [|done]. apply symbol_values_unsigned in E; [|done]. cbn.
    destruct (Z.eqb_spec z 0); lia. }
  rewrite !H0, !H1. f_equal; [lia|]. by case_decide; [rewrite bool_decide_true|rewrite bool_decide_false].
Qed.

Lemma reviewed_policy_ok l c esf : Forall unsigned_symbol l -> (0 <= esf)%Z -> policy_ok (reviewed_policy l c esf).
Proof.
  intros Hl He. assert (forall k, 0 <= symbol_value l k)%Z as Hv.
  { intros k. unfold symbol_value. destruct (symbol_values l !! k) as [z|] eqn:E; [|done]. by apply symbol_values_unsigned in E. }
  pose proof (Hv "__tdata_size"). pose proof (Hv "__tbss_size"). split; cbn; [lia|lia|case_decide; lia|lia].
Qed.

Lemma static_rows_returns p l a c n :
  policy_ok p -> Forall unsigned_symbol l -> (0 <= n)%Z -> exists rows, static_rows p (symbols_of l) a c n = Ok rows.
Proof.
  intros Hp Hl Hn. unfold static_rows. apply foldM_returns. intros rows [symbol [name b]] Hin.
  destruct (symbol_get (symbols_of l) symbol) as [s|] eqn:E; [|by eexists]. apply symbols_of_unsigned in E; [|done].
  apply add_returns; [done..|]. unfold static_execution.
  assert (0 <= b)%Z by (unfold STATIC in Hin; set_unfold in Hin; naive_solver lia).
  case_bool_decide; [|done]. destruct c; [done|]. by destruct a.
Qed.

Lemma vendor_row_returns p symbols a dis rows f : policy_ok p -> exists x, vendor_row p symbols a dis rows f = Ok x.
Proof.
  intros Hp. unfold vendor_row. destruct (vendor_known dis); [|by eexists]. destruct a.
  - set (wrapped := match symbol_get _ _ with Some _ => true | None => false end). cbn zeta.
    edestruct add_returns as [rows' Hr]; [exact Hp| | |erewrite Hr; by eexists]; [|done].
    destruct Hp. destruct wrapped; [|done]. pose proof (Z.div_pos (3072 + (sp_tls p + sp_align p - 1) + 99 + 256 + 15) 16). lia.
  - edestruct add_returns as [rows' Hr]; [exact Hp| | |erewrite Hr; by eexists]; done.
Qed.

Lemma slot_rows_returns p label slots each execution source rows :
  policy_ok p -> (0 <= each)%Z -> (0 <= execution)%Z -> exists rows', slot_rows p label slots each execution source rows = Ok rows'.
Proof. intros. unfold slot_rows. apply foldM_returns. intros. by apply add_returns. Qed.

(** A configured number that is not negative. *)
Definition has_size (c : config) (key : string) : Prop := exists z, required_int c key = Ok z /\ (0 <= z)%Z.

Lemma cyclone_part_returns e p c symbols s :
  policy_ok p -> has_size c "CONFIG_ROS2_ZEPHYR_CYCLONEDDS_THREAD_COUNT" ->
  has_size c "CONFIG_ROS2_ZEPHYR_CYCLONEDDS_THREAD_STACK_SIZE" -> exists s', cyclone_part e p c symbols s = Ok s'.
Proof.
  intros Hp (slots & Hs & _) (each & He & Hz). unfold cyclone_part. destruct (ae_verify e). rewrite Hs, He.
  cbn [mbind res_bind]. edestruct slot_rows_returns as [rows Hr]; [exact Hp|exact Hz| |erewrite Hr; by eexists]. done.
Qed.

Lemma nano_part_returns p c symbols s :
  policy_ok p -> has_size c "CONFIG_NROS_ZEPHYR_TASK_SLOTS" -> has_size c "CONFIG_NROS_ZEPHYR_TASK_STACK_SIZE" ->
  has_size c "CONFIG_MAIN_STACK_SIZE" -> exists s', nano_part p c symbols s = Ok s'.
Proof.
  intros Hp (slots & Hs & _) (size & Hz & Hzn) (mn & Hm & Hmn). unfold nano_part. rewrite Hs, Hz. cbn [mbind res_bind].
  destruct (size =? 0)%Z; [rewrite Hm|]; cbn [mbind res_bind];
    (edestruct slot_rows_returns as [rows Hr]; [exact Hp| | |erewrite Hr; by eexists]; [|done]); done.
Qed.

(** A build that can be judged: every file is there and well formed, and the
    profiles it selects have their settings. *)
Record judgeable (e : admission_env) (n : Z) (r : inventory_result) (c : config) (l : list elf_symbol) (dis : string)
    (esf : Z) : Prop := {
  ju_inputs : inputs e r c l dis esf;
  ju_tls : inv_tls r = read_tls l;
  ju_unsigned : Forall unsigned_symbol l;
  ju_esf : (0 <= esf)%Z;
  ju_main : (0 <= n)%Z;
  ju_cyclone : is_cyclone c = true -> has_size c "CONFIG_ROS2_ZEPHYR_CYCLONEDDS_THREAD_COUNT" /\
    has_size c "CONFIG_ROS2_ZEPHYR_CYCLONEDDS_THREAD_STACK_SIZE";
  ju_nano : is_nano c = true -> has_size c "CONFIG_NROS_ZEPHYR_TASK_SLOTS" /\
    has_size c "CONFIG_NROS_ZEPHYR_TASK_STACK_SIZE" /\ has_size c "CONFIG_MAIN_STACK_SIZE";
  ju_pool : exists z, config_int c "CONFIG_DYNAMIC_THREAD_POOL_SIZE" = Ok z;
  ju_sha : exists sha, ae_elf_sha256 e = Ok sha
}.

Lemma admit_returns en build e n r c l dis esf :
  judgeable e n r c l dis esf -> env_write en (path_join build "disassembly.txt") = Ok tt ->
  exists a w, admit_image en build e n [] = (Ok a, w).
Proof.
  intros [[Hinv (text & Ht & ->) (elf & Helf & Hl) (ot & Ho & Hesf) Hdis] Htls Hu He Hn Hcy Hna [pool Hp] [sha Hsha]] Hw.
  pose proof (reviewed_policy_ok l (config_of text) esf Hu He) as Hpol. rewrite <- (policy_of_reviewed r) in Hpol by done.
  unfold admit_image. rewrite (lift_Ok_bind _ _ _ _ Hinv), (lift_Ok_bind _ _ _ _ Ht). cbn zeta.
  rewrite (lift_Ok_bind _ _ _ _ Helf), Hl, (lift_Ok_bind _ _ _ l eq_refl), (lift_Ok_bind _ _ _ _ Ho),
    (lift_Ok_bind _ _ _ _ Hesf).
  fold (is_cyclone (config_of text)). fold (is_nano (config_of text)).
  edestruct static_rows_returns as [rows Hr]; [exact Hpol|exact Hu|exact Hn|rewrite (lift_Ok_bind _ _ _ _ Hr)].
  rewrite (lift_Ok_bind _ _ _ _ Hdis). unfold mbind at 1, io_bind at 1, write. rewrite Hw.
  edestruct vendor_row_returns as [[rows1 f1] Hv]; [exact Hpol|rewrite (lift_Ok_bind _ _ _ _ Hv)].
  match goal with |- context [if is_cyclone ?c then ?m else Ok ?s] =>
    assert (exists s1, (if is_cyclone c then m else Ok s) = Ok s1) as [s1 H1]
      by (destruct (is_cyclone c); [destruct Hcy; [done|by apply cyclone_part_returns]|by eexists]) end.
  rewrite (lift_Ok_bind _ _ _ _ H1).
  match goal with |- context [if is_nano ?c then ?m else Ok ?s] =>
    assert (exists s2, (if is_nano c then m else Ok s) = Ok s2) as [s2 H2]
      by (destruct (is_nano c); [destruct Hna as (? & ? & ?); [done|by apply nano_part_returns]|by eexists]) end.
  rewrite (lift_Ok_bind _ _ _ _ H2), (lift_Ok_bind _ _ _ _ Hp), (lift_Ok_bind _ _ _ _ Hsha). by eexists _, _.
Qed.

(** The judgement of a build. *)
Lemma admit_judges en build e n r c l dis esf :
  judgeable e n r c l dis esf -> env_write en (path_join build "disassembly.txt") = Ok tt ->
  let p := reviewed_policy l c esf in
  exists a, admit_image en build e n [] = (Ok a, [(path_join build "disassembly.txt", dis)]) /\
    (ad_status a = "ADMITTED_FOR_QUALIFICATION" <-> qualified e r c (symbols_of l) dis p n) /\
    ad_status a = verdict (ad_failures a) /\ Forall2 (row_for p) (demands p c (symbols_of l) dis n) (ad_stack_checks a).
Proof.
  intros Hj Hw p. destruct (admit_returns _ build _ _ _ _ _ _ _ Hj Hw) as (a & w & Ha). exists a.
  destruct (admit_spec _ _ _ _ _ _ Ha) as (r' & c' & l' & dis' & esf' & Hin & -> & H).
  destruct (inputs_unique _ _ _ _ _ _ _ _ _ _ _ (ju_inputs _ _ _ _ _ _ _ Hj) Hin) as (-> & -> & -> & -> & ->).
  cbn zeta in H. rewrite (policy_of_reviewed r c esf l) in H; [done|apply Hj..].
Qed.

End AdmitSpec.
