(* ===== verification/C6Theorems.v ===== *)
(** * The ESP32-C6 admission: theorems

    The properties of [tools/esp32c6_resources.py] and [tools/admit_esp32c6.py],
    with a concrete build as witness. *)

From Stdlib Require Import Ascii String.
From S2P Require Import Prelude PyStr Regex RegexScan PyFloat PyObj Json Process Config MapFile Inventory InventorySpec.
From S2P Require Import Admit AdmitSpec.

Module C6Theorems.
Import Process Config Inventory InventorySpec Admit AdmitSpec.

(** ** A sample build *)

Definition c6_config : string :=
  text_of_lines
    ["CONFIG_SOC_ESP32C6_HPCORE=y";
     "CONFIG_BOARD_TARGET=" +:+ String dquote ("esp32c6_devkitc/esp32c6/hpcore" +:+ String dquote EmptyString);
     "# CONFIG_NROS_C_API is not set";
     "CONFIG_COMMON_LIBC_MALLOC_ARENA_SIZE=-1";
     "CONFIG_ROS2_ZEPHYR_RMW_CYCLONEDDS_C=y";
     "CONFIG_ROS2_ZEPHYR_CYCLONEDDS_THREAD_COUNT=2";
     "CONFIG_ROS2_ZEPHYR_CYCLONEDDS_THREAD_STACK_SIZE=12288";
     "CONFIG_STACK_SENTINEL=y"].

Definition c6_map : string :=
  text_of_lines
    ["Memory Configuration"; EmptyString; "Name Origin Length Attributes";
     "sram0_0_seg      0x40800000         0x00080000         xrw";
     "lp_ram_seg       0x50000000         0x00004000         rw"; EmptyString;
     "Linker script and memory map"].

Definition c6_elf : elf_file :=
  ElfFile
    [ElfSec EmptyString 0 0 0 "SHT_NULL";
     ElfSec ".flash.text" 6 1107296256 300000 "SHT_PROGBITS";
     ElfSec ".dram0.data" 3 1082130432 20000 "SHT_PROGBITS";
     ElfSec ".noinit" 3 1082150464 60000 "SHT_NOBITS";
     ElfSec ".lp_ram" 3 1342177280 64 "SHT_NOBITS";
     ElfSec ".debug_info" 0 0 90000 "SHT_PROGBITS"]
    (Some
      [ElfSym "__tdata_size" 16 0 "STT_NOTYPE"; ElfSym "__tbss_size" 48 0 "STT_NOTYPE";
       ElfSym "__tdata_align" 8 0 "STT_NOTYPE"; ElfSym "__tbss_align" 8 0 "STT_NOTYPE";
       ElfSym "_end" 1082210464 0 "STT_NOTYPE"; ElfSym "_heap_sentry" 1082310464 0 "STT_NOTYPE";
       ElfSym "z_main_stack" 1082150464 11648 "STT_OBJECT"; ElfSym "z_interrupt_stacks" 1082162112 2048 "STT_OBJECT";
       ElfSym "zephyr_stacks" 1082164160 24576 "STT_OBJECT";
       ElfSym "__wrap_config_get_wifi_task_stack_size" 1107296256 64 "STT_FUNC"]).

Definition c6_build : c6_build := C6Build (Ok c6_config) (Ok c6_map) (Ok c6_elf) (Ok 700000%Z) (Ok "ab12").

Definition c6_disassembly : string :=
  text_of_lines
    ["42000000 <config_get_wifi_task_stack_size>:"; " li a0,0x2"; " addi a0,a0,-2048"; " addi a0,a0,-1024"; " li a1,512";
     EmptyString; "42000100 <pp_create_task>:"; " jal <__wrap_config_get_wifi_task_stack_size>"; EmptyString;
     "42000200 <ddsrt_thread_create>:"; " jal 42000300 <pthread_create>"; EmptyString;
     "42000300 <pthread_create>:"; " jal 42000400 <z_impl_k_thread_create>"; EmptyString].

Definition c6_env : admission_env :=
  AdmissionEnv c6_build (Ok c6_config) (Ok c6_elf) (Ok "#define __struct_arch_esf_SIZEOF 0x50")
    (Ok c6_disassembly) (0%Z, EmptyString) (Ok "cd34").

(** ** The properties *)

(** A budget with a negative part, or an alignment below one, is refused with
    [ValueError]; otherwise the stack passes exactly when it holds its TLS copy at
    any alignment, the overhead, the execution budget and the margin, where an
    interrupt stack has no TLS copy, and what remains is not negative exactly when
    it passes. *)
Theorem stack_budget_exact backing execution tls align overhead margin isr :
  match stack_budget backing execution tls align overhead margin isr with
  | Raise e => e = ValueError "Invalid stack budget" /\
      (backing < 0 \/ execution < 0 \/ tls < 0 \/ overhead < 0 \/ margin < 0 \/ align < 1)%Z
  | Ok row =>
      (0 <= backing /\ 0 <= execution /\ 0 <= tls /\ 0 <= overhead /\ 0 <= margin /\ 1 <= align)%Z /\
      backing_bytes row = backing /\ execution_budget_bytes row = execution /\
      (row_pass row = true <-> holds backing execution tls align overhead margin isr) /\
      remaining_after_budget_bytes row = (backing - required_bytes row)%Z /\
      (row_pass row = true <-> (0 <= remaining_after_budget_bytes row)%Z)
  end.
Proof.
  destruct (decide (0 <= backing /\ 0 <= execution /\ 0 <= tls /\ 0 <= overhead /\ 0 <= margin /\ 1 <= align)%Z) as [Hv|Hv].
  - destruct (stack_budget_spec backing execution tls align overhead margin isr) as (row & -> & H); [lia..|]. done.
  - rewrite stack_budget_invalid by lia. split; [done|lia].
Qed.

(** C32: in an inventory every allocated section that starts in a RAM region is
    listed there, lies within the span that is counted, and does not leave the
    region; no span exceeds the capacity; and what is committed is the sum of the
    spans and of the dynamic tail. *)
Theorem inventory_counts b r elf :
  inventory b = Ok r -> b_elf b = Ok elf -> Forall (fun s => (0 <= sh_size s)%Z) (elf_secs elf) ->
  allocated_sections r = omap alloc_item (elf_secs elf) /\
  list_to_set (C := gset string) (ram_regions r).*1 = REGION_NAMES /\
  Forall (fun nr => region_sound (allocated_sections r) nr.2) (ram_regions r) /\
  linked_ram_span r = total_span (ram_regions r) /\ (0 <= dynamic_tail r)%Z /\
  ram_committed r = (linked_ram_span r + dynamic_tail r)%Z.
Proof. apply inventory_sound. Qed.

Definition c6_inventory : option inventory_result :=
  match inventory c6_build with Ok r => Some r | Raise _ => None end.

Lemma inventory_counts_witness :
  exists r, inventory c6_build = Ok r /\ ram_committed r = 180096%Z /\
    Forall (fun nr => region_sound (allocated_sections r) nr.2) (ram_regions r) /\
    ram_committed r = (linked_ram_span r + dynamic_tail r)%Z.
Proof.
  destruct (inventory c6_build) as [r|e] eqn:E; [|vm_compute in E; discriminate].
  exists r. destruct (inventory_counts c6_build r c6_elf E) as (_ & _ & H1 & _ & _ & H2).
  - reflexivity.
  - repeat constructor; cbn; lia.
  - split; [reflexivity|]. split; [|by split]. vm_compute in E. injection E as <-. reflexivity.
Defined.

(** A system on which every write succeeds. *)
Definition c6_system : env :=
  Env (fun _ => Raise (OSError "none")) (fun _ => Ok tt) (fun _ => Ok tt) (fun _ => EmptyString).

Definition c6_symbols : list elf_symbol := default [] (symtab c6_elf).

Lemma c6_judgeable : exists r, judgeable c6_env 8704 r (config_of c6_config) c6_symbols c6_disassembly 80.
Proof.
  destruct (inventory c6_build) as [r|x] eqn:E; [|vm_compute in E; discriminate]. exists r. split.
  - split; [exact E|exists c6_config; split; reflexivity|exists c6_elf; split; reflexivity| |reflexivity].
    exists "#define __struct_arch_esf_SIZEOF 0x50". split; [reflexivity|vm_compute; reflexivity].
  - vm_compute in E. injection E as <-. vm_compute. reflexivity.
  - repeat constructor; cbn; lia.
  - lia.
  - lia.
  - intros _. split; [exists 2%Z|exists 12288%Z]; (split; [vm_compute; reflexivity|lia]).
  - intros H. vm_compute in H. discriminate.
  - exists 0%Z. vm_compute. reflexivity.
  - exists "cd34". reflexivity.
Qed.

(** C31: on a judgeable build the program leaves the disassembly it judged and the
    report, prints the verdict and the failures, and ends with status 0, admitting the
    image for qualification, exactly when every reviewed condition holds; otherwise it
    ends with status 1.  The conditions: every linked reviewed stack, the vendor's task
    and every slot of the pools holds its TLS copy (the image's TLS size at any
    alignment, none for interrupts), the exception frame with 15 or 19 bytes, what the
    profile lets run on it, and 256 bytes; RAM and flash contracts, TLS model, vendor
    function, resource check, pool extents, callers and stack symbols.  The report has
    one row for each of these stacks, in order, which passes exactly when the stack
    holds its demand. *)
Theorem admission_status en build e output n r c l dis esf :
  judgeable e n r c l dis esf -> (forall p, env_write en p = Ok tt) ->
  let p := reviewed_policy l c esf in
  exists a, let o := main en build e output n in
    files o = [(path_join build "disassembly.txt", dis); (output, Json.dump_at 0 (admission_dict a) +:+ Json.newline)] /\
    stdout o = [ad_status a; str_join Json.newline (ad_failures a)] /\
    (exit o = Ok 0%Z /\ ad_status a = "ADMITTED_FOR_QUALIFICATION" /\ qualified e r c (symbols_of l) dis p n \/
     exit o = Ok 1%Z /\ ad_status a <> "ADMITTED_FOR_QUALIFICATION" /\ ~ qualified e r c (symbols_of l) dis p n) /\
    Forall2 (row_for p) (demands p c (symbols_of l) dis n) (ad_stack_checks a).
Proof.
  intros Hj Hw p. destruct (admit_judges en build _ _ _ _ _ _ _ Hj (Hw _)) as (a & Ha & Hq & Hs & Hc). exists a.
  unfold main, mbind, io_bind, write. rewrite Ha, Hw. cbn [exit mret io_ret files stdout]. split_and!; try done.
  unfold p. rewrite <- Hq, Hs. destruct (ad_failures a) as [|x fs]; [by left|by right].
Qed.

(** The same image with a main stack of another size: 71 bytes of TLS, 99 of overhead,
    8704 of execution and 256 of margin are the least it has to hold. *)
Definition main_stack_env (size : Z) : admission_env :=
  let resize s := if decide (sy_name s = "z_main_stack") then ElfSym (sy_name s) (sy_value s) size (sy_type s) else s in
  AdmissionEnv c6_build (Ok c6_config) (Ok (ElfFile (elf_secs c6_elf) (Some (resize <$> c6_symbols))))
    (Ok "#define __struct_arch_esf_SIZEOF 0x50") (Ok c6_disassembly) (0%Z, EmptyString) (Ok "cd34").

Lemma main_stack_limit :
  exit (main c6_system "build" (main_stack_env 9130) "out.json" 8704) = Ok 0%Z /\
  exit (main c6_system "build" (main_stack_env 9129) "out.json" 8704) = Ok 1%Z.
Proof. split; vm_compute; reflexivity. Qed.

Lemma admission_status_witness :
  let o := main c6_system "build" c6_env "out.json" 8704 in
  exit o = Ok 0%Z /\ (exists text, files o = [("build/disassembly.txt", c6_disassembly); ("out.json", text)]) /\
  exists r, qualified c6_env r (config_of c6_config) (symbols_of c6_symbols) c6_disassembly (StackPolicy 64 8 99 256) 8704.
Proof.
  destruct c6_judgeable as [r Hj].
  destruct (admission_status c6_system "build" c6_env "out.json" 8704 r _ _ _ _ Hj (fun _ => eq_refl))
    as (a & Hf & _ & [(H & _ & Hq)|[H _]] & _).
  - split; [exact H|]. split; [eexists; exact Hf|]. exists r. exact Hq.
  - exfalso. vm_compute in H. discriminate H.
Defined.

End C6Theorems.
