(* ===== verification/Postlink.v ===== *)
(** * Post-link verification

    [measure_linked], [build_postlink_report], the two Markdown reports and
    [first_failed] of [tools/verify_resources.py].  The build directory is the
    environment: which files it has and what reading them gives. *)

From Stdlib Require Import Ascii String.
From S2P Require Import Prelude PyStr Regex PyFloat PyObj Json Process Config Plan Elf MapFile.

Module Postlink.
Import Process Config Plan Elf MapFile.

(** ** The environment *)

(** The files of the build directory, by path. *)
Record build_files := BuildFiles {
  is_dir : string -> bool;
  is_file : string -> bool;
  read_bytes : string -> res bytes;
  read_text : string -> res string;
  (** with [errors="replace"], which decodes every file *)
  read_text_replace : string -> res string;
  file_size : string -> Z
}.

(** ** What was linked *)

Definition region_dict (r : region) : pyobj :=
  PyDict [("origin", PyInt (origin r)); ("length", PyInt (length_ r))].

Definition regions_dict (rs : regions) : pyobj := PyDict ((fun kr => (kr.1, region_dict kr.2)) <$> rs).

Definition sum_sizes (p : ElfSection -> bool) (sections : list ElfSection) : Z :=
  foldl Z.add 0%Z (size <$> List.filter p sections).

(** The span of a physical region, holes included. *)
Definition physical_span (sections : list ElfSection) (r : region) : Z :=
  let ends := section_end <$>
    List.filter (fun s => alloc s && (origin r <=? address s)%Z && (address s <? origin r + length_ r)%Z) sections in
  (max_default (origin r) ends - origin r)%Z.

Definition ram_usage (c : config) (rs : regions) (sections : list ElfSection) : Z * string :=
  match region_get rs "sram0_0_seg" with
  | Some sram =>
      if bool_decide (c !! "CONFIG_SOC_ESP32C6_HPCORE" = Some "y") then
        ((physical_span sections sram +
          match region_get rs "lp_ram_seg" with Some lp => physical_span sections lp | None => 0 end)%Z,
         "C6 physical SRAM spans including alignment holes")
      else match region_get rs "dram0_0_seg" with
           | Some dram => (region_usage sections dram, "map region dram0_0_seg")
           | None => (sum_sizes occupies_ram sections, "ELF allocated writable sections")
           end
  | None =>
      match region_get rs "dram0_0_seg" with
      | Some dram => (region_usage sections dram, "map region dram0_0_seg")
      | None => (sum_sizes occupies_ram sections, "ELF allocated writable sections")
      end
  end.

(** [0x([0-9a-fA-F]+)\s+_libc_heap_size\s*=] *)
Definition LIBC_HEAP : re := rlit "0x" ⋅ RGroup 1 rhex⊕ ⋅ rs⊕ ⋅ rlit "_libc_heap_size" ⋅ rs⊛ ⋅ rlit "=".

(** The configured arena, if it is not negative. *)
Definition configured_arena (c : config) : option (Z * string) :=
  match integer_config c "CONFIG_COMMON_LIBC_MALLOC_ARENA_SIZE" with
  | Some z => if (0 <=? z)%Z then Some (z, "CONFIG_COMMON_LIBC_MALLOC_ARENA_SIZE") else None
  | None => None
  end.

(** The arena wins over the linker symbol; without a symbol it is looked up again. *)
Definition libc_heap_size (c : config) (map_text : string) : res (option (Z * string)) :=
  match configured_arena c with
  | Some arena => Ok (Some arena)
  | None =>
      match re_search LIBC_HEAP map_text with
      | Some m => h ← int16 (group_or_empty 1 m); Ok (Some (h, "linker symbol"))
      | None => Ok (configured_arena c)
      end
  end.

Definition heap_rows (c : config) (libc : option (Z * string)) : list pyobj :=
  match integer_config c "CONFIG_HEAP_MEM_POOL_SIZE" with
  | Some z => [row "Zephyr heap backing" (PyInt z) "CONFIG_HEAP_MEM_POOL_SIZE"]
  | None => []
  end ++
  match libc with
  | Some (z, source) => [row "libc heap backing" (PyInt z) source]
  | None => []
  end.

Definition measure_linked (fs : build_files) (build_dir : string) : res pydict :=
  let sub := path_join build_dir "zephyr" in
  let zephyr_dir := if is_dir fs sub then sub else build_dir in
  let elf_path := path_join zephyr_dir "zephyr.elf" in
  let config_path := path_join zephyr_dir ".config" in
  let map_path := if is_file fs (path_join zephyr_dir "zephyr.map") then path_join zephyr_dir "zephyr.map"
                  else path_join zephyr_dir "zephyr_final.map" in
  let missing := List.filter (fun p => negb (is_file fs p)) [elf_path; map_path; config_path] in
  reject_if (match missing with [] => false | _ => true end) "E_RESOURCE_ARTIFACT"
    ("missing required post-link artifacts: " +:+ str_join ", " missing) ;;
  sections ← parse_elf_sections elf_path (read_bytes fs elf_path);
  map_text ← read_text_replace fs map_path;
  c ← parse_config config_path (read_text fs config_path);
  rs ← parse_memory_regions map_text;
  let binary_path := path_join zephyr_dir "zephyr.bin" in
  let '(flash_bytes, flash_source) :=
    if is_file fs binary_path then (file_size fs binary_path, binary_path)
    else (sum_sizes occupies_flash sections, "ELF allocated file-backed sections") in
  let '(ram_bytes, ram_source) := ram_usage c rs sections in
  libc ← libc_heap_size c map_text;
  stacks ← parse_linked_stacks map_text;
  Ok [("flash_bytes", PyInt flash_bytes);
      ("flash_source", PyStr flash_source);
      ("static_ram_bytes", PyInt ram_bytes);
      ("ram_source", PyStr ram_source);
      ("memory_regions", regions_dict rs);
      ("heap_backing", PyList (heap_rows c libc));
      ("thread_stacks", PyList stacks);
      ("elf_sections", PyDict
        [("allocated_file_bytes", PyInt (sum_sizes occupies_flash sections));
         ("allocated_ram_bytes", PyInt (sum_sizes occupies_ram sections))])].

(** ** The report *)

Definition accounting_note : string :=
  "Thread stacks and heap backing are explanatory slices of linked static RAM. " +:+
  "Runtime allocator high-water values are observations and are never added to linked RAM.".

(** [a or b] *)
Definition py_or (a b : pyobj) : pyobj := if truthy a then a else b.

(** The budgets against the regions of the map. *)
Definition flash_region_of (flash_budget regions : pyobj) : res (list pyobj) :=
  has_flash ← py_in (PyStr "FLASH") regions;
  if has_flash : bool then
    flash ← getitem regions "FLASH";
    len ← getitem flash "length";
    check ← make_check "flash_budget_within_target_region" "E_RESOURCE_TARGET_CAPACITY" flash_budget len
      "declared flash budget must fit the linked target region";
    Ok [check]
  else Ok [].

Definition ram_region_of (ram_budget regions : pyobj) : res (list pyobj) :=
  sram ← get_default regions "sram0_0_seg" PyNone;
  dram ← get_default regions "dram0_0_seg" PyNone;
  match py_or sram dram with
  | PyNone => Ok []
  | _ =>
      len ← getitem (py_or sram dram) "length";
      check ← make_check "ram_budget_within_target_region" "E_RESOURCE_TARGET_CAPACITY" ram_budget len
        "declared RAM budget must fit the linked target region";
      Ok [check]
  end.

Definition build_postlink_report (resource_plan linked runtime : pydict) : res pydict :=
  reject_if (negb (py_eqb (get resource_plan "status") (PyStr "PASS")))
    "E_RESOURCE_PLAN" "cannot verify a failed pre-link resource plan" ;;
  let plan := PyDict resource_plan in
  budgets ← getitem plan "budgets";
  planned ← getitem plan "planned";
  application ← getitem planned "application_reservations";
  reserve ← getitem application "static_reserve_bytes";
  raw_checks ← getitem plan "checks";
  checks ← py_iter raw_checks;
  linked_flash ← getitem (PyDict linked) "flash_bytes";
  flash_budget ← getitem budgets "flash_bytes";
  flash_check ← make_check "linked_flash_budget" "E_RESOURCE_FLASH_BUDGET" linked_flash flash_budget
    "linked flash must not exceed the target budget";
  linked_ram ← getitem (PyDict linked) "static_ram_bytes";
  ram_with_reserve ← py_add linked_ram reserve;
  ram_budget ← getitem budgets "ram_bytes";
  ram_check ← make_check "linked_ram_budget_with_reserve" "E_RESOURCE_RAM_BUDGET" ram_with_reserve ram_budget
    "linked static RAM plus declared application reserve must fit the target budget";
  let regions := from_option id (PyDict []) (dict_get linked "memory_regions") in
  flash_region ← flash_region_of flash_budget regions;
  ram_region_check ← ram_region_of ram_budget regions;
  let checks := checks ++ [flash_check; ram_check] ++ flash_region ++ ram_region_check in
  failed ← failed_checks checks;
  target ← getitem plan "target";
  backend ← getitem plan "backend";
  sync ← get_default plan "ddsrt_sync" (PyStr "not-applicable");
  deployment ← getitem plan "deployment";
  Ok [("schema_version", PyInt 1);
      ("status", status_of failed);
      ("target", target);
      ("backend", backend);
      ("ddsrt_sync", sync);
      ("deployment", deployment);
      ("planned", planned);
      ("budgets", budgets);
      ("linked", PyDict linked);
      ("runtime_measured", PyDict runtime);
      ("checks", PyList checks);
      ("accounting_note", PyStr accounting_note)].

(** ** Markdown *)

Definition format_bytes (value : pyobj) : res string :=
  match value with
  | PyNone => Ok "target-resolved"
  | _ => s ← py_format_grouped value; Ok (s +:+ " B")
  end.

(** [f"{v[k]}"], and the same for a path of keys. *)
Definition field (v : pyobj) (k : string) : res string := x ← getitem v k; Ok (py_str x).

Fixpoint item_at (v : pyobj) (ks : list string) : res pyobj :=
  match ks with [] => Ok v | k :: ks => x ← getitem v k; item_at x ks end.

Definition field_at (v : pyobj) (ks : list string) : res string := x ← item_at v ks; Ok (py_str x).
Definition bytes_at (v : pyobj) (ks : list string) : res string := x ← item_at v ks; format_bytes x.

Definition newline : string := String nl EmptyString.
Definition unlines (l : list string) : string := str_join newline l.

Definition slice_row (kind : string) (r : pyobj) : res string :=
  name ← field r "name";
  bytes ← bytes_at r ["bytes"];
  source ← field r "source";
  Ok ("| " +:+ kind +:+ " | " +:+ name +:+ " | " +:+ bytes +:+ " | " +:+ source +:+ " |").

Definition slice_rows (v : pyobj) (kinds : list (string * string)) : res (list string) :=
  blocks ← mapM_res (fun '(kind, key) =>
             rows ← getitem v key; l ← py_iter rows; mapM_res (slice_row kind) l) kinds;
  Ok (concat blocks).

Definition check_row (check : pyobj) : res string :=
  id ← field check "id";
  required ← field check "required";
  available ← getitem check "available";
  status ← field check "status";
  Ok ("| " +:+ id +:+ " | " +:+ required +:+ " | " +:+
      (match available with PyNone => "missing" | _ => py_str available end) +:+ " | " +:+ status +:+ " |").

Definition check_rows (v : pyobj) : res (list string) :=
  checks ← getitem v "checks"; l ← py_iter checks; mapM_res check_row l.

Definition title_lines (v : pyobj) (title : string) : res (list string) :=
  status ← field v "status";
  deployment ← field v "deployment";
  target ← field v "target";
  backend ← field v "backend";
  sync ← get_default v "ddsrt_sync" (PyStr "not-applicable");
  Ok [title; EmptyString; "Status: **" +:+ status +:+ "**"; "Deployment: " +:+ deployment;
      "Target: " +:+ target; "Backend: " +:+ backend; "DDSRT synchronization: " +:+ py_str sync; EmptyString].

Definition check_heading (title : string) : list string :=
  [EmptyString; title; EmptyString; "| Check | Required | Available | Status |"; "|---|---:|---:|---|"].

Definition plan_markdown (plan : pydict) : res string :=
  let plan := PyDict plan in
  planned ← getitem plan "planned";
  heading ← title_lines plan "# Pre-build resource plan";
  required ← field_at planned ["local_endpoint_resources"; "required"];
  capacity ← field_at planned ["local_endpoint_resources"; "capacity"];
  remote ← field planned "remote_discovery_bounds";
  workers ← field_at planned ["middleware_reservations"; "workers"];
  maximum ← field_at planned ["middleware_reservations"; "maximum_workers"];
  flash ← bytes_at plan ["budgets"; "flash_bytes"];
  ram ← bytes_at plan ["budgets"; "ram_bytes"];
  reserve ← bytes_at planned ["application_reservations"; "static_reserve_bytes"];
  slices ← slice_rows planned [("stack", "thread_stacks"); ("heap", "heap_backing")];
  checks ← check_rows plan;
  Ok (unlines (heading ++
    ["## Contract"; EmptyString;
     "- Local endpoints: " +:+ required +:+ " required / " +:+ capacity +:+ " allowed.";
     "- Remote discovery bounds: " +:+ remote +:+ ".";
     "- Middleware workers: " +:+ workers +:+ " configured / " +:+ maximum +:+ " allowed.";
     "- Flash budget: " +:+ flash +:+ ".";
     "- RAM budget: " +:+ ram +:+ ".";
     "- Application reserve: " +:+ reserve +:+ ".";
     EmptyString; "## Planned RAM slices"; EmptyString;
     "| Kind | Reservation | Bytes | Evidence |"; "|---|---|---:|---|"] ++
    slices ++ check_heading "## Admission checks" ++ checks ++ [EmptyString])).

Definition record_line (r : pyobj) : res string :=
  marker ← field r "marker"; values ← field r "values"; Ok ("- " +:+ marker +:+ ": " +:+ values).

Definition runtime_lines (runtime : pyobj) : res (list string) :=
  status ← getitem runtime "status";
  if py_eqb status (PyStr "measured") then
    source ← field runtime "source";
    records ← getitem runtime "records";
    l ← py_iter records;
    lines ← mapM_res record_line l;
    Ok (("Runtime markers were parsed from " +:+ source +:+ ".") :: lines)
  else Ok ["Runtime measurements: " +:+ py_str status +:+ "."].

Definition report_markdown (report : pydict) : res string :=
  let report := PyDict report in
  linked ← getitem report "linked";
  reserve ← item_at report ["planned"; "application_reservations"; "static_reserve_bytes"];
  heading ← title_lines report "# Post-link resource verification";
  flash_budget ← item_at report ["budgets"; "flash_bytes"];
  ram_budget ← item_at report ["budgets"; "ram_bytes"];
  linked_flash ← getitem linked "flash_bytes";
  linked_ram ← getitem linked "static_ram_bytes";
  flash_text ← format_bytes flash_budget;
  linked_flash_text ← format_bytes linked_flash;
  flash_room ← py_sub flash_budget linked_flash; flash_room ← format_bytes flash_room;
  ram_text ← format_bytes ram_budget;
  linked_ram_text ← format_bytes linked_ram;
  room ← py_sub ram_budget linked_ram; ram_room ← format_bytes room;
  with_reserve ← py_add linked_ram reserve; with_reserve ← format_bytes with_reserve;
  reserve_room ← py_sub room reserve; reserve_room ← format_bytes reserve_room;
  slices ← slice_rows linked [("stack", "thread_stacks"); ("heap", "heap_backing")];
  runtime ← getitem report "runtime_measured";
  measured ← runtime_lines runtime;
  checks ← check_rows report;
  note ← getitem report "accounting_note";
  Ok (unlines (heading ++
    ["## Planned versus linked"; EmptyString;
     "| Resource | Planned limit | Linked | Headroom |"; "|---|---:|---:|---:|";
     "| Flash | " +:+ flash_text +:+ " | " +:+ linked_flash_text +:+ " | " +:+ flash_room +:+ " |";
     "| Static RAM | " +:+ ram_text +:+ " | " +:+ linked_ram_text +:+ " | " +:+ ram_room +:+ " |";
     "| Static RAM plus application reserve | " +:+ ram_text +:+ " | " +:+ with_reserve +:+ " | " +:+
       reserve_room +:+ " |";
     EmptyString;
     "Thread stacks and heap backing below are slices of linked RAM, not additional totals.";
     EmptyString; "## Linked reservations"; EmptyString;
     "| Kind | Reservation | Bytes | Evidence |"; "|---|---|---:|---|"] ++
    slices ++ [EmptyString; "## Runtime measured"; EmptyString] ++ measured ++
    check_heading "## Verification checks" ++ checks ++ [EmptyString; py_str note; EmptyString])).

(** [next((item for item in report["checks"] if item["status"] == "FAIL"), None)] *)
Fixpoint first_failing (checks : list pyobj) : res (option pyobj) :=
  match checks with
  | [] => Ok None
  | x :: l => f ← is_failed x; if f : bool then Ok (Some x) else first_failing l
  end.

Definition first_failed (report : pydict) : res (option pyobj) :=
  checks ← getitem (PyDict report) "checks"; l ← py_iter checks; first_failing l.

End Postlink.
