(* ===== verification/PostlinkSpec.v ===== *)
(** * The verdict of the post-link report

    For a plan with the interface [ResourcePlan] and measurements with the
    interface [Measured], the report never raises, and passes exactly when the
    plan passed, the linked image fits the budgets with the application reserve,
    and the budgets fit the regions of the target. *)

From Stdlib Require Import Ascii String.
From S2P Require Import Prelude PyStr Regex PyFloat PyObj Json Process Config Plan PlanSpec Elf ElfSpec MapFile MapSpec Postlink.

Module PostlinkSpec.
Import Process Config Plan PlanSpec Elf MapFile MapSpec Postlink.

(** ** Interface of the measurements *)

Record measured := Measurement { ms_flash : Z; ms_ram : Z; ms_regions : regions }.

Class Measured (linked : pydict) (m : measured) : Prop := {
  md_flash : dict_get linked "flash_bytes" = Some (PyInt (ms_flash m));
  md_ram : dict_get linked "static_ram_bytes" = Some (PyInt (ms_ram m));
  md_regions : dict_get linked "memory_regions" = Some (regions_dict (ms_regions m))
}.

(** The tables the report prints. *)
Record printable_linked (linked : pydict) : Prop := {
  pk_stacks : exists st, dict_get linked "thread_stacks" = Some (PyList st) /\ Forall row_like st;
  pk_heaps : exists hp, dict_get linked "heap_backing" = Some (PyList hp) /\ Forall row_like hp
}.

(** The region that bounds the RAM budget, if the map has one. *)
Definition ram_region (rs : regions) : option region :=
  match region_get rs "sram0_0_seg" with
  | Some r => Some r
  | None => region_get rs "dram0_0_seg"
  end.

Definition within (z : Z) (r : option region) : bool :=
  match r with Some r => (z <=? length_ r)%Z | None => true end.

(** The image is admitted. *)
Record linked_ok (p : planned) (m : measured) : Prop := {
  lo_flash : (ms_flash m <= pl_flash p)%Z;
  lo_ram : (ms_ram m + pl_reserve p <= pl_ram p)%Z;
  lo_flash_region : within (pl_flash p) (region_get (ms_regions m) "FLASH") = true;
  lo_ram_region : within (pl_ram p) (ram_region (ms_regions m)) = true
}.

(** ** The report *)

Lemma regions_dict_get rs k :
  dict_get ((fun kr => (kr.1, region_dict kr.2)) <$> rs) k = region_dict <$> region_get rs k.
Proof.
  induction rs as [|[k' r] rs IH]; [done|]. cbn. case_decide; [done|exact IH].
Qed.

(** The checks of the linked image, with their verdicts. *)
Definition region_checks (p : planned) (rs : regions) : list bool :=
  match region_get rs "FLASH" with Some r => [(pl_flash p <=? length_ r)%Z] | None => [] end ++
  match ram_region rs with Some r => [(pl_ram p <=? length_ r)%Z] | None => [] end.

Lemma region_checks_ok p rs :
  forallb id (region_checks p rs) =
  within (pl_flash p) (region_get rs "FLASH") && within (pl_ram p) (ram_region rs).
Proof.
  unfold region_checks, within. destruct (region_get rs "FLASH"), (ram_region rs); cbn; unfold id;
    by rewrite ?andb_true_r.
Qed.

Lemma regions_getitem rs k r :
  region_get rs k = Some r -> getitem (regions_dict rs) k = Ok (region_dict r).
Proof. intros H. apply getitem_dict. by rewrite regions_dict_get, H. Qed.

Lemma regions_get_default rs k :
  get_default (regions_dict rs) k PyNone =
  Ok (match region_get rs k with Some r => region_dict r | None => PyNone end).
Proof. cbn [get_default regions_dict]. rewrite regions_dict_get. by destruct (region_get rs k). Qed.

Lemma region_length r : getitem (region_dict r) "length" = Ok (PyInt (length_ r)).
Proof. reflexivity. Qed.

Lemma flash_region_check z rs :
  exists l, flash_region_of (PyInt z) (regions_dict rs) = Ok l /\
  Forall2 is_check l
    (match region_get rs "FLASH" with Some r => [(z <=? length_ r)%Z] | None => [] end).
Proof.
  unfold flash_region_of.
  assert (py_in (PyStr "FLASH") (regions_dict rs) =
    Ok (match region_get rs "FLASH" with Some _ => true | None => false end)) as ->.
  { cbn [py_in regions_dict hashable]. unfold dict_has. rewrite regions_dict_get.
    by destruct (region_get rs "FLASH"). }
  cbn [mbind res_bind]. destruct (region_get rs "FLASH") as [r|] eqn:Hr; [|by exists []].
  rewrite (regions_getitem _ _ _ Hr). cbn [mbind res_bind]. rewrite region_length. cbn [mbind res_bind].
  rewrite make_check_int. eexists. split; [reflexivity|]. constructor; [apply check_dict_is_check|constructor].
Qed.

Lemma ram_region_check z rs :
  exists l, ram_region_of (PyInt z) (regions_dict rs) = Ok l /\
  Forall2 is_check l
    (match ram_region rs with Some r => [(z <=? length_ r)%Z] | None => [] end).
Proof.
  unfold ram_region_of. rewrite !regions_get_default. cbn [mbind res_bind].
  assert (py_or match region_get rs "sram0_0_seg" with Some r => region_dict r | None => PyNone end
                match region_get rs "dram0_0_seg" with Some r => region_dict r | None => PyNone end =
          match ram_region rs with Some r => region_dict r | None => PyNone end) as ->.
  { unfold ram_region. by destruct (region_get rs "sram0_0_seg"). }
  destruct (ram_region rs) as [r|]; [|by exists []].
  rewrite region_length. cbn [region_dict mbind res_bind]. rewrite make_check_int.
  eexists. split; [reflexivity|]. constructor; [apply check_dict_is_check|constructor].
Qed.

(** A failed plan is not verified. *)
Lemma report_needs_plan plan p linked runtime :
  ResourcePlan plan p -> pl_pass p = false ->
  build_postlink_report plan linked runtime =
  reject "E_RESOURCE_PLAN" "cannot verify a failed pre-link resource plan".
Proof.
  intros Hp Hf. unfold build_postlink_report.
  rewrite (get_entry _ _ _ (@rpl_status _ _ Hp)), Hf. reflexivity.
Qed.

Lemma report_spec plan p linked m runtime :
  ResourcePlan plan p -> Measured linked m -> pl_pass p = true ->
  exists report l bs, build_postlink_report plan linked runtime = Ok report /\
    dict_get report "status" = Some (PyStr (verdict (forallb id bs))) /\
    dict_get report "checks" = Some (PyList l) /\ Forall2 is_check l bs /\
    (forallb id bs = true <-> linked_ok p m) /\
    dict_get report "target" = dict_get plan "target" /\ dict_get report "backend" = dict_get plan "backend" /\
    dict_get report "deployment" = dict_get plan "deployment" /\
    dict_get report "budgets" = dict_get plan "budgets" /\ dict_get report "planned" = dict_get plan "planned" /\
    dict_get report "linked" = Some (PyDict linked) /\ dict_get report "runtime_measured" = Some (PyDict runtime) /\
    dict_get report "accounting_note" = Some (PyStr accounting_note).
Proof.
  intros [Hst (bd & Hbd & Hfl & Hram) (q & a & Hq & Ha & Hres) Ht Hb [dn Hdn] (l & Hl & bs & Hbs & Hall)]
    [Mf Mr Mg] Hpass.
  destruct (flash_region_check (pl_flash p) (ms_regions m)) as (l1 & E1 & F1).
  destruct (ram_region_check (pl_ram p) (ms_regions m)) as (l2 & E2 & F2).
  unfold build_postlink_report. rewrite (get_entry _ _ _ Hst), Hpass.
  change (reject_if (negb (py_eqb (PyStr (verdict true)) (PyStr "PASS"))) ?x ?y) with (Ok tt).
  cbn [mbind res_bind].
  rewrite (proj2 (getitem_dict plan _ _) Hbd), (proj2 (getitem_dict plan _ _) Hq). cbn [mbind res_bind].
  rewrite (proj2 (getitem_dict q _ _) Ha). cbn [mbind res_bind].
  rewrite (proj2 (getitem_dict a _ _) Hres), (proj2 (getitem_dict plan _ _) Hl). cbn [mbind res_bind py_iter].
  rewrite (proj2 (getitem_dict linked _ _) Mf), (proj2 (getitem_dict bd _ _) Hfl). cbn [mbind res_bind].
  rewrite make_check_int. cbn [mbind res_bind].
  rewrite (proj2 (getitem_dict linked _ _) Mr). cbn [mbind res_bind py_add num_op as_int].
  rewrite (proj2 (getitem_dict bd _ _) Hram). cbn [mbind res_bind]. rewrite make_check_int.
  cbn [mbind res_bind]. rewrite Mg.
  change (from_option id (PyDict []) (Some ?x)) with x.
  rewrite E1. cbn [mbind res_bind]. rewrite E2. cbn [mbind res_bind].
  match goal with |- context [failed_checks ?c] => set (checks := c) end.
  set (vs := bs ++ [fits (ms_flash m) (Some (pl_flash p)); fits (ms_ram m + pl_reserve p) (Some (pl_ram p))] ++
             region_checks p (ms_regions m)).
  assert (Forall2 is_check checks vs) as Hvs.
  { apply Forall2_app; [done|]. apply Forall2_app; [|by apply Forall2_app].
    constructor; [apply check_dict_is_check|]. constructor; [apply check_dict_is_check|constructor]. }
  destruct (failed_checks_spec checks vs Hvs) as (f & -> & Hf). cbn [mbind res_bind].
  rewrite (proj2 (getitem_dict plan _ _) Ht), (proj2 (getitem_dict plan _ _) Hb),
    (proj2 (getitem_dict plan _ _) Hdn). cbn [mbind res_bind get_default].
  eexists _, checks, vs. split; [reflexivity|]. split; [cbn; by rewrite Hf|]. split; [reflexivity|].
  split; [done|]. rewrite Ht, Hb, Hdn, Hbd, Hq. split; [|auto 12].
  unfold vs. rewrite !forallb_app, Hall, Hpass, region_checks_ok. cbn [forallb fits]. unfold id.
  rewrite !andb_true_iff, !Z.leb_le. split.
  - intros (_ & (H1 & H2 & _) & H3 & H4). by split.
  - intros [H1 H2 H3 H4]. auto.
Qed.

(** ** The measurements *)

Lemma re_search_Some r s p : re_search r s = Some p -> exists prev u, rmatch r (mkpos prev u []) p.
Proof.
  unfold re_search. generalize (@None ascii) as prev. induction s as [|c s IH]; intros prev; cbn [re_search_from].
  - destruct (re_matches r _) as [|p' l] eqn:E; [done|]. cbn. intros [= <-].
    eexists _, _. apply re_matches_iff. rewrite E. apply elem_of_cons. by left.
  - destruct (re_matches r _) as [|p' l] eqn:E; [apply IH|]. cbn. intros [= <-].
    eexists _, _. apply re_matches_iff. rewrite E. apply elem_of_cons. by left.
Qed.

Lemma libc_heap_match text m :
  re_search LIBC_HEAP text = Some m -> exists h, group 1 m = Some h /\ hex_word h = true.
Proof.
  intros (prev & u & H)%re_search_Some. unfold LIBC_HEAP in H.
  apply rmatch_cat in H as (p1 & (u1 & -> & ->)%rmatch_lit & H).
  apply rmatch_cat in H as (p2 & (h & u2 & -> & Hh & ->)%rmatch_group_class_word & H).
  apply rmatch_cat in H as (p3 & (w & u3 & -> & _ & ->)%rmatch_blanks & H).
  apply rmatch_cat in H as (p4 & (u4 & -> & ->)%rmatch_lit & H).
  apply rmatch_cat in H as (p5 & (w2 & u5 & -> & _ & ->)%rmatch_star_chr & H).
  apply rmatch_lit in H as (u6 & -> & ->). by exists h.
Qed.

Lemma libc_heap_total c text : exists r, libc_heap_size c text = Ok r.
Proof.
  unfold libc_heap_size. destruct (configured_arena c); [by eexists|].
  destruct (re_search LIBC_HEAP text) as [m|] eqn:E; [|by eexists].
  apply libc_heap_match in E as (h & Hg & Hh). unfold group_or_empty. rewrite Hg.
  destruct (int16_hex h Hh) as (z & Hz & _). cbn [default from_option]. unfold id. rewrite Hz. by eexists.
Qed.

(** Where the artifacts are looked for. *)
Definition artifact_dir (fs : build_files) (dir : string) : string :=
  if is_dir fs (path_join dir "zephyr") then path_join dir "zephyr" else dir.

(** The linker map: the final one when there is no other. *)
Definition map_file (fs : build_files) (dir : string) : string :=
  if is_file fs (path_join dir "zephyr.map") then path_join dir "zephyr.map" else path_join dir "zephyr_final.map".

(** The build directory of a linked image. *)
Record linked_build (fs : build_files) (build_dir : string) (sections : list ElfSection) (map_text : string) (c : config)
    (dir := artifact_dir fs build_dir) : Prop := {
  lb_elf : is_file fs (path_join dir "zephyr.elf") = true;
  lb_map : is_file fs (map_file fs dir) = true;
  lb_config : is_file fs (path_join dir ".config") = true;
  lb_sections : parse_elf_sections (path_join dir "zephyr.elf") (read_bytes fs (path_join dir "zephyr.elf")) =
    Ok sections;
  lb_text : read_text_replace fs (map_file fs dir) = Ok map_text;
  lb_parsed : parse_config (path_join dir ".config") (read_text fs (path_join dir ".config")) = Ok c
}.

(** The size of the binary, when there is one, is the flash usage. *)
Definition flash_usage (fs : build_files) (build_dir : string) (sections : list ElfSection) : Z :=
  let binary := path_join (artifact_dir fs build_dir) "zephyr.bin" in
  if is_file fs binary then file_size fs binary else sum_sizes occupies_flash sections.

Lemma heap_rows_like c libc : Forall row_like (heap_rows c libc).
Proof.
  unfold heap_rows. apply Forall_app. split.
  - destruct (integer_config c _); repeat constructor. apply row_like_int.
  - destruct libc as [[z s]|]; repeat constructor. apply row_like_int.
Qed.

Lemma measure_spec fs dir sections map_text c :
  linked_build fs dir sections map_text c ->
  exists linked rs, measure_linked fs dir = Ok linked /\ parse_memory_regions map_text = Ok rs /\
    Measured linked (Measurement (flash_usage fs dir sections) (ram_usage c rs sections).1 rs) /\
    printable_linked linked.
Proof.
  intros [He Hm Hc Hs Ht Hp]. unfold artifact_dir, map_file in *.
  destruct (parse_memory_regions_total map_text) as [rs Hrs].
  destruct (libc_heap_total c map_text) as [h Hh].
  destruct (parse_linked_stacks_ok map_text) as (st & Hst & Hok).
  assert (Forall row_like st) as Hst'.
  { eapply Forall_impl; [exact Hok|]. intros x (n & z & s & -> & _). apply row_like_int. }
  unfold measure_linked. cbn zeta in *. cbn [List.filter]. rewrite He, Hm, Hc.
  cbn [List.filter negb reject_if raise_if mbind res_bind]. rewrite Hs. cbn [mbind res_bind].
  rewrite Ht. cbn [mbind res_bind]. rewrite Hp. cbn [mbind res_bind]. rewrite Hrs. cbn [mbind res_bind].
  rewrite Hh. unfold flash_usage, artifact_dir.
  destruct (is_file fs (path_join _ "zephyr.bin")), (ram_usage c rs sections) as [ram src] eqn:Hram;
    cbn [mbind res_bind]; rewrite Hst; eexists _, rs; (split; [reflexivity|]); (split; [done|]);
    (split; [split; try reflexivity; by rewrite Hram|]);
    (split; [by exists st|]; eexists; split; [reflexivity|]; apply heap_rows_like).
Qed.

Definition has_artifacts (fs : build_files) (dir : string) : bool :=
  is_file fs (path_join dir "zephyr.elf") &&
  (is_file fs (path_join dir "zephyr.map") || is_file fs (path_join dir "zephyr_final.map")) &&
  is_file fs (path_join dir ".config").

(** Nothing is measured when an artifact is missing. *)
Lemma measure_missing fs dir :
  has_artifacts fs (artifact_dir fs dir) = false ->
  exists msg, measure_linked fs dir = reject "E_RESOURCE_ARTIFACT" msg.
Proof.
  unfold has_artifacts, artifact_dir, measure_linked.
  set (d := if is_dir fs (path_join dir "zephyr") then _ else _). clearbody d. intros H.
  cbn zeta. destruct (is_file fs (path_join d "zephyr.map")) eqn:Em; cbn [List.filter]; rewrite ?Em in *;
    destruct (is_file fs (path_join d "zephyr.elf")), (is_file fs (path_join d ".config"));
    try destruct (is_file fs (path_join d "zephyr_final.map")); try done;
    cbn [negb reject_if raise_if]; by eexists.
Qed.

End PostlinkSpec.
