(* ===== verification/ResourceMain.v ===== *)
(** * The resource tool as a program

    [load_json], [write_report] and [main] of [tools/verify_resources.py], for
    its two commands.  The arguments are those [argparse] returns. *)

From Stdlib Require Import Ascii String.
From S2P Require Import Prelude PyStr Regex PyFloat PyObj Json Process Config Plan Elf MapFile Postlink.

Module ResourceMain.
Import Process Config Plan MapFile Postlink.

Definition load_json (en : env) (path : string) : res pydict :=
  match read_json en path with
  | Raise (OSError e) => reject "E_RESOURCE_INPUT" ("cannot read " +:+ path +:+ ": " +:+ e)
  | Raise (JSONDecodeError e) => reject "E_RESOURCE_INPUT" ("cannot read " +:+ path +:+ ": " +:+ e)
  | Raise e => Raise e
  | Ok (PyDict d) => Ok d
  | Ok _ => reject "E_RESOURCE_INPUT" (path +:+ " must contain a JSON object")
  end.

(** The text before the last slash, if there is one. *)
Fixpoint up_to_slash (s : string) : option string :=
  match s with
  | EmptyString => None
  | String c t =>
      match up_to_slash t with
      | Some p => Some (String c p)
      | None => if is_char "/" c then Some EmptyString else None
      end
  end.

(** [str(path.parent)] *)
Definition path_parent (path : string) : string :=
  match up_to_slash path with
  | None => "."
  | Some EmptyString => "/"
  | Some p => p
  end.

Definition write_report (en : env) (path content : string) : io unit :=
  lift (env_mkdir en (path_parent path)) ;; write en path content.

Inductive command :=
  | PlanCommand (deployment_plan config target ddsrt_sync : string)
  | VerifyCommand (resource_plan build_dir : string) (runtime_log : option string).

Record args := Args { arg_command : command; arg_json : string; arg_markdown : string }.

(** The report and the marker of a command, with its Markdown text. *)
Definition run_command (en : env) (fs : build_files) (c : command) : res (pydict * string * string) :=
  match c with
  | PlanCommand deployment_plan config target ddsrt_sync =>
      plan ← load_json en deployment_plan;
      c ← parse_config config (env_read en config);
      report ← build_prelink_plan plan c target ddsrt_sync;
      markdown ← plan_markdown report;
      Ok (report, markdown, "ROS2_ZEPHYR_RESOURCE_PLAN")
  | VerifyCommand resource_plan build_dir runtime_log =>
      plan ← load_json en resource_plan;
      linked ← measure_linked fs build_dir;
      runtime ← parse_runtime_log ((fun p => (p, read_text_replace fs p)) <$> runtime_log);
      report ← build_postlink_report plan linked runtime;
      markdown ← report_markdown report;
      Ok (report, markdown, "ROS2_ZEPHYR_RESOURCE_VERIFY")
  end.

(** The line printed for the first failed check, or for a pass. *)
Definition failure_line (failed : pyobj) : res string :=
  code ← field failed "code";
  detail ← field failed "detail";
  required ← field failed "required";
  available ← field failed "available";
  Ok (code +:+ ": " +:+ detail +:+ ": required=" +:+ required +:+ " available=" +:+ available).

Definition pass_line (marker : string) (report : pydict) : res string :=
  deployment ← field (PyDict report) "deployment";
  target ← field (PyDict report) "target";
  backend ← field (PyDict report) "backend";
  Ok (marker +:+ "_PASS deployment=" +:+ deployment +:+ " target=" +:+ target +:+ " backend=" +:+ backend).

(** The verdict of a written report: the exit status and the two outputs. *)
Definition verdict_of (marker : string) (report : pydict) : res (Z * list string * list string) :=
  failed ← first_failed report;
  match failed with
  | Some f => line ← failure_line f; Ok (2%Z, [], [line])
  | None => line ← pass_line marker report; Ok (0%Z, [line], [])
  end.

Definition run (en : env) (fs : build_files) (a : args) : io (Z * list string * list string) :=
  '(report, markdown, marker) ← lift (run_command en fs (arg_command a));
  write_report en (arg_json a) (Json.dumps (PyDict report) +:+ newline) ;;
  write_report en (arg_markdown a) markdown ;;
  lift (verdict_of marker report).

Definition main (en : env) (fs : build_files) (a : args) : outcome :=
  match run en fs a [] with
  | (Ok (code, out, err), w) => Outcome (Ok code) out err w
  | (Raise (ResourceError code msg), w) => Outcome (Ok 2%Z) [] [code +:+ ": " +:+ msg] w
  | (Raise e, w) => Outcome (Raise e) [] [] w
  end.

End ResourceMain.
