(* ===== verification/ReportSpec.v ===== *)
(** * The exit status of the resource tool

    The reports can always be printed, and the process ends with status 0
    exactly when the report it has written passes. *)

From Stdlib Require Import Ascii String.
From S2P Require Import Prelude PyStr Regex PyFloat PyObj Json Process Validate Deployment Config Plan PlanSpec.
From S2P Require Import Elf MapFile MapSpec Postlink PostlinkSpec ResourceMain.

Module ReportSpec.
Import Process Contract Config Plan PlanSpec MapFile MapSpec Postlink PostlinkSpec ResourceMain.

(** ** Printing *)

Lemma field_Some d k v : dict_get d k = Some v -> field (PyDict d) k = Ok (py_str v).
Proof. intros H. unfold field. by rewrite (proj2 (getitem_dict d k v) H). Qed.

Lemma item_at_cons d k v ks : dict_get d k = Some v -> item_at (PyDict d) (k :: ks) = item_at v ks.
Proof. intros H. cbn [item_at]. by rewrite (proj2 (getitem_dict d k v) H). Qed.

Lemma item_at_nil v : item_at v [] = Ok v.
Proof. done. Qed.

Lemma format_bytes_int z : exists s, format_bytes (PyInt z) = Ok s.
Proof. by eexists. Qed.

Lemma slice_row_ok kind x : row_like x -> exists s, slice_row kind x = Ok s.
Proof. intros (n & b & s & -> & [-> | [z ->]]); by eexists. Qed.

Lemma slice_rows_ok d stacks heaps :
  dict_get d "thread_stacks" = Some (PyList stacks) -> Forall row_like stacks ->
  dict_get d "heap_backing" = Some (PyList heaps) -> Forall row_like heaps ->
  exists l, slice_rows (PyDict d) [("stack", "thread_stacks"); ("heap", "heap_backing")] = Ok l.
Proof.
  intros Hs Fs Hh Fh. unfold slice_rows. cbn [mapM_res].
  destruct (mapM_res_total (slice_row "stack") stacks) as [l1 H1].
  { eapply Forall_impl; [exact Fs|]. intros x. apply slice_row_ok. }
  destruct (mapM_res_total (slice_row "heap") heaps) as [l2 H2].
  { eapply Forall_impl; [exact Fh|]. intros x. apply slice_row_ok. }
  rewrite (proj2 (getitem_dict d _ _) Hs), (proj2 (getitem_dict d _ _) Hh). cbn [mbind res_bind py_iter].
  rewrite H1, H2. eexists. reflexivity.
Qed.

Lemma check_row_ok x b : is_check x b -> exists s, check_row x = Ok s.
Proof.
  intros (c & -> & Hs & H). unfold check_entries in H. rewrite !Forall_cons in H.
  destruct H as ([i Hi] & _ & [r Hr] & [a Ha] & _). unfold check_row.
  rewrite (field_Some c _ _ Hi), (field_Some c _ _ Hr), (proj2 (getitem_dict c _ _) Ha), (field_Some c _ _ Hs).
  eexists. reflexivity.
Qed.

Lemma Forall2_is_check_rows l bs : Forall2 is_check l bs -> Forall (fun x => exists s, check_row x = Ok s) l.
Proof. induction 1 as [|x b l bs Hx _ IH]; constructor; [by eapply check_row_ok|done]. Qed.

Lemma check_rows_ok d l bs :
  dict_get d "checks" = Some (PyList l) -> Forall2 is_check l bs -> exists rows, check_rows (PyDict d) = Ok rows.
Proof.
  intros Hl H. unfold check_rows. rewrite (proj2 (getitem_dict d _ _) Hl). cbn [mbind res_bind py_iter].
  by eapply mapM_res_total, Forall2_is_check_rows.
Qed.

(** The entries of a title. *)
Record titled (d : pydict) : Prop := {
  ti_status : is_Some (dict_get d "status");
  ti_deployment : is_Some (dict_get d "deployment");
  ti_target : is_Some (dict_get d "target");
  ti_backend : is_Some (dict_get d "backend")
}.

Lemma title_lines_ok d title : titled d -> exists l, title_lines (PyDict d) title = Ok l.
Proof.
  intros [[s Hs] [n Hn] [t Ht] [b Hb]]. unfold title_lines.
  rewrite (field_Some d _ _ Hs), (field_Some d _ _ Hn), (field_Some d _ _ Ht), (field_Some d _ _ Hb).
  eexists. reflexivity.
Qed.

Lemma plan_titled plan p : ResourcePlan plan p -> titled plan.
Proof. intros [Hs _ _ Ht Hb Hd _]. split; by eauto. Qed.

Lemma plan_markdown_ok plan p :
  ResourcePlan plan p -> printable_plan plan -> exists md, plan_markdown plan = Ok md.
Proof.
  intros Hp [(q & Hq & (le & Hle & [x1 H1] & [x2 H2]) & [x3 H3] & (mw & Hmw & [x4 H4] & [x5 H5]) &
    (st & Hst & Fst) & (hp & Hhp & Fhp))].
  destruct (title_lines_ok plan "# Pre-build resource plan" (plan_titled _ _ Hp)) as [hd Hhd].
  destruct (@rpl_budgets _ _ Hp) as (b & Hb & Hfl & Hram).
  destruct (@rpl_planned _ _ Hp) as (q' & a & Hq' & Ha & Hres). rewrite Hq in Hq'. injection Hq' as <-.
  destruct (@rpl_checks _ _ Hp) as (l & Hl & bs & Hbs & _).
  destruct (check_rows_ok plan l bs Hl Hbs) as [rows Hrows].
  destruct (slice_rows_ok q st hp Hst Fst Hhp Fhp) as [sl Hsl].
  unfold plan_markdown. rewrite (proj2 (getitem_dict plan _ _) Hq). cbn [mbind res_bind]. rewrite Hhd.
  cbn [mbind res_bind]. unfold field_at, bytes_at.
  rewrite !(item_at_cons q _ _ _ Hle), !(item_at_cons q _ _ _ Hmw), !(item_at_cons plan _ _ _ Hb),
    !(item_at_cons q _ _ _ Ha).
  rewrite (item_at_cons le _ _ _ H1), (item_at_cons le _ _ _ H2), (item_at_cons mw _ _ _ H4),
    (item_at_cons mw _ _ _ H5), (item_at_cons b _ _ _ Hfl), (item_at_cons b _ _ _ Hram),
    (item_at_cons a _ _ _ Hres), (field_Some q _ _ H3).
  cbn [item_at mbind res_bind]. rewrite Hsl. cbn [mbind res_bind]. rewrite Hrows. eexists. reflexivity.
Qed.

(** ** The verdict *)

Lemma first_failing_spec l bs :
  Forall2 is_check l bs ->
  exists o, first_failing l = Ok o /\
    match o with None => forallb id bs = true | Some x => is_check x false /\ forallb id bs = false end.
Proof.
  induction 1 as [|x b l bs Hx Hl (o & Ho & IH)]; [by exists None|]. cbn [first_failing].
  rewrite (is_check_failed x b Hx). cbn [mbind res_bind]. destruct b; cbn [negb]; [|by exists (Some x)].
  exists o. split; [done|]. cbn [forallb]. by destruct o.
Qed.

Lemma failure_line_ok x : is_check x false -> exists s, failure_line x = Ok s.
Proof.
  intros (c & -> & _ & H). unfold check_entries in H. rewrite !Forall_cons in H.
  destruct H as (_ & [i Hi] & [r Hr] & [a Ha] & [d Hd] & _). unfold failure_line.
  rewrite (field_Some c _ _ Hi), (field_Some c _ _ Hd), (field_Some c _ _ Hr), (field_Some c _ _ Ha).
  eexists. reflexivity.
Qed.

(** The exit status of a report with the given verdicts. *)
Lemma verdict_of_spec marker report l bs :
  titled report -> dict_get report "checks" = Some (PyList l) -> Forall2 is_check l bs ->
  exists out err, verdict_of marker report = Ok (if forallb id bs then 0%Z else 2%Z, out, err).
Proof.
  intros [_ [n Hn] [t Ht] [b Hb]] Hl H. unfold verdict_of, first_failed.
  rewrite (proj2 (getitem_dict report _ _) Hl). cbn [mbind res_bind py_iter].
  destruct (first_failing_spec l bs H) as (o & -> & Ho). cbn [mbind res_bind].
  destruct o as [x|].
  - destruct Ho as [Hx ->]. destruct (failure_line_ok x Hx) as [s ->]. by eexists _, _.
  - rewrite Ho. unfold pass_line.
    rewrite (field_Some report _ _ Hn), (field_Some report _ _ Ht), (field_Some report _ _ Hb). by eexists _, _.
Qed.

(** ** The [plan] command *)

Lemma write_report_ok en path content w :
  (forall p, env_write en p = Ok tt) -> (forall p, env_mkdir en p = Ok tt) ->
  write_report en path content w = (Ok tt, w ++ [(path, content)]).
Proof. intros Hw Hm. unfold write_report. rewrite lift_bind, Hm. unfold write. by rewrite Hw. Qed.

Lemma plan_main en fs dpath cpath target sync json md dp d backend minimum c b :
  (forall p, env_write en p = Ok tt) -> (forall p, env_mkdir en p = Ok tt) ->
  load_json en dpath = Ok dp -> compiled dp d backend minimum ->
  parse_config cpath (env_read en cpath) = Ok c -> sync ∈ ddsrt_choices ->
  assoc (dep_targets d) (effective_target d c target) = Some b ->
  exists pass plan text, build_prelink_plan dp c target sync = Ok plan /\
    ResourcePlan plan (Planned pass (flash_bytes b) (ram_bytes b) (dep_reserve d) (effective_target d c target) backend) /\
    (pass = true <-> admissible d backend minimum c b) /\
    exit (main en fs (Args (PlanCommand dpath cpath target sync) json md)) = Ok (if pass then 0 else 2)%Z /\
    files (main en fs (Args (PlanCommand dpath cpath target sync) json md)) =
      [(json, Json.dumps (PyDict plan) +:+ newline); (md, text)].
Proof.
  intros Hw Hm Hdp Hc Hcfg Hs Hb.
  destruct (plan_spec dp d backend minimum c target sync b Hc Hs Hb) as
    (plan & p & Hplan & Hp & Hpp & H1 & H2 & H3 & H4 & H5 & Hpass).
  destruct (plan_markdown_ok plan p Hp Hpp) as [text Htext].
  destruct (@rpl_checks _ _ Hp) as (l & Hl & bs & Hbs & Hall).
  destruct (verdict_of_spec "ROS2_ZEPHYR_RESOURCE_PLAN" plan l bs (plan_titled _ _ Hp) Hl Hbs)
    as (out & err & Hv).
  assert (run en fs (Args (PlanCommand dpath cpath target sync) json md) [] =
    (Ok (if forallb id bs then 0%Z else 2%Z, out, err),
     [(json, Json.dumps (PyDict plan) +:+ newline); (md, text)])) as Hrun.
  { unfold run. rewrite lift_bind. cbn [arg_command run_command]. rewrite Hdp. cbn [mbind res_bind].
    rewrite Hcfg. cbn [mbind res_bind]. rewrite Hplan. cbn [mbind res_bind]. rewrite Htext. cbn [mbind res_bind].
    unfold mbind, io_bind. rewrite write_report_ok by done. rewrite write_report_ok by done.
    unfold lift. by rewrite Hv. }
  exists (pl_pass p), plan, text. split; [done|]. split; [destruct p; cbn in *; by subst|]. split; [done|].
  unfold main. rewrite Hrun. cbn. by rewrite Hall.
Qed.

(** ** Runtime logs *)

Lemma str_words_go_nonempty cur s : cur <> EmptyString -> str_words_go cur s <> [].
Proof.
  revert cur. induction s as [|c s IH]; intros cur Hc; cbn [str_words_go].
  - by rewrite decide_False.
  - destruct (is_space c); [by rewrite decide_False|]. apply IH. by destruct cur.
Qed.

Lemma str_words_go_solid cur a c t :
  is_space c = false -> str_words_go cur (a +:+ String c t) <> [].
Proof.
  intros Hc. revert cur. induction a as [|x a IH]; intros cur.
  - change (EmptyString +:+ String c t) with (String c t). cbn [str_words_go]. rewrite Hc.
    apply str_words_go_nonempty. by destruct cur.
  - rewrite str_app_cons. cbn [str_words_go]. destruct (is_space x); [|apply IH].
    intros [_ H]%app_eq_nil. by apply IH in H.
Qed.

(** A line with a marker has a first word. *)
Lemma marker_words line :
  str_contains "_METRICS" line = true \/ str_contains "_RESOURCES" line = true -> str_words line <> [].
Proof.
  unfold str_words. rewrite !str_contains_spec. intros [(a & b & ->)|(a & b & ->)].
  - apply (str_words_go_solid _ a "_" ("METRICS" +:+ b)). done.
  - apply (str_words_go_solid _ a "_" ("RESOURCES" +:+ b)). done.
Qed.

(** The record of a marker line. *)
Definition is_record (x : pyobj) : Prop :=
  exists m v, x = PyDict [("marker", PyStr m); ("values", PyDict v)].

Lemma log_records_ok lines : exists l, log_records lines = Ok l /\ Forall is_record l.
Proof.
  induction lines as [|line lines (l & Hl & Hr)]; [by exists []|]. cbn [log_records].
  destruct (negb (str_contains "_METRICS" line) && negb (str_contains "_RESOURCES" line)) eqn:E; [by exists l|].
  destruct (str_words line) as [|m ws] eqn:Hw.
  - exfalso. apply (marker_words line); [|done].
    destruct (str_contains "_METRICS" line); [by left|]. right. by destruct (str_contains "_RESOURCES" line).
  - rewrite Hl. eexists. split; [reflexivity|]. constructor; [by eexists _, _|done].
Qed.

(** What a readable log, or none, gives. *)
Record printable_runtime (runtime : pydict) : Prop := {
  pr_status : exists s, dict_get runtime "status" = Some (PyStr s) /\
    (s = "measured" -> is_Some (dict_get runtime "source") /\
       exists l, dict_get runtime "records" = Some (PyList l) /\ Forall is_record l)
}.

Definition readable_log (log : option (string * res string)) : Prop :=
  match log with Some (_, Raise _) => False | _ => True end.

Lemma parse_runtime_log_ok log :
  readable_log log -> exists rt, parse_runtime_log log = Ok rt /\ printable_runtime rt.
Proof.
  destruct log as [[path [text|e]]|]; cbn [readable_log]; [|done|]; intros _.
  - cbn [parse_runtime_log or_unreadable mbind res_bind].
    destruct (log_records_ok (str_splitlines text)) as (l & -> & Hl). cbn [mbind res_bind].
    eexists. split; [reflexivity|]. split. eexists. split; [reflexivity|]. intros _.
    split; [by eexists|]. by exists l.
  - eexists. split; [reflexivity|]. split. eexists. split; [reflexivity|done].
Qed.

Lemma runtime_lines_ok runtime : printable_runtime runtime -> exists l, runtime_lines (PyDict runtime) = Ok l.
Proof.
  intros [(s & Hs & H)]. unfold runtime_lines. rewrite (proj2 (getitem_dict runtime _ _) Hs). cbn [mbind res_bind].
  destruct (py_eqb (PyStr s) (PyStr "measured")) eqn:E; [|by eexists].
  apply py_eqb_str in E as [= ->]. destruct H as [[src Hsrc] (l & Hl & Fl)]; [done|].
  rewrite (field_Some runtime _ _ Hsrc), (proj2 (getitem_dict runtime _ _) Hl). cbn [mbind res_bind py_iter].
  destruct (mapM_res_total record_line l) as [ys ->]; [|by eexists].
  eapply Forall_impl; [exact Fl|]. intros x (m & v & ->). by eexists.
Qed.

(** ** The [verify] command *)

Lemma report_markdown_ok plan p linked m runtime report l bs :
  ResourcePlan plan p -> Measured linked m -> printable_linked linked -> printable_runtime runtime ->
  titled report -> dict_get report "checks" = Some (PyList l) -> Forall2 is_check l bs ->
  dict_get report "budgets" = dict_get plan "budgets" -> dict_get report "planned" = dict_get plan "planned" ->
  dict_get report "linked" = Some (PyDict linked) -> dict_get report "runtime_measured" = Some (PyDict runtime) ->
  dict_get report "accounting_note" = Some (PyStr accounting_note) ->
  exists text, report_markdown report = Ok text.
Proof.
  intros Hp [Mf Mr _] [(st & Hst & Fst) (hp & Hhp & Fhp)] Hrt Hti Hl Hbs Hbud Hplan Hlk Hrun Hnote.
  destruct (title_lines_ok report "# Post-link resource verification" Hti) as [hd Hhd].
  destruct (@rpl_budgets _ _ Hp) as (b & Hb & Hfl & Hram). rewrite Hb in Hbud.
  destruct (@rpl_planned _ _ Hp) as (q & a & Hq & Ha & Hres). rewrite Hq in Hplan.
  destruct (check_rows_ok report l bs Hl Hbs) as [rows Hrows].
  destruct (slice_rows_ok linked st hp Hst Fst Hhp Fhp) as [sl Hsl].
  destruct (runtime_lines_ok runtime Hrt) as [rl Hrl].
  unfold report_markdown. rewrite (proj2 (getitem_dict report _ _) Hlk). cbn [mbind res_bind].
  rewrite (item_at_cons report _ _ _ Hplan), (item_at_cons q _ _ _ Ha), (item_at_cons a _ _ _ Hres), item_at_nil.
  cbn [mbind res_bind]. rewrite Hhd. cbn [mbind res_bind].
  rewrite !(item_at_cons report _ _ _ Hbud), (item_at_cons b _ _ _ Hfl), (item_at_cons b _ _ _ Hram).
  cbn [item_at mbind res_bind].
  rewrite (proj2 (getitem_dict linked _ _) Mf), (proj2 (getitem_dict linked _ _) Mr).
  cbn [mbind res_bind format_bytes py_format_grouped as_int py_sub num_op py_add].
  rewrite Hsl. cbn [mbind res_bind]. rewrite (proj2 (getitem_dict report _ _) Hrun). cbn [mbind res_bind].
  rewrite Hrl. cbn [mbind res_bind]. rewrite Hrows, (proj2 (getitem_dict report _ _) Hnote). by eexists.
Qed.

Lemma verify_main en fs ppath dir log json md plan p sections map_text c rs :
  (forall q, env_write en q = Ok tt) -> (forall q, env_mkdir en q = Ok tt) ->
  load_json en ppath = Ok plan -> ResourcePlan plan p -> pl_pass p = true ->
  linked_build fs dir sections map_text c -> parse_memory_regions map_text = Ok rs ->
  readable_log ((fun q => (q, read_text_replace fs q)) <$> log) ->
  exists code text1 text2, exit (main en fs (Args (VerifyCommand ppath dir log) json md)) = Ok code /\
    files (main en fs (Args (VerifyCommand ppath dir log) json md)) = [(json, text1); (md, text2)] /\
    (code = 0%Z \/ code = 2%Z) /\
    (code = 0%Z <->
     linked_ok p (Measurement (flash_usage fs dir sections) (ram_usage c rs sections).1 rs)).
Proof.
  intros Hw Hm Hplan Hp Hpass Hlb Hrs Hlog.
  destruct (measure_spec fs dir sections map_text c Hlb) as (linked & rs' & Hlk & Hrs' & Hmd & Hpk).
  rewrite Hrs in Hrs'. injection Hrs' as <-.
  destruct (parse_runtime_log_ok _ Hlog) as (rt & Hrt & Hprt).
  destruct (report_spec plan p linked _ rt Hp Hmd Hpass) as
    (report & l & bs & Hrep & Hst & Hl & Hbs & Hok & Ht & Hb & Hd & Hbud & Hplan' & Hlk' & Hrun & Hnote).
  assert (titled report) as Hti.
  { destruct (plan_titled plan p Hp). split; [by eexists|by rewrite Hd|by rewrite Ht|by rewrite Hb]. }
  destruct (report_markdown_ok plan p linked _ rt report l bs Hp Hmd Hpk Hprt Hti Hl Hbs Hbud Hplan' Hlk' Hrun Hnote)
    as [text Htext].
  destruct (verdict_of_spec "ROS2_ZEPHYR_RESOURCE_VERIFY" report l bs Hti Hl Hbs) as (out & err & Hv).
  assert (run en fs (Args (VerifyCommand ppath dir log) json md) [] =
    (Ok (if forallb id bs then 0%Z else 2%Z, out, err),
     [(json, Json.dumps (PyDict report) +:+ newline); (md, text)])) as Hr.
  { unfold run. rewrite lift_bind. cbn [arg_command run_command]. rewrite Hplan. cbn [mbind res_bind].
    rewrite Hlk. cbn [mbind res_bind]. rewrite Hrt. cbn [mbind res_bind]. rewrite Hrep. cbn [mbind res_bind].
    rewrite Htext. cbn [mbind res_bind].
    unfold mbind, io_bind. rewrite write_report_ok by done. rewrite write_report_ok by done.
    unfold lift. by rewrite Hv. }
  unfold main. rewrite Hr. eexists _, _, _. split; [reflexivity|]. split; [reflexivity|].
  rewrite <- Hok. split; [destruct (forallb id bs); auto|]. by destruct (forallb id bs).
Qed.

(** ** Refusals *)

Definition command_input (c : command) : string :=
  match c with PlanCommand path _ _ _ => path | VerifyCommand path _ _ => path end.

(** When a command cannot judge what it is given, and the code it says so with. *)
Inductive refusal (en : env) (fs : build_files) : command -> string -> Prop :=
  | no_input cmd e : env_read en (command_input cmd) = Raise (OSError e) -> refusal en fs cmd "E_RESOURCE_INPUT"
  | no_config path config target sync plan e :
      load_json en path = Ok plan -> env_read en config = Raise (OSError e) ->
      refusal en fs (PlanCommand path config target sync) "E_RESOURCE_INPUT"
  | no_budget path config target sync dp d backend minimum c :
      load_json en path = Ok dp -> compiled dp d backend minimum -> sync ∈ ddsrt_choices ->
      parse_config config (env_read en config) = Ok c -> assoc (dep_targets d) (effective_target d c target) = None ->
      refusal en fs (PlanCommand path config target sync) "E_RESOURCE_TARGET"
  | no_artifacts path dir log plan :
      load_json en path = Ok plan -> has_artifacts fs (artifact_dir fs dir) = false ->
      refusal en fs (VerifyCommand path dir log) "E_RESOURCE_ARTIFACT"
  | no_passed_plan path dir log plan p sections map_text c :
      load_json en path = Ok plan -> ResourcePlan plan p -> pl_pass p = false ->
      linked_build fs dir sections map_text c -> readable_log ((fun q => (q, read_text_replace fs q)) <$> log) ->
      refusal en fs (VerifyCommand path dir log) "E_RESOURCE_PLAN".

Lemma refused_main en fs c json md code msg : run_command en fs c = Raise (ResourceError code msg) ->
  main en fs (Args c json md) = Outcome (Ok 2%Z) [] [code +:+ ": " +:+ msg] [].
Proof. intros H. unfold main, run. rewrite lift_bind. cbn [arg_command]. by rewrite H. Qed.

Lemma load_json_missing en path e : env_read en path = Raise (OSError e) ->
  exists msg, load_json en path = Raise (ResourceError "E_RESOURCE_INPUT" msg).
Proof. intros H. unfold load_json, read_json. rewrite H. by eexists. Qed.

Lemma refusal_run en fs c code : refusal en fs c code -> exists msg, run_command en fs c = Raise (ResourceError code msg).
Proof.
  intros [cmd e He|path config target sync plan e Hl He|path config target sync dp d backend minimum c' Hl Hc Hs Hp Hn
    |path dir log plan Hl Ha|path dir log plan p sections map_text c' Hl Hp Hf Hb Hlog].
  - destruct (load_json_missing _ _ _ He) as [msg H]. exists msg. by destruct cmd; cbn in *; rewrite H.
  - cbn. rewrite Hl. cbn. rewrite He. by eexists.
  - cbn. rewrite Hl. cbn. rewrite Hp. cbn. rewrite (plan_no_budget dp d backend minimum) by done. by eexists.
  - cbn. rewrite Hl. cbn. destruct (measure_missing _ _ Ha) as [msg ->]. by exists msg.
  - destruct (measure_spec fs dir sections map_text c' Hb) as (linked & rs & Hm & _).
    destruct (parse_runtime_log_ok _ Hlog) as (rt & Hrt & _).
    cbn. rewrite Hl. cbn. rewrite Hm. cbn. rewrite Hrt. cbn. rewrite (report_needs_plan plan p) by done. by eexists.
Qed.

End ReportSpec.
