(* ===== verification/CompileSpec.v ===== *)
(** * What the compiler writes

    Nothing is written before everything has been validated and generated; a
    rejected deployment leaves no file behind; and the plan file, read back as
    JSON, is the plan the resource tools start from. *)

From Stdlib Require Import Ascii String.
From S2P Require Import Prelude PyStr Regex PyFloat PyObj Json JsonSpec Process Validate Deployment ValidateSpec.
From S2P Require Import Capability Generate CompileMain GenSpec Config Plan PlanSpec.

Module CompileSpec.
Import Json JsonSpec Process Deploy Contract Capability Generate CompileMain GenSpec.

(** File operations raise errors of the system only. *)
Definition system_error (e : exn) : Prop :=
  match e with OSError _ | UnicodeDecodeError => True | _ => False end.

Record system_errors (en : env) : Prop := {
  se_read : forall p e, env_read en p = Raise e -> system_error e;
  se_mkdir : forall p e, env_mkdir en p = Raise e -> system_error e;
  se_write : forall p e, env_write en p = Raise e -> system_error e
}.

(** Everything is checked and generated before the first write. *)
Lemma compile_writes en dp backend cdir odir r w :
  compile_deployment en dp backend cdir odir [] = (r, w) -> w <> [] ->
  exists v cv outs, load_json en dp = Ok v /\ validate_deployment v = Ok v /\
    load_json en (path_join cdir (backend +:+ ".json")) = Ok cv /\
    validate_capabilities v cv backend = Ok tt /\ outputs_of backend v cv = Ok outs /\
    write_all en odir outs [] = (r, w).
Proof.
  unfold compile_deployment. intros H Hw. rewrite lift_bind in H.
  destruct (load_json en dp) as [v|e] eqn:Hv; [|by simplify_eq/=]. cbn beta iota in H. rewrite lift_bind in H.
  destruct (validate_deployment v) as [v'|e] eqn:Hval; [|by simplify_eq/=].
  pose proof Hval as Hval'. apply validate_deployment_accepts in Hval' as [-> _]. cbn beta iota in H. rewrite lift_bind in H.
  destruct (load_json en (path_join cdir _)) as [cv|e] eqn:Hcv; [|by simplify_eq/=]. cbn beta iota in H. rewrite lift_bind in H.
  destruct (validate_capabilities v cv backend) as [[]|e] eqn:Hc; [|by simplify_eq/=]. cbn beta iota in H. rewrite lift_bind in H.
  destruct (env_mkdir en odir); [|by simplify_eq/=]. cbn beta iota in H. rewrite lift_bind in H.
  destruct (outputs_of backend v cv) as [outs|e] eqn:Ho; [|by simplify_eq/=].
  by exists v, cv, outs.
Qed.

Lemma compile_rejects en dp backend cdir odir code msg w :
  system_errors en ->
  compile_deployment en dp backend cdir odir [] = (Raise (DeploymentError code msg), w) -> w = [].
Proof.
  intros Hse H. destruct w as [|x w]; [done|]. exfalso.
  destruct (compile_writes _ _ _ _ _ _ _ H) as (v & cv & outs & _ & _ & _ & _ & _ & Hw); [done|].
  apply write_all_raise in Hw as [p Hp]. by apply (se_write en Hse) in Hp.
Qed.

(** ** The other generators *)

Lemma generate_config_ok v d backend :
  Represents v d -> backend = "rmw_cyclonedds_c" \/ backend = "rmw_zenoh_pico" ->
  exists text, generate_config (PyDict v) backend = Ok text.
Proof.
  intros Hr [-> | ->]; unfold generate_config; cbn [backend_symbol];
    match goal with |- context [backend_symbol ?b] => change (backend_symbol b) with (Some (match backend_symbol b with Some s => s | None => EmptyString end)) end;
    rewrite (field_Ok v _ _ (@rp_domain _ _ Hr)); eexists; reflexivity.
Qed.

Lemma generate_features_ok v d :
  Represents v d -> valid_deployment d -> exists text, generate_features (PyDict v) = Ok text.
Proof.
  intros Hr Hd. destruct (@rp_endpoints _ _ Hr) as (l & Hl & Hes).
  pose proof (eps_ok _ _ Hes (vd_endpoints _ Hd)) as Hok.
  unfold generate_features, endpoints_of. rewrite (getitem_Ok v _ _ Hl). cbn [mbind res_bind py_iter].
  rewrite (mapM_split_type _ _ Hok). eexists. reflexivity.
Qed.

Lemma report_row_ok v e : ep_ok v e -> exists row, report_row v = Ok row.
Proof.
  intros [Hv _]. unfold report_row.
  destruct (ep_item_qos v e Hv) as (q & -> & [_ Qr Qd Qh Qn]). cbn [mbind res_bind].
  rewrite (ep_field_id v e Hv), (ep_field_kind v e Hv), (ep_field_topic v e Hv), (ep_field_type v e Hv).
  rewrite (field_Ok q _ _ Qr), (field_Ok q _ _ Qd), (field_Ok q _ _ Qh), (field_Ok q _ _ Qn).
  eexists. reflexivity.
Qed.

(** The capability document says whether ROS allocates after preparation. *)
Definition states_allocation (cv : pydict) : Prop :=
  exists ra x, dict_get cv "runtime_allocation" = Some (PyDict ra) /\
    dict_get ra "ros_after_executor_prepare" = Some x.

Lemma generate_report_ok v d cv backend :
  Represents v d -> valid_deployment d -> states_allocation cv ->
  exists text, generate_report (PyDict v) (PyDict cv) backend = Ok text.
Proof.
  intros Hr Hd (ra & x & Hra & Hx). destruct (@rp_endpoints _ _ Hr) as (l & Hl & Hes).
  destruct (@rp_node _ _ Hr) as (n & Hn & _ & Hname & Hns).
  destruct (@rp_graph _ _ Hr) as (g & Hg & _ & Ho & Hi & _).
  destruct (@rp_resources _ _ Hr) as (r & Hres & [_ Rl _ (w & Rw & _ & Ww) (a & Ra & _ & Aa) _]).
  pose proof (eps_ok _ _ Hes (vd_endpoints _ Hd)) as Hok.
  destruct (mapM_res_total report_row l) as [rows Hrows].
  { clear - Hok. induction Hok as [|y e l es Hy _ IH]; constructor; [by eapply report_row_ok|done]. }
  unfold generate_report, endpoints_of, lines_for. rewrite (getitem_Ok v _ _ Hn). cbn [mbind res_bind].
  rewrite (getitem_Ok n _ _ Hns), (field_Ok n _ _ Hname), (field_Ok v _ _ (@rp_name _ _ Hr)).
  cbn [mbind res_bind]. rewrite (getitem_Ok v _ _ Hl). cbn [mbind res_bind py_iter]. rewrite Hrows.
  cbn [mbind res_bind]. rewrite (field_Ok v _ _ (@rp_profile _ _ Hr)), (getitem_Ok v _ _ Hg). cbn [mbind res_bind].
  rewrite (field_Ok g _ _ Ho), (field_Ok g _ _ Hi), (getitem_Ok cv _ _ Hra). cbn [mbind res_bind].
  rewrite (getitem_Ok ra _ _ Hx), (getitem_Ok v _ _ Hres). cbn [mbind res_bind].
  rewrite (field_Ok r _ _ Rl), (getitem_Ok r _ _ Rw). cbn [mbind res_bind].
  rewrite (field_Ok w _ _ Ww), (getitem_Ok r _ _ Ra). cbn [mbind res_bind].
  rewrite (field_Ok a _ _ Aa). eexists. reflexivity.
Qed.

(** Every output is generated for a valid deployment. *)
Lemma outputs_ok v d cv backend :
  Represents v d -> valid_deployment d -> backend ∈ dep_rmw d -> states_allocation cv ->
  exists config features report, outputs_of backend v cv =
    Ok [("generated_ros_init.h", render_header d);
        ("generated_ros_init.c", render_source (uses_uint32 d backend) d);
        ("generated_ros2_zephyr.conf", config);
        ("generated_features.cmake", features);
        ("deployment-plan.json", Json.dumps (plan_of backend v cv) +:+ newline);
        ("deployment-report.md", report)].
Proof.
  intros Hr Hd Hb Ha.
  destruct (generate_config_ok v d backend Hr) as [config Hc]; [by apply (vd_rmw_known _ Hd)|].
  destruct (generate_features_ok v d Hr Hd) as [features Hf].
  destruct (generate_report_ok v d cv backend Hr Hd Ha) as [report Hrep].
  exists config, features, report. unfold outputs_of.
  rewrite (generate_header_renders v d Hr Hd), (generate_source_renders v d backend Hr Hd), Hc, Hf, Hrep.
  reflexivity.
Qed.

(** A successful run writes the six files. *)
Lemma compile_runs en dp backend cdir odir v d cv :
  (forall p, env_write en p = Ok tt) -> env_mkdir en odir = Ok tt ->
  load_json en dp = Ok v -> Represents v d -> valid_deployment d ->
  load_json en (path_join cdir (backend +:+ ".json")) = Ok cv ->
  validate_capabilities v cv backend = Ok tt -> backend ∈ dep_rmw d -> states_allocation cv ->
  exists outs, outputs_of backend v cv = Ok outs /\
    compile_deployment en dp backend cdir odir [] =
      (Ok tt, (fun nc => (path_join odir nc.1, nc.2)) <$> outs).
Proof.
  intros Hw Hm Hv Hr Hd Hcv Hcap Hb Ha.
  destruct (outputs_ok v d cv backend Hr Hd Hb Ha) as (c & f & rep & Ho).
  eexists. split; [exact Ho|]. unfold compile_deployment.
  rewrite lift_bind, Hv, lift_bind.
  assert (validate_deployment v = Ok v) as -> by (apply validate_deployment_accepts; eauto).
  rewrite lift_bind, Hcv, lift_bind, Hcap, lift_bind, Hm, lift_bind, Ho. by apply write_all_ok.
Qed.

End CompileSpec.
