(* ===== verification/PlanFile.v ===== *)
(** * The plan file between the two tools

    [deployment-plan.json] is written by the compiler with its keys sorted and
    read back by the resource tools.  The document read back describes the same
    deployment, with the target budgets in another order. *)

From Stdlib Require Import Ascii String.
From S2P Require Import Prelude PyStr Regex PyFloat PyObj Json JsonSpec Process Validate Deployment ValidateSpec.
From S2P Require Import Capability Generate CompileMain Config Plan PlanSpec.

Module PlanFile.
Import Json JsonSpec Process Deploy Contract CompileMain PlanSpec.

(** The items of a document read back. *)
Definition reread (d : pydict) : pydict := sorted_items (canon_item <$> d).

Lemma reread_dict d : canon (PyDict d) = PyDict (reread d).
Proof. apply canon_dict. Qed.

Lemma reread_keys d : dict_keys (reread d) = dict_keys d.
Proof.
  unfold dict_keys, reread. apply list_to_set_perm_L. by rewrite sorted_items_perm, canon_keys.
Qed.

(** ** Looking up *)

Section lookup.
Context (d : pydict) (Hwf : wf_obj (PyDict d) = true).

Lemma reread_get k : dict_get (reread d) k = canon <$> dict_get d k.
Proof. apply dict_get_canon. by apply wf_dict in Hwf as [? _]. Qed.

Lemma reread_str k s : dict_get d k = Some (PyStr s) -> dict_get (reread d) k = Some (PyStr s).
Proof. intros H. by rewrite reread_get, H. Qed.
Lemma reread_int k z : dict_get d k = Some (PyInt z) -> dict_get (reread d) k = Some (PyInt z).
Proof. intros H. by rewrite reread_get, H. Qed.
Lemma reread_bool k b : dict_get d k = Some (PyBool b) -> dict_get (reread d) k = Some (PyBool b).
Proof. intros H. by rewrite reread_get, H. Qed.
Lemma reread_None k : dict_get d k = None -> dict_get (reread d) k = None.
Proof. intros H. by rewrite reread_get, H. Qed.
Lemma reread_sub k e : dict_get d k = Some (PyDict e) ->
  dict_get (reread d) k = Some (PyDict (reread e)) /\ wf_obj (PyDict e) = true.
Proof.
  intros H. split; [by rewrite reread_get, H, <- reread_dict|]. by apply (dict_get_wf d k).
Qed.
Lemma reread_list k l : dict_get d k = Some (PyList l) ->
  dict_get (reread d) k = Some (PyList (canon <$> l)) /\ Forall (fun x => wf_obj x = true) l.
Proof.
  intros H. split; [by rewrite reread_get, H|]. apply wf_list. by apply (dict_get_wf d k).
Qed.
End lookup.

Lemma canon_strs (l : list string) : canon <$> (PyStr <$> l) = PyStr <$> l.
Proof. induction l as [|s l IH]; [done|]. cbn. f_equal. exact IH. Qed.

(** ** The parts of a deployment *)

Lemma reread_qos q x : wf_obj (PyDict q) = true -> represents_qos q x -> represents_qos (reread q) x.
Proof.
  intros Hwf [K R D H N]. split; [by unfold keys_are; rewrite reread_keys|..]; auto using reread_str, reread_int.
Qed.

Lemma reread_endpoint v e : wf_obj v = true -> represents_endpoint v e -> represents_endpoint (canon v) e.
Proof.
  intros Hwf [(d & -> & K & I & Kd & T & Ty & L & C & q & Hq & Q)]. split. exists (reread d).
  rewrite reread_dict. split; [done|]. split; [by rewrite reread_keys|].
  do 5 (split; [by apply reread_str|]). split.
  - destruct (ep_kind e); [by apply reread_None|by apply reread_str].
  - destruct (reread_sub d Hwf _ _ Hq) as [Hq' Hwq]. exists (reread q). split; [done|]. by apply reread_qos.
Qed.

Lemma reread_endpoints l es :
  Forall (fun x => wf_obj x = true) l -> Forall2 represents_endpoint l es ->
  Forall2 represents_endpoint (canon <$> l) es.
Proof.
  intros Hwf H. induction H as [|v e l es Hv Hl IH]; [constructor|].
  apply Forall_cons in Hwf as [Hw Hwf]. rewrite fmap_cons. constructor; [by apply reread_endpoint|auto].
Qed.

Lemma reread_budget kv tb :
  wf_obj kv.2 = true -> represents_budget kv tb -> represents_budget (canon_item kv) tb.
Proof.
  intros Hwf (Hk & b & Hb & K & F & R). split; [done|]. exists (reread b). unfold canon_item. cbn [snd].
  rewrite Hb in *. rewrite reread_dict. split; [done|]. split; [by unfold keys_are; rewrite reread_keys|].
  split; by apply reread_int.
Qed.

Lemma reread_targets t ts :
  wf_obj (PyDict t) = true -> Forall2 represents_budget t ts ->
  exists ts', ts ≡ₚ ts' /\ Forall2 represents_budget (reread t) ts'.
Proof.
  intros [_ Hwf]%wf_dict H. apply (Forall2_perm _ (canon_item <$> t)); [symmetry; apply sorted_items_perm|].
  induction H as [|kv tb t ts Hk _ IH]; [constructor|]. apply Forall_cons in Hwf as [Hw Hwf].
  rewrite fmap_cons. constructor; [by apply reread_budget|auto].
Qed.

(** ** The deployment *)

Definition with_targets (d : deployment) (ts : list (string * budget)) : deployment :=
  Deployment (dep_name d) (dep_domain d) (dep_node d) (dep_namespace d) (dep_rmw d) (dep_outbound d)
    (dep_inbound d) (dep_api d) (dep_endpoints d) (dep_local_endpoints d) (dep_remote_participants d)
    (dep_remote_nodes d) (dep_remote_endpoints d) (dep_workers d) (dep_reserve d) ts.

Lemma with_targets_valid d ts :
  dep_targets d ≡ₚ ts -> valid_deployment d -> valid_deployment (with_targets d ts).
Proof.
  intros Hp [V1 V2 V3 V4 V5 V6 V7 V8 V9 V10 V11 V12 V13 V14 V15 V16 V17 V18].
  split; cbn; try done.
  - intros ->. apply V17. symmetry in Hp. by apply Permutation_nil in Hp.
  - by rewrite <- Hp.
Qed.

Lemma reread_resources r d :
  wf_obj (PyDict r) = true -> represents_resources r d ->
  exists ts, dep_targets d ≡ₚ ts /\ represents_resources (reread r) (with_targets d ts).
Proof.
  intros Hwf [K L (m & Hm & Km & Mp & Mn & Me) (w & Hw & Kw & W) (a & Ha & Ka & A) (t & Ht & T)].
  destruct (reread_sub r Hwf _ _ Hm) as [Hm' Wm]. destruct (reread_sub r Hwf _ _ Hw) as [Hw' Ww].
  destruct (reread_sub r Hwf _ _ Ha) as [Ha' Wa]. destruct (reread_sub r Hwf _ _ Ht) as [Ht' Wt].
  destruct (reread_targets t _ Wt T) as (ts & Hp & Hts). exists ts. split; [done|].
  split; cbn; [by unfold keys_are; rewrite reread_keys|by apply reread_int|..].
  - exists (reread m). split; [done|]. split; [by unfold keys_are; rewrite reread_keys|].
    auto using reread_int.
  - exists (reread w). split; [done|]. split; [by unfold keys_are; rewrite reread_keys|]. auto using reread_int.
  - exists (reread a). split; [done|]. split; [by unfold keys_are; rewrite reread_keys|]. auto using reread_int.
  - by exists (reread t).
Qed.

Lemma canon_version x : py_eqb x (PyInt 2) = true -> py_eqb (canon x) (PyInt 2) = true.
Proof. destruct x; cbn; done. Qed.

Lemma reread_represents v d :
  wf_obj (PyDict v) = true -> Represents v d ->
  exists ts, dep_targets d ≡ₚ ts /\ Represents (reread v) (with_targets d ts).
Proof.
  intros Hwf [K (x & Hx & Hx2) N D P (n & Hn & Kn & Nn & Ns) R (g & Hg & Kg & Go & Gi & Ga)
    (l & Hl & Hes) (r & Hr & Hres)].
  destruct (reread_sub v Hwf _ _ Hn) as [Hn' Wn]. destruct (reread_sub v Hwf _ _ Hg) as [Hg' Wg].
  destruct (reread_list v Hwf _ _ Hl) as [Hl' Wl]. destruct (reread_sub v Hwf _ _ Hr) as [Hr' Wr].
  destruct (reread_resources r d Wr Hres) as (ts & Hp & Hres'). exists ts. split; [done|].
  destruct (reread_list v Hwf _ _ R) as [R' _]. destruct (reread_list g Wg _ _ Ga) as [Ga' _].
  rewrite canon_strs in R', Ga'.
  split; cbn; [by unfold keys_are; rewrite reread_keys|..]; auto using reread_str, reread_int.
  - exists (canon x). split; [by rewrite (reread_get v Hwf), Hx|by apply canon_version].
  - exists (reread n). split; [done|]. split; [by unfold keys_are; rewrite reread_keys|]. auto using reread_str.
  - exists (reread g). split; [done|]. split; [by unfold keys_are; rewrite reread_keys|]. auto using reread_bool.
  - exists (canon <$> l). split; [done|]. by apply reread_endpoints.
  - by exists (reread r).
Qed.

(** ** The plan *)

(** The worker minimum of a capability document. *)
Definition states_workers (cv : pydict) (minimum : Z) : Prop :=
  exists w, dict_get cv "workers" = Some (PyDict w) /\ dict_get w "minimum" = Some (PyInt minimum).

Lemma plan_reread v d cv backend minimum :
  wf_obj (PyDict v) = true -> wf_obj (PyDict cv) = true -> Represents v d -> valid_deployment d ->
  states_workers cv minimum ->
  exists dp ts, canon (plan_of backend v cv) = PyDict dp /\ dep_targets d ≡ₚ ts /\
    compiled dp (with_targets d ts) backend minimum.
Proof.
  intros Hv Hcv Hr Hd (w & Hw & Hm). unfold plan_of.
  set (p := [("schema_version", PyInt 2); ("backend", PyStr backend); ("deployment", PyDict v);
             ("capability", PyDict cv)]).
  assert (wf_obj (PyDict p) = true) as Hp.
  { apply wf_dict. split; [by refine (bool_decide_unpack _ _)|]. by repeat constructor. }
  destruct (reread_represents v d Hv Hr) as (ts & Hts & Hr').
  destruct (reread_sub cv Hcv _ _ Hw) as [Hw' Ww].
  exists (reread p), ts. split; [apply reread_dict|]. split; [done|]. split.
  - by apply reread_int.
  - exists (reread v). split; [|done]. by apply (reread_sub p Hp "deployment" v).
  - by apply with_targets_valid.
  - by apply reread_str.
  - exists (reread cv), (reread w). split; [by apply (reread_sub p Hp "capability" cv)|]. split; [done|].
    by apply reread_int.
Qed.

(** The budget of a target does not depend on the order. *)
Lemma assoc_perm {A} (l k : list (string * A)) x :
  NoDup l.*1 -> l ≡ₚ k -> assoc l x = assoc k x.
Proof.
  intros Hnd Hp. induction Hp as [|[a b] l k Hp IH|[a b] [a' b'] l|l1 l2 l3 H1 IH1 H2 IH2]; cbn in *.
  - done.
  - apply NoDup_cons in Hnd as [_ Hnd]. case_decide; auto.
  - apply NoDup_cons in Hnd as [Hn _]. rewrite elem_of_cons in Hn. repeat case_decide; subst; auto. naive_solver.
  - rewrite IH1 by done. apply IH2. by rewrite <- H1.
Qed.

End PlanFile.
