(* ===== verification/Toolchain.v ===== *)
(** * The tools in sequence

    The compiler writes [deployment-plan.json]; [verify_resources.py plan] reads
    it and writes the resource plan; [verify_resources.py verify] reads that.
    Each file, read back, satisfies the interface the next tool relies on. *)

From Stdlib Require Import Ascii String.
From S2P Require Import Prelude PyStr Regex PyFloat PyObj Json JsonSpec Process Validate Deployment ValidateSpec.
From S2P Require Import Capability Generate CompileMain GenSpec Config Plan PlanSpec Elf MapFile Postlink ResourceMain.
From S2P Require Import CompileSpec PlanFile.

Module Toolchain.
Import Json JsonSpec Process Deploy Contract PlanSpec PlanFile Config Plan.

(** ** Paths *)

Lemma str_app_inv_head a b c : a +:+ b = a +:+ c -> b = c.
Proof. induction a as [|x a IH]; [done|]. rewrite !str_app_cons. by intros [= H%IH]. Qed.

Lemma path_join_inj d x y : path_join d x = path_join d y -> x = y.
Proof.
  unfold path_join. case_bool_decide; [done|]. destruct (str_endswith "/" d); intros E.
  - by apply str_app_inv_head in E.
  - by do 2 apply str_app_inv_head in E.
Qed.

(** ** A compiler run that succeeds *)

Lemma read_json_wf en p v : read_json en p = Ok v -> wf_obj v = true.
Proof.
  unfold read_json. destruct (env_read en p) as [t|e]; [|done]. cbn [mbind res_bind].
  destruct (loads t) as [x|] eqn:E; [|done]. intros [= <-]. by apply loads_wf in E.
Qed.

Lemma compile_load_wf en p v : CompileMain.load_json en p = Ok v -> wf_obj (PyDict v) = true.
Proof.
  unfold CompileMain.load_json. destruct (read_json en p) as [x|[]] eqn:E; try done.
  unfold require_object. destruct x; try done. intros [= <-]. by apply read_json_wf in E.
Qed.

Lemma write_all_Ok en dir outs w u w' :
  write_all en dir outs w = (Ok u, w') -> w' = w ++ ((fun nc => (path_join dir nc.1, nc.2)) <$> outs).
Proof.
  revert w. induction outs as [|[n c] l IH]; intros w; cbn [write_all].
  - intros [= _ <-]. by rewrite app_nil_r.
  - unfold mbind, io_bind, write. destruct (env_write en (path_join dir n)); [|done].
    intros ->%IH. by rewrite <- app_assoc.
Qed.

Lemma compile_success en a w out err :
  CompileMain.main en a = Outcome (Ok 0%Z) out err w ->
  exists v cv d outs, CompileMain.load_json en (CompileMain.arg_deployment a) = Ok v /\
    Represents v d /\ valid_deployment d /\
    CompileMain.load_json en (path_join (CompileMain.arg_capabilities_dir a)
      (CompileMain.arg_backend a +:+ ".json")) = Ok cv /\
    Capability.validate_capabilities v cv (CompileMain.arg_backend a) = Ok tt /\
    CompileMain.outputs_of (CompileMain.arg_backend a) v cv = Ok outs /\
    w = (fun nc => (path_join (CompileMain.arg_output_dir a) nc.1, nc.2)) <$> outs.
Proof.
  destruct a as [dp backend cdir odir]. unfold CompileMain.main. cbn.
  destruct (CompileMain.compile_deployment en dp backend cdir odir []) as [[u|e] w'] eqn:E.
  2: { by destruct e. }
  intros [= _ _ <-]. unfold CompileMain.compile_deployment in E. rewrite lift_bind in E.
  destruct (CompileMain.load_json en dp) as [v|e] eqn:Hv; [|done]. rewrite lift_bind in E.
  destruct (validate_deployment v) as [v'|e] eqn:Hval; [|done].
  apply validate_deployment_accepts in Hval as [-> (d & Hr & Hd)]. rewrite lift_bind in E.
  destruct (CompileMain.load_json en (path_join cdir _)) as [cv|e] eqn:Hcv; [|done]. rewrite lift_bind in E.
  destruct (Capability.validate_capabilities v cv backend) as [[]|e] eqn:Hc; [|done]. rewrite lift_bind in E.
  destruct (env_mkdir en odir) as [[]|e]; [|done]. rewrite lift_bind in E.
  destruct (CompileMain.outputs_of backend v cv) as [outs|e] eqn:Ho; [|done].
  apply write_all_Ok in E. by exists v, cv, d, outs.
Qed.

Lemma outputs_plan backend v cv outs text :
  CompileMain.outputs_of backend v cv = Ok outs -> ("deployment-plan.json", text) ∈ outs ->
  text = dumps (CompileMain.plan_of backend v cv) +:+ newline.
Proof.
  unfold CompileMain.outputs_of. intros H Hin. inv_res. subst. set_unfold. naive_solver.
Qed.

(** ** The deployment plan, read by the resource tool *)

Lemma resource_load en p text v :
  env_read en p = Ok text -> loads text = Some (PyDict v) -> ResourceMain.load_json en p = Ok v.
Proof. intros Hr Hl. unfold ResourceMain.load_json, read_json. rewrite Hr. cbn [mbind res_bind]. by rewrite Hl. Qed.

Lemma plan_of_plain backend v cv :
  plain (PyDict v) = true -> plain (PyDict cv) = true -> plain (CompileMain.plan_of backend v cv) = true.
Proof. intros Hv Hc. apply plain_dict. by repeat constructor. Qed.

Lemma plan_of_wf backend v cv :
  wf_obj (PyDict v) = true -> wf_obj (PyDict cv) = true -> wf_obj (CompileMain.plan_of backend v cv) = true.
Proof.
  intros Hv Hc. apply wf_dict. split; [by refine (bool_decide_unpack _ _)|]. by repeat constructor.
Qed.

(** The plan file of a successful run is a compiled deployment. *)
Lemma compiled_read_back en a w out err :
  CompileMain.main en a = Outcome (Ok 0%Z) out err w ->
  exists v cv d, CompileMain.load_json en (CompileMain.arg_deployment a) = Ok v /\
    Represents v d /\ valid_deployment d /\
    CompileMain.load_json en (path_join (CompileMain.arg_capabilities_dir a)
      (CompileMain.arg_backend a +:+ ".json")) = Ok cv /\
    forall minimum en' p text,
      plain (PyDict v) = true -> plain (PyDict cv) = true -> states_workers cv minimum ->
      (path_join (CompileMain.arg_output_dir a) "deployment-plan.json", text) ∈ w ->
      env_read en' p = Ok text ->
      exists dp ts, ResourceMain.load_json en' p = Ok dp /\ dep_targets d ≡ₚ ts /\
        compiled dp (with_targets d ts) (CompileMain.arg_backend a) minimum.
Proof.
  intros (v & cv & d & outs & Hv & Hr & Hd & Hcv & _ & Ho & ->)%compile_success.
  exists v, cv, d. do 4 (split; [done|]). intros minimum en' p text Pv Pc Hw Hin Hread.
  pose proof (compile_load_wf _ _ _ Hv) as Wv. pose proof (compile_load_wf _ _ _ Hcv) as Wc.
  apply list_elem_of_fmap in Hin as ([n c] & [= Hn Ht] & Hin). cbn in Hn, Ht. subst c.
  apply path_join_inj in Hn. subst n. pose proof (outputs_plan _ _ _ _ _ Ho Hin) as ->.
  destruct (plan_reread v d cv (CompileMain.arg_backend a) minimum Wv Wc Hr Hd Hw) as (dp & ts & Hdp & Hts & Hc).
  exists dp, ts. split; [|done]. apply (resource_load en' p _ dp Hread).
  rewrite <- Hdp. apply loads_dumps_line; [by apply plan_of_plain|by apply plan_of_wf].
Qed.

(** ** The resource plan, read by the verifier *)

(** Objects that JSON gives back: distinct keys and no floats. *)
Definition good (v : pyobj) : Prop := wf_obj v = true /\ plain v = true.

Lemma good_list l : good (PyList l) <-> Forall good l.
Proof. unfold good. by rewrite wf_list, plain_list, Forall_and. Qed.

Lemma good_dict d : good (PyDict d) <-> NoDup d.*1 /\ Forall (fun kv => good kv.2) d.
Proof. unfold good. rewrite wf_dict, plain_dict, Forall_and. tauto. Qed.

(** A literal dictionary. *)
Lemma good_record d : bool_decide (NoDup d.*1) = true -> Forall (fun kv => good kv.2) d -> good (PyDict d).
Proof. rewrite bool_decide_eq_true, good_dict. done. Qed.

Lemma good_scalar v : match v with PyNone | PyBool _ | PyInt _ | PyStr _ => True | _ => False end -> good v.
Proof. by destruct v. Qed.

Lemma good_get d k : good (PyDict d) -> good (get d k).
Proof.
  rewrite good_dict. intros [_ H]. unfold get. destruct (dict_get d k) as [v|] eqn:E; [|done].
  apply dict_get_elem in E. rewrite Forall_forall in H. exact (H _ E).
Qed.

Lemma good_item d k v : good (PyDict d) -> dict_get d k = Some v -> good v.
Proof. intros Hd H. pose proof (good_get d k Hd) as G. unfold get in G. by rewrite H in G. Qed.

Lemma good_opt_int z : good (opt_int z).
Proof. by destruct z. Qed.

#[local] Hint Resolve good_get good_item good_opt_int good_scalar : pydb.

Lemma good_check id code r a detail x :
  make_check id code r a detail = Ok x -> good r -> good a -> good x.
Proof.
  unfold make_check. intros H Hr Ha. inv_res. apply good_record; [done|].
  repeat constructor; cbn; try done; by destruct Hr, Ha.
Qed.

Lemma good_remote c m nk x : remote_check c m nk = Ok x -> good (PyDict m) -> good x.
Proof.
  destruct nk as [name key]. unfold remote_check. intros H Hm. inv_res.
  destruct (_ =? 0)%Z.
  - inv_res. apply good_record; [done|]. repeat constructor; cbn; try done; apply good_opt_int.
  - eapply good_check; eauto with pydb.
Qed.

Lemma good_remotes c m keys l : mapM_res (remote_check c m) keys = Ok l -> good (PyDict m) -> Forall good l.
Proof.
  rewrite mapM_res_Ok. intros H Hm. induction H as [|nk x keys l Hx _ IH]; constructor; [|done].
  by eapply good_remote.
Qed.

Lemma good_row n b s : good b -> good (row n b s).
Proof. intros Hb. apply good_record; [done|]. repeat constructor; cbn; try done; apply Hb. Qed.

Lemma good_rows l : Forall row_like l -> Forall good l.
Proof.
  intros H. eapply Forall_impl; [exact H|]. intros x (n & b & s & -> & [-> | [z ->]]); by apply good_row.
Qed.

Lemma good_static_buffers c : good (PyDict (static_buffers c)).
Proof.
  apply good_dict. split.
  - assert (forall keys, NoDup keys ->
      NoDup (omap (fun key => (fun z => (key, PyInt z)) <$> integer_config c key) keys).*1) as H.
    { intros keys H. induction H as [|k keys Hk _ IH]; [constructor|]. cbn.
      destruct (integer_config c k); [|exact IH]. cbn. apply NoDup_cons. split; [|exact IH].
      intros ([k' v] & -> & Hin)%list_elem_of_fmap.
      apply list_elem_of_omap in Hin as (y & Hy & Hv). destruct (integer_config c y); [|done].
      by injection Hv as <- _. }
    apply H. by refine (bool_decide_unpack _ _).
  - apply Forall_forall. intros [k v] (y & _ & Hv)%list_elem_of_omap.
    destruct (integer_config c y); [|done]. by injection Hv as <- <-.
Qed.

(** A literal dictionary, its fields from the hints or again literal. *)
Ltac good_fields :=
  apply good_record; [reflexivity|];
  repeat (apply Forall_cons_2; [cbn [snd]; first [good_fields | by auto with pydb]|]); apply Forall_nil_2.

Lemma require_dict_Ok v msg d : require_dict v msg = Ok d -> v = PyDict d.
Proof. destruct v; cbn; [done..|]. by intros [= ->]. Qed.

Lemma good_member d k x : get d k = PyDict x -> good (PyDict d) -> good (PyDict x).
Proof. intros <-. apply good_get. Qed.

(** A match on a member that was read, in the branch that succeeds. *)
Ltac read_member H E :=
  lazymatch type of H with context [match get ?d ?k with _ => _ end] => destruct (get d k) eqn:E; try done end.

Lemma is_missing_plan_Ok x y z d c b :
  is_missing_plan x y z = Ok (d, c, b) -> x = PyDict d /\ y = PyDict c /\ z = PyStr b.
Proof. destruct x, y, z; try done. by intros [= -> -> ->]. Qed.

Lemma good_plan dp c target sync plan :
  build_prelink_plan dp c target sync = Ok plan -> good (PyDict dp) -> good (PyDict plan).
Proof.
  intros H G. unfold build_prelink_plan, planned_part in H.
  apply bind_Ok in H as ([] & _ & H).
  apply bind_Ok in H as ([[dep cap] be] & (Edep & Ecap & _)%is_missing_plan_Ok & H).
  pose proof (good_member _ _ _ Edep G) as Gd. pose proof (good_member _ _ _ Ecap G) as Gc.
  apply bind_Ok in H as ([] & _ & H). apply bind_Ok in H as ([r es] & Hre & H).
  read_member Hre Er. read_member Hre Ees. injection Hre as -> ->. pose proof (good_member _ _ _ Er Gd) as Gr.
  cbn zeta in H. set (t := select_target _ _ _) in H.
  apply bind_Ok in H as (rb & Hrb & H). apply bind_Ok in H as (bd & ->%require_dict_Ok & H).
  assert (good (PyDict bd)) as Gb.
  { read_member Hrb Et. destruct (dict_get _ t) eqn:Eg; [|done]. injection Hrb as ->.
    eapply good_item; [|exact Eg]. by eapply good_member. }
  apply bind_Ok in H as (c1 & H1 & H). apply bind_Ok in H as (c2 & H2 & H). apply bind_Ok in H as (c3 & H3 & H).
  apply bind_Ok in H as (rm & Hrm%require_dict_Ok & H). apply bind_Ok in H as (rc & Hrc & H).
  pose proof (good_member _ _ _ Hrm Gr) as Grm.
  apply bind_Ok in H as ([w wc] & Hw & H).
  read_member Hw Ew. read_member Hw Ewc. injection Hw as -> ->.
  pose proof (good_member _ _ _ Ew Gc) as Gw. pose proof (good_member _ _ _ Ewc Gr) as Gwc.
  apply bind_Ok in H as (mn & _ & H). apply bind_Ok in H as (mx & _ & H).
  set (cw := if bool_decide (be = "rmw_cyclonedds_c") then _ else _) in H.
  assert (good cw) as Gcw by (unfold cw; destruct (bool_decide _); auto with pydb).
  apply bind_Ok in H as (c4 & H4 & H). apply bind_Ok in H as (c5 & H5 & H).
  destruct (configured_reservations c be _ _) as [[st hp] tot] eqn:Ecr.
  apply configured_reservations_rows in Ecr as [Gst%good_rows Ghp%good_rows].
  apply bind_Ok in H as (ap & Hap%require_dict_Ok & H).
  pose proof (good_member _ _ _ Hap Gr) as Gap.
  apply bind_Ok in H as (rs & _ & H). apply bind_Ok in H as (? & _ & H). apply bind_Ok in H as (? & _ & H).
  apply bind_Ok in H as (c6 & H6 & H). apply bind_Ok in H as (f & Hf & H).
  apply bind_Ok in H as (lc & Hlc%getitem_dict & H). injection H as <-.
  apply good_check in H1; [|done|destruct (as_int _); auto with pydb].
  apply good_check in H2; [|done|auto with pydb]. apply good_check in H3; [|done|auto with pydb].
  apply good_remotes in Hrc; [|done]. apply good_check in H4; [|auto with pydb..].
  apply good_check in H5; [|destruct cw; auto with pydb; done|auto with pydb].
  apply good_check in H6; [|done|auto with pydb].
  assert (good (get dep "name")) as Gn by auto with pydb. pose proof (good_item _ _ _ Gr Hlc) as Glc.
  pose proof (good_static_buffers c) as Gsb.
  assert (Forall good ([c1; c2; c3] ++ rc ++ [c4; c5; c6])) as Gk.
  { rewrite !Forall_app, !Forall_cons, !Forall_nil. tauto. }
  rewrite <- good_list in Gst, Ghp, Gk. good_fields.
Qed.

(** A check read back is a check with the same verdict. *)
Lemma reread_check x b : wf_obj x = true -> is_check x b -> is_check (canon x) b.
Proof.
  intros Hwf (c & -> & Hs & He). exists (reread c). rewrite reread_dict. split; [done|].
  split; [by apply reread_str|]. eapply Forall_impl; [exact He|]. intros k [v Hk].
  rewrite (reread_get c Hwf), Hk. by eexists.
Qed.

Lemma reread_resource_plan plan p :
  wf_obj (PyDict plan) = true -> ResourcePlan plan p -> ResourcePlan (reread plan) p.
Proof.
  intros Hwf [Hst (b & Hb & Hf & Hr) (q & a & Hq & Ha & Hs) Ht Hbk [dn Hdn] (l & Hl & bs & Hbs & Hall)].
  destruct (reread_sub plan Hwf _ _ Hb) as [Hb' Wb]. destruct (reread_sub plan Hwf _ _ Hq) as [Hq' Wq].
  destruct (reread_sub q Wq _ _ Ha) as [Ha' Wa]. destruct (reread_list plan Hwf _ _ Hl) as [Hl' Wl].
  split; auto using reread_str.
  - exists (reread b). auto using reread_int.
  - exists (reread q), (reread a). auto using reread_int.
  - rewrite (reread_get plan Hwf), Hdn. by eexists.
  - exists (canon <$> l). split; [done|]. exists bs. split; [|done]. clear - Hbs Wl.
    induction Hbs as [|x b l bs Hx _ IH]; [constructor|]. apply Forall_cons in Wl as [Wx Wl].
    rewrite fmap_cons. constructor; [by apply reread_check|auto].
Qed.

(** The file the [plan] command writes has the interface [verify] needs. *)
Lemma resource_plan_read_back dp c target sync plan p en path :
  good (PyDict dp) -> build_prelink_plan dp c target sync = Ok plan -> ResourcePlan plan p ->
  env_read en path = Ok (dumps (PyDict plan) +:+ newline) ->
  exists plan', ResourceMain.load_json en path = Ok plan' /\ ResourcePlan plan' p.
Proof.
  intros G Hplan Hp Hread. destruct (good_plan _ _ _ _ _ Hplan G) as [Wp Pp].
  exists (reread plan). split; [|by apply reread_resource_plan].
  apply (resource_load en path _ _ Hread). rewrite <- reread_dict. by apply loads_dumps_line.
Qed.

End Toolchain.
