(* ===== verification/ResourceSamples.v ===== *)
(** * A sample build

    The plan file the compiler writes for the loopback deployment, a Zephyr
    configuration, and the artifacts of a linked image: the concrete inputs of
    the witnesses for the resource tool. *)

From Stdlib Require Import Ascii String.
From S2P Require Import Prelude PyStr Regex PyFloat PyObj Json JsonSpec Process Validate Deployment ValidateSpec Capability.
From S2P Require Import Samples Generate CompileMain Config Plan PlanSpec Elf ElfSpec MapFile MapSpec Postlink PostlinkSpec.
From S2P Require Import ResourceMain PlanFile.

Module ResourceSamples.
Import Json Process Contract Samples Config Plan PlanSpec Elf ElfSpec MapFile MapSpec Postlink PostlinkSpec PlanFile.

(** ** The compiler's input and output *)

Definition plan_object : pydict :=
  [("schema_version", PyInt 2); ("backend", PyStr "rmw_cyclonedds_c"); ("deployment", PyDict loopback);
   ("capability", PyDict cyclonedds)].

Definition plan_text : string := dumps (PyDict plan_object) +:+ newline.

(** A system on which every file can be written, and whose files are given. *)
Definition sample_env (contents : list (string * string)) : env :=
  Env (fun p => match assoc contents p with Some t => Ok t | None => Raise (OSError "not found") end)
    (fun _ => Ok tt) (fun _ => Ok tt) (fun _ => "invalid").

Definition compile_env : env :=
  sample_env [("deployment.json", dumps (PyDict loopback)); ("caps/rmw_cyclonedds_c.json", dumps (PyDict cyclonedds))].

Definition compile_args : CompileMain.args :=
  CompileMain.Args "deployment.json" "rmw_cyclonedds_c" "caps" "out".

(** The targets in the order of the file. *)
Definition file_targets : list (string * budget) :=
  [("esp32_devkitc/esp32/procpu", Budget 1500000 350000);
   ("esp32s3_devkitc/esp32s3/procpu", Budget 1500000 350000);
   ("native_sim/native/64", Budget 1000000 1500000)].

Definition file_deployment : deployment := with_targets loopback_deployment file_targets.

(** ** The configuration *)

Definition sample_settings : list setting :=
  [Quoted "BOARD_TARGET" "esp32_devkitc/esp32/procpu";
   Bare "MAIN_STACK_SIZE" "8192";
   Bare "IDLE_STACK_SIZE" "1024";
   Bare "SYSTEM_WORKQUEUE_STACK_SIZE" "2048";
   Bare "HEAP_MEM_POOL_SIZE" "65536";
   Bare "COMMON_LIBC_MALLOC_ARENA_SIZE" "-1";
   Bare "ROS2_ZEPHYR_CYCLONEDDS_THREAD_COUNT" "6";
   Bare "ROS2_ZEPHYR_CYCLONEDDS_THREAD_STACK_SIZE" "0x1000";
   Bare "ROS2_ZEPHYR_GRAPH_MAX_LOCAL_NODES" "1";
   Bare "ROS2_ZEPHYR_GRAPH_MAX_ENDPOINTS_PER_NODE" "4";
   Bare "NET_PKT_RX_COUNT" "8";
   Unset "SOC_ESP32C6_HPCORE"].

(** The file Kconfig writes: comments, headings and empty lines between the symbols. *)
Definition sample_entries : list config_entry :=
  [Comment "#"; Comment "# Automatically generated file; DO NOT EDIT."; Comment "#"; Comment EmptyString] ++
  (Setting <$> take 6 sample_settings) ++
  [Comment "# end of General Kernel Options"; Comment EmptyString; Comment "# ROS 2 (CONFIG_ROS2_ZEPHYR=y)"] ++
  (Setting <$> drop 6 sample_settings) ++ [Comment "# end of ROS 2"].

Definition config_text : string := text_of_lines (config_entry_line <$> sample_entries).

Definition tool_env : env := sample_env [("plan.json", plan_text); (".config", config_text)].

(** ** The linked image *)

(** The contents of the sections, which nobody reads. *)
Definition sample_body : Elf.bytes := replicate 40 "x"%char.

Definition sample_sections : list ElfSection :=
  [Section_ EmptyString 0 0 0 0;
   Section_ "text" 1073741824 400000 1 6;
   Section_ "datas" 1073610752 20000 1 3;
   Section_ "noinit" 1073630752 90000 8 3;
   Section_ ".shstrtab" 0 29 3 0].

Definition map_lines : list string :=
  ["Archive member included"; EmptyString; "Memory Configuration"; EmptyString;
   "Name             Origin             Length             Attributes";
   "FLASH            0x0000000000000020 0x00000000003fffe0 r";
   "dram0_0_seg      0x000000003ffe0000 0x0000000000060000 rw";
   "*default*        0x0000000000000000 0xffffffffffffffff"; EmptyString;
   "Linker script and memory map"; EmptyString;
   " .noinit.kernel";
   "                0x000000003ffe5000     0x2000 kernel.a(init.c.obj)";
   "                0x000000003ffe5000                z_main_stack";
   "                0x000000003ffe6000                z_idle_stacks"; EmptyString;
   "                0x0000000000010000                _libc_heap_size = 0x10000"].

Definition map_text : string := text_of_lines map_lines.

Definition sample_files : build_files :=
  BuildFiles (fun _ => false)
    (fun p => bool_decide (p ∈ ["build/zephyr.elf"; "build/zephyr.map"; "build/.config"]))
    (fun _ => Ok (encode_elf false true sample_body sample_sections 4))
    (fun _ => Ok config_text) (fun _ => Ok map_text) (fun _ => 0%Z).

(** * The samples meet the interfaces *)

Lemma sample_entries_ok : Forall config_entry_ok sample_entries.
Proof. repeat constructor; by apply comment_line. Qed.

Lemma sample_config path : parse_config path (Ok config_text) = Ok (settings sample_settings).
Proof. apply (parse_settings path sample_entries), sample_entries_ok. Qed.

Lemma file_targets_perm : dep_targets loopback_deployment ≡ₚ file_targets.
Proof. cbn [dep_targets loopback_deployment]. unfold file_targets.
  etransitivity; [apply Permutation_swap|]. constructor. apply Permutation_swap.
Qed.

(** The plan file, read back. *)
Lemma file_represents : Represents (reread loopback) file_deployment.
Proof. represent_document. Qed.

Lemma file_compiled : compiled (reread plan_object) file_deployment "rmw_cyclonedds_c" 5.
Proof.
  split; [reflexivity| | |reflexivity|].
  - exists (reread loopback). split; [reflexivity|exact file_represents].
  - apply with_targets_valid; [exact file_targets_perm|exact loopback_valid].
  - eexists _, _. repeat split.
Qed.

Lemma plan_loaded : ResourceMain.load_json tool_env "plan.json" = Ok (reread plan_object).
Proof. vm_compute. reflexivity. Qed.

Lemma sample_encodable : encodable false sample_body sample_sections 4.
Proof.
  split; [done|by eexists|by_computation..].
Qed.

Lemma sample_linked : linked_build sample_files "build" sample_sections map_text (settings sample_settings).
Proof.
  split; reflexivity.
Qed.

End ResourceSamples.
