(* ===== verification/ResourceTheorems.v ===== *)
(** * The resource tools and their files: theorems

    The properties of [tools/verify_resources.py], and of the files it shares
    with the compiler, from the lemmas of the component files. *)

From Stdlib Require Import Ascii String.
From S2P Require Import Prelude PyStr Regex PyFloat PyObj Json JsonSpec Process Validate Deployment ValidateSpec Capability.
From S2P Require Import Generate CompileMain GenSpec Samples Config Plan PlanSpec Elf ElfSpec MapFile MapSpec Postlink PostlinkSpec.
From S2P Require Import Fields ResourceMain ReportSpec CompileSpec PlanFile Toolchain ResourceSamples.

Module ResourceTheorems.
Import Json JsonSpec Process Deploy Contract Capability Samples Config Plan PlanSpec Elf ElfSpec MapFile MapSpec.
Import Postlink PostlinkSpec ResourceMain ReportSpec CompileSpec PlanFile Toolchain ResourceSamples.

(** C2: for a compiled deployment with a budget for the target, the [plan]
    command ends with status 0 or 2 and writes both reports; the status is 0, and
    the report says [PASS], exactly when the configuration can hold the deployment
    within the budget; and the report carries the budgets, the reserve and the
    target it was made for. *)
Theorem plan_command_decides en fs dpath cpath target sync json md dp d backend minimum c b :
  (forall p, env_write en p = Ok tt) -> (forall p, env_mkdir en p = Ok tt) ->
  ResourceMain.load_json en dpath = Ok dp -> compiled dp d backend minimum ->
  parse_config cpath (env_read en cpath) = Ok c -> sync ∈ ddsrt_choices ->
  assoc (dep_targets d) (effective_target d c target) = Some b ->
  exists (pass : bool) plan text,
    exit (main en fs (Args (PlanCommand dpath cpath target sync) json md)) = Ok (if pass then 0 else 2)%Z /\
    files (main en fs (Args (PlanCommand dpath cpath target sync) json md)) =
      [(json, dumps (PyDict plan) +:+ newline); (md, text)] /\
    (pass = true <-> admissible d backend minimum c b) /\
    ResourcePlan plan (Planned pass (flash_bytes b) (ram_bytes b) (dep_reserve d) (effective_target d c target) backend).
Proof.
  intros Hw Hm Hdp Hc Hcfg Hs Hb.
  destruct (plan_main en fs dpath cpath target sync json md dp d backend minimum c b Hw Hm Hdp Hc Hcfg Hs Hb)
    as (pass & plan & text & _ & Hp & Hpass & Hexit & Hfiles). by exists pass, plan, text.
Qed.

Lemma plan_command_decides_witness :
  admissible file_deployment "rmw_cyclonedds_c" 5 (settings sample_settings) (Budget 1500000 350000).
Proof.
  destruct (plan_command_decides tool_env sample_files "plan.json" ".config" "esp32_devkitc/esp32/procpu"
    "posix" "r.json" "r.md" (reread plan_object) file_deployment "rmw_cyclonedds_c" 5
    (settings sample_settings) (Budget 1500000 350000)) as (pass & plan & text & Hex & _ & Hiff & _);
    [done|done|exact plan_loaded|exact file_compiled|exact (sample_config _)|by_computation|by_computation|].
  apply Hiff. revert Hex. vm_compute. by destruct pass.
Defined.

(** C3: for a plan that passed and a linked image, the [verify] command ends
    with status 0 or 2 and writes both reports, and the status is 0 exactly when
    the image with the application reserve fits the budgets and the budgets fit
    the regions of the linker map. *)
Theorem verify_command_decides en fs ppath dir log json md plan p sections map_text c rs :
  (forall q, env_write en q = Ok tt) -> (forall q, env_mkdir en q = Ok tt) ->
  ResourceMain.load_json en ppath = Ok plan -> ResourcePlan plan p -> pl_pass p = true ->
  linked_build fs dir sections map_text c -> parse_memory_regions map_text = Ok rs ->
  readable_log ((fun q => (q, read_text_replace fs q)) <$> log) ->
  exists code text1 text2,
    exit (main en fs (Args (VerifyCommand ppath dir log) json md)) = Ok code /\
    files (main en fs (Args (VerifyCommand ppath dir log) json md)) = [(json, text1); (md, text2)] /\
    (code = 0%Z \/ code = 2%Z) /\
    (code = 0%Z <-> linked_ok p (Measurement (flash_usage fs dir sections) (ram_usage c rs sections).1 rs)).
Proof. apply verify_main. Qed.

(** The plan of the sample build. *)
Definition sample_plan : pydict :=
  match build_prelink_plan (reread plan_object) (settings sample_settings) "unknown" "posix" with
  | Ok plan => plan
  | Raise _ => []
  end.

Lemma sample_plan_passes :
  ResourcePlan sample_plan (Planned true 1500000 350000 16384 "esp32_devkitc/esp32/procpu" "rmw_cyclonedds_c").
Proof.
  destruct (plan_spec (reread plan_object) file_deployment "rmw_cyclonedds_c" 5
    (settings sample_settings) "unknown" "posix" (Budget 1500000 350000)) as
    (plan & [pass fl ram rsv t be] & Hplan & Hp & _ & E1 & E2 & E3 & E4 & E5 & _);
    [exact file_compiled|by_computation|by_computation|].
  cbn [pl_pass pl_flash pl_ram pl_reserve pl_target pl_backend flash_bytes ram_bytes] in *. subst.
  unfold sample_plan. rewrite Hplan. destruct pass; [exact Hp|].
  pose proof (@rpl_status _ _ Hp) as Hst. vm_compute in Hplan. injection Hplan as <-. discriminate Hst.
Qed.

Definition verify_env : env := sample_env [("plan.json", dumps (PyDict sample_plan) +:+ newline)].

Lemma verify_command_decides_witness :
  exists code text1 text2,
    exit (main verify_env sample_files (Args (VerifyCommand "plan.json" "build" None) "v.json" "v.md")) = Ok code /\
    files (main verify_env sample_files (Args (VerifyCommand "plan.json" "build" None) "v.json" "v.md")) =
      [("v.json", text1); ("v.md", text2)] /\
    (code = 0%Z \/ code = 2%Z) /\
    (code = 0%Z <-> linked_ok (Planned true 1500000 350000 16384 "esp32_devkitc/esp32/procpu" "rmw_cyclonedds_c")
      (Measurement 420000 110000 [("FLASH", Region 32 4194272); ("dram0_0_seg", Region 1073610752 393216)])).
Proof.
  apply (verify_command_decides verify_env sample_files "plan.json" "build" None "v.json" "v.md" (reread sample_plan)
    (Planned true 1500000 350000 16384 "esp32_devkitc/esp32/procpu" "rmw_cyclonedds_c") sample_sections map_text
    (settings sample_settings)
    [("FLASH", Region 32 4194272); ("dram0_0_seg", Region 1073610752 393216)]).
  - intros q. reflexivity.
  - intros q. reflexivity.
  - vm_compute. reflexivity.
  - apply reread_resource_plan; [vm_compute; reflexivity|exact sample_plan_passes].
  - reflexivity.
  - exact sample_linked.
  - vm_compute. reflexivity.
  - exact I.
Defined.

(** A plan that failed: the loopback budget on a configuration without capacities. *)
Definition refused_plan : pydict :=
  match build_prelink_plan (reread plan_object) ∅ "native_sim/native/64" "posix" with
  | Ok plan => plan
  | Raise _ => []
  end.

Lemma refused_plan_fails :
  ResourcePlan refused_plan (Planned false 1000000 1500000 16384 "native_sim/native/64" "rmw_cyclonedds_c").
Proof.
  destruct (plan_spec (reread plan_object) file_deployment "rmw_cyclonedds_c" 5 ∅ "native_sim/native/64" "posix"
    (Budget 1000000 1500000)) as
    (plan & [pass fl ram rsv t be] & Hplan & Hp & _ & E1 & E2 & E3 & E4 & E5 & _);
    [exact file_compiled|by_computation|vm_compute; reflexivity|].
  assert (effective_target file_deployment ∅ "native_sim/native/64" = "native_sim/native/64") as Ht
    by (vm_compute; reflexivity).
  rewrite Ht in E4.
  cbn [pl_pass pl_flash pl_ram pl_reserve pl_target pl_backend flash_bytes ram_bytes] in *. subst.
  unfold refused_plan. rewrite Hplan. destruct pass; [|exact Hp].
  pose proof (@rpl_status _ _ Hp) as Hst. vm_compute in Hplan. injection Hplan as <-. discriminate Hst.
Qed.

(** C28: a command that cannot judge what it is given ends with status 2, prints one
    line that starts with the code of the reason, and leaves no file: its plan or its
    configuration cannot be read, the deployment has no budget for the target, an
    artifact of the build is missing, or the plan to verify did not pass. *)
Theorem resource_tool_refuses en fs cmd json md code :
  refusal en fs cmd code ->
  exists msg, main en fs (Args cmd json md) = Outcome (Ok 2%Z) [] [code +:+ ": " +:+ msg] [].
Proof. intros [msg H]%refusal_run. exists msg. by apply refused_main. Qed.

Definition refused_env : env := sample_env
  [("plan.json", plan_text); (".config", EmptyString); ("r.json", dumps (PyDict refused_plan) +:+ newline)].

Lemma resource_tool_refuses_witness :
  (exists msg, main refused_env sample_files (Args (PlanCommand "other.json" ".config" "nucleo" "posix") "r" "m") =
    Outcome (Ok 2%Z) [] ["E_RESOURCE_INPUT: " +:+ msg] []) /\
  (exists msg, main refused_env sample_files (Args (PlanCommand "plan.json" "config" "nucleo" "posix") "r" "m") =
    Outcome (Ok 2%Z) [] ["E_RESOURCE_INPUT: " +:+ msg] []) /\
  (exists msg, main refused_env sample_files (Args (PlanCommand "plan.json" ".config" "nucleo" "posix") "r" "m") =
    Outcome (Ok 2%Z) [] ["E_RESOURCE_TARGET: " +:+ msg] []) /\
  (exists msg, main refused_env sample_files (Args (VerifyCommand "r.json" "other" None) "r" "m") =
    Outcome (Ok 2%Z) [] ["E_RESOURCE_ARTIFACT: " +:+ msg] []) /\
  (exists msg, main refused_env sample_files (Args (VerifyCommand "r.json" "build" None) "r" "m") =
    Outcome (Ok 2%Z) [] ["E_RESOURCE_PLAN: " +:+ msg] []).
Proof.
  assert (ResourceMain.load_json refused_env "r.json" = Ok (reread refused_plan)) as Hr by (vm_compute; reflexivity).
  assert (ResourceMain.load_json refused_env "plan.json" = Ok (reread plan_object)) as Hp by (vm_compute; reflexivity).
  split_and!.
  - exact (resource_tool_refuses _ _ _ _ _ _ (no_input refused_env sample_files (PlanCommand "other.json" ".config" "nucleo" "posix")
      "not found" eq_refl)).
  - exact (resource_tool_refuses _ _ _ _ _ _ (no_config refused_env sample_files _ "config" "nucleo" "posix" _ "not found" Hp eq_refl)).
  - apply (resource_tool_refuses refused_env sample_files _ _ _ "E_RESOURCE_TARGET").
    apply (no_budget _ _ _ _ _ _ (reread plan_object) file_deployment "rmw_cyclonedds_c" 5 ∅);
      [exact Hp|exact file_compiled|by_computation|reflexivity|vm_compute; reflexivity].
  - apply (resource_tool_refuses refused_env sample_files _ _ _ "E_RESOURCE_ARTIFACT").
    apply (no_artifacts _ _ _ _ _ _ Hr). vm_compute. reflexivity.
  - apply (resource_tool_refuses refused_env sample_files _ _ _ "E_RESOURCE_PLAN").
    apply (no_passed_plan _ _ _ _ _ _ _ sample_sections map_text (settings sample_settings) Hr
      (reread_resource_plan refused_plan _ eq_refl refused_plan_fails) eq_refl sample_linked). exact I.
Defined.

(** C24: the [.config] file Kconfig writes, with its comments, headings and empty
    lines, is read back as its settings, the last one of a symbol winning: a line
    counts exactly when it assigns a symbol or says that one is not set, and
    quotes around a value are taken off.  A decimal value is read back as its
    integer, and the truth values are not integers. *)
Theorem config_read_back path l :
  Forall config_entry_ok l ->
  let c := settings (omap config_entry_setting l) in
  parse_config path (Ok (text_of_lines (config_entry_line <$> l))) = Ok c /\
  (forall key z, c !! key = Some (str_of_Z z) -> integer_config c key = Some z) /\
  (forall key, c !! key = None \/ c !! key = Some "y" \/ c !! key = Some "n" -> integer_config c key = None).
Proof.
  intros H c. split; [by apply parse_settings|]. split; [intros key z; apply integer_config_str|].
  intros key. unfold integer_config. by intros [->|[->| ->]].
Qed.

Lemma config_read_back_witness :
  parse_config ".config" (Ok config_text) = Ok (settings sample_settings) /\
  integer_config (settings sample_settings) "CONFIG_MAIN_STACK_SIZE" = Some 8192%Z.
Proof.
  destruct (config_read_back ".config" sample_entries) as (H1 & H2 & _).
  - exact sample_entries_ok.
  - split; [exact H1|]. apply (H2 "CONFIG_MAIN_STACK_SIZE" 8192%Z). vm_compute. reflexivity.
Defined.

(** C8: the sections of an ELF image are read back from its bytes, for both classes
    and both byte orders, wherever the image has its section table, with whatever
    stride, and its names, and whatever else it contains; a file that does not
    begin like an ELF file is refused. *)
Theorem elf_read_back path is64 little L names data :
  elf_image is64 little L names data ->
  parse_elf_sections path (Ok data) = Ok (section <$> entries L) /\
  forall other, take 4 other <> magic ->
    parse_elf_sections path (Ok other) = Raise (ResourceError "E_RESOURCE_ARTIFACT" (path +:+ " is not an ELF file")).
Proof. intros H. split; [by eapply parse_image|]. intros other. apply parse_refuses. Qed.

(** An image whose contents come before its names, and its table last. *)
Lemma elf_read_back_witness :
  parse_elf_sections "zephyr.elf" (Ok (encode_elf false false sample_body sample_sections 4)) = Ok sample_sections.
Proof.
  apply (elf_read_back "zephyr.elf" false false (linked_layout false sample_body sample_sections 4)
    (string_table sample_sections) (encode_elf false false sample_body sample_sections 4)).
  apply encode_image. exact sample_encodable.
Defined.

(** The entries of the memory configuration are read back from a linker
    map: the region of each entry, the last one of a name winning. *)
Theorem regions_read_back text pre rest block post ls :
  str_cut "Memory Configuration" text = Some (pre, rest) ->
  str_cut "Linker script and memory map" rest = Some (block, post) ->
  str_splitlines block = map_line_text <$> ls -> Forall (fun l => map_line_ok l = true) ls ->
  parse_memory_regions text = Ok (entries_regions (omap listed ls) []).
Proof. apply parse_regions_entries. Qed.

(** The memory configuration of the sample map. *)
Definition sample_map_lines : list map_line :=
  [Other EmptyString; Other EmptyString;
   Other "Name             Origin             Length             Attributes";
   Listed (Entry "FLASH" "            " "0000000000000020" " " "00000000003fffe0" "r");
   Listed (Entry "dram0_0_seg" "      " "000000003ffe0000" " " "0000000000060000" "rw");
   Other "*default*        0x0000000000000000 0xffffffffffffffff"; Other EmptyString].

Lemma regions_read_back_witness :
  parse_memory_regions map_text = Ok (entries_regions (omap listed sample_map_lines) []).
Proof.
  destruct (str_cut "Memory Configuration" map_text) as [[pre rest]|] eqn:H1; [|vm_compute in H1; discriminate].
  destruct (str_cut "Linker script and memory map" rest) as [[block post]|] eqn:H2;
    vm_compute in H1; injection H1 as <- <-; vm_compute in H2; [injection H2 as <- <-|discriminate].
  eapply (regions_read_back map_text _ _ _ _ sample_map_lines);
    [vm_compute; reflexivity..|by_computation].
Defined.

(** C26: the usage of a region never leaves it, holds every section placed in it,
    and is reached by one of them unless the region is empty. *)
Theorem region_usage_tight sections r :
  (forall s, s ∈ sections -> (0 <= size s)%Z) -> (0 <= length_ r)%Z ->
  (0 <= region_usage sections r <= length_ r)%Z /\
  (forall s, s ∈ sections -> placed r s -> (section_end s <= origin r + region_usage sections r)%Z) /\
  (region_usage sections r = 0%Z \/
   exists s, s ∈ sections /\ placed r s /\ section_end s = (origin r + region_usage sections r)%Z).
Proof. apply region_usage_spec. Qed.

Lemma region_usage_tight_witness :
  let r := Region 1073610752 393216 in
  (0 <= region_usage sample_sections r <= length_ r)%Z /\
  (forall s, s ∈ sample_sections -> placed r s ->
     (section_end s <= origin r + region_usage sample_sections r)%Z) /\
  (region_usage sample_sections r = 0%Z \/
   exists s, s ∈ sample_sections /\ placed r s /\
     section_end s = (origin r + region_usage sample_sections r)%Z).
Proof.
  apply (region_usage_tight sample_sections (Region 1073610752 393216)).
  - apply Forall_forall. by_computation.
  - cbn. lia.
Defined.

(** C25: the lines of a runtime log that carry a resource marker are read back, in
    order and with the marker, as their fields, the last one of a name winning; other
    lines are skipped; and a value that is printed as an integer is read as that
    integer. *)
Theorem runtime_log_read_back path text ls :
  str_splitlines text = LogSpec.log_line_text <$> ls -> Forall (fun l => LogSpec.log_line_ok l = true) ls ->
  parse_runtime_log (Some (path, Ok text)) =
  Ok [("status", PyStr (if decide (omap LogSpec.log_record ls = []) then "no_resource_markers" else "measured"));
      ("source", PyStr path); ("records", PyList (omap LogSpec.log_record ls))] /\
  forall z, field_value (str_of_Z z) = PyInt z.
Proof. intros Ht Hls. split; [by apply LogSpec.log_read_back|apply LogSpec.field_value_int]. Qed.

Definition sample_log : list LogSpec.log_line :=
  [LogSpec.Plain "*** Booting Zephyr OS ***";
   LogSpec.Marked "STATIC_CONTROL_METRICS" [Fields.Field "heap" "1234"; Fields.Text "idle"; Fields.Field "mode" "fast"];
   LogSpec.Marked "ROS2_ZEPHYR_RESOURCES" [Fields.Field "stack" "-1"; Fields.Skipped "free" EmptyString; Fields.Field "stack" "0x20"]].

Lemma runtime_log_read_back_witness :
  parse_runtime_log (Some ("run.log", Ok (text_of_lines (LogSpec.log_line_text <$> sample_log)))) =
  Ok [("status", PyStr "measured"); ("source", PyStr "run.log");
      ("records", PyList
        [PyDict [("marker", PyStr "STATIC_CONTROL_METRICS"); ("values", PyDict [("heap", PyInt 1234); ("mode", PyStr "fast")])];
         PyDict [("marker", PyStr "ROS2_ZEPHYR_RESOURCES"); ("values", PyDict [("stack", PyInt 32)])]])].
Proof.
  apply (runtime_log_read_back "run.log" (text_of_lines (LogSpec.log_line_text <$> sample_log)) sample_log);
    [vm_compute; reflexivity|by_computation].
Defined.

(** The readers of a linker map never raise, on any text, and every stack
    they list has a size. *)
Theorem map_readers_total text :
  (exists rs, parse_memory_regions text = Ok rs) /\
  (exists rows, parse_linked_stacks text = Ok rows /\ Forall row_ok rows).
Proof. split; [apply parse_memory_regions_total|apply parse_linked_stacks_ok]. Qed.

End ResourceTheorems.
