(* ===== verification/ToolchainTheorems.v ===== *)
(** * The tools in sequence: theorems

    What the compiler leaves behind, and how its files feed the resource tool. *)

From Stdlib Require Import Ascii String.
From S2P Require Import Prelude PyStr Regex PyFloat PyObj Json JsonSpec Process Validate Deployment ValidateSpec Capability.
From S2P Require Import Generate CompileMain GenSpec Samples Config Plan PlanSpec Elf ElfSpec MapFile MapSpec Postlink PostlinkSpec.
From S2P Require Import ResourceMain CompileSpec PlanFile Toolchain ResourceSamples.

Module ToolchainTheorems.
Import Json JsonSpec Process Deploy Contract Capability GenSpec Samples Config Plan PlanSpec Elf MapFile.
Import Postlink PostlinkSpec CompileMain CompileSpec PlanFile Toolchain ResourceSamples.

(** C23: a rejected deployment leaves no file: when the compiler ends with
    status 2, nothing was written and the diagnostic was printed. *)
Theorem rejected_writes_nothing en a out err w :
  system_errors en -> main en a = Outcome (Ok 2%Z) out err w ->
  w = [] /\ out = [] /\ exists line, err = [line].
Proof.
  intros Hse. unfold main.
  destruct (compile_deployment en (arg_deployment a) (arg_backend a) (arg_capabilities_dir a)
    (arg_output_dir a) []) as [[u|e] w'] eqn:E; [done|].
  destruct e; try done. intros [= <- <- <-].
  apply (compile_rejects _ _ _ _ _ _ _ _ Hse) in E as ->. eauto.
Qed.

Lemma sample_system_errors contents : system_errors (sample_env contents).
Proof.
  split; cbn; [|done|done]. intros p e. destruct (assoc contents p); [done|]. by intros [= <-].
Qed.

Lemma rejected_writes_nothing_witness :
  let o := main (sample_env []) compile_args in
  files o = [] /\ stdout o = [] /\ exists line, stderr o = [line].
Proof.
  destruct (main (sample_env []) compile_args) as [ex out err w] eqn:E. cbn [files stdout stderr].
  apply (rejected_writes_nothing (sample_env []) compile_args out err w); [apply sample_system_errors|].
  rewrite E. f_equal. apply (f_equal exit) in E. cbn [exit] in E. rewrite <- E. vm_compute. reflexivity.
Defined.

(** C22: for a valid deployment and a backend that supports it, the compiler ends
    with status 0 and writes exactly the six outputs: the rendered header and
    source, the configuration, the features, the plan and the report. *)
Theorem accepted_writes_outputs en a v d cv :
  (forall p, env_write en p = Ok tt) -> env_mkdir en (arg_output_dir a) = Ok tt ->
  load_json en (arg_deployment a) = Ok v -> Represents v d -> valid_deployment d ->
  load_json en (path_join (arg_capabilities_dir a) (arg_backend a +:+ ".json")) = Ok cv ->
  validate_capabilities v cv (arg_backend a) = Ok tt -> arg_backend a ∈ dep_rmw d -> states_allocation cv ->
  exists config features report, main en a = Outcome (Ok 0%Z) [] []
    ((fun nc => (path_join (arg_output_dir a) nc.1, nc.2)) <$>
     [("generated_ros_init.h", render_header d);
      ("generated_ros_init.c", render_source (uses_uint32 d (arg_backend a)) d);
      ("generated_ros2_zephyr.conf", config);
      ("generated_features.cmake", features);
      ("deployment-plan.json", dumps (plan_of (arg_backend a) v cv) +:+ newline);
      ("deployment-report.md", report)]).
Proof.
  intros Hw Hm Hv Hr Hd Hcv Hcap Hb Ha.
  destruct (outputs_ok v d cv _ Hr Hd Hb Ha) as (c & f & rep & Ho). exists c, f, rep.
  destruct (compile_runs en _ _ _ _ v d cv Hw Hm Hv Hr Hd Hcv Hcap Hb Ha) as (outs & Ho' & Hc).
  rewrite Ho in Ho'. injection Ho' as <-. unfold main. by rewrite Hc.
Qed.

Lemma accepted_writes_outputs_witness :
  exists config features report, main compile_env compile_args = Outcome (Ok 0%Z) [] []
    ((fun nc => (path_join "out" nc.1, nc.2)) <$>
     [("generated_ros_init.h", render_header file_deployment);
      ("generated_ros_init.c", render_source (uses_uint32 file_deployment "rmw_cyclonedds_c") file_deployment);
      ("generated_ros2_zephyr.conf", config);
      ("generated_features.cmake", features);
      ("deployment-plan.json", dumps (plan_of "rmw_cyclonedds_c" (reread loopback) (reread cyclonedds)) +:+ newline);
      ("deployment-report.md", report)]).
Proof.
  apply (accepted_writes_outputs compile_env compile_args (reread loopback) file_deployment (reread cyclonedds)).
  - intros p. reflexivity.
  - reflexivity.
  - vm_compute. reflexivity.
  - exact file_represents.
  - apply with_targets_valid; [exact file_targets_perm|exact loopback_valid].
  - vm_compute. reflexivity.
  - vm_compute. reflexivity.
  - by_computation.
  - eexists _, _. split; vm_compute; reflexivity.
Defined.

(** C7: the plan file of a successful compilation, read by the resource tool, is
    a compiled deployment: the deployment that was compiled, with its budgets in
    the order of the file. *)
Theorem plan_file_interchange en a out err w :
  main en a = Outcome (Ok 0%Z) out err w ->
  exists v cv d, load_json en (arg_deployment a) = Ok v /\ Represents v d /\ valid_deployment d /\
    load_json en (path_join (arg_capabilities_dir a) (arg_backend a +:+ ".json")) = Ok cv /\
    forall minimum en' p text,
      plain (PyDict v) = true -> plain (PyDict cv) = true -> states_workers cv minimum ->
      (path_join (arg_output_dir a) "deployment-plan.json", text) ∈ w -> env_read en' p = Ok text ->
      exists dp ts, ResourceMain.load_json en' p = Ok dp /\ dep_targets d ≡ₚ ts /\
        compiled dp (with_targets d ts) (arg_backend a) minimum.
Proof. apply compiled_read_back. Qed.

Lemma plan_file_interchange_witness :
  exists v cv d, load_json compile_env "deployment.json" = Ok v /\ Represents v d /\ valid_deployment d /\
    load_json compile_env "caps/rmw_cyclonedds_c.json" = Ok cv /\
    forall minimum en' p text,
      plain (PyDict v) = true -> plain (PyDict cv) = true -> states_workers cv minimum ->
      ("out/deployment-plan.json", text) ∈ files (main compile_env compile_args) -> env_read en' p = Ok text ->
      exists dp ts, ResourceMain.load_json en' p = Ok dp /\ dep_targets d ≡ₚ ts /\
        compiled dp (with_targets d ts) "rmw_cyclonedds_c" minimum.
Proof.
  apply (plan_file_interchange compile_env compile_args [] [] (files (main compile_env compile_args))).
  vm_compute. reflexivity.
Defined.

(** The resource plan the [plan] command writes, read by [verify], has the
    same verdict, budgets, reserve and checks. *)
Theorem resource_plan_interchange dp c target sync plan p en path :
  wf_obj (PyDict dp) = true -> plain (PyDict dp) = true ->
  build_prelink_plan dp c target sync = Ok plan -> ResourcePlan plan p ->
  env_read en path = Ok (dumps (PyDict plan) +:+ newline) ->
  exists plan', ResourceMain.load_json en path = Ok plan' /\ ResourcePlan plan' p.
Proof. intros Hw Hp. by apply resource_plan_read_back. Qed.

(** The plan made for the loopback deployment. *)
Definition loopback_plan : pydict :=
  match build_prelink_plan (reread plan_object) (settings sample_settings) "unknown" "posix" with
  | Ok plan => plan
  | Raise _ => []
  end.

Lemma resource_plan_interchange_witness :
  exists p plan', ResourceMain.load_json (sample_env [("r.json", dumps (PyDict loopback_plan) +:+ newline)]) "r.json"
    = Ok plan' /\ ResourcePlan plan' p.
Proof.
  destruct (plan_spec (reread plan_object) file_deployment "rmw_cyclonedds_c" 5
    (settings sample_settings) "unknown" "posix" (Budget 1500000 350000)) as (plan & p & Hplan & Hp & _);
    [exact file_compiled|by_computation|by_computation|].
  exists p. assert (loopback_plan = plan) as -> by (unfold loopback_plan; by rewrite Hplan).
  apply (resource_plan_interchange (reread plan_object) (settings sample_settings) "unknown" "posix" plan p
    (sample_env [("r.json", dumps (PyDict plan) +:+ newline)]) "r.json");
    [vm_compute; reflexivity|vm_compute; reflexivity|exact Hplan|exact Hp|reflexivity].
Defined.

End ToolchainTheorems.
