(* ===== verification/Clock.v ===== *)
(** * Clocks and loops that wait

    The test peers and the serial capture poll until something happens or
    [time.monotonic()] passes a deadline.  Such a loop is [while_loop], with fuel
    that bounds its iterations; it returns as soon as the fuel exceeds a measure
    that every successful test decreases, here the number of clock readings that
    are still below the deadline. *)

From Stdlib Require Import Ascii String SpecFloat.
From S2P Require Import Prelude PyStr PyFloat.

#[local] Open Scope Z_scope.

(** ** Floats *)

(** [f < g]; a NaN compares with nothing. *)
Definition float_ltb (f g : pyfloat) : bool := SFltb f g.
(** [f >= g] *)
Definition float_geb (f g : pyfloat) : bool := SFleb g f.
Definition float_mul (f g : pyfloat) : pyfloat := SFmul prec emax f g.
Definition float_div (f g : pyfloat) : pyfloat := SFdiv prec emax f g.

(** The float nearest to [n / d], as a literal such as [0.1] is read. *)
Definition float_ratio (n d : Z) : pyfloat := float_div (binary_normalize prec emax n 0 false) (binary_normalize prec emax d 0 false).
Definition float_int (n : Z) : pyfloat := binary_normalize prec emax n 0 false.

(** [n / d] to the nearest integer, ties to even, for [d > 0]. *)
Definition round_half_even (n d : Z) : Z :=
  let q := n / d in
  let r := n mod d in
  if 2 * r <? d then q else if d <? 2 * r then q + 1 else if Z.even q then q else q + 1.

(** Three decimals of a count of thousandths. *)
Definition show_thousandths (n : Z) : string :=
  str_of_Z (n / 1000) +:+ "." +:+ (let s := str_of_Z (n mod 1000) in
    (if n mod 1000 <? 10 then "00" else if n mod 1000 <? 100 then "0" else EmptyString) +:+ s).

(** [format(f, ".3f")] *)
Definition format_fixed3 (f : pyfloat) : string :=
  match f with
  | S754_zero s => (if s then "-" else EmptyString) +:+ "0.000"
  | S754_infinity s => if s then "-inf" else "inf"
  | S754_nan => "nan"
  | S754_finite s m e =>
      let '(n, d) := scale2 (Z.pos m * 1000) e in
      (if s then "-" else EmptyString) +:+ show_thousandths (round_half_even n d)
  end.

(** ** Loops *)

Section loop.
Context {S R : Type} (test : S -> bool * S) (body : S -> S + R).

(** [while test: body]; the body goes on with a state or leaves with a result,
    and [None] is a loop that the fuel does not see through. *)
Fixpoint while_loop (fuel : nat) (s : S) : option (S + R) :=
  match fuel with
  | O => None
  | Datatypes.S fuel =>
      let '(b, s) := test s in
      if b then match body s with inl s => while_loop fuel s | inr r => Some (inr r) end
      else Some (inl s)
  end.

(** More fuel gives the same result. *)
Lemma while_loop_more fuel fuel' s x : while_loop fuel s = Some x -> (fuel <= fuel')%nat -> while_loop fuel' s = Some x.
Proof.
  revert fuel' s. induction fuel as [|fuel IH]; intros fuel' s H Hf; [done|]. destruct fuel' as [|fuel']; [lia|].
  cbn in *. destruct (test s) as [b s1]. destruct b; [|done]. destruct (body s1) as [s2|r]; [|done].
  apply IH; [done|lia].
Qed.

(** The rule of the loop: [P] is kept by every pass, and every test that succeeds
    decreases the measure [left], which no pass increases.  The loop returns, with
    [P'] after a test that failed, or with [Q] for the result it leaves with. *)
Lemma while_loop_rule (left : S -> nat) (P P' : S -> Prop) (Q : R -> Prop) fuel s :
  (forall s, P s -> (test s).1 = false -> P' (test s).2) ->
  (forall s, P s -> (test s).1 = true -> (left (test s).2 < left s)%nat) ->
  (forall s, P s -> (test s).1 = true ->
     match body (test s).2 with inl s' => P s' /\ (left s' <= left (test s).2)%nat | inr r => Q r end) ->
  P s -> (left s < fuel)%nat ->
  exists x, while_loop fuel s = Some x /\ match x with inl s' => P' s' | inr r => Q r end.
Proof.
  intros Hend Htest Hbody. revert s. induction fuel as [|fuel IH]; intros s Hs Hf; [lia|]. cbn.
  specialize (Hend s Hs). specialize (Htest s Hs). specialize (Hbody s Hs). destruct (test s) as [b s1]. cbn in *.
  destruct b; [|by exists (inl s1); auto]. specialize (Htest eq_refl). specialize (Hbody eq_refl).
  destruct (body s1) as [s2|r]; [|by exists (inr r)]. destruct Hbody as [H2 H3]. apply IH; [done|lia].
Qed.

End loop.

Arguments float_int : simpl never.
Arguments float_ratio : simpl never.
Arguments float_add : simpl never.
Arguments float_ltb : simpl never.
