(* ===== verification/Sources.v ===== *)
(** * The pinned source tree

    [verify_sources.py]: every repository of a vcstool manifest is checked out at
    the commit the manifest pins.  What PyYAML reads from the manifest and what
    [git] prints are parameters. *)

From Stdlib Require Import Ascii String.
From S2P Require Import Prelude PyStr PyFloat PyObj Process.

Module Sources.
Import Process.

(** ** The program *)

(** [git(path, *args)]; [output] is what [subprocess.check_output] gives. *)
Definition git (output : list string -> res string) (path : string) (args : list string) : res string :=
  out ← output (["git"; "-C"; path] ++ args);
  Ok (str_strip is_space out).

(** One repository: the complaint about it, if there is one. *)
Definition check_entry (output : list string -> res string) (source_root : string) (item : string * pyobj) :
    res (option string) :=
  let '(name, entry) := item in
  let checkout := path_div source_root name in
  expected ← getitem entry "version";
  match git output checkout ["rev-parse"; "HEAD"] with
  | Raise (OSError _) | Raise CalledProcessError => Ok (Some ("missing checkout: " +:+ checkout))
  | Raise e => Raise e
  | Ok actual =>
      if py_eqb (PyStr actual) expected then Ok None
      else Ok (Some ("revision mismatch: " +:+ checkout +:+ ": expected " +:+ py_str expected +:+ ", found " +:+ actual))
  end.

(** The loop: what is printed, and whether something failed or an exception escapes. *)
Fixpoint check_entries (output : list string -> res string) (source_root : string) (failed : bool)
    (items : list (string * pyobj)) : list string * res bool :=
  match items with
  | [] => ([], Ok failed)
  | item :: items =>
      match check_entry output source_root item with
      | Raise e => ([], Raise e)
      | Ok None => check_entries output source_root failed items
      | Ok (Some line) => let '(lines, r) := check_entries output source_root true items in (line :: lines, r)
      end
  end.

(** [manifest] is what [yaml.safe_load] gives for the text of the manifest. *)
Definition main (manifest : res pyobj) (output : list string -> res string) (source_root : string) : outcome :=
  match (m ← manifest; r ← getitem m "repositories";
         match r with PyDict d => Ok d | _ => Raise AttributeError end) with
  | Raise e => Outcome (Raise e) [] [] []
  | Ok items =>
      let '(lines, r) := check_entries output source_root false items in
      Outcome (failed ← r; Ok (if failed : bool then 1 else 0)%Z) [] lines []
  end.

(** ** What a tree has to show *)

(** The manifest of a list of repositories and commits. *)
Definition manifest_of (repositories : list (string * string)) : pyobj :=
  PyDict [("repositories",
    PyDict ((fun r => (r.1, PyDict [("type", PyStr "git"); ("version", PyStr r.2)])) <$> repositories))].

(** The commit a checkout is at, if it is one. *)
Definition head_of (output : list string -> res string) (source_root name : string) : option string :=
  match output ["git"; "-C"; path_div source_root name; "rev-parse"; "HEAD"] with
  | Ok out => Some (str_strip is_space out)
  | Raise _ => None
  end.

(** [git] is there and answers, or fails in one of the two ways it can. *)
Definition git_answers (output : list string -> res string) : Prop :=
  forall args e, output args = Raise e -> e = CalledProcessError \/ exists msg, e = OSError msg.

Definition pinned (output : list string -> res string) (source_root : string) (r : string * string) : Prop :=
  head_of output source_root r.1 = Some r.2.

#[export] Instance pinned_dec output source_root r : Decision (pinned output source_root r).
Proof. unfold pinned. apply _. Defined.

(** What is said of a repository that is not pinned. *)
Definition complaint (output : list string -> res string) (source_root : string) (r : string * string) : string :=
  let checkout := path_div source_root r.1 in
  match head_of output source_root r.1 with
  | None => "missing checkout: " +:+ checkout
  | Some actual => "revision mismatch: " +:+ checkout +:+ ": expected " +:+ r.2 +:+ ", found " +:+ actual
  end.

(** * Properties *)

Section spec.
Context (output : list string -> res string) (source_root : string) (Hgit : git_answers output).

Lemma check_entry_spec r :
  check_entry output source_root (r.1, PyDict [("type", PyStr "git"); ("version", PyStr r.2)]) =
  Ok (if decide (pinned output source_root r) then None else Some (complaint output source_root r)).
Proof using Hgit.
  unfold check_entry, git. change (getitem _ "version") with (Ok (PyStr r.2)). cbn [mbind res_bind app].
  destruct (decide (pinned output source_root r)) as [Hp|Hp]; unfold pinned, complaint, head_of in *.
  - destruct (output _) as [out|e] eqn:E; [|done]. injection Hp as Hp. cbn. by rewrite Hp, bool_decide_true.
  - destruct (output _) as [out|e] eqn:E; cbn.
    + by rewrite bool_decide_false by congruence.
    + by destruct (Hgit _ _ E) as [->|[msg ->]].
Qed.

Lemma check_entries_spec failed rs :
  check_entries output source_root failed
    ((fun r => (r.1, PyDict [("type", PyStr "git"); ("version", PyStr r.2)])) <$> rs) =
  (complaint output source_root <$> filter (fun r => ~ pinned output source_root r) rs,
   Ok (failed || negb (bool_decide (Forall (pinned output source_root) rs)))).
Proof using Hgit.
  revert failed. induction rs as [|r rs IH]; intros failed; cbn [check_entries fmap list_fmap].
  { by rewrite orb_false_r. }
  rewrite check_entry_spec, filter_cons. destruct (decide (pinned output source_root r)) as [Hp|Hp].
  - rewrite IH, decide_False by tauto. f_equal. f_equal. f_equal. f_equal. apply bool_decide_ext.
    rewrite Forall_cons. tauto.
  - rewrite IH, decide_True by done. cbn. rewrite (bool_decide_false (Forall _ (r :: rs))), orb_true_r; [done|].
    rewrite Forall_cons. tauto.
Qed.

Lemma sources_main_spec rs :
  main (Ok (manifest_of rs)) output source_root =
  Outcome (Ok (if decide (Forall (pinned output source_root) rs) then 0 else 1)%Z) []
    (complaint output source_root <$> filter (fun r => ~ pinned output source_root r) rs) [].
Proof using Hgit.
  unfold main, manifest_of. set (items := _ <$> rs). cbn [mbind res_bind].
  change (getitem (PyDict [("repositories", PyDict items)]) "repositories") with (Ok (PyDict items)).
  cbn [mbind res_bind]. unfold items. rewrite check_entries_spec. cbn [mbind res_bind orb].
  destruct (decide (Forall (pinned output source_root) rs)); [by rewrite bool_decide_true|by rewrite bool_decide_false].
Qed.

End spec.

End Sources.
