(* ===== verification/Capture.v ===== *)
(** * The serial capture

    [samples/loopback/capture_esp32.py]: the UART of a board is streamed to the
    standard output until enough complete lines with a marker were seen, a serial
    error ends it, or the time is over.  Bytes are the characters of a string.
    The clock, pyserial and [hard_reset] are a parameter, [Serial]: the state of
    the outside and what each call answers and does to it. *)

From Stdlib Require Import Ascii String.
From S2P Require Import Prelude PyStr PyFloat PyObj Clock Process.

Module Capture.
Import Process.

(** ** The outside *)

Class Serial (W : Type) := {
  monotonic : W -> pyfloat * W;
  (** [serial.Serial(baudrate=..., timeout=0.2, exclusive=True)] *)
  create_port : Z -> W -> res unit * W;
  (** [port.dtr = False], [port.port = device] and [port.open()] *)
  open_port : string -> W -> res unit * W;
  hard_reset : W -> res unit * W;
  (** [port.read(port.in_waiting or 1)] *)
  read_port : W -> res string * W;
  close_port : W -> W;
  sleep : pyfloat -> W -> W
}.

(** What is done with the port, in order. *)
Inductive call := Created | Opened | WasReset | Read | Closed.

#[export] Instance call_eq_dec : EqDecision call.
Proof. solve_decision. Defined.

Record args := Args {
  device : string;
  baud : Z;
  timeout : pyfloat;
  until : string;
  minimum_matches : Z;
  no_reset : bool;
  reconnect : bool
}.

(** ** Lines with a marker *)

Definition newline : string := String nl EmptyString.

(** What follows the first marker and the newline after it. *)
Definition next_line (marker recent : string) : option string :=
  '(_, after) ← str_cut marker recent;
  '(_, rest) ← str_cut newline after;
  Some rest.

(** The inner loop: the bytes that are left, the matches so far and whether they
    are enough.  Every pass takes at least the newline. *)
Fixpoint drain_fuel (fuel : nat) (marker : string) (minimum : Z) (recent : string) (matches : Z) : string * Z * bool :=
  match fuel with
  | O => (recent, matches, false)
  | S fuel =>
      match next_line marker recent with
      | None => (recent, matches, false)
      | Some rest =>
          let matches := (matches + 1)%Z in
          if (minimum <=? matches)%Z then (rest, matches, true) else drain_fuel fuel marker minimum rest matches
      end
  end.

Definition drain (marker : string) (minimum : Z) (recent : string) (matches : Z) : string * Z * bool :=
  drain_fuel (S (String.length recent)) marker minimum recent matches.

(** [if len(recent) > 4096: del recent[:-2048]] *)
Definition trim (recent : string) : string :=
  if 4096 <? String.length recent then str_drop (String.length recent - 2048) recent else recent.

(** ** The program *)

Section program.
Context `{Serial W} (a : args).

Record state := State {
  world : W;
  recent : string;
  matches : Z;
  port : bool;
  reset_pending : bool;
  calls : list call;
  written : list string
}.

Definition set_world (w : W) (s : state) : state :=
  State w (recent s) (matches s) (port s) (reset_pending s) (calls s) (written s).
Definition set_port (b : bool) (c : call) (s : state) : state :=
  State (world s) (recent s) (matches s) b (reset_pending s) (calls s ++ [c]) (written s).
Definition note_call (c : call) (s : state) : state := set_port (port s) c s.
Definition reset_done (s : state) : state :=
  State (world s) (recent s) (matches s) (port s) false (calls s ++ [WasReset]) (written s).

(** A call to the outside, as a step of the program. *)
Definition ask {A} (f : W -> res A * W) (s : state) : res A * state :=
  let '(r, w) := f (world s) in (r, set_world w s).

(** [port.close()] *)
Definition close (s : state) : state :=
  if port s then set_port false Closed (set_world (close_port (world s)) s) else s.

(** The [try] block: the port is created, opened and reset when it has to be,
    then read. *)
Definition prepare (s : state) : res unit * state :=
  if port s then (Ok tt, s)
  else
    match ask (create_port (baud a)) s with
    | (Raise e, s) => (Raise e, s)
    | (Ok _, s) =>
        let s := set_port true Created s in
        match ask (open_port (device a)) (note_call Opened s) with
        | (Raise e, s) => (Raise e, s)
        | (Ok _, s) =>
            if reset_pending s then
              match ask hard_reset s with
              | (Raise e, s) => (Raise e, s)
              | (Ok _, s) => (Ok tt, reset_done s)
              end
            else (Ok tt, s)
        end
    end.

Definition read_chunk (s : state) : res string * state :=
  match prepare s with
  | (Raise e, s) => (Raise e, s)
  | (Ok _, s) => ask read_port (note_call Read s)
  end.

Definition serial_error (e : string) : string := "serial error on " +:+ device a +:+ ": " +:+ e.

Definition timeout_line (s : state) : string :=
  "serial timeout: observed " +:+ str_of_Z (matches s) +:+ "/" +:+ str_of_Z (minimum_matches a) +:+ " complete " +:+
  str_repr (until a) +:+ " markers on " +:+ device a.

(** A run that ends: its outcome and what was done with the port. *)
Definition finish (code : res Z) (stderr : list string) (s : state) : outcome * list call :=
  (Outcome code (written s) stderr [], calls s).

(** One pass of the loop after its test. *)
Definition pass (s : state) : state + (outcome * list call) :=
  match read_chunk s with
  | (Raise (OSError e), s) =>
      let s := close s in
      if negb (reconnect a) then inr (finish (Ok 1%Z) [serial_error e] s)
      else inl (set_world (sleep (float_ratio 2 10) (world s)) s)
  | (Raise e, s) => inr (finish (Raise e) [] s)
  | (Ok chunk, s) =>
      if bool_decide (chunk = EmptyString) then inl s
      else
        match drain (until a) (minimum_matches a) (recent s +:+ chunk) (matches s) with
        | (rest, n, enough) =>
            let s' := State (world s) (if enough then rest else trim rest) n (port s) (reset_pending s) (calls s)
                        (written s ++ [chunk]) in
            if enough then inr (finish (Ok 0%Z) [] (close s')) else inl s'
        end
  end.

(** [time.monotonic() < deadline] *)
Definition before (deadline : pyfloat) (s : state) : bool * state :=
  let '(t, w) := monotonic (world s) in (float_ltb t deadline, set_world w s).

Definition start (w : W) : state := State w EmptyString 0 false (negb (no_reset a)) [] [].

(** The deadline and the state the loop starts with. *)
Definition deadline_of (w : W) : pyfloat := float_add (monotonic w).1 (timeout a).

(** The main program; [usage] is the text of [parser.error]. *)
Definition main (fuel : nat) (usage : string) (w : W) : option (outcome * list call) :=
  if (minimum_matches a <? 1)%Z then Some (Outcome (Ok 2%Z) [] [usage] [], [])
  else
    let '(t, w) := monotonic w in
    match while_loop (before (float_add t (timeout a))) pass fuel (start w) with
    | None => None
    | Some (inr o) => Some o
    | Some (inl s) => Some (finish (Ok 1%Z) [timeout_line s] (close s))
    end.

End program.

End Capture.
