(* ===== verification/CaptureSpec.v ===== *)
(** * What the serial capture counts

    Trimming and chunking are invisible: on output without overlong lines the
    capture ends with status 0 exactly when enough complete lines of the bytes it
    wrote contain the marker.  It returns when the clock passes the deadline, and
    it uses the port in the order of a protocol that ends with it closed. *)

From Stdlib Require Import Ascii String.
From S2P Require Import Prelude PyStr PyFloat PyObj Clock Process Sources Capture.

Module CaptureSpec.
Import Process Sources Capture.

(** ** The first occurrence in a text *)

Lemma str_app_split s t u d : s +:+ t = u +:+ d -> String.length u <= String.length s -> exists d', s = u +:+ d' /\ d = d' +:+ t.
Proof.
  revert s. induction u as [|x u IH]; intros s H Hl; cbn in *; [by exists s|].
  destruct s as [|y s]; cbn in *; [lia|]. injection H as -> H.
  destruct (IH s H) as (d' & -> & ->); [lia|]. by exists d'.
Qed.

Lemma str_cut_intro sep s a b :
  s = a +:+ sep +:+ b -> (forall c d, s = c +:+ sep +:+ d -> String.length a <= String.length c) ->
  str_cut sep s = Some (a, b).
Proof.
  intros Hs Hmin. destruct (str_cut sep s) as [[a' b']|] eqn:E.
  - apply str_cut_Some in E as Hs'. pose proof (str_cut_first _ _ _ _ _ _ E Hs). pose proof (Hmin _ _ Hs').
    rewrite Hs in Hs'. apply str_app_inv_length in Hs' as [-> H1]; [|lia]. by apply str_app_inv_l in H1 as ->.
  - apply str_cut_None in E. apply not_true_iff_false in E. destruct E. apply str_contains_spec. eauto.
Qed.

(** What follows a text does not change where it is cut. *)
Lemma str_cut_app sep s a b t : str_cut sep s = Some (a, b) -> str_cut sep (s +:+ t) = Some (a, b +:+ t).
Proof.
  intros E. apply str_cut_Some in E as Hs. apply str_cut_intro; [by rewrite Hs, !str_app_assoc|].
  intros c d Hc. destruct (decide (String.length a <= String.length c)) as [|Hlt]; [done|]. 
  rewrite <- str_app_assoc in Hc. apply str_app_split in Hc as (d' & Hc & _).
  - rewrite str_app_assoc in Hc. by apply (str_cut_first _ _ _ _ _ _ E) in Hc.
  - rewrite Hs, !str_length_app. lia.
Qed.

(** What precedes the first occurrence can be dropped. *)
Lemma str_cut_drop sep p s a t :
  str_cut sep (p +:+ s) = Some (a, t) -> String.length p <= String.length a -> exists a', str_cut sep s = Some (a', t).
Proof.
  intros E Hl. apply str_cut_Some in E as Hs. symmetry in Hs. apply str_app_split in Hs as (a' & -> & Hs); [|done].
  exists a'. apply str_cut_intro; [done|]. intros c d Hc.
  apply (str_cut_first _ _ _ _ (p +:+ c) d) in E; [|by rewrite Hc, str_app_assoc]. rewrite !str_length_app in E. lia.
Qed.

Lemma str_contains_suffix sep p s : str_contains sep (p +:+ s) = false -> str_contains sep s = false.
Proof.
  rewrite <- !not_true_iff_false, !str_contains_spec. intros H (a & b & ->). apply H. exists (p +:+ a), b.
  by rewrite str_app_assoc.
Qed.

Lemma str_take_length n s : String.length (str_take n s) <= n.
Proof. revert s. induction n as [|n IH]; intros [|c s]; cbn; [lia..|]. specialize (IH s). lia. Qed.

(** ** Lines *)

Definition not_nl (c : ascii) : bool := negb (is_char nl c).
Abbreviation one_line := (str_all not_nl).

(** The complete lines of a text, and those of them that hold the marker. *)
Definition complete_lines (s : string) : list string := List.removelast (split_on nl s).
Definition marker_lines (marker s : string) : nat := length (List.filter (str_contains marker) (complete_lines s)).

(** No 2049 bytes in a row without a newline. *)
Definition short_lines (s : string) : Prop :=
  forall x y z, s = x +:+ y +:+ z -> one_line y = true -> String.length y <= 2048.

Lemma split_on_nonempty x s : split_on x s <> [].
Proof. induction s as [|c s IH]; cbn; [done|]. destruct (is_char x c); [done|]. by destruct (split_on x s). Qed.

Lemma complete_lines_cons l s : one_line l = true -> complete_lines (l +:+ newline +:+ s) = l :: complete_lines s.
Proof.
  unfold complete_lines. intros Hl. assert (split_on nl (l +:+ newline +:+ s) = l :: split_on nl s) as ->.
  { induction l as [|c l IH]; [done|]. cbn in Hl. apply andb_true_iff in Hl as [Hc Hl]. rewrite str_app_cons.
    cbn [split_on]. rewrite IH by done. unfold not_nl in Hc. apply negb_true_iff in Hc. by rewrite Hc. }
  cbn. destruct (split_on nl s) eqn:E; [|done]. by apply split_on_nonempty in E.
Qed.

Lemma complete_lines_nil s : one_line s = true -> complete_lines s = [].
Proof.
  unfold complete_lines. intros Hs. assert (split_on nl s = [s]) as ->; [|done].
  induction s as [|c s IH]; [done|]. cbn in Hs. apply andb_true_iff in Hs as [Hc Hs]. cbn. rewrite IH by done.
  unfold not_nl in Hc. apply negb_true_iff in Hc. by rewrite Hc.
Qed.

Lemma cut_newline l s : one_line l = true -> str_cut newline (l +:+ newline +:+ s) = Some (l, s).
Proof.
  intros Hl. apply str_cut_intro; [done|]. intros c d Hc.
  destruct (decide (String.length l <= String.length c)) as [|Hlt]; [done|].
  symmetry in Hc. rewrite <- str_app_assoc in Hc. symmetry in Hc. apply str_app_split in Hc as (d' & -> & _).
  - rewrite !str_all_app in Hl. cbn in Hl. by rewrite !andb_false_r in Hl.
  - rewrite str_length_app. cbn. lia.
Qed.

Lemma cut_newline_none s : one_line s = true <-> str_cut newline s = None.
Proof.
  split.
  - intros Hs. apply str_cut_None. apply not_true_iff_false. rewrite str_contains_spec. intros (a & b & ->).
    rewrite !str_all_app in Hs. cbn in Hs. by rewrite !andb_false_r in Hs.
  - intros H. induction s as [|c s IH]; [done|]. cbn [str_all]. apply str_cut_None in H as Hc.
    rewrite IH; [|apply str_cut_None; by apply (str_contains_suffix _ (String c EmptyString))].
    rewrite andb_true_r. unfold not_nl. apply negb_true_iff, not_true_iff_false. intros <-%Ascii.eqb_eq.
    apply not_true_iff_false in Hc. apply Hc, str_contains_spec. by exists EmptyString, s.
Qed.

(** A text is a line and the rest, or it has no newline. *)
Lemma line_or_rest s : one_line s = true \/ exists l t, s = l +:+ newline +:+ t /\ one_line l = true.
Proof.
  destruct (str_cut newline s) as [[l t]|] eqn:E; [|left; by apply cut_newline_none].
  right. exists l, t. split; [by apply str_cut_Some in E|]. apply cut_newline_none, str_cut_None.
  apply not_true_iff_false. intros (a & b & ->)%str_contains_spec.
  apply str_cut_Some in E as Hs. apply (str_cut_first _ _ _ _ a (b +:+ newline +:+ t)) in E; [|by rewrite Hs, !str_app_assoc].
  rewrite !str_length_app in E. cbn in E. lia.
Qed.

Section marker.
Context (marker : string) (Hmarker : one_line marker = true).

(** A marker does not cross a newline: it is in the line or after it. *)
Lemma occurrence_lines l t x d :
  l +:+ newline +:+ t = x +:+ marker +:+ d ->
  (exists d', l = x +:+ marker +:+ d') \/ (exists x', x = l +:+ newline +:+ x' /\ t = x' +:+ marker +:+ d).
Proof using Hmarker.
  intros H. destruct (decide (String.length (x +:+ marker) <= String.length l)) as [Hl|Hl].
  { rewrite <- (str_app_assoc x) in H. apply str_app_split in H as (d' & -> & _); [|done].
    left. exists d'. by rewrite str_app_assoc. }
  destruct (decide (String.length (l +:+ newline) <= String.length x)) as [Hc|Hc].
  { rewrite <- str_app_assoc in H. symmetry in H. apply str_app_split in H as (x' & -> & ->); [|done].
    right. exists x'. by rewrite str_app_assoc. }
  exfalso. rewrite str_length_app in Hl, Hc. cbn in Hc. apply str_app_split in H as (l' & -> & H); [|lia].
  rewrite str_length_app in Hl. rewrite <- (str_app_assoc l') in H.
  apply str_app_split in H as (m' & -> & _); [|rewrite str_length_app; cbn; lia].
  rewrite !str_all_app in Hmarker. cbn in Hmarker. by rewrite !andb_false_r in Hmarker.
Qed.

Lemma contains_lines l t :
  str_contains marker (l +:+ newline +:+ t) = str_contains marker l || str_contains marker t.
Proof using Hmarker.
  apply eq_bool_prop_intro. rewrite !Is_true_true, orb_true_iff, !str_contains_spec. split.
  - intros (c & d & [[d' ->]|(x' & -> & ->)]%occurrence_lines); [left|right]; eauto.
  - intros [(a & b & ->)|(a & b & ->)].
    + exists a, (b +:+ newline +:+ t). by rewrite !str_app_assoc.
    + exists (l +:+ newline +:+ a), b. by rewrite !str_app_assoc.
Qed.

(** A line without the marker is passed over, one with it is taken. *)
Lemma next_line_line l t :
  one_line l = true -> next_line marker (l +:+ newline +:+ t) = if str_contains marker l then Some t else next_line marker t.
Proof using Hmarker.
  intros Hl. unfold next_line. destruct (str_contains marker l) eqn:E.
  - destruct (str_cut marker l) as [[a b]|] eqn:Ec; [|apply str_cut_None in Ec; congruence].
    rewrite (str_cut_app _ _ _ _ _ Ec). cbn [mbind option_bind]. apply str_cut_Some in Ec. subst l.
    rewrite !str_all_app, !andb_true_iff in Hl. destruct Hl as (_ & _ & Hb). by rewrite cut_newline.
  - destruct (str_cut marker (l +:+ newline +:+ t)) as [[x y]|] eqn:Ex; cbn [mbind option_bind].
    + apply str_cut_Some in Ex as Hx. apply occurrence_lines in Hx as [[d' ->]|(x' & -> & _)].
      { apply not_true_iff_false in E. destruct E. apply str_contains_spec. eauto. }
      rewrite <- (str_app_assoc l) in Ex. destruct (str_cut_drop _ _ _ _ _ Ex) as [a' ->]; [|done].
      rewrite !str_length_app. lia.
    + apply str_cut_None in Ex. rewrite contains_lines, E in Ex. apply str_cut_None in Ex. cbn in Ex. by rewrite Ex.
Qed.

Lemma next_line_one s : one_line s = true -> next_line marker s = None.
Proof using.
  intros Hs. unfold next_line. destruct (str_cut marker s) as [[a b]|] eqn:E; [|done]. cbn.
  apply str_cut_Some in E. subst s. rewrite !str_all_app, !andb_true_iff in Hs. destruct Hs as (_ & _ & Hb).
  apply cut_newline_none in Hb. by rewrite Hb.
Qed.

Lemma next_line_suffix s t : next_line marker s = Some t -> exists p, s = p +:+ t.
Proof using.
  unfold next_line. intros ([a b] & Ha & H)%bind_Some. apply bind_Some in H as ([c d] & Hc & [= <-]).
  apply str_cut_Some in Ha, Hc. subst. exists (a +:+ marker +:+ c +:+ newline). by rewrite !str_app_assoc.
Qed.

Lemma next_line_shorter s t : next_line marker s = Some t -> String.length t < String.length s.
Proof using.
  unfold next_line. intros ([a b] & Ha & H)%bind_Some. apply bind_Some in H as ([c d] & Hc & [= <-]).
  apply str_cut_Some in Ha, Hc. subst. rewrite !str_length_app. cbn. lia.
Qed.

(** The lines with a marker are those that [next_line] finds, one by one. *)
Lemma marker_lines_next s :
  marker_lines marker s = match next_line marker s with Some t => S (marker_lines marker t) | None => 0 end.
Proof using Hmarker.
  remember (String.length s) as n eqn:Hn. revert s Hn. induction n as [n IH] using lt_wf_ind. intros s ->.
  destruct (line_or_rest s) as [Hs|(l & t & -> & Hl)].
  - rewrite next_line_one by done. unfold marker_lines. by rewrite complete_lines_nil.
  - rewrite next_line_line by done. unfold marker_lines at 1. rewrite complete_lines_cons by done. cbn [List.filter].
    destruct (str_contains marker l); [done|]. apply (IH (String.length t)); [|done].
    rewrite !str_length_app. cbn. lia.
Qed.

Lemma next_line_app s t b : next_line marker s = Some t -> next_line marker (s +:+ b) = Some (t +:+ b).
Proof using.
  unfold next_line. intros ([x y] & Ha & H)%bind_Some. apply bind_Some in H as ([c d] & Hc & [= <-]).
  rewrite (str_cut_app _ _ _ _ _ Ha). cbn. by rewrite (str_cut_app _ _ _ _ _ Hc).
Qed.

(** Nothing that [next_line] will find is lost by the trimming. *)
Lemma next_line_trim r b :
  String.length marker <= 2048 -> short_lines r -> next_line marker r = None ->
  next_line marker (trim r +:+ b) = next_line marker (r +:+ b).
Proof using Hmarker.
  intros Hlen Hshort Hr. unfold trim. destruct (4096 <? String.length r) eqn:El; [|done]. apply Nat.ltb_lt in El.
  set (n := String.length r - 2048). pose proof (str_take_drop n r) as Hsplit.
  set (p := str_take n r) in *. set (q := str_drop n r) in *.
  assert (String.length p <= n) as Hp by apply str_take_length.
  unfold next_line. destruct (str_cut marker (r +:+ b)) as [[x y]|] eqn:E.
  - assert (String.length p <= String.length x) as Hx.
    { destruct (str_cut marker r) as [[a c]|] eqn:Ea.
      - rewrite (str_cut_app _ _ _ _ _ Ea) in E. injection E as <- _. unfold next_line in Hr. rewrite Ea in Hr.
        cbn in Hr. destruct (str_cut newline c) as [[? ?]|] eqn:Ec; [done|]. apply cut_newline_none in Ec.
        apply str_cut_Some in Ea. pose proof (Hshort a (marker +:+ c) EmptyString) as Hs.
        rewrite str_app_nil_r, str_all_app, Hmarker, Ec in Hs. specialize (Hs Ea eq_refl).
        rewrite str_length_app in Hs. unfold n in Hp. rewrite Ea, !str_length_app in Hp. lia.
      - apply str_cut_Some in E. rewrite <- str_app_assoc in E.
        destruct (decide (String.length (x +:+ marker) <= String.length r)) as [Hle|Hgt].
        + apply str_app_split in E as (d' & -> & _); [|done]. apply str_cut_None, not_true_iff_false in Ea.
          destruct Ea. apply str_contains_spec. exists x, d'. by rewrite str_app_assoc.
        + rewrite str_length_app in Hgt. lia. }
    rewrite <- Hsplit, str_app_assoc in E. by destruct (str_cut_drop _ _ _ _ _ E Hx) as [a' ->].
  - assert (str_cut marker (q +:+ b) = None) as ->; [|done]. apply str_cut_None.
    apply (str_contains_suffix _ p). rewrite <- str_app_assoc, Hsplit. by apply str_cut_None.
Qed.

(** What the inner loop leaves and counts. *)
Lemma drain_spec minimum r m :
  match drain marker minimum r m with
  | (rest, n, enough) =>
      (forall b, n + Z.of_nat (marker_lines marker (rest +:+ b)) = m + Z.of_nat (marker_lines marker (r +:+ b)))%Z /\
      (exists p, r = p +:+ rest) /\
      (if enough then (minimum <= n)%Z else next_line marker rest = None /\ ((m < minimum)%Z -> (n < minimum)%Z))
  end.
Proof using Hmarker.
  unfold drain. assert (String.length r < S (String.length r)) as Hf by lia. revert Hf.
  generalize (S (String.length r)) as fuel. intros fuel. revert r m.
  induction fuel as [|fuel IH]; intros r m Hf; [lia|]. cbn [drain_fuel].
  destruct (next_line marker r) as [t|] eqn:E.
  2: { split; [done|]. split; [by exists EmptyString|]. by split. }
  pose proof (next_line_shorter r t E) as Hlt. pose proof (next_line_suffix r t E) as [p ->].
  assert (forall b, m + 1 + Z.of_nat (marker_lines marker (t +:+ b)) =
    m + Z.of_nat (marker_lines marker ((p +:+ t) +:+ b)))%Z as Hn.
  { intros b. rewrite (marker_lines_next ((p +:+ t) +:+ b)), (next_line_app _ _ _ E). lia. }
  destruct (minimum <=? m + 1)%Z eqn:El.
  - split; [done|]. split; [by exists p|]. lia.
  - specialize (IH t (m + 1)%Z). destruct (drain_fuel fuel marker minimum t (m + 1)) as [[rest n] enough].
    destruct IH as (H1 & [p' ->] & H2); [lia|]. split; [|split].
    + intros b. rewrite H1. apply Hn.
    + exists (p +:+ p'). by rewrite str_app_assoc.
    + destruct enough; [done|]. destruct H2 as [H2 H3]. split; [done|]. lia.
Qed.

Lemma marker_lines_trim r b :
  String.length marker <= 2048 -> short_lines r -> next_line marker r = None ->
  marker_lines marker (trim r +:+ b) = marker_lines marker (r +:+ b).
Proof using Hmarker. intros. by rewrite marker_lines_next, (marker_lines_next (r +:+ b)), next_line_trim. Qed.

End marker.

Lemma trim_suffix r : exists p, r = p +:+ trim r.
Proof.
  unfold trim. destruct (4096 <? String.length r); [|by exists EmptyString].
  exists (str_take (String.length r - 2048) r). by rewrite str_take_drop.
Qed.

(** ** The use of the port *)

(** The port is open; a reset is still to be done. *)
Record phase := Phase { is_open : bool; pending : bool }.

(** The port is created when there is none, opened and reset while it is there,
    read only after the reset, and closed once. *)
Definition port_step (p : phase) (c : call) : option phase :=
  match c, p with
  | Created, Phase false r => Some (Phase true r)
  | Opened, Phase true r => Some (Phase true r)
  | WasReset, Phase true true => Some (Phase true false)
  | Read, Phase true false => Some (Phase true false)
  | Closed, Phase true r => Some (Phase false r)
  | _, _ => None
  end.

Fixpoint port_run (p : phase) (cs : list call) : option phase :=
  match cs with
  | [] => Some p
  | c :: cs => q ← port_step p c; port_run q cs
  end.

Lemma port_run_snoc p cs c q q' : port_run p cs = Some q -> port_step q c = Some q' -> port_run p (cs ++ [c]) = Some q'.
Proof.
  revert p. induction cs as [|x cs IH]; intros p; cbn; [by intros [= ->] ->|].
  intros (p' & -> & H)%bind_Some. by apply IH.
Qed.

Ltac port_run := first [eassumption | eapply port_run_snoc; [port_run|reflexivity]].

(** ** Runs *)

Section run.
Context `{Serial W} (a : args) (deadline : pyfloat) (left : W -> nat).

(** Every call that fails raises an [OSError]. *)
Record os_errors : Prop := {
  oe_create : forall b w e, (create_port b w).1 = Raise e -> exists msg, e = OSError msg;
  oe_open : forall d w e, (open_port d w).1 = Raise e -> exists msg, e = OSError msg;
  oe_reset : forall w e, (hard_reset w).1 = Raise e -> exists msg, e = OSError msg;
  oe_read : forall w e, (read_port w).1 = Raise e -> exists msg, e = OSError msg
}.

(** Only so many readings of the clock are before the deadline. *)
Record clock_passes : Prop := {
  cp_clock : forall w, float_ltb (monotonic w).1 deadline = true -> left (monotonic w).2 < left w;
  cp_create : forall b w, left (create_port b w).2 <= left w;
  cp_open : forall d w, left (open_port d w).2 <= left w;
  cp_reset : forall w, left (hard_reset w).2 <= left w;
  cp_read : forall w, left (read_port w).2 <= left w;
  cp_close : forall w, left (close_port w) <= left w;
  cp_sleep : forall t w, left (sleep t w) <= left w
}.

Context (Herr : os_errors) (Hclock : clock_passes).
Implicit Types s : state (W := W).

(** The calls made so far are a run of the protocol. *)
Definition tracks s : Prop :=
  port_run (Phase false (negb (no_reset a))) (calls s) = Some (Phase (port s) (reset_pending s)).

Definition same_data s s' : Prop := recent s' = recent s /\ matches s' = matches s /\ written s' = written s.

Lemma ask_eq {A} (f : W -> res A * W) s : ask f s = ((f (world s)).1, set_world (f (world s)).2 s).
Proof. unfold ask. by destruct (f (world s)). Qed.

Lemma prepare_spec s r s' :
  tracks s -> (port s = true -> reset_pending s = false) -> prepare a s = (r, s') ->
  tracks s' /\ same_data s s' /\ left (world s') <= left (world s) /\
  match r with Ok _ => port s' = true /\ reset_pending s' = false | Raise e => exists msg, e = OSError msg end.
Proof using Herr Hclock.
  intros Ht Hp. unfold prepare. destruct (port s) eqn:Eport.
  { intros [= <- <-]. split; [done|]. repeat split; auto. }
  unfold tracks in *. rewrite Eport in Ht. rewrite ask_eq.
  pose proof (oe_create Herr (baud a) (world s)) as He1. pose proof (cp_create Hclock (baud a) (world s)) as Hc1.
  destruct (create_port (baud a) (world s)) as [[[]|e] w1]; cbn in He1, Hc1; cbn [fst snd].
  2: { intros [= <- <-]. split; [by cbn; rewrite Eport|]. by repeat split; auto. }
  rewrite ask_eq. cbn [note_call set_port set_world world].
  pose proof (oe_open Herr (device a) w1) as He2. pose proof (cp_open Hclock (device a) w1) as Hc2.
  destruct (open_port (device a) w1) as [[[]|e] w2]; cbn in He2, Hc2; cbn [fst snd].
  2: { intros [= <- <-]. cbn. split; [port_run|repeat split; auto; lia]. }
  change (reset_pending (set_world w2 _)) with (reset_pending s). destruct (reset_pending s) eqn:Er.
  - rewrite ask_eq. cbn [world set_world]. pose proof (oe_reset Herr w2) as He3. pose proof (cp_reset Hclock w2) as Hc3.
    destruct (hard_reset w2) as [[[]|e] w3]; cbn in He3, Hc3; cbn [fst snd]; intros [= <- <-]; cbn;
      rewrite ?Er; (split; [port_run|repeat split; auto; lia]).
  - intros [= <- <-]. cbn. rewrite Er. split; [port_run|repeat split; auto; lia].
Qed.

Context (Hmarker : one_line (until a) = true) (Hlen : String.length (until a) <= 2048).

(** What a pass keeps: the port follows the protocol, and on output without
    overlong lines the count is that of the lines written so far. *)
Record keeps s : Prop := {
  ke_tracks : tracks s;
  ke_ready : port s = true -> reset_pending s = false;
  ke_few : (matches s < minimum_matches a)%Z;
  ke_suffix : exists p, str_join EmptyString (written s) = p +:+ recent s;
  ke_drained : short_lines (str_join EmptyString (written s)) -> next_line (until a) (recent s) = None;
  ke_count : short_lines (str_join EmptyString (written s)) -> forall b,
    (matches s + Z.of_nat (marker_lines (until a) (recent s +:+ b)) =
     Z.of_nat (marker_lines (until a) (str_join EmptyString (written s) +:+ b)))%Z
}.

(** How a run ends. *)
Definition ends (r : outcome * list call) : Prop :=
  (exists q, port_run (Phase false (negb (no_reset a))) r.2 = Some (Phase false q)) /\
  (exit r.1 = Ok 0%Z \/ exit r.1 = Ok 1%Z) /\
  (short_lines (str_join EmptyString (stdout r.1)) ->
   exit r.1 = Ok 0%Z <-> (minimum_matches a <= Z.of_nat (marker_lines (until a) (str_join EmptyString (stdout r.1))))%Z).

Lemma keeps_count s :
  keeps s -> short_lines (str_join EmptyString (written s)) ->
  (Z.of_nat (marker_lines (until a) (str_join EmptyString (written s))) < minimum_matches a)%Z.
Proof using Hmarker Hlen.
  intros [_ _ Hf _ Hd Hc] Hs. specialize (Hc Hs EmptyString). rewrite !str_app_nil_r in Hc.
  rewrite marker_lines_next, (Hd Hs) in Hc by done. lia.
Qed.

(** A run that stops short of the matches. *)
Lemma ends_short s errs : keeps s -> ends (finish (Ok 1%Z) errs (close s)).
Proof using Hmarker Hlen.
  intros Hk. pose proof (keeps_count s Hk) as Hc. destruct Hk as [Ht _ _ _ _ _]. unfold tracks in Ht.
  unfold ends, finish, close.
  destruct (port s) eqn:E; cbn [fst snd exit stdout calls written set_port set_world reset_pending].
  - split; [eexists; port_run|]. split; [by right|]. intros Hs. specialize (Hc Hs). split; [done|]. intros; exfalso; lia.
  - split; [eauto|]. split; [by right|]. intros Hs. specialize (Hc Hs). split; [done|]. intros; exfalso; lia.
Qed.

Lemma join_snoc l c : str_join EmptyString (l ++ [c]) = str_join EmptyString l +:+ c.
Proof using.
  unfold str_join. induction l as [|x l IH]; [by destruct c|]. destruct l as [|y l].
  - done.
  - change ((x :: y :: l) ++ [c]) with (x :: (y :: l) ++ [c]). cbn [String.concat] in *.
    destruct ((y :: l) ++ [c]) eqn:E; [done|]. rewrite IH. by rewrite !str_app_assoc.
Qed.

Lemma short_lines_sub x y z : short_lines (x +:+ y +:+ z) -> short_lines y.
Proof using.
  intros Hs p q r -> Hq. apply (Hs (x +:+ p) q (r +:+ z)); [|done]. by rewrite !str_app_assoc.
Qed.

(** A chunk is counted. *)
Lemma chunk_keeps s chunk :
  keeps s -> port s = true ->
  match drain (until a) (minimum_matches a) (recent s +:+ chunk) (matches s) with
  | (rest, n, enough) =>
      let s' := State (world s) (if enough then rest else trim rest) n (port s) (reset_pending s) (calls s)
                  (written s ++ [chunk]) in
      if enough then ends (finish (Ok 0%Z) [] (close s')) else keeps s'
  end.
Proof using Hmarker Hlen.
  intros [Ht Hr Hf [p Hp] Hd Hc] Hport.
  pose proof (drain_spec (until a) Hmarker (minimum_matches a) (recent s +:+ chunk) (matches s)) as H1.
  destruct (drain _ _ _ _) as [[rest n] enough]. destruct H1 as (Hn & [q Hq] & Henough).
  assert (str_join EmptyString (written s ++ [chunk]) = p +:+ q +:+ rest) as Hw
    by (by rewrite join_snoc, Hp, str_app_assoc, Hq).
  assert (short_lines (str_join EmptyString (written s ++ [chunk])) -> forall b,
    (n + Z.of_nat (marker_lines (until a) (rest +:+ b)) =
     Z.of_nat (marker_lines (until a) (str_join EmptyString (written s ++ [chunk]) +:+ b)))%Z) as Hcount.
  { intros Hs b. rewrite Hn, str_app_assoc, Hc, join_snoc, str_app_assoc; [done|].
    rewrite join_snoc in Hs. by apply (short_lines_sub EmptyString _ chunk). }
  destruct enough; cbn zeta.
  - unfold ends, finish, close. cbn [port]. rewrite Hport. unfold tracks in Ht. rewrite Hport in Ht.
    cbn [fst snd exit stdout calls written set_port set_world reset_pending world].
    split; [eexists; port_run|]. split; [by left|]. intros Hs. split; [|done]. intros _. cbn [fst stdout written] in *.
    specialize (Hcount Hs EmptyString). rewrite !str_app_nil_r in Hcount. lia.
  - destruct Henough as [Hnone Hlt].
    split; cbn [recent matches written port reset_pending calls world]; auto.
    + destruct (trim_suffix rest) as [t Htr]. exists (p +:+ q +:+ t). by rewrite Hw, !str_app_assoc, <- Htr.
    + intros Hs. rewrite <- (str_app_nil_r (trim rest)), next_line_trim, str_app_nil_r; try done.
      rewrite Hw, <- str_app_assoc in Hs. apply (short_lines_sub (p +:+ q) _ EmptyString). by rewrite str_app_nil_r.
    + intros Hs b. rewrite marker_lines_trim; auto.
      rewrite Hw, <- str_app_assoc in Hs. apply (short_lines_sub (p +:+ q) _ EmptyString). by rewrite str_app_nil_r.
Qed.

Lemma keeps_same s s' :
  keeps s -> same_data s s' -> tracks s' -> (port s' = true -> reset_pending s' = false) -> keeps s'.
Proof using.
  intros [_ _ Hf Hp Hd Hc] (Hr & Hm & Hw) Ht Hq. split; rewrite ?Hr, ?Hm, ?Hw; done.
Qed.

Lemma close_closed s : port (close s) = false.
Proof using. unfold close. by destruct (port s) eqn:E. Qed.

Lemma keeps_close s s' : keeps s -> same_data s s' -> tracks s' -> keeps (close s').
Proof using.
  intros Hk Hs Ht. apply (keeps_same s); [done|by unfold close; destruct (port s')| |by rewrite close_closed].
  unfold tracks, close in *. destruct (port s') eqn:E; [|by rewrite E]. cbn. port_run.
Qed.

Lemma close_left s : left (world (close s)) <= left (world s).
Proof using Hclock. unfold close. destruct (port s); [|done]. apply (cp_close Hclock). Qed.

(** A pass that fails: the port is closed, and the run ends or goes on. *)
Lemma failed_pass s s' msg :
  keeps s -> same_data s s' -> tracks s' -> left (world s') <= left (world s) ->
  match (if negb (reconnect a) then inr (finish (Ok 1%Z) [serial_error a msg] (close s'))
         else inl (set_world (sleep (float_ratio 2 10) (world (close s'))) (close s')))
  with inl s' => keeps s' /\ left (world s') <= left (world s) | inr r => ends r end.
Proof using Hclock Hmarker Hlen.
  intros Hk Hs Ht Hl. pose proof (keeps_close s s' Hk Hs Ht) as Hc. destruct (negb (reconnect a)).
  - replace (close s') with (close (close s')) by (unfold close at 1; by rewrite close_closed). by apply ends_short.
  - split; [by apply (keeps_same (close s')); try apply Hc|].
    pose proof (cp_sleep Hclock (float_ratio 2 10) (world (close s'))). pose proof (close_left s').
    cbn [world set_world]. lia.
Qed.

Lemma pass_keeps s :
  keeps s -> match pass a s with inl s' => keeps s' /\ left (world s') <= left (world s) | inr r => ends r end.
Proof using Herr Hclock Hmarker Hlen.
  intros Hk. unfold pass, read_chunk. destruct (prepare a s) as [r s1] eqn:E.
  destruct (prepare_spec s r s1 (ke_tracks s Hk) (ke_ready s Hk) E) as (Ht & Hsame & Hleft & Hres).
  destruct r as [[]|e]; [|destruct Hres as [msg ->]; by apply failed_pass].
  destruct Hres as [Hport Hpend]. rewrite ask_eq. change (world (note_call Read s1)) with (world s1).
  pose proof (oe_read Herr (world s1)) as He. pose proof (cp_read Hclock (world s1)) as Hc.
  destruct (read_port (world s1)) as [r w2]. cbn [fst snd] in *.
  assert (tracks (set_world w2 (note_call Read s1))) as Ht2.
  { unfold tracks in *. rewrite Hport, Hpend in Ht. cbn. rewrite Hport, Hpend. port_run. }
  destruct r as [chunk|e]; [|destruct (He e eq_refl) as [msg ->]; apply failed_pass; try done; cbn [world set_world]; lia].
  assert (keeps (set_world w2 (note_call Read s1))) as Hk2 by (by apply (keeps_same s)).
  case_bool_decide; [split; [done|cbn [world set_world]; lia]|].
  pose proof (chunk_keeps _ chunk Hk2 Hport) as Hchunk.
  destruct (drain _ _ _ _) as [[rest n] enough]. destruct enough; [done|]. split; [done|]. cbn [world set_world]. lia.
Qed.

Lemma before_keeps s : keeps s -> keeps (before deadline s).2.
Proof using.
  intros Hk. unfold before. destruct (monotonic (world s)) as [t w]. cbn [snd].
  apply (keeps_same s); [done|done|apply Hk|apply Hk].
Qed.

(** The loop returns, and its run ends well. *)
Lemma capture_loop fuel s :
  keeps s -> left (world s) < fuel ->
  exists x, while_loop (before deadline) (pass a) fuel s = Some x /\
    match x with inl s' => keeps s' | inr r => ends r end.
Proof using Herr Hclock Hmarker Hlen.
  intros Hk Hf. apply (while_loop_rule _ _ (fun s => left (world s)) keeps); [..|done|done].
  - intros s' Hs' _. apply (before_keeps s' Hs').
  - intros s' _. unfold before. pose proof (cp_clock Hclock (world s')) as Hc. destruct (monotonic (world s')). exact Hc.
  - intros s' Hs' _. pose proof (pass_keeps (before deadline s').2 (before_keeps s' Hs')) as Hp.
    by destruct (pass a _).
Qed.

(** The whole run. *)
Lemma capture_run fuel usage w :
  (1 <= minimum_matches a)%Z -> deadline = deadline_of a w -> left (monotonic w).2 < fuel ->
  exists r, main a fuel usage w = Some r /\ ends r.
Proof using Herr Hclock Hmarker Hlen.
  intros Hmin Hd Hf. unfold main. destruct (minimum_matches a <? 1)%Z eqn:El; [lia|]. unfold deadline_of in Hd.
  destruct (monotonic w) as [t w1]. cbn [fst snd] in *. rewrite <- Hd.
  destruct (capture_loop fuel (start a w1)) as (x & -> & Hx); [|done|].
  - split; [done|done|cbn; lia|by exists EmptyString|by intros _; apply next_line_one|]. intros _ b. cbn. lia.
  - destruct x as [s|r]; [|by eexists]. eexists. split; [done|]. by apply ends_short.
Qed.

End run.

End CaptureSpec.
