(* ===== verification/Prog.v ===== *)
(** * Programs that wait for the outside

    The test peers call libraries whose answers are not theirs to choose, and loop
    until a clock passes a deadline.  A program is a function of fuel and of a
    state that holds the outside; [None] is a run that the fuel does not see
    through.  [twp] is its total weakest precondition: with enough fuel the
    program ends, and it ends as the postcondition says. *)

From S2P Require Import Prelude.

Section prog.
Context {St : Type}.

Definition prog (A : Type) : Type := nat -> St -> option (res A * St).

#[export] Instance prog_ret : MRet prog := fun A a _ s => Some (Ok a, s).
#[export] Instance prog_bind : MBind prog := fun A B k m fuel s =>
  match m fuel s with
  | None => None
  | Some (Ok a, s) => k a fuel s
  | Some (Raise e, s) => Some (Raise e, s)
  end.

(** A step that always ends. *)
Definition act {A} (f : St -> A * St) : prog A := fun _ s => let '(a, s) := f s in Some (Ok a, s).
Definition try_act {A} (f : St -> res A * St) : prog A := fun _ s => Some (f s).
Definition modify (f : St -> St) : prog unit := act (fun s => (tt, f s)).

(** [try: m finally: f] *)
Definition try_finally {A} (m : prog A) (f : prog unit) : prog A := fun fuel s =>
  match m fuel s with
  | None => None
  | Some (r, s) =>
      match f fuel s with
      | None => None
      | Some (Ok _, s) => Some (r, s)
      | Some (Raise e, s) => Some (Raise e, s)
      end
  end.

(** [while True: body]; the body goes on with its variables or leaves the loop. *)
Fixpoint iter_fuel {L R} (body : L -> prog (L + R)) (n fuel : nat) (l : L) (s : St) : option (res R * St) :=
  match n with
  | O => None
  | S n =>
      match body l fuel s with
      | None => None
      | Some (Raise e, s) => Some (Raise e, s)
      | Some (Ok (inl l), s) => iter_fuel body n fuel l s
      | Some (Ok (inr r), s) => Some (Ok r, s)
      end
  end.

Definition iter {L R} (body : L -> prog (L + R)) (l : L) : prog R := fun fuel s => iter_fuel body fuel fuel l s.

(** [for x in l: body] *)
Fixpoint for_each {A} (l : list A) (body : A -> prog unit) : prog unit :=
  match l with
  | [] => mret tt
  | x :: l => body x ≫= fun _ => for_each l body
  end.

(** ** Total weakest preconditions *)

Definition twp {A} (m : prog A) (Q : res A -> St -> Prop) (s : St) : Prop :=
  exists n r s', (forall fuel, n <= fuel -> m fuel s = Some (r, s')) /\ Q r s'.

(** The postcondition of a program that goes on. *)
Definition andthen {A B} (k : A -> prog B) (Q : res B -> St -> Prop) : res A -> St -> Prop :=
  fun r s => match r with Ok a => twp (k a) Q s | Raise e => Q (Raise e) s end.

Lemma twp_ret {A} (a : A) Q s : Q (Ok a) s -> twp (mret a) Q s.
Proof. intros H. by exists 0, (Ok a), s. Qed.

Lemma twp_act {A} (f : St -> A * St) Q s : Q (Ok (f s).1) (f s).2 -> twp (act f) Q s.
Proof. intros H. exists 0, (Ok (f s).1), (f s).2. split; [|done]. intros fuel _. unfold act. by destruct (f s). Qed.

Lemma twp_try_act {A} (f : St -> res A * St) Q s : Q (f s).1 (f s).2 -> twp (try_act f) Q s.
Proof. intros H. exists 0, (f s).1, (f s).2. split; [|done]. intros fuel _. unfold try_act. by destruct (f s). Qed.

Lemma twp_mono {A} (m : prog A) Q Q' s : twp m Q s -> (forall r s, Q r s -> Q' r s) -> twp m Q' s.
Proof. intros (n & r & s' & H & HQ) HQQ. exists n, r, s'. auto. Qed.

Lemma twp_bind {A B} (m : prog A) (k : A -> prog B) Q s : twp m (andthen k Q) s -> twp (m ≫= k) Q s.
Proof.
  intros (n & r & s1 & H1 & H2). destruct r as [a|e].
  - destruct H2 as (n2 & r2 & s2 & H2 & HQ). exists (n `max` n2), r2, s2. split; [|done]. intros fuel Hf.
    unfold mbind, prog_bind. rewrite H1, H2 by lia. done.
  - exists n, (Raise e), s1. split; [|done]. intros fuel Hf. unfold mbind, prog_bind. by rewrite H1.
Qed.

Lemma twp_finally {A} (m : prog A) f Q s :
  twp m (fun r s => twp f (fun r' s' => Q (match r' with Ok _ => r | Raise e => Raise e end) s') s) s ->
  twp (try_finally m f) Q s.
Proof.
  intros (n & r & s1 & H1 & n2 & r2 & s2 & H2 & HQ). exists (n `max` n2), (match r2 with Ok _ => r | Raise e => Raise e end), s2.
  split; [|done]. intros fuel Hf. unfold try_finally. rewrite H1, H2 by lia. by destruct r2.
Qed.

(** The rule of the loop: an invariant with an index that every round decreases. *)
Lemma twp_iter_index {L R} (body : L -> prog (L + R)) (P : nat -> L -> St -> Prop) Q m l s :
  (forall m l s, P m l s -> twp (body l) (fun r s' =>
     match r with
     | Ok (inl l') => exists m', m' < m /\ P m' l' s'
     | Ok (inr x) => Q (Ok x) s'
     | Raise e => Q (Raise e) s'
     end) s) ->
  P m l s -> twp (iter body l) Q s.
Proof.
  intros Hbody HP.
  assert (exists n r s', (forall fuel k, n <= fuel -> n <= k -> iter_fuel body k fuel l s = Some (r, s')) /\ Q r s')
    as (n & r & s' & H & HQ).
  2: { exists n, r, s'. split; [|done]. intros fuel Hf. by apply H. }
  revert l s HP. induction m as [m IH] using lt_wf_ind. intros l s HP.
  destruct (Hbody m l s HP) as (n1 & r & s1 & H1 & H2). destruct r as [[l1|x]|e].
  - destruct H2 as (m' & Hlt & HP1). destruct (IH _ Hlt l1 s1 HP1) as (n2 & r2 & s2 & H2 & HQ).
    exists (S (n1 `max` n2)), r2, s2. split; [|done]. intros fuel [|k] Hf Hk; [lia|]. cbn.
    rewrite H1 by lia. apply H2; lia.
  - exists (S n1), (Ok x), s1. split; [|done]. intros fuel [|k] Hf Hk; [lia|]. cbn. by rewrite H1 by lia.
  - exists (S n1), (Raise e), s1. split; [|done]. intros fuel [|k] Hf Hk; [lia|]. cbn. by rewrite H1 by lia.
Qed.

(** The same with an invariant and a measure. *)
Lemma twp_iter {L R} (body : L -> prog (L + R)) (P : L -> St -> Prop) (left : L -> St -> nat) Q l s :
  (forall l s, P l s -> twp (body l) (fun r s' =>
     match r with
     | Ok (inl l') => P l' s' /\ left l' s' < left l s
     | Ok (inr x) => Q (Ok x) s'
     | Raise e => Q (Raise e) s'
     end) s) ->
  P l s -> twp (iter body l) Q s.
Proof.
  intros Hbody HP. apply (twp_iter_index _ (fun m l s => P l s /\ left l s = m) _ (left l s)); [|done].
  clear l s HP. intros m l s [HP <-]. eapply twp_mono; [by apply Hbody|]. intros [[l'|x]|e] s'; [|done..].
  intros [HP' Hlt]. eauto.
Qed.

(** A loop over a list: an invariant of the elements that are done. *)
Lemma twp_for_each {A} (P : list A -> St -> Prop) (todo : list A) (body : A -> prog unit) (Q : res unit -> St -> Prop) done s :
  (forall done x s, P done s -> x ∈ todo -> twp (body x) (fun r s' =>
     match r with Ok _ => P (done ++ [x]) s' | Raise e => Q (Raise e) s' end) s) ->
  (forall s, P (done ++ todo) s -> Q (Ok tt) s) ->
  P done s -> twp (for_each todo body) Q s.
Proof.
  revert done s. induction todo as [|x todo IH]; intros done s Hbody HQ HP; cbn [for_each].
  { apply twp_ret, HQ. by rewrite app_nil_r. }
  apply twp_bind. eapply twp_mono; [apply Hbody; [exact HP|apply elem_of_cons; by left]|].
  intros [[]|e] s' H; [|done]. cbn. apply (IH (done ++ [x])); [|by rewrite <- app_assoc|done].
  intros done' y s'' HP' Hy. apply Hbody; [done|]. apply elem_of_cons. by right.
Qed.

(** What a program does, and that a precondition tells of it. *)
Definition runs {A} (m : prog A) (s : St) (r : res A) (s' : St) : Prop :=
  exists n, forall fuel, n <= fuel -> m fuel s = Some (r, s').

Lemma twp_runs {A} (m : prog A) Q s r s' : twp m Q s -> runs m s r s' -> Q r s'.
Proof.
  intros (n & r1 & s1 & H1 & HQ) (n2 & H2). specialize (H1 (n `max` n2) ltac:(lia)). specialize (H2 (n `max` n2) ltac:(lia)).
  rewrite H1 in H2. by injection H2 as <- <-.
Qed.

End prog.

Arguments prog : clear implicits.
Arguments twp : simpl never.
