(* ===== verification/Rclpy.v ===== *)
(** * The test peers' side of rclpy

    What [samples/wifi/peer.py] and [samples/static_control/peer.py] use of rclpy,
    as a parameter [Rclpy]: the state of the outside, and what each call answers
    and does to it.  [spin_once] executes at most one callback, as its
    documentation says; the calls that create, destroy and publish are taken to
    succeed, the graph queries of a node may raise.  A peer is a
    program over the outside, what it received, and a log of what it did and of what
    the graph queries answered. *)

From Stdlib Require Import Ascii String.
From S2P Require Import Prelude PyStr PyFloat PyObj Clock Prog.

(** ** Quality of service *)

Inductive durability_policy := TRANSIENT_LOCAL | VOLATILE.
Inductive reliability_policy := RELIABLE | BEST_EFFORT.
Inductive history_policy := KEEP_LAST.

Record qos_profile := QoSProfile {
  q_depth : Z; q_durability : durability_policy; q_history : history_policy; q_reliability : reliability_policy
}.

(** Calls that create and destroy what a peer uses. *)
Inductive ros_call :=
  | Init
  | CreateNode (name namespace : string)
  | CreatePublisher (topic : string) (qos : qos_profile)
  | CreateSubscription (topic : string) (qos : qos_profile)
  | DestroyPublisher
  | DestroySubscription
  | DestroyNode
  | Shutdown.

(** ** The outside *)

Class Rclpy (W M C : Type) := {
  monotonic : W -> pyfloat * W;
  (** the message a callback was executed with, if one was ready in time *)
  spin_once : pyfloat -> W -> option M * W;
  publish : C -> W -> W;
  get_subscription_count : W -> Z * W;
  get_publishers_info_by_topic : string -> W -> list string * W;
  get_node_names_and_namespaces : W -> list (string * string) * W;
  get_publisher_names_and_types_by_node : string * string -> W -> res (list (string * list string)) * W;
  get_subscriber_names_and_types_by_node : string * string -> W -> res (list (string * list string)) * W;
  ros : ros_call -> W -> W
}.

(** A wait of [t] seconds from any reading of the clock passes: [left] counts readings,
    and each that is before the deadline uses one up.  No clock with finite readings
    passes an infinite wait. *)
Definition passes {W M C} `{Rclpy W M C} (left : pyfloat -> W -> nat) (t : pyfloat) : Prop :=
  forall w0 w, let d := float_add (monotonic w0).1 t in
    float_ltb (monotonic w).1 d = true -> left d (monotonic w).2 < left d w.

(** A deadline that every reading is before is never reached. *)
Lemma endless_wait {W M C} `{Rclpy W M C} left t w0 :
  (forall w, float_ltb (monotonic w).1 (float_add (monotonic w0).1 t) = true) -> ~ passes left t.
Proof.
  intros Hall Hp. set (d := float_add (monotonic w0).1 t) in *.
  assert (forall n w, left d w < n -> False) as Hdown; [|apply (Hdown (S (left d w0)) w0); lia].
  induction n as [|n IH]; intros w Hn; [lia|]. apply (IH (monotonic w).2). specialize (Hp w0 w (Hall w)). fold d in Hp. lia.
Qed.

(** The waits of half a second, two and ten seconds that the peers do on their own. *)
Definition own_waits : list pyfloat := [float_ratio 5 10; float_int 2; float_int 10].

(** The clock gets past the peers' own waits, and no call turns it back. *)
Record ticks {W M C} `{Rclpy W M C} (left : pyfloat -> W -> nat) : Prop := {
  tk_own : forall t, t ∈ own_waits -> passes left t;
  tk_clock_le : forall d w, left d (monotonic w).2 <= left d w;
  tk_spin : forall d t w, left d (spin_once t w).2 <= left d w;
  tk_publish : forall d c w, left d (publish c w) <= left d w;
  tk_count : forall d w, left d (get_subscription_count w).2 <= left d w;
  tk_info : forall d t w, left d (get_publishers_info_by_topic t w).2 <= left d w;
  tk_names : forall d w, left d (get_node_names_and_namespaces w).2 <= left d w;
  tk_pubs : forall d n w, left d (get_publisher_names_and_types_by_node n w).2 <= left d w;
  tk_subs : forall d n w, left d (get_subscriber_names_and_types_by_node n w).2 <= left d w;
  tk_ros : forall d c w, left d (ros c w) <= left d w
}.

(** ** Peers *)

(** The processes the inbound graph test starts, and what is done with them. *)
Inductive worker := Alpha | Beta | Restarted.

Inductive worker_action :=
  | Started (profile : string)
  | Commanded (command : string)
  | Got (message : string)
  | Probed (alive : bool)
  | Killed
  | Joined
  | ConnectionClosed.

#[export] Instance worker_eq_dec : EqDecision worker.
Proof. solve_decision. Defined.
#[export] Instance worker_action_eq_dec : EqDecision worker_action.
Proof. solve_decision. Defined.

(** What a peer did, and what the graph queries answered, in order. *)
Inductive event (C : Type) :=
  | Out (line : string)
  | Err (line : string)
  | Published (c : C)
  | Called (f : ros_call)
  | Slept (t : pyfloat)
  | Told (message : string)
  | Worked (n : worker) (x : worker_action)
  | Counted (subscriptions : Z)
  | Informed (publishers : list string)
  | Nodes (nodes : list (string * string))
  | PublishersOf (topics : list (string * list string))
  | SubscribersOf (topics : list (string * list string)).
Arguments Out {C} line.
Arguments Err {C} line.
Arguments Published {C} c.
Arguments Called {C} f.
Arguments Slept {C} t.
Arguments Told {C} message.
Arguments Worked {C} n x.
Arguments Counted {C} subscriptions.
Arguments Informed {C} publishers.
Arguments Nodes {C} nodes.
Arguments PublishersOf {C} topics.
Arguments SubscribersOf {C} topics.

Section peer.
Context {W M C I : Type} `{Rclpy W M C}.

(** The outside, what was received and what was done. *)
Record peer := Peer { world : W; inbox : list I; log : list (event C) }.

Definition ask {A} (f : W -> A * W) : prog peer A :=
  act (fun s => let '(a, w) := f (world s) in (a, Peer w (inbox s) (log s))).
Definition try_ask {A} (f : W -> res A * W) : prog peer A :=
  try_act (fun s => let '(r, w) := f (world s) in (r, Peer w (inbox s) (log s))).
Definition note (e : event C) : prog peer unit := modify (fun s => Peer (world s) (inbox s) (log s ++ [e])).
(** A query whose answer is logged. *)
Definition query {A} (f : W -> A * W) (answer : A -> event C) : prog peer A :=
  a ← ask f;
  note (answer a) ;;
  mret a.
Definition try_query {A} (f : W -> res A * W) (answer : A -> event C) : prog peer A :=
  a ← try_ask f;
  note (answer a) ;;
  mret a.
Definition receive_item (x : I) : prog peer unit := modify (fun s => Peer (world s) (inbox s ++ [x]) (log s)).
Definition get_inbox : prog peer (list I) := act (fun s => (inbox s, s)).

Definition now : prog peer pyfloat := ask monotonic.
Definition say (line : string) : prog peer unit := note (Out line).
Definition complain (line : string) : prog peer unit := note (Err line).
Definition send (c : C) : prog peer unit :=
  modify (fun s => Peer (publish c (world s)) (inbox s) (log s ++ [Published c])).
Definition call (f : ros_call) : prog peer unit :=
  modify (fun s => Peer (ros f (world s)) (inbox s) (log s ++ [Called f])).

(** [rclpy.spin_once(node, timeout_sec=t)] with the callback of the subscription *)
Definition spin (callback : M -> prog peer unit) (t : pyfloat) : prog peer unit :=
  m ← ask (spin_once t);
  match m with Some x => callback x | None => mret tt end.

(** The loop all waiting functions share:
[[
    deadline = time.monotonic() + timeout
    while time.monotonic() < deadline:
        rclpy.spin_once(node, timeout_sec=0.1)
        if condition(): return True
    return False
]] *)
Definition wait_until (callback : M -> prog peer unit) (condition : prog peer bool) (timeout : pyfloat) : prog peer bool :=
  t ← now;
  let deadline := float_add t timeout in
  iter (fun _ : unit =>
    t ← now;
    if float_ltb t deadline then
      spin callback (float_ratio 1 10) ;;
      b ← condition;
      mret (if b : bool then inr true else inl tt)
    else mret (inr false)) tt.

(** [while time.monotonic() < deadline: rclpy.spin_once(node, timeout_sec=t)] *)
Definition spin_until (callback : M -> prog peer unit) (duration t : pyfloat) : prog peer unit :=
  t0 ← now;
  let deadline := float_add t0 duration in
  iter (fun _ : unit =>
    t1 ← now;
    if float_ltb t1 deadline then spin callback t ;; mret (inl tt) else mret (inr tt)) tt.

End peer.
Arguments peer : clear implicits.

(** * Properties *)

Section rules.
Context {W M C I : Type} `{Rclpy W M C} (left : pyfloat -> W -> nat) (Hticks : ticks left).
Implicit Types s : peer W C I.

(** A state whose clock is not before that of another. *)
Definition later s s' : Prop := forall d, left d (world s') <= left d (world s).

#[export] Instance later_preorder : PreOrder later.
Proof. split; [by intros s d|]. intros s1 s2 s3 H1 H2 d. specialize (H1 d). specialize (H2 d). lia. Qed.

(** A step that keeps an invariant and does not turn the clock back. *)
Definition steady (P : peer W C I -> Prop) (m : prog (peer W C I) unit) : Prop :=
  forall s, P s -> twp m (fun r s' => r = Ok tt /\ P s' /\ later s s') s.

Lemma twp_ask {A} (f : W -> A * W) (Q : res A -> peer W C I -> Prop) s :
  Q (Ok (f (world s)).1) (Peer (f (world s)).2 (inbox s) (log s)) -> twp (ask f) Q s.
Proof. intros HQ. apply twp_act. by destruct (f (world s)). Qed.

Lemma twp_try_ask {A} (f : W -> res A * W) (Q : res A -> peer W C I -> Prop) s :
  Q (f (world s)).1 (Peer (f (world s)).2 (inbox s) (log s)) -> twp (try_ask f) Q s.
Proof. intros HQ. apply twp_try_act. by destruct (f (world s)). Qed.

Lemma twp_query {A} (f : W -> A * W) answer (Q : res A -> peer W C I -> Prop) s :
  Q (Ok (f (world s)).1) (Peer (f (world s)).2 (inbox s) (log s ++ [answer (f (world s)).1])) -> twp (query f answer) Q s.
Proof. intros HQ. apply twp_bind, twp_ask. apply twp_bind, twp_act. by apply twp_ret. Qed.

Lemma twp_try_query {A} (f : W -> res A * W) answer (Q : res A -> peer W C I -> Prop) s :
  match (f (world s)).1 with
  | Ok a => Q (Ok a) (Peer (f (world s)).2 (inbox s) (log s ++ [answer a]))
  | Raise e => Q (Raise e) (Peer (f (world s)).2 (inbox s) (log s))
  end -> twp (try_query f answer) Q s.
Proof.
  intros HQ. apply twp_bind, twp_try_ask. destruct (f (world s)) as [[a|e] w]; cbn in *; [|done].
  apply twp_bind, twp_act. by apply twp_ret.
Qed.

(** The world is the part of the state that an invariant may leave open. *)
Definition worldly (P : peer W C I -> Prop) : Prop :=
  forall s w, P s -> (forall d, left d w <= left d (world s)) -> P (Peer w (inbox s) (log s)).

Lemma twp_spin P callback t (Q : res unit -> peer W C I -> Prop) s :
  worldly P -> (forall x, steady P (callback x)) -> P s ->
  (forall s', P s' -> later s s' -> Q (Ok tt) s') -> twp (spin callback t) Q s.
Proof using Hticks.
  intros HW Hcb HP HQ. apply twp_bind, twp_ask. cbn.
  pose proof (tk_spin left Hticks) as Hs. assert (P (Peer (spin_once t (world s)).2 (inbox s) (log s))) as HP1
    by (apply HW; auto).
  destruct (spin_once t (world s)) as [[x|] w] eqn:E; cbn in *.
  - eapply twp_mono; [by apply Hcb|]. intros r s' (-> & HP' & Hl). apply HQ; [done|]. intros d. specialize (Hl d).
    cbn in Hl. specialize (Hs d t (world s)). rewrite E in Hs. cbn in Hs. lia.
  - apply twp_ret, HQ; [done|]. intros d. specialize (Hs d t (world s)). by rewrite E in Hs.
Qed.

(** Waiting ends: the condition was met, or it was not when the time was over. *)
Lemma twp_wait_until P callback condition timeout (Q : res bool -> peer W C I -> Prop) s :
  passes left timeout -> worldly P -> (forall x, steady P (callback x)) ->
  (forall s, P s -> twp condition (fun r s' =>
     match r with
     | Ok true => Q (Ok true) s'
     | Ok false => P s' /\ later s s'
     | Raise e => Q (Raise e) s'
     end) s) ->
  (forall s, P s -> Q (Ok false) s) ->
  P s -> twp (wait_until callback condition timeout) Q s.
Proof using Hticks.
  intros Hpass HW Hcb Hcond Hfalse HP. unfold wait_until. apply twp_bind, twp_ask. cbn.
  specialize (Hpass (world s)). cbn zeta in Hpass.
  generalize dependent (float_add (monotonic (world s)).1 timeout). intros deadline Hpass.
  apply (twp_iter _ (fun _ => P) (fun _ s => left deadline (world s))).
  2: { apply HW; [done|]. intros d. apply (tk_clock_le left Hticks). }
  clear s HP. intros [] s HP. apply twp_bind, twp_ask. cbn.
  pose proof (Hpass (world s)) as Hlt. pose proof (fun d => tk_clock_le left Hticks d (world s)) as Hle.
  destruct (monotonic (world s)) as [t w]. cbn in Hlt, Hle. cbn [fst snd].
  destruct (float_ltb t deadline); [|by apply twp_ret, Hfalse, HW].
  specialize (Hlt eq_refl). apply twp_bind, (twp_spin P); [done|done|by apply HW|]. intros s1 HP1 Hl1. cbn.
  apply twp_bind. eapply twp_mono; [by apply Hcond|]. intros [[]|e] s2; cbn; [by intros; apply twp_ret| |done].
  intros [HP2 Hl2]. apply twp_ret. split; [done|]. specialize (Hl1 deadline). specialize (Hl2 deadline). cbn in Hl1. lia.
Qed.

Lemma twp_spin_until P callback duration t (Q : res unit -> peer W C I -> Prop) s :
  passes left duration -> worldly P -> (forall x, steady P (callback x)) -> (forall s, P s -> Q (Ok tt) s) -> P s ->
  twp (spin_until callback duration t) Q s.
Proof using Hticks.
  intros Hpass HW Hcb HQ HP. unfold spin_until. apply twp_bind, twp_ask. cbn.
  specialize (Hpass (world s)). cbn zeta in Hpass.
  generalize dependent (float_add (monotonic (world s)).1 duration). intros deadline Hpass.
  apply (twp_iter _ (fun _ => P) (fun _ s => left deadline (world s))).
  2: { apply HW; [done|]. intros d. apply (tk_clock_le left Hticks). }
  clear s HP. intros [] s HP. apply twp_bind, twp_ask. cbn.
  pose proof (Hpass (world s)) as Hlt. pose proof (fun d => tk_clock_le left Hticks d (world s)) as Hle.
  destruct (monotonic (world s)) as [t1 w]. cbn in Hlt, Hle. cbn [fst snd].
  destruct (float_ltb t1 deadline); [|by apply twp_ret, HQ, HW].
  specialize (Hlt eq_refl). apply twp_bind, (twp_spin P); [done|done|by apply HW|]. intros s1 HP1 Hl1. cbn.
  apply twp_ret. split; [done|]. specialize (Hl1 deadline). cbn in Hl1. lia.
Qed.

End rules.
