(* ===== verification/StaticPeer.v ===== *)
(** * The static-control peer

    [samples/static_control/peer.py]: the desktop half of the command/state
    contract.  The peer waits until the device reports that it is disabled, sends
    one command, and waits for the active and then the stale state of that
    command; a fault state fails the run. *)

From Stdlib Require Import Ascii String.
From S2P Require Import Prelude PyStr PyFloat PyObj Clock Prog Rclpy.

Module StaticPeer.

(** ** Messages *)

Definition STATUS_DISABLED : Z := 0.
Definition STATUS_ACTIVE : Z := 1.
Definition STATUS_STALE : Z := 2.
Definition STATUS_FAULT : Z := 3.

Record ControlState := MkControlState {
  position : pyfloat;
  velocity : pyfloat;
  effort : pyfloat;
  command_sequence : Z;
  control_cycles : Z;
  skipped_releases : Z;
  status : Z
}.

Record ControlCommand := MkControlCommand { target : pyfloat; sequence : Z }.

(** [ControlCommand(target=..., sequence=...)]; a [uint32] field refuses other values. *)
Definition new_command (target : pyfloat) (sequence : Z) : res ControlCommand :=
  raise_if (negb ((0 <=? sequence) && (sequence <? 2 ^ 32)))%Z AssertionError ;;
  Ok (MkControlCommand target sequence).

Record args := Args { timeout : pyfloat; a_sequence : Z }.

(** ** The program *)

Section program.
Context {W : Type} `{Rclpy W ControlState ControlCommand} (a : args).

Abbreviation run := (prog (peer W ControlCommand ControlState)).

Definition qos : qos_profile := QoSProfile 10 VOLATILE KEEP_LAST BEST_EFFORT.

(** [any(p(state) for state in states)] *)
Definition any_state (p : ControlState -> bool) : run bool :=
  states ← get_inbox;
  mret (existsb p states).

Definition wait_for (predicate : run bool) (label : string) : run bool :=
  found ← wait_until receive_item predicate (timeout a);
  if found : bool then mret true
  else say ("STATIC_CONTROL_PEER_ERROR waiting_for=" +:+ label) ;; mret false.

Definition is_disabled (s : ControlState) : bool := (status s =? STATUS_DISABLED)%Z.
Definition is_active (s : ControlState) : bool := ((status s =? STATUS_ACTIVE) && (command_sequence s =? a_sequence a))%Z.
Definition is_stale (s : ControlState) : bool := ((status s =? STATUS_STALE) && (command_sequence s =? a_sequence a))%Z.
Definition is_fault (s : ControlState) : bool := (status s =? STATUS_FAULT)%Z.

(** [publisher.get_subscription_count() > 0 and any(...)] *)
Definition discovered : run bool :=
  n ← ask get_subscription_count;
  if (0 <? n)%Z then any_state is_disabled else mret false.

Definition exercise : run Z :=
  b ← wait_for discovered "discovery_and_disabled_state";
  if negb b then mret 1%Z
  else
    say "STATIC_CONTROL_PEER_DISABLED" ;;
    c ← try_act (fun s => (new_command (float_ratio 1 2) (a_sequence a), s));
    send c ;;
    b ← wait_for (any_state is_active) "active_state";
    if negb b then mret 1%Z
    else
      say ("STATIC_CONTROL_PEER_ACTIVE sequence=" +:+ str_of_Z (a_sequence a)) ;;
      b ← wait_for (any_state is_stale) "stale_state";
      if negb b then mret 1%Z
      else
        say ("STATIC_CONTROL_PEER_STALE sequence=" +:+ str_of_Z (a_sequence a)) ;;
        fault ← any_state is_fault;
        if fault : bool then say "STATIC_CONTROL_PEER_ERROR fault_state" ;; mret 1%Z
        else
          states ← get_inbox;
          say ("STATIC_CONTROL_PEER_PASS state_samples=" +:+ str_of_Z (Z.of_nat (length states))) ;;
          mret 0%Z.

Definition main : run Z :=
  call Init ;;
  call (CreateNode "static_control_stock_peer" EmptyString) ;;
  call (CreateSubscription "/static_control/state" qos) ;;
  call (CreatePublisher "/static_control/command" qos) ;;
  try_finally exercise
    (call DestroyPublisher ;; call DestroySubscription ;; call DestroyNode ;; call Shutdown).

End program.

(** ** What a run may show *)

(** How far the device got. *)
Inductive verdict := NoDiscovery | NoActive | NoStale | Faulted | Passed.

Definition code_of (v : verdict) : Z := match v with Passed => 0 | _ => 1 end.

Definition command_of (a : args) : ControlCommand := MkControlCommand (float_ratio 1 2) (a_sequence a).

(** What is done between the creation and the destruction of the node. *)
Definition story (a : args) (v : verdict) (samples : nat) : list (event ControlCommand) :=
  let waiting l := Out ("STATIC_CONTROL_PEER_ERROR waiting_for=" +:+ l) in
  let disabled := [Out "STATIC_CONTROL_PEER_DISABLED"; Published (command_of a)] in
  let active := Out ("STATIC_CONTROL_PEER_ACTIVE sequence=" +:+ str_of_Z (a_sequence a)) in
  let stale := Out ("STATIC_CONTROL_PEER_STALE sequence=" +:+ str_of_Z (a_sequence a)) in
  match v with
  | NoDiscovery => [waiting "discovery_and_disabled_state"]
  | NoActive => disabled ++ [waiting "active_state"]
  | NoStale => disabled ++ [active; waiting "stale_state"]
  | Faulted => disabled ++ [active; stale; Out "STATIC_CONTROL_PEER_ERROR fault_state"]
  | Passed => disabled ++ [active; stale;
      Out ("STATIC_CONTROL_PEER_PASS state_samples=" +:+ str_of_Z (Z.of_nat samples))]
  end.

Definition opening : list (event ControlCommand) :=
  [Called Init; Called (CreateNode "static_control_stock_peer" EmptyString);
   Called (CreateSubscription "/static_control/state" qos); Called (CreatePublisher "/static_control/command" qos)].
Definition closing : list (event ControlCommand) :=
  [Called DestroyPublisher; Called DestroySubscription; Called DestroyNode; Called Shutdown].

(** What was received when a verdict is given. *)
Definition seen (a : args) (v : verdict) (states : list ControlState) : Prop :=
  (v <> NoDiscovery -> Exists (fun s => is_disabled s = true) states) /\
  (v <> NoDiscovery -> v <> NoActive -> Exists (fun s => is_active a s = true) states) /\
  (v = Faulted \/ v = Passed -> Exists (fun s => is_stale a s = true) states) /\
  (v = Faulted -> Exists (fun s => is_fault s = true) states) /\
  (v = Passed -> Forall (fun s => is_fault s = false) states).

(** * Properties *)

Section spec.
Context {W : Type} `{Rclpy W ControlState ControlCommand} (left : pyfloat -> W -> nat) (Hticks : ticks left) (a : args)
  (Hpass : passes left (timeout a)).
Abbreviation state := (peer W ControlCommand ControlState).
Implicit Types s : state.

(** The peer did this, and has received at least that. *)
Definition at_log (l : list (event ControlCommand)) (K : list ControlState -> Prop) s : Prop := log s = l /\ K (inbox s).

(** What stays true when more is received. *)
Definition growing (K : list ControlState -> Prop) : Prop := forall l x, K l -> K (l ++ [x]).

Lemma at_log_worldly l K : worldly left (at_log l K).
Proof. by intros s w [? ?]. Qed.

Lemma receive_steady l K x : growing K -> steady left (at_log l K) (receive_item x).
Proof. intros HK s [Hl Hs]. apply twp_act. split; [done|]. split; [|by intros d]. split; [done|by apply HK]. Qed.

Lemma exists_growing p : growing (fun l => Exists (fun x : ControlState => p x = true) l).
Proof. intros l x Hl. apply Exists_app. by left. Qed.

Lemma growing_and K1 K2 : growing K1 -> growing K2 -> growing (fun l => K1 l /\ K2 l).
Proof. intros H1 H2 l x [? ?]. split; [by apply H1|by apply H2]. Qed.

Lemma existsb_Exists (p : ControlState -> bool) l : existsb p l = true <-> Exists (fun x => p x = true) l.
Proof.
  rewrite List.existsb_exists, Exists_exists. by setoid_rewrite list_elem_of_In.
Qed.

(** Waiting for a state: it was received, or the failure is said. *)
Lemma twp_wait_for l K p label (condition : prog state bool) (Q : res bool -> state -> Prop) s :
  growing K ->
  (forall s, at_log l K s -> twp condition (fun r s' =>
     exists b, r = Ok b /\ at_log l K s' /\ later left s s' /\ (b = true -> Exists (fun x => p x = true) (inbox s'))) s) ->
  at_log l K s ->
  (forall s', at_log l (fun i => K i /\ Exists (fun x => p x = true) i) s' -> Q (Ok true) s') ->
  (forall s', at_log (l ++ [Out ("STATIC_CONTROL_PEER_ERROR waiting_for=" +:+ label)]) K s' -> Q (Ok false) s') ->
  twp (wait_for a condition label) Q s.
Proof using Hticks Hpass.
  intros HK Hc Hs Htrue Hfalse. unfold wait_for. apply twp_bind.
  apply (twp_wait_until left Hticks (at_log l K)); [exact Hpass|apply at_log_worldly|by intros x; apply receive_steady| | |done].
  - intros s1 Hs1. eapply twp_mono; [by apply Hc|]. intros r s2 (b & -> & [Hl2 HK2] & Hlater & Hp). destruct b; [|done].
    cbn. apply twp_ret, Htrue. split; [done|]. auto.
  - intros s1 [Hl1 HK1]. cbn. apply twp_bind, twp_act. cbn. apply twp_ret, Hfalse. split; [by cbn; rewrite Hl1|done].
Qed.

Lemma twp_any_state l K p s :
  at_log l K s -> twp (any_state p) (fun r s' =>
     exists b, r = Ok b /\ at_log l K s' /\ later left s s' /\ (b = true -> Exists (fun x => p x = true) (inbox s'))) s.
Proof.
  intros Hs. apply twp_bind, twp_act. cbn. apply twp_ret. eexists. split; [done|]. split; [done|]. split; [by intros d|].
  apply existsb_Exists.
Qed.

Lemma twp_discovered l K s :
  at_log l K s -> twp discovered (fun r s' =>
     exists b, r = Ok b /\ at_log l K s' /\ later left s s' /\ (b = true -> Exists (fun x => is_disabled x = true) (inbox s'))) s.
Proof using Hticks.
  intros Hs. apply twp_bind, twp_ask. cbn. pose proof (fun d => tk_count left Hticks d (world s)) as Hc.
  destruct (get_subscription_count (world s)) as [n w]. cbn [fst snd] in *. destruct (0 <? n)%Z.
  - eapply twp_mono; [by apply (twp_any_state l K)|]. intros r s' (b & -> & Hs' & Hl & Hb). exists b.
    split; [done|]. split; [done|]. split; [|done]. intros d. specialize (Hl d). specialize (Hc d). cbn in Hl. lia.
  - apply twp_ret. exists false. split; [done|]. split; [done|]. by split.
Qed.

Definition judged_run (l : list (event ControlCommand)) (r : res Z) s : Prop :=
  exists v, r = Ok (code_of v) /\ log s = l ++ story a v (length (inbox s)) /\ seen a v (inbox s).

Lemma new_command_ok t n : (0 <= n < 2 ^ 32)%Z -> new_command t n = Ok (MkControlCommand t n).
Proof. intros Hn. unfold new_command. by rewrite (proj2 (Z.leb_le 0 n)), (proj2 (Z.ltb_lt n (2 ^ 32))) by lia. Qed.

(** The end of an exercise that saw the stale state. *)
Lemma twp_finish l s :
  at_log (l ++ [Out "STATIC_CONTROL_PEER_DISABLED"; Published (command_of a);
                Out ("STATIC_CONTROL_PEER_ACTIVE sequence=" +:+ str_of_Z (a_sequence a));
                Out ("STATIC_CONTROL_PEER_STALE sequence=" +:+ str_of_Z (a_sequence a))])
    (fun i => (Exists (fun x => is_disabled x = true) i /\ Exists (fun x => is_active a x = true) i) /\
              Exists (fun x => is_stale a x = true) i) s ->
  twp (fault ← any_state is_fault;
       if fault : bool then say "STATIC_CONTROL_PEER_ERROR fault_state" ;; mret 1%Z
       else states ← get_inbox;
            say ("STATIC_CONTROL_PEER_PASS state_samples=" +:+ str_of_Z (Z.of_nat (length states))) ;; mret 0%Z)
    (judged_run l) s.
Proof.
  intros [Hl [[Hd Ha] Hs]]. apply twp_bind, twp_bind, twp_act. cbn. apply twp_ret. cbn.
  destruct (existsb is_fault (inbox s)) eqn:Ef.
  - apply existsb_Exists in Ef. apply twp_bind, twp_act. cbn. apply twp_ret. exists Faulted. cbn. rewrite Hl, <- app_assoc.
    split; [done|]. split; [done|]. by repeat split.
  - apply twp_bind, twp_act. cbn. apply twp_bind, twp_act. cbn. apply twp_ret. exists Passed. cbn. rewrite Hl, <- app_assoc.
    split; [done|]. split; [done|]. repeat split; try done. intros _. apply Forall_forall. intros x Hx.
    apply not_true_iff_false. intros Hfx. apply not_true_iff_false in Ef. apply Ef, existsb_Exists, Exists_exists. eauto.
Qed.

Lemma exercise_spec l s :
  (0 <= a_sequence a < 2 ^ 32)%Z -> log s = l -> twp (exercise a) (judged_run l) s.
Proof using Hticks Hpass.
  intros Hseq Hl. apply twp_bind.
  apply (twp_wait_for l (fun _ => True) is_disabled); [done|by intros; apply twp_discovered|done|..].
  2: { intros s' [Hl' _]. cbn. apply twp_ret. exists NoDiscovery. split; [done|]. split; [done|]. repeat split; naive_solver. }
  clear s Hl. intros s [Hl [_ Hd]]. cbn. apply twp_bind, twp_act. cbn. apply twp_bind, twp_try_act.
  cbn [fst snd]. rewrite new_command_ok by done. cbn. apply twp_bind, twp_act. cbn. apply twp_bind.
  apply (twp_wait_for (l ++ [Out "STATIC_CONTROL_PEER_DISABLED"; Published (command_of a)])
    (fun i => Exists (fun x => is_disabled x = true) i) (is_active a));
    [apply exists_growing|by intros; apply twp_any_state|split; [by cbn; rewrite Hl, <- app_assoc|done]|..].
  2: { intros s' [Hl' Hd']. cbn. apply twp_ret. exists NoActive. rewrite Hl', <- app_assoc. split; [done|]. split; [done|].
       repeat split; naive_solver. }
  clear s Hl Hd. intros s [Hl Hda]. cbn. apply twp_bind, twp_act. cbn. apply twp_bind.
  apply (twp_wait_for (l ++ [Out "STATIC_CONTROL_PEER_DISABLED"; Published (command_of a);
      Out ("STATIC_CONTROL_PEER_ACTIVE sequence=" +:+ str_of_Z (a_sequence a))])
    (fun i => Exists (fun x => is_disabled x = true) i /\ Exists (fun x => is_active a x = true) i) (is_stale a));
    [by apply growing_and; apply exists_growing|by intros; apply twp_any_state|split; [by cbn; rewrite Hl, <- app_assoc|done]|..].
  2: { intros s' [Hl' Hd']. cbn. apply twp_ret. exists NoStale. rewrite Hl', <- app_assoc. split; [done|]. split; [done|].
       repeat split; naive_solver. }
  clear s Hl Hda. intros s [Hl Hk]. cbn. apply twp_bind, twp_act. cbn. apply twp_finish. split; [|done]. cbn. by rewrite Hl, <- app_assoc.
Qed.

(** The whole run: it ends, with a verdict, and leaves nothing behind. *)
Lemma static_main_spec w :
  (0 <= a_sequence a < 2 ^ 32)%Z ->
  exists n v s', (forall fuel, n <= fuel -> main a fuel (Peer w [] []) = Some (Ok (code_of v), s')) /\
    log s' = opening ++ story a v (length (inbox s')) ++ closing /\ seen a v (inbox s').
Proof using Hticks Hpass.
  intros Hseq. assert (twp (main a) (fun r s' => exists v, r = Ok (code_of v) /\
    log s' = opening ++ story a v (length (inbox s')) ++ closing /\ seen a v (inbox s')) (Peer w [] []))
    as (n & r & s' & Hrun & v & -> & H1 & H2); [|by exists n, v, s'].
  unfold main. do 4 (apply twp_bind, twp_act; cbn). apply twp_finally.
  eapply twp_mono; [by apply (exercise_spec opening)|]. intros r s (v & -> & Hl & Hseen).
  do 3 (apply twp_bind, twp_act; cbn). apply twp_act. exists v. cbn. split; [done|]. split; [|done].
  by rewrite Hl, <- !app_assoc.
Qed.

End spec.

End StaticPeer.
