(* ===== verification/WifiPeer.v ===== *)
(** * The Wi-Fi peer: topics

    The publisher, the subscriber and the outbound graph roles of
    [samples/wifi/peer.py], the desktop half of the Wi-Fi acceptance test. *)

From Stdlib Require Import Ascii String.
From S2P Require Import Prelude PyStr PyFloat PyObj Clock Prog Rclpy.

Module WifiPeer.

(** ** Constants *)

Definition EXPECTED_SAMPLES : nat := 18.
Definition MAX_RECOVERY_SAMPLES : Z := 10.
Definition DESKTOP_TO_DEVICE_VALUE : Z := 314159265.
Definition DEVICE_TO_DESKTOP_VALUE : Z := 271828182.
Definition RATE_CASES : list (Z * nat) := [(1%Z, 3); (10%Z, 5); (100%Z, 10)].
Definition TRANSIENT_HISTORY_LAST_VALUE : Z := 5.
Definition TRANSIENT_LIVE_VALUE : Z := 6.
Definition DEVICE_NODE : string * string := ("ros2_zephyr_esp32s3", "/").
Definition GRAPH_LOCAL_TOPIC : string := "/ros2_zephyr/graph_local".
Definition GRAPH_REMOTE_A : string := "/ros2_zephyr/graph_remote_a".
Definition GRAPH_REMOTE_B : string := "/ros2_zephyr/graph_remote_b".
Definition GRAPH_HOLD_SECONDS : pyfloat := float_int 12.
Definition GRAPH_LOSS_HOLD_SECONDS : pyfloat := float_int 20.

Definition endpoint_qos (reliability durability : string) (depth : Z) : qos_profile :=
  QoSProfile depth (if bool_decide (durability = "transient_local") then TRANSIENT_LOCAL else VOLATILE) KEEP_LAST
    (if bool_decide (reliability = "reliable") then RELIABLE else BEST_EFFORT).

(** [range(lo, hi)] *)
Definition zrange (lo hi : Z) : list Z := (fun i => lo + Z.of_nat i)%Z <$> seq 0 (Z.to_nat (hi - lo)).

Section program.
Context {W : Type} `{Rclpy W Z Z}.

(** What is received is kept with the time it came. *)
Abbreviation item := (pyfloat * Z)%type.
Abbreviation run := (prog (peer W Z item)).

(** Without a subscription no callback of the peer is executed. *)
Definition no_callback (_ : Z) : run unit := mret tt.

(** ** Waiting *)

Definition wait_for_subscriber (timeout : pyfloat) : run bool :=
  wait_until no_callback (n ← query get_subscription_count Counted; mret (0 <? n)%Z) timeout.

Definition wait_for_publisher (topic : string) (timeout : pyfloat) : run bool :=
  wait_until no_callback
    (l ← query (get_publishers_info_by_topic topic) Informed; mret (match l with [] => false | _ => true end)) timeout.

Definition wait_for_condition (condition : run bool) (timeout : pyfloat) : run bool :=
  wait_until no_callback condition timeout.

(** ** The outbound graph *)

Definition device_node_visible : run bool :=
  l ← query get_node_names_and_namespaces Nodes;
  mret (bool_decide (DEVICE_NODE ∈ l)).

Definition has_local_topic (l : list (string * list string)) : bool :=
  existsb (fun nt => bool_decide (nt.1 = GRAPH_LOCAL_TOPIC)) l.

Definition device_topic_state : run (option (bool * bool)) :=
  visible ← device_node_visible;
  if negb visible then mret None
  else
    publishers ← try_query (get_publisher_names_and_types_by_node DEVICE_NODE) PublishersOf;
    subscribers ← try_query (get_subscriber_names_and_types_by_node DEVICE_NODE) SubscribersOf;
    mret (Some (has_local_topic publishers, has_local_topic subscribers)).

Definition py_bool (b : bool) : string := if b then "True" else "False".

(** The text of the value in an f-string. *)
Definition show_topic_state (x : option (bool * bool)) : string :=
  match x with None => "None" | Some (p, s) => "(" +:+ py_bool p +:+ ", " +:+ py_bool s +:+ ")" end.

Definition outbound_phases : list (string * (bool * bool)) :=
  [("pubsub", (true, true)); ("subscription_only", (false, true)); ("node_only", (false, false))].

Definition outbound_pass (phase : string) (cycle : Z) : string :=
  "ROS2_ZEPHYR_PEER_GRAPH_PASS direction=outbound phase=" +:+ phase +:+ " cycle=" +:+ str_of_Z cycle.

(** The phases in order; [false] is a phase that was not observed in time. *)
Fixpoint observe_phases (timeout : pyfloat) (cycle : Z) (phases : list (string * (bool * bool))) : run bool :=
  match phases with
  | [] => mret true
  | (phase, expected) :: phases =>
      found ← wait_for_condition (x ← device_topic_state; mret (bool_decide (x = Some expected))) timeout;
      if negb found then
        observed ← device_topic_state;
        complain ("ROS2_ZEPHYR_PEER_ERROR role=graph-outbound phase=" +:+ phase +:+
                  " observed=" +:+ show_topic_state observed) ;;
        mret false
      else
        say (outbound_pass phase cycle) ;;
        observe_phases timeout cycle phases
  end.

Definition run_graph_outbound (timeout : pyfloat) (cycle : Z) : run Z :=
  ok ← observe_phases timeout cycle outbound_phases;
  if negb ok then mret 1%Z
  else
    gone ← wait_for_condition (v ← device_node_visible; mret (negb v)) timeout;
    if negb gone then
      complain "ROS2_ZEPHYR_PEER_ERROR role=graph-outbound phase=node_cleanup" ;; mret 1%Z
    else say (outbound_pass "node_cleanup" cycle) ;; mret 0%Z.

(** ** The publisher *)

Definition publish_history (depth : Z) : run unit :=
  for_each (zrange 1 (TRANSIENT_HISTORY_LAST_VALUE + 1)) (fun value =>
    send value ;;
    spin no_callback (float_ratio 2 100) ;;
    say ("ROS2_ZEPHYR_PEER_SENT phase=history value=" +:+ str_of_Z value)) ;;
  say ("ROS2_ZEPHYR_PEER_HISTORY_READY role=pub depth=" +:+ str_of_Z depth +:+
       " history_last=" +:+ str_of_Z TRANSIENT_HISTORY_LAST_VALUE).

(** One sample of a rate case; [sent] counts them all. *)
Definition publish_sample (rate_hz : Z) (sent : Z) (sequence : Z) : run Z :=
  send DESKTOP_TO_DEVICE_VALUE ;;
  say ("ROS2_ZEPHYR_PEER_SENT value=" +:+ str_of_Z DESKTOP_TO_DEVICE_VALUE +:+ " rate_hz=" +:+ str_of_Z rate_hz +:+
       " sequence=" +:+ str_of_Z sequence) ;;
  spin no_callback (float_div (float_int 1) (float_int rate_hz)) ;;
  mret (sent + 1)%Z.

Fixpoint publish_samples (rate_hz sent : Z) (sequences : list Z) : run Z :=
  match sequences with
  | [] => mret sent
  | x :: l => sent ← publish_sample rate_hz sent x; publish_samples rate_hz sent l
  end.

Fixpoint publish_rates (sent : Z) (cases : list (Z * nat)) : run Z :=
  match cases with
  | [] => mret sent
  | (rate_hz, sample_count) :: cases =>
      sent ← publish_samples rate_hz sent (zrange 1 (Z.of_nat sample_count + 1));
      publish_rates sent cases
  end.

(** The live sample after the history, or the rate cases. *)
Definition publish_live (durability : string) : run Z :=
  if bool_decide (durability = "transient_local") then
    spin_until no_callback (float_ratio 5 10) (float_ratio 5 100) ;;
    send TRANSIENT_LIVE_VALUE ;;
    say ("ROS2_ZEPHYR_PEER_SENT phase=live value=" +:+ str_of_Z TRANSIENT_LIVE_VALUE) ;;
    mret (TRANSIENT_HISTORY_LAST_VALUE + 1)%Z
  else publish_rates 0 RATE_CASES.

(** [durability == "volatile" and reliability == "best_effort"] *)
Definition recovers (reliability durability : string) : bool :=
  bool_decide (durability = "volatile") && bool_decide (reliability = "best_effort").

(** The completion loop: it counts the recovery samples. *)
Definition await_completion (reliability durability : string) : run Z :=
  t ← now;
  let completion_deadline := float_add t (float_int 10) in
  iter (fun recovery_samples =>
    n ← query get_subscription_count Counted;
    if negb (0 <? n)%Z then mret (inr recovery_samples)
    else
      t ← now;
      if negb (float_ltb t completion_deadline) then mret (inr recovery_samples)
      else
        recovery_samples ←
          (if recovers reliability durability && (recovery_samples <? MAX_RECOVERY_SAMPLES)%Z
           then send DESKTOP_TO_DEVICE_VALUE ;; mret (recovery_samples + 1)%Z
           else mret recovery_samples);
        spin no_callback (float_ratio 1 10) ;;
        mret (inl recovery_samples)) 0%Z.

Definition publisher_pass (reliability durability : string) (depth sent recovery_samples : Z) : string :=
  "ROS2_ZEPHYR_PEER_PASS role=pub reliability=" +:+ reliability +:+ " durability=" +:+ durability +:+ " depth=" +:+
  str_of_Z depth +:+ " scheduled=" +:+ str_of_Z sent +:+ " recovery=" +:+ str_of_Z recovery_samples.

Definition publisher_stuck (sent recovery_samples : Z) : string :=
  "ROS2_ZEPHYR_PEER_ERROR role=pub reason=device_did_not_complete scheduled=" +:+ str_of_Z sent +:+
  " recovery=" +:+ str_of_Z recovery_samples.

(** After the match: publish, and see the device complete. *)
Definition publish_matched (reliability durability : string) (depth : Z) (skip_match : bool) : run Z :=
  sent ← publish_live durability;
  if skip_match then
    spin_until no_callback (float_int 2) (float_ratio 1 10) ;;
    say (publisher_pass reliability durability depth sent 0) ;;
    mret 0%Z
  else
    recovery_samples ← await_completion reliability durability;
    n ← query get_subscription_count Counted;
    if (0 <? n)%Z then complain (publisher_stuck sent recovery_samples) ;; mret 1%Z
    else say (publisher_pass reliability durability depth sent recovery_samples) ;; mret 0%Z.

Definition run_publisher (timeout : pyfloat) (reliability durability : string) (depth : Z) (skip_match : bool) : run Z :=
  call (CreatePublisher "/ros2_zephyr/desktop_to_device" (endpoint_qos reliability durability depth)) ;;
  (if bool_decide (durability = "transient_local") then publish_history depth else mret tt) ;;
  started ← now;
  matched ← (if skip_match then mret true else wait_for_subscriber timeout);
  if negb matched then
    complain "ROS2_ZEPHYR_PEER_ERROR role=pub reason=match_timeout" ;; mret 1%Z
  else
    (if skip_match then say "ROS2_ZEPHYR_PEER_MATCH role=pub discovery_ms=unavailable"
     else t ← now;
          say ("ROS2_ZEPHYR_PEER_MATCH role=pub discovery_ms=" +:+
               format_fixed3 (float_mul (float_sub t started) (float_int 1000)))) ;;
    publish_matched reliability durability depth skip_match.

(** ** The subscriber *)

Definition device_topic : string := "/ros2_zephyr/device_to_desktop".

Definition receive (message : Z) : run unit :=
  t ← now;
  receive_item (t, message) ;;
  l ← get_inbox;
  say ("ROS2_ZEPHYR_PEER_RECEIVED value=" +:+ str_of_Z message +:+ " sequence=" +:+ str_of_Z (Z.of_nat (length l))).

Definition expected_of (durability : string) (depth : Z) : list Z :=
  if bool_decide (durability = "transient_local") then
    let retained := Z.min depth TRANSIENT_HISTORY_LAST_VALUE in
    zrange (TRANSIENT_LIVE_VALUE - retained) (TRANSIENT_LIVE_VALUE + 1)
  else replicate EXPECTED_SAMPLES DEVICE_TO_DESKTOP_VALUE.

(** [f"{l}"] for a list of integers *)
Definition show_list (l : list Z) : string := "[" +:+ str_join ", " (str_of_Z <$> l) +:+ "]".

Definition arrival_intervals (at_ : list pyfloat) : string :=
  str_join "," (format_fixed3 <$>
    zip_with (fun previous current => float_mul (float_sub current previous) (float_int 1000)) at_ (tail at_)).

Definition subscriber_pass (reliability durability : string) (depth : Z) (l : list item) : string :=
  "ROS2_ZEPHYR_PEER_PASS role=sub reliability=" +:+ reliability +:+ " durability=" +:+ durability +:+ " depth=" +:+
  str_of_Z depth +:+ " samples=" +:+ str_of_Z (Z.of_nat (length l)) +:+ " values=" +:+ show_list l.*2 +:+
  " arrival_intervals_ms=" +:+ arrival_intervals l.*1.

(** [while len(received_at) < len(expected_values) and time.monotonic() < deadline] *)
Definition collect (expected : list Z) (timeout : pyfloat) : run unit :=
  t ← now;
  let deadline := float_add t timeout in
  iter (fun _ : unit =>
    l ← get_inbox;
    if negb (length l <? length expected) then mret (inr tt)
    else
      t ← now;
      if negb (float_ltb t deadline) then mret (inr tt)
      else spin receive (float_ratio 1 10) ;; mret (inl tt)) tt.

(** From the subscription on. *)
Definition subscribe (timeout : pyfloat) (reliability durability : string) (depth : Z) : run Z :=
  call (CreateSubscription device_topic (endpoint_qos reliability durability depth)) ;;
  let expected_values := expected_of durability depth in
  collect expected_values timeout ;;
  call DestroySubscription ;;
  l ← get_inbox;
  if negb (bool_decide (l.*2 = expected_values)) then
    complain ("ROS2_ZEPHYR_PEER_ERROR role=sub expected=" +:+ show_list expected_values +:+ " received=" +:+
              show_list l.*2) ;;
    mret 1%Z
  else say (subscriber_pass reliability durability depth l) ;; mret 0%Z.

Definition run_subscriber (timeout : pyfloat) (reliability durability : string) (depth : Z) : run Z :=
  if bool_decide (durability = "transient_local") then
    found ← wait_for_publisher device_topic timeout;
    if negb found then
      complain "ROS2_ZEPHYR_PEER_ERROR role=sub reason=publisher_discovery_timeout" ;; mret 1%Z
    else
      say "ROS2_ZEPHYR_PEER_PUBLISHER_READY role=sub" ;;
      spin_until no_callback (float_ratio 5 10) (float_ratio 5 100) ;;
      subscribe timeout reliability durability depth
  else subscribe timeout reliability durability depth.

End program.

End WifiPeer.
