(* ===== verification/WifiSpec.v ===== *)
(** * What the Wi-Fi peer does

    The publisher starts when the device subscribes, publishes its samples in order
    and a recovery sample for each turn of its last wait, at most ten, and passes
    exactly when the device is gone at the end; the subscriber passes exactly when it
    received what it expects; both end. *)

From Stdlib Require Import Ascii String.
From S2P Require Import Prelude PyStr PyFloat PyObj Clock Prog Rclpy WifiPeer.

Module WifiSpec.
Import WifiPeer.

(** What was published, and what the queries for subscriptions and for publishers
    answered. *)
Definition published {C} (l : list (event C)) : list C :=
  omap (fun e => match e with Published c => Some c | _ => None end) l.
Definition counted {C} (l : list (event C)) : list Z :=
  omap (fun e => match e with Counted n => Some n | _ => None end) l.
Definition informed {C} (l : list (event C)) : list (list string) :=
  omap (fun e => match e with Informed x => Some x | _ => None end) l.

Definition history_of (durability : string) : list Z :=
  if bool_decide (durability = "transient_local") then [1; 2; 3; 4; 5]%Z else [].
Definition live_of (durability : string) : list Z :=
  if bool_decide (durability = "transient_local") then [6]%Z else replicate 18 DESKTOP_TO_DEVICE_VALUE.
Definition scheduled_of (durability : string) : Z :=
  if bool_decide (durability = "transient_local") then 6 else 18.

(** ** Waits *)

(** A wait looks again and again: [look] says what a look logs and finds. *)
Section waits.
Context {A : Type} (look : list (event Z) -> A -> Prop) (P : A -> Prop).

(** Looks that did not find [P]. *)
Inductive unmatched : list (event Z) -> Prop :=
  | unmatched_nil : unmatched []
  | unmatched_snoc l x a : unmatched l -> look x a -> ~ P a -> unmatched (l ++ x).

(** Whether [P] was found, at the last look. *)
Inductive waited : bool -> list (event Z) -> Prop :=
  | waited_over l : unmatched l -> waited false l
  | waited_found l x a : unmatched l -> look x a -> P a -> waited true (l ++ x).

End waits.

Definition count_look (x : list (event Z)) (n : Z) : Prop := x = [Counted n].
Definition info_look (x : list (event Z)) (l : list string) : Prop := x = [Informed l].

Lemma published_app {C} (l k : list (event C)) : published (l ++ k) = published l ++ published k.
Proof. apply omap_app. Qed.
Lemma counted_app {C} (l k : list (event C)) : counted (l ++ k) = counted l ++ counted k.
Proof. apply omap_app. Qed.
Lemma informed_app {C} (l k : list (event C)) : informed (l ++ k) = informed l ++ informed k.
Proof. apply omap_app. Qed.

Lemma unmatched_counts P x :
  unmatched count_look P x -> published x = [] /\ Forall (fun n => ~ P n) (counted x).
Proof.
  induction 1 as [|l x n _ [IH1 IH2] -> Hn]; [done|]. rewrite published_app, counted_app, IH1. split; [done|].
  apply Forall_app. by repeat constructor.
Qed.

Lemma unmatched_infos P x : unmatched info_look P x -> Forall (fun l => ~ P l) (informed x).
Proof.
  induction 1 as [|l x n _ IH -> Hn]; [constructor|]. rewrite informed_app. apply Forall_app. by repeat constructor.
Qed.

Section spec.
Context {W : Type} `{Rclpy W Z Z} (left : pyfloat -> W -> nat) (Hticks : ticks left).
Abbreviation state := (peer W Z (pyfloat * Z)).
Implicit Types s : state.

Lemma no_callback_steady P x : steady left P (no_callback x).
Proof. intros s HP. apply twp_ret. split; [done|]. split; [done|]. by intros d. Qed.

(** A condition that looks once, and whether it found [P]; [cut] is what a look that
    raises has logged. *)
Definition judges {A} (look : list (event Z) -> A -> Prop) (P : A -> Prop) (cut : list (event Z) -> Prop)
    (condition : prog state bool) : Prop :=
  forall s, twp condition (fun r s' => inbox s' = inbox s /\ later left s s' /\ exists x, log s' = log s ++ x /\
    match r with Ok b => exists a, look x a /\ (b = true <-> P a) | Raise _ => cut x end) s.

Lemma wait_spec {A} (look : list (event Z) -> A -> Prop) P cut condition timeout s :
  passes left timeout -> judges look P cut condition ->
  twp (wait_until no_callback condition timeout) (fun r s' => inbox s' = inbox s /\ exists x, log s' = log s ++ x /\
    match r with
    | Ok b => waited look P b x
    | Raise _ => exists l y, x = l ++ y /\ unmatched look P l /\ cut y
    end) s.
Proof using Hticks.
  intros Hpass Hc.
  apply (twp_wait_until left Hticks (fun s' => inbox s' = inbox s /\ exists x, log s' = log s ++ x /\ unmatched look P x));
    [done|by intros s1 w|intros; apply no_callback_steady| | |].
  - intros s1 (Hi1 & x & Hl1 & Hx). eapply twp_mono; [apply Hc|]. intros r s2 (Hi2 & Hlater & y & Hl2 & Hy).
    rewrite Hl1, <- app_assoc in Hl2. rewrite Hi1 in Hi2. destruct r as [[]|e].
    + destruct Hy as (a & Ha & Hb). split; [done|]. exists (x ++ y). split; [done|]. eapply waited_found; [done|done|by apply Hb].
    + destruct Hy as (a & Ha & Hb). split; [|done]. split; [done|]. exists (x ++ y). split; [done|].
      eapply unmatched_snoc; [done|done|]. by intros Hp%Hb.
    + split; [done|]. exists (x ++ y). split; [done|]. by exists x, y.
  - intros s1 (Hi1 & x & Hl1 & Hx). split; [done|]. exists x. split; [done|by constructor].
  - split; [done|]. exists []. rewrite app_nil_r. split; [done|constructor].
Qed.

(** A query that never raises, and a test of its answer. *)
Lemma query_judges {A} (f : W -> A * W) answer (test : A -> bool) P :
  (forall d w, left d (f w).2 <= left d w) -> (forall a, test a = true <-> P a) ->
  judges (fun x a => x = [answer a]) P (fun _ => False) (a ← query f answer; mret (test a)).
Proof.
  intros Hf HP s. apply twp_bind, twp_query. cbn. apply twp_ret. split; [done|]. split; [intros d; apply Hf|].
  eexists. split; [done|]. by eexists.
Qed.

(** ** The publisher *)

(** What was sent, and the subscriptions that were counted. *)
Definition tally (sent counts : list Z) s : Prop := published (log s) = sent /\ counted (log s) = counts.

Lemma tally_worldly l c : worldly left (tally l c).
Proof. by intros s w. Qed.

Definition plain (e : event Z) : Prop := match e with Published _ | Counted _ => False | _ => True end.

Lemma tally_note l c e w i s : plain e -> tally l c s -> tally l c (Peer w i (log s ++ [e])).
Proof.
  intros He [Hp Hc]. split; cbn [log]; rewrite ?published_app, ?counted_app, ?Hp, ?Hc; destruct e; done || apply app_nil_r.
Qed.

Lemma tally_send l c x w i s : tally l c s -> tally (l ++ [x]) c (Peer w i (log s ++ [Published x])).
Proof. intros [Hp Hc]. split; cbn [log]; [by rewrite published_app, Hp|by rewrite counted_app, Hc, app_nil_r]. Qed.

Lemma tally_count l c n w i s : tally l c s -> tally l (c ++ [n]) (Peer w i (log s ++ [Counted n])).
Proof. intros [Hp Hc]. split; cbn [log]; [by rewrite published_app, Hp, app_nil_r|by rewrite counted_app, Hc]. Qed.

Lemma twp_quiet_spin l c t (Q : res unit -> state -> Prop) s :
  tally l c s -> (forall s', tally l c s' -> later left s s' -> Q (Ok tt) s') -> twp (spin no_callback t) Q s.
Proof using Hticks.
  intros Hs HQ. apply (twp_spin left Hticks (tally l c)); [apply tally_worldly|intros; apply no_callback_steady|done|done].
Qed.

Lemma twp_quiet_wait l c t t' (Q : res unit -> state -> Prop) s :
  t ∈ own_waits -> tally l c s -> (forall s', tally l c s' -> Q (Ok tt) s') -> twp (spin_until no_callback t t') Q s.
Proof using Hticks.
  intros Ht Hs HQ. apply (twp_spin_until left Hticks (tally l c));
    [by apply (tk_own left Hticks)|apply tally_worldly|intros; apply no_callback_steady|done|done].
Qed.

Lemma publish_history_spec depth s :
  tally [] [] s -> twp (publish_history depth) (fun r s' => r = Ok tt /\ tally [1; 2; 3; 4; 5]%Z [] s') s.
Proof using Hticks.
  intros Hs. unfold publish_history. apply twp_bind.
  apply (twp_for_each (fun done s => tally done [] s) _ _ _ []); [|..|done].
  - clear s Hs. intros done x s Hs _. apply twp_bind, twp_act. cbn. apply twp_bind, (twp_quiet_spin (done ++ [x]) []).
    { by apply tally_send. }
    intros s' Hs' _. cbn. apply twp_act. by apply tally_note.
  - intros s' Hs'. cbn. apply twp_act. split; [done|]. by apply tally_note.
Qed.

Lemma publish_samples_spec rate base c sequences n s :
  tally base c s -> twp (publish_samples rate n sequences) (fun r s' =>
    r = Ok (n + Z.of_nat (length sequences))%Z /\
    tally (base ++ replicate (length sequences) DESKTOP_TO_DEVICE_VALUE) c s') s.
Proof using Hticks.
  revert base n s. induction sequences as [|x l IH]; intros base n s Hs; cbn [publish_samples length].
  { apply twp_ret. split; [by rewrite Z.add_0_r|]. by rewrite app_nil_r. }
  apply twp_bind, twp_bind, twp_act. cbn. apply twp_bind, twp_act. cbn.
  apply twp_bind, (twp_quiet_spin (base ++ [DESKTOP_TO_DEVICE_VALUE]) c).
  { apply (tally_note _ _ (Out _) _ _ (Peer (world s) (inbox s) _)); [done|]. by apply tally_send. }
  intros s' Hs' _. cbn. apply twp_ret. cbn. eapply twp_mono; [by apply IH|]. intros r s'' [-> Hs''].
  split; [f_equal; lia|]. by rewrite <- app_assoc in Hs''.
Qed.

Definition sample_total (cases : list (Z * nat)) : nat := sum_list (cases.*2).

Lemma publish_rates_spec base c cases n s :
  tally base c s -> twp (publish_rates n cases) (fun r s' =>
    r = Ok (n + Z.of_nat (sample_total cases))%Z /\
    tally (base ++ replicate (sample_total cases) DESKTOP_TO_DEVICE_VALUE) c s') s.
Proof using Hticks.
  revert base n s. induction cases as [|[rate k] cases IH]; intros base n s Hs; cbn [publish_rates].
  { apply twp_ret. split; [cbn; f_equal; lia|]. by rewrite app_nil_r. }
  apply twp_bind. eapply twp_mono; [by apply publish_samples_spec|]. intros r s1 [-> H1]. cbn.
  assert (length (zrange 1 (Z.of_nat k + 1)) = k) as Hk by (unfold zrange; rewrite length_fmap, length_seq; lia).
  rewrite Hk in *. eapply twp_mono; [by apply IH|]. intros r s2 [-> H2]. split.
  - f_equal. unfold sample_total. cbn. lia.
  - unfold sample_total in *. cbn. by rewrite replicate_add, app_assoc.
Qed.

Lemma publish_live_spec durability base c s :
  tally base c s -> twp (publish_live durability) (fun r s' =>
    r = Ok (scheduled_of durability) /\ tally (base ++ live_of durability) c s') s.
Proof using Hticks.
  intros Hs. unfold publish_live, scheduled_of, live_of. case_bool_decide; [|by apply publish_rates_spec].
  apply twp_bind, (twp_quiet_wait base c); [unfold own_waits; set_solver|done|].
  intros s' Hs'. cbn. apply twp_bind, twp_act. cbn. apply twp_bind, twp_act. cbn. apply twp_ret. split; [done|].
  apply (tally_note _ _ (Out _) _ _ (Peer (world s') (inbox s') _)); [done|]. by apply tally_send.
Qed.

(** The recovery samples: one for each turn, at most ten, and only for the profile
    that needs them. *)
Definition recovery_of (reliability durability : string) (turns : nat) : nat :=
  if decide (durability = "volatile" /\ reliability = "best_effort") then Nat.min 10 turns else 0.

Lemma recovers_decide reliability durability :
  recovers reliability durability = bool_decide (durability = "volatile" /\ reliability = "best_effort").
Proof. unfold recovers. repeat case_bool_decide; naive_solver. Qed.

Lemma recovery_step reliability durability turns :
  let k := recovery_of reliability durability turns in
  recovery_of reliability durability (S turns) =
  if recovers reliability durability && (Z.of_nat k <? MAX_RECOVERY_SAMPLES)%Z then S k else k.
Proof.
  cbn zeta. rewrite recovers_decide. unfold recovery_of, MAX_RECOVERY_SAMPLES. case_decide as Hd.
  - rewrite bool_decide_true by done. cbn [andb]. destruct (Z.ltb_spec (Z.of_nat (Nat.min 10 turns)) 10); lia.
  - by rewrite bool_decide_false.
Qed.

Lemma await_completion_spec reliability durability base c s :
  tally base c s -> twp (await_completion reliability durability) (fun r s' =>
    exists turns final, let k := recovery_of reliability durability (length turns) in
      r = Ok (Z.of_nat k) /\ Forall (fun n => 0 < n)%Z turns /\
      tally (base ++ replicate k DESKTOP_TO_DEVICE_VALUE) (c ++ turns ++ [final]) s') s.
Proof using Hticks.
  intros Hs. unfold await_completion. apply twp_bind, twp_ask. cbn.
  assert (passes left (float_int 10)) as Hpass by (apply (tk_own left Hticks); unfold own_waits; set_solver).
  specialize (Hpass (world s)). cbn zeta in Hpass.
  generalize dependent (float_add (monotonic (world s)).1 (float_int 10)). intros deadline Hpass.
  apply (twp_iter _ (fun n s => exists turns, let k := recovery_of reliability durability (length turns) in
      n = Z.of_nat k /\ Forall (fun n => 0 < n)%Z turns /\
      tally (base ++ replicate k DESKTOP_TO_DEVICE_VALUE) (c ++ turns) s) (fun _ s => left deadline (world s))).
  2: { exists []. assert (recovery_of reliability durability (length (@nil Z)) = 0) as -> by (unfold recovery_of; by case_decide).
       split; [done|]. split; [constructor|]. by rewrite !app_nil_r. }
  clear s Hs. intros n s (turns & -> & Ht & Hs). pose proof (recovery_step reliability durability (length turns)) as Hk.
  cbn zeta in *. set (k := recovery_of reliability durability (length turns)) in *. apply twp_bind, twp_query. cbn [andthen].
  pose proof (tk_count left Hticks deadline (world s)) as Hc.
  destruct (get_subscription_count (world s)) as [m w1]. cbn [fst snd] in *.
  apply (tally_count _ _ m w1 (inbox s)) in Hs. rewrite <- app_assoc in Hs.
  destruct (Z.ltb_spec 0 m) as [Hm|_]; cbn [negb]; [|apply twp_ret; by exists turns, m].
  apply twp_bind, twp_ask. cbn. pose proof (Hpass w1) as Hlt.
  destruct (monotonic w1) as [t w2]. cbn [fst snd] in *.
  destruct (float_ltb t deadline); cbn [negb]; [|apply twp_ret; by exists turns, m]. specialize (Hlt eq_refl).
  assert (Forall (fun n => 0 < n)%Z (turns ++ [m])) as Ht' by (apply Forall_app; by repeat constructor).
  assert (length (turns ++ [m]) = S (length turns)) as El by (rewrite length_app; cbn; lia).
  apply twp_bind. destruct (recovers reliability durability && (Z.of_nat k <? MAX_RECOVERY_SAMPLES)%Z).
  - apply twp_bind, twp_act. cbn. apply twp_ret. cbn.
    apply twp_bind, (twp_quiet_spin (base ++ replicate (S k) DESKTOP_TO_DEVICE_VALUE) (c ++ turns ++ [m])).
    { rewrite <- Nat.add_1_r, replicate_add, app_assoc. by apply (tally_send _ _ _ _ _ (Peer w2 (inbox s) _)). }
    intros s' Hs' Hlater. cbn. apply twp_ret. split.
    + exists (turns ++ [m]). rewrite El, Hk. split; [lia|]. by split.
    + specialize (Hlater deadline). cbn in Hlater. pose proof (tk_publish left Hticks deadline DESKTOP_TO_DEVICE_VALUE w2). lia.
  - apply twp_ret. cbn. apply twp_bind, (twp_quiet_spin (base ++ replicate k DESKTOP_TO_DEVICE_VALUE) (c ++ turns ++ [m])); [done|].
    intros s' Hs' Hlater. cbn. apply twp_ret. split; [exists (turns ++ [m]); by rewrite El, Hk|].
    specialize (Hlater deadline). cbn in Hlater. lia.
Qed.

(** How a publisher may end.  It found no subscription until its time was over; or it
    was told not to look; or it found one, took turns while there was one, sent a
    recovery sample for each that its profile allows, and passed exactly when none
    was left at the end. *)
Inductive publisher_ends (reliability durability : string) (depth : Z) (skip_match : bool) : res Z -> state -> Prop :=
  | publisher_unmatched s :
      skip_match = false -> tally (history_of durability) (counted (log s)) s -> Forall (fun n => n <= 0)%Z (counted (log s)) ->
      last (log s) = Some (Err "ROS2_ZEPHYR_PEER_ERROR role=pub reason=match_timeout") ->
      publisher_ends reliability durability depth skip_match (Ok 1%Z) s
  | publisher_blind s :
      skip_match = true -> tally (history_of durability ++ live_of durability) [] s ->
      last (log s) = Some (Out (publisher_pass reliability durability depth (scheduled_of durability) 0)) ->
      publisher_ends reliability durability depth skip_match (Ok 0%Z) s
  | publisher_matched s before n turns final m :
      let k := recovery_of reliability durability (length turns) in
      skip_match = false ->
      tally (history_of durability ++ live_of durability ++ replicate k DESKTOP_TO_DEVICE_VALUE)
        (before ++ n :: turns ++ [final; m]) s ->
      Forall (fun n => n <= 0)%Z before -> (0 < n)%Z -> Forall (fun n => 0 < n)%Z turns ->
      last (log s) = Some (if (m <=? 0)%Z
        then Out (publisher_pass reliability durability depth (scheduled_of durability) (Z.of_nat k))
        else Err (publisher_stuck (scheduled_of durability) (Z.of_nat k))) ->
      publisher_ends reliability durability depth skip_match (Ok (if (m <=? 0)%Z then 0 else 1)%Z) s.

Lemma publish_blind_spec reliability durability depth s :
  tally (history_of durability) [] s ->
  twp (publish_matched reliability durability depth true) (publisher_ends reliability durability depth true) s.
Proof using Hticks.
  intros Hs. apply twp_bind. eapply twp_mono; [by apply publish_live_spec|]. intros r s1 [-> H1]. cbn.
  apply twp_bind, (twp_quiet_wait (history_of durability ++ live_of durability) []); [unfold own_waits; set_solver|done|].
  intros s2 H2. cbn. apply twp_bind, twp_act. cbn. apply twp_ret. apply publisher_blind; [done|by apply tally_note|].
  cbn [log]. by rewrite last_snoc.
Qed.

Lemma publish_matched_spec reliability durability depth before n s :
  tally (history_of durability) (before ++ [n]) s -> Forall (fun n => n <= 0)%Z before -> (0 < n)%Z ->
  twp (publish_matched reliability durability depth false) (publisher_ends reliability durability depth false) s.
Proof using Hticks.
  intros Hs Hb Hn. apply twp_bind. eapply twp_mono; [by apply publish_live_spec|]. intros r s1 [-> H1]. cbn [andthen].
  apply twp_bind. eapply twp_mono; [by apply await_completion_spec|]. intros r s2 (turns & final & -> & Ht & H2). cbn [andthen].
  rewrite <- !app_assoc in H2. apply twp_bind, twp_query. cbn [andthen].
  destruct (get_subscription_count (world s2)) as [m w]. cbn [fst snd].
  apply (tally_count _ _ m w (inbox s2)) in H2. rewrite <- !app_assoc in H2. cbn [app] in H2.
  replace (if (0 <? m)%Z then _ else _) with (if (m <=? 0)%Z
    then say (publisher_pass reliability durability depth (scheduled_of durability)
           (Z.of_nat (recovery_of reliability durability (length turns)))) ;; mret 0%Z
    else complain (publisher_stuck (scheduled_of durability)
           (Z.of_nat (recovery_of reliability durability (length turns)))) ;; mret 1%Z : prog state Z)
    by (destruct (Z.ltb_spec 0 m), (Z.leb_spec m 0); try lia; done).
  assert (forall e, plain e -> e = (if (m <=? 0)%Z
      then Out (publisher_pass reliability durability depth (scheduled_of durability)
        (Z.of_nat (recovery_of reliability durability (length turns))))
      else Err (publisher_stuck (scheduled_of durability) (Z.of_nat (recovery_of reliability durability (length turns))))) ->
    publisher_ends reliability durability depth false (Ok (if (m <=? 0)%Z then 0 else 1)%Z)
      (Peer w (inbox s2) ((log s2 ++ [Counted m]) ++ [e]))) as Hend.
  { intros e He Ee. apply (publisher_matched _ _ _ _ _ before n turns final m); try done.
    - apply (tally_note _ _ e w (inbox s2) (Peer w (inbox s2) (log s2 ++ [Counted m]))); done.
    - cbn [log]. by rewrite last_snoc, Ee. }
  destruct (m <=? 0)%Z; apply twp_bind, twp_act; apply twp_ret; by apply Hend.
Qed.

Lemma wait_for_subscriber_spec l timeout s :
  passes left timeout -> tally l [] s ->
  twp (wait_for_subscriber timeout) (fun r s' => exists b c, r = Ok b /\ tally l c s' /\
    if b : bool then exists before n, c = before ++ [n] /\ Forall (fun n => n <= 0)%Z before /\ (0 < n)%Z
    else Forall (fun n => n <= 0)%Z c) s.
Proof using Hticks.
  intros Hpass [Hp Hc]. eapply twp_mono.
  { eapply (wait_spec count_look (fun n => 0 < n)%Z (fun _ => False)); [done|].
    apply query_judges; [apply (tk_count left Hticks)|intros n; apply Z.ltb_lt]. }
  intros [b|e] s' (_ & x & Hl & Hx); [|by destruct Hx as (? & ? & _ & _ & [])].
  assert (forall c, Forall (fun n => ~ 0 < n)%Z c -> Forall (fun n => n <= 0)%Z c) as Hle
    by (intros c Hf; eapply Forall_impl; [exact Hf|]; cbn; lia).
  exists b, (counted x). split; [done|]. unfold tally. rewrite Hl, published_app, counted_app, Hp, Hc.
  destruct Hx as [y [Hy1 Hy2]%unmatched_counts|y z n [Hy1 Hy2]%unmatched_counts Hz Hn].
  - rewrite Hy1, app_nil_r. auto.
  - unfold count_look in Hz. subst z. rewrite published_app, Hy1. split; [split; [apply app_nil_r|done]|].
    exists (counted y), n. rewrite counted_app. auto.
Qed.

Lemma run_publisher_spec timeout reliability durability depth skip_match s :
  passes left timeout -> tally [] [] s ->
  twp (run_publisher timeout reliability durability depth skip_match)
    (publisher_ends reliability durability depth skip_match) s.
Proof using Hticks.
  intros Hpass Hs. apply twp_bind, twp_act. cbn. apply twp_bind.
  apply (twp_mono _ (fun r s' => r = Ok tt /\ tally (history_of durability) [] s')).
  { set (e := Called _). apply (tally_note _ _ e (ros (CreatePublisher "/ros2_zephyr/desktop_to_device"
      (endpoint_qos reliability durability depth)) (world s)) (inbox s)) in Hs; [|done].
    unfold history_of. case_bool_decide; [by apply publish_history_spec|by apply twp_ret]. }
  clear s Hs. intros r s [-> Hs]. cbn [andthen]. apply twp_bind, twp_ask. cbn [andthen].
  destruct (monotonic (world s)) as [started w]. cbn [fst snd]. apply twp_bind. destruct skip_match.
  - apply twp_ret. cbn. apply twp_bind, twp_act. cbn. apply publish_blind_spec. by apply (tally_note _ _ _ _ _ (Peer w (inbox s) (log s))).
  - eapply twp_mono; [by apply (wait_for_subscriber_spec (history_of durability))|].
    clear s Hs w. intros r s (b & c & -> & Hs & Hb). cbn [andthen]. destruct b; cbn [negb].
    + destruct Hb as (before & n & -> & Hb & Hn). apply twp_bind, twp_bind, twp_ask. cbn. apply twp_act. cbn.
      eapply publish_matched_spec; [by apply (tally_note _ _ (Out _) _ _ (Peer (world s) (inbox s) (log s)))|done|done].
    + apply twp_bind, twp_act. cbn. apply twp_ret.
      assert (counted (log s ++ [Err "ROS2_ZEPHYR_PEER_ERROR role=pub reason=match_timeout"]) = c) as Ec
        by (destruct Hs as [_ <-]; rewrite counted_app; apply app_nil_r).
      apply publisher_unmatched; cbn [log]; rewrite ?Ec; [done|by apply tally_note|done|by rewrite last_snoc].
Qed.

(** ** The subscriber *)

(** The last values of a history of a given depth. *)
Definition keep_last (depth : nat) (l : list Z) : list Z := drop (length l - depth) l.

Lemma expected_retained depth :
  (1 <= depth)%Z -> expected_of "transient_local" depth = keep_last (Z.to_nat depth) [1; 2; 3; 4; 5]%Z ++ [6]%Z.
Proof.
  intros Hd. unfold expected_of. rewrite bool_decide_true by done. unfold TRANSIENT_HISTORY_LAST_VALUE, TRANSIENT_LIVE_VALUE.
  destruct (decide (depth < 5)%Z) as [Hlt|Hge].
  - assert (depth = 1 \/ depth = 2 \/ depth = 3 \/ depth = 4)%Z as [->|[->|[->| ->]]] by lia; reflexivity.
  - rewrite Z.min_r by lia. unfold keep_last. cbn [length]. replace (5 - Z.to_nat depth) with 0 by lia. reflexivity.
Qed.

Definition subscriber_ends (reliability durability : string) (depth : Z) (r : res Z) s : Prop :=
  let expected := expected_of durability depth in
  length (inbox s) <= length expected /\
  (r = Ok 0%Z /\ (inbox s).*2 = expected /\ last (log s) = Some (Out (subscriber_pass reliability durability depth (inbox s))) \/
   r = Ok 1%Z /\ (inbox s).*2 <> expected /\ exists line, last (log s) = Some (Err line)).

(** Nothing was received yet. *)
Definition empty_handed s : Prop := inbox s = [].

(** No query for publishers was made between two states. *)
Definition uninformed s s' : Prop := informed (log s') = informed (log s).

(** The callback takes one message. *)
Lemma twp_receive n x s :
  length (inbox s) < n ->
  twp (receive x) (fun r s' => r = Ok tt /\ (length (inbox s') <= n /\ uninformed s s') /\ later left s s') s.
Proof using Hticks.
  intros Hs. apply twp_bind, twp_ask. cbn. pose proof (fun d => tk_clock_le left Hticks d (world s)) as Hc.
  destruct (monotonic (world s)) as [t w]. cbn [fst snd] in *. apply twp_bind, twp_act. cbn. apply twp_bind, twp_act. cbn.
  apply twp_act. cbn. split; [done|]. split; [|done]. split; [rewrite length_app; cbn; lia|].
  unfold uninformed. cbn [log]. rewrite informed_app. apply app_nil_r.
Qed.

Lemma collect_spec expected timeout s :
  passes left timeout -> length (inbox s) <= length expected ->
  twp (collect expected timeout) (fun r s' => r = Ok tt /\ length (inbox s') <= length expected /\ uninformed s s') s.
Proof using Hticks.
  intros Hpass Hs. unfold collect. apply twp_bind, twp_ask. cbn -[Nat.ltb].
  specialize (Hpass (world s)). cbn zeta in Hpass.
  generalize dependent (float_add (monotonic (world s)).1 timeout). intros deadline Hpass.
  apply (twp_iter _ (fun _ s' => length (inbox s') <= length expected /\ uninformed s s') (fun _ s => left deadline (world s))); [|done].
  intros [] s0 [Hs0 Hu0]. clear Hs. rename s into s00, s0 into s. apply twp_bind, twp_act. cbn -[Nat.ltb].
  destruct (Nat.ltb_spec (length (inbox s)) (length expected)) as [Hlt|_]; cbn [negb]; [|by apply twp_ret].
  apply twp_bind, twp_ask. cbn. pose proof (Hpass (world s)) as Hc.
  destruct (monotonic (world s)) as [t w]. cbn [fst snd] in *. destruct (float_ltb t deadline); cbn [negb]; [|by apply twp_ret].
  specialize (Hc eq_refl). apply twp_bind, twp_bind, twp_ask. cbn. pose proof (tk_spin left Hticks deadline (float_ratio 1 10) w) as Hsp.
  destruct (spin_once (float_ratio 1 10) w) as [[x|] w1]; cbn [fst snd] in *.
  - eapply twp_mono; [by apply (twp_receive (length expected))|]. intros r s' (-> & (Hl & Hu) & Hlater). cbn. apply twp_ret.
    split; [split; [done|]; unfold uninformed in *; by rewrite Hu|]. specialize (Hlater deadline). cbn in Hlater. lia.
  - apply twp_ret. cbn. apply twp_ret. split; [done|]. cbn. lia.
Qed.

Lemma subscribe_spec timeout reliability durability depth s :
  passes left timeout -> empty_handed s ->
  twp (subscribe timeout reliability durability depth) (fun r s' =>
    subscriber_ends reliability durability depth r s' /\ uninformed s s') s.
Proof using Hticks.
  intros Hpass Hs. unfold subscribe. apply twp_bind, twp_act. cbn. apply twp_bind.
  eapply twp_mono; [apply collect_spec; [done|cbn; rewrite Hs; cbn; lia]|]. intros r s1 (-> & H1 & Hu). cbn.
  apply twp_bind, twp_act. cbn. apply twp_bind, twp_act. cbn.
  unfold uninformed in *. cbn [log] in *. rewrite informed_app, app_nil_r in Hu.
  destruct (bool_decide ((inbox s1).*2 = expected_of durability depth)) eqn:E; cbn [negb].
  - apply bool_decide_eq_true in E. apply twp_bind, twp_act. cbn. apply twp_ret. cbn [log]. rewrite !informed_app, !app_nil_r.
    split; [|done]. split; [done|]. left. cbn [log]. by rewrite last_snoc.
  - apply bool_decide_eq_false in E. apply twp_bind, twp_act. cbn. apply twp_ret. cbn [log]. rewrite !informed_app, !app_nil_r.
    split; [|done]. split; [done|]. right. cbn [log]. rewrite last_snoc. eauto.
Qed.

(** With transient-local durability the subscriber first waits for a publisher. *)
Definition publisher_found (durability : string) (infos : list (list string)) : Prop :=
  if decide (durability = "transient_local")
  then exists before l, infos = before ++ [l] /\ Forall (fun x => x = []) before /\ l <> [] else infos = [].

(** How a subscriber may end: after it found the publisher, or without it. *)
Definition subscriber_role (reliability durability : string) (depth : Z) (r : res Z) s : Prop :=
  (subscriber_ends reliability durability depth r s /\ publisher_found durability (informed (log s))) \/
  (r = Ok 1%Z /\ durability = "transient_local" /\ empty_handed s /\ Forall (fun x => x = []) (informed (log s)) /\
   last (log s) = Some (Err "ROS2_ZEPHYR_PEER_ERROR role=sub reason=publisher_discovery_timeout")).

Lemma wait_for_publisher_spec topic timeout s :
  passes left timeout -> informed (log s) = [] ->
  twp (wait_for_publisher topic timeout) (fun r s' => inbox s' = inbox s /\ exists b, r = Ok b /\
    if b : bool then exists before l, informed (log s') = before ++ [l] /\ Forall (fun x => x = []) before /\ l <> []
    else Forall (fun x => x = []) (informed (log s'))) s.
Proof using Hticks.
  intros Hpass Hi. eapply twp_mono.
  { eapply (wait_spec info_look (fun l => l <> []) (fun _ => False)); [done|].
    apply query_judges; [intros d w; apply (tk_info left Hticks)|by intros []]. }
  intros [b|e] s' (Hin & x & Hl & Hx); [|by destruct Hx as (? & ? & _ & _ & [])].
  assert (forall c : list (list string), Forall (fun l => ~ l <> []) c -> Forall (fun l => l = []) c) as Hnil
    by (intros c Hf; eapply Forall_impl; [exact Hf|]; intros [] ?; [done|]; by destruct H0).
  split; [done|]. exists b. split; [done|]. rewrite Hl, informed_app, Hi.
  destruct Hx as [y Hy%unmatched_infos|y z l Hy%unmatched_infos Hz Hn]; [by apply Hnil|].
  unfold info_look in Hz. subst z. rewrite informed_app. exists (informed y), l. auto.
Qed.

Lemma run_subscriber_spec timeout reliability durability depth s :
  passes left timeout -> empty_handed s -> informed (log s) = [] ->
  twp (run_subscriber timeout reliability durability depth) (subscriber_role reliability durability depth) s.
Proof using Hticks.
  intros Hpass Hs Hi. unfold run_subscriber. case_bool_decide as Hd.
  2: { eapply twp_mono; [by apply subscribe_spec|]. intros r s' [He Hu]. left. split; [done|]. unfold publisher_found.
       rewrite decide_False by done. by rewrite Hu. }
  apply twp_bind. eapply twp_mono; [by apply wait_for_publisher_spec|]. clear Hi. intros r s1 (Hin & b & -> & Hb). cbn [andthen].
  rewrite Hs in Hin. clear s Hs. destruct b; cbn [negb].
  - apply twp_bind, twp_act. cbn. set (s2 := Peer _ _ _).
    apply twp_bind, (twp_spin_until left Hticks (fun s => empty_handed s /\ informed (log s) = informed (log s1)));
      [apply (tk_own left Hticks); unfold own_waits; set_solver|by intros s w|intros; apply no_callback_steady| |].
    + intros s' [Hs' Hi']. cbn. eapply twp_mono; [by apply subscribe_spec|]. intros r s3 [He Hu]. left. split; [done|].
      unfold publisher_found. rewrite decide_True by done. by rewrite Hu, Hi'.
    + split; [done|]. subst s2. cbn [log]. rewrite informed_app. apply app_nil_r.
  - apply twp_bind, twp_act. cbn. apply twp_ret. right. cbn [log]. rewrite last_snoc, informed_app, app_nil_r. done.
Qed.

(** ** A device that delivers *)

(** Before the deadline, spinning brings the values in order. *)
Inductive delivers (deadline : pyfloat) : nat -> W -> list Z -> Prop :=
  | delivers_all m w : delivers deadline m w []
  | delivers_nothing m w w' v vs :
      float_ltb (monotonic w).1 deadline = true -> spin_once (float_ratio 1 10) (monotonic w).2 = (None, w') ->
      delivers deadline m w' (v :: vs) -> delivers deadline (S m) w (v :: vs)
  | delivers_value m w w' v vs :
      float_ltb (monotonic w).1 deadline = true -> spin_once (float_ratio 1 10) (monotonic w).2 = (Some v, w') ->
      delivers deadline m (monotonic w').2 vs -> delivers deadline (S m) w (v :: vs).

Lemma collect_live expected timeout m s :
  empty_handed s -> delivers (float_add (monotonic (world s)).1 timeout) m (monotonic (world s)).2 expected ->
  twp (collect expected timeout) (fun r s' => r = Ok tt /\ (inbox s').*2 = expected) s.
Proof.
  intros Hs Hd. unfold collect. apply twp_bind, twp_ask. cbn -[Nat.ltb].
  generalize dependent (float_add (monotonic (world s)).1 timeout). intros deadline Hd.
  apply (twp_iter_index _ (fun m _ s => exists vs, delivers deadline m (world s) vs /\ (inbox s).*2 ++ vs = expected) _ m).
  2: { exists expected. split; [done|]. cbn. by rewrite Hs. }
  clear m s Hs Hd. intros m [] s (vs & Hd & Hvs). apply twp_bind, twp_act. cbn -[Nat.ltb].
  assert (length (inbox s) + length vs = length expected) as Hlen by (by rewrite <- Hvs, length_app, length_fmap).
  remember (world s) as w0 eqn:Ew. destruct Hd as [m w|m w w' v vs Ht Hsp Hd|m w w' v vs Ht Hsp Hd]; subst w.
  - rewrite (proj2 (Nat.ltb_ge _ _)) by (cbn in Hlen; lia). apply twp_ret. rewrite app_nil_r in Hvs. done.
  - rewrite (proj2 (Nat.ltb_lt _ _)) by (cbn in Hlen; lia). apply twp_bind, twp_ask. cbn. rewrite Ht. cbn.
    apply twp_bind, twp_bind, twp_ask. cbn. rewrite Hsp. cbn. apply twp_ret. cbn. apply twp_ret.
    exists m. split; [lia|]. by exists (v :: vs).
  - rewrite (proj2 (Nat.ltb_lt _ _)) by (cbn in Hlen; lia). apply twp_bind, twp_ask. cbn. rewrite Ht. cbn.
    apply twp_bind, twp_bind, twp_ask. cbn. rewrite Hsp. cbn. apply twp_bind, twp_ask. cbn.
    apply twp_bind, twp_act. cbn. apply twp_bind, twp_act. cbn. apply twp_act. cbn. apply twp_ret.
    exists m. split; [lia|]. exists vs. split; [done|]. cbn. by rewrite fmap_app, <- app_assoc.
Qed.

(** Then the subscriber passes. *)
Lemma subscribe_live timeout reliability durability depth m s :
  let w := ros (CreateSubscription device_topic (endpoint_qos reliability durability depth)) (world s) in
  empty_handed s ->
  delivers (float_add (monotonic w).1 timeout) m (monotonic w).2 (expected_of durability depth) ->
  twp (subscribe timeout reliability durability depth) (fun r s' =>
    r = Ok 0%Z /\ (inbox s').*2 = expected_of durability depth /\
    last (log s') = Some (Out (subscriber_pass reliability durability depth (inbox s')))) s.
Proof.
  intros w Hs Hd. unfold subscribe. apply twp_bind, twp_act. cbn. apply twp_bind.
  eapply twp_mono; [by apply (collect_live _ _ m)|]. intros r s1 [-> H1]. cbn.
  apply twp_bind, twp_act. cbn. apply twp_bind, twp_act. cbn. rewrite bool_decide_true by done. cbn.
  apply twp_bind, twp_act. cbn. apply twp_ret. split; [done|]. split; [done|]. cbn [log]. by rewrite last_snoc.
Qed.

End spec.

End WifiSpec.
