(* ===== verification/Worker.v ===== *)
(** * The Wi-Fi peer: a worker of the inbound graph

    [graph_inbound_worker] of [samples/wifi/peer.py] runs in a process of its own:
    it creates the endpoints of its profile, tells the parent that it is ready and
    whether it sees the device, and obeys commands until it is told to stop.  Its
    end of the pipe is a parameter, [Connection]. *)

From Stdlib Require Import Ascii String.
From S2P Require Import Prelude PyStr PyFloat PyObj Clock Prog Rclpy WifiPeer.

Module Worker.
Import WifiPeer.

Class Connection (W : Type) := {
  conn_send : string -> W -> res unit * W;
  conn_poll : W -> res bool * W;
  conn_recv : W -> res string * W
}.

(** The variables of the loop; an endpoint stands as its topic. *)
Record worker_vars := WorkerVars {
  publishers : list string;
  subscriptions : list string;
  visibility_reported : bool
}.

(** An integer as the quality of service is the depth of a default profile. *)
Definition depth_qos (depth : Z) : qos_profile := QoSProfile depth VOLATILE KEEP_LAST RELIABLE.

Section program.
Context {W : Type} `{Rclpy W Z Z} `{Connection W}.
Abbreviation run := (prog (peer W Z (pyfloat * Z))).

Definition tell (message : string) : run unit :=
  try_ask (conn_send message) ;;
  note (Told message).

Definition create_graph_node (name namespace : string) : run unit := call (CreateNode name namespace).

(** [node.create_publisher(UInt32, topic, 10)] *)
Definition create_publisher (topic : string) : run string :=
  call (CreatePublisher topic (depth_qos 10)) ;; mret topic.

Definition create_subscription (topic : string) : run string :=
  call (CreateSubscription topic (depth_qos 10)) ;; mret topic.

(** The node and the endpoints of a profile. *)
Definition create_endpoints (profile : string) : run (list string * list string) :=
  if bool_decide (profile = "beta") then
    create_graph_node "graph_peer_beta" "/graph_acceptance_alt" ;;
    p ← create_publisher GRAPH_REMOTE_B;
    mret ([p], [])
  else
    create_graph_node "graph_peer_alpha" "/graph_acceptance" ;;
    if bool_decide (profile = "initial") then
      p1 ← create_publisher GRAPH_REMOTE_A;
      p2 ← create_publisher GRAPH_REMOTE_A;
      s1 ← create_subscription GRAPH_REMOTE_A;
      s2 ← create_subscription GRAPH_REMOTE_A;
      mret ([p1; p2], [s1; s2])
    else
      s ← create_subscription GRAPH_REMOTE_A;
      mret ([], [s]).

(** Before the [try]: the variables and the deadline. *)
Definition worker_begin (profile : string) (timeout : pyfloat) : run (worker_vars * pyfloat) :=
  call Init ;;
  '(publishers, subscriptions) ← create_endpoints profile;
  tell "ready" ;;
  t ← now;
  mret (WorkerVars publishers subscriptions false, float_add t timeout).

(** The report of visibility: whether it was made. *)
Definition report_visibility (visibility_deadline : pyfloat) (reported : bool) : run bool :=
  if reported then mret true
  else
    visible ← device_node_visible;
    if visible : bool then tell "visible" ;; mret true
    else
      t ← now;
      if float_geb t visibility_deadline then tell "visibility_timeout" ;; mret true else mret false.

(** [publishers.pop()] takes the last publisher. *)
Definition reduce (v : worker_vars) : run worker_vars :=
  match publishers v with
  | [] => try_act (fun s => (Raise IndexError, s))
  | _ =>
      call DestroyPublisher ;;
      for_each (subscriptions v) (fun _ => call DestroySubscription) ;;
      tell "reduced" ;;
      mret (WorkerVars (List.removelast (publishers v)) [] (visibility_reported v))
  end.

(** One pass of [while True]. *)
Definition worker_round (visibility_deadline : pyfloat) (v : worker_vars) : run (worker_vars + unit) :=
  spin no_callback (float_ratio 1 10) ;;
  reported ← report_visibility visibility_deadline (visibility_reported v);
  let v := WorkerVars (publishers v) (subscriptions v) reported in
  ready ← try_ask conn_poll;
  if negb ready then mret (inl v)
  else
    command ← try_ask conn_recv;
    if bool_decide (command = "reduce") then v ← reduce v; mret (inl v)
    else if bool_decide (command = "stop") then mret (inr tt)
    else mret (inl v).

Definition graph_inbound_worker (profile : string) (timeout : pyfloat) : run unit :=
  '(v, visibility_deadline) ← worker_begin profile timeout;
  try_finally (iter (worker_round visibility_deadline) v) (call DestroyNode ;; call Shutdown).

End program.

End Worker.
