(* ===== verification/WorkerSpec.v ===== *)
(** * What a worker of the inbound graph does

    In every state the loop of a worker passes, [ready] was told first and once,
    visibility at most once, and the endpoints are what the reductions left; the
    calls to rclpy are exactly those that say so.  When the parent does not leave
    it waiting for ever, the worker ends and destroys its node. *)

From Stdlib Require Import Ascii String.
From S2P Require Import Prelude PyStr PyFloat PyObj Clock Prog Rclpy WifiPeer Worker.

Module WorkerSpec.
Import WifiPeer Worker.

(** ** What was told and called *)

Definition told (l : list (event Z)) : list string :=
  omap (fun e => match e with Told m => Some m | _ => None end) l.
Definition called (l : list (event Z)) : list ros_call :=
  omap (fun e => match e with Called f => Some f | _ => None end) l.

Lemma told_app l k : told (l ++ k) = told l ++ told k.
Proof. apply omap_app. Qed.
Lemma called_app l k : called (l ++ k) = called l ++ called k.
Proof. apply omap_app. Qed.

Lemma told_calls k : told (Called <$> k) = [].
Proof. by induction k. Qed.
Lemma called_calls k : called (Called <$> k) = k.
Proof. induction k as [|x k IH]; [done|]. cbn. by f_equal. Qed.

Definition count (m : string) (l : list string) : nat := length (filter (fun x => x = m) l).

Lemma count_same m l : count m (l ++ [m]) = S (count m l).
Proof. unfold count. rewrite filter_app, length_app, filter_cons, decide_True by done. cbn. lia. Qed.

Lemma count_other m l x : x <> m -> count m (l ++ [x]) = count m l.
Proof. intros Hx. unfold count. rewrite filter_app, length_app, filter_cons, decide_False by done. cbn. lia. Qed.

(** ** The contract of a profile *)

Definition profile_endpoints (profile : string) : list string * list string :=
  if bool_decide (profile = "beta") then ([GRAPH_REMOTE_B], [])
  else if bool_decide (profile = "initial") then ([GRAPH_REMOTE_A; GRAPH_REMOTE_A], [GRAPH_REMOTE_A; GRAPH_REMOTE_A])
  else ([], [GRAPH_REMOTE_A]).

Definition profile_node (profile : string) : ros_call :=
  if bool_decide (profile = "beta") then CreateNode "graph_peer_beta" "/graph_acceptance_alt"
  else CreateNode "graph_peer_alpha" "/graph_acceptance".

Definition profile_calls (profile : string) : list ros_call :=
  Init :: profile_node profile ::
  ((fun t => CreatePublisher t (depth_qos 10)) <$> (profile_endpoints profile).1) ++
  ((fun t => CreateSubscription t (depth_qos 10)) <$> (profile_endpoints profile).2).

(** The calls of [n] reductions: each destroys a publisher, the first one the
    subscriptions too. *)
Definition reduction_calls (subscriptions n : nat) : list ros_call :=
  match n with
  | O => []
  | S n => DestroyPublisher :: replicate subscriptions DestroySubscription ++ replicate n DestroyPublisher
  end.

Lemma reduction_calls_first subscriptions :
  reduction_calls subscriptions 1 = DestroyPublisher :: replicate subscriptions DestroySubscription.
Proof. cbn. by rewrite app_nil_r. Qed.

Lemma reduction_calls_next subscriptions n :
  n <> 0 -> reduction_calls subscriptions (S n) = reduction_calls subscriptions n ++ [DestroyPublisher].
Proof.
  destruct n as [|n]; [done|]. intros _. cbn [reduction_calls app].
  by rewrite <- app_assoc, <- (replicate_S_end n).
Qed.

(** What a worker may have told at any time. *)
Definition orderly (m : list string) : Prop :=
  (exists k, m = "ready" :: k /\ "ready" ∉ k) /\ count "visible" m + count "visibility_timeout" m <= 1.

Record worker_inv (profile : string) (v : worker_vars) (l : list (event Z)) : Prop := {
  wi_ready : exists k, told l = "ready" :: k /\ "ready" ∉ k;
  wi_visible : count "visible" (told l) + count "visibility_timeout" (told l) =
    if visibility_reported v then 1 else 0;
  wi_publishers : publishers v = take (length (profile_endpoints profile).1 - count "reduced" (told l))
    (profile_endpoints profile).1;
  wi_bound : count "reduced" (told l) <= length (profile_endpoints profile).1;
  wi_subscriptions : subscriptions v =
    if decide (count "reduced" (told l) = 0) then (profile_endpoints profile).2 else [];
  wi_calls : called l = profile_calls profile ++
    reduction_calls (length (profile_endpoints profile).2) (count "reduced" (told l))
}.

(** Only what was told and called matters. *)
Lemma inv_same profile v l l' : told l' = told l -> called l' = called l -> worker_inv profile v l -> worker_inv profile v l'.
Proof. intros Ht Hc [? ? ? ? ? ?]. by split; rewrite ?Ht, ?Hc. Qed.

Lemma inv_orderly profile v l : worker_inv profile v l -> orderly (told l).
Proof. intros [? Hv _ _ _]. split; [done|]. rewrite Hv. destruct (visibility_reported v); lia. Qed.

Lemma ready_snoc (m : list string) x k :
  x <> "ready" -> m = "ready" :: k /\ "ready" ∉ k -> exists k', m ++ [x] = "ready" :: k' /\ "ready" ∉ k'.
Proof. intros Hm [-> Hl]. exists (k ++ [x]). split; [done|]. set_solver. Qed.

(** Visibility is reported. *)
Lemma inv_report profile p q l m :
  m = "visible" \/ m = "visibility_timeout" -> worker_inv profile (WorkerVars p q false) l ->
  worker_inv profile (WorkerVars p q true) (l ++ [Told m]).
Proof.
  intros Hm [[k Hr] Hv Hp Hb Hs Hc]. cbn [visibility_reported publishers subscriptions] in *.
  assert (m <> "reduced" /\ m <> "ready") as [Hm1 Hm2] by (by destruct Hm as [-> | ->]).
  split; rewrite ?told_app, ?called_app; cbn; rewrite ?app_nil_r, ?(count_other "reduced") by done; try done.
  - by eapply ready_snoc.
  - destruct Hm as [-> | ->]; rewrite count_same, count_other by done; lia.
Qed.

Lemma removelast_take {A} n (l : list A) : n <= length l -> List.removelast (take n l) = take (n - 1) l.
Proof. intros Hn. destruct n as [|n]; [done|]. rewrite List.removelast_firstn by lia. f_equal. lia. Qed.

(** A publisher and the subscriptions are taken away. *)
Lemma inv_reduce profile v l : publishers v <> [] -> worker_inv profile v l ->
  worker_inv profile (WorkerVars (List.removelast (publishers v)) [] (visibility_reported v))
    (l ++ (Called <$> (DestroyPublisher :: ((fun _ => DestroySubscription) <$> subscriptions v))) ++ [Told "reduced"]).
Proof.
  intros Hne [[k Hr] Hv Hp Hb Hs Hc]. set (n := count "reduced" (told l)) in *.
  set (f := (fun _ : string => DestroySubscription) <$> subscriptions v).
  assert (n < length (profile_endpoints profile).1) as Hlt.
  { destruct (decide (n = length (profile_endpoints profile).1)) as [He|]; [|lia]. by rewrite He, Nat.sub_diag in Hp. }
  split; cbn [publishers subscriptions visibility_reported]; rewrite ?told_app, ?called_app, ?told_calls, ?called_calls, ?app_nil_l;
    change (told [Told "reduced"]) with ["reduced"]; change (called [Told "reduced"]) with (@nil ros_call);
    rewrite ?count_same, ?(count_other "visible"), ?(count_other "visibility_timeout") by done; fold n.
  - by eapply ready_snoc.
  - done.
  - rewrite Hp, removelast_take by lia. f_equal. lia.
  - lia.
  - by rewrite decide_False by lia.
  - rewrite Hc, app_nil_r, <- app_assoc. f_equal. subst f. rewrite Hs. destruct (decide (n = 0)) as [->|Hn].
    + rewrite reduction_calls_first. cbn. f_equal. by apply const_fmap.
    + by rewrite reduction_calls_next.
Qed.

(** ** The loop *)

Section program.
Context {W : Type} `{Rclpy W Z Z} `{Connection W}.
Abbreviation state := (peer W Z (pyfloat * Z)).
Implicit Types s : state.

(** The parent does not leave the worker waiting for ever: a measure that no call
    raises, and that every poll without a command and every command but [stop]
    decreases. *)
Record patient (left : W -> nat) : Prop := {
  pt_clock : forall w, left (monotonic w).2 <= left w;
  pt_spin : forall t w, left (spin_once t w).2 <= left w;
  pt_names : forall w, left (get_node_names_and_namespaces w).2 <= left w;
  pt_ros : forall c w, left (ros c w) <= left w;
  pt_send : forall m w, left (conn_send m w).2 <= left w;
  pt_poll : forall w b, (conn_poll w).1 = Ok b -> if b then left (conn_poll w).2 <= left w else left (conn_poll w).2 < left w;
  pt_recv : forall w c, (conn_recv w).1 = Ok c -> c <> "stop" -> left (conn_recv w).2 < left w
}.

Definition calm s s' : Prop := forall left, patient left -> left (world s') <= left (world s).
Definition nearer s s' : Prop := forall left, patient left -> left (world s') < left (world s).

#[export] Instance calm_preorder : PreOrder calm.
Proof. split; [by intros s left|]. intros s1 s2 s3 H1 H2 left Hl. specialize (H1 left Hl). specialize (H2 left Hl). lia. Qed.

Lemma calm_nearer s1 s2 s3 : calm s1 s2 -> nearer s2 s3 -> nearer s1 s3.
Proof. intros H1 H2 left Hl. specialize (H1 left Hl). specialize (H2 left Hl). lia. Qed.
Lemma nearer_calm s1 s2 s3 : nearer s1 s2 -> calm s2 s3 -> nearer s1 s3.
Proof. intros H1 H2 left Hl. specialize (H1 left Hl). specialize (H2 left Hl). lia. Qed.

(** Telling: the message is on its way, or nothing was told. *)
Lemma twp_tell m (Q : res unit -> state -> Prop) s :
  (forall s', calm s s' -> log s' = log s ++ [Told m] -> Q (Ok tt) s') ->
  (forall e s', log s' = log s -> Q (Raise e) s') -> twp (tell m) Q s.
Proof.
  intros Hok Hraise. apply twp_bind, twp_try_ask. destruct (conn_send m (world s)) as [[[]|e] w] eqn:E; cbn; [|by apply Hraise].
  apply twp_act, Hok; [|done]. intros left Hl. pose proof (pt_send left Hl m (world s)) as Hs. by rewrite E in Hs.
Qed.

Lemma twp_call f (Q : res unit -> state -> Prop) s :
  (forall s', calm s s' -> log s' = log s ++ [Called f] -> Q (Ok tt) s') -> twp (call f) Q s.
Proof. intros HQ. apply twp_act, HQ; [|done]. intros left Hl. apply (pt_ros left Hl). Qed.

Lemma twp_look {A} (f : W -> A * W) (Q : res A -> state -> Prop) s :
  (forall left w, patient left -> left (f w).2 <= left w) ->
  (forall s', calm s s' -> log s' = log s -> Q (Ok (f (world s)).1) s') -> twp (ask f) Q s.
Proof. intros Hf HQ. apply twp_ask, HQ; [|done]. intros left Hl. by apply Hf. Qed.

Lemma twp_spin_calm t (Q : res unit -> state -> Prop) s :
  (forall s', calm s s' -> log s' = log s -> Q (Ok tt) s') -> twp (spin no_callback t) Q s.
Proof.
  intros HQ. apply twp_bind, twp_look; [intros left w Hl; apply (pt_spin left Hl)|]. intros s' Hc Hl. cbn.
  destruct (spin_once t (world s)).1; by apply twp_ret, HQ.
Qed.

(** What a report may do to the variables. *)
Lemma visibility_spec profile d v s (Q : res bool -> state -> Prop) :
  worker_inv profile v (log s) ->
  (forall b s', calm s s' -> worker_inv profile (WorkerVars (publishers v) (subscriptions v) b) (log s') -> Q (Ok b) s') ->
  (forall e s', told (log s') = told (log s) -> Q (Raise e) s') ->
  twp (report_visibility d (visibility_reported v)) Q s.
Proof.
  destruct v as [p q rep]. cbn [publishers subscriptions visibility_reported]. intros Hinv Hok Hraise.
  unfold report_visibility. destruct rep; [by apply twp_ret, Hok|].
  assert (forall m s1, calm s s1 -> told (log s1) = told (log s) -> worker_inv profile (WorkerVars p q false) (log s1) ->
    m = "visible" \/ m = "visibility_timeout" -> twp (tell m ;; mret true) Q s1) as Htell.
  { intros m s1 Hc Ht Hi Hm. apply twp_bind, twp_tell; [|intros e s2 Hs2; apply Hraise; congruence]. intros s2 Hc2 Hl2. cbn.
    apply twp_ret, Hok; [by transitivity s1|]. rewrite Hl2. by apply inv_report. }
  apply twp_bind. unfold device_node_visible. apply twp_bind, twp_query. cbn [andthen]. apply twp_ret. cbn [andthen].
  set (s1 := Peer _ _ _). assert (calm s s1) as Hc1 by (intros left Hl; apply (pt_names left Hl)).
  assert (told (log s1) = told (log s)) as Ht1 by (subst s1; cbn [log]; rewrite told_app; apply app_nil_r).
  assert (worker_inv profile (WorkerVars p q false) (log s1)) as Hi1.
  { eapply inv_same; [exact Ht1| |exact Hinv]. subst s1. cbn [log]. rewrite called_app. apply app_nil_r. }
  case_bool_decide; [by apply Htell; [..|left]|].
  apply twp_bind, twp_look; [intros left w Hl; apply (pt_clock left Hl)|]. intros s2 Hc2 Hl2. cbn.
  assert (calm s s2) by (by transitivity s1). rewrite <- Hl2 in Ht1, Hi1.
  destruct (float_geb _ d); [by apply Htell; [..|right]|]. by apply twp_ret, Hok.
Qed.

(** Destroying the subscriptions. *)
Lemma destroy_spec (l : list string) (Q : res unit -> state -> Prop) s :
  (forall s', calm s s' -> log s' = log s ++ (Called <$> ((fun _ => DestroySubscription) <$> l)) -> Q (Ok tt) s') ->
  twp (for_each l (fun _ => call DestroySubscription)) Q s.
Proof.
  intros HQ. apply (twp_for_each (fun done s' => calm s s' /\
    log s' = log s ++ (Called <$> ((fun _ => DestroySubscription) <$> done))) l _ _ []).
  - intros done x s1 [Hc Hl] _. apply twp_call. intros s2 Hc2 Hl2. split; [by transitivity s1|].
    by rewrite Hl2, Hl, !fmap_app, app_assoc.
  - intros s' [Hc Hl]. by apply HQ.
  - split; [done|]. cbn. by rewrite app_nil_r.
Qed.

(** A reduction: done, or refused or interrupted with the same messages told. *)
Lemma reduce_spec profile v s (Q : res worker_vars -> state -> Prop) :
  worker_inv profile v (log s) ->
  (forall v' s', calm s s' -> worker_inv profile v' (log s') -> Q (Ok v') s') ->
  (forall e s', told (log s') = told (log s) -> Q (Raise e) s') ->
  twp (reduce v) Q s.
Proof.
  intros Hinv Hok Hraise. unfold reduce. destruct (publishers v) as [|x ps] eqn:Ep; [by apply twp_try_act, Hraise|].
  rewrite <- Ep. apply twp_bind, twp_call. intros s1 Hc1 Hl1. cbn.
  apply twp_bind, destroy_spec. intros s2 Hc2 Hl2. cbn.
  apply twp_bind, twp_tell.
  - intros s3 Hc3 Hl3. cbn. apply twp_ret, Hok; [transitivity s1; [done|]; by transitivity s2|].
    rewrite Hl3, Hl2, Hl1, <- !app_assoc. apply (inv_reduce profile v); [by rewrite Ep|done].
  - intros e s3 Hl3. cbn. apply Hraise. rewrite Hl3, Hl2, Hl1, !told_app, told_calls. cbn.
    by rewrite !app_nil_r.
Qed.

(** One pass of the loop. *)
Lemma round_spec profile d v s :
  worker_inv profile v (log s) ->
  twp (worker_round d v) (fun r s' =>
    match r with
    | Ok (inl v') => worker_inv profile v' (log s') /\ nearer s s'
    | Ok (inr _) => exists v', worker_inv profile v' (log s')
    | Raise _ => orderly (told (log s'))
    end) s.
Proof.
  intros Hinv. unfold worker_round. apply twp_bind, twp_spin_calm. intros s1 Hc1 Hl1. cbn.
  apply twp_bind. eapply (visibility_spec profile); [by rewrite Hl1| |].
  2: { intros e s2 Hl2. cbn. rewrite Hl2, Hl1. by eapply inv_orderly. }
  intros b s2 Hc2 Hinv2. cbn. set (v2 := WorkerVars _ _ _) in *.
  assert (calm s s2) as Hc by (by transitivity s1).
  apply twp_bind, twp_try_ask. destruct (conn_poll (world s2)) as [[b1|e] w3] eqn:E3; cbn; [|by eapply inv_orderly].
  assert (forall left, patient left -> if b1 then left w3 <= left (world s2) else left w3 < left (world s2)) as Hpoll.
  { intros left Hl. pose proof (pt_poll left Hl (world s2) b1) as Hp. rewrite E3 in Hp. by apply Hp. }
  destruct b1; cbn.
  2: { apply twp_ret. split; [done|]. eapply calm_nearer; [done|]. exact Hpoll. }
  apply twp_bind, twp_try_ask. cbn. destruct (conn_recv w3) as [[c|e] w4] eqn:E4; cbn; [|by eapply inv_orderly].
  assert (c <> "stop" -> nearer s (Peer w4 (inbox s2) (log s2))) as Hnear.
  { intros Hstop. eapply calm_nearer; [done|]. intros left Hl. specialize (Hpoll left Hl).
    pose proof (pt_recv left Hl w3 c) as Hr. rewrite E4 in Hr. specialize (Hr eq_refl Hstop). cbn in *. lia. }
  case_bool_decide as Hc3.
  - apply twp_bind. eapply (reduce_spec profile); [exact Hinv2| |].
    + intros v' s' Hc' Hinv'. cbn. apply twp_ret. split; [done|]. eapply nearer_calm; [apply Hnear; by subst c|done].
    + intros e s' Ht. cbn. rewrite Ht. by eapply inv_orderly.
  - case_bool_decide; apply twp_ret; [by exists v2|]. by split; [|apply Hnear].
Qed.

(** ** The whole worker *)

Lemma begin_spec profile timeout w :
  twp (worker_begin profile timeout) (fun r s =>
    match r with
    | Ok (v, _) => worker_inv profile v (log s)
    | Raise _ => told (log s) = [] /\ called (log s) = profile_calls profile
    end) (Peer w [] []).
Proof.
  set (s0 := Peer w [] []). unfold worker_begin. apply twp_bind, twp_call. intros s1 _ Hl1. cbn.
  apply twp_bind.
  apply (twp_mono _ (fun r s => r = Ok (profile_endpoints profile) /\ log s = Called <$> profile_calls profile)).
  - unfold create_endpoints, profile_calls, profile_node, profile_endpoints, create_graph_node, create_publisher, create_subscription.
    case_bool_decide; [|case_bool_decide]; repeat first
      [ apply twp_bind | progress cbn
      | apply twp_call; let s' := fresh "s" in let Hl := fresh "Hl" in intros s' _ Hl
      | apply twp_ret ].
    all: by split; [done|]; repeat match goal with Hl : log ?s = _ |- context [log ?s] => rewrite Hl end.
  - intros r s2 (-> & Hl2). destruct (profile_endpoints profile) as [p q] eqn:E. cbn.
    apply twp_bind, twp_tell.
    + intros s3 _ Hl3. cbn. apply twp_bind, twp_ask. cbn. apply twp_ret. cbn [log]. rewrite Hl3, Hl2. split;
        rewrite ?told_app, ?called_app, ?told_calls, ?called_calls, ?app_nil_l, ?E; cbn [publishers subscriptions visibility_reported];
        change (told [Told "ready"]) with ["ready"]; change (called [Told "ready"]) with (@nil ros_call);
        change (count "reduced" ["ready"]) with 0; cbn [fst snd].
      * exists []. split; [done|]. apply not_elem_of_nil.
      * reflexivity.
      * by rewrite Nat.sub_0_r, take_ge.
      * lia.
      * done.
      * by rewrite !app_nil_r.
    + intros e s3 Hl3. cbn. by rewrite Hl3, Hl2, told_calls, called_calls.
Qed.

(** The states the loop of a worker passes. *)
Inductive reachable (profile : string) (timeout : pyfloat) (w : W) : pyfloat -> worker_vars -> state -> Prop :=
  | reach_begin v d s :
      runs (worker_begin profile timeout) (Peer w [] []) (Ok (v, d)) s -> reachable profile timeout w d v s
  | reach_round d v s v' s' :
      reachable profile timeout w d v s -> runs (worker_round d v) s (Ok (inl v')) s' -> reachable profile timeout w d v' s'.

Lemma reachable_inv profile timeout w d v s : reachable profile timeout w d v s -> worker_inv profile v (log s).
Proof.
  induction 1 as [v d s Hb|d v s v' s' _ IH Hr].
  - exact (twp_runs _ _ _ _ _ (begin_spec profile timeout w) Hb).
  - exact (proj1 (twp_runs _ _ _ _ _ (round_spec profile d v s IH) Hr)).
Qed.

(** How a worker ends: it could not tell that it is ready, or its node was
    destroyed after it was stopped or interrupted. *)
Inductive worker_ends (profile : string) : res unit -> list (event Z) -> Prop :=
  | ends_unheard e l : told l = [] -> called l = profile_calls profile -> worker_ends profile (Raise e) l
  | ends_stopped v l : worker_inv profile v l -> worker_ends profile (Ok tt) (l ++ [Called DestroyNode; Called Shutdown])
  | ends_interrupted e l : orderly (told l) -> worker_ends profile (Raise e) (l ++ [Called DestroyNode; Called Shutdown]).

Lemma finally_spec profile r s :
  worker_ends profile r (log s ++ [Called DestroyNode; Called Shutdown]) ->
  twp (call DestroyNode ;; call Shutdown) (fun x s' =>
    worker_ends profile (match x with Ok _ => r | Raise e => Raise e end) (log s')) s.
Proof.
  intros Hr. apply twp_bind, twp_call. intros s2 _ Hl2. cbn. apply twp_call. intros s3 _ Hl3.
  by rewrite Hl3, Hl2, <- app_assoc.
Qed.

Lemma worker_spec profile timeout w left :
  patient left -> twp (graph_inbound_worker profile timeout) (fun r s => worker_ends profile r (log s)) (Peer w [] []).
Proof.
  intros Hleft. unfold graph_inbound_worker. apply twp_bind. eapply twp_mono; [apply begin_spec|].
  intros [[v d]|e] s; cbn; [|intros []; by constructor]. intros Hinv.
  apply twp_finally. apply (twp_iter _ (fun v s => worker_inv profile v (log s)) (fun _ s => left (world s))); [|done].
  clear v s Hinv. intros v s Hinv. eapply twp_mono; [by apply round_spec|].
  intros [[v'|[]]|e] s'; [by intros [? Hn]; split; [|apply Hn]| |].
  - intros [v' Hinv']. apply finally_spec. by econstructor.
  - intros Ho. apply finally_spec. by constructor.
Qed.

End program.

End WorkerSpec.
