(* ===== verification/GraphPeer.v ===== *)
(** * The Wi-Fi peer: the inbound graph and the program

    [samples/wifi/peer.py], the rest: [run_graph_inbound], which starts and stops
    the workers, and [main].  The parent is a program over [multiprocessing], the
    parameter [Workers]. *)

From Stdlib Require Import Ascii String.
From S2P Require Import Prelude PyStr PyFloat PyObj Clock Prog Rclpy WifiPeer.

Module GraphPeer.
Import WifiPeer.

(** ** The parent *)

(** [multiprocessing], as far as the parent uses it. *)
Class Workers (W : Type) := {
  (** [context.Pipe()], [context.Process(...)], [process.start()] and [child_connection.close()] *)
  start_process : worker -> string -> pyfloat -> W -> res unit * W;
  poll : worker -> pyfloat -> W -> bool * W;
  recv : worker -> W -> res string * W;
  send_to : worker -> string -> W -> res unit * W;
  is_alive : worker -> W -> bool * W;
  kill : worker -> W -> W;
  join : worker -> pyfloat -> W -> W;
  close_connection : worker -> W -> W;
  sleep : pyfloat -> W -> W
}.

Section program.
Context {W : Type} `{Rclpy W Z Z} `{Workers W}.
Abbreviation run := (prog (peer W Z (pyfloat * Z))).

Definition worked (n : worker) (x : worker_action) (f : W -> W) : run unit :=
  modify (fun s => Peer (f (world s)) (inbox s) (log s ++ [Worked n x])).

Definition rest_for (t : pyfloat) : run unit :=
  modify (fun s => Peer (sleep t (world s)) (inbox s) (log s ++ [Slept t])).

Definition start_graph_worker (n : worker) (profile : string) (timeout : pyfloat) : run unit :=
  try_ask (start_process n profile timeout) ;;
  note (Worked n (Started profile)).

(** One pass of [while time.monotonic() < deadline].  Messages other than the expected
    one are dropped; a late [visibility_timeout] or a dead process ends the wait.
    [recv] raises [EOFError] on a closed pipe. *)
Definition wait_round (n : worker) (expected : string) (deadline : pyfloat) : run (unit + bool) :=
  t ← now;
  if negb (float_ltb t deadline) then mret (inr false)
  else
    b ← ask (poll n (float_ratio 1 10));
    verdict ← (if b : bool then
                 message ← try_ask (recv n);
                 note (Worked n (Got message)) ;;
                 mret (if bool_decide (message = expected) then Some true
                       else if bool_decide (message = "visibility_timeout") then Some false else None)
               else mret None);
    match verdict with
    | Some v => mret (inr v)
    | None =>
        alive ← ask (is_alive n);
        mret (if alive : bool then inl tt else inr false)
    end.

Definition wait_for_worker (n : worker) (expected : string) (timeout : pyfloat) : run bool :=
  t ← now;
  let deadline := float_add t timeout in
  iter (fun _ : unit => wait_round n expected deadline) tt.

Definition terminate_worker (n : worker) : run unit :=
  alive ← ask (is_alive n);
  note (Worked n (Probed alive)) ;;
  if alive : bool then worked n Killed (kill n) ;; worked n Joined (join n (float_int 5)) else mret tt.

Definition command_worker (n : worker) (c : string) : run unit :=
  try_ask (send_to n c) ;;
  note (Worked n (Commanded c)).

Definition inbound_error (reason : string) : run Z :=
  complain ("ROS2_ZEPHYR_PEER_ERROR role=graph-inbound reason=" +:+ reason) ;; mret 1%Z.

Definition inbound_phase (phase : string) : run unit :=
  say ("ROS2_ZEPHYR_PEER_GRAPH_PHASE direction=inbound phase=" +:+ phase).

(** [a() and b()] *)
Definition both (a b : run bool) : run bool := x ← a; if x : bool then b else mret false.

(** The end of the [try] block: a worker is started again. *)
Definition inbound_restart (timeout : pyfloat) : run Z :=
  start_graph_worker Restarted "restart" timeout ;;
  again ← both (wait_for_worker Restarted "ready" timeout) (wait_for_worker Restarted "visible" timeout);
  if negb again then inbound_error "restart_timeout"
  else
    inbound_phase "restart" ;;
    rest_for GRAPH_HOLD_SECONDS ;;
    terminate_worker Restarted ;;
    inbound_phase "restart_lost" ;;
    rest_for GRAPH_LOSS_HOLD_SECONDS ;;
    say "ROS2_ZEPHYR_PEER_PASS role=graph-inbound" ;;
    mret 0%Z.

(** Before it: both workers are lost. *)
Definition inbound_loss (timeout : pyfloat) : run Z :=
  terminate_worker Beta ;;
  inbound_phase "reduced" ;;
  rest_for GRAPH_LOSS_HOLD_SECONDS ;;
  terminate_worker Alpha ;;
  inbound_phase "participant_lost" ;;
  rest_for GRAPH_LOSS_HOLD_SECONDS ;;
  inbound_restart timeout.

(** The [try] block. *)
Definition inbound_body (timeout : pyfloat) : run Z :=
  ready ← both (wait_for_worker Alpha "ready" timeout) (wait_for_worker Beta "ready" timeout);
  if negb ready then inbound_error "worker_start_timeout"
  else
    visible ← wait_for_worker Alpha "visible" timeout;
    if negb visible then inbound_error "device_discovery_timeout"
    else
      inbound_phase "initial" ;;
      rest_for GRAPH_HOLD_SECONDS ;;
      command_worker Alpha "reduce" ;;
      reduced ← wait_for_worker Alpha "reduced" timeout;
      if negb reduced then inbound_error "reduce_timeout" else inbound_loss timeout.

(** [restarted is not None]: it was started. *)
Definition was_started (n : worker) (l : list (event Z)) : bool :=
  existsb (fun e => match e with Worked m (Started _) => bool_decide (m = n) | _ => false end) l.

Definition restarted_exists : run bool := act (fun s => (was_started Restarted (log s), s)).

Definition inbound_finally : run unit :=
  terminate_worker Alpha ;;
  terminate_worker Beta ;;
  restarted ← restarted_exists;
  (if restarted : bool then terminate_worker Restarted else mret tt) ;;
  worked Alpha ConnectionClosed (close_connection Alpha) ;;
  worked Beta ConnectionClosed (close_connection Beta) ;;
  if restarted : bool then worked Restarted ConnectionClosed (close_connection Restarted) else mret tt.

Definition run_graph_inbound (timeout : pyfloat) : run Z :=
  start_graph_worker Alpha "initial" timeout ;;
  start_graph_worker Beta "beta" timeout ;;
  try_finally (inbound_body timeout) inbound_finally.

(** ** The program *)

Inductive role := Pub | Sub | GraphOutbound | GraphInbound.

#[export] Instance role_eq_dec : EqDecision role.
Proof. solve_decision. Defined.

Record args := Args {
  a_role : role;
  a_timeout : pyfloat;
  a_reliability : string;
  a_durability : string;
  a_depth : Z;
  a_cycles : Z;
  a_skip_match : bool
}.

(** [args.role.replace('-', '_')] *)
Definition role_name (r : role) : string :=
  match r with Pub => "pub" | Sub => "sub" | GraphOutbound => "graph_outbound" | GraphInbound => "graph_inbound" end.

(** [for cycle in range(1, cycles + 1): if run_graph_outbound(...) != 0: return 1] *)
Fixpoint outbound_cycles (timeout : pyfloat) (cycles : list Z) : run Z :=
  match cycles with
  | [] => mret 0%Z
  | c :: cycles =>
      code ← run_graph_outbound timeout c;
      if negb (code =? 0)%Z then mret 1%Z else outbound_cycles timeout cycles
  end.

Definition run_role (a : args) : run Z :=
  match a_role a with
  | Pub => run_publisher (a_timeout a) (a_reliability a) (a_durability a) (a_depth a) (a_skip_match a)
  | Sub => run_subscriber (a_timeout a) (a_reliability a) (a_durability a) (a_depth a)
  | _ => outbound_cycles (a_timeout a) (zrange 1 (a_cycles a + 1))
  end.

(** The complaint of [parser.error], if there is one. *)
Definition bad_arguments (a : args) : option string :=
  if (a_depth a <=? 0)%Z then Some "--depth must be a positive integer"
  else if (a_cycles a <=? 0)%Z then Some "--cycles must be a positive integer"
  else if negb (a_cycles a =? 1)%Z && negb (bool_decide (a_role a = GraphOutbound))
  then Some "--cycles is only valid for graph-outbound" else None.

Definition main (a : args) : run Z :=
  match bad_arguments a with
  | Some msg => complain msg ;; mret 2%Z
  | None =>
      if bool_decide (a_role a = GraphInbound) then run_graph_inbound (a_timeout a)
      else
        call Init ;;
        call (CreateNode ("ros2_zephyr_wifi_peer_" +:+ role_name (a_role a)) EmptyString) ;;
        try_finally (run_role a) (call DestroyNode ;; call Shutdown)
  end.

End program.

End GraphPeer.
