(* ===== verification/GraphSpec.v ===== *)
(** * What the inbound graph role does

    The order in which the parent announces its phases, what it heard from the
    workers when it passes, and that it ends and leaves no worker and no connection
    behind. *)

From Stdlib Require Import Ascii String.
From stdpp Require Import functions.
From S2P Require Import Prelude PyStr PyFloat PyObj Clock Prog Rclpy WifiPeer WifiSpec GraphPeer.

Module GraphSpec.
Import WifiPeer WifiSpec GraphPeer.

(** ** The parent *)

(** What is said, started and commanded, in order; what a worker told. *)
Definition said (l : list (event Z)) : list (event Z) :=
  omap (fun e => match e with
                 | Out _ | Err _ | Worked _ (Started _) | Worked _ (Commanded _) => Some e
                 | _ => None
                 end) l.

Definition heard (n : worker) (l : list (event Z)) : list string :=
  omap (fun e => match e with Worked m (Got x) => if decide (m = n) then Some x else None | _ => None end) l.

Definition phase_line (phase : string) : event Z := Out ("ROS2_ZEPHYR_PEER_GRAPH_PHASE direction=inbound phase=" +:+ phase).

(** A run that passes. *)
Definition inbound_script : list (event Z) :=
  [Worked Alpha (Started "initial"); Worked Beta (Started "beta");
   phase_line "initial"; Worked Alpha (Commanded "reduce");
   phase_line "reduced"; phase_line "participant_lost"; Worked Restarted (Started "restart");
   phase_line "restart"; phase_line "restart_lost"; Out "ROS2_ZEPHYR_PEER_PASS role=graph-inbound"].

(** Where a run may fail, and what it then says. *)
Definition inbound_failures : list (nat * string) :=
  [(2, "worker_start_timeout"); (2, "device_discovery_timeout"); (4, "reduce_timeout"); (7, "restart_timeout")].

Definition inbound_error_line (reason : string) : event Z :=
  Err ("ROS2_ZEPHYR_PEER_ERROR role=graph-inbound reason=" +:+ reason).

(** What was heard by the time a run passes. *)
Definition inbound_heard (n : worker) : list string :=
  match n with Alpha => ["ready"; "visible"; "reduced"] | Beta => ["ready"] | Restarted => ["ready"; "visible"] end.

(** A run passes after the whole script, fails with a reason after a part of it,
    or is interrupted by an exception. *)
Inductive inbound_ends : res Z -> list (event Z) -> Prop :=
  | inbound_passes l :
      said l = inbound_script -> (forall n, sublist (inbound_heard n) (heard n l)) -> inbound_ends (Ok 0%Z) l
  | inbound_fails l j reason :
      (j, reason) ∈ inbound_failures -> said l = take j inbound_script ++ [inbound_error_line reason] ->
      inbound_ends (Ok 1%Z) l
  | inbound_interrupted l j e : said l = take j inbound_script -> inbound_ends (Raise e) l.

(** How a worker is disposed of. *)
Definition disposal (n : worker) (alive : bool) : list (event Z) :=
  if alive then [Worked n (Probed true); Worked n Killed; Worked n Joined] else [Worked n (Probed false)].

Definition inbound_cleanup (restarted : bool) (a b c : bool) : list (event Z) :=
  disposal Alpha a ++ disposal Beta b ++ (if restarted then disposal Restarted c else []) ++
  [Worked Alpha ConnectionClosed; Worked Beta ConnectionClosed] ++
  (if restarted then [Worked Restarted ConnectionClosed] else []).

Section parent.
Context {W : Type} `{Rclpy W Z Z} `{Workers W} (left : pyfloat -> W -> nat) (Hticks : ticks left).
Abbreviation state := (peer W Z (pyfloat * Z)).
Implicit Types s : state.

(** Waiting for a worker does not turn the clock back. *)
Record worker_ticks : Prop := {
  wt_poll : forall d n t w, left d (poll n t w).2 <= left d w;
  wt_recv : forall d n w, left d (recv n w).2 <= left d w;
  wt_alive : forall d n w, left d (is_alive n w).2 <= left d w
}.
Context (Hworkers : worker_ticks) (timeout : pyfloat) (Hpass : passes left timeout).

Definition at_stage (l : list (event Z)) (h : worker -> list string) s : Prop :=
  said (log s) = l /\ forall n, sublist (h n) (heard n (log s)).

Lemma stage_note l h s w i e :
  at_stage l h s -> at_stage (l ++ said [e]) h (Peer w i (log s ++ [e])).
Proof.
  intros [Hs Hh]. split; cbn [log].
  - unfold said in *. by rewrite omap_app, Hs.
  - intros n. unfold heard in *. rewrite omap_app. by apply sublist_inserts_r.
Qed.

Lemma stage_quiet l h s w i e : said [e] = [] -> at_stage l h s -> at_stage l h (Peer w i (log s ++ [e])).
Proof. intros He Hs. apply (stage_note _ _ _ w i e) in Hs. by rewrite He, app_nil_r in Hs. Qed.

Lemma stage_world l h s w i : at_stage l h s -> at_stage l h (Peer w i (log s)).
Proof. done. Qed.

Lemma stage_got l h s w i n m :
  at_stage l h s -> at_stage l (<[n := h n ++ [m]]> h) (Peer w i (log s ++ [Worked n (Got m)])).
Proof.
  intros Hs. pose proof (stage_quiet l h s w i (Worked n (Got m)) eq_refl Hs) as [Hsaid Hh]. split; [done|].
  intros k. destruct (decide (k = n)) as [->|Hk]; [|by rewrite fn_lookup_insert_ne].
  rewrite fn_lookup_insert. cbn [log]. unfold heard. rewrite omap_app. cbn. rewrite decide_True by done.
  apply sublist_app; [apply Hs|done].
Qed.

(** Waiting for a worker: it told what was expected, or it did not. *)
Lemma wait_for_worker_spec l h n expected (Q : res bool -> state -> Prop) s :
  at_stage l h s ->
  (forall s', at_stage l (<[n := h n ++ [expected]]> h) s' -> Q (Ok true) s') ->
  (forall s', at_stage l h s' -> Q (Ok false) s') ->
  (forall e s', at_stage l h s' -> Q (Raise e) s') ->
  twp (wait_for_worker n expected timeout) Q s.
Proof using Hticks Hworkers Hpass.
  intros Hs Htrue Hfalse Hraise. unfold wait_for_worker. apply twp_bind, twp_ask. cbn.
  pose proof (Hpass (world s)) as Hwait. cbn zeta in Hwait.
  generalize dependent (float_add (monotonic (world s)).1 timeout). intros deadline Hwait.
  apply (twp_iter _ (fun _ s => at_stage l h s) (fun _ s => left deadline (world s))); [|done].
  clear s Hs. intros [] s Hs. unfold wait_round. apply twp_bind, twp_ask. cbn.
  pose proof (Hwait (world s)) as Hc. destruct (monotonic (world s)) as [t w]. cbn [fst snd] in *.
  destruct (float_ltb t deadline); cbn [negb]; [|apply twp_ret; by apply Hfalse]. specialize (Hc eq_refl).
  apply twp_bind, twp_ask. cbn. pose proof (wt_poll Hworkers deadline n (float_ratio 1 10) w) as Hp.
  destruct (poll n (float_ratio 1 10) w) as [b w1]. cbn [fst snd] in *.
  assert (forall s1, at_stage l h s1 -> left deadline (world s1) < left deadline (world s) ->
    twp (alive ← ask (is_alive n); mret (if alive : bool then inl tt else inr false)) (fun r s' =>
      match r with
      | Ok (inl _) => at_stage l h s' /\ left deadline (world s') < left deadline (world s)
      | Ok (inr x) => Q (Ok x) s'
      | Raise e => Q (Raise e) s'
      end) s1) as Halive.
  { intros s1 H1 Hl1. apply twp_bind, twp_ask. cbn. pose proof (wt_alive Hworkers deadline n (world s1)).
    destruct (is_alive n (world s1)) as [a w2]. cbn [fst snd] in *. apply twp_ret.
    destruct a; [split; [done|cbn; lia]|by apply Hfalse]. }
  destruct b; apply twp_bind; [|apply twp_ret; apply Halive; [done|cbn; lia]].
  apply twp_bind, twp_try_ask. cbn. pose proof (wt_recv Hworkers deadline n w1).
  destruct (recv n w1) as [[m|e] w2]; cbn [fst snd] in *; [|by apply Hraise].
  apply twp_bind, twp_act. cbn. apply twp_ret. cbn. case_bool_decide as Hm.
  - subst m. apply twp_ret, Htrue. by apply (stage_got l h (Peer w2 (inbox s) (log s))).
  - case_bool_decide; [apply twp_ret, Hfalse; by apply (stage_quiet l h (Peer w2 (inbox s) (log s)))|].
    apply Halive; [by apply (stage_quiet l h (Peer w2 (inbox s) (log s)))|cbn; lia].
Qed.

Lemma terminate_worker_spec n s :
  twp (terminate_worker n) (fun r s' => r = Ok tt /\ exists b, log s' = log s ++ disposal n b) s.
Proof.
  apply twp_bind, twp_ask. cbn. destruct (is_alive n (world s)) as [b w]. cbn [fst snd].
  apply twp_bind, twp_act. cbn. destruct b.
  - apply twp_bind, twp_act. cbn. apply twp_act. cbn. split; [done|]. exists true. cbn. by rewrite <- !app_assoc.
  - apply twp_ret. split; [done|]. by exists false.
Qed.

Lemma terminate_stage l h n (Q : res unit -> state -> Prop) s :
  at_stage l h s -> (forall s', at_stage l h s' -> Q (Ok tt) s') -> twp (terminate_worker n) Q s.
Proof.
  intros Hs HQ. eapply twp_mono; [apply terminate_worker_spec|]. intros r s' (-> & b & Hl). apply HQ.
  destruct Hs as [Hsaid Hh]. split; rewrite Hl.
  - unfold said in *. rewrite omap_app, Hsaid. destruct b; cbn; by rewrite app_nil_r.
  - intros k. unfold heard in *. rewrite omap_app. by apply sublist_inserts_r.
Qed.

(** The rules of the steps that say something or take time. *)
Lemma say_stage l h line (Q : res unit -> state -> Prop) s :
  at_stage l h s -> (forall s', at_stage (l ++ [Out line]) h s' -> Q (Ok tt) s') -> twp (say line) Q s.
Proof. intros Hs HQ. apply twp_act, HQ. by apply stage_note. Qed.

Lemma rest_stage l h t (Q : res unit -> state -> Prop) s :
  at_stage l h s -> (forall s', at_stage l h s' -> Q (Ok tt) s') -> twp (rest_for t) Q s.
Proof. intros Hs HQ. apply twp_act, HQ. by apply stage_quiet. Qed.

Lemma try_stage {A} l h (f : W -> res A * W) (Q : res A -> state -> Prop) s :
  at_stage l h s -> (forall r s', at_stage l h s' -> Q r s') -> twp (try_ask f) Q s.
Proof. intros Hs HQ. apply twp_try_ask, HQ. done. Qed.

Lemma start_stage l h n profile (Q : res unit -> state -> Prop) s :
  at_stage l h s -> (forall s', at_stage (l ++ [Worked n (Started profile)]) h s' -> Q (Ok tt) s') ->
  (forall e s', at_stage l h s' -> Q (Raise e) s') -> twp (start_graph_worker n profile timeout) Q s.
Proof.
  intros Hs HQ HR. apply twp_bind, (try_stage l h); [done|]. intros [[]|e] s' Hs'; cbn; [|by apply HR].
  apply twp_act, HQ. by apply stage_note.
Qed.

Lemma command_stage l h n c (Q : res unit -> state -> Prop) s :
  at_stage l h s -> (forall s', at_stage (l ++ [Worked n (Commanded c)]) h s' -> Q (Ok tt) s') ->
  (forall e s', at_stage l h s' -> Q (Raise e) s') -> twp (command_worker n c) Q s.
Proof.
  intros Hs HQ HR. apply twp_bind, (try_stage l h); [done|]. intros [[]|e] s' Hs'; cbn; [|by apply HR].
  apply twp_act, HQ. by apply stage_note.
Qed.

Lemma both_stage l h n m expected expected' (Q : res bool -> state -> Prop) s :
  at_stage l h s ->
  (forall s', at_stage l (<[m := (<[n := h n ++ [expected]]> h) m ++ [expected']]> (<[n := h n ++ [expected]]> h)) s' -> Q (Ok true) s') ->
  (forall s' h', at_stage l h' s' -> Q (Ok false) s') ->
  (forall e s' h', at_stage l h' s' -> Q (Raise e) s') ->
  twp (both (wait_for_worker n expected timeout) (wait_for_worker m expected' timeout)) Q s.
Proof using Hticks Hworkers Hpass.
  intros Hs Ht Hf Hr. apply twp_bind, (wait_for_worker_spec l h); [done|..].
  - intros s1 H1. cbn. eapply wait_for_worker_spec; [exact H1|exact Ht|intros; by eapply Hf|intros; by eapply Hr].
  - intros s1 H1. cbn. apply twp_ret. by eapply Hf.
  - intros e s1 H1. cbn. by eapply Hr.
Qed.

Lemma fail_stage j h reason s :
  at_stage (take j inbound_script) h s -> (j, reason) ∈ inbound_failures ->
  twp (inbound_error reason) (fun r s' => inbound_ends r (log s')) s.
Proof.
  intros Hs Hj. apply twp_bind, twp_act. cbn. apply twp_ret. apply (inbound_fails _ j reason); [done|]. cbn [log].
  apply (stage_note _ _ _ (world s) (inbox s) (inbound_error_line reason)) in Hs as [Hs _]. exact Hs.
Qed.

Lemma raise_stage j h e s : at_stage (take j inbound_script) h s -> inbound_ends (Raise e) (log s).
Proof. intros [Hs _]. by apply (inbound_interrupted _ j). Qed.

(** A step of the parent: its rule, and the stage it leads to. *)
Ltac next_stage rule s Hs := apply twp_bind; eapply rule; [exact Hs|clear s Hs; intros s Hs|..].

(** What both workers told before they are lost. *)
Definition first_heard (n : worker) : list string := match n with Restarted => [] | _ => inbound_heard n end.

Lemma stage_heard l h h' s : at_stage l h s -> (forall n, h n = h' n) -> at_stage l h' s.
Proof. intros [Hs Hh] Heq. split; [done|]. intros n. by rewrite <- Heq. Qed.

Lemma inbound_restart_spec s :
  at_stage (take 6 inbound_script) first_heard s -> twp (inbound_restart timeout) (fun r s' => inbound_ends r (log s')) s.
Proof using Hticks Hworkers Hpass.
  intros Hs. next_stage start_stage s Hs.
  2: { intros e s' Hs'. by eapply (raise_stage 6). }
  next_stage both_stage s Hs.
  2: { intros s' h' Hs'. eapply (fail_stage 7); [exact Hs'|set_solver]. }
  2: { intros e s' h' Hs'. by eapply (raise_stage 7). }
  apply (stage_heard _ _ inbound_heard) in Hs; [|by intros []].
  next_stage say_stage s Hs.
  next_stage rest_stage s Hs.
  next_stage terminate_stage s Hs.
  next_stage say_stage s Hs.
  next_stage rest_stage s Hs.
  next_stage say_stage s Hs. destruct Hs as [Hs Hh].
  apply twp_ret. by apply inbound_passes.
Qed.

Lemma inbound_loss_spec s :
  at_stage (take 4 inbound_script) first_heard s -> twp (inbound_loss timeout) (fun r s' => inbound_ends r (log s')) s.
Proof using Hticks Hworkers Hpass.
  intros Hs. next_stage terminate_stage s Hs.
  next_stage say_stage s Hs.
  next_stage rest_stage s Hs.
  next_stage terminate_stage s Hs.
  next_stage say_stage s Hs.
  next_stage rest_stage s Hs. by apply inbound_restart_spec.
Qed.

Lemma inbound_body_spec s :
  at_stage (take 2 inbound_script) (fun _ => []) s -> twp (inbound_body timeout) (fun r s' => inbound_ends r (log s')) s.
Proof using Hticks Hworkers Hpass.
  intros Hs. next_stage both_stage s Hs.
  2: { intros s' h' Hs'. apply (fail_stage 2 h'); [done|set_solver]. }
  2: { intros e s' h' Hs'. by apply (raise_stage 2 h'). }
  next_stage wait_for_worker_spec s Hs.
  2: { intros s' Hs'. eapply (fail_stage 2); [exact Hs'|set_solver]. }
  2: { intros e s' Hs'. by eapply (raise_stage 2). }
  next_stage say_stage s Hs.
  next_stage rest_stage s Hs.
  next_stage command_stage s Hs.
  2: { intros e s' Hs'. by eapply (raise_stage 3). }
  next_stage wait_for_worker_spec s Hs.
  2: { intros s' Hs'. eapply (fail_stage 4); [exact Hs'|set_solver]. }
  2: { intros e s' Hs'. by eapply (raise_stage 4). }
  apply (stage_heard _ _ first_heard) in Hs; [|by intros []]. by apply inbound_loss_spec.
Qed.

(** The cleanup after the [try] block. *)
Lemma disposal_quiet n b : was_started Restarted (disposal n b) = false.
Proof. by destruct b. Qed.

Lemma was_started_app n l k : was_started n (l ++ k) = was_started n l || was_started n k.
Proof. apply existsb_app. Qed.

Lemma inbound_finally_spec s :
  twp inbound_finally (fun r s' => r = Ok tt /\
    exists a b c, log s' = log s ++ inbound_cleanup (was_started Restarted (log s)) a b c) s.
Proof.
  apply twp_bind. eapply twp_mono; [apply terminate_worker_spec|]. intros r s1 (-> & a & H1).
  apply twp_bind. eapply twp_mono; [apply terminate_worker_spec|]. intros r s2 (-> & b & H2).
  apply twp_bind, twp_act. rewrite H1 in H2. cbn [fst snd andthen].
  assert (was_started Restarted (log s2) = was_started Restarted (log s)) as ->
    by (by rewrite H2, !was_started_app, !disposal_quiet, !orb_false_r).
  unfold inbound_cleanup. destruct (was_started Restarted (log s)).
  - apply twp_bind. eapply twp_mono; [apply terminate_worker_spec|]. intros r s3 (-> & c & H3).
    apply twp_bind, twp_act. apply twp_bind, twp_act. apply twp_act. split; [done|]. exists a, b, c. cbn [log fst snd].
    by rewrite H3, H2, <- !app_assoc.
  - apply twp_bind, twp_ret. apply twp_bind, twp_act. apply twp_bind, twp_act. apply twp_ret. split; [done|].
    exists a, b, false. cbn [log fst snd]. by rewrite H2, <- !app_assoc.
Qed.

(** The whole role: nothing is left behind once both workers run. *)
Lemma run_graph_inbound_spec w :
  twp (run_graph_inbound timeout) (fun r s' =>
    (exists l a b c, inbound_ends r l /\ log s' = l ++ inbound_cleanup (was_started Restarted l) a b c) \/
    (exists e j, r = Raise e /\ j < 2 /\ log s' = take j inbound_script)) (Peer w [] []).
Proof using Hticks Hworkers Hpass.
  apply twp_bind, twp_bind, twp_try_ask. cbn. destruct (start_process Alpha "initial" timeout w) as [[[]|e] w1]; cbn [fst snd].
  2: { right. exists e, 0. split; [done|]. by split; [lia|]. }
  apply twp_act. cbn. apply twp_bind, twp_bind, twp_try_ask. cbn.
  destruct (start_process Beta "beta" timeout w1) as [[[]|e] w2]; cbn [fst snd].
  2: { right. exists e, 1. split; [done|]. by split; [lia|]. }
  apply twp_act. cbn. apply twp_finally. eapply twp_mono.
  { apply inbound_body_spec. split; [done|]. intros n. apply sublist_nil_l. }
  intros r s Hends. eapply twp_mono; [apply inbound_finally_spec|]. intros r' s' (-> & a & b & c & Hl). left.
  by exists (log s), a, b, c.
Qed.

End parent.

End GraphSpec.
