(* ===== verification/PeerMain.v ===== *)
(** * The Wi-Fi peer as a whole

    The outbound graph role announces a phase exactly after a look at the graph that
    shows it; every role ends, and whatever happens the node is destroyed and rclpy is
    shut down. *)

From Stdlib Require Import Ascii String.
From S2P Require Import Prelude PyStr PyFloat PyObj Clock Prog Rclpy WifiPeer WifiSpec GraphPeer GraphSpec.

Module PeerMain.
Import WifiPeer WifiSpec GraphPeer GraphSpec.

(** ** The outbound graph *)

(** A look at the topics of the device: what the graph answered, and what was seen. *)
Inductive looked : list (event Z) -> option (bool * bool) -> Prop :=
  | looked_away nodes : DEVICE_NODE ∉ nodes -> looked [Nodes nodes] None
  | looked_at nodes ps ss :
      DEVICE_NODE ∈ nodes ->
      looked [Nodes nodes; PublishersOf ps; SubscribersOf ss]
        (Some (bool_decide (GRAPH_LOCAL_TOPIC ∈ ps.*1), bool_decide (GRAPH_LOCAL_TOPIC ∈ ss.*1))).

(** A look that a query interrupted with an exception. *)
Inductive cut_look : list (event Z) -> Prop :=
  | cut_at_publishers nodes : DEVICE_NODE ∈ nodes -> cut_look [Nodes nodes]
  | cut_at_subscribers nodes ps : DEVICE_NODE ∈ nodes -> cut_look [Nodes nodes; PublishersOf ps].

(** A look at the nodes. *)
Definition node_look (x : list (event Z)) (nodes : list (string * string)) : Prop := x = [Nodes nodes].

(** The topic the device has on both sides, then only subscribes, then not at all. *)
Definition cycle_phases : list (string * (bool * bool)) :=
  [("pubsub", (true, true)); ("subscription_only", (false, true)); ("node_only", (false, false))].

Definition outbound_error (what : string) : event Z := Err ("ROS2_ZEPHYR_PEER_ERROR role=graph-outbound phase=" +:+ what).

(** The phases of a cycle: each is announced right after the first look that shows it;
    or the time is over without such a look, and what one more look shows is told; or
    a look is interrupted. *)
Inductive phases_end (cycle : Z) : list (string * (bool * bool)) -> res bool -> list (event Z) -> Prop :=
  | phases_done : phases_end cycle [] (Ok true) []
  | phases_next phase expected phases r x y :
      waited looked (fun o => o = Some expected) true x -> phases_end cycle phases r y ->
      phases_end cycle ((phase, expected) :: phases) r (x ++ Out (outbound_pass phase cycle) :: y)
  | phases_over phase expected phases x y o :
      waited looked (fun o => o = Some expected) false x -> looked y o ->
      phases_end cycle ((phase, expected) :: phases) (Ok false)
        (x ++ y ++ [outbound_error (phase +:+ " observed=" +:+ show_topic_state o)])
  | phases_cut phase expected phases x y e :
      unmatched looked (fun o => o = Some expected) x -> cut_look y ->
      phases_end cycle ((phase, expected) :: phases) (Raise e) (x ++ y).

(** A cycle passes when after its phases a look does not find the device's node. *)
Inductive cycle_ends (cycle : Z) : res Z -> list (event Z) -> Prop :=
  | cycle_passes x y :
      phases_end cycle cycle_phases (Ok true) x -> waited node_look (fun nodes => DEVICE_NODE ∉ nodes) true y ->
      cycle_ends cycle (Ok 0%Z) (x ++ y ++ [Out (outbound_pass "node_cleanup" cycle)])
  | cycle_left x y :
      phases_end cycle cycle_phases (Ok true) x -> waited node_look (fun nodes => DEVICE_NODE ∉ nodes) false y ->
      cycle_ends cycle (Ok 1%Z) (x ++ y ++ [outbound_error "node_cleanup"])
  | cycle_fails x : phases_end cycle cycle_phases (Ok false) x -> cycle_ends cycle (Ok 1%Z) x
  | cycle_interrupted x e : phases_end cycle cycle_phases (Raise e) x -> cycle_ends cycle (Raise e) x.

(** All cycles pass, or one of them does not. *)
Inductive cycles_end : list Z -> res Z -> list (event Z) -> Prop :=
  | cycles_done : cycles_end [] (Ok 0%Z) []
  | cycles_next c cs r x y : cycle_ends c (Ok 0%Z) x -> cycles_end cs r y -> cycles_end (c :: cs) r (x ++ y)
  | cycles_stop c cs r x : cycle_ends c r x -> r <> Ok 0%Z -> cycles_end (c :: cs) r x.

Section outbound.
Context {W : Type} `{Rclpy W Z Z} (left : pyfloat -> W -> nat) (Hticks : ticks left).
Abbreviation state := (peer W Z (pyfloat * Z)).
Implicit Types s : state.

(** A program that adds to the log what [R] says of its result. *)
Definition adds {A} (R : res A -> list (event Z) -> Prop) s (r : res A) s' : Prop := exists x, log s' = log s ++ x /\ R r x.

Lemma has_local_topic_spec l : has_local_topic l = bool_decide (GRAPH_LOCAL_TOPIC ∈ l.*1).
Proof.
  unfold has_local_topic. induction l as [|[n ts] l IH]; [done|]. cbn. rewrite IH.
  repeat case_bool_decide; set_solver.
Qed.

Lemma topic_state_spec s :
  twp device_topic_state (fun r s' => inbox s' = inbox s /\ later left s s' /\
    adds (fun r x => match r with Ok o => looked x o | Raise _ => cut_look x end) s r s') s.
Proof using Hticks.
  apply twp_bind, twp_bind, twp_query. cbn [andthen]. apply twp_ret. cbn [andthen].
  pose proof (fun d => tk_names left Hticks d (world s)) as H1.
  destruct (get_node_names_and_namespaces (world s)) as [nodes w1]. cbn [fst snd] in *.
  case_bool_decide as Hn; cbn [negb].
  2: { apply twp_ret. split; [done|]. split; [done|]. eexists. split; [done|]. by constructor. }
  apply twp_bind, twp_try_query. cbn [world inbox log]. pose proof (fun d => tk_pubs left Hticks d DEVICE_NODE w1) as H2.
  destruct (get_publisher_names_and_types_by_node DEVICE_NODE w1) as [[ps|e] w2]; cbn [fst snd andthen] in *.
  2: { split; [done|]. split; [intros d; specialize (H1 d); specialize (H2 d); cbn; lia|]. eexists. split; [done|]. by constructor. }
  apply twp_bind, twp_try_query. cbn [world inbox log]. pose proof (fun d => tk_subs left Hticks d DEVICE_NODE w2) as H3.
  destruct (get_subscriber_names_and_types_by_node DEVICE_NODE w2) as [[ss|e] w3]; cbn [fst snd andthen] in *;
    [apply twp_ret; rewrite !has_local_topic_spec|]; (split; [done|]);
    (split; [intros d; specialize (H1 d); specialize (H2 d); specialize (H3 d); cbn; lia|]);
    (eexists; split; [cbn [log]; by rewrite <- !app_assoc|]); by constructor.
Qed.

Lemma topic_state_judges expected :
  judges left looked (fun o => o = Some expected) cut_look (x ← device_topic_state; mret (bool_decide (x = Some expected))).
Proof using Hticks.
  intros s. apply twp_bind. eapply twp_mono; [apply topic_state_spec|]. intros [o|e] s' (Hi & Hl & x & Hx & Ho); cbn [andthen].
  - apply twp_ret. split; [done|]. split; [done|]. exists x. split; [done|]. exists o. by rewrite bool_decide_eq_true.
  - split; [done|]. split; [done|]. by exists x.
Qed.

Lemma node_gone_judges :
  judges left node_look (fun nodes => DEVICE_NODE ∉ nodes) (fun _ => False) (v ← device_node_visible; mret (negb v)).
Proof using Hticks.
  intros s. apply twp_bind, twp_bind, twp_query. cbn [andthen]. apply twp_ret. cbn [andthen]. apply twp_ret.
  split; [done|]. split; [intros d; apply (tk_names left Hticks)|]. eexists. split; [done|]. eexists. split; [done|].
  by rewrite negb_true_iff, bool_decide_eq_false.
Qed.

Lemma observe_phases_spec cycle timeout phases s :
  passes left timeout -> twp (observe_phases timeout cycle phases) (adds (phases_end cycle phases) s) s.
Proof using Hticks.
  intros Hpass. revert s. induction phases as [|[phase expected] phases IH]; intros s; cbn [observe_phases].
  { apply twp_ret. exists []. rewrite app_nil_r. split; [done|constructor]. }
  apply twp_bind. eapply twp_mono; [apply (wait_spec left Hticks looked); [done|apply topic_state_judges]|].
  intros [found|e] s1 (_ & x & H1 & Hx); cbn [andthen].
  2: { destruct Hx as (l & y & -> & Hl & Hy). exists (l ++ y). split; [done|]. by constructor. }
  destruct found; cbn [negb].
  - apply twp_bind, twp_act. cbn [andthen fst snd]. eapply twp_mono; [apply IH|]. intros r s2 (y & H2 & Hy). cbn [log] in H2.
    exists (x ++ Out (outbound_pass phase cycle) :: y). rewrite H2, H1, <- !app_assoc. split; [done|]. by constructor.
  - apply twp_bind. eapply twp_mono; [apply topic_state_spec|]. intros [o|e] s2 (_ & _ & y & H2 & Hy); cbn [andthen].
    + apply twp_bind, twp_act. cbn [andthen fst snd]. apply twp_ret. eexists. cbn [log]. rewrite H2, H1, <- !app_assoc.
      split; [done|]. by constructor.
    + exists (x ++ y). rewrite H2, H1, <- app_assoc. split; [done|]. inversion Hx; subst. by constructor.
Qed.

Lemma run_graph_outbound_spec timeout cycle s :
  passes left timeout -> twp (run_graph_outbound timeout cycle) (adds (cycle_ends cycle) s) s.
Proof using Hticks.
  intros Hpass. apply twp_bind. eapply twp_mono; [by apply observe_phases_spec|]. intros [[]|e] s1 (x & H1 & Hx); cbn [andthen negb].
  - apply twp_bind. eapply twp_mono; [apply (wait_spec left Hticks node_look); [done|apply node_gone_judges]|].
    intros [[]|e] s2 (_ & y & H2 & Hy); cbn [andthen negb]; [| |by destruct Hy as (? & ? & _ & _ & [])];
      apply twp_bind, twp_act; apply twp_ret; (eexists; cbn [log snd]; split; [by rewrite H2, H1, <- !app_assoc|]); by constructor.
  - apply twp_ret. exists x. split; [done|]. by constructor.
  - exists x. split; [done|]. by constructor.
Qed.

Lemma outbound_cycles_spec timeout cycles s :
  passes left timeout -> twp (outbound_cycles timeout cycles) (adds (cycles_end cycles) s) s.
Proof using Hticks.
  intros Hpass. revert s. induction cycles as [|c cycles IH]; intros s; cbn [outbound_cycles].
  { apply twp_ret. exists []. rewrite app_nil_r. split; [done|constructor]. }
  apply twp_bind. eapply twp_mono; [by apply run_graph_outbound_spec|]. intros r s1 (x & H1 & Hx).
  destruct r as [z|e]; cbn [andthen]; [|exists x; split; [done|by constructor]].
  destruct (decide (z = 0%Z)) as [->|Hz].
  - rewrite Z.eqb_refl. cbn [negb]. eapply twp_mono; [apply IH|]. intros r s2 (y & H2 & Hy). exists (x ++ y).
    rewrite H2, H1, <- app_assoc. split; [done|]. by constructor.
  - rewrite (proj2 (Z.eqb_neq z 0) Hz). cbn [negb].
    assert (z = 1%Z) as -> by (inversion Hx; by subst). apply twp_ret. exists x. split; [done|]. by constructor.
Qed.

End outbound.

(** ** What was done is not undone *)

Section appends.
Context {W M C I : Type} `{Rclpy W M C}.
Abbreviation state := (peer W C I).

(** A program only adds to what was done. *)
Class Appends {A} (m : prog state A) : Prop :=
  appends : forall fuel s r s', m fuel s = Some (r, s') -> exists x, log s' = log s ++ x.

#[export] Instance appends_ret {A} (a : A) : Appends (mret a).
Proof. intros fuel s r s' [= <- <-]. exists []. by rewrite app_nil_r. Qed.

#[export] Instance appends_bind {A B} (m : prog state A) (k : A -> prog state B) :
  Appends m -> (forall a, Appends (k a)) -> Appends (m ≫= k).
Proof.
  intros Hm Hk fuel s r s' E. unfold mbind, prog_bind in E. destruct (m fuel s) as [[[a|e] s1]|] eqn:E1; [| |done].
  - apply Hm in E1 as [x Hx]. apply Hk in E as [y Hy]. exists (x ++ y). by rewrite Hy, Hx, app_assoc.
  - injection E as <- <-. by apply Hm in E1.
Qed.

#[export] Instance appends_if {A} (b : bool) (m1 m2 : prog state A) : Appends m1 -> Appends m2 -> Appends (if b then m1 else m2).
Proof. by destruct b. Qed.

#[export] Instance appends_option {A B} (o : option A) (m1 : A -> prog state B) (m2 : prog state B) :
  (forall a, Appends (m1 a)) -> Appends m2 -> Appends (match o with Some a => m1 a | None => m2 end).
Proof. intros H1 H2. destruct o; [apply H1|apply H2]. Qed.

#[export] Instance appends_ask {A} (f : W -> A * W) : Appends (ask f).
Proof. intros fuel s r s' E. unfold ask, act in E. destruct (f (world s)). injection E as <- <-. exists []. by rewrite app_nil_r. Qed.

#[export] Instance appends_try_ask {A} (f : W -> res A * W) : Appends (try_ask f).
Proof. intros fuel s r s' E. unfold try_ask, try_act in E. destruct (f (world s)). injection E as <- <-. exists []. by rewrite app_nil_r. Qed.

#[export] Instance appends_note e : Appends (note e).
Proof. intros fuel s r s' [= <- <-]. by eexists. Qed.

#[export] Instance appends_query {A} (f : W -> A * W) answer : Appends (query f answer).
Proof. unfold query. apply _. Qed.

#[export] Instance appends_try_query {A} (f : W -> res A * W) answer : Appends (try_query f answer).
Proof. unfold try_query. apply _. Qed.

#[export] Instance appends_send c : Appends (send c).
Proof. intros fuel s r s' [= <- <-]. by eexists. Qed.

#[export] Instance appends_call f : Appends (call f).
Proof. intros fuel s r s' [= <- <-]. by eexists. Qed.

#[export] Instance appends_item x : Appends (receive_item x).
Proof. intros fuel s r s' [= <- <-]. exists []. by rewrite app_nil_r. Qed.

#[export] Instance appends_inbox : Appends get_inbox.
Proof. intros fuel s r s' [= <- <-]. exists []. by rewrite app_nil_r. Qed.

#[export] Instance appends_iter {L R} (body : L -> prog state (L + R)) l : (forall l, Appends (body l)) -> Appends (iter body l).
Proof.
  intros Hb fuel. unfold iter. generalize fuel at 1 as n. intros n. revert l. induction n as [|n IH]; intros l s r s' E; [done|].
  cbn in E. destruct (body l fuel s) as [[[[l1|x]|e] s1]|] eqn:E1; [|injection E as <- <-; by apply Hb in E1..|done].
  apply Hb in E1 as [x Hx]. apply IH in E as [y Hy]. exists (x ++ y). by rewrite Hy, Hx, app_assoc.
Qed.

#[export] Instance appends_for_each {A} (l : list A) (body : A -> prog state unit) :
  (forall x, Appends (body x)) -> Appends (for_each l body).
Proof. intros Hb. induction l as [|x l IH]; cbn [for_each]; apply _. Qed.

#[export] Instance appends_spin (callback : M -> prog state unit) t : (forall x, Appends (callback x)) -> Appends (spin callback t).
Proof. unfold spin. apply _. Qed.

#[export] Instance appends_wait_until (callback : M -> prog state unit) condition timeout :
  (forall x, Appends (callback x)) -> Appends condition -> Appends (wait_until callback condition timeout).
Proof. unfold wait_until, now. apply _. Qed.

#[export] Instance appends_spin_until (callback : M -> prog state unit) duration t :
  (forall x, Appends (callback x)) -> Appends (spin_until callback duration t).
Proof. unfold spin_until, now. apply _. Qed.

Lemma twp_appends {A} (m : prog state A) `{!Appends m} Q s :
  twp m Q s -> twp m (fun r s' => Q r s' /\ exists x, log s' = log s ++ x) s.
Proof.
  intros (n & r & s' & Hrun & HQ). exists n, r, s'. split; [done|]. split; [done|]. by apply (appends (m := m) n s r s'), Hrun.
Qed.

End appends.

(** ** The program *)

Section program.
Context {W : Type} `{Rclpy W Z Z} `{Workers W} (left : pyfloat -> W -> nat) (Hticks : ticks left) (Hworkers : worker_ticks left).
Abbreviation state := (peer W Z (pyfloat * Z)).

#[export] Instance publish_samples_appends rate n l : Appends (W := W) (publish_samples rate n l).
Proof. revert n. induction l as [|x l IH]; intros n; cbn [publish_samples]; unfold publish_sample, say; apply _. Qed.

#[export] Instance publish_rates_appends n l : Appends (W := W) (publish_rates n l).
Proof. revert n. induction l as [|[rate k] l IH]; intros n; cbn [publish_rates]; apply _. Qed.

#[export] Instance publisher_appends timeout reliability durability depth skip :
  Appends (W := W) (run_publisher timeout reliability durability depth skip).
Proof.
  unfold run_publisher, publish_history, wait_for_subscriber, publish_matched, publish_live, await_completion, say, complain, now, no_callback.
  apply _.
Qed.

#[export] Instance subscribe_appends timeout reliability durability depth : Appends (W := W) (subscribe timeout reliability durability depth).
Proof. unfold subscribe, collect, receive, say, complain, now. apply _. Qed.

#[export] Instance subscriber_appends timeout reliability durability depth :
  Appends (W := W) (run_subscriber timeout reliability durability depth).
Proof. unfold run_subscriber, wait_for_publisher, say, complain, no_callback. apply _. Qed.

(** Arguments that are refused, and why: the first reason counts. *)
Definition refused (a : args) (msg : string) : Prop :=
  (a_depth a <= 0 /\ msg = "--depth must be a positive integer" \/
   0 < a_depth a /\ a_cycles a <= 0 /\ msg = "--cycles must be a positive integer" \/
   0 < a_depth a /\ 1 < a_cycles a /\ a_role a <> GraphOutbound /\ msg = "--cycles is only valid for graph-outbound")%Z.

Lemma bad_arguments_spec a :
  match bad_arguments a with Some msg => refused a msg | None => forall msg, ~ refused a msg end.
Proof.
  unfold bad_arguments, refused. destruct (Z.leb_spec (a_depth a) 0); [by left|].
  destruct (Z.leb_spec (a_cycles a) 0); [right; by left|].
  destruct (Z.eqb_spec (a_cycles a) 1); cbn [negb andb]; [intros msg; lia|].
  case_bool_decide; cbn [negb]; [intros msg Hr; destruct Hr as [[? ?]|[(? & ? & ?)|(? & ? & ? & ?)]]; lia || done|].
  right. right. repeat split; lia || done.
Qed.

(** The node of a role. *)
Definition node_of (r : role) : string :=
  match r with
  | Pub => "ros2_zephyr_wifi_peer_pub"
  | Sub => "ros2_zephyr_wifi_peer_sub"
  | GraphOutbound => "ros2_zephyr_wifi_peer_graph_outbound"
  | GraphInbound => "ros2_zephyr_wifi_peer_graph_inbound"
  end.

Definition main_opening (a : args) : list (event Z) := [Called Init; Called (CreateNode (node_of (a_role a)) EmptyString)].

(** The cycles of the outbound role, from one on. *)
Definition cycle_numbers (a : args) : list Z := Z.of_nat <$> seq 1 (Z.to_nat (a_cycles a)).

Lemma zrange_numbers a : zrange 1 (a_cycles a + 1) = cycle_numbers a.
Proof.
  unfold zrange, cycle_numbers. rewrite Z.add_simpl_r, <- fmap_S_seq, <- list_fmap_compose. apply list_fmap_ext.
  intros _ i _. cbn. lia.
Qed.

(** How each role ends, before the node is destroyed. *)
Definition role_ends (a : args) (r : res Z) (s : state) : Prop :=
  match a_role a with
  | Pub => publisher_ends (a_reliability a) (a_durability a) (a_depth a) (a_skip_match a) r s
  | Sub => subscriber_role (a_reliability a) (a_durability a) (a_depth a) r s
  | _ => exists x, log s = main_opening a ++ x /\ cycles_end (cycle_numbers a) r x
  end.

(** What a run of the program leaves. *)
Definition main_ends (a : args) (r : res Z) (s' : state) : Prop :=
  (exists msg, refused a msg /\ r = Ok 2%Z /\ log s' = [Err msg]) \/
  ((forall msg, ~ refused a msg) /\
   match a_role a with
   | GraphInbound =>
       (exists l x y z, inbound_ends r l /\ log s' = l ++ inbound_cleanup (was_started Restarted l) x y z) \/
       (exists e j, r = Raise e /\ j < 2 /\ log s' = take j inbound_script)
   | _ =>
       exists s, role_ends a r s /\ (exists x, log s = main_opening a ++ x) /\ inbox s' = inbox s /\
         log s' = log s ++ [Called DestroyNode; Called Shutdown]
   end).

Lemma run_role_spec a w :
  passes left (a_timeout a) -> a_role a <> GraphInbound ->
  twp (run_role a) (fun r s => role_ends a r s /\ exists x, log s = main_opening a ++ x) (Peer w [] (main_opening a)).
Proof using Hticks.
  intros Hpass Hrole. unfold run_role, role_ends. destruct (a_role a) eqn:E; [..|done].
  - apply twp_appends; [apply _|]. by apply (run_publisher_spec left Hticks).
  - apply twp_appends; [apply _|]. by apply (run_subscriber_spec left Hticks).
  - rewrite zrange_numbers. eapply twp_mono; [by apply (outbound_cycles_spec left Hticks)|].
    intros r s (x & Hl & Hx). split; by exists x.
Qed.

Lemma peer_main_spec a w :
  ((forall msg, ~ refused a msg) -> passes left (a_timeout a)) -> twp (main a) (main_ends a) (Peer w [] []).
Proof using Hticks Hworkers.
  intros Hpass. unfold main, main_ends. pose proof (bad_arguments_spec a) as Hbad. destruct (bad_arguments a) as [msg|].
  { apply twp_bind, twp_act. apply twp_ret. left. by exists msg. }
  specialize (Hpass Hbad). destruct (decide (a_role a = GraphInbound)) as [Hr|Hr].
  - rewrite Hr, bool_decide_true by done. eapply twp_mono; [by apply (run_graph_inbound_spec left Hticks Hworkers)|].
    intros r s Hs. by right.
  - rewrite bool_decide_false by done. apply twp_bind, twp_act. apply twp_bind, twp_act. apply twp_finally.
    assert (forall w, Peer w [] [Called Init; Called (CreateNode ("ros2_zephyr_wifi_peer_" +:+ role_name (a_role a)) EmptyString)] =
      Peer w [] (main_opening a) :> state) as Ho by (intros; unfold main_opening; by destruct (a_role a)).
    cbn -[run_role main_opening]. rewrite Ho.
    eapply twp_mono; [by apply run_role_spec|]. intros r s (Hs & Hx). apply twp_bind, twp_act. apply twp_act. right. split; [done|].
    destruct (a_role a) eqn:E; [..|done]; (exists s; split; [done|]; split; [exact Hx|]; split; [done|]; cbn; by rewrite <- app_assoc).
Qed.

End program.

End PeerMain.
