(* ===== verification/System.v ===== *)
(** * The inbound graph with its workers

    The parent of the inbound graph role and the workers that it starts, composed:
    [multiprocessing] is given by processes that run [graph_inbound_worker] and by
    pipes that keep their messages in order.  A schedule decides which processes make
    a pass of their loop while the parent waits.  What rclpy shows to a process, and
    the clock of the parent, are parameters. *)

From Stdlib Require Import Ascii String.
From stdpp Require Import functions.
From S2P Require Import Prelude PyStr PyFloat PyObj Clock Prog Rclpy WifiPeer Worker GraphPeer.

Module System.
Import WifiPeer Worker GraphPeer.

(** ** The pipe of a process *)

(** What rclpy shows to the process, the messages on their way to the parent and the
    commands on their way from it. *)
Record pipe (D : Type) := Pipe { view : D; outgoing : list string; incoming : list string }.
Arguments Pipe {D} view outgoing incoming.
Arguments view {D} p.
Arguments outgoing {D} p.
Arguments incoming {D} p.

Section pipe.
Context {D : Type} `{Rclpy D Z Z}.

Definition set_view (d : D) (p : pipe D) : pipe D := Pipe d (outgoing p) (incoming p).
Definition through {A} (f : D -> A * D) (p : pipe D) : A * pipe D := let '(a, d) := f (view p) in (a, set_view d p).

#[export] Instance pipe_rclpy : Rclpy (pipe D) Z Z := {
  monotonic := through monotonic;
  spin_once := fun t => through (spin_once t);
  publish := fun c p => set_view (publish c (view p)) p;
  get_subscription_count := through get_subscription_count;
  get_publishers_info_by_topic := fun t => through (get_publishers_info_by_topic t);
  get_node_names_and_namespaces := through get_node_names_and_namespaces;
  get_publisher_names_and_types_by_node := fun n => through (get_publisher_names_and_types_by_node n);
  get_subscriber_names_and_types_by_node := fun n => through (get_subscriber_names_and_types_by_node n);
  ros := fun c p => set_view (ros c (view p)) p
}.

(** A command is read in the order it was sent; the parent keeps its end open. *)
#[export] Instance pipe_connection : Connection (pipe D) := {
  conn_send := fun m p => (Ok tt, Pipe (view p) (outgoing p ++ [m]) (incoming p));
  conn_poll := fun p => (Ok (match incoming p with [] => false | _ => true end), p);
  conn_recv := fun p => match incoming p with
    | [] => (Raise EOFError, p)
    | c :: l => (Ok c, Pipe (view p) (outgoing p) l)
    end
}.

(** ** Processes *)

(** A process before its loop, in its loop, and ended. *)
Inductive mode :=
  | Booting (profile : string) (timeout : pyfloat)
  | Looping (deadline : pyfloat) (v : worker_vars)
  | Over.

Record process := Process { status : mode; inside : peer (pipe D) Z (pyfloat * Z) }.

(** The [finally] block of the worker. *)
Definition cleaned (s : peer (pipe D) Z (pyfloat * Z)) : peer (pipe D) Z (pyfloat * Z) :=
  match (call DestroyNode ;; call Shutdown) 0 s with Some (_, s) => s | None => s end.

(** A turn of a process: what it does before its loop, or one pass of the loop.
    Neither waits, so that no fuel is needed. *)
Definition turn (p : process) : process :=
  match status p with
  | Booting profile timeout =>
      match worker_begin profile timeout 0 (inside p) with
      | Some (Ok (v, deadline), s) => Process (Looping deadline v) s
      | Some (Raise _, s) => Process Over s
      | None => p
      end
  | Looping deadline v =>
      match worker_round deadline v 0 (inside p) with
      | Some (Ok (inl v), s) => Process (Looping deadline v) s
      | Some (_, s) => Process Over (cleaned s)
      | None => p
      end
  | Over => p
  end.

End pipe.
Arguments process : clear implicits.

(** ** The system *)

(** The parent's clock, the turns that the schedule has left, what rclpy shows to each
    process when it starts, and the processes. *)
Record system (C D : Type) := SystemState {
  clock : C;
  turns : list (list worker);
  first_view : worker -> D;
  processes : worker -> option (process D)
}.
Arguments SystemState {C D} clock turns first_view processes.
Arguments clock {C D} s.
Arguments turns {C D} s.
Arguments first_view {C D} s.
Arguments processes {C D} s.

(** What sleeping does to the clock. *)
Class Sleep (C : Type) := { nap : pyfloat -> C -> C }.

Section system.
Context {C D : Type} `{Rclpy C Z Z} `{Sleep C} `{Rclpy D Z Z}.
Implicit Types w : system C D.

Definition set_clock (c : C) w : system C D := SystemState c (turns w) (first_view w) (processes w).
Definition on_clock {A} (f : C -> A * C) w : A * system C D := let '(a, c) := f (clock w) in (a, set_clock c w).
Definition set_process (n : worker) (p : process D) w : system C D :=
  SystemState (clock w) (turns w) (first_view w) (<[n := Some p]> (processes w)).

(** The parent uses the clock of its rclpy, and nothing else of it in this role. *)
#[export] Instance system_rclpy : Rclpy (system C D) Z Z := {
  monotonic := on_clock monotonic;
  spin_once := fun t => on_clock (spin_once t);
  publish := fun c w => set_clock (publish c (clock w)) w;
  get_subscription_count := on_clock get_subscription_count;
  get_publishers_info_by_topic := fun t => on_clock (get_publishers_info_by_topic t);
  get_node_names_and_namespaces := on_clock get_node_names_and_namespaces;
  get_publisher_names_and_types_by_node := fun n => on_clock (get_publisher_names_and_types_by_node n);
  get_subscriber_names_and_types_by_node := fun n => on_clock (get_subscriber_names_and_types_by_node n);
  ros := fun c w => set_clock (ros c (clock w)) w
}.

(** A process makes a turn when it was started. *)
Definition give_turn w (n : worker) : system C D :=
  match processes w n with Some p => set_process n (turn p) w | None => w end.

(** The schedule's next turns. *)
Definition pass_time w : system C D :=
  match turns w with
  | [] => w
  | l :: rest => foldl give_turn (SystemState (clock w) rest (first_view w) (processes w)) l
  end.

Definition alive (p : process D) : bool := match status p with Over => false | _ => true end.

(** Something can be read: a message, or the end of a pipe that was closed. *)
Definition readable (p : process D) : bool :=
  match outgoing (world (inside p)) with [] => negb (alive p) | _ => true end.
Definition readable_at (n : worker) w : bool := match processes w n with Some p => readable p | None => false end.

Definition start_process_at (n : worker) (profile : string) (timeout : pyfloat) w : res unit * system C D :=
  (Ok tt, set_process n (Process (Booting profile timeout) (Peer (Pipe (first_view w n) [] []) [] [])) w).

(** A poll waits while others, and at least once the process itself, make turns. *)
Definition poll_at (n : worker) w : bool * system C D :=
  let w := pass_time w in
  let w := if readable_at n w then w else give_turn w n in
  (readable_at n w, w).

(** [recv] after a poll that said yes: the next message, or [EOFError] at the end of a
    pipe that was closed. *)
Definition recv_at (n : worker) w : res string * system C D :=
  match processes w n with
  | Some (Process m (Peer (Pipe d (x :: out) inc) i l)) => (Ok x, set_process n (Process m (Peer (Pipe d out inc) i l)) w)
  | _ => (Raise EOFError, w)
  end.

Definition send_at (n : worker) (c : string) w : res unit * system C D :=
  match processes w n with
  | Some (Process m (Peer (Pipe d out inc) i l)) =>
      match m with
      | Over => (Raise (OSError "Broken pipe"), w)
      | _ => (Ok tt, set_process n (Process m (Peer (Pipe d out (inc ++ [c])) i l)) w)
      end
  | None => (Raise (OSError "Broken pipe"), w)
  end.

Definition kill_at (n : worker) w : system C D :=
  match processes w n with Some p => set_process n (Process Over (inside p)) w | None => w end.

Definition alive_at (n : worker) w : bool := match processes w n with Some p => alive p | None => false end.

#[export] Instance system_workers : Workers (system C D) := {
  start_process := start_process_at;
  poll := fun n _ => poll_at n;
  recv := recv_at;
  send_to := send_at;
  is_alive := fun n w => (alive_at n w, w);
  kill := kill_at;
  join := fun _ _ w => w;
  close_connection := fun _ w => w;
  sleep := fun t w => pass_time (set_clock (nap t (clock w)) w)
}.

End system.

End System.
