(* ===== verification/SystemSpec.v ===== *)
(** * The inbound graph passes

    The parent and its workers agree on their protocol: when the device appears before
    the workers give up, and the parent polls often enough before it does, the inbound
    graph role passes under every schedule. *)

From Stdlib Require Import Ascii String.
From stdpp Require Import functions.
From S2P Require Import Prelude PyStr PyFloat PyObj Clock Prog Rclpy WifiPeer WifiSpec Worker WorkerSpec GraphPeer GraphSpec System.

Module SystemSpec.
Import WifiPeer WifiSpec Worker WorkerSpec GraphPeer GraphSpec System.

#[local] Arguments told : simpl never.
#[local] Arguments said : simpl never.

(** ** What a process may see *)

Section view.
Context {D : Type} `{Rclpy D Z Z}.

(** What a worker does to its view. *)
Inductive view_step (d : D) : D -> Prop :=
  | step_clock : view_step d (monotonic d).2
  | step_spin t : view_step d (spin_once t d).2
  | step_names : view_step d (get_node_names_and_namespaces d).2
  | step_ros c : view_step d (ros c d).

(** The device appears after a number of spins, before a worker that looks for it
    gives up. *)
Record appears (unseen : D -> nat) (timeout : pyfloat) : Prop := {
  ap_steps : forall d d', view_step d d' -> unseen d' <= unseen d;
  ap_spin : forall t d, 0 < unseen d -> unseen (spin_once t d).2 < unseen d;
  ap_seen : forall d, unseen d = 0 -> DEVICE_NODE ∈ (get_node_names_and_namespaces d).1;
  ap_early : forall d0 d, rtc view_step d0 d -> DEVICE_NODE ∉ (get_node_names_and_namespaces d).1 ->
    float_geb (monotonic (get_node_names_and_namespaces d).2).1 (float_add (monotonic d0).1 timeout) = false
}.

Context (unseen : D -> nat) (timeout : pyfloat) (Happears : appears unseen timeout).

(** ** What a process may have done *)

Inductive stage := Fresh | Looking | Seen | Asked | Reduced.

#[export] Instance stage_eq_dec : EqDecision stage.
Proof. solve_decision. Defined.

Definition told_by (st : stage) : list string :=
  match st with
  | Fresh => []
  | Looking => ["ready"]
  | Seen | Asked => ["ready"; "visible"]
  | Reduced => ["ready"; "visible"; "reduced"]
  end.

Definition vars_of (profile : string) (reported : bool) : worker_vars :=
  WorkerVars (profile_endpoints profile).1 (profile_endpoints profile).2 reported.

Definition mode_is (profile : string) (st : stage) (d : D) (m : mode) : Prop :=
  match st with
  | Fresh => m = Booting profile timeout
  | Looking => exists d0, rtc view_step d0 d /\ m = Looping (float_add (monotonic d0).1 timeout) (vars_of profile false)
  | Seen => exists dl, m = Looping dl (vars_of profile true)
  | Asked => exists dl, m = Looping dl (vars_of profile true) /\ profile = "initial"
  | Reduced => exists dl v, m = Looping dl v /\ visibility_reported v = true
  end.

(** A process at a stage, of whose messages the parent has received some: the others
    are on their way, in order. *)
Record at_work (profile : string) (st : stage) (received : list string) (p : process D) : Prop := {
  aw_mode : mode_is profile st (view (world (inside p))) (status p);
  aw_told : told (log (inside p)) = told_by st;
  aw_outgoing : told_by st = received ++ outgoing (world (inside p));
  aw_incoming : incoming (world (inside p)) = match st with Asked => ["reduce"] | _ => [] end
}.

(** The stages that follow one another. *)
Inductive follows : stage -> stage -> Prop :=
  | begins : follows Fresh Looking
  | looks_on : follows Looking Looking
  | sees : follows Looking Seen
  | waits : follows Seen Seen
  | reduces : follows Asked Reduced
  | waits_on : follows Reduced Reduced.

(** The turns until the next message. *)
Definition rank (st : stage) (d : D) : nat :=
  match st with Fresh => S (S (unseen d)) | Looking => S (unseen d) | Asked => 1 | _ => 0 end.
Definition rank_of (st : stage) (p : process D) : nat := rank st (view (world (inside p))).

(** Programs that do not loop, run. *)
Ltac run_prog :=
  repeat progress (cbv beta iota delta [mbind prog_bind mret prog_ret act try_act modify ask try_ask note call tell now spin
    create_graph_node create_publisher create_subscription device_node_visible query no_callback]; cbn).

(** What a process does before its loop. *)
Lemma begin_run profile d out inc i l :
  let d0 := foldl (fun d c => ros c d) d (profile_calls profile) in
  worker_begin profile timeout 0 (Peer (Pipe d out inc) i l) =
  Some (Ok (vars_of profile false, float_add (monotonic d0).1 timeout),
        Peer (Pipe (monotonic d0).2 (out ++ ["ready"]) inc) i (l ++ (Called <$> profile_calls profile) ++ [Told "ready"])).
Proof.
  unfold worker_begin, create_endpoints, profile_calls, profile_node, vars_of, profile_endpoints.
  case_bool_decide; [|case_bool_decide]; run_prog; unfold through, set_view; cbn;
    match goal with |- context [monotonic ?x] => destruct (monotonic x) as [t d1] end; cbn; by rewrite <- !app_assoc.
Qed.

Lemma unseen_calls d cs : unseen (foldl (fun d c => ros c d) d cs) <= unseen d.
Proof using Happears.
  revert d. induction cs as [|c cs IH]; intros d; [done|]. cbn. etransitivity; [apply IH|].
  apply (ap_steps _ _ Happears), step_ros.
Qed.

Lemma boot_turn profile received p : at_work profile Fresh received p ->
  at_work profile Looking received (turn p) /\ rank_of Looking (turn p) < rank_of Fresh p.
Proof using Happears.
  destruct p as [m [[d out inc] i l]]. intros [Hm Ht Ho Hi]. cbn in *. subst m inc.
  unfold turn. cbn [status inside]. rewrite begin_run. pose proof (unseen_calls d (profile_calls profile)) as Hu.
  pose proof (told_calls (profile_calls profile)) as Hk. set (k := Called <$> profile_calls profile) in *.
  set (d0 := foldl _ _ _) in *. pose proof (ap_steps _ _ Happears d0 _ (step_clock d0)) as Hc. clearbody k d0. split; [split|]; cbn.
  - exists d0. split; [|done]. apply rtc_once, step_clock.
  - by rewrite !told_app, Hk, Ht.
  - by rewrite app_assoc, <- Ho.
  - done.
  - unfold rank_of. cbn. lia.
Qed.

(** The passes of the loop. *)
Section round.
Context (dl : pyfloat) (d : D) (out : list string) (i : list (pyfloat * Z)) (l : list (event Z)).
Let d1 := (spin_once (float_ratio 1 10) d).2.
Let d2 := (get_node_names_and_namespaces d1).2.

Ltac open_round :=
  subst d1 d2; unfold worker_round, report_visibility; run_prog; unfold through, set_view; cbn;
  destruct (spin_once (float_ratio 1 10) d) as [[x|] e1]; run_prog; unfold through, set_view; cbn in *.

Lemma round_sees p q : DEVICE_NODE ∈ (get_node_names_and_namespaces d1).1 ->
  worker_round dl (WorkerVars p q false) 0 (Peer (Pipe d out []) i l) =
  Some (Ok (inl (WorkerVars p q true)),
        Peer (Pipe d2 (out ++ ["visible"]) []) i ((l ++ [Nodes (get_node_names_and_namespaces d1).1]) ++ [Told "visible"])).
Proof using Type.
  intros Hn. open_round; destruct (get_node_names_and_namespaces e1) as [ns e2]; cbn in *; by rewrite bool_decide_true.
Qed.

Lemma round_looks p q : DEVICE_NODE ∉ (get_node_names_and_namespaces d1).1 -> float_geb (monotonic d2).1 dl = false ->
  worker_round dl (WorkerVars p q false) 0 (Peer (Pipe d out []) i l) =
  Some (Ok (inl (WorkerVars p q false)),
        Peer (Pipe (monotonic d2).2 out []) i (l ++ [Nodes (get_node_names_and_namespaces d1).1])).
Proof using Type.
  intros Hn Ht. open_round; destruct (get_node_names_and_namespaces e1) as [ns e2]; cbn in *; rewrite bool_decide_false by done;
    cbn; destruct (monotonic e2) as [t e3]; cbn in *; by rewrite Ht.
Qed.

Lemma round_waits p q :
  worker_round dl (WorkerVars p q true) 0 (Peer (Pipe d out []) i l) =
  Some (Ok (inl (WorkerVars p q true)), Peer (Pipe d1 out []) i l).
Proof using Type. open_round; reflexivity. Qed.

Lemma round_reduces : exists e v l', visibility_reported v = true /\ told l' = told l ++ ["reduced"] /\
  worker_round dl (vars_of "initial" true) 0 (Peer (Pipe d out ["reduce"]) i l) =
  Some (Ok (inl v), Peer (Pipe e (out ++ ["reduced"]) []) i l').
Proof using Type.
  open_round; unfold reduce; run_prog; do 3 eexists; (split; [|split; [|reflexivity]]);
    [reflexivity| |reflexivity|]; cbn; rewrite <- !app_assoc, told_app; reflexivity.
Qed.

End round.

Lemma look_turn profile received p : at_work profile Looking received p ->
  exists st, follows Looking st /\ at_work profile st received (turn p) /\ rank_of st (turn p) < rank_of Looking p.
Proof using Happears.
  destruct p as [m [[d out inc] i l]]. intros [Hm Ht Ho Hi]. cbn in *. destruct Hm as (d0 & Hd & ->). subst inc.
  unfold turn. cbn [status inside]. set (t := float_ratio 1 10). set (d1 := (spin_once t d).2).
  set (d2 := (get_node_names_and_namespaces d1).2).
  assert (rtc view_step d0 d1) as Hd1 by (eapply rtc_r; [exact Hd|apply step_spin]).
  destruct (decide (DEVICE_NODE ∈ (get_node_names_and_namespaces d1).1)) as [Hn|Hn].
  - exists Seen. split; [constructor|]. unfold vars_of. rewrite round_sees by done. split; [split|unfold rank_of; cbn; lia]; cbn.
    + by eexists.
    + by rewrite !told_app, Ht, app_nil_r.
    + by rewrite app_assoc, <- Ho.
    + done.
  - exists Looking. split; [constructor|]. pose proof (ap_early _ _ Happears _ _ Hd1 Hn) as He. unfold vars_of.
    rewrite round_looks by done. fold t d1 d2. split; [split|]; cbn; try done.
    + exists d0. split; [|done]. do 2 (eapply rtc_r; [|constructor]). done.
    + by rewrite told_app, app_nil_r.
    + unfold rank_of. cbn.
      assert (0 < unseen d) as Hu.
      { assert (unseen d1 <> 0) by (intros E; by apply (ap_seen _ _ Happears) in E).
        pose proof (ap_steps _ _ Happears d d1 (step_spin d t)). lia. }
      pose proof (ap_spin _ _ Happears t d Hu). pose proof (ap_steps _ _ Happears d1 d2 (step_names d1)).
      pose proof (ap_steps _ _ Happears d2 _ (step_clock d2)). fold d1 in H0. lia.
Qed.

(** A turn leads to a stage that follows, and nearer to the next message. *)
Lemma turn_spec profile st received p : at_work profile st received p ->
  exists st', follows st st' /\ at_work profile st' received (turn p) /\ rank_of st' (turn p) <= pred (rank_of st p).
Proof using Happears.
  intros Hp. destruct st.
  - destruct (boot_turn _ _ _ Hp). exists Looking. split; [constructor|]. split; [done|]. unfold rank_of in *. cbn in *. lia.
  - destruct (look_turn _ _ _ Hp) as (st & Hf & Hw & Hr). exists st. split; [done|]. split; [done|]. unfold rank_of in *. cbn in *. lia.
  - destruct p as [m [[d out inc] i l]]. destruct Hp as [(dl & Hm) Ht Ho Hi]. cbn in *. subst m inc. exists Seen.
    split; [constructor|]. unfold turn. cbn [status inside]. unfold vars_of. rewrite round_waits. split; [|done].
    split; cbn; try done. by exists dl.
  - destruct p as [m [[d out inc] i l]]. destruct Hp as [(dl & Hm & ->) Ht Ho Hi]. cbn in *. subst m inc. exists Reduced.
    split; [constructor|]. unfold turn. cbn [status inside]. destruct (round_reduces dl d out i l) as (e & v & l' & Hv & Hl & E).
    rewrite E. split; [|done]. split; cbn; [by exists dl, v| | |done].
    + by rewrite Hl, Ht.
    + by rewrite app_assoc, <- Ho.
  - destruct p as [m [[d out inc] i l]]. destruct Hp as [(dl & [q1 q2 q3] & Hm & Hv) Ht Ho Hi]. cbn in *. subst m inc q3. exists Reduced.
    split; [constructor|]. unfold turn. cbn [status inside]. rewrite round_waits. split; [|done].
    split; cbn; try done. by eexists _, _.
Qed.

Lemma at_work_alive profile st received p : at_work profile st received p -> alive p = true.
Proof. intros [Hm _ _ _]. unfold alive. destruct st; cbn in Hm;
  [|destruct Hm as (? & ? & Hm)|destruct Hm as (? & Hm)|destruct Hm as (? & Hm & _)|destruct Hm as (? & ? & Hm & _)]; by rewrite Hm. Qed.

(** A process that will be at one of some stages, and near its next message. *)
Definition talking (profile : string) (stages : list stage) (received : list string) (k : nat) (p : process D) : Prop :=
  exists st, st ∈ stages /\ at_work profile st received p /\ rank_of st p <= k.

Definition closed (stages : list stage) : Prop := forall st st', st ∈ stages -> follows st st' -> st' ∈ stages.

Lemma talking_turn profile stages received k p : closed stages ->
  talking profile stages received k p -> talking profile stages received (pred k) (turn p).
Proof using Happears.
  intros Hc (st & Hst & Hw & Hr). destruct (turn_spec _ _ _ _ Hw) as (st' & Hf & Hw' & Hr'). exists st'.
  split; [by eapply Hc|]. split; [done|]. lia.
Qed.

Lemma talking_mono profile stages received k k' p : k <= k' -> talking profile stages received k p -> talking profile stages received k' p.
Proof. intros Hk (st & Hst & Hw & Hr). exists st. split; [done|]. split; [done|]. lia. Qed.

(** ** What is known of a process *)

(** It was started and a property holds of it; it does not run. *)
Definition up (P : process D -> Prop) (o : option (process D)) : Prop := exists p, o = Some p /\ P p.
Definition ended (o : option (process D)) : Prop := match o with Some p => alive p = false | None => True end.

Definition stable (P : option (process D) -> Prop) : Prop := forall p, P (Some p) -> P (Some (turn p)).

Lemma talking_stable profile stages received k : closed stages -> stable (up (talking profile stages received k)).
Proof using Happears.
  intros Hc p (p' & [= <-] & Hp). exists (turn p). split; [done|]. eapply talking_mono; [|by apply talking_turn]. lia.
Qed.
Lemma ended_stable : stable ended.
Proof. intros p. unfold ended, turn, alive. by destruct (status p) eqn:E; rewrite ?E. Qed.
Lemma true_stable : stable (fun _ => True).
Proof. done. Qed.

End view.

#[local] Hint Resolve talking_stable ended_stable true_stable : core.

(** ** The system *)

Section system.
Context {C D : Type} `{Rclpy C Z Z} `{Sleep C} `{Rclpy D Z Z}.
Context (unseen : D -> nat) (timeout : pyfloat) (Happears : appears unseen timeout).
Implicit Types w : system C D.
Implicit Types P : worker -> option (process D) -> Prop.

Definition all_at P w : Prop := forall n, P n (processes w n).
Definition all_stable P : Prop := forall n, stable (P n).

Lemma all_at_insert P w n Q p : all_at P w -> Q (Some p) -> all_at (<[n := Q]> P) (set_process n p w).
Proof.
  intros HP HQ m. cbn. destruct (decide (m = n)) as [->|Hm]; [by rewrite !fn_lookup_insert|].
  rewrite !fn_lookup_insert_ne by done. apply HP.
Qed.

Lemma all_at_set P w n p : all_at P w -> P n (Some p) -> all_at P (set_process n p w).
Proof.
  intros HP Hp m. cbn. destruct (decide (m = n)) as [->|Hm]; [by rewrite fn_lookup_insert|].
  rewrite fn_lookup_insert_ne by done. apply HP.
Qed.

Lemma all_stable_insert P n Q : all_stable P -> stable Q -> all_stable (<[n := Q]> P).
Proof.
  intros HP HQ m. destruct (decide (m = n)) as [->|Hm]; [by rewrite fn_lookup_insert|by rewrite fn_lookup_insert_ne].
Qed.

(** What is known of one process is replaced. *)
Lemma insert_twice P n Q Q' m : (<[n := Q']> (<[n := Q]> P)) m = (<[n := Q']> P) m.
Proof.
  destruct (decide (m = n)) as [->|Hm]; [by rewrite !fn_lookup_insert|by rewrite !fn_lookup_insert_ne].
Qed.

Lemma all_at_known P P' w : (forall n, P n = P' n) -> all_at P w -> all_at P' w.
Proof. intros E HP n. rewrite <- E. apply HP. Qed.
Lemma all_stable_known P P' : (forall n, P n = P' n) -> all_stable P -> all_stable P'.
Proof. intros E HP n. rewrite <- E. apply HP. Qed.

Lemma all_at_same P w n Q : all_at P w -> Q (processes w n) -> all_at (<[n := Q]> P) w.
Proof.
  intros HP HQ m. destruct (decide (m = n)) as [->|Hm]; [by rewrite fn_lookup_insert|rewrite fn_lookup_insert_ne by done; apply HP].
Qed.

(** What a call leaves alone. *)
Definition kept P w w' : Prop := all_at P w' /\ clock w' = clock w /\ first_view w' = first_view w.

Lemma give_turn_kept P w n : all_stable P -> all_at P w -> kept P w (give_turn w n).
Proof.
  intros Hs HP. unfold give_turn. destruct (processes w n) as [p|] eqn:E; [|done]. split; [|done].
  apply all_at_set; [done|]. apply Hs. rewrite <- E. apply HP.
Qed.

Lemma pass_time_kept P w : all_stable P -> all_at P w -> kept P w (pass_time w).
Proof.
  intros Hs HP. unfold pass_time. destruct (turns w) as [|l rest]; [done|].
  set (w0 := SystemState _ _ _ _). assert (kept P w w0) as Hk by done. clearbody w0. clear HP. revert w0 Hk.
  induction l as [|n l IH]; intros w0 Hk; [done|]. cbn. apply IH. destruct Hk as (HP & Hc & Hv).
  destruct (give_turn_kept P w0 n Hs HP) as (HP' & Hc' & Hv'). split; [done|]. by rewrite Hc', Hv'.
Qed.

(** Polling a process: it can be read from, or it is nearer to its next message. *)
Lemma poll_kept P w n profile stages received k :
  all_stable P -> all_at P w -> closed stages -> P n = up (talking unseen timeout profile stages received k) ->
  let '(b, w') := poll_at n w in
  kept P w w' /\
  exists p st, processes w' n = Some p /\ st ∈ stages /\ at_work timeout profile st received p /\ rank_of unseen st p <= k /\
    if b then outgoing (world (inside p)) <> [] else outgoing (world (inside p)) = [] /\ rank_of unseen st p <= pred k.
Proof using Happears.
  intros Hs HP Hc Hn. unfold poll_at. destruct (pass_time_kept P w Hs HP) as (HP1 & Hc1 & Hv1). set (w1 := pass_time w) in *.
  pose proof (HP1 n) as Ht. rewrite Hn in Ht. destruct Ht as (p1 & Ep1 & Ht1).
  destruct (readable_at n w1) eqn:Hr; rewrite ?Hr.
  - split; [done|]. destruct Ht1 as (st & Hst & Hw & Hk). exists p1, st. split_and!; try done.
    unfold readable_at in Hr. rewrite Ep1 in Hr. unfold readable in Hr. rewrite (at_work_alive _ _ _ _ _ Hw) in Hr.
    by destruct (outgoing _).
  - destruct (give_turn_kept P w1 n Hs HP1) as (HP2 & Hc2 & Hv2).
    apply (talking_turn _ _ Happears _ _ _ _ _ Hc) in Ht1 as (st & Hst & Hw & Hk). split; [split; [done|]; by rewrite Hc2, Hv2|].
    exists (turn p1), st. assert (processes (give_turn w1 n) n = Some (turn p1)) as Ep2.
    { unfold give_turn. rewrite Ep1. cbn. by rewrite fn_lookup_insert. }
    split_and!; try done; [lia|]. unfold readable_at. rewrite Ep2. unfold readable. rewrite (at_work_alive _ _ _ _ _ Hw).
    by destruct (outgoing _).
Qed.

(** ** The parent *)

Abbreviation state := (peer (system C D) Z (pyfloat * Z)).
Implicit Types s : state.

(** A wait can poll so often before its deadline. *)
Definition tick (c : C) : C := (monotonic c).2.
Definition punctual (patience : nat) : Prop := forall c k, 1 <= k <= patience ->
  float_ltb (monotonic (Nat.iter k tick c)).1 (float_add (monotonic c).1 timeout) = true.

Context (patience : nat) (Hpunctual : punctual patience) (views : worker -> D).

Record sys_at (l : list (event Z)) P s : Prop := {
  sa_said : said (log s) = l;
  sa_views : first_view (world s) = views;
  sa_stable : all_stable P;
  sa_all : all_at P (world s)
}.

(** The messages that can come next. *)
Definition expects (stages : list stage) (received : list string) (expected : string) (stages' : list stage) : Prop :=
  forall st, st ∈ stages -> (told_by st = received /\ forall d, 0 < rank unseen st d) \/
    (st ∈ stages' /\ exists rest, told_by st = received ++ expected :: rest).

(** A message is received: the next one in the pipe. *)
Lemma recv_next w n profile st received p expected rest : processes w n = Some p -> at_work timeout profile st received p ->
  told_by st = received ++ expected :: rest ->
  exists p', recv_at n w = (Ok expected, set_process n p' w) /\ at_work timeout profile st (received ++ [expected]) p' /\
    rank_of unseen st p' = rank_of unseen st p.
Proof.
  intros Ep [Hm Ht Ho Hi] E. unfold recv_at. rewrite Ep. destruct p as [m [[d out inc] i l]]. cbn in *.
  rewrite E in Ho. apply app_inv_head in Ho as <-. eexists. split; [reflexivity|]. split; [|done]. split; cbn; try done.
  by rewrite E, <- app_assoc.
Qed.

Lemma sys_known l P P' s : (forall n, P n = P' n) -> sys_at l P s -> sys_at l P' s.
Proof. intros E [Hl Hv Hs Ha]. split; [done|done|by eapply all_stable_known|by eapply all_at_known]. Qed.

(** One pass of the parent's loop. *)
Lemma wait_pass l P n profile stages received expected stages' k j m c0 (Q : res bool -> state -> Prop) s :
  closed stages -> closed stages' -> expects stages received expected stages' -> j + m < patience -> m <= k ->
  clock (world s) = Nat.iter (S j) tick c0 -> sys_at l (<[n := up (talking unseen timeout profile stages received m)]> P) s ->
  (forall s', sys_at l (<[n := up (talking unseen timeout profile stages' (received ++ [expected]) k)]> P) s' -> Q (Ok true) s') ->
  twp (wait_round n expected (float_add (monotonic c0).1 timeout)) (fun r s' =>
    match r with
    | Ok (inl _) => exists m', m' < m /\ S j + m' < patience /\ clock (world s') = Nat.iter (S (S j)) tick c0 /\
        sys_at l (<[n := up (talking unseen timeout profile stages received m')]> P) s'
    | Ok (inr b) => Q (Ok b) s'
    | Raise e => Q (Raise e) s'
    end) s.
Proof using Happears Hpunctual.
  intros Hc Hc' Hexp Hj Hm Hclock Hs HQ. unfold wait_round. apply twp_bind, twp_ask. cbn. unfold on_clock.
  pose proof (Hpunctual c0 (S j) ltac:(lia)) as Ht. rewrite Hclock.
  destruct (monotonic (Nat.iter (S j) tick c0)) as [t c] eqn:Et.
  assert (c = Nat.iter (S (S j)) tick c0) as Ec by (change (Nat.iter (S (S j)) tick c0) with (tick (Nat.iter (S j) tick c0)); unfold tick at 1; by rewrite Et).
  cbn [fst snd] in Ht |- *. rewrite Ht. cbn [negb]. clear Ht Et t. apply twp_bind, twp_ask. cbn [world inbox log].
  set (Pm := <[n := _]> P) in *. destruct Hs as [Hl Hv Hst Hall].
  pose proof (poll_kept Pm (set_clock c (world s)) n profile stages received m Hst Hall Hc (fn_lookup_insert _ _ _)) as Hpoll.
  cbn [poll system_workers]. destruct (poll_at n (set_clock c (world s))) as [b w].
  destruct Hpoll as ((HP & Hcl & Hfv) & p & st & Ep & Hin & Hw & Hr & Hb). cbn in Hcl, Hfv. cbn [fst snd].
  pose proof (aw_outgoing _ _ _ _ _ Hw) as Ho. destruct (Hexp st Hin) as [[Ht Hrank]|[Hin' [rest Ht]]].
  - assert (outgoing (world (inside p)) = []) as E.
    { rewrite Ht in Ho. apply (app_inv_head received). by rewrite app_nil_r. }
    destruct b; [done|]. destruct Hb as [_ Hb]. apply twp_bind, twp_ret. cbn. apply twp_bind, twp_ask. cbn [is_alive system_workers fst snd].
    unfold alive_at. cbn [world]. rewrite Ep, (at_work_alive _ _ _ _ _ Hw). apply twp_ret.
    specialize (Hrank (view (world (inside p)))). unfold rank_of in Hb.
    exists (pred m). split; [lia|]. split; [lia|]. cbn [world]. split; [by rewrite Hcl|].
    apply (sys_known _ _ _ _ (insert_twice P n (up (talking unseen timeout profile stages received m)) _)).
    split; cbn [log world]; [done|by rewrite Hfv|apply all_stable_insert; [done|by apply talking_stable]|].
    apply all_at_same; [done|]. exists p. split; [done|]. by exists st.
  - assert (outgoing (world (inside p)) = expected :: rest) as E.
    { rewrite Ht in Ho. by apply app_inv_head in Ho. }
    destruct b; [|destruct Hb; congruence]. apply twp_bind, twp_bind, twp_try_ask. cbn [recv system_workers world inbox log].
    destruct (recv_next w n profile st received p expected rest Ep Hw Ht) as (p' & -> & Hw' & Hr'). cbn [fst snd andthen].
    apply twp_bind, twp_act. cbn [fst snd andthen world inbox log]. apply twp_ret. rewrite bool_decide_true by done. apply twp_ret, HQ.
    apply (sys_known _ _ _ _ (insert_twice P n (up (talking unseen timeout profile stages received m)) _)).
    split; cbn [log world]; [by unfold said in *; rewrite omap_app, Hl; apply app_nil_r|by rewrite <- Hfv in Hv| |].
    + apply all_stable_insert; [done|by apply talking_stable].
    + apply all_at_insert; [done|]. exists p'. split; [done|]. exists st. split; [done|]. split; [done|]. lia.
Qed.

(** The parent hears what it waits for. *)
Lemma wait_live l P n profile stages received expected stages' k (Q : res bool -> state -> Prop) s :
  sys_at l P s -> P n = up (talking unseen timeout profile stages received k) -> expects stages received expected stages' ->
  closed stages -> closed stages' -> k < patience ->
  (forall s', sys_at l (<[n := up (talking unseen timeout profile stages' (received ++ [expected]) k)]> P) s' -> Q (Ok true) s') ->
  twp (wait_for_worker n expected timeout) Q s.
Proof using Happears Hpunctual.
  intros Hs Hn Hexp Hc Hc' Hk HQ. unfold wait_for_worker. apply twp_bind, twp_ask. cbn. unfold on_clock.
  assert (Nat.iter 1 tick (clock (world s)) = (monotonic (clock (world s))).2) as Ec by done.
  set (c0 := clock (world s)) in *. destruct (monotonic c0) as [t c] eqn:Et. cbn [fst snd].
  replace t with (monotonic c0).1 by (by rewrite Et).
  apply (twp_iter_index _ (fun m _ s' => exists j, j + m < patience /\ m <= k /\ clock (world s') = Nat.iter (S j) tick c0 /\
    sys_at l (<[n := up (talking unseen timeout profile stages received m)]> P) s') _ k).
  - clearbody c0. clear s Hs t c Et Ec. intros m [] s (j & Hj & Hm & Hclock & Hs).
    eapply twp_mono; [exact (wait_pass _ _ _ _ _ _ _ _ _ _ _ _ Q _ Hc Hc' Hexp Hj Hm Hclock Hs HQ)|]. intros [[[]|b]|e] s'; [|done|done].
    intros (m' & Hlt & Hj' & Hclock' & Hs'). exists m'. split; [done|]. exists (S j). split; [lia|]. split; [lia|]. done.
  - exists 0. split; [lia|]. split; [lia|]. split; [done|]. destruct Hs as [Hl Hv Hst Ha].
    assert (forall m, P m = (<[n := up (talking unseen timeout profile stages received k)]> P) m) as E.
    { intros m. destruct (decide (m = n)) as [->|Hm]; [by rewrite fn_lookup_insert|by rewrite fn_lookup_insert_ne]. }
    apply (sys_known _ _ _ _ E). done.
Qed.

(** The rules of the other steps. *)
Lemma sys_note l P s w i e : sys_at l P s -> first_view w = views -> forall P', all_stable P' -> all_at P' w ->
  sys_at (l ++ said [e]) P' (Peer w i (log s ++ [e])).
Proof. intros [Hl _ _ _] Hv P' Hs Ha. split; cbn; [|done..]. unfold said in *. by rewrite omap_app, Hl. Qed.

Lemma sys_quiet l P s w i e P' : sys_at l P s -> said [e] = [] -> first_view w = views -> all_stable P' -> all_at P' w ->
  sys_at l P' (Peer w i (log s ++ [e])).
Proof. intros Hs He Hv Hst Ha. pose proof (sys_note l P s w i e Hs Hv P' Hst Ha) as Hn. by rewrite He, app_nil_r in Hn. Qed.

Lemma say_live l P line (Q : res unit -> state -> Prop) s :
  sys_at l P s -> (forall s', sys_at (l ++ [Out line]) P s' -> Q (Ok tt) s') -> twp (say line) Q s.
Proof. intros Hs HQ. apply twp_act, HQ. by apply (sys_note l P s (world s) _ (Out line)); [|apply Hs..]. Qed.

Lemma rest_live l P t (Q : res unit -> state -> Prop) s :
  sys_at l P s -> (forall s', sys_at l P s' -> Q (Ok tt) s') -> twp (rest_for t) Q s.
Proof.
  intros Hs HQ. apply twp_act, HQ. cbn [fst snd sleep system_workers]. set (w := set_clock _ _).
  destruct (pass_time_kept P w) as (Ha & _ & Hv); [apply Hs|apply Hs|].
  eapply sys_quiet; [exact Hs|done| |apply Hs|done]. rewrite Hv. apply Hs.
Qed.

Lemma start_live l P n profile k (Q : res unit -> state -> Prop) s :
  sys_at l P s -> S (S (unseen (views n))) <= k ->
  (forall s', sys_at (l ++ [Worked n (Started profile)])
     (<[n := up (talking unseen timeout profile [Fresh; Looking; Seen] [] k)]> P) s' -> Q (Ok tt) s') ->
  twp (start_graph_worker n profile timeout) Q s.
Proof using Happears Hpunctual.
  intros Hs Hk HQ. apply twp_bind, twp_try_ask. cbn. apply twp_act, HQ. pose proof Hs as [Hl Hv Hst Ha].
  apply (sys_note l P s _ _ (Worked n (Started profile))); [done|done| |].
  - apply all_stable_insert; [done|]. apply (talking_stable _ _ Happears). by intros [] [] Hin Hf; inversion Hf; subst; set_solver.
  - apply all_at_insert; [done|]. eexists. split; [done|]. exists Fresh. split; [by left|]. split; [done|]. cbn. by rewrite Hv.
Qed.

Lemma command_live l P n k (Q : res unit -> state -> Prop) s :
  sys_at l P s -> P n = up (talking unseen timeout "initial" [Seen] ["ready"; "visible"] k) -> 1 <= k ->
  (forall s', sys_at (l ++ [Worked n (Commanded "reduce")])
     (<[n := up (talking unseen timeout "initial" [Asked; Reduced] ["ready"; "visible"] k)]> P) s' -> Q (Ok tt) s') ->
  twp (command_worker n "reduce") Q s.
Proof using Happears Hpunctual.
  intros Hs Hn Hk HQ. apply twp_bind, twp_try_ask. cbn. pose proof Hs as [Hl Hv Hst Ha].
  pose proof (Ha n) as Hp. rewrite Hn in Hp. destruct Hp as (p & Ep & st & ->%list_elem_of_singleton & [Hm Ht Ho Hi] & _).
  unfold send_at. rewrite Ep. destruct p as [m [[d out inc] i e]]. cbn in *. destruct Hm as (dl & ->). subst inc. cbn.
  apply twp_act, HQ. apply (sys_note l P s _ _ (Worked n (Commanded "reduce"))); [done|done| |].
  - apply all_stable_insert; [done|]. apply (talking_stable _ _ Happears). by intros [] [] Hin Hf; inversion Hf; subst; set_solver.
  - apply all_at_insert; [done|]. eexists. split; [done|]. exists Asked. split; [by left|]. split; [|done].
    split; cbn; try done. by exists dl.
Qed.

Lemma terminate_live l P n (Q : res unit -> state -> Prop) s :
  sys_at l P s -> (forall s', sys_at l (<[n := ended]> P) s' -> Q (Ok tt) s') -> twp (terminate_worker n) Q s.
Proof.
  intros Hs HQ. apply twp_bind, twp_ask. cbn. unfold alive_at. pose proof Hs as [Hl Hv Hst Ha].
  assert (all_stable (<[n := ended]> P)) as Hst' by (apply all_stable_insert; [done|apply ended_stable]).
  destruct (processes (world s) n) as [p|] eqn:Ep; [destruct (alive p) eqn:Ea|].
  - apply twp_bind, twp_act. cbn. apply twp_bind, twp_act. cbn. apply twp_act, HQ. cbn. unfold kill_at. rewrite Ep.
    assert (all_at (<[n := ended]> P) (set_process n (Process Over (inside p)) (world s))) as Ha' by (by apply all_at_insert).
    set (w := set_process _ _ _) in *. rewrite <- !app_assoc. split; cbn [log world]; [|done..].
    unfold said in *. by rewrite omap_app, Hl, app_nil_r.
  - apply twp_bind, twp_act. cbn. apply twp_ret, HQ. eapply sys_quiet; try done. apply all_at_same; [done|]. by rewrite Ep.
  - apply twp_bind, twp_act. cbn. apply twp_ret, HQ. eapply sys_quiet; try done. apply all_at_same; [done|]. by rewrite Ep.
Qed.

Lemma close_live l P n (Q : res unit -> state -> Prop) s :
  sys_at l P s -> (forall s', sys_at l P s' -> Q (Ok tt) s') -> twp (worked n ConnectionClosed (close_connection n)) Q s.
Proof.
  intros Hs HQ. apply twp_act, HQ. by eapply sys_quiet; [exact Hs|done|apply Hs..].
Qed.

(** ** The whole role *)

Context (k : nat) (Hviews : forall n, S (S (unseen (views n))) <= k) (Hk : k < patience).

Ltac closed_stages := by intros [] [] Hin Hf; inversion Hf; subst; set_solver.

Lemma expects_ready : expects [Fresh; Looking; Seen] [] "ready" [Looking; Seen].
Proof. intros st Hst. destruct st; [left; split; [done|cbn; lia]|right; split; [set_solver|by eexists]..|set_solver|set_solver]. Qed.
Lemma expects_visible : expects [Looking; Seen] ["ready"] "visible" [Seen].
Proof. intros st Hst. destruct st; [set_solver|left; split; [done|cbn; lia]|right; split; [set_solver|by eexists]|set_solver|set_solver]. Qed.
Lemma expects_reduced : expects [Asked; Reduced] ["ready"; "visible"] "reduced" [Reduced].
Proof. intros st Hst. destruct st; [set_solver..|left; split; [done|cbn; lia]|right; split; [set_solver|by eexists]]. Qed.

(** A step of the parent: its rule, and the state that it leads to. *)
Ltac next_live rule s Hs := apply twp_bind; eapply rule; [exact Hs|..|clear s Hs; intros s Hs].
Ltac next_wait s Hs what :=
  eapply (wait_live _ _ _ _ _ _ _ _ k _ s Hs); [reflexivity|exact what|closed_stages|closed_stages|done|clear s Hs; intros s Hs; cbn].

Lemma restart_live P s (Q : res Z -> state -> Prop) :
  sys_at (take 6 inbound_script) P s ->
  (forall s', sys_at inbound_script (<[Restarted := ended]> P) s' -> Q (Ok 0%Z) s') -> twp (inbound_restart timeout) Q s.
Proof using All.
  intros Hs HQ. next_live start_live s Hs; [apply Hviews|]. apply twp_bind, twp_bind.
  next_wait s Hs expects_ready. next_wait s Hs expects_visible.
  next_live say_live s Hs. next_live rest_live s Hs. next_live terminate_live s Hs. next_live say_live s Hs.
  next_live rest_live s Hs. next_live say_live s Hs. apply twp_ret, HQ. eapply sys_known; [|exact Hs]. by intros [].
Qed.

Lemma loss_live P s (Q : res Z -> state -> Prop) :
  sys_at (take 4 inbound_script) P s ->
  (forall s', sys_at inbound_script (fun _ => ended) s' -> Q (Ok 0%Z) s') -> twp (inbound_loss timeout) Q s.
Proof using All.
  intros Hs HQ. next_live terminate_live s Hs. next_live say_live s Hs. next_live rest_live s Hs. next_live terminate_live s Hs.
  next_live say_live s Hs. next_live rest_live s Hs. eapply restart_live; [exact Hs|]. clear s Hs. intros s Hs.
  apply HQ. eapply sys_known; [|exact Hs]. by intros [].
Qed.

Lemma body_live P s (Q : res Z -> state -> Prop) :
  sys_at (take 2 inbound_script) P s ->
  P Alpha = up (talking unseen timeout "initial" [Fresh; Looking; Seen] [] k) ->
  P Beta = up (talking unseen timeout "beta" [Fresh; Looking; Seen] [] k) ->
  (forall s', sys_at inbound_script (fun _ => ended) s' -> Q (Ok 0%Z) s') -> twp (inbound_body timeout) Q s.
Proof using All.
  intros Hs HA HB HQ. apply twp_bind, twp_bind.
  eapply (wait_live _ _ _ _ _ _ _ _ k _ s Hs HA); [exact expects_ready|closed_stages|closed_stages|done|].
  clear s Hs. intros s Hs. cbn.
  eapply (wait_live _ _ Beta _ _ _ _ _ k _ s Hs HB); [exact expects_ready|closed_stages|closed_stages|done|].
  clear s Hs. intros s Hs. cbn. apply twp_bind. next_wait s Hs expects_visible.
  next_live say_live s Hs. next_live rest_live s Hs. next_live command_live s Hs; [reflexivity|specialize (Hviews Alpha); lia|].
  apply twp_bind. next_wait s Hs expects_reduced. by eapply loss_live.
Qed.

Lemma finally_live l s (Q : res unit -> state -> Prop) :
  sys_at l (fun _ => ended) s -> (forall s', sys_at l (fun _ => ended) s' -> Q (Ok tt) s') -> twp inbound_finally Q s.
Proof using All.
  intros Hs HQ. assert (forall n m, (<[n := ended]> (fun _ : worker => ended (D := D))) m = ended) as He.
  { intros n m. destruct (decide (m = n)) as [->|Hm]; [by rewrite fn_lookup_insert|by rewrite fn_lookup_insert_ne]. }
  next_live terminate_live s Hs. apply (sys_known _ _ _ _ (He _)) in Hs.
  next_live terminate_live s Hs. apply (sys_known _ _ _ _ (He _)) in Hs.
  apply twp_bind, twp_act. cbn [fst snd andthen]. destruct (was_started Restarted (log s)).
  - next_live terminate_live s Hs. apply (sys_known _ _ _ _ (He _)) in Hs. next_live close_live s Hs. next_live close_live s Hs.
    eapply close_live; [exact Hs|done].
  - apply twp_bind, twp_ret. next_live close_live s Hs. next_live close_live s Hs. by apply twp_ret, HQ.
Qed.

(** The role passes, with its whole script, and leaves no process behind. *)
Lemma inbound_live c schedule :
  twp (run_graph_inbound timeout) (fun r s => r = Ok 0%Z /\ said (log s) = inbound_script /\
      forall n, alive_at n (world s) = false)
    (Peer (SystemState c schedule views (fun _ => None)) [] []).
Proof using All.
  set (s := Peer _ _ _). assert (sys_at [] (fun _ _ => True) s) as Hs by done. clearbody s.
  next_live start_live s Hs; [apply (Hviews Alpha)|]. next_live start_live s Hs; [apply (Hviews Beta)|].
  apply twp_finally. eapply body_live; [exact Hs|reflexivity|reflexivity|]. clear s Hs. intros s Hs.
  eapply finally_live; [exact Hs|]. clear s Hs. intros s [Hl _ _ Ha]. split; [done|]. split; [done|]. intros n.
  specialize (Ha n). unfold alive_at. by destruct (processes (world s) n).
Qed.

End system.

End SystemSpec.
