(* ===== verification/Cli.v ===== *)
(** * The command lines of the programs

    The parser of each program, the arguments its [main] reads from the namespace,
    and the program as it is started: from its command line.  The texts of the help
    and of a usage error are parameters.  An attribute stands under the name of its
    option, with the hyphens that Python turns into underscores. *)

From Stdlib Require Import Ascii String.
From S2P Require Import Prelude PyStr PyFloat PyObj Clock Process Argparse.
From S2P Require Import CompileMain Plan Postlink ResourceMain Metrics Timing Inventory Admit Sources Capture StaticPeer GraphPeer.

Module Cli.
Import Process Argparse Postlink ResourceMain Inventory Admit.

(** ** Declarations *)

Definition opt_text (name : string) : option_spec := Opt ["--" +:+ name] name (StoreOne AsText None) VNone true.
Definition opt_path (name : string) : option_spec := Opt ["--" +:+ name] name (StoreOne AsPath None) VNone true.
Definition opt_int (name : string) (default : Z) : option_spec :=
  Opt ["--" +:+ name] name (StoreOne AsInt None) (VInt default) false.
Definition opt_float (name : string) (default : pyfloat) : option_spec :=
  Opt ["--" +:+ name] name (StoreOne AsFloat None) (VFloat default) false.
Definition opt_choice (name : string) (choices : list string) (default : string) : option_spec :=
  Opt ["--" +:+ name] name (StoreOne AsText (Some choices)) (VText default) false.
Definition opt_flag (name : string) : option_spec := Opt ["--" +:+ name] name StoreTrue (VBool false) false.
Definition pos_text (name : string) : positional := Pos name AsText None.
Definition pos_path (name : string) : positional := Pos name AsPath None.

(** A program that is started with arguments: it runs, or it ends in its parser. *)
Definition started {A} (help usage : string) (args : parsed (option A)) (main : A -> outcome) : outcome :=
  match args with
  | Parsed (Some a) => main a
  | Parsed None => Outcome (Raise AttributeError) [] [] []
  | Exit 0%Z => Outcome (Ok 0%Z) [help] [] []
  | Exit n => Outcome (Ok n) [] [usage] []
  end.

(** ** [tools/compile_deployment.py] *)

(** [capabilities] is the directory beside the tools. *)
Definition compile_parser (capabilities : string) : parser :=
  Parser [opt_text "backend"; Opt ["--capabilities-dir"] "capabilities-dir" (StoreOne AsPath None) (VText capabilities) false;
          opt_path "output-dir"] [pos_path "deployment"].

Definition compile_args (ns : namespace) : option CompileMain.args :=
  deployment ← get_text ns "deployment";
  backend ← get_text ns "backend";
  capabilities ← get_text ns "capabilities-dir";
  output ← get_text ns "output-dir";
  Some (CompileMain.Args deployment backend capabilities output).

Definition compile_cli (capabilities help usage : string) (en : env) (argv : list string) : outcome :=
  started help usage (ns ← parse_args (compile_parser capabilities) argv; Parsed (compile_args ns)) (CompileMain.main en).

(** ** [tools/verify_resources.py] *)

Definition plan_parser : parser :=
  Parser [opt_path "deployment-plan"; opt_path "config"; opt_text "target";
          opt_choice "ddsrt-sync" ["posix"; "zephyr-native"; "not-applicable"] "not-applicable";
          opt_path "json"; opt_path "markdown"] [].

Definition verify_parser : parser :=
  Parser [opt_path "resource-plan"; opt_path "build-dir";
          Opt ["--runtime-log"] "runtime-log" (StoreOne AsPath None) VNone false;
          opt_path "json"; opt_path "markdown"] [].

Definition resource_commands : list (string * parser) := [("plan", plan_parser); ("verify", verify_parser)].

Definition resource_args (name : string) (ns : namespace) : option ResourceMain.args :=
  json ← get_text ns "json";
  markdown ← get_text ns "markdown";
  if bool_decide (name = "plan") then
    plan ← get_text ns "deployment-plan";
    config ← get_text ns "config";
    target ← get_text ns "target";
    sync ← get_text ns "ddsrt-sync";
    Some (ResourceMain.Args (PlanCommand plan config target sync) json markdown)
  else
    plan ← get_text ns "resource-plan";
    dir ← get_text ns "build-dir";
    log ← get_optional_text ns "runtime-log";
    Some (ResourceMain.Args (VerifyCommand plan dir log) json markdown).

Definition resource_cli (help usage : string) (en : env) (fs : build_files) (argv : list string) : outcome :=
  started help usage ('(name, ns) ← parse_command resource_commands false argv; Parsed (resource_args name ns))
    (ResourceMain.main en fs).

(** ** The checks *)

Definition metrics_parser : parser :=
  Parser [opt_int "minimum-samples" 2; opt_int "maximum-middleware-delta" 32] [pos_path "log"].

Definition metrics_args (ns : namespace) : option Metrics.args :=
  log ← get_text ns "log";
  minimum ← get_int ns "minimum-samples";
  maximum ← get_int ns "maximum-middleware-delta";
  Some (Metrics.Args log minimum maximum).

Definition metrics_cli (help usage : string) (en : env) (argv : list string) : outcome :=
  started help usage (ns ← parse_args metrics_parser argv; Parsed (metrics_args ns))
    (fun a => Metrics.main a (env_read en (Metrics.log a))).

Definition timing_parser : parser :=
  Parser [Opt ["--posix"] "posix" (StoreSome AsPath) VNone true; Opt ["--native"] "native" (StoreSome AsPath) VNone true;
          opt_int "minimum-records" 12; opt_int "maximum-regression-us" 1000] [].

Definition timing_args (ns : namespace) : option Timing.args :=
  posix ← get_texts ns "posix";
  native ← get_texts ns "native";
  minimum ← get_int ns "minimum-records";
  maximum ← get_int ns "maximum-regression-us";
  Some (Timing.Args posix native minimum maximum).

Definition timing_cli (help usage : string) (en : env) (argv : list string) : outcome :=
  started help usage (ns ← parse_args timing_parser argv; Parsed (timing_args ns)) (Timing.main (env_read en) usage).

(** ** The ESP32-C6 programs *)

Definition inventory_parser : parser := Parser [] [pos_text "build"; pos_text "output"].

Definition inventory_args (ns : namespace) : option (string * string) :=
  build ← get_text ns "build";
  output ← get_text ns "output";
  Some (build, output).

(** [builds] is what the build directories hold. *)
Definition inventory_cli (help usage : string) (en : env) (builds : string -> c6_build) (argv : list string) : outcome :=
  started help usage (ns ← parse_args inventory_parser argv; Parsed (inventory_args ns))
    (fun '(build, output) => Inventory.main en (builds (path_text build)) (path_text output)).

Definition admission_parser : parser :=
  Parser [opt_text "objdump"; opt_int "main-execution-bytes" 8704] [pos_text "build"; pos_text "output"].

Definition admission_args (ns : namespace) : option (string * string * string * Z) :=
  build ← get_text ns "build";
  output ← get_text ns "output";
  objdump ← get_text ns "objdump";
  bytes ← get_int ns "main-execution-bytes";
  Some (build, output, objdump, bytes).

Definition admission_cli (help usage : string) (en : env) (builds : string -> string -> admission_env) (argv : list string) :
    outcome :=
  started help usage (ns ← parse_args admission_parser argv; Parsed (admission_args ns))
    (fun '(build, output, objdump, bytes) =>
       Admit.main en (path_text build) (builds (path_text build) objdump) (path_text output) bytes).

(** ** [verify_sources.py] *)

Definition sources_parser : parser := Parser [] [pos_path "manifest"; pos_path "source_root"].

Definition sources_args (ns : namespace) : option (string * string) :=
  manifest ← get_text ns "manifest";
  root ← get_text ns "source_root";
  Some (manifest, root).

(** [manifests] is what PyYAML reads from each file. *)
Definition sources_cli (help usage : string) (manifests : string -> res pyobj) (output : list string -> res string)
    (argv : list string) : outcome :=
  started help usage (ns ← parse_args sources_parser argv; Parsed (sources_args ns))
    (fun '(manifest, root) => Sources.main (manifests manifest) output root).

(** ** The programs that wait: their arguments *)

Definition capture_parser : parser :=
  Parser [opt_int "baud" 115200; opt_float "timeout" (float_int 30); opt_text "until"; opt_int "minimum-matches" 1;
          opt_flag "no-reset"; opt_flag "reconnect"] [pos_text "device"].

Definition capture_args (ns : namespace) : option Capture.args :=
  device ← get_text ns "device";
  baud ← get_int ns "baud";
  timeout ← get_float ns "timeout";
  until ← get_text ns "until";
  minimum ← get_int ns "minimum-matches";
  no_reset ← get_bool ns "no-reset";
  reconnect ← get_bool ns "reconnect";
  Some (Capture.Args device baud timeout until minimum no_reset reconnect).

Definition static_parser : parser := Parser [opt_float "timeout" (float_int 60); opt_int "sequence" 1] [].

Definition static_args (ns : namespace) : option StaticPeer.args :=
  timeout ← get_float ns "timeout";
  sequence ← get_int ns "sequence";
  Some (StaticPeer.Args timeout sequence).

Definition roles : list (string * GraphPeer.role) :=
  [("pub", GraphPeer.Pub); ("sub", GraphPeer.Sub); ("graph-outbound", GraphPeer.GraphOutbound);
   ("graph-inbound", GraphPeer.GraphInbound)].

Definition wifi_parser : parser :=
  Parser [opt_float "timeout" (float_int 90); opt_choice "reliability" ["best_effort"; "reliable"] "best_effort";
          opt_choice "durability" ["volatile"; "transient_local"] "volatile"; opt_int "depth" 32; opt_int "cycles" 1;
          opt_flag "skip-match"] [Pos "role" AsText (Some roles.*1)].

Definition wifi_args (ns : namespace) : option GraphPeer.args :=
  role ← get_text ns "role" ≫= assoc_string roles;
  timeout ← get_float ns "timeout";
  reliability ← get_text ns "reliability";
  durability ← get_text ns "durability";
  depth ← get_int ns "depth";
  cycles ← get_int ns "cycles";
  skip ← get_bool ns "skip-match";
  Some (GraphPeer.Args role timeout reliability durability depth cycles skip).

End Cli.
