(* ===== verification/CliSpec.v ===== *)
(** * What the command lines promise

    A namespace that a parser returns has every attribute the program reads, with
    its type; and options given in any order are read back. *)

From Stdlib Require Import Ascii String.
From S2P Require Import Prelude PyStr PyFloat PyObj Clock Process Argparse.
From S2P Require Import CompileMain Plan Postlink ResourceMain Metrics Timing Inventory Admit Sources Capture StaticPeer GraphPeer Cli.

Module CliSpec.
Import Process Argparse Plan Postlink ResourceMain Cli.

(** ** Attributes *)

Lemma assoc_set_same {A} (l : list (string * A)) k v : assoc_string (dict_set l k v) k = Some v.
Proof. induction l as [|[k' v'] l IH]; cbn; [by rewrite decide_True|]. destruct (decide (k = k')) as [->|Hk]; cbn; [by rewrite decide_True|by rewrite decide_False]. Qed.

Lemma assoc_set_other {A} (l : list (string * A)) k k' v : k <> k' -> assoc_string (dict_set l k v) k' = assoc_string l k'.
Proof.
  intros Hk. induction l as [|[k1 v1] l IH]; cbn; [by rewrite decide_False|].
  destruct (decide (k = k1)) as [->|H1]; cbn; [by rewrite !decide_False|]. by rewrite IH.
Qed.

Lemma assoc_string_elem {A} (l : list (string * A)) k v : assoc_string l k = Some v -> (k, v) ∈ l.
Proof. induction l as [|[k' v'] l IH]; cbn; [done|]. case_decide; [intros [= ->]; subst; left|intros; right; auto]. Qed.

Lemma assoc_string_NoDup {A} (l : list (string * A)) k v : NoDup l.*1 -> (k, v) ∈ l -> assoc_string l k = Some v.
Proof.
  induction l as [|[k' v'] l IH]; cbn; [by intros _ H%elem_of_nil|]. intros [Hn Hl]%NoDup_cons.
  intros [[= -> ->]|H]%elem_of_cons; [by rewrite decide_True|]. rewrite decide_False; [auto|].
  intros ->. apply Hn. apply list_elem_of_fmap. by exists (k', v).
Qed.

Lemma NoDup_fmap_inj {A B} (f : A -> B) (l : list A) x y : NoDup (f <$> l) -> x ∈ l -> y ∈ l -> f x = f y -> x = y.
Proof.
  induction l as [|z l IH]; [by intros _ H%elem_of_nil|]. intros [Hn Hl]%NoDup_cons Hx Hy E.
  apply elem_of_cons in Hx as [->|Hx]; apply elem_of_cons in Hy as [->|Hy]; [done| | |auto];
    contradict Hn; apply list_elem_of_fmap; [by exists y|by exists x].
Qed.

(** ** Types *)

Definition of_type (c : conversion) (v : value) : Prop :=
  match c with
  | AsText | AsPath => exists s, v = VText s
  | AsInt => exists z, v = VInt z
  | AsFloat => exists f, v = VFloat f
  end.

Definition chosen (choices : option (list string)) (v : value) : Prop :=
  match choices with None => True | Some l => exists s, v = VText s /\ s ∈ l end.

(** What an option stores. *)
Definition stored (a : action) (v : value) : Prop :=
  match a with
  | StoreOne c choices => of_type c v /\ chosen choices v
  | StoreSome _ => exists l, v = VTexts l
  | StoreTrue => v = VBool true
  | ShowHelp => False
  end.

Lemma convert_type c s v : convert c s = Some v -> of_type c v.
Proof.
  destruct c; cbn; [intros [= <-]; by eexists..| |].
  - destruct (py_int 10 s); [|done]. intros [= <-]. by eexists.
  - destruct (py_float s); [|done]. intros [= <-]. by eexists.
Qed.

Lemma choose_spec choices v v' : choose choices v = Some v' -> v' = v /\ chosen choices v.
Proof.
  unfold choose, chosen. destruct choices as [l|]; [|by intros [= ->]].
  destruct v; try done. case_bool_decide; [|done]. intros [= <-]. split; [done|]. by eexists.
Qed.

Lemma convert_choose c choices s v : convert c s ≫= choose choices = Some v -> of_type c v /\ chosen choices v.
Proof.
  destruct (convert c s) as [v'|] eqn:E; [|done]. cbn. intros [-> Hc]%choose_spec. split; [|done]. by eapply convert_type.
Qed.

(** ** Parsers *)

Definition dests (p : parser) : list string := (dest <$> options p) ++ (pos_dest <$> positionals p).

Record parser_ok (p : parser) : Prop := {
  po_dests : NoDup (dests p);
  po_help : Forall (fun o => act o <> ShowHelp) (options p)
}.

(** What a namespace holds: for an option what was stored, or its default when it
    was not required; for a positional a converted value. *)
Definition option_typed (ns : namespace) (o : option_spec) : Prop :=
  exists v, assoc_string ns (dest o) = Some v /\ (stored (act o) v \/ v = unset o /\ required o = false).
Definition positional_typed (ns : namespace) (x : positional) : Prop :=
  exists v, assoc_string ns (pos_dest x) = Some v /\ of_type (pos_type x) v /\ chosen (pos_choices x) v.
Definition typed (p : parser) (ns : namespace) : Prop :=
  Forall (option_typed ns) (options p) /\ Forall (positional_typed ns) (positionals p).

Section typed.
Context (p : parser) (Hp : parser_ok p).

(** Every option an argument stands for is the parser's. *)
Definition token_ok (t : token) : Prop :=
  match t with TOpt _ l => Forall (fun c : candidate => c.1.1 ∈ all_options p) l | _ => True end.

Lemma option_strings_ok f o : (f, o) ∈ option_strings p -> o ∈ all_options p.
Proof.
  unfold option_strings. rewrite list_elem_of_In, List.in_concat. intros (l & Hl & Hfo). apply list_elem_of_In in Hl, Hfo.
  apply list_elem_of_fmap in Hl as (o' & -> & Ho).
  apply list_elem_of_fmap in Hfo as (f' & [= -> ->] & _). done.
Qed.

Lemma option_tuples_ok s : Forall (fun c : candidate => c.1.1 ∈ all_options p) (option_tuples p s).
Proof.
  unfold option_tuples. apply Forall_forall. intros [[o f] e].
  destruct (str_startswith "--" s); [destruct (str_cut "=" s) as [[a b]|]|];
    intros ([f' o'] & Hin & Hs)%list_elem_of_omap; cbn in Hs; repeat case_match; try done;
    injection Hs as <- _ _; by eapply option_strings_ok.
Qed.

Lemma parse_optional_ok s l : parse_optional p s = Some l -> Forall (fun c : candidate => c.1.1 ∈ all_options p) l.
Proof.
  unfold parse_optional. destruct (negb (str_startswith "-" s)); [done|].
  destruct (assoc_string (option_strings p) s) as [o|] eqn:E.
  { intros [= <-]. apply Forall_singleton. exact (option_strings_ok _ _ (assoc_string_elem _ _ _ E)). }
  destruct (String.length s =? 1); [done|].
  destruct (_ ≫= _) as [x|] eqn:E2.
  { intros [= <-]. apply Forall_singleton. destruct (str_cut "=" s) as [[a b]|]; cbn in E2; [|done].
    destruct (assoc_string (option_strings p) a) as [o|] eqn:E3; [|done]. injection E2 as <-.
    exact (option_strings_ok _ _ (assoc_string_elem _ _ _ E3)). }
  pose proof (option_tuples_ok s) as Ht. destruct (option_tuples p s) eqn:Et; [|by intros [= <-]].
  destruct (_ || _); [done|]. by intros [= <-].
Qed.

Lemma tokens_ok argv : Forall token_ok (tokens p argv).
Proof.
  induction argv as [|s argv IH]; cbn; [constructor|]. case_bool_decide.
  { constructor; [done|]. apply Forall_fmap, Forall_true. done. }
  constructor; [|done]. destruct (parse_optional p s) eqn:E; [|done]. by eapply parse_optional_ok.
Qed.

(** ** The states of a parse *)

(** An option is given with what it stores, or it has its default. *)
Definition option_state (st : pstate) (o : option_spec) : Prop :=
  exists v, assoc_string (attributes st) (dest o) = Some v /\
    (if decide (dest o ∈ given st) then stored (act o) v else v = unset o).

Record state_ok (st : pstate) : Prop := {
  so_options : Forall (option_state st) (options p);
  so_positionals : exists done, positionals p = done ++ expected st /\ Forall (positional_typed (attributes st)) done;
  so_pending : forall o vals, pending st = Some (o, vals) -> o ∈ options p
}.

Lemma state_ok_same st st' : attributes st' = attributes st -> given st' = given st -> expected st' = expected st ->
  (forall o vals, pending st' = Some (o, vals) -> o ∈ options p) -> state_ok st -> state_ok st'.
Proof.
  intros Ha Hg He Hw [H1 H2 _]. split; [|by rewrite Ha, He|done].
  eapply Forall_impl; [exact H1|]. intros o (v & Hv & Ho). exists v. by rewrite Ha, Hg.
Qed.

Lemma start_ok : state_ok (start_parse p).
Proof using Hp.
  pose proof (po_dests p Hp) as Hd. unfold dests in Hd. split; cbn [start_parse attributes given expected pending].
  - apply Forall_forall. intros o Ho. exists (unset o). split; [|by rewrite decide_False by apply not_elem_of_nil].
    apply assoc_string_NoDup.
    + unfold start_parse, attributes, defaults. rewrite fmap_app, <- !list_fmap_compose. exact Hd.
    + apply elem_of_app. left. apply list_elem_of_fmap. by exists o.
  - exists []. split; [done|constructor].
  - done.
Qed.

(** Storing what an option or a positional stands for. *)
Lemma set_option_ok o v st : o ∈ options p -> stored (act o) v -> state_ok st -> state_ok (set_attribute (dest o) v st).
Proof using Hp.
  intros Ho Hv [H1 (done & Hd & H2) H3]. pose proof (po_dests p Hp) as (Hnd & Hdis & _)%NoDup_app. split; [| |done]; cbn.
  - apply Forall_forall. intros o' Ho'. rewrite Forall_forall in H1. destruct (decide (dest o = dest o')) as [He|He].
    + assert (o = o') as <- by (by eapply NoDup_fmap_inj). exists v. cbn. rewrite assoc_set_same, decide_True by (by left). done.
    + destruct (H1 o' Ho') as (v' & Hv' & Hs). exists v'. cbn. rewrite assoc_set_other by done. split; [done|].
      destruct (decide (dest o' ∈ given st)); [rewrite decide_True by (by right)|rewrite decide_False]; [done|done|].
      rewrite not_elem_of_cons. split; [congruence|done].
  - exists done. split; [done|]. rewrite Forall_forall in H2 |- *. intros x Hx. destruct (H2 x Hx) as (v' & Hv' & Ht).
    exists v'. rewrite assoc_set_other; [done|]. intros He. apply (Hdis (dest o)); [apply list_elem_of_fmap; by exists o|].
    rewrite He. apply list_elem_of_fmap. exists x. split; [done|]. rewrite Hd. apply elem_of_app. by left.
Qed.

Lemma set_positional_ok x l v st : expected st = x :: l -> of_type (pos_type x) v -> chosen (pos_choices x) v ->
  state_ok st -> state_ok (set_expected l (set_attribute (pos_dest x) v st)).
Proof using Hp.
  intros He Ht Hc [H1 (done & Hd & H2) H3]. pose proof (po_dests p Hp) as (_ & Hdis & Hnd)%NoDup_app.
  rewrite He in Hd. assert (x ∈ positionals p) as Hx by (rewrite Hd; set_solver).
  split; [| |done]; cbn.
  - rewrite Forall_forall in H1 |- *. intros o Ho. destruct (H1 o Ho) as (v' & Hv' & Hs). exists v'.
    assert (pos_dest x <> dest o) as Hne.
    { intros E. apply (Hdis (dest o)); [apply list_elem_of_fmap; by exists o|]. rewrite <- E. apply list_elem_of_fmap. by exists x. }
    cbn. rewrite assoc_set_other by done. split; [done|].
    destruct (decide (dest o ∈ given st)); [rewrite decide_True by (by right)|rewrite decide_False]; [done|done|].
    rewrite not_elem_of_cons. split; [congruence|done].
  - exists (done ++ [x]). split; [by rewrite <- app_assoc|]. apply Forall_app. split.
    + rewrite Forall_forall in H2 |- *. intros y Hy. destruct (H2 y Hy) as (v' & Hv' & Hs). exists v'.
      rewrite assoc_set_other; [done|]. intros E. rewrite Hd, fmap_app in Hnd. apply NoDup_app in Hnd as (_ & Hdis2 & _).
      apply (Hdis2 (pos_dest y)); [apply list_elem_of_fmap; by exists y|]. rewrite <- E. by left.
    + apply Forall_singleton. exists v. by rewrite assoc_set_same.
Qed.

(** What is stored, is stored with its type. *)
Lemma take_action_ok o vals st st' : o ∈ all_options p -> state_ok st -> take_action o vals st = Parsed st' -> state_ok st'.
Proof using Hp.
  intros Ho Hst. unfold take_action. destruct (act o) as [c ch|c| |] eqn:Ea, vals as [|s [|s' vals]]; try done.
  all: assert (o ∈ options p) as Hin by (apply elem_of_cons in Ho as [->|]; [discriminate Ea|done]).
  - destruct (convert c s ≫= choose ch) as [v|] eqn:E; [|done]. cbn. intros [= <-]. apply set_option_ok; [done| |done].
    rewrite Ea. by eapply convert_choose.
  - destruct (mapM _ _); [|done]. cbn. intros [= <-]. apply set_option_ok; [done| |done]. rewrite Ea. by eexists.
  - destruct (mapM _ _); [|done]. cbn. intros [= <-]. apply set_option_ok; [done| |done]. rewrite Ea. by eexists.
  - intros [= <-]. apply set_option_ok; [done| |done]. by rewrite Ea.
Qed.

Lemma flush_ok st st' : state_ok st -> flush st = Parsed st' -> state_ok st'.
Proof using Hp.
  intros Hst. unfold flush. destruct (pending st) as [[o vals]|] eqn:E; [|by intros [= <-]].
  apply take_action_ok; [right; by eapply so_pending|]. by apply (state_ok_same st).
Qed.

Lemma begin_option_ok o flag e st st' : o ∈ all_options p -> state_ok st -> begin_option o flag e st = Parsed st' -> state_ok st'.
Proof using Hp.
  intros Ho Hst. unfold begin_option.
  assert (act o <> ShowHelp -> o ∈ options p) as Hin.
  { intros Hne. apply elem_of_cons in Ho as [->|]; [by contradict Hne|done]. }
  destruct e as [e|], (act o) eqn:Ea; try done; try (by apply take_action_ok); try (by destruct (_ && _)).
  all: intros [= <-]; apply (state_ok_same st); [done..| |done]; intros o' vals [= <- <-]; by apply Hin.
Qed.

Lemma parse_step_ok st t st' : token_ok t -> state_ok st -> parse_step st t = Parsed st' -> state_ok st'.
Proof using Hp.
  intros Ht Hst. destruct t as [|s|s l]; cbn.
  - destruct (flush st) as [st1|] eqn:E; [|done]. cbn. intros [= <-]. apply flush_ok in E; [|done].
    apply (state_ok_same st1); [done..|exact (so_pending st1 E)|done].
  - destruct (pending st) as [[o vals]|] eqn:Ew.
    + assert (o ∈ options p) as Ho by (by eapply so_pending).
      destruct (act o); [intros H; eapply take_action_ok; [by right| |exact H]; by apply (state_ok_same st)|..].
      all: intros [= <-]; apply (state_ok_same st); [done..| |done]; by intros ? ? [= <- <-].
    + unfold take_positional. destruct (expected st) as [|x xs] eqn:Ex.
      { intros [= <-]. apply (state_ok_same st); [done..|exact (so_pending st Hst)|done]. }
      destruct (convert _ s ≫= choose _) as [v|] eqn:E; [|done]. cbn. intros [= <-].
      apply convert_choose in E as [? ?]. by apply set_positional_ok.
  - destruct (flush st) as [st1|] eqn:E; [|done]. cbn. apply flush_ok in E; [|done].
    destruct l as [|[[o flag] e] [|]]; [| |done].
    + intros [= <-]. apply (state_ok_same st1); [done..|exact (so_pending st1 E)|done].
    + apply Forall_cons in Ht as [Ho _]. apply begin_option_ok; [exact Ho|]. by apply (state_ok_same st1).
Qed.

Lemma parse_tokens_ok l st st' : Forall token_ok l -> state_ok st -> parse_tokens st l = Parsed st' -> state_ok st'.
Proof using Hp.
  intros Hl. revert st. induction Hl as [|t l Ht _ IH]; intros st Hst; cbn; [by apply flush_ok|].
  destruct (parse_step st t) as [st1|] eqn:E; [|done]. cbn. apply IH. by eapply parse_step_ok.
Qed.

Lemma parse_known_typed argv ns others : parse_known_args p argv = Parsed (ns, others) -> typed p ns.
Proof using Hp.
  unfold parse_known_args. destruct (parse_tokens _ _) as [st|] eqn:E; [|done]. cbn.
  apply parse_tokens_ok in E as [H1 (done & Hd & H2) _]; [|apply tokens_ok|apply start_ok].
  destruct (complete p st) eqn:Ec; [|done]. intros [= <- _]. unfold complete in Ec.
  apply andb_prop in Ec as [Hr He]. destruct (expected st); [|done]. rewrite app_nil_r in Hd. split; [|by rewrite Hd].
  rewrite forallb_forall in Hr. rewrite Forall_forall in H1 |- *. intros o Ho. destruct (H1 o Ho) as (v & Hv & Hs).
  exists v. split; [done|]. specialize (Hr o (proj1 (list_elem_of_In _ _) Ho)). destruct (decide _); [by left|right].
  split; [done|]. destruct (required o); [|done]. by rewrite bool_decide_false in Hr.
Qed.

Lemma parse_args_typed argv ns : parse_args p argv = Parsed ns -> typed p ns.
Proof using Hp.
  unfold parse_args. destruct (parse_known_args p argv) as [[ns' o]|] eqn:E; [|done]. cbn. destruct o; [done|].
  intros [= <-]. by eapply parse_known_typed.
Qed.

End typed.

(** ** How a parse ends *)

(** A parse that ends the program ends it after the help or with an error. *)
Definition ends {A} (m : parsed A) : Prop := match m with Parsed _ => True | Exit n => n = 0%Z \/ n = 2%Z end.

Lemma ends_bind {A B} (m : parsed A) (f : A -> parsed B) : ends m -> (forall a, ends (f a)) -> ends (m ≫= f).
Proof. destruct m; cbn; auto. Qed.
Lemma ends_error {A} : @ends A usage_error.
Proof. by right. Qed.
Lemma ends_or_error {A} (o : option A) : ends (or_error o).
Proof. destruct o; [done|apply ends_error]. Qed.

Create HintDb parse.
#[local] Hint Resolve ends_bind ends_error ends_or_error : parse.
#[local] Hint Extern 1 (ends (Exit 0)) => left : parse.
#[local] Hint Extern 1 (ends (Parsed _)) => exact I : parse.

Lemma take_action_ends o vals st : ends (take_action o vals st).
Proof. unfold take_action. repeat case_match; auto with parse. Qed.
#[local] Hint Resolve take_action_ends : parse.

Lemma flush_ends st : ends (flush st).
Proof. unfold flush. repeat case_match; auto with parse. Qed.
Lemma begin_option_ends o flag e st : ends (begin_option o flag e st).
Proof. unfold begin_option. repeat case_match; auto with parse. Qed.
Lemma take_positional_ends s st : ends (take_positional s st).
Proof. unfold take_positional. repeat case_match; auto with parse. Qed.
#[local] Hint Resolve flush_ends begin_option_ends take_positional_ends : parse.

Lemma parse_step_ends st t : ends (parse_step st t).
Proof. destruct t; cbn; [apply ends_bind; auto with parse|repeat case_match; auto with parse|].
  apply ends_bind; [auto with parse|]. intros st'. repeat case_match; auto with parse.
Qed.
#[local] Hint Resolve parse_step_ends : parse.

Lemma parse_tokens_ends l st : ends (parse_tokens st l).
Proof. revert st. induction l as [|t l IH]; intros st; cbn; auto with parse. Qed.

Lemma parse_known_ends p argv : ends (parse_known_args p argv).
Proof. apply ends_bind; [apply parse_tokens_ends|]. intros st. destruct (complete p st); auto with parse. Qed.
#[local] Hint Resolve parse_known_ends : parse.

Lemma parse_args_ends p argv : ends (parse_args p argv).
Proof. apply ends_bind; [auto with parse|]. intros [ns others]. destruct others; auto with parse. Qed.

Lemma parse_command_ends commands others argv : ends (parse_command commands others argv).
Proof.
  revert others. induction argv as [|s argv IH]; intros others; cbn; [by right|].
  repeat case_match; subst; auto with parse; apply ends_bind; auto with parse; intros p; apply ends_bind; auto with parse;
    intros [ns more]; by destruct (others || more); auto with parse.
Qed.

(** ** The programs *)

(** A command line gives arguments, or it ends the program. *)
Definition commanded {A} (m : parsed (option A)) : Prop := (exists a, m = Parsed (Some a)) \/ m = Exit 0 \/ m = Exit 2.

Lemma commanded_bind {A B} (m : parsed A) (args : A -> option B) :
  ends m -> (forall a, m = Parsed a -> is_Some (args a)) -> commanded (a ← m; Parsed (args a)).
Proof.
  destruct m as [a|n]; cbn; [|by intros [->| ->]; right; [left|right]].
  intros _ H. destruct (H a eq_refl) as [b ->]. left. by exists b.
Qed.

(** A parser whose namespaces give the arguments of the program. *)
Definition reads {A} (p : parser) (args : namespace -> option A) : Prop :=
  forall argv ns, parse_args p argv = Parsed ns -> is_Some (args ns).

(** The attributes of a namespace, one after the other. *)
Ltac read_attributes :=
  repeat match goal with
    | H : Forall _ (_ :: _) |- _ => apply Forall_cons in H as [? H]
    | H : Forall _ [] |- _ => clear H
    | H : option_typed _ _ |- _ => destruct H as (? & ? & ?)
    | H : positional_typed _ _ |- _ => destruct H as (? & ? & ? & ?)
    | H : stored _ _ \/ _ |- _ => destruct H as [H|H]
    | H : stored _ _ |- _ => cbn in H
    | H : of_type _ _ |- _ => cbn in H
    | H : _ /\ _ |- _ => destruct H
    | H : exists _, _ |- _ => destruct H
    | H : ?x = unset _ |- _ => cbn in H; subst x
    | H : ?x = VBool _ |- _ => subst x
    | H : ?x = VText _ |- _ => subst x
    | H : ?x = VTexts _ |- _ => subst x
    | H : ?x = VInt _ |- _ => subst x
    | H : ?x = VFloat _ |- _ => subst x
    | H : required _ = false |- _ => cbn in H; try discriminate H; clear H
    | H : assoc_string _ (dest _) = _ |- _ => cbn [dest opt_text opt_path opt_int opt_float opt_choice opt_flag] in H
    | H : assoc_string _ (pos_dest _) = _ |- _ => cbn [pos_dest pos_text pos_path] in H
    end.

Ltac read_args :=
  unfold get_text, get_texts, get_int, get_float, get_bool, get_optional_text;
  repeat match goal with H : assoc_string ?ns ?k = Some _ |- context [assoc_string ?ns ?k] => rewrite H; clear H; cbn end;
  try by eexists.

Ltac parser_is_ok := split; [by apply (bool_decide_unpack _)|repeat constructor; discriminate].

Ltac reads_args :=
  intros argv ns [Ho Hx]%parse_args_typed; [|parser_is_ok]; cbn [options positionals] in Ho, Hx; read_attributes; read_args.

Lemma compile_reads capabilities : reads (compile_parser capabilities) compile_args.
Proof. unfold compile_parser, compile_args. reads_args. Qed.

Lemma metrics_reads : reads metrics_parser metrics_args.
Proof. unfold metrics_parser, metrics_args. reads_args. Qed.
Lemma timing_reads : reads timing_parser timing_args.
Proof. unfold timing_parser, timing_args. reads_args. Qed.
Lemma inventory_reads : reads inventory_parser inventory_args.
Proof. unfold inventory_parser, inventory_args. reads_args. Qed.
Lemma admission_reads : reads admission_parser admission_args.
Proof. unfold admission_parser, admission_args. reads_args. Qed.
Lemma sources_reads : reads sources_parser sources_args.
Proof. unfold sources_parser, sources_args. reads_args. Qed.
Lemma capture_reads : reads capture_parser capture_args.
Proof. unfold capture_parser, capture_args. reads_args. Qed.
Lemma static_reads : reads static_parser static_args.
Proof. unfold static_parser, static_args. reads_args. Qed.

Lemma role_known s : chosen (Some roles.*1) (VText s) -> is_Some (assoc_string roles s).
Proof.
  intros (s' & [= <-] & Hs). cbn in Hs. by repeat apply elem_of_cons in Hs as [->|Hs]; [eexists..|apply elem_of_nil in Hs].
Qed.

Lemma wifi_reads : reads wifi_parser wifi_args.
Proof.
  unfold wifi_parser, wifi_args. reads_args.
  all: match goal with H : chosen _ (VText ?s) |- is_Some (?x ≫= _) =>
    change x with (assoc_string roles s); destruct (role_known s H) as [r ->]; by eexists end.
Qed.

Lemma reads_commanded {A} p (args : namespace -> option A) argv : reads p args -> commanded (ns ← parse_args p argv; Parsed (args ns)).
Proof. intros H. apply commanded_bind; [apply parse_args_ends|]. intros ns. apply H. Qed.

(** A parse of subcommands is a parse of one of them. *)
Lemma parse_command_Parsed commands others argv name ns :
  parse_command commands others argv = Parsed (name, ns) ->
  exists p rest, assoc_string commands name = Some p /\ parse_known_args p rest = Parsed (ns, false).
Proof.
  revert others. induction argv as [|s argv IH]; intros others; cbn; [done|].
  assert (forall n rest, (p ← or_error (assoc_string commands n); '(ns', more) ← parse_known_args p rest;
      if others || more then usage_error else Parsed (n, ns')) = Parsed (name, ns) ->
    exists p rest, assoc_string commands name = Some p /\ parse_known_args p rest = Parsed (ns, false)) as Hrun.
  { intros n rest. destruct (assoc_string commands n) as [p|] eqn:Ep; [|done]. cbn.
    destruct (parse_known_args p rest) as [[ns' more]|] eqn:E; [|done]. cbn.
    destruct others; [done|]. destruct more; [done|]. cbn. intros [= <- <-]. by exists p, rest. }
  case_bool_decide; [destruct argv; [done|apply Hrun]|].
  destruct (parse_optional _ s) as [[|[[o flag] e] [|]]|]; [apply IH| |done|apply Hrun].
  by destruct (begin_option _ _ _ _).
Qed.

Lemma resource_reads argv name ns :
  parse_command resource_commands false argv = Parsed (name, ns) -> is_Some (resource_args name ns).
Proof.
  intros (p & rest & Hp & E)%parse_command_Parsed. unfold resource_args.
  apply assoc_string_elem in Hp. repeat apply elem_of_cons in Hp as [[= -> ->]|Hp]; [..|by apply elem_of_nil in Hp];
    apply parse_known_typed in E as [Ho Hx]; [|parser_is_ok| |parser_is_ok]; unfold plan_parser, verify_parser in *;
    cbn [options positionals] in Ho, Hx; read_attributes; read_args.
Qed.

Lemma resource_commanded argv :
  commanded ('(name, ns) ← parse_command resource_commands false argv; Parsed (resource_args name ns)).
Proof.
  pose proof (parse_command_ends resource_commands false argv) as He.
  destruct (parse_command _ _ _) as [[name ns]|n] eqn:E; cbn.
  - destruct (resource_reads _ _ _ E) as [a ->]. left. by exists a.
  - by destruct He as [->| ->]; [right; left|right; right].
Qed.

(** ** Command lines that are read back *)

(** An argument that is not taken for an option. *)
Definition plain_arg (s : string) : bool := negb (str_startswith "-" s).

(** An option with its value, or a positional argument. *)
Inductive arg_group := Given (flag s : string) | Place (s : string).
Definition group_argv (g : arg_group) : list string := match g with Given flag s => [flag; s] | Place s => [s] end.
Definition argv_of (gs : list arg_group) : list string := concat (group_argv <$> gs).

(** What an option with a value stores. *)
Record option_gives (p : parser) (g : arg_group) (kv : string * value) : Prop := {
  og_group : exists flag s o c choices, g = Given flag s /\ assoc_string (option_strings p) flag = Some o /\
    str_startswith "-" flag = true /\ flag <> "--" /\ act o = StoreOne c choices /\ plain_arg s = true /\
    kv.1 = dest o /\ convert c s ≫= choose choices = Some kv.2
}.

(** A state between two groups. *)
Record between (st : pstate) (ns : namespace) (g : list string) (e : list positional) : Prop := {
  bt_attributes : attributes st = ns;
  bt_given : given st = g;
  bt_expected : expected st = e;
  bt_pending : pending st = None;
  bt_extras : extras st = false;
  bt_dashed : dashed st = false
}.

Lemma tokens_plain p s argv : plain_arg s = true -> tokens p (s :: argv) = TArg s :: tokens p argv.
Proof.
  intros Hs. unfold plain_arg in Hs. cbn [tokens]. rewrite bool_decide_false by (by intros ->).
  unfold parse_optional. by rewrite Hs.
Qed.

Lemma tokens_flag p flag o argv : assoc_string (option_strings p) flag = Some o -> str_startswith "-" flag = true -> flag <> "--" ->
  tokens p (flag :: argv) = TOpt flag [(o, flag, None)] :: tokens p argv.
Proof.
  intros Ho Hf Hd. cbn [tokens]. rewrite bool_decide_false by done. unfold parse_optional. by rewrite Hf, Ho.
Qed.

Lemma parse_option p g kv argv st ns gv e : option_gives p g kv -> between st ns gv e ->
  exists st', parse_tokens st (tokens p (group_argv g ++ argv)) = parse_tokens st' (tokens p argv) /\
    between st' (dict_set ns kv.1 kv.2) (kv.1 :: gv) e.
Proof.
  intros [(flag & s & o & c & ch & -> & Ho & Hf & Hd & Ha & Hs & Hk & Hv)] [<- <- <- Hp He Hd']. destruct kv as [k v]. cbn in Hk, Hv.
  cbn [group_argv app]. rewrite (tokens_flag p flag o) by done. rewrite tokens_plain by done. cbn [parse_tokens parse_step].
  unfold flush at 1. rewrite Hp. cbn. unfold begin_option. rewrite Ha. cbn. rewrite Ha.
  unfold take_action. rewrite Ha, Hv. cbn. eexists. split; [reflexivity|]. by rewrite Hk.
Qed.

Lemma parse_place p x e s v argv st ns gv : plain_arg s = true -> convert (pos_type x) s ≫= choose (pos_choices x) = Some v ->
  between st ns gv (x :: e) ->
  exists st', parse_tokens st (tokens p (s :: argv)) = parse_tokens st' (tokens p argv) /\
    between st' (dict_set ns (pos_dest x) v) (pos_dest x :: gv) e.
Proof.
  intros Hs Hv [<- <- Hx Hp He Hd]. rewrite tokens_plain by done. cbn [parse_tokens parse_step]. rewrite Hp.
  unfold take_positional. rewrite Hx, Hv. cbn. eexists. split; [reflexivity|]. done.
Qed.

(** The attributes after some of them were set. *)
Definition set_all (ns : namespace) (kvs : list (string * value)) : namespace :=
  foldl (fun ns kv => dict_set ns kv.1 kv.2) ns kvs.

Lemma parse_options p gs kvs argv st ns gv e : Forall2 (option_gives p) gs kvs -> between st ns gv e ->
  exists st', parse_tokens st (tokens p (argv_of gs ++ argv)) = parse_tokens st' (tokens p argv) /\
    between st' (set_all ns kvs) (reverse kvs.*1 ++ gv) e.
Proof.
  intros Hg. revert st ns gv. induction Hg as [|g kv gs kvs Hg _ IH]; intros st ns gv Hst; [by exists st|].
  destruct (parse_option p g kv (argv_of gs ++ argv) st ns gv e Hg Hst) as (st1 & E1 & H1).
  destruct (IH st1 _ _ H1) as (st2 & E2 & H2). exists st2.
  change (argv_of (g :: gs)) with (group_argv g ++ argv_of gs). rewrite <- app_assoc, E1. split; [done|].
  by rewrite fmap_cons, reverse_cons, <- app_assoc.
Qed.

Lemma set_all_get ns kvs k : NoDup kvs.*1 ->
  assoc_string (set_all ns kvs) k = match assoc_string kvs k with Some v => Some v | None => assoc_string ns k end.
Proof.
  unfold set_all. revert ns. induction kvs as [|[k' v] kvs IH]; intros ns Hnd; [done|]. cbn in *.
  apply NoDup_cons in Hnd as [Hn Hnd]. rewrite IH by done. case_decide as Hk.
  - subst k'. destruct (assoc_string kvs k) as [w|] eqn:E; [|by rewrite assoc_set_same].
    contradict Hn. apply list_elem_of_fmap. exists (k, w). split; [done|]. by apply assoc_string_elem.
  - destruct (assoc_string kvs k); [done|]. by rewrite assoc_set_other.
Qed.

Lemma assoc_string_perm {A} (l l' : list (string * A)) k : NoDup l.*1 -> l ≡ₚ l' -> assoc_string l k = assoc_string l' k.
Proof.
  intros Hnd Hp. destruct (assoc_string l k) as [v|] eqn:E.
  - symmetry. apply assoc_string_NoDup; [by rewrite <- Hp|]. rewrite <- Hp. by apply assoc_string_elem.
  - destruct (assoc_string l' k) as [v|] eqn:E'; [|done]. apply assoc_string_elem in E'. rewrite <- Hp in E'.
    apply assoc_string_NoDup in E'; [congruence|done].
Qed.

(** The end of a command line that is complete. *)
Lemma parse_known_complete p argv st kvs g :
  parse_tokens (start_parse p) (tokens p argv) = parse_tokens st [] ->
  between st (set_all (defaults p) kvs) g [] -> NoDup kvs.*1 ->
  forallb (fun o => negb (required o) || bool_decide (dest o ∈ g)) (options p) = true ->
  exists ns, parse_known_args p argv = Parsed (ns, false) /\
    forall k, assoc_string ns k = match assoc_string kvs k with Some v => Some v | None => assoc_string (defaults p) k end.
Proof.
  intros E [Ha Hgv He Hw Hx Hd] Hnd Hreq. exists (attributes st). unfold parse_known_args. rewrite E.
  cbn [parse_tokens]. unfold flush. rewrite Hw. cbn. unfold complete. rewrite He, Hgv, Hreq, Hx, Hd. cbn.
  split; [done|]. intros k. by rewrite Ha, set_all_get.
Qed.

Lemma required_given p (ks ks' : list string) : ks ⊆ ks' ->
  forallb (fun o => negb (required o) || bool_decide (dest o ∈ ks)) (options p) = true ->
  forallb (fun o => negb (required o) || bool_decide (dest o ∈ ks')) (options p) = true.
Proof.
  intros Hk. rewrite !forallb_forall. intros Hreq o Ho. specialize (Hreq o Ho). destruct (negb (required o)); [done|].
  cbn in *. apply bool_decide_eq_true in Hreq. apply bool_decide_eq_true. by apply Hk.
Qed.

(** Options in any order, all that are required among them. *)
Lemma parse_known_options p gs kvs gs' :
  positionals p = [] -> Forall2 (option_gives p) gs kvs -> gs ≡ₚ gs' -> NoDup kvs.*1 ->
  forallb (fun o => negb (required o) || bool_decide (dest o ∈ kvs.*1)) (options p) = true ->
  exists ns, parse_known_args p (argv_of gs') = Parsed (ns, false) /\
    forall k, assoc_string ns k = match assoc_string kvs k with Some v => Some v | None => assoc_string (defaults p) k end.
Proof.
  intros Hpos Hg Hp Hnd Hreq. destruct (Forall2_perm _ _ _ _ Hp Hg) as (kvs' & Hk & Hg').
  destruct (parse_options p gs' kvs' [] (start_parse p) _ _ [] Hg' ltac:(by split)) as (st & E & Hst).
  rewrite app_nil_r in E.
  destruct (parse_known_complete p (argv_of gs') st kvs' _ E Hst) as (ns & Hns & Hk').
  - by rewrite <- Hk.
  - eapply required_given; [|exact Hreq]. intros k Hin. rewrite app_nil_r, elem_of_reverse. by rewrite <- Hk.
  - exists ns. split; [done|]. intros k. rewrite Hk'. by rewrite (assoc_string_perm kvs kvs').
Qed.

(** The same around one positional argument. *)
Lemma parse_known_one p x s v gs kvs gs1 gs2 :
  positionals p = [x] -> plain_arg s = true -> convert (pos_type x) s ≫= choose (pos_choices x) = Some v ->
  Forall2 (option_gives p) gs kvs -> gs ≡ₚ gs1 ++ gs2 -> NoDup (pos_dest x :: kvs.*1) ->
  forallb (fun o => negb (required o) || bool_decide (dest o ∈ kvs.*1)) (options p) = true ->
  exists ns, parse_known_args p (argv_of gs1 ++ s :: argv_of gs2) = Parsed (ns, false) /\
    forall k, assoc_string ns k =
      match assoc_string ((pos_dest x, v) :: kvs) k with Some v => Some v | None => assoc_string (defaults p) k end.
Proof.
  intros Hpos Hs Hv Hg Hp Hnd Hreq. destruct (Forall2_perm _ _ _ _ Hp Hg) as (kvs' & Hk & Hg').
  apply Forall2_app_inv_l in Hg' as (k1 & k2 & H1 & H2 & ->).
  destruct (parse_options p gs1 k1 (s :: argv_of gs2) (start_parse p) _ _ [x] H1 ltac:(by split)) as (st1 & E1 & S1).
  destruct (parse_place p x [] s v (argv_of gs2) _ _ _ Hs Hv S1) as (st2 & E2 & S2).
  destruct (parse_options p gs2 k2 [] _ _ _ _ H2 S2) as (st3 & E3 & S3). rewrite app_nil_r in E3. cbn [tokens] in E3.
  assert (k1 ++ (pos_dest x, v) :: k2 ≡ₚ (pos_dest x, v) :: kvs) as Hall by (by rewrite Hk, Permutation_middle).
  destruct (parse_known_complete p (argv_of gs1 ++ s :: argv_of gs2) st3 (k1 ++ (pos_dest x, v) :: k2)
    (reverse k2.*1 ++ pos_dest x :: reverse k1.*1 ++ [])) as (ns & Hns & Hk').
  - by rewrite E1, E2, E3.
  - unfold set_all in *. by rewrite foldl_app.
  - by rewrite Hall.
  - eapply required_given; [|exact Hreq]. intros k Hin.
    rewrite elem_of_app, elem_of_cons, app_nil_r, !elem_of_reverse. rewrite Hk, fmap_app, elem_of_app in Hin. tauto.
  - exists ns. split; [done|]. intros k. rewrite Hk'. rewrite (assoc_string_perm _ ((pos_dest x, v) :: kvs)); [done| |done]. by rewrite Hall.
Qed.

(** ** The commands of the build *)

Definition compile_groups (backend capabilities output : string) : list arg_group :=
  [Given "--backend" backend; Given "--capabilities-dir" capabilities; Given "--output-dir" output].
Definition plan_groups (plan config target sync json markdown : string) : list arg_group :=
  [Given "--deployment-plan" plan; Given "--config" config; Given "--target" target; Given "--ddsrt-sync" sync;
   Given "--json" json; Given "--markdown" markdown].
Definition verify_groups (plan dir : string) (log : option string) (json markdown : string) : list arg_group :=
  [Given "--resource-plan" plan; Given "--build-dir" dir] ++
  match log with Some l => [Given "--runtime-log" l] | None => [] end ++
  [Given "--json" json; Given "--markdown" markdown].

Definition group_plain (g : arg_group) : bool := match g with Given _ s | Place s => plain_arg s end.

(** An option with a value, looked up by computation. *)
Ltac option_given := split; do 5 eexists; repeat (split; [first [reflexivity|assumption|done]|]); first [reflexivity|assumption].

Ltac plain_groups H :=
  unfold compile_groups, plan_groups, verify_groups in H; cbn [app] in H;
  repeat match type of H with Forall _ (_ :: _) => let H' := fresh "Hg" in apply Forall_cons in H as [H' H]; cbn in H' end.

(** The parsed attributes, where they are read. *)
Ltac read_back Hk := unfold get_text, get_optional_text; rewrite !Hk; reflexivity.

Lemma compile_reads_back caps deployment backend capabilities output gs1 gs2 :
  plain_arg deployment = true -> Forall (fun g => group_plain g = true) (compile_groups backend capabilities output) ->
  compile_groups backend capabilities output ≡ₚ gs1 ++ gs2 ->
  exists ns, parse_args (compile_parser caps) (argv_of gs1 ++ deployment :: argv_of gs2) = Parsed ns /\
    compile_args ns = Some (CompileMain.Args (path_text deployment) backend (path_text capabilities) (path_text output)).
Proof.
  intros Hd Hg Hp. plain_groups Hg.
  destruct (parse_known_one (compile_parser caps) (pos_path "deployment") deployment (VText (path_text deployment))
    (compile_groups backend capabilities output)
    [("backend", VText backend); ("capabilities-dir", VText (path_text capabilities)); ("output-dir", VText (path_text output))]
    gs1 gs2) as (ns & Hns & Hk); [done|done|done| |done|by apply (bool_decide_unpack _)|done|].
  { repeat (constructor; [option_given|]). constructor. }
  exists ns. unfold parse_args. rewrite Hns. split; [done|]. unfold compile_args. read_back Hk.
Qed.

Lemma parse_command_name commands name p rest ns : plain_arg name = true -> assoc_string commands name = Some p ->
  parse_known_args p rest = Parsed (ns, false) -> parse_command commands false (name :: rest) = Parsed (name, ns).
Proof.
  intros Hn Hp Hns. unfold plain_arg in Hn. cbn [parse_command]. rewrite bool_decide_false by (by intros ->).
  unfold parse_optional. rewrite Hn, Hp. cbn [or_error mbind parsed_bind]. by rewrite Hns.
Qed.

Lemma plan_reads_back plan config target sync json markdown gs :
  Forall (fun g => group_plain g = true) (plan_groups plan config target sync json markdown) -> sync ∈ ddsrt_choices ->
  plan_groups plan config target sync json markdown ≡ₚ gs ->
  exists ns, parse_command resource_commands false ("plan" :: argv_of gs) = Parsed ("plan", ns) /\
    resource_args "plan" ns = Some (ResourceMain.Args
      (PlanCommand (path_text plan) (path_text config) target sync) (path_text json) (path_text markdown)).
Proof.
  intros Hg Hs Hp. plain_groups Hg.
  destruct (parse_known_options plan_parser (plan_groups plan config target sync json markdown)
    [("deployment-plan", VText (path_text plan)); ("config", VText (path_text config)); ("target", VText target);
     ("ddsrt-sync", VText sync); ("json", VText (path_text json)); ("markdown", VText (path_text markdown))]
    gs) as (ns & Hns & Hk); [done| |done|by apply (bool_decide_unpack _)|done|].
  { repeat (constructor; [option_given || (split; do 5 eexists; repeat (split; [first [reflexivity|assumption|done]|]);
      cbn; by rewrite bool_decide_true)|]). constructor. }
  exists ns. split; [by apply (parse_command_name _ _ plan_parser)|]. unfold resource_args. read_back Hk.
Qed.

Lemma verify_reads_back plan dir log json markdown gs :
  Forall (fun g => group_plain g = true) (verify_groups plan dir log json markdown) ->
  verify_groups plan dir log json markdown ≡ₚ gs ->
  exists ns, parse_command resource_commands false ("verify" :: argv_of gs) = Parsed ("verify", ns) /\
    resource_args "verify" ns = Some (ResourceMain.Args
      (VerifyCommand (path_text plan) (path_text dir) (path_text <$> log)) (path_text json) (path_text markdown)).
Proof.
  intros Hg Hp. destruct log as [log|]; plain_groups Hg;
    [destruct (parse_known_options verify_parser (verify_groups plan dir (Some log) json markdown)
      [("resource-plan", VText (path_text plan)); ("build-dir", VText (path_text dir)); ("runtime-log", VText (path_text log));
       ("json", VText (path_text json)); ("markdown", VText (path_text markdown))] gs) as (ns & Hns & Hk)
    |destruct (parse_known_options verify_parser (verify_groups plan dir None json markdown)
      [("resource-plan", VText (path_text plan)); ("build-dir", VText (path_text dir));
       ("json", VText (path_text json)); ("markdown", VText (path_text markdown))] gs) as (ns & Hns & Hk)];
    try (by apply (bool_decide_unpack _)); try done; try (repeat (constructor; [option_given|]); constructor).
  all: exists ns; split; [by apply (parse_command_name _ _ verify_parser)|]; unfold resource_args; read_back Hk.
Qed.

End CliSpec.
