(* ===== verification/Build.v ===== *)
(** * The build

    The order in which a build runs the tools, from [cmake/deployment.cmake] and
    [cmake/runtime.cmake]: the deployment is compiled and its plan is admitted when
    the build is configured, and the linked image is verified.  Each tool is started
    with the command line that CMake writes, and reads the files the tools before it
    wrote.  What Kconfig and the linker do in between is a parameter. *)

From Stdlib Require Import Ascii String.
From S2P Require Import Prelude PyStr PyObj Process Argparse Postlink ResourceMain Cli.

Module Build.
Import Process Postlink Cli.

Record site := Site {
  (** [CMAKE_CURRENT_BINARY_DIR] and [CMAKE_BINARY_DIR] *)
  current_binary_dir : string;
  binary_dir : string;
  deployment_file : string;
  backend : string;
  capabilities_directory : string;
  (** [CONFIG_BOARD_TARGET] and [ros2_zephyr_ddsrt_sync] *)
  board_target : string;
  ddsrt_sync : string;
  (** the default of [--capabilities-dir], the help and the usage of the tools *)
  tool_capabilities : string;
  help_text : string;
  usage_text : string
}.

Section build.
Context (b : site).

Definition generated_directory : string := current_binary_dir b +:+ "/generated/deployment".
Definition generated (name : string) : string := generated_directory +:+ "/" +:+ name.
Definition config_file : string := binary_dir b +:+ "/zephyr/.config".

Definition compile_argv : list string :=
  [deployment_file b; "--backend"; backend b; "--capabilities-dir"; capabilities_directory b;
   "--output-dir"; generated_directory].

Definition plan_argv : list string :=
  ["plan"; "--deployment-plan"; generated "deployment-plan.json"; "--config"; config_file;
   "--target"; board_target b; "--ddsrt-sync"; ddsrt_sync b;
   "--json"; generated "resource-plan.json"; "--markdown"; generated "resource-plan.md"].

Definition verify_argv : list string :=
  ["verify"; "--resource-plan"; generated "resource-plan.json"; "--build-dir"; binary_dir b;
   "--json"; generated "resource-report.json"; "--markdown"; generated "resource-report.md"].

(** The file a run wrote last under a name. *)
Fixpoint last_written (w : written) (path : string) : option string :=
  match w with
  | [] => None
  | (p, text) :: w =>
      match last_written w path with
      | Some t => Some t
      | None => if decide (p = path) then Some text else None
      end
  end.

(** The file system after a run. *)
Definition after (en : env) (o : outcome) : env :=
  Env (fun p => match last_written (files o) p with Some text => Ok text | None => env_read en p end)
    (env_mkdir en) (env_write en) (json_error en).

(** What Kconfig and the linker do to the file system; the linked artifacts. *)
Context (kconfig : env -> env) (link : env -> env * build_files).

Definition run_compile (en : env) : outcome :=
  compile_cli (tool_capabilities b) (help_text b) (usage_text b) en compile_argv.
Definition configured (en : env) : env := kconfig (after en (run_compile en)).

(** The plan command reads no linked artifact. *)
Definition run_plan (no_build : build_files) (en : env) : outcome :=
  resource_cli (help_text b) (usage_text b) (configured en) no_build plan_argv.
Definition linked (no_build : build_files) (en : env) : env * build_files :=
  link (after (configured en) (run_plan no_build en)).

Definition run_verify (no_build : build_files) (en : env) : outcome :=
  resource_cli (help_text b) (usage_text b) (linked no_build en).1 (linked no_build en).2 verify_argv.

(** [NOT result EQUAL 0] is fatal. *)
Definition succeeded (o : outcome) : bool := bool_decide (exit o = Ok 0%Z).

Inductive verdict := CompilationFailed | AdmissionFailed | VerificationFailed | Accepted.

#[export] Instance verdict_eq_dec : EqDecision verdict.
Proof. solve_decision. Defined.

Definition build (no_build : build_files) (en : env) : verdict :=
  if negb (succeeded (run_compile en)) then CompilationFailed
  else if negb (succeeded (run_plan no_build en)) then AdmissionFailed
  else if negb (succeeded (run_verify no_build en)) then VerificationFailed
  else Accepted.

End build.

End Build.
