(* ===== verification/BuildSpec.v ===== *)
(** * When a build is accepted

    The tools composed: a build succeeds exactly when the deployment meets its
    contract, the backend supports it, the configuration holds it within the budget
    of the target, and the linked image fits. *)

From Stdlib Require Import Ascii String.
From S2P Require Import Prelude PyStr PyObj Json JsonSpec Process Argparse.
From S2P Require Import Validate Deployment ValidateSpec Capability CompileMain CompileSpec Config Plan PlanSpec Elf MapFile Postlink PostlinkSpec.
From S2P Require Import ResourceMain ReportSpec PlanFile Toolchain Cli CliSpec Build.

Module BuildSpec.
Import Process Json JsonSpec Deploy Contract Capability CompileSpec Config Plan PlanSpec Elf MapFile Postlink PostlinkSpec PlanFile Toolchain.
Import ReportSpec Argparse Cli CliSpec Build.

(** ** Paths *)

(** An absolute path without redundant parts that is not a root. *)
Record absolute (p : string) : Prop := {
  ab_slash : str_startswith "/" p = true;
  ab_end : str_endswith "/" p = false;
  ab_text : path_text p = p
}.

(** The name of a file. *)
Definition file_name (n : string) : bool :=
  str_all (fun c => negb (is_char "/" c)) n && negb (bool_decide (n = EmptyString)) && negb (bool_decide (n = ".")).

Lemma split_on_app x p n : split_on x (p +:+ String x n) = split_on x p ++ split_on x n.
Proof.
  assert (is_char x x = true) as Hx by apply Ascii.eqb_refl.
  assert (forall s, split_on x s <> []) as Hne.
  { intros s. destruct s as [|c s]; [done|]. cbn [split_on]. destruct (is_char x c); [done|]. by destruct (split_on x s). }
  induction p as [|c p IH].
  - change (EmptyString +:+ String x n) with (String x n). cbn [split_on]. by rewrite Hx.
  - change (String c p +:+ String x n) with (String c (p +:+ String x n)). cbn [split_on]. rewrite IH. destruct (is_char x c); [done|]. destruct (split_on x p) eqn:E; [|done]. by apply Hne in E.
Qed.

Lemma split_on_name x n : str_all (fun c => negb (is_char x c)) n = true -> split_on x n = [n].
Proof.
  induction n as [|c n IH]; [done|]. cbn. intros [Hc Hn]%andb_prop. apply negb_true_iff in Hc. by rewrite Hc, IH.
Qed.

Lemma path_parts_join p n : file_name n = true -> path_parts (p +:+ "/" +:+ n) = path_parts p ++ [n].
Proof.
  unfold file_name. intros [[Hn He]%andb_prop Hd]%andb_prop. unfold path_parts. change ("/" +:+ n) with (String "/" n).
  rewrite split_on_app, List.filter_app, (split_on_name "/" n) by done. cbn.
  apply negb_true_iff in He, Hd. by rewrite He, Hd.
Qed.

Lemma path_root_join p n : str_startswith "/" p = true -> str_endswith "/" p = false -> path_root (p +:+ "/" +:+ n) = path_root p.
Proof.
  assert (forall c p n, String c p +:+ n = String c (p +:+ n)) as Happ by done. unfold path_root, str_startswith.
  destruct p as [|a [|b [|c p]]]; [done|..]; rewrite ?Happ; cbn [String.prefix].
  - destruct (ascii_dec "/" a) as [<-|]; done.
  - intros _ He. assert (b <> "/"%char) as Hb by (intros ->; cbn in He; by rewrite !orb_true_r in He).
    destruct (ascii_dec "/" b); [congruence|done].
  - intros _ _. assert (forall s, String.prefix EmptyString s = true) as Hp by (by intros []). by rewrite !Hp.
Qed.

Lemma str_join_snoc sep l x : l <> [] -> str_join sep (l ++ [x]) = str_join sep l +:+ sep +:+ x.
Proof.
  induction l as [|y l IH]; [done|]. intros _. destruct l as [|z l]; [done|]. cbn in *. rewrite IH by done.
  by rewrite <- !str_app_assoc.
Qed.

Lemma absolute_join p n : absolute p -> file_name n = true -> path_text (p +:+ "/" +:+ n) = p +:+ "/" +:+ n.
Proof.
  intros [Hs He Ht] Hn. unfold path_text, path_div in *.
  assert (path_root p <> EmptyString) as Hr.
  { unfold path_root. rewrite Hs. by repeat case_match. }
  rewrite path_root_join, path_parts_join by done. rewrite bool_decide_false in Ht |- * by done.
  destruct (path_root p) as [|r rs] eqn:Er; [done|].
  assert (path_parts p <> []) as Hne.
  { intros E. rewrite E in Ht. cbn in Ht. rewrite str_app_nil_r in Ht. rewrite <- Er in Ht. rewrite <- Ht in He.
    revert He. unfold path_root. rewrite Hs. by repeat case_match. }
  destruct (path_parts p ++ [n]) eqn:E; [by destruct (path_parts p)|]. rewrite <- E, str_join_snoc by done.
  by rewrite <- str_app_assoc, Ht.
Qed.

Lemma absolute_path_join p n : absolute p -> path_join p n = p +:+ "/" +:+ n.
Proof. intros [Hs He _]. unfold path_join. rewrite bool_decide_false by (by intros ->). by rewrite He. Qed.

Lemma absolute_plain p : absolute p -> plain_arg p = true.
Proof. intros [Hs _ _]. destruct p as [|a p]; [done|]. unfold plain_arg, str_startswith in *. cbn in *. by repeat case_match; subst. Qed.

Lemma endswith_slash q n : str_all (fun c => negb (is_char "/" c)) n = true -> n <> EmptyString ->
  str_endswith "/" (q +:+ n) = false.
Proof.
  intros Hn Hne. induction q as [|c q IH].
  - change (EmptyString +:+ n) with n. clear Hne. induction n as [|c n IH]; [done|]. cbn in Hn. apply andb_prop in Hn as [Hc Hn].
    cbn [str_endswith]. rewrite IH by done. rewrite bool_decide_false; [done|]. intros [= <- <-]. done.
  - change (String c q +:+ n) with (String c (q +:+ n)). cbn [str_endswith]. rewrite IH, bool_decide_false; [done|].
    intros [= _ H]. destruct q; [by subst|done].
Qed.

Lemma absolute_child p n : absolute p -> file_name n = true -> absolute (p +:+ "/" +:+ n).
Proof.
  intros Hp Hn. split; [|..|by apply absolute_join].
  - destruct Hp as [Hs _ _]. destruct p as [|c p]; [done|]. unfold str_startswith in *. cbn [String.prefix] in *.
    change (String c p +:+ "/" +:+ n) with (String c (p +:+ "/" +:+ n)). cbn [String.prefix].
    destruct (ascii_dec "/" c); [|done]. by destruct (p +:+ "/" +:+ n).
  - unfold file_name in Hn. apply andb_prop in Hn as [[Hn He]%andb_prop _]. apply negb_true_iff, bool_decide_eq_false in He.
    rewrite <- str_app_assoc. by apply endswith_slash.
Qed.

(** ** A site *)

Record site_ok (b : site) : Prop := {
  st_current : absolute (current_binary_dir b);
  st_binary : absolute (binary_dir b);
  st_deployment : absolute (deployment_file b);
  st_capabilities : absolute (capabilities_directory b);
  st_backend : plain_arg (backend b) = true;
  st_target : plain_arg (board_target b) = true;
  st_sync : ddsrt_sync b ∈ Plan.ddsrt_choices
}.

(** What Kconfig and the linker leave alone. *)
Record keeps (b : site) (f : env -> env) : Prop := {
  kp_read : forall en n, env_read (f en) (generated b n) = env_read en (generated b n);
  kp_write : forall en p, env_write (f en) p = env_write en p;
  kp_mkdir : forall en p, env_mkdir (f en) p = env_mkdir en p
}.

Section site.
Context (b : site) (Hb : site_ok b).

Lemma generated_absolute : absolute (generated_directory b).
Proof using Hb.
  assert (generated_directory b = (current_binary_dir b +:+ "/" +:+ "generated") +:+ "/" +:+ "deployment") as ->
    by (unfold generated_directory; by rewrite str_app_assoc).
  by repeat apply absolute_child; [apply Hb|..].
Qed.

Lemma generated_join n : path_join (generated_directory b) n = generated b n.
Proof using Hb. apply absolute_path_join, generated_absolute. Qed.

Lemma generated_ok n : file_name n = true -> absolute (generated b n).
Proof using Hb. apply absolute_child, generated_absolute. Qed.

Lemma config_absolute : absolute (config_file b).
Proof using Hb.
  assert (config_file b = (binary_dir b +:+ "/" +:+ "zephyr") +:+ "/" +:+ ".config") as ->
    by (unfold config_file; by rewrite str_app_assoc).
  by repeat apply absolute_child; [apply Hb|..].
Qed.

(** ** The commands *)

Lemma run_compile_main en : run_compile b en = CompileMain.main en
  (CompileMain.Args (deployment_file b) (backend b) (capabilities_directory b) (generated_directory b)).
Proof using Hb.
  destruct (compile_reads_back (tool_capabilities b) (deployment_file b) (backend b) (capabilities_directory b)
    (generated_directory b) [] (compile_groups (backend b) (capabilities_directory b) (generated_directory b)))
    as (ns & Hns & Ha); [by apply absolute_plain, Hb| |done|].
  { repeat constructor; cbn; [apply Hb|apply absolute_plain, Hb|apply absolute_plain, generated_absolute]. }
  unfold run_compile, compile_cli. change (compile_argv b) with
    (argv_of [] ++ deployment_file b :: argv_of (compile_groups (backend b) (capabilities_directory b) (generated_directory b))).
  rewrite Hns. cbn. rewrite Ha. cbn. by rewrite !ab_text by (apply Hb || apply generated_absolute).
Qed.

Lemma generated_plain n : file_name n = true -> plain_arg (generated b n) = true.
Proof using Hb. intros Hn. by apply absolute_plain, generated_ok. Qed.

Lemma run_plan_main kconfig no_build en : run_plan b kconfig no_build en = ResourceMain.main (configured b kconfig en) no_build
  (ResourceMain.Args
    (ResourceMain.PlanCommand (generated b "deployment-plan.json") (config_file b) (board_target b) (ddsrt_sync b))
    (generated b "resource-plan.json") (generated b "resource-plan.md")).
Proof using Hb.
  set (gs := plan_groups (generated b "deployment-plan.json") (config_file b) (board_target b) (ddsrt_sync b)
    (generated b "resource-plan.json") (generated b "resource-plan.md")).
  destruct (plan_reads_back (generated b "deployment-plan.json") (config_file b) (board_target b) (ddsrt_sync b)
    (generated b "resource-plan.json") (generated b "resource-plan.md") gs) as (ns & Hns & Ha); [|apply Hb|done|].
  { unfold plan_groups. rewrite !Forall_cons. cbn [group_plain]. rewrite !generated_plain by done.
    split_and!; try done; [apply absolute_plain, config_absolute|apply Hb|].
    pose proof (st_sync b Hb) as Hs. by repeat apply elem_of_cons in Hs as [->|Hs]; [..|apply elem_of_nil in Hs]. }
  unfold run_plan, resource_cli. change (plan_argv b) with ("plan" :: argv_of gs). rewrite Hns. cbn [mbind parsed_bind].
  rewrite Ha. cbn [started]. by rewrite !ab_text by (apply config_absolute || by apply generated_ok).
Qed.

Lemma run_verify_main kconfig link no_build en :
  run_verify b kconfig link no_build en =
  ResourceMain.main (linked b kconfig link no_build en).1 (linked b kconfig link no_build en).2
    (ResourceMain.Args (ResourceMain.VerifyCommand (generated b "resource-plan.json") (binary_dir b) None)
      (generated b "resource-report.json") (generated b "resource-report.md")).
Proof using Hb.
  set (gs := verify_groups (generated b "resource-plan.json") (binary_dir b) None
    (generated b "resource-report.json") (generated b "resource-report.md")).
  destruct (verify_reads_back (generated b "resource-plan.json") (binary_dir b) None
    (generated b "resource-report.json") (generated b "resource-report.md") gs) as (ns & Hns & Ha); [|done|].
  { repeat constructor; try (by apply generated_plain). apply absolute_plain, Hb. }
  unfold run_verify, resource_cli. change (verify_argv b) with ("verify" :: argv_of gs). rewrite Hns. cbn [mbind parsed_bind].
  rewrite Ha. cbn [started fmap option_fmap option_map]. by rewrite !ab_text by (apply Hb || by apply generated_ok).
Qed.

(** ** The stages *)

Context (kconfig : env -> env) (link : env -> env * build_files) (no_build : build_files) (en : env).
Context (Hkconfig : keeps b kconfig) (Hlink : keeps b (fun e => (link e).1)).
Context (Hwrite : forall p, env_write en p = Ok tt) (Hmkdir : forall p, env_mkdir en p = Ok tt).
Context (v cv : pydict) (cap : capability) (minimum : Z).
Context (Hv : CompileMain.load_json en (deployment_file b) = Ok v).
Context (Hcv : CompileMain.load_json en (path_join (capabilities_directory b) (backend b +:+ ".json")) = Ok cv).
Context (Hcap : represents_cap cv cap) (Hcb : cap_backend cap = backend b).
Context (Hworkers : states_workers cv minimum) (Hallocation : states_allocation cv).
Context (Hpv : plain (PyDict v) = true) (Hpc : plain (PyDict cv) = true).

Lemma last_written_at dir (outs : list (string * string)) name text : NoDup outs.*1 -> (name, text) ∈ outs ->
  last_written ((fun nc => (path_join dir nc.1, nc.2)) <$> outs) (path_join dir name) = Some text.
Proof.
  assert (forall outs, name ∉ outs.*1 ->
    last_written ((fun nc : string * string => (path_join dir nc.1, nc.2)) <$> outs) (path_join dir name) = None) as Hnone.
  { induction outs0 as [|[n t] l IH]; [done|]. cbn. intros [Hn Hl]%not_elem_of_cons. rewrite IH by done.
    rewrite decide_False; [done|]. intros E%path_join_inj. congruence. }
  induction outs as [|[n t] l IH]; [by intros _ H%elem_of_nil|]. cbn. intros [Hn Hl]%NoDup_cons [[= <- <-]|Hin]%elem_of_cons.
  - rewrite Hnone by done. by rewrite decide_True.
  - by rewrite IH.
Qed.

(** The deployment is compiled exactly when it is valid and supported. *)
Lemma compile_stage : succeeded (run_compile b en) = true <-> exists d, Represents v d /\ valid_deployment d /\ supports cap d.
Proof using All.
  rewrite run_compile_main. unfold succeeded. rewrite bool_decide_eq_true. split.
  - destruct (CompileMain.main en _) as [r out err w] eqn:E. cbn. intros ->.
    apply compile_success in E as (v' & cv' & d & outs & Ev & Hr & Hd & Ecv & Hc & _). cbn in Ev, Ecv, Hc.
    rewrite Hv in Ev. injection Ev as <-. rewrite Hcv in Ecv. injection Ecv as <-. exists d. split; [done|]. split; [done|].
    rewrite <- Hcb in Hc. by apply (validate_capabilities_accepts v d cv cap tt).
  - intros (d & Hr & Hd & Hs). apply (validate_capabilities_accepts v d cv cap tt Hr Hcap) in Hs as Hc. rewrite Hcb in Hc.
    pose proof (su_selected _ _ Hs) as Hin. rewrite Hcb in Hin.
    destruct (compile_runs en (deployment_file b) (backend b) (capabilities_directory b) (generated_directory b) v d cv)
      as (outs & _ & E); try done. unfold CompileMain.main. cbn [CompileMain.arg_deployment CompileMain.arg_backend
      CompileMain.arg_capabilities_dir CompileMain.arg_output_dir]. by rewrite E.
Qed.

(** The plan file is there for the next stage. *)
Lemma compile_plan_file : succeeded (run_compile b en) = true ->
  env_read (configured b kconfig en) (generated b "deployment-plan.json") =
    Ok (dumps (CompileMain.plan_of (backend b) v cv) +:+ newline).
Proof using All.
  intros Hs. apply compile_stage in Hs as (d & Hr & Hd & Hs).
  apply (validate_capabilities_accepts v d cv cap tt Hr Hcap) in Hs as Hc. rewrite Hcb in Hc.
  pose proof (su_selected _ _ Hs) as Hin. rewrite Hcb in Hin.
  destruct (compile_runs en (deployment_file b) (backend b) (capabilities_directory b) (generated_directory b) v d cv)
    as (outs & Ho & E); try done. destruct (outputs_ok v d cv (backend b) Hr Hd Hin Hallocation) as (c & f & r & Ho').
  rewrite Ho in Ho'. injection Ho' as ->.
  unfold configured. rewrite (kp_read b kconfig Hkconfig). cbn. rewrite run_compile_main. unfold CompileMain.main.
  cbn [CompileMain.arg_deployment CompileMain.arg_backend CompileMain.arg_capabilities_dir CompileMain.arg_output_dir]. rewrite E.
  cbn [files]. rewrite <- generated_join, (last_written_at _ _ _ (dumps (CompileMain.plan_of (backend b) v cv) +:+ newline));
    [done|by apply (bool_decide_unpack _)|set_solver].
Qed.

(** The target names of a deployment read from JSON are distinct. *)
Lemma targets_distinct d : Represents v d -> NoDup (dep_targets d).*1.
Proof using Hv.
  intros [_ _ _ _ _ _ _ _ _ (r & Hr & [_ _ _ _ _ (t & Rt & Ht)])].
  pose proof (compile_load_wf _ _ _ Hv) as Wv.
  destruct (reread_sub v Wv _ _ Hr) as [_ Wr]. destruct (reread_sub r Wr _ _ Rt) as [_ Wt].
  apply wf_dict in Wt as [Wt _]. assert ((dep_targets d).*1 = t.*1) as ->; [|done].
  clear - Ht. induction Ht as [|x y t ts Hx _ IH]; [done|]. cbn. f_equal; [|done]. symmetry. apply Hx.
Qed.

Lemma with_targets_same d ts c target : Represents v d -> dep_targets d ≡ₚ ts ->
  effective_target (with_targets d ts) c target = effective_target d c target /\
  (forall x, assoc (dep_targets (with_targets d ts)) x = assoc (dep_targets d) x) /\
  (forall bd, admissible (with_targets d ts) (backend b) minimum c bd <-> admissible d (backend b) minimum c bd).
Proof using Hv.
  intros Hr Hp. assert (forall x, assoc ts x = assoc (dep_targets d) x) as Ha.
  { intros x. symmetry. apply assoc_perm; [by apply targets_distinct|done]. }
  split; [|split; [done|]].
  - unfold effective_target. destruct (c !! _) as [t|]; [|done]. cbn. by rewrite Ha.
  - intros bd. split; intros []; by split.
Qed.

Lemma configured_writes : (forall p, env_write (configured b kconfig en) p = Ok tt) /\ (forall p, env_mkdir (configured b kconfig en) p = Ok tt).
Proof using Hkconfig Hwrite Hmkdir.
  unfold configured. split; intros p; [rewrite (kp_write b _ Hkconfig)|rewrite (kp_mkdir b _ Hkconfig)]; [apply Hwrite|apply Hmkdir].
Qed.

Lemma linked_writes : (forall p, env_write (linked b kconfig link no_build en).1 p = Ok tt) /\
  (forall p, env_mkdir (linked b kconfig link no_build en).1 p = Ok tt).
Proof using Hkconfig Hlink Hwrite Hmkdir.
  destruct configured_writes as [Hw Hm].
  unfold linked. split; intros p; [rewrite (kp_write b _ Hlink)|rewrite (kp_mkdir b _ Hlink)]; [apply Hw|apply Hm].
Qed.

(** The plan passes exactly when the deployment is admissible. *)
Lemma plan_stage d c : succeeded (run_compile b en) = true -> Represents v d -> valid_deployment d ->
  parse_config (config_file b) (env_read (configured b kconfig en) (config_file b)) = Ok c ->
  let target := effective_target d c (board_target b) in
  (succeeded (run_plan b kconfig no_build en) = true <->
   exists bd, assoc (dep_targets d) target = Some bd /\ admissible d (backend b) minimum c bd) /\
  (forall bd, assoc (dep_targets d) target = Some bd -> succeeded (run_plan b kconfig no_build en) = true ->
   exists plan, ResourceMain.load_json (linked b kconfig link no_build en).1 (generated b "resource-plan.json") = Ok plan /\
     ResourcePlan plan (Planned true (flash_bytes bd) (ram_bytes bd) (dep_reserve d) target (backend b))).
Proof using All.
  intros Hs Hr Hd Hc target. pose proof (compile_plan_file Hs) as Hread.
  pose proof (compile_load_wf _ _ _ Hv) as Wv. pose proof (compile_load_wf _ _ _ Hcv) as Wc.
  destruct (plan_reread v d cv (backend b) minimum Wv Wc Hr Hd Hworkers) as (dp & ts & Hdp & Hts & Hcomp).
  assert (good (PyDict dp)) as Hgood.
  { rewrite <- Hdp. split; [apply canon_wf; by apply plan_of_wf|apply canon_plain; by apply plan_of_plain]. }
  assert (ResourceMain.load_json (configured b kconfig en) (generated b "deployment-plan.json") = Ok dp) as Hload.
  { apply (resource_load _ _ _ dp Hread). rewrite <- Hdp. apply loads_dumps_line; [by apply plan_of_plain|by apply plan_of_wf]. }
  destruct (with_targets_same d ts c (board_target b) Hr Hts) as (Ht & Hassoc & Hadm).
  pose proof configured_writes as [Hw Hm].
  destruct (assoc (dep_targets d) target) as [bd|] eqn:Hbd.
  - destruct (plan_main (configured b kconfig en) no_build (generated b "deployment-plan.json") (config_file b) (board_target b)
      (ddsrt_sync b) (generated b "resource-plan.json") (generated b "resource-plan.md") dp (with_targets d ts) (backend b)
      minimum c bd) as (pass & plan & text & Hplan & Hrp & Hpass & Hexit & Hfiles); try done; [apply Hb|by rewrite Ht, Hassoc|].
    rewrite Ht in Hrp. rewrite Hadm in Hpass. rewrite <- run_plan_main in Hexit, Hfiles.
    assert (succeeded (run_plan b kconfig no_build en) = true <-> pass = true) as Hsucc.
    { unfold succeeded. rewrite bool_decide_eq_true, Hexit. by destruct pass. }
    split.
    + rewrite Hsucc, Hpass. split; [by exists bd|]. by intros (bd' & [= <-] & ?).
    + intros bd' [= <-] Hpass'. apply Hsucc in Hpass' as ->.
      apply (resource_plan_read_back dp c (board_target b) (ddsrt_sync b) plan); try done.
      unfold linked. rewrite (kp_read b _ Hlink). cbn. rewrite Hfiles. cbn.
      rewrite decide_False by (intros E; by apply str_app_inv_head in E). by rewrite decide_True.
  - assert (succeeded (run_plan b kconfig no_build en) = false) as Hfail; [|rewrite Hfail; split; [split; [done|by intros (? & ? & _)]|done]].
    rewrite run_plan_main. unfold ResourceMain.main, ResourceMain.run. rewrite lift_bind. cbn [ResourceMain.arg_command ResourceMain.run_command].
    rewrite Hload. cbn [mbind res_bind]. rewrite Hc. cbn [mbind res_bind].
    rewrite (plan_no_budget dp (with_targets d ts) (backend b) minimum); try done; [apply Hb|]. by rewrite Ht, Hassoc.
Qed.

(** What the linker made. *)
Context (c : config) (sections : list ElfSection) (map_text : string) (c' : config).
Context (rs : regions).
Context (Hconfig : parse_config (config_file b) (env_read (configured b kconfig en) (config_file b)) = Ok c).
Context (Hlinked : linked_build (linked b kconfig link no_build en).2 (binary_dir b) sections map_text c').
Context (Hregions : parse_memory_regions map_text = Ok rs).

Definition planned_for (d : deployment) (bd : budget) : planned :=
  Planned true (flash_bytes bd) (ram_bytes bd) (dep_reserve d) (effective_target d c (board_target b)) (backend b).
Definition measurement : measured :=
  Measurement (flash_usage (linked b kconfig link no_build en).2 (binary_dir b) sections) (ram_usage c' rs sections).1 rs.

(** The linked image is verified exactly when it fits. *)
Lemma verify_stage d bd : succeeded (run_compile b en) = true -> Represents v d -> valid_deployment d ->
  assoc (dep_targets d) (effective_target d c (board_target b)) = Some bd -> succeeded (run_plan b kconfig no_build en) = true ->
  succeeded (run_verify b kconfig link no_build en) = true <-> linked_ok (planned_for d bd) measurement.
Proof using All.
  intros H1 Hr Hd Hbd H2. destruct linked_writes as [Hw Hm]. destruct (plan_stage d c H1 Hr Hd Hconfig) as [_ Hplan].
  destruct (Hplan bd Hbd H2) as (plan & Hload & Hrp).
  destruct (verify_main (linked b kconfig link no_build en).1 (linked b kconfig link no_build en).2
    (generated b "resource-plan.json") (binary_dir b) None (generated b "resource-report.json")
    (generated b "resource-report.md") plan _ sections map_text c' rs Hw Hm Hload Hrp) as (code & t1 & t2 & Hexit & _ & Hcode & Hok);
    try done. unfold measurement, planned_for. rewrite <- Hok. rewrite <- run_verify_main in Hexit. unfold succeeded. rewrite bool_decide_eq_true, Hexit.
  split; [by intros [= ->]|by intros ->].
Qed.

(** The stages together. *)
Lemma build_spec : build b kconfig link no_build en = Accepted <->
  exists d bd, Represents v d /\ valid_deployment d /\ supports cap d /\
    assoc (dep_targets d) (effective_target d c (board_target b)) = Some bd /\
    admissible d (backend b) minimum c bd /\ linked_ok (planned_for d bd) measurement.
Proof using All.
  assert (forall x, Represents v x -> valid_deployment x -> supports cap x -> succeeded (run_compile b en) = true) as Hcompile
    by (intros x ???; apply compile_stage; by exists x).
  transitivity (succeeded (run_compile b en) = true /\ succeeded (run_plan b kconfig no_build en) = true /\
    succeeded (run_verify b kconfig link no_build en) = true).
  { unfold build. by repeat destruct (succeeded _); cbn; intuition congruence. }
  split.
  - intros (H1 & H2 & H3). destruct (proj1 compile_stage H1) as (d & Hr & Hd & Hs).
    destruct (proj1 (proj1 (plan_stage d c H1 Hr Hd Hconfig)) H2) as (bd & Hbd & Ha).
    exists d, bd. split_and!; try done. by apply (verify_stage d bd).
  - intros (d & bd & Hr & Hd & Hs & Hbd & Ha & Hok). assert (H1 := Hcompile d Hr Hd Hs).
    assert (succeeded (run_plan b kconfig no_build en) = true) as H2 by (apply (plan_stage d c H1 Hr Hd Hconfig); by exists bd).
    split_and!; [done|done|]. by apply (verify_stage d bd).
Qed.

End site.

End BuildSpec.
