(* ===== verification/BuildTheorems.v ===== *)
(** * Command lines and the build: theorems

    What the programs read from their command lines, and the tools composed as a
    build runs them. *)

From Stdlib Require Import Ascii String.
From S2P Require Import Prelude PyStr Regex PyFloat PyObj Json JsonSpec Process Argparse Validate Deployment ValidateSpec Capability.
From S2P Require Import Samples Generate CompileMain CompileSpec Config Plan PlanSpec Elf ElfSpec MapFile MapSpec Postlink PostlinkSpec.
From S2P Require Import ResourceMain ReportSpec PlanFile Toolchain ResourceSamples Cli CliSpec Build BuildSpec.

Module BuildTheorems.
Import Json JsonSpec Process Deploy Contract Capability Samples Config Plan PlanSpec Elf ElfSpec MapFile MapSpec.
Import Postlink PostlinkSpec CompileSpec PlanFile Toolchain ResourceSamples Argparse Cli CliSpec Build BuildSpec.

(** ** The build *)

(** C4: a build of a readable deployment is accepted exactly when the deployment
    meets its contract, the backend supports it, the configuration that Kconfig made
    holds it within the budget of the target, and the linked image fits that budget
    and the regions of its map: each tool is started with the command line CMake
    writes and reads what the tools before it wrote. *)
Theorem build_accepts b kconfig link no_build en v cv cap minimum c sections map_text c' rs :
  site_ok b -> keeps b kconfig -> keeps b (fun e => (link e).1) ->
  (forall p, env_write en p = Ok tt) -> (forall p, env_mkdir en p = Ok tt) ->
  CompileMain.load_json en (deployment_file b) = Ok v ->
  CompileMain.load_json en (path_join (capabilities_directory b) (backend b +:+ ".json")) = Ok cv ->
  represents_cap cv cap -> cap_backend cap = backend b -> states_workers cv minimum -> states_allocation cv ->
  plain (PyDict v) = true -> plain (PyDict cv) = true ->
  parse_config (config_file b) (env_read (configured b kconfig en) (config_file b)) = Ok c ->
  linked_build (linked b kconfig link no_build en).2 (binary_dir b) sections map_text c' ->
  parse_memory_regions map_text = Ok rs ->
  build b kconfig link no_build en = Accepted <->
  exists d bd, Represents v d /\ valid_deployment d /\ supports cap d /\
    assoc (dep_targets d) (effective_target d c (board_target b)) = Some bd /\
    admissible d (backend b) minimum c bd /\
    linked_ok (planned_for b c d bd) (measurement b kconfig link no_build en sections c' rs).
Proof. intros. by apply build_spec with (cv := cv) (map_text := map_text). Qed.

(** A build of the loopback deployment. *)
Definition sample_site : site := Site "/b" "/b" "/app/deployment.json" "rmw_cyclonedds_c" "/m/cmake/../capabilities"
  "esp32_devkitc/esp32/procpu" "posix" "caps" "help" "usage".

Definition sample_tree : env := sample_env
  [("/app/deployment.json", dumps (PyDict loopback));
   ("/m/cmake/../capabilities/rmw_cyclonedds_c.json", dumps (PyDict cyclonedds))].

(** Kconfig writes the configuration. *)
Definition sample_kconfig (en : env) : env :=
  Env (fun p => if decide (p = "/b/zephyr/.config") then Ok config_text else env_read en p)
    (env_mkdir en) (env_write en) (json_error en).

(** The linker leaves an image of a size. *)
Definition image (flash : Z) : build_files :=
  BuildFiles (fun p => bool_decide (p = "/b/zephyr"))
    (fun p => bool_decide (p ∈ ["/b/zephyr/zephyr.elf"; "/b/zephyr/zephyr_final.map"; "/b/zephyr/.config"; "/b/zephyr/zephyr.bin"]))
    (fun _ => Ok (encode_elf false true sample_body sample_sections 4))
    (fun _ => Ok config_text) (fun _ => Ok map_text) (fun _ => flash).

Definition no_image : build_files :=
  BuildFiles (fun _ => false) (fun _ => false) (fun _ => Raise (OSError "none")) (fun _ => Raise (OSError "none"))
    (fun _ => Raise (OSError "none")) (fun _ => 0%Z).

Lemma sample_site_ok : site_ok sample_site.
Proof. split; [split..| | |]; by vm_compute; repeat constructor. Qed.

Lemma sample_kconfig_keeps : keeps sample_site sample_kconfig.
Proof. split; [|done..]. intros en n. cbn [sample_kconfig env_read]. by rewrite decide_False by done. Qed.

Lemma build_accepts_witness :
  build sample_site sample_kconfig (fun e => (e, image 420000)) no_image sample_tree = Accepted /\
  build sample_site sample_kconfig (fun e => (e, image 1500001)) no_image sample_tree = VerificationFailed /\
  exists d bd, Represents (reread loopback) d /\ valid_deployment d /\
    assoc (dep_targets d) (effective_target d (settings sample_settings) "esp32_devkitc/esp32/procpu") = Some bd /\
    admissible d "rmw_cyclonedds_c" 5 (settings sample_settings) bd.
Proof.
  assert (build sample_site sample_kconfig (fun e => (e, image 420000)) no_image sample_tree = Accepted) as H
    by (vm_compute; reflexivity).
  split; [exact H|]. split; [vm_compute; reflexivity|].
  apply (build_accepts sample_site sample_kconfig (fun e => (e, image 420000)) no_image sample_tree
    (reread loopback) (reread cyclonedds) cyclonedds_capability 5 (settings sample_settings) sample_sections map_text
    (settings sample_settings) [("FLASH", Region 32 4194272); ("dram0_0_seg", Region 1073610752 393216)]) in H
    as (d & bd & Hr & Hd & _ & Hbd & Ha & _).
  - by exists d, bd.
  - exact sample_site_ok.
  - exact sample_kconfig_keeps.
  - split; intros; reflexivity.
  - intros p. reflexivity.
  - intros p. reflexivity.
  - vm_compute. reflexivity.
  - vm_compute. reflexivity.
  - represent_capability.
  - reflexivity.
  - eexists. split; vm_compute; reflexivity.
  - eexists _, _. split; vm_compute; reflexivity.
  - vm_compute. reflexivity.
  - vm_compute. reflexivity.
  - exact (sample_config _).
  - split; vm_compute; reflexivity.
  - vm_compute. reflexivity.
Defined.

(** ** Command lines *)

(** C29: whatever the command line, each of the ten programs gets from its parser a
    value for every argument that it reads, of the type that it reads it with, or it
    ends in the parser: with status 0 after the help or with status 2 after a usage
    error. *)
Theorem command_lines_typed caps argv :
  commanded (ns ← parse_args (compile_parser caps) argv; Parsed (compile_args ns)) /\
  commanded ('(name, ns) ← parse_command resource_commands false argv; Parsed (resource_args name ns)) /\
  commanded (ns ← parse_args metrics_parser argv; Parsed (metrics_args ns)) /\
  commanded (ns ← parse_args timing_parser argv; Parsed (timing_args ns)) /\
  commanded (ns ← parse_args inventory_parser argv; Parsed (inventory_args ns)) /\
  commanded (ns ← parse_args admission_parser argv; Parsed (admission_args ns)) /\
  commanded (ns ← parse_args sources_parser argv; Parsed (sources_args ns)) /\
  commanded (ns ← parse_args capture_parser argv; Parsed (capture_args ns)) /\
  commanded (ns ← parse_args static_parser argv; Parsed (static_args ns)) /\
  commanded (ns ← parse_args wifi_parser argv; Parsed (wifi_args ns)).
Proof.
  split_and!; try apply reads_commanded; [apply compile_reads|apply resource_commanded|apply metrics_reads|apply timing_reads
    |apply inventory_reads|apply admission_reads|apply sources_reads|apply capture_reads|apply static_reads|apply wifi_reads].
Qed.

(** The options of the compiler and of the two commands of the resource tool are
    read back from a command line in any order, with the deployment of the compiler
    anywhere among them, and the tool runs on them. *)
Theorem command_lines_read_back help usage en fs :
  (forall caps deployment backend capabilities output gs1 gs2,
    plain_arg deployment = true -> Forall (fun g => group_plain g = true) (compile_groups backend capabilities output) ->
    compile_groups backend capabilities output ≡ₚ gs1 ++ gs2 ->
    compile_cli caps help usage en (argv_of gs1 ++ deployment :: argv_of gs2) =
    CompileMain.main en (CompileMain.Args (path_text deployment) backend (path_text capabilities) (path_text output))) /\
  (forall plan config target sync json markdown gs,
    Forall (fun g => group_plain g = true) (plan_groups plan config target sync json markdown) -> sync ∈ ddsrt_choices ->
    plan_groups plan config target sync json markdown ≡ₚ gs ->
    resource_cli help usage en fs ("plan" :: argv_of gs) =
    ResourceMain.main en fs (ResourceMain.Args (ResourceMain.PlanCommand (path_text plan) (path_text config) target sync)
      (path_text json) (path_text markdown))) /\
  (forall plan dir log json markdown gs,
    Forall (fun g => group_plain g = true) (verify_groups plan dir log json markdown) ->
    verify_groups plan dir log json markdown ≡ₚ gs ->
    resource_cli help usage en fs ("verify" :: argv_of gs) =
    ResourceMain.main en fs (ResourceMain.Args (ResourceMain.VerifyCommand (path_text plan) (path_text dir) (path_text <$> log))
      (path_text json) (path_text markdown))).
Proof.
  split_and!.
  - intros caps dp be ca out gs1 gs2 Hd Hg Hp. destruct (compile_reads_back caps dp be ca out gs1 gs2 Hd Hg Hp) as (ns & Hns & Ha).
    unfold compile_cli. rewrite Hns. cbn. by rewrite Ha.
  - intros plan config target sync json md gs Hg Hs Hp.
    destruct (plan_reads_back plan config target sync json md gs Hg Hs Hp) as (ns & Hns & Ha).
    unfold resource_cli. rewrite Hns. cbn. by rewrite Ha.
  - intros plan dir log json md gs Hg Hp. destruct (verify_reads_back plan dir log json md gs Hg Hp) as (ns & Hns & Ha).
    unfold resource_cli. rewrite Hns. cbn. by rewrite Ha.
Qed.

Lemma command_lines_read_back_witness :
  compile_cli "caps" "help" "usage" compile_env
    ["--output-dir"; "./out/"; "deployment.json"; "--capabilities-dir"; "caps"; "--backend"; "rmw_cyclonedds_c"] =
  CompileMain.main compile_env ResourceSamples.compile_args.
Proof.
  apply (command_lines_read_back "help" "usage" compile_env no_image) with (gs1 := [Given "--output-dir" "./out/"])
    (gs2 := [Given "--capabilities-dir" "caps"; Given "--backend" "rmw_cyclonedds_c"]) (backend := "rmw_cyclonedds_c")
    (capabilities := "caps") (output := "./out/").
  - reflexivity.
  - repeat constructor.
  - unfold compile_groups. etransitivity; [apply Permutation_swap|]. symmetry. apply (Permutation_cons_append [_; _]).
Defined.

End BuildTheorems.
