(* ===== verification/PeerSamples.v ===== *)
(** * Scripted outsides

    Concrete instances of the outside of the peers and of the serial capture: what
    the clock, the middleware, the workers and the port answer is read from lists.
    The clock of a peer shows whole seconds, and the last moment there is once its list
    is used up; the clock of the port is then past every deadline. *)

From Stdlib Require Import Ascii String SpecFloat.
From stdpp Require Import functions.
From S2P Require Import Prelude PyStr PyFloat PyObj Clock Process Prog Rclpy WifiPeer Worker WorkerSpec GraphPeer Capture CaptureSpec GraphSpec System SystemSpec.

Module PeerSamples.
Import WifiPeer GraphPeer GraphSpec.

Definition pop {A} (d : A) (l : list A) : A * list A := match l with [] => (d, []) | x :: l => (x, l) end.

(** A clock that is never before a deadline. *)
Lemma infinity_not_before d : float_ltb (S754_infinity false) d = false.
Proof. by destruct d as [[]|[]| |[]]. Qed.

(** ** Peers *)

Record script (M : Type) := Script {
  readings : list nat;
  deliveries : list (option M);
  counts : list Z;
  visible : list bool;
  topics : list (bool * bool);
  mail : worker -> list string;
  beta_starts : bool
}.
Arguments Script {M}.
Arguments readings {M}.
Arguments deliveries {M}.
Arguments counts {M}.
Arguments visible {M}.
Arguments topics {M}.
Arguments mail {M}.
Arguments beta_starts {M}.

(** A second, up to the thousandth, and the greatest number. *)
Definition moment (n : nat) : pyfloat := float_int (Z.of_nat (Nat.min n 1000)).
Definition last_moment : pyfloat := S754_finite false (2 ^ 53 - 1) 971.

Section instance.
Context {M C : Type}.
Implicit Types w : script M.

Definition read_clock w : pyfloat * script M :=
  ((pop last_moment (moment <$> readings w)).1,
   Script (tail (readings w)) (deliveries w) (counts w) (visible w) (topics w) (mail w) (beta_starts w)).
Definition deliver w : option M * script M :=
  let '(m, l) := pop None (deliveries w) in
  (m, Script (readings w) l (counts w) (visible w) (topics w) (mail w) (beta_starts w)).
Definition count_now w : Z * script M :=
  let '(n, l) := pop 0%Z (counts w) in
  (n, Script (readings w) (deliveries w) l (visible w) (topics w) (mail w) (beta_starts w)).
Definition names_now w : list (string * string) * script M :=
  let '(b, l) := pop false (visible w) in
  (if b : bool then [DEVICE_NODE] else [],
   Script (readings w) (deliveries w) (counts w) l (topics w) (mail w) (beta_starts w)).
Definition topic_list (b : bool) : list (string * list string) := if b then [(GRAPH_LOCAL_TOPIC, ["std_msgs/msg/UInt32"])] else [].
Definition subs_now w : res (list (string * list string)) * script M :=
  let '(ps, l) := pop (false, false) (topics w) in
  (Ok (topic_list ps.2), Script (readings w) (deliveries w) (counts w) (visible w) l (mail w) (beta_starts w)).

#[export] Instance script_rclpy : Rclpy (script M) M C := {
  monotonic := read_clock;
  spin_once := fun _ => deliver;
  publish := fun _ w => w;
  get_subscription_count := count_now;
  get_publishers_info_by_topic := fun _ w => (["device"], w);
  get_node_names_and_namespaces := names_now;
  get_publisher_names_and_types_by_node := fun _ w => (Ok (topic_list (pop (false, false) (topics w)).1.1), w);
  get_subscriber_names_and_types_by_node := fun _ => subs_now;
  ros := fun _ w => w
}.

Definition set_mail w (n : worker) (l : list string) : script M :=
  Script (readings w) (deliveries w) (counts w) (visible w) (topics w) (<[n := l]> (mail w)) (beta_starts w).

#[export] Instance script_workers : Workers (script M) := {
  start_process := fun n _ _ w => (if bool_decide (n = Beta) && negb (beta_starts w) then Raise (OSError "fork") else Ok tt, w);
  poll := fun _ _ w => (true, w);
  recv := fun n w => match mail w n with [] => (Raise EOFError, w) | m :: l => (Ok m, set_mail w n l) end;
  send_to := fun _ _ w => (Ok tt, w);
  is_alive := fun _ w => (true, w);
  kill := fun _ w => w;
  join := fun _ _ w => w;
  close_connection := fun _ w => w;
  sleep := fun _ w => w
}.

(** The worker's end of a pipe: the parent is silent at the polls that the counts
    say, sends the mail of [Alpha], and closes the pipe. *)
Definition poll_now w : res bool * script M :=
  let '(n, l) := pop 1%Z (counts w) in
  (Ok (negb (n =? 0)%Z), Script (readings w) (deliveries w) l (visible w) (topics w) (mail w) (beta_starts w)).

#[export] Instance script_connection : Worker.Connection (script M) := {
  Worker.conn_send := fun _ w => (Ok tt, w);
  Worker.conn_poll := poll_now;
  Worker.conn_recv := fun w => match mail w Alpha with [] => (Raise EOFError, w) | m :: l => (Ok m, set_mail w Alpha l) end
}.

(** The readings that are left bound the rounds of every loop. *)
Definition script_left (_ : pyfloat) w : nat := length (readings w).

(** A wait from any second, or from the last moment, is over by the last moment. *)
Definition over_in_time (t : pyfloat) : bool :=
  forallb (fun d => negb (float_ltb last_moment (float_add d t))) (last_moment :: (moment <$> seq 0 1001)).

Lemma moment_in n : moment n ∈ moment <$> seq 0 1001.
Proof.
  apply list_elem_of_fmap. exists (Nat.min n 1000). split; [unfold moment; f_equal; lia|]. apply elem_of_seq. lia.
Qed.

Lemma script_passes t : over_in_time t = true -> passes (W := script M) (C := C) script_left t.
Proof.
  intros Ht w0 w. cbn zeta. unfold script_left. cbn [monotonic script_rclpy]. unfold read_clock.
  destruct (readings w) as [|n l]; cbn; [|intros _; lia].
  assert (float_ltb last_moment (float_add (pop last_moment (moment <$> readings w0)).1 t) = false) as ->; [|done].
  unfold over_in_time in Ht. apply negb_true_iff. rewrite forallb_forall in Ht. apply Ht, list_elem_of_In.
  destruct (readings w0) as [|n l]; cbn [pop fmap list_fmap fst]; [by left|]. right. apply moment_in.
Qed.

Lemma script_ticks : ticks (W := script M) (C := C) script_left.
Proof.
  split; unfold script_left; cbn.
  - intros t Ht. apply script_passes. unfold own_waits in Ht. set_unfold in Ht.
    destruct Ht as [->|[->|[->|[]]]]; vm_compute; reflexivity.
  - intros d w. unfold read_clock. destruct (readings w) as [|t l]; cbn; lia.
  - intros d t w. unfold deliver. destruct (deliveries w); cbn; lia.
  - intros; lia.
  - intros d w. unfold count_now. destruct (counts w); cbn; lia.
  - intros; lia.
  - intros d w. unfold names_now. destruct (visible w); cbn; lia.
  - intros; lia.
  - intros d n w. unfold subs_now. destruct (topics w); cbn; lia.
  - intros; lia.
Qed.

Lemma script_worker_ticks : worker_ticks (W := script M) script_left.
Proof. split; unfold script_left; cbn; [intros; lia| |intros; lia]. intros d n w. destruct (mail w n); cbn; lia. Qed.

End instance.

(** What is left of silence and of mail bounds the rounds of a worker. *)
Lemma script_patient : WorkerSpec.patient (W := script Z) (fun w => length (counts w) + length (mail w Alpha)).
Proof.
  split; cbn.
  - intros w. unfold read_clock. destruct (readings w); cbn; lia.
  - intros t w. unfold deliver. destruct (deliveries w); cbn; lia.
  - intros w. unfold names_now. destruct (visible w); cbn; lia.
  - intros; lia.
  - intros; lia.
  - intros w b. unfold poll_now. destruct (counts w) as [|n l]; cbn; intros [= <-]; [lia|].
    destruct (n =? 0)%Z; cbn; lia.
  - intros w c. destruct (mail w Alpha) as [|m l] eqn:E; cbn; [done|]. intros _ _.
    rewrite fn_lookup_insert. lia.
Qed.

(** A clock that ticks once a second from a start, for a number of readings. *)
Definition seconds (from : Z) (n : nat) : list pyfloat := (fun i => float_int (from + Z.of_nat i)) <$> seq 0 n.

(** ** The system of the inbound graph *)

(** A view that shows the device after a number of spins, a second each. *)
Record sight := Sight { spins : nat }.

#[export] Instance sight_rclpy : Rclpy sight Z Z := {
  monotonic := fun d => (float_int (Z.of_nat (20 - spins d)), d);
  spin_once := fun _ d => (None, Sight (pred (spins d)));
  publish := fun _ d => d;
  get_subscription_count := fun d => (0%Z, d);
  get_publishers_info_by_topic := fun _ d => ([], d);
  get_node_names_and_namespaces := fun d => (if spins d =? 0 then [DEVICE_NODE] else [], d);
  get_publisher_names_and_types_by_node := fun _ d => (Ok [], d);
  get_subscriber_names_and_types_by_node := fun _ d => (Ok [], d);
  ros := fun _ d => d
}.

(** A check of all pairs of numbers below two bounds. *)
Lemma check_below (f : nat -> nat -> bool) m n a b :
  forallb (fun a => forallb (f a) (seq 0 n)) (seq 0 m) = true -> a < m -> b < n -> f a b = true.
Proof.
  intros Hf Ha Hb. rewrite forallb_forall in Hf. specialize (Hf a ltac:(apply in_seq; lia)).
  rewrite forallb_forall in Hf. apply Hf, in_seq. lia.
Qed.

Lemma sight_appears : SystemSpec.appears spins (float_int 90).
Proof.
  split; cbn.
  - intros d d' [|t| |c]; cbn; lia.
  - intros _ d. lia.
  - intros d ->. cbn. set_solver.
  - intros d0 d _ _. apply negb_true_iff.
    apply (check_below (fun a b => negb (float_geb (float_int (Z.of_nat a)) (float_add (float_int (Z.of_nat b)) (float_int 90)))) 21 21);
      [vm_compute; reflexivity|lia|lia].
Qed.

(** A clock that ticks with every reading and stops after a while. *)
Record wall := Wall { elapsed : nat }.

#[export] Instance wall_rclpy : Rclpy wall Z Z := {
  monotonic := fun c => (float_int (Z.of_nat (Nat.min (elapsed c) 200)), Wall (S (elapsed c)));
  spin_once := fun _ c => (None, c);
  publish := fun _ c => c;
  get_subscription_count := fun c => (0%Z, c);
  get_publishers_info_by_topic := fun _ c => ([], c);
  get_node_names_and_namespaces := fun c => ([], c);
  get_publisher_names_and_types_by_node := fun _ c => (Ok [], c);
  get_subscriber_names_and_types_by_node := fun _ c => (Ok [], c);
  ros := fun _ c => c
}.

#[export] Instance wall_sleep : System.Sleep wall := { System.nap := fun _ c => Wall (5 + elapsed c) }.

Lemma wall_ticks k c : elapsed (Nat.iter k SystemSpec.tick c) = k + elapsed c.
Proof. induction k as [|k IH]; [done|]. change (Nat.iter (S k) SystemSpec.tick c) with (SystemSpec.tick (Nat.iter k SystemSpec.tick c)).
  unfold SystemSpec.tick at 1. cbn [monotonic wall_rclpy snd elapsed]. by rewrite IH.
Qed.

Lemma wall_punctual : SystemSpec.punctual (C := wall) (float_int 90) 30.
Proof.
  intros c k Hk. cbn [monotonic wall_rclpy fst]. rewrite wall_ticks. set (a := Nat.min (elapsed c) 200).
  assert (Nat.min (k + elapsed c) 200 = a + (Nat.min (k + elapsed c) 200 - a)) as -> by lia.
  apply (check_below (fun a j => float_ltb (float_int (Z.of_nat (a + j))) (float_add (float_int (Z.of_nat a)) (float_int 90))) 201 31);
    [vm_compute; reflexivity|lia|lia].
Qed.

(** ** The serial port *)

Record line := Line { clock : list pyfloat; chunks : list (res string) }.

#[export] Instance line_serial : Capture.Serial line := {
  Capture.monotonic := fun w => let '(t, l) := pop (S754_infinity false) (clock w) in (t, Line l (chunks w));
  Capture.create_port := fun _ w => (Ok tt, w);
  Capture.open_port := fun _ w => (Ok tt, w);
  Capture.hard_reset := fun w => (Ok tt, w);
  Capture.read_port := fun w => let '(r, l) := pop (Ok EmptyString) (chunks w) in
    (match r with Raise _ => Raise (OSError "device disconnected") | Ok c => Ok c end, Line (clock w) l);
  Capture.close_port := fun w => w;
  Capture.sleep := fun _ w => w
}.

Lemma line_errors : CaptureSpec.os_errors (W := line).
Proof.
  split; cbn; try done. intros w e. destruct (chunks w) as [|[c|x] l]; cbn; try done. intros [= <-]. by eexists.
Qed.

Lemma line_passes d : CaptureSpec.clock_passes (W := line) d (fun w => length (clock w)).
Proof.
  split; cbn; try (intros; lia).
  - intros w. destruct (clock w) as [|t l]; cbn; [by rewrite infinity_not_before|lia].
  - intros w. destruct (chunks w); cbn; lia.
Qed.

End PeerSamples.
