(* ===== verification/PeerTheorems.v ===== *)
(** * The host side of the hardware tests: theorems

    The properties of [verify_sources.py], [samples/loopback/capture_esp32.py],
    [samples/static_control/peer.py] and [samples/wifi/peer.py], with scripted
    outsides as witnesses. *)

From Stdlib Require Import Ascii String.
From stdpp Require Import functions.
From S2P Require Import Prelude PyStr PyFloat PyObj Clock Process Prog Rclpy Sources Capture CaptureSpec.
From S2P Require Import StaticPeer WifiPeer WifiSpec Worker WorkerSpec GraphPeer GraphSpec PeerMain System SystemSpec PeerSamples.

Module PeerTheorems.
Import Process Sources PeerSamples.
Import (hints) System.

(** ** The pinned tree *)

(** C40: for a manifest of pinned repositories the tool ends with status 0 exactly
    when every checkout is at its pinned commit, with 1 otherwise, and it complains
    about every other repository, in the order of the manifest. *)
Theorem sources_pinned (output : list string -> res string) (root : string) (rs : list (string * string)) :
  Sources.git_answers output ->
  let o := Sources.main (Ok (Sources.manifest_of rs)) output root in
  exit o = Ok (if decide (Forall (Sources.pinned output root) rs) then 0 else 1)%Z /\
  stderr o = Sources.complaint output root <$> filter (fun r => ~ Sources.pinned output root r) rs.
Proof.
  intros Hgit. cbn zeta. by rewrite Sources.sources_main_spec.
Qed.

(** Two checkouts, one of them moved. *)
Definition tree_output (args : list string) : res string :=
  if bool_decide (args = ["git"; "-C"; "src/ros2/rcl"; "rev-parse"; "HEAD"]) then Ok ("1f2e3d" +:+ String nl EmptyString)
  else if bool_decide (args = ["git"; "-C"; "src/ros2/rclc"; "rev-parse"; "HEAD"]) then Ok ("aaaaaa" +:+ String nl EmptyString)
  else Raise CalledProcessError.

Lemma sources_pinned_witness :
  let o := Sources.main (Ok (Sources.manifest_of [("ros2/rcl", "1f2e3d"); ("ros2/rclc", "bbbbbb")])) tree_output "./src/" in
  exit o = Ok 1%Z /\ stderr o = ["revision mismatch: src/ros2/rclc: expected bbbbbb, found aaaaaa"].
Proof.
  destruct (sources_pinned tree_output "./src/" [("ros2/rcl", "1f2e3d"); ("ros2/rclc", "bbbbbb")]) as [H1 H2].
  - intros args e. unfold tree_output. case_bool_decide; [done|]. case_bool_decide; [done|]. intros [= <-]. by left.
  - cbn zeta. rewrite H1, H2. split; vm_compute; reflexivity.
Defined.

(** ** The serial capture *)

(** C34: when the clock passes the deadline after finitely many readings and every
    failing call raises [OSError], the capture returns; it used the port as the
    protocol says and left it closed; and, when no line it wrote is longer than
    2048 bytes, it ends with status 0 exactly when enough complete lines of what it
    wrote contain the marker, with 1 otherwise, however the bytes were chunked. *)
Theorem capture_decides {W} `{Capture.Serial W} (a : Capture.args) (left : W -> nat) (usage : string) (w : W) (fuel : nat) :
  CaptureSpec.os_errors (W := W) -> CaptureSpec.clock_passes (Capture.deadline_of a w) left ->
  CaptureSpec.one_line (Capture.until a) = true -> String.length (Capture.until a) <= 2048 ->
  (1 <= Capture.minimum_matches a)%Z -> left (Capture.monotonic w).2 < fuel ->
  exists o calls, Capture.main a fuel usage w = Some (o, calls) /\
    (exists q, CaptureSpec.port_run (CaptureSpec.Phase false (negb (Capture.no_reset a))) calls =
      Some (CaptureSpec.Phase false q)) /\
    (exit o = Ok 0%Z \/ exit o = Ok 1%Z) /\
    (CaptureSpec.short_lines (str_join EmptyString (stdout o)) ->
     exit o = Ok 0%Z <->
       (Capture.minimum_matches a <=
        Z.of_nat (CaptureSpec.marker_lines (Capture.until a) (str_join EmptyString (stdout o))))%Z).
Proof.
  intros He Hc Hm Hl Hmin Hf.
  destruct (CaptureSpec.capture_run a _ left He Hc Hm Hl fuel usage w Hmin eq_refl Hf) as ([o calls] & Hrun & Hends).
  by exists o, calls.
Qed.

Definition capture_args : Capture.args :=
  Capture.Args "/dev/ttyACM0" 115200 (float_int 30) "PASS" 2 false true.

(** The marker is split over chunks, and the device is lost in between. *)
Definition capture_line : line :=
  Line (seconds 0 9)
    [Ok "boot PA"; Ok ("SS 1" +:+ String nl "ok"); Raise EOFError; Ok (String nl "xP"); Ok "ASS"; Ok (String nl EmptyString)].

Lemma capture_decides_witness :
  exists o calls, Capture.main capture_args 20 EmptyString capture_line = Some (o, calls) /\
    (exists q, CaptureSpec.port_run (CaptureSpec.Phase false true) calls = Some (CaptureSpec.Phase false q)) /\
    exit o = Ok 0%Z /\ CaptureSpec.marker_lines "PASS" (str_join EmptyString (stdout o)) = 2.
Proof.
  destruct (capture_decides capture_args (fun w => length (clock w)) EmptyString capture_line 20) as (o & calls & Hrun & Hq & _ & _).
  - apply line_errors.
  - apply line_passes.
  - reflexivity.
  - cbn. lia.
  - cbn. lia.
  - cbn. lia.
  - exists o, calls. split; [exact Hrun|]. split; [exact Hq|]. vm_compute in Hrun. injection Hrun as <- _. vm_compute. by split.
Defined.

(** A marker whose line goes on for more than 4096 bytes is lost when the buffer
    is trimmed, although the line ends and holds the marker. *)
Definition overlong : string := "PASS" +:+ String.concat EmptyString (replicate 5000 "x").

Lemma overlong_line_lost :
  exists o calls,
    Capture.main (Capture.Args "/dev/ttyACM0" 115200 (float_int 30) "PASS" 1 false false) 20 EmptyString
      (Line (seconds 0 9) [Ok overlong; Ok (String nl EmptyString)]) = Some (o, calls) /\
    exit o = Ok 1%Z /\ CaptureSpec.marker_lines "PASS" (str_join EmptyString (stdout o)) = 1.
Proof. eexists _, _. vm_compute. by repeat split. Qed.

(** ** The static-control peer *)

(** C39: whatever the device does, the static-control peer ends, provided that the
    clock gets past its timeout; its verdict is
    told by what it did, in order, between the creation and the destruction of its
    node; it passes only after a disabled state, one command, and active and stale
    states of that command, without a fault state. *)
Theorem static_peer_verdict {W} `{Rclpy W StaticPeer.ControlState StaticPeer.ControlCommand} (left : pyfloat -> W -> nat)
    (a : StaticPeer.args) (w : W) :
  ticks left -> passes left (StaticPeer.timeout a) -> (0 <= StaticPeer.a_sequence a < 2 ^ 32)%Z ->
  exists n v s, (forall fuel, n <= fuel -> StaticPeer.main a fuel (Peer w [] []) = Some (Ok (StaticPeer.code_of v), s)) /\
    log s = StaticPeer.opening ++ StaticPeer.story a v (length (inbox s)) ++ StaticPeer.closing /\
    StaticPeer.seen a v (inbox s).
Proof. intros Hticks Hpass Hseq. by apply (StaticPeer.static_main_spec left Hticks). Qed.

Definition control_state (status sequence : Z) : StaticPeer.ControlState :=
  StaticPeer.MkControlState (float_int 0) (float_int 0) (float_int 0) sequence 0 0 status.

Definition static_args : StaticPeer.args := StaticPeer.Args (float_int 60) 7.

Definition control_script (l : list StaticPeer.ControlState) : script StaticPeer.ControlState :=
  Script (seq 0 12) (Some <$> l) (replicate 12 1%Z) [] [] (fun _ => []) true.

Lemma static_peer_verdict_witness :
  exists n v s,
    (forall fuel, n <= fuel ->
       StaticPeer.main static_args fuel (Peer (control_script [control_state 0 0; control_state 1 7; control_state 2 7]) [] []) =
       Some (Ok (StaticPeer.code_of v), s)) /\
    log s = StaticPeer.opening ++ StaticPeer.story static_args v (length (inbox s)) ++ StaticPeer.closing.
Proof.
  destruct (static_peer_verdict script_left static_args
    (control_script [control_state 0 0; control_state 1 7; control_state 2 7])) as (n & v & s & H1 & H2 & _).
  - apply script_ticks.
  - apply script_passes. vm_compute. reflexivity.
  - cbn. lia.
  - by exists n, v, s.
Defined.

(** The states are not told apart by when they came: a stale state that was
    received before the active one is taken for its successor. *)
Lemma stale_before_active_passes :
  exists s,
    StaticPeer.main static_args 20 (Peer (control_script [control_state 2 7; control_state 0 0; control_state 1 7]) [] []) =
      Some (Ok 0%Z, s) /\
    StaticPeer.status <$> inbox s = [StaticPeer.STATUS_STALE; StaticPeer.STATUS_DISABLED; StaticPeer.STATUS_ACTIVE].
Proof. eexists. vm_compute. by split. Qed.

(** ** The Wi-Fi peer *)

Import WifiPeer WifiSpec Worker WorkerSpec GraphPeer GraphSpec PeerMain.

(** Whatever the device does, the publisher ends; it published the five values
    of the history when durability asks for it, then, once a subscription was counted,
    the live value or the eighteen samples, then a recovery sample for each turn of
    its last wait, at most ten and none unless the profile is volatile and best
    effort; and it passes exactly when the last count is none. *)
Theorem publisher_sends {W} `{Rclpy W Z Z} (left : pyfloat -> W -> nat) timeout reliability durability depth skip_match (w : W) :
  ticks left -> passes left timeout ->
  exists n r s, (forall fuel, n <= fuel ->
      run_publisher timeout reliability durability depth skip_match fuel (Peer w [] []) = Some (r, s)) /\
    publisher_ends reliability durability depth skip_match r s.
Proof. intros Hticks Hpass. by apply (run_publisher_spec left Hticks). Qed.

Definition wifi_script (times : nat) (l : list (option Z)) (c : list Z) : script Z :=
  Script (seq 0 times) l c [] [] (fun _ => []) true.

Lemma publisher_sends_witness :
  exists n r s, (forall fuel, n <= fuel ->
      run_publisher (float_int 90) "best_effort" "volatile" 32 false fuel (Peer (wifi_script 10 [] [1; 1; 1]%Z) [] []) = Some (r, s)) /\
    publisher_ends "best_effort" "volatile" 32 false r s.
Proof. apply (publisher_sends script_left); [apply script_ticks|apply script_passes; vm_compute; reflexivity]. Defined.

(** The samples, two recovery samples and the end of such a run. *)
Lemma publisher_example :
  exists s, run_publisher (float_int 90) "best_effort" "volatile" 32 false 20 (Peer (wifi_script 10 [] [1; 1; 1]%Z) [] []) =
      Some (Ok 0%Z, s) /\ published (log s) = replicate 20 DESKTOP_TO_DEVICE_VALUE.
Proof. eexists. vm_compute. by split. Qed.

(** C37: whatever the device does, the subscriber ends, provided that the clock gets
    past its timeout; it takes no more messages
    than it expects, and it passes exactly when the values it received are those it
    expects, in order; with transient-local durability those are the last values of
    the history that the depth retains and the live value. *)
Theorem subscriber_exact {W} `{Rclpy W Z Z} (left : pyfloat -> W -> nat) timeout reliability durability depth (w : W) :
  ticks left -> passes left timeout -> (1 <= depth)%Z ->
  (exists n r s, (forall fuel, n <= fuel ->
      run_subscriber timeout reliability durability depth fuel (Peer w [] []) = Some (r, s)) /\
    (subscriber_ends reliability durability depth r s \/
     (r = Ok 1%Z /\ durability = "transient_local" /\ empty_handed s /\
      last (log s) = Some (Err "ROS2_ZEPHYR_PEER_ERROR role=sub reason=publisher_discovery_timeout")))) /\
  (durability = "transient_local" ->
   expected_of durability depth = keep_last (Z.to_nat depth) [1; 2; 3; 4; 5]%Z ++ [6]%Z).
Proof.
  intros Hticks Hpass Hd. split; [|intros ->; by apply expected_retained].
  destruct (run_subscriber_spec left Hticks timeout reliability durability depth (Peer w [] [])) as (n & r & s & Hrun & Hs);
    [done..|]. exists n, r, s. split; [done|]. unfold subscriber_role in Hs. tauto.
Qed.

Lemma subscriber_exact_witness :
  (exists n r s, (forall fuel, n <= fuel ->
      run_subscriber (float_int 90) "reliable" "transient_local" 2 fuel
        (Peer (wifi_script 20 [None; None; Some 4; Some 5; Some 6]%Z []) [] []) = Some (r, s)) /\
    (subscriber_ends "reliable" "transient_local" 2 r s \/
     (r = Ok 1%Z /\ "transient_local" = "transient_local" /\ empty_handed s /\
      last (log s) = Some (Err "ROS2_ZEPHYR_PEER_ERROR role=sub reason=publisher_discovery_timeout")))) /\
  expected_of "transient_local" 2 = [4; 5; 6]%Z.
Proof.
  destruct (subscriber_exact script_left (float_int 90) "reliable" "transient_local" 2
    (wifi_script 20 [None; None; Some 4; Some 5; Some 6]%Z [])) as [H1 H2].
  - apply script_ticks.
  - apply script_passes. vm_compute. reflexivity.
  - lia.
  - split; [exact H1|]. rewrite H2 by reflexivity. reflexivity.
Defined.

(** When the device delivers what is expected before the deadline, one value
    after the other, with idle rounds between them, the subscriber passes. *)
Theorem subscriber_live {W} `{Rclpy W Z Z} timeout reliability durability depth m (w : W) :
  let w1 := ros (CreateSubscription device_topic (endpoint_qos reliability durability depth)) w in
  durability <> "transient_local" ->
  delivers (float_add (monotonic w1).1 timeout) m (monotonic w1).2 (expected_of durability depth) ->
  exists n s, (forall fuel, n <= fuel ->
      run_subscriber timeout reliability durability depth fuel (Peer w [] []) = Some (Ok 0%Z, s)) /\
    (inbox s).*2 = expected_of durability depth.
Proof.
  intros w1 Hdur Hd. destruct (subscribe_live timeout reliability durability depth m (Peer w [] []) eq_refl Hd)
    as (n & r & s & Hrun & -> & Hs & _).
  exists n, s. split; [|done]. unfold run_subscriber. by rewrite bool_decide_false.
Qed.

Definition live_script : script Z := wifi_script 60 (replicate 18 (Some DEVICE_TO_DESKTOP_VALUE)) [].

(** A delivery takes two readings: of the loop and of the callback. *)
Lemma script_delivers d m t1 t2 ts ds v vs mail :
  float_ltb (moment t1) d = true -> delivers d m (Script ts ds [] [] [] mail true) vs ->
  delivers d (S m) (Script (t1 :: t2 :: ts) (Some v :: ds) [] [] [] mail true) (v :: vs).
Proof. intros Ht Hd. eapply delivers_value; [exact Ht|reflexivity|exact Hd]. Qed.

Lemma subscriber_live_witness :
  exists n s, (forall fuel, n <= fuel ->
      run_subscriber (float_int 90) "best_effort" "volatile" 32 fuel (Peer live_script [] []) = Some (Ok 0%Z, s)) /\
    (inbox s).*2 = replicate 18 DEVICE_TO_DESKTOP_VALUE.
Proof.
  apply (subscriber_live (float_int 90) "best_effort" "volatile" 32 18 live_script).
  - discriminate.
  - change (expected_of "volatile" 32) with (replicate 18 DEVICE_TO_DESKTOP_VALUE). 
    cbn [replicate]. match goal with |- delivers _ _ ?w _ => let x := eval vm_compute in w in change w with x end.
    repeat (apply script_delivers; [vm_compute; reflexivity|]). apply delivers_all.
Defined.

(** C38: in every state the loop of a worker passes, also one in which the parent
    kills it, it told [ready] first and once, and visibility at most once, as seen
    or as timed out; every reduction took one publisher and all subscriptions and
    called rclpy for exactly them, so that after the one reduction the parent asks
    for, the initial worker has one publisher and no subscription left.  When the
    parent does not leave it waiting for ever, the worker ends, and unless it could
    not even tell that it is ready, its node is destroyed and rclpy shut down. *)
Theorem worker_protocol {W} `{Rclpy W Z Z} `{Connection W} (profile : string) timeout (w : W) :
  (forall d v s, reachable profile timeout w d v s ->
     worker_inv profile v (log s) /\
     (profile = "initial" -> count "reduced" (told (log s)) = 1 ->
      publishers v = [GRAPH_REMOTE_A] /\ subscriptions v = [])) /\
  (forall left, patient left ->
     exists n r s, (forall fuel, n <= fuel -> graph_inbound_worker profile timeout fuel (Peer w [] []) = Some (r, s)) /\
       worker_ends profile r (log s)).
Proof.
  split; [|intros left Hleft; exact (worker_spec profile timeout w left Hleft)].
  intros d v s Hs%reachable_inv. split; [done|]. intros -> Hc. destruct Hs as [_ _ Hp _ Hq _].
  rewrite Hc in *. by rewrite Hp, Hq.
Qed.

(** The parent reduces the worker after a while and then stops it. *)
Definition worker_world : script Z :=
  Script (seq 0 30) [] [0; 0; 1]%Z [false; true] [] (fun _ => ["reduce"; "stop"]) true.

Lemma worker_example :
  exists s, graph_inbound_worker "initial" (float_int 90) 10 (Peer worker_world [] []) = Some (Ok tt, s) /\
    told (log s) = ["ready"; "visible"; "reduced"] /\
    called (log s) = profile_calls "initial" ++
      [DestroyPublisher; DestroySubscription; DestroySubscription; DestroyNode; Shutdown].
Proof. eexists. vm_compute. by split. Qed.

Lemma worker_protocol_witness :
  exists n r s, (forall fuel, n <= fuel -> graph_inbound_worker "initial" (float_int 90) fuel (Peer worker_world [] []) = Some (r, s)) /\
    worker_ends "initial" r (log s).
Proof. eapply (worker_protocol "initial" (float_int 90) worker_world). apply script_patient. Defined.

(** Whatever device, workers and pipes do, the inbound graph role ends; it
    announces its phases, starts and commands in the order of its script, it passes
    only after the whole script and after the workers told what it waits for; and
    once both workers were started, every started worker is probed and, if alive,
    killed and joined, and every connection is closed, in all cases. *)
Theorem inbound_order {W} `{Rclpy W Z Z} `{Workers W} (left : pyfloat -> W -> nat) timeout (w : W) :
  ticks left -> worker_ticks left -> passes left timeout ->
  exists n r s, (forall fuel, n <= fuel -> run_graph_inbound timeout fuel (Peer w [] []) = Some (r, s)) /\
    ((exists l a b c, inbound_ends r l /\ log s = l ++ inbound_cleanup (was_started Restarted l) a b c) \/
     (exists e j, r = Raise e /\ j < 2 /\ log s = take j inbound_script)).
Proof. intros Hticks Hworkers Hpass. by apply (run_graph_inbound_spec left Hticks Hworkers). Qed.

Definition worker_mail (n : worker) : list string :=
  match n with Alpha => ["ready"; "visible"; "reduced"] | Beta => ["ready"] | Restarted => ["ready"; "visible"] end.

Definition inbound_world (m : worker -> list string) (b : bool) : script Z := Script (seq 0 30) [] [] [] [] m b.

Lemma inbound_order_witness :
  exists n r s, (forall fuel, n <= fuel -> run_graph_inbound (float_int 90) fuel (Peer (inbound_world worker_mail true) [] []) = Some (r, s)) /\
    ((exists l a b c, inbound_ends r l /\ log s = l ++ inbound_cleanup (was_started Restarted l) a b c) \/
     (exists e j, r = Raise e /\ j < 2 /\ log s = take j inbound_script)).
Proof.
  apply (inbound_order script_left); [apply script_ticks|apply script_worker_ticks|apply script_passes; vm_compute; reflexivity].
Defined.

Lemma inbound_example :
  exists s, run_graph_inbound (float_int 90) 30 (Peer (inbound_world worker_mail true) [] []) = Some (Ok 0%Z, s) /\
    said (log s) = inbound_script.
Proof. eexists. vm_compute. by split. Qed.

(** A worker that dies closes its end of the pipe, so that [poll] succeeds and
    [recv] raises: the run ends with the exception and without its error line. *)
Lemma dead_worker_raises :
  exists s, run_graph_inbound (float_int 90) 30 (Peer (inbound_world (fun _ => []) true) [] []) = Some (Raise EOFError, s) /\
    said (log s) = [Worked Alpha (Started "initial"); Worked Beta (Started "beta")].
Proof. eexists. vm_compute. by split. Qed.

(** The first worker is left running when the second one cannot be started. *)
Lemma failed_start_leaks :
  exists e s, run_graph_inbound (float_int 90) 30 (Peer (inbound_world worker_mail false) [] []) = Some (Raise e, s) /\
    log s = [Worked Alpha (Started "initial")].
Proof. eexists _, _. vm_compute. by split. Qed.

(** C35: the parent of the inbound graph role and its workers, run together: when the
    device appears to every worker before the worker gives up, and a wait of the parent
    polls often enough before its deadline, then under every schedule the role passes
    after its whole script, and no worker is left running. *)
Theorem inbound_graph_live {C D} `{Rclpy C Z Z} `{System.Sleep C} `{Rclpy D Z Z} (unseen : D -> nat) timeout patience
    (views : worker -> D) (c : C) (schedule : list (list worker)) :
  SystemSpec.appears unseen timeout -> SystemSpec.punctual (C := C) timeout patience ->
  (forall n, S (S (unseen (views n))) < patience) ->
  exists n s, (forall fuel, n <= fuel ->
      run_graph_inbound timeout fuel (Peer (System.SystemState c schedule views (fun _ => None)) [] []) = Some (Ok 0%Z, s)) /\
    said (log s) = inbound_script /\ forall m, System.alive_at m (world s) = false.
Proof.
  intros Ha Hp Hv. destruct (SystemSpec.inbound_live unseen timeout Ha patience Hp views (pred patience)) with (c := c) (schedule := schedule)
    as (n & r & s & Hrun & -> & Hs & Hm); [intros m; specialize (Hv m); lia|specialize (Hv Alpha); lia|].
  by exists n, s.
Qed.

Lemma inbound_graph_live_witness :
  exists n s, (forall fuel, n <= fuel ->
      run_graph_inbound (float_int 90) fuel (Peer (System.SystemState (Wall 0) [[Beta]; [Alpha; Alpha]; []; [Beta; Alpha]]
        (fun n => Sight (match n with Alpha => 4 | Beta => 20 | Restarted => 0 end)) (fun _ => None)) [] []) = Some (Ok 0%Z, s)) /\
    said (log s) = inbound_script /\ forall m, System.alive_at m (world s) = false.
Proof.
  apply (inbound_graph_live spins (float_int 90) 30); [exact sight_appears|exact wall_punctual|]. intros []; cbn; lia.
Defined.

(** C36: with any arguments the Wi-Fi peer ends, provided that the clock gets past the
    timeout of arguments that are not refused.  Bad arguments are refused with status 2
    before anything is done.  Every role ends as it may, and its verdict follows from
    what the graph answered.  The outbound role announces a phase exactly after the
    first look that shows the device's topic as the phase expects it, and the cleanup
    after the first look without the device's node; it passes when every phase of every
    cycle was announced, and fails when it gives up without such a look, telling what
    one more look shows.  The publisher starts at the first subscription that is
    counted and passes exactly when the last count is none; the subscriber waits for a
    publisher when durability asks for it.  Except for the inbound role, which has
    processes instead, the node is created before the role and destroyed, and rclpy
    shut down, after it, also when an exception escapes. *)
Theorem peer_main_ends {W} `{Rclpy W Z Z} `{Workers W} (left : pyfloat -> W -> nat) (a : args) (w : W) :
  ticks left -> worker_ticks left -> ((forall msg, ~ refused a msg) -> passes left (a_timeout a)) ->
  exists n r s, (forall fuel, n <= fuel -> main a fuel (Peer w [] []) = Some (r, s)) /\ main_ends a r s.
Proof. intros Hticks Hworkers Hpass. by apply (peer_main_spec left Hticks Hworkers). Qed.

(** The device shows its topic on both sides at the second look, then loses the
    publisher, the subscription and its node. *)
Definition graph_script (last : bool) : script Z :=
  Script (seq 0 20) [] [] [true; true; true; true; last] [(false, true); (true, true); (false, true); (false, false)]
    (fun _ => []) true.

Definition outbound_args : args := Args GraphOutbound (float_int 5) "reliable" "volatile" 32 1 false.

Lemma peer_main_ends_witness :
  (exists n r s, (forall fuel, n <= fuel -> main outbound_args fuel (Peer (graph_script false) [] []) = Some (r, s)) /\
    main_ends outbound_args r s) /\
  exists s, main outbound_args 20 (Peer (graph_script false) [] []) = Some (Ok 0%Z, s) /\
    said (log s) = (fun phase => Out (outbound_pass phase 1)) <$> ["pubsub"; "subscription_only"; "node_only"; "node_cleanup"].
Proof.
  split; [|eexists; vm_compute; by split].
  apply (peer_main_ends script_left outbound_args (graph_script false));
    [apply script_ticks|apply script_worker_ticks|intros _; apply script_passes; vm_compute; reflexivity].
Defined.

(** A device whose node was not seen to go, and one whose topic is not as expected. *)
Definition stuck_script : script Z :=
  Script (seq 0 20) [] [] (replicate 20 true) (replicate 20 (true, true)) (fun _ => []) true.

Lemma outbound_refused :
  exists s, main outbound_args 20 (Peer stuck_script [] []) = Some (Ok 1%Z, s) /\
    said (log s) = [Out (outbound_pass "pubsub" 1); outbound_error "subscription_only observed=(True, True)"].
Proof. eexists. vm_compute. by split. Qed.

End PeerTheorems.
