(* ===== verification/Allocator.v ===== *)
(** * The firmware's allocator

    [platform/allocator.c] puts a header (the size and the pool of the block)
    before every allocation, takes large blocks from external RAM where the board
    has it, and keeps counters per domain: ROS and the middleware.
    [platform/rmw/cyclonedds_c.c] gives the middleware its four operations.

    Each operation is given twice: whole, as one thread runs it when no other is
    inside, and cut where it touches what is shared (the counters and the heaps),
    so that threads can take turns.  The locks of the source surround just these
    accesses and have no state of interest.  The world is the memory, the heaps,
    the static variables and what was printed.  [None] is undefined behaviour. *)

From Stdlib Require Import String.
From S2P Require Import Prelude PyStr.

#[local] Open Scope Z_scope.

(** * Device memory

    What the firmware's allocator is built on: blocks of bytes that the C library
    ([malloc], [realloc], [free]) and Zephyr's shared multi-heap hand out, loads
    and stores that stay inside a block, and little-endian words.  An access
    outside a block, or giving a block back to the wrong heap, has no result.

    The two heaps are parameters: [HeapOps] is what is called of them and
    [HeapLaws] is what is relied on, the usual contract of an allocator. *)

Module Heap.

(** The heap a block comes from: the C library's, or the external RAM's. *)
Inductive pool := Internal | External.

#[export] Instance pool_eq_dec : EqDecision pool.
Proof. solve_decision. Defined.

Abbreviation loc := positive.

Record block := Block { owner : pool; bytes : list Z }.

Abbreviation memory := (gmap loc block).

(** A pointer is a block and an offset in it; [None] is [NULL] where a pointer
    may be null. *)
Record ptr := Ptr { base : loc; offset : Z }.

#[export] Instance ptr_eq_dec : EqDecision ptr.
Proof. solve_decision. Defined.

Definition ptr_add (p : ptr) (n : Z) : ptr := Ptr (base p) (offset p + n).

(** ** Little-endian words *)

Fixpoint le_bytes (n : nat) (z : Z) : list Z :=
  match n with O => [] | S n => z mod 256 :: le_bytes n (z / 256) end.

Fixpoint le_value (l : list Z) : Z :=
  match l with [] => 0 | b :: l => b + 256 * le_value l end.

Lemma le_bytes_length n z : length (le_bytes n z) = n.
Proof. revert z. induction n as [|n IH]; intros z; [done|]. cbn. by rewrite IH. Qed.

Lemma le_roundtrip n z : 0 <= z < 256 ^ Z.of_nat n -> le_value (le_bytes n z) = z.
Proof.
  revert z. induction n as [|n IH]; intros z Hz; [cbn in *; lia|]. cbn [le_bytes le_value].
  rewrite IH.
  - pose proof (Z.div_mod z 256). lia.
  - rewrite Nat2Z.inj_succ, Z.pow_succ_r in Hz by lia. split; [apply Z.div_pos; lia|].
    apply Z.div_lt_upper_bound; lia.
Qed.

(** ** Loads and stores *)

(** The part of a list from [off], [n] long, when it is inside. *)
Definition in_bounds (off n : Z) (l : list Z) : bool := (0 <=? off) && (0 <=? n) && (off + n <=? Z.of_nat (length l)).

Definition read_at (off n : Z) (l : list Z) : option (list Z) :=
  if in_bounds off n l then Some (take (Z.to_nat n) (drop (Z.to_nat off) l)) else None.

Definition write_at (off : Z) (bs l : list Z) : option (list Z) :=
  if in_bounds off (Z.of_nat (length bs)) l
  then Some (take (Z.to_nat off) l ++ bs ++ drop (Z.to_nat off + length bs) l) else None.

Definition load (p : ptr) (n : Z) (m : memory) : option (list Z) :=
  b ← m !! base p; read_at (offset p) n (bytes b).

Definition store (p : ptr) (bs : list Z) (m : memory) : option memory :=
  b ← m !! base p;
  l ← write_at (offset p) bs (bytes b);
  Some (<[base p := Block (owner b) l]> m).

(** An access that lies past a prefix sees only what follows the prefix. *)
Lemma in_bounds_app k off n (pre l : list Z) :
  0 <= off -> k = Z.of_nat (length pre) -> in_bounds (k + off) n (pre ++ l) = in_bounds off n l.
Proof.
  intros Ho ->. unfold in_bounds. rewrite length_app, Nat2Z.inj_add.
  apply eq_true_iff_eq. rewrite !andb_true_iff, !Z.leb_le. lia.
Qed.

Lemma read_at_app k off n (pre l : list Z) :
  0 <= off -> k = Z.of_nat (length pre) -> read_at (k + off) n (pre ++ l) = read_at off n l.
Proof.
  intros Ho Hk. unfold read_at. rewrite (in_bounds_app k) by done. destruct (in_bounds off n l); [|done].
  do 2 f_equal. rewrite drop_app_ge by lia. f_equal. lia.
Qed.

Lemma write_at_app k off bs (pre l : list Z) :
  0 <= off -> k = Z.of_nat (length pre) ->
  write_at (k + off) bs (pre ++ l) = (fun r => pre ++ r) <$> write_at off bs l.
Proof.
  intros Ho Hk. unfold write_at. rewrite (in_bounds_app k) by done. destruct (in_bounds off _ l); [|done].
  cbn. f_equal. rewrite take_app_ge, drop_app_ge by lia. rewrite <- app_assoc. do 2 f_equal.
  - f_equal. lia.
  - do 2 f_equal. lia.
Qed.

(** An access of exactly the first bytes. *)
Lemma read_at_prefix n (l r : list Z) : n = Z.of_nat (length l) -> read_at 0 n (l ++ r) = Some l.
Proof.
  intros ->. unfold read_at, in_bounds. rewrite length_app, !(proj2 (Z.leb_le _ _)) by lia. cbn.
  rewrite drop_0, take_app_le, take_ge by lia. done.
Qed.

Lemma write_at_prefix (bs l : list Z) :
  (length bs <= length l)%nat -> write_at 0 bs l = Some (bs ++ drop (length bs) l).
Proof.
  intros Hl. unfold write_at, in_bounds. rewrite !(proj2 (Z.leb_le _ _)) by lia. done.
Qed.

Lemma write_at_past (off : Z) (bs l : list Z) :
  Z.of_nat (length l) < off + Z.of_nat (length bs) -> write_at off bs l = None.
Proof.
  intros Hl. unfold write_at, in_bounds. rewrite (proj2 (Z.leb_gt _ _) Hl).
  by rewrite andb_false_r.
Qed.

Lemma write_at_inv off bs (l l' : list Z) :
  write_at off bs l = Some l' ->
  length l' = length l /\ 0 <= off /\ off + Z.of_nat (length bs) <= Z.of_nat (length l).
Proof.
  unfold write_at. destruct (in_bounds _ _ _) eqn:Hb; [|done]. intros [= <-].
  unfold in_bounds in Hb. rewrite !andb_true_iff, !Z.leb_le in Hb.
  rewrite !length_app, length_take, length_drop. lia.
Qed.

Lemma load_lookup p n (m : memory) b :
  m !! base p = Some b -> load p n m = read_at (offset p) n (bytes b).
Proof. intros E. unfold load. by rewrite E. Qed.

Lemma store_lookup p bs (m : memory) b :
  m !! base p = Some b ->
  store p bs m = (fun l => <[base p := Block (owner b) l]> m) <$> write_at (offset p) bs (bytes b).
Proof. intros E. unfold store. rewrite E. cbn. by destruct (write_at _ _ _). Qed.

(** ** The heaps *)

(** [heap_alloc] answers a request with a place and what the fresh bytes happen
    to hold, or with nothing; [heap_blocks] is what is handed out. *)
Class HeapOps (H : Type) := {
  heap_alloc : pool -> Z -> H -> option (loc * list Z) * H;
  heap_realloc : pool -> loc -> Z -> H -> option (loc * list Z) * H;
  heap_free : pool -> loc -> H -> H;
  heap_stats : H -> list (option (Z * Z * Z));
  heap_blocks : H -> gmap loc (pool * Z)
}.

(** The bytes handed out, in both heaps. *)
Definition total (m : gmap loc (pool * Z)) : Z := map_fold (fun _ b acc => b.2 + acc) 0 m.

(** The contract.  A block is handed out once and is as long as asked for; what
    is handed out fits in the address space; a refused request changes nothing. *)
Class HeapLaws (space : Z) (H : Type) `{!HeapOps H} := {
  alloc_some p n h l fill h' :
    heap_alloc p n h = (Some (l, fill), h') ->
    heap_blocks h !! l = None /\ Z.of_nat (length fill) = n /\
    heap_blocks h' = <[l := (p, n)]> (heap_blocks h) /\ total (heap_blocks h') < space;
  alloc_none p n h h' : heap_alloc p n h = (None, h') -> heap_blocks h' = heap_blocks h;
  realloc_some p l m n h l' fill h' :
    heap_blocks h !! l = Some (p, m) -> heap_realloc p l n h = (Some (l', fill), h') ->
    (l' = l \/ heap_blocks h !! l' = None) /\ Z.of_nat (length fill) = n /\
    heap_blocks h' = <[l' := (p, n)]> (delete l (heap_blocks h)) /\ total (heap_blocks h') < space;
  realloc_none p l n h h' : heap_realloc p l n h = (None, h') -> heap_blocks h' = heap_blocks h;
  free_blocks p l m h :
    heap_blocks h !! l = Some (p, m) -> heap_blocks (heap_free p l h) = delete l (heap_blocks h)
}.

(** The bytes after a block is resized: the common part is kept. *)
Definition resized (old fill : list Z) : list Z :=
  take (min (length old) (length fill)) old ++ drop (min (length old) (length fill)) fill.

Lemma resized_length old fill : length (resized old fill) = length fill.
Proof. unfold resized. rewrite length_app, length_take, length_drop. lia. Qed.

Lemma resized_app pre old fill :
  (length pre <= length fill)%nat ->
  resized (pre ++ old) fill = pre ++ resized old (drop (length pre) fill).
Proof.
  intros Hl. unfold resized. rewrite length_app, length_drop.
  rewrite take_app_ge by lia. rewrite <- app_assoc, drop_drop. do 2 f_equal; f_equal; lia.
Qed.

Lemma resized_keeps old fill :
  take (min (length old) (length fill)) (resized old fill) = take (min (length old) (length fill)) old.
Proof.
  unfold resized. rewrite take_app_le by (rewrite length_take; lia).
  rewrite take_take. f_equal. lia.
Qed.

Lemma resized_prefix old fill k :
  (k <= length old)%nat -> (k <= length fill)%nat -> take k (resized old fill) = take k old.
Proof.
  intros H1 H2. unfold resized. rewrite take_app_le by (rewrite length_take; lia).
  rewrite take_take. f_equal. lia.
Qed.

(** ** The bytes handed out *)

Lemma total_insert (m : gmap loc (pool * Z)) l b : m !! l = None -> total (<[l := b]> m) = b.2 + total m.
Proof.
  intros E. unfold total. rewrite map_fold_insert_L; [done| |done]. intros. lia.
Qed.

Lemma total_delete (m : gmap loc (pool * Z)) l b : m !! l = Some b -> total m = b.2 + total (delete l m).
Proof. intros E. rewrite <- (insert_delete_id m l b E) at 1. apply total_insert, lookup_delete_eq. Qed.

End Heap.

Module Allocator.
Import Heap.

(** ** The build's configuration *)

(** [lp64] is a target with 64-bit [size_t]; the others are the Kconfig options
    the source tests, [failure_at] being 0 when it is not defined. *)
Record config := Config {
  lp64 : bool;
  esp_spiram : bool;
  failure_at : Z;
  heap_runtime_stats : bool
}.

Inductive allocation_domain := ALLOCATION_ROS | ALLOCATION_MIDDLEWARE.

#[export] Instance domain_eq_dec : EqDecision allocation_domain.
Proof. solve_decision. Defined.

Definition ROS_EXTERNAL_ALLOCATION_MIN : Z := 4096.
Definition MIDDLEWARE_EXTERNAL_ALLOCATION_MIN : Z := 8192.

(** [ALLOCATION_POOL_INTERNAL] and [ALLOCATION_POOL_EXTERNAL] *)
Definition pool_code (p : pool) : Z := match p with Internal => 0 | External => 1 end.

(** ** The counters *)

Record metrics := Metrics { calls : Z; frees : Z; live_bytes : Z; high_water_bytes : Z }.

Definition no_metrics : metrics := Metrics 0 0 0 0.

Record allocation_state := AllocationState {
  domain : allocation_domain;
  external_threshold : Z;
  counters : metrics
}.

(** A pointer to one of the two elements of [allocation_states]. *)
Inductive slot := Slot0 | Slot1.

#[export] Instance slot_eq_dec : EqDecision slot.
Proof. solve_decision. Defined.

Definition allocation_states : slot -> allocation_state := fun s =>
  match s with
  | Slot0 => AllocationState ALLOCATION_ROS ROS_EXTERNAL_ALLOCATION_MIN no_metrics
  | Slot1 => AllocationState ALLOCATION_MIDDLEWARE MIDDLEWARE_EXTERNAL_ALLOCATION_MIN no_metrics
  end.

Definition state_for_domain (d : allocation_domain) : slot :=
  if decide (d = ALLOCATION_MIDDLEWARE) then Slot1 else Slot0.

Definition ros2_zephyr_allocator_state (d : allocation_domain) : slot := state_for_domain d.

Section allocator.
Context (c : config) {H : Type} `{!HeapOps H}.

(** ** Machine words *)

Definition word_bytes : Z := if lp64 c then 8 else 4.
Definition modulus : Z := 256 ^ word_bytes.
Definition SIZE_MAX : Z := modulus - 1.

(** Arithmetic of [size_t]. *)
Definition wrap (z : Z) : Z := z mod modulus.

(** The header is a [size_t] and a [uint32_t], padded to a multiple of a word. *)
Definition sizeof_header : Z := 2 * word_bytes.

(** ** The world *)

Record world := World {
  mem : memory;
  heap : H;
  states : slot -> allocation_state;
  ros_allocation_attempts : Z;
  console : list string
}.

Definition M (A : Type) : Type := world -> option (A * world).

#[export] Instance M_ret : MRet M := fun A a w => Some (a, w).
#[export] Instance M_bind : MBind M := fun A B f m w =>
  match m w with Some (a, w') => f a w' | None => None end.

Definition get_state (s : slot) : M allocation_state := fun w => Some (states w s, w).

Definition set_metrics (s : slot) (m : metrics) : M unit := fun w =>
  Some (tt, World (mem w) (heap w)
    (fun s' => if decide (s' = s) then AllocationState (domain (states w s)) (external_threshold (states w s)) m
               else states w s')
    (ros_allocation_attempts w) (console w)).

(** [printk], one line. *)
Definition printk (line : string) : M unit := fun w =>
  Some (tt, World (mem w) (heap w) (states w) (ros_allocation_attempts w) (console w ++ [line])).

Definition with_memory {A} (f : memory -> option (A * memory)) : M A := fun w =>
  match f (mem w) with
  | Some (a, m) => Some (a, World m (heap w) (states w) (ros_allocation_attempts w) (console w))
  | None => None
  end.

Definition load_word (p : ptr) (n : Z) : M Z :=
  with_memory (fun m => bs ← load p n m; Some (le_value bs, m)).

Definition store_bytes (p : ptr) (bs : list Z) : M unit :=
  with_memory (fun m => m' ← store p bs m; Some (tt, m')).

(** [memcpy(to, from, n)] *)
Definition memcpy (to from : ptr) (n : Z) : M unit :=
  with_memory (fun m => bs ← load from n m; m' ← store to bs m; Some (tt, m')).

(** [memset(p, 0, n)] *)
Definition memset0 (p : ptr) (n : Z) : M unit := store_bytes p (replicate (Z.to_nat n) 0).

(** ** The heaps *)

(** [malloc], or [shared_multi_heap_alloc] for external RAM *)
Definition pool_alloc (p : pool) (n : Z) : M (option ptr) := fun w =>
  match heap_alloc p n (heap w) with
  | (Some (l, fill), h) =>
      Some (Some (Ptr l 0), World (<[l := Block p fill]> (mem w)) h (states w) (ros_allocation_attempts w) (console w))
  | (None, h) => Some (None, World (mem w) h (states w) (ros_allocation_attempts w) (console w))
  end.

(** A block goes back to the heap it came from, by its first byte. *)
Definition block_of (p : pool) (q : ptr) (m : memory) : option block :=
  b ← m !! base q; if bool_decide (owner b = p) && (offset q =? 0) then Some b else None.

(** [free], or [shared_multi_heap_free] *)
Definition pool_free (p : pool) (q : ptr) : M unit := fun w =>
  match block_of p q (mem w) with
  | Some _ =>
      Some (tt, World (delete (base q) (mem w)) (heap_free p (base q) (heap w)) (states w)
                      (ros_allocation_attempts w) (console w))
  | None => None
  end.

(** [realloc], or [shared_multi_heap_realloc] *)
Definition pool_realloc (p : pool) (q : ptr) (n : Z) : M (option ptr) := fun w =>
  match block_of p q (mem w) with
  | Some b =>
      match heap_realloc p (base q) n (heap w) with
      | (Some (l, fill), h) =>
          Some (Some (Ptr l 0),
                World (<[l := Block p (resized (bytes b) fill)]> (delete (base q) (mem w))) h (states w)
                      (ros_allocation_attempts w) (console w))
      | (None, h) => Some (None, World (mem w) h (states w) (ros_allocation_attempts w) (console w))
      end
  | None => None
  end.

(** ** The operations *)

Definition metrics_raise (m : metrics) : metrics :=
  if high_water_bytes m <? live_bytes m then Metrics (calls m) (frees m) (live_bytes m) (live_bytes m) else m.

Definition metrics_add (s : slot) (size : Z) : M unit :=
  st ← get_state s;
  let m := counters st in
  set_metrics s (metrics_raise
    (Metrics (wrap (calls m + 1)) (frees m) (wrap (live_bytes m + size)) (high_water_bytes m))).

Definition ros2_zephyr_allocation_metrics (d : allocation_domain) : M metrics :=
  st ← get_state (state_for_domain d); mret (counters st).

Definition domain_name (d : allocation_domain) : string :=
  if decide (d = ALLOCATION_MIDDLEWARE) then "middleware" else "ros".

Definition failure_line (d : allocation_domain) (requested : Z) (m : metrics) : string :=
  "ROS2_ZEPHYR_ALLOC_FAILURE domain=" +:+ domain_name d +:+ " requested=" +:+ str_of_Z requested +:+
  " live=" +:+ str_of_Z (live_bytes m) +:+ " high_water=" +:+ str_of_Z (high_water_bytes m).

Definition heap_line (index : nat) (s : Z * Z * Z) : string :=
  "ROS2_ZEPHYR_ALLOC_FAILURE_HEAP index=" +:+ str_of_Z (Z.of_nat index) +:+
  " allocated=" +:+ str_of_Z s.1.1 +:+ " free=" +:+ str_of_Z s.1.2 +:+ " peak=" +:+ str_of_Z s.2.

(** A heap whose statistics cannot be read prints nothing. *)
Fixpoint heap_lines (index : nat) (l : list (option (Z * Z * Z))) : M unit :=
  match l with
  | [] => mret tt
  | Some s :: l => printk (heap_line index s) ;; heap_lines (S index) l
  | None :: l => heap_lines (S index) l
  end.

Definition report_heaps : M unit := fun w => heap_lines 0 (heap_stats (heap w)) w.

Definition report_allocation_failure (s : slot) (requested : Z) : M unit :=
  st ← get_state s;
  snapshot ← ros2_zephyr_allocation_metrics (domain st);
  printk (failure_line (domain st) requested snapshot) ;;
  if heap_runtime_stats c then report_heaps else mret tt.

Definition inject_allocation_failure (s : slot) : M bool := fun w =>
  if (0 <? failure_at c) && bool_decide (domain (states w s) = ALLOCATION_ROS) then
    let attempt := wrap (ros_allocation_attempts w + 1) in
    Some (attempt =? failure_at c, World (mem w) (heap w) (states w) attempt (console w))
  else Some (false, w).

(** Which heap a request of this size goes to. *)
Definition pool_for (st : allocation_state) (size : Z) : pool :=
  if esp_spiram c && (external_threshold st <=? size) then External else Internal.

(** [header->size = ..., header->pool = ...] *)
Definition store_size (header : ptr) (size : Z) : M unit :=
  store_bytes header (le_bytes (Z.to_nat word_bytes) size).
Definition store_pool (header : ptr) (p : pool) : M unit :=
  store_bytes (ptr_add header word_bytes) (le_bytes 4 (pool_code p)).

Definition load_size (header : ptr) : M Z := load_word header word_bytes.
Definition load_pool (header : ptr) : M Z := load_word (ptr_add header word_bytes) 4.

(** The heap a header names; without external RAM every block is internal. *)
Definition pool_named (code : Z) : pool := if esp_spiram c && (code =? 1) then External else Internal.

Definition ros2_zephyr_allocate (size : Z) (s : slot) : M (option ptr) :=
  injected ← inject_allocation_failure s;
  if injected : bool then report_allocation_failure s size ;; mret None
  else
    st ← get_state s;
    let p := pool_for st size in
    header ← pool_alloc p (wrap (sizeof_header + size));
    match header with
    | None => report_allocation_failure s size ;; mret None
    | Some header =>
        store_size header size ;;
        store_pool header p ;;
        metrics_add s size ;;
        mret (Some (ptr_add header sizeof_header))
    end.

Definition ros2_zephyr_deallocate (pointer : option ptr) (s : slot) : M unit :=
  match pointer with
  | None => mret tt
  | Some pointer =>
      let header := ptr_add pointer (- sizeof_header) in
      st ← get_state s;
      size ← load_size header;
      let m := counters st in
      set_metrics s (Metrics (calls m) (wrap (frees m + 1)) (wrap (live_bytes m - size)) (high_water_bytes m)) ;;
      (if esp_spiram c then
         code ← load_pool header;
         pool_free (pool_named code) header
       else pool_free Internal header)
  end.

(** The block a reallocation continues in: the same heap resizes it, another
    heap gives a new one. *)
Definition reallocate_block (old_header : ptr) (old_pool : Z) (new_pool : pool) (n : Z) : M (option ptr) :=
  if old_pool =? pool_code new_pool then pool_realloc new_pool old_header n else pool_alloc new_pool n.

Definition ros2_zephyr_reallocate (pointer : option ptr) (size : Z) (s : slot) : M (option ptr) :=
  match pointer with
  | None => ros2_zephyr_allocate size s
  | Some pointer =>
      injected ← inject_allocation_failure s;
      if injected : bool then report_allocation_failure s size ;; mret None
      else
        let old_header := ptr_add pointer (- sizeof_header) in
        old_size ← load_size old_header;
        old_pool ← load_pool old_header;
        st ← get_state s;
        let new_pool := pool_for st size in
        new_header ← reallocate_block old_header old_pool new_pool (wrap (sizeof_header + size));
        match new_header with
        | None => report_allocation_failure s size ;; mret None
        | Some new_header =>
            (if old_pool =? pool_code new_pool then mret tt
             else
               memcpy (ptr_add new_header sizeof_header) pointer (Z.min old_size size) ;;
               pool_free (pool_named old_pool) old_header) ;;
            st ← get_state s;
            let m := counters st in
            set_metrics s (metrics_raise
              (Metrics (wrap (calls m + 1)) (frees m) (wrap (wrap (live_bytes m - old_size) + size))
                       (high_water_bytes m))) ;;
            store_size new_header size ;;
            store_pool new_header new_pool ;;
            mret (Some (ptr_add new_header sizeof_header))
        end
  end.

Definition ros2_zephyr_zero_allocate (count size : Z) (s : slot) : M (option ptr) :=
  if negb (size =? 0) && (SIZE_MAX / size <? count) then mret None
  else
    let bytes := wrap (count * size) in
    pointer ← ros2_zephyr_allocate bytes s;
    match pointer with
    | Some p => memset0 p bytes ;; mret pointer
    | None => mret None
    end.

(** ** The middleware's operations *)

Definition middleware_allocate (size : Z) : M (option ptr) :=
  ros2_zephyr_allocate size (ros2_zephyr_allocator_state ALLOCATION_MIDDLEWARE).
Definition middleware_zero_allocate (count size : Z) : M (option ptr) :=
  ros2_zephyr_zero_allocate count size (ros2_zephyr_allocator_state ALLOCATION_MIDDLEWARE).
Definition middleware_reallocate (pointer : option ptr) (size : Z) : M (option ptr) :=
  ros2_zephyr_reallocate pointer size (ros2_zephyr_allocator_state ALLOCATION_MIDDLEWARE).
Definition middleware_deallocate (pointer : option ptr) : M unit :=
  ros2_zephyr_deallocate pointer (ros2_zephyr_allocator_state ALLOCATION_MIDDLEWARE).

(** The table the middleware is started with, and the one the applications give
    to the ROS client library. *)
Record allocator_ops := AllocatorOps {
  op_allocate : Z -> M (option ptr);
  op_zero_allocate : Z -> Z -> M (option ptr);
  op_reallocate : option ptr -> Z -> M (option ptr);
  op_deallocate : option ptr -> M unit
}.

Definition cyclonedds_allocator : allocator_ops :=
  AllocatorOps middleware_allocate middleware_zero_allocate middleware_reallocate middleware_deallocate.

Definition rcl_allocator : allocator_ops :=
  let s := ros2_zephyr_allocator_state ALLOCATION_ROS in
  AllocatorOps (fun size => ros2_zephyr_allocate size s) (fun count size => ros2_zephyr_zero_allocate count size s)
               (fun p size => ros2_zephyr_reallocate p size s) (fun p => ros2_zephyr_deallocate p s).

(** The table of a domain. *)
Definition ops_of (d : allocation_domain) : allocator_ops :=
  match d with ALLOCATION_ROS => rcl_allocator | ALLOCATION_MIDDLEWARE => cyclonedds_allocator end.

(** ** The operations, cut where they touch what is shared *)

(** Where a thread is in an operation, with its local variables: outside; about to
    ask for a new block, or to resize one; with a block whose header it has to
    write; with a block to copy to and one to copy from; with the counters to
    adjust; with a block to give back; or with a failure to report. *)
Inductive phase :=
  | Outside
  | Asking (s : slot) (size : Z) (zero : bool)
  | Resizing (s : slot) (size : Z) (pointer : ptr)
  | Placing (s : slot) (size : Z) (zero : bool) (p : pool) (header : ptr)
  | Copying (s : slot) (size old_size old_pool : Z) (p : pool) (pointer new_header : ptr)
  | Counting (s : slot) (size old_size : Z) (p : pool) (new_header : ptr)
  | Releasing (header : ptr)
  | Reporting (s : slot) (size : Z) (pointer : option ptr).

Inductive call :=
  | CallAllocate (s : slot) (size : Z)
  | CallZeroAllocate (s : slot) (count size : Z)
  | CallReallocate (s : slot) (pointer : option ptr) (size : Z)
  | CallDeallocate (s : slot) (pointer : option ptr).

(** A step gives the next phase and, when that is [Outside], what is returned. *)
Definition returns (r : option ptr) : M (phase * option ptr) := mret (Outside, r).
Definition goes_on (ph : phase) : M (phase * option ptr) := mret (ph, None).

(** The attempt is counted. *)
Definition allocate_start (size : Z) (zero : bool) (s : slot) : M (phase * option ptr) :=
  injected ← inject_allocation_failure s;
  goes_on (if injected : bool then Reporting s size None else Asking s size zero).

(** The heap answers. *)
Definition allocate_ask (s : slot) (size : Z) (zero : bool) : M (phase * option ptr) :=
  st ← get_state s;
  let p := pool_for st size in
  header ← pool_alloc p (wrap (sizeof_header + size));
  goes_on match header with None => Reporting s size None | Some header => Placing s size zero p header end.

(** From the header to the return, the zeroing included: only the counters are
    shared, the block is still the thread's own. *)
Definition allocate_place (s : slot) (size : Z) (zero : bool) (p : pool) (header : ptr) : M (phase * option ptr) :=
  store_size header size ;;
  store_pool header p ;;
  metrics_add s size ;;
  (if zero then memset0 (ptr_add header sizeof_header) size else mret tt) ;;
  returns (Some (ptr_add header sizeof_header)).

Definition reallocate_start (pointer : ptr) (size : Z) (s : slot) : M (phase * option ptr) :=
  injected ← inject_allocation_failure s;
  goes_on (if injected : bool then Reporting s size (Some pointer) else Resizing s size pointer).

Definition reallocate_ask (s : slot) (size : Z) (pointer : ptr) : M (phase * option ptr) :=
  let old_header := ptr_add pointer (- sizeof_header) in
  old_size ← load_size old_header;
  old_pool ← load_pool old_header;
  st ← get_state s;
  let new_pool := pool_for st size in
  new_header ← reallocate_block old_header old_pool new_pool (wrap (sizeof_header + size));
  goes_on
    match new_header with
    | None => Reporting s size (Some pointer)
    | Some new_header =>
        if old_pool =? pool_code new_pool then Counting s size old_size new_pool new_header
        else Copying s size old_size old_pool new_pool pointer new_header
    end.

Definition reallocate_copy (s : slot) (size old_size old_pool : Z) (p : pool) (pointer new_header : ptr) :
    M (phase * option ptr) :=
  memcpy (ptr_add new_header sizeof_header) pointer (Z.min old_size size) ;;
  pool_free (pool_named old_pool) (ptr_add pointer (- sizeof_header)) ;;
  goes_on (Counting s size old_size p new_header).

Definition reallocate_count (s : slot) (size old_size : Z) (p : pool) (new_header : ptr) : M (phase * option ptr) :=
  st ← get_state s;
  let m := counters st in
  set_metrics s (metrics_raise
    (Metrics (wrap (calls m + 1)) (frees m) (wrap (wrap (live_bytes m - old_size) + size)) (high_water_bytes m))) ;;
  store_size new_header size ;;
  store_pool new_header p ;;
  returns (Some (ptr_add new_header sizeof_header)).

Definition deallocate_start (pointer : ptr) (s : slot) : M (phase * option ptr) :=
  let header := ptr_add pointer (- sizeof_header) in
  st ← get_state s;
  size ← load_size header;
  let m := counters st in
  set_metrics s (Metrics (calls m) (wrap (frees m + 1)) (wrap (live_bytes m - size)) (high_water_bytes m)) ;;
  goes_on (Releasing header).

Definition deallocate_free (header : ptr) : M (phase * option ptr) :=
  (if esp_spiram c then code ← load_pool header; pool_free (pool_named code) header
   else pool_free Internal header) ;;
  returns None.

(** A call up to its first cut, and on from there. *)
Definition call_start (x : call) : M (phase * option ptr) :=
  match x with
  | CallAllocate s size | CallReallocate s None size => allocate_start size false s
  | CallZeroAllocate s count size =>
      if negb (size =? 0) && (SIZE_MAX / size <? count) then returns None
      else allocate_start (wrap (count * size)) true s
  | CallReallocate s (Some pointer) size => reallocate_start pointer size s
  | CallDeallocate s None => returns None
  | CallDeallocate s (Some pointer) => deallocate_start pointer s
  end.

Definition call_continue (ph : phase) : M (phase * option ptr) :=
  match ph with
  | Outside => returns None
  | Asking s size zero => allocate_ask s size zero
  | Resizing s size pointer => reallocate_ask s size pointer
  | Placing s size zero p header => allocate_place s size zero p header
  | Copying s size old_size old_pool p pointer new_header =>
      reallocate_copy s size old_size old_pool p pointer new_header
  | Counting s size old_size p new_header => reallocate_count s size old_size p new_header
  | Releasing header => deallocate_free header
  | Reporting s size _ => report_allocation_failure s size ;; returns None
  end.

(** The steps of one thread that nobody interrupts. *)
Fixpoint call_finish (n : nat) (x : phase * option ptr) : M (option ptr) :=
  match n, x with
  | _, (Outside, r) => mret r
  | O, _ => mret None
  | S n, (ph, _) => x' ← call_continue ph; call_finish n x'
  end.

Definition call_whole (x : call) : M (option ptr) :=
  match x with
  | CallAllocate s size => ros2_zephyr_allocate size s
  | CallZeroAllocate s count size => ros2_zephyr_zero_allocate count size s
  | CallReallocate s pointer size => ros2_zephyr_reallocate pointer size s
  | CallDeallocate s pointer => ros2_zephyr_deallocate pointer s ;; mret None
  end.

End allocator.
End Allocator.
