(* ===== verification/AllocatorSpec.v ===== *)
(** * What the allocator promises

    A ledger is what a client can rely on: the blocks it holds with their domain
    and contents, and per domain the number of allocations, of releases, and the
    most it ever held.  Every operation of [Allocator], used as the callers use
    it, has a result, and the result is one of the ledger's. *)

From Stdlib Require Import String.
From S2P Require Import Prelude PyStr Allocator.

#[local] Open Scope Z_scope.

Module AllocatorSpec.
Import Heap Allocator.

(** ** Sums over the blocks of a map *)

Definition sum_of {A} (f : A -> Z) (m : gmap loc A) : Z := map_fold (fun _ x acc => f x + acc) 0 m.

Section sums.
Context {A : Type} (f : A -> Z).

Lemma sum_insert (m : gmap loc A) l x : m !! l = None -> sum_of f (<[l := x]> m) = f x + sum_of f m.
Proof. intros E. unfold sum_of. rewrite map_fold_insert_L; [done| |done]. intros. lia. Qed.

Lemma sum_delete (m : gmap loc A) l x : m !! l = Some x -> sum_of f m = f x + sum_of f (delete l m).
Proof. intros E. rewrite <- (insert_delete_id m l x E) at 1. apply sum_insert, lookup_delete_eq. Qed.

Lemma sum_replace (m : gmap loc A) l x y :
  m !! l = Some x -> sum_of f (<[l := y]> m) = sum_of f m - f x + f y.
Proof.
  intros E. rewrite <- insert_delete_eq, sum_insert by apply lookup_delete_eq.
  rewrite (sum_delete m l x E). lia.
Qed.

Lemma sum_nonneg (m : gmap loc A) : (forall x, 0 <= f x) -> 0 <= sum_of f m.
Proof.
  intros Hf. induction m as [|l x m E IH] using map_ind; [done|]. rewrite sum_insert by done.
  specialize (Hf x). lia.
Qed.

(** What weighs no more than the blocks of a heap weighs no more in all. *)
Lemma sum_le_total (m : gmap loc A) (hb : gmap loc (pool * Z)) :
  map_Forall (fun _ b => 0 <= b.2) hb ->
  (forall l x, m !! l = Some x -> exists b, hb !! l = Some b /\ f x <= b.2) ->
  sum_of f m <= total hb.
Proof.
  revert hb. induction m as [|l x m E IH] using map_ind; intros hb Hpos Hin.
  - change (sum_of f ∅) with 0. clear Hin. induction hb as [|l b hb E IH] using map_ind; [done|].
    rewrite total_insert by done. apply map_Forall_insert in Hpos as [Hb Hpos]; [|done]. specialize (IH Hpos). lia.
  - destruct (Hin l x) as (b & Hb & Hx); [apply lookup_insert_eq|].
    rewrite sum_insert, (total_delete hb l b) by done.
    assert (sum_of f m <= total (delete l hb)); [|lia].
    apply IH; [by apply map_Forall_delete|]. intros l' x' Hl'.
    assert (l <> l') by (intros ->; congruence). rewrite lookup_delete_ne by done.
    apply Hin. by rewrite lookup_insert_ne.
Qed.

End sums.

(** ** The ledger *)

Record account := Account { allocations : Z; releases : Z; peak : Z }.

Abbreviation holdings := (gmap loc (allocation_domain * list Z)).

Record ledger := Ledger { live : holdings; accounts : allocation_domain -> account }.

Definition empty_ledger : ledger := Ledger ∅ (fun _ => Account 0 0 0).

(** The bytes a domain holds. *)
Definition share (d : allocation_domain) (x : allocation_domain * list Z) : Z :=
  if decide (x.1 = d) then Z.of_nat (length x.2) else 0.

Definition held (d : allocation_domain) (m : holdings) : Z := map_fold (fun _ x acc => share d x + acc) 0 m.

Definition set_account (g : ledger) (m : holdings) (d : allocation_domain) (a : account) : ledger :=
  Ledger m (fun d' => if decide (d' = d) then a else accounts g d').

(** A block of the domain comes into being, and is counted. *)
Definition grant (d : allocation_domain) (l : loc) (data : list Z) (m : holdings) (g : ledger) : ledger :=
  let m' := <[l := (d, data)]> m in
  let a := accounts g d in
  set_account g m' d (Account (allocations a + 1) (releases a) (Z.max (peak a) (held d m'))).

Definition release (d : allocation_domain) (l : loc) (g : ledger) : ledger :=
  let a := accounts g d in
  set_account g (delete l (live g)) d (Account (allocations a) (releases a + 1) (peak a)).

(** What a client asks for; a block is named by its place. *)
Inductive op :=
  | Allocate (d : allocation_domain) (size : Z)
  | ZeroAllocate (d : allocation_domain) (count size : Z)
  | Reallocate (d : allocation_domain) (l : option loc) (size : Z)
  | Deallocate (d : allocation_domain) (l : option loc)
  | Write (l : loc) (off : Z) (bs : list Z).

(** A request that may be refused, and the domain it is for. *)
Definition request (o : op) : option allocation_domain :=
  match o with
  | Allocate d _ | ZeroAllocate d _ _ | Reallocate d _ _ => Some d
  | _ => None
  end.

(** The ledger after an operation and its answer.  A refused request changes
    nothing; an allocation is as long as asked for; a zeroed one holds zeros and
    is not shorter than the product; a resized one keeps the common part, in
    whatever place. *)
Inductive answers : op -> option loc -> ledger -> ledger -> Prop :=
  | ans_refused o g : is_Some (request o) -> answers o None g g
  | ans_allocate d size l data g :
      live g !! l = None -> Z.of_nat (length data) = size ->
      answers (Allocate d size) (Some l) g (grant d l data (live g) g)
  | ans_zero d count size l g :
      live g !! l = None -> 0 <= count * size ->
      answers (ZeroAllocate d count size) (Some l) g
              (grant d l (replicate (Z.to_nat (count * size)) 0) (live g) g)
  | ans_resize_null d size l data g :
      live g !! l = None -> Z.of_nat (length data) = size ->
      answers (Reallocate d None size) (Some l) g (grant d l data (live g) g)
  | ans_resize d l size l' old data g :
      live g !! l = Some (d, old) -> (l' = l \/ live g !! l' = None) ->
      Z.of_nat (length data) = size ->
      take (min (length old) (length data)) data = take (min (length old) (length data)) old ->
      answers (Reallocate d (Some l) size) (Some l') g (grant d l' data (delete l (live g)) g)
  | ans_release d l old g :
      live g !! l = Some (d, old) -> answers (Deallocate d (Some l)) None g (release d l g)
  | ans_release_null d g : answers (Deallocate d None) None g g
  | ans_write l off bs d old data g :
      live g !! l = Some (d, old) -> write_at off bs old = Some data ->
      answers (Write l off bs) None g (Ledger (<[l := (d, data)]> (live g)) (accounts g)).

(** ** The bytes a domain holds *)

Lemma share_nonneg d x : 0 <= share d x.
Proof. unfold share. case_decide; lia. Qed.

Lemma held_insert d (m : holdings) l x : m !! l = None -> held d (<[l := x]> m) = share d x + held d m.
Proof. apply (sum_insert (share d)). Qed.

Lemma held_delete d (m : holdings) l x : m !! l = Some x -> held d m = share d x + held d (delete l m).
Proof. apply (sum_delete (share d)). Qed.

Lemma held_nonneg d (m : holdings) : 0 <= held d m.
Proof. apply (sum_nonneg (share d)), share_nonneg. Qed.

Lemma held_overwrite d (m : holdings) l x y :
  m !! l = Some x -> share d y = share d x -> held d (<[l := y]> m) = held d m.
Proof.
  intros E Hs. rewrite <- insert_delete_eq, held_insert by apply lookup_delete_eq.
  rewrite (held_delete d m l x E). lia.
Qed.

Section refinement.
Context (c : config) {H : Type} `{!HeapOps H}.
Abbreviation world := (@world H).

(** ** The representation *)

(** A block as the allocator lays it out: its size, its pool, padding, contents. *)
Definition layout (p : pool) (pad data : list Z) : list Z :=
  le_bytes (Z.to_nat (word_bytes c)) (Z.of_nat (length data)) ++ le_bytes 4 (pool_code p) ++ pad ++ data.

Definition pool_in (w : world) (d : allocation_domain) (data : list Z) : pool :=
  pool_for c (states w (state_for_domain d)) (Z.of_nat (length data)).

Definition stored (w : world) (l : loc) (x : allocation_domain * list Z) : Prop :=
  exists pad, Z.of_nat (length pad) = word_bytes c - 4 /\
    mem w !! l = Some (Block (pool_in w x.1 x.2) (layout (pool_in w x.1 x.2) pad x.2)).

(** The heaps know the blocks of the memory, and these fit in the address space. *)
Record heap_ok (w : world) : Prop := {
  ho_blocks : (fun b => (owner b, Z.of_nat (length (bytes b)))) <$> mem w = heap_blocks (heap w);
  ho_space : total (heap_blocks (heap w)) < modulus c
}.

Definition account_metrics (a : account) (bytes : Z) : metrics :=
  Metrics (wrap c (allocations a)) (wrap c (releases a)) bytes (peak a).

Record represents (g : ledger) (w : world) : Prop := {
  rp_heap : heap_ok w;
  rp_stored : map_Forall (stored w) (live g);
  rp_state s : domain (states w s) = domain (allocation_states s) /\
               external_threshold (states w s) = external_threshold (allocation_states s);
  rp_counters d : counters (states w (state_for_domain d)) = account_metrics (accounts g d) (held d (live g));
  rp_peak d : held d (live g) <= peak (accounts g d)
}.

(** ** Running an operation *)

Definition user_ptr (l : loc) : ptr := Ptr l (sizeof_header c).

Definition run_op (o : op) : M (option ptr) :=
  match o with
  | Allocate d size => op_allocate (ops_of c d) size
  | ZeroAllocate d count size => op_zero_allocate (ops_of c d) count size
  | Reallocate d l size => op_reallocate (ops_of c d) (user_ptr <$> l) size
  | Deallocate d l => op_deallocate (ops_of c d) (user_ptr <$> l) ;; mret None
  | Write l off bs => store_bytes (ptr_add (user_ptr l) off) bs ;; mret None
  end.

(** A size the header fits in front of. *)
Definition size_ok (size : Z) : bool := (0 <=? size) && (sizeof_header c + size <? modulus c).

(** The calls a client may make: with a size that is in range together with the
    header, and on blocks it holds, in the domain it holds them in. *)
Definition holds (g : ledger) (d : allocation_domain) (l : loc) : bool :=
  match live g !! l with Some (d', _) => bool_decide (d' = d) | None => false end.

Definition op_ok (g : ledger) (o : op) : bool :=
  match o with
  | Allocate _ size => size_ok size
  | ZeroAllocate _ count size =>
      (0 <=? count) && (0 <=? size) && (size <? modulus c) && ((modulus c <=? count * size) || size_ok (count * size))
  | Reallocate d l size => size_ok size && match l with Some l => holds g d l | None => true end
  | Deallocate d l => match l with Some l => holds g d l | None => true end
  | Write l off bs =>
      match live g !! l with Some (_, old) => in_bounds off (Z.of_nat (length bs)) old | None => false end
  end.

(** ** Words *)

Lemma word_bytes_pos : 4 <= word_bytes c.
Proof. unfold word_bytes. destruct (lp64 c); lia. Qed.

Lemma modulus_pos : 0 < modulus c.
Proof. unfold modulus. apply Z.pow_pos_nonneg; pose proof word_bytes_pos; lia. Qed.

Lemma header_small : sizeof_header c < modulus c.
Proof. unfold sizeof_header, modulus, word_bytes. by destruct (lp64 c). Qed.

Lemma modulus_word : modulus c = 256 ^ Z.of_nat (Z.to_nat (word_bytes c)).
Proof. unfold modulus. rewrite Z2Nat.id; [done|]. pose proof word_bytes_pos. lia. Qed.

Lemma wrap_small z : 0 <= z < modulus c -> wrap c z = z.
Proof. apply Z.mod_small. Qed.

Lemma wrap_succ z : wrap c (wrap c z + 1) = wrap c (z + 1).
Proof. unfold wrap. apply Zplus_mod_idemp_l. Qed.

Lemma size_ok_spec size : size_ok size = true <-> 0 <= size /\ sizeof_header c + size < modulus c.
Proof. unfold size_ok. rewrite andb_true_iff, Z.leb_le, Z.ltb_lt. done. Qed.

(** ** The layout of a block *)

Lemma layout_app p pad data :
  layout p pad data =
  (le_bytes (Z.to_nat (word_bytes c)) (Z.of_nat (length data)) ++ le_bytes 4 (pool_code p) ++ pad) ++ data.
Proof. unfold layout. by rewrite <- !app_assoc. Qed.

Lemma layout_header_length p pad n :
  Z.of_nat (length pad) = word_bytes c - 4 ->
  Z.of_nat (length (le_bytes (Z.to_nat (word_bytes c)) n ++ le_bytes 4 (pool_code p) ++ pad)) = sizeof_header c.
Proof.
  intros Hp. pose proof word_bytes_pos. rewrite !length_app, !le_bytes_length. unfold sizeof_header. lia.
Qed.

Lemma layout_length p pad data :
  Z.of_nat (length pad) = word_bytes c - 4 ->
  Z.of_nat (length (layout p pad data)) = sizeof_header c + Z.of_nat (length data).
Proof.
  intros Hp. rewrite layout_app, length_app, Nat2Z.inj_add, layout_header_length by done. done.
Qed.

(** The bytes after the fields of the header are padding and contents. *)
Lemma split_fill (fill : list Z) size :
  0 <= size -> Z.of_nat (length fill) = sizeof_header c + size ->
  exists pad data, drop (Z.to_nat (word_bytes c) + 4) fill = pad ++ data /\
    Z.of_nat (length pad) = word_bytes c - 4 /\ Z.of_nat (length data) = size /\
    data = drop (Z.to_nat (sizeof_header c)) fill.
Proof.
  intros Hs Hl. pose proof word_bytes_pos. set (rest := drop _ fill).
  exists (take (Z.to_nat (word_bytes c - 4)) rest), (drop (Z.to_nat (word_bytes c - 4)) rest).
  rewrite take_drop. subst rest. rewrite length_take, drop_drop, !length_drop. unfold sizeof_header in *.
  repeat split; [lia..|]. f_equal. lia.
Qed.

(** ** Stores and loads of the header *)

Definition with_mem (w : world) (m : memory) : world :=
  World m (heap w) (states w) (ros_allocation_attempts w) (console w).

Lemma store_bytes_run l off bs (w : world) p data data' :
  mem w !! l = Some (Block p data) -> write_at off bs data = Some data' ->
  store_bytes (Ptr l off) bs w = Some (tt, with_mem w (<[l := Block p data']> (mem w))).
Proof.
  intros E Hw. unfold store_bytes, with_memory. rewrite (store_lookup _ _ _ (Block p data)) by done.
  cbn [offset base owner bytes]. by rewrite Hw.
Qed.

Lemma store_header_run l size q (w : world) p fill :
  mem w !! l = Some (Block p fill) -> sizeof_header c <= Z.of_nat (length fill) ->
  (store_size c (Ptr l 0) size ;; store_pool c (Ptr l 0) q) w =
  Some (tt, with_mem w (<[l := Block p (le_bytes (Z.to_nat (word_bytes c)) size ++ le_bytes 4 (pool_code q) ++
                                        drop (Z.to_nat (word_bytes c) + 4) fill)]> (mem w))).
Proof.
  intros E Hl. pose proof word_bytes_pos. unfold sizeof_header in Hl.
  unfold mbind, M_bind, store_size, store_pool.
  erewrite store_bytes_run; [|exact E|apply write_at_prefix; rewrite le_bytes_length; lia].
  rewrite le_bytes_length. unfold ptr_add. cbn [base offset].
  replace (0 + word_bytes c) with (word_bytes c + 0) by lia.
  erewrite store_bytes_run; [|apply lookup_insert_eq|].
  2: { rewrite write_at_app; [|done|rewrite le_bytes_length; lia].
       rewrite write_at_prefix; [done|]. rewrite le_bytes_length, length_drop. lia. }
  rewrite le_bytes_length, drop_drop. unfold with_mem. cbn [mem heap states ros_allocation_attempts console].
  by rewrite insert_insert_eq.
Qed.

Lemma load_size_run l p q pad data (w : world) :
  mem w !! l = Some (Block p (layout q pad data)) -> Z.of_nat (length data) < modulus c ->
  load_size c (Ptr l 0) w = Some (Z.of_nat (length data), w).
Proof.
  intros E Hd. pose proof word_bytes_pos. unfold load_size, load_word, with_memory.
  erewrite load_lookup by exact E. cbn [offset bytes].
  unfold layout. rewrite read_at_prefix by (rewrite le_bytes_length; lia). cbn.
  rewrite le_roundtrip; [by destruct w|]. rewrite <- modulus_word. lia.
Qed.

Lemma load_pool_run l p q pad data (w : world) :
  mem w !! l = Some (Block p (layout q pad data)) -> load_pool c (Ptr l 0) w = Some (pool_code q, w).
Proof.
  intros E. pose proof word_bytes_pos. unfold load_pool, load_word, with_memory, ptr_add. cbn [base offset].
  erewrite load_lookup by exact E. cbn [offset bytes]. unfold layout.
  replace (0 + word_bytes c) with (word_bytes c + 0) by lia.
  rewrite read_at_app; [|done|rewrite le_bytes_length; lia].
  rewrite read_at_prefix by (by rewrite le_bytes_length). cbn [mbind option_bind].
  rewrite le_roundtrip; [by destruct w|]. destruct q; cbn; lia.
Qed.

(** ** The heaps and the memory *)

Lemma heap_block (w : world) l b :
  heap_ok w -> mem w !! l = Some b ->
  heap_blocks (heap w) !! l = Some (owner b, Z.of_nat (length (bytes b))).
Proof. intros [Hb _] E. by rewrite <- Hb, lookup_fmap, E. Qed.

Lemma heap_absent (w : world) l : heap_ok w -> heap_blocks (heap w) !! l = None -> mem w !! l = None.
Proof.
  intros Hw. rewrite <- (ho_blocks w Hw), lookup_fmap. by destruct (mem w !! l).
Qed.

(** A store keeps what the heaps know of a block. *)
Lemma heap_ok_store (w : world) l p data data' :
  heap_ok w -> mem w !! l = Some (Block p data) -> length data' = length data ->
  heap_ok (with_mem w (<[l := Block p data']> (mem w))).
Proof.
  intros [Hb Hs] E Hl. split; [|done]. cbn [mem heap with_mem]. rewrite fmap_insert. cbn [owner bytes].
  rewrite Hl, <- Hb. apply insert_id. by rewrite lookup_fmap, E.
Qed.

Lemma heap_sizes (w : world) : heap_ok w -> map_Forall (fun _ b => 0 <= b.2) (heap_blocks (heap w)).
Proof.
  intros Hw. rewrite <- (ho_blocks w Hw). intros l b E. rewrite lookup_fmap in E.
  destruct (mem w !! l); cbn in E; [|done]. injection E as <-. cbn. lia.
Qed.

(** Whoever holds stored blocks holds less than the address space. *)
Lemma held_bound (w : world) (m : holdings) d :
  heap_ok w -> map_Forall (stored w) m -> 0 <= held d m < modulus c.
Proof.
  intros Hw Hm. split; [apply held_nonneg|]. eapply Z.le_lt_trans; [|exact (ho_space w Hw)].
  apply (sum_le_total (share d)); [by apply heap_sizes|].
  - intros l x E. destruct (Hm l x E) as (pad & Hpad & Hx).
    rewrite (heap_block w l _ Hw Hx). eexists; split; [done|]. cbn. pose proof word_bytes_pos.
    rewrite layout_length by done. unfold share, sizeof_header. case_decide; lia.
Qed.

(** Only the memory of a block and the fixed part of the states matter to it. *)
Lemma stored_ext (w w' : world) l x :
  (forall s, external_threshold (states w' s) = external_threshold (states w s)) ->
  mem w' !! l = mem w !! l -> stored w l x -> stored w' l x.
Proof.
  intros Ht Hm (pad & Hpad & E). exists pad. split; [done|]. rewrite Hm, E.
  unfold pool_in, pool_for. by rewrite Ht.
Qed.

Lemma represents_ext g (w w' : world) :
  mem w' = mem w -> heap_blocks (heap w') = heap_blocks (heap w) -> (forall s, states w' s = states w s) ->
  represents g w -> represents g w'.
Proof.
  intros Em Eh Es [[Hb Hsp] Hst Hs Hc Hp]. split.
  - split; by rewrite ?Em, ?Eh.
  - intros l x E. apply (stored_ext w); [intros; by rewrite Es|by rewrite Em|by apply Hst].
  - intros s. rewrite Es. apply Hs.
  - intros d. rewrite Es. apply Hc.
  - done.
Qed.

Lemma slot_domain d : domain (allocation_states (state_for_domain d)) = d.
Proof. by destruct d. Qed.

Lemma state_for_domain_inj d d' : state_for_domain d = state_for_domain d' -> d = d'.
Proof. by destruct d, d'. Qed.

Lemma stored_live g (w : world) l x : represents g w -> live g !! l = Some x -> stored w l x.
Proof. intros Hr E. by apply (rp_stored g w Hr). Qed.

Lemma live_absent g (w : world) l : represents g w -> mem w !! l = None -> live g !! l = None.
Proof.
  intros Hr E. destruct (live g !! l) as [x|] eqn:El; [|done]. exfalso.
  destruct (stored_live g w l x Hr El) as (pad & _ & E'). congruence.
Qed.

(** ** The counters *)

Lemma raise_counters a b n :
  0 <= n -> b <= peak a ->
  metrics_raise (Metrics (wrap c (wrap c (allocations a) + 1)) (wrap c (releases a)) n (peak a)) =
  account_metrics (Account (allocations a + 1) (releases a) (Z.max (peak a) n)) n.
Proof.
  intros Hn Hb. unfold metrics_raise, account_metrics. cbn [calls frees live_bytes high_water_bytes allocations releases peak].
  rewrite wrap_succ. destruct (Z.ltb_spec (peak a) n); f_equal; lia.
Qed.

(** The states after the counters of a domain were set. *)
Definition counted (w w' : world) (d : allocation_domain) (m : metrics) : Prop :=
  forall s, states w' s = if decide (s = state_for_domain d)
    then AllocationState (domain (states w s)) (external_threshold (states w s)) m else states w s.

Lemma counted_threshold (w w' : world) d m s :
  counted w w' d m -> external_threshold (states w' s) = external_threshold (states w s).
Proof. intros Hc. rewrite Hc. by case_decide. Qed.

(** A ledger whose holdings and one account change together with the world. *)
Lemma represents_account g (w w' : world) m d a :
  represents g w -> heap_ok w' ->
  map_Forall (stored w') m -> (forall d', d' <> d -> held d' m = held d' (live g)) ->
  counted w w' d (account_metrics a (held d m)) -> held d m <= peak a ->
  represents (set_account g m d a) w'.
Proof.
  intros Hr Hw' Hst Hother Hc Hp. split; [done|done| | |].
  - intros s. rewrite Hc. case_decide; apply (rp_state g w Hr).
  - intros d'. rewrite Hc. cbn [accounts live set_account]. case_decide as E.
    + apply state_for_domain_inj in E as ->. by rewrite decide_True.
    + rewrite decide_False by congruence. rewrite Hother by congruence. apply (rp_counters g w Hr).
  - intros d'. cbn [accounts live set_account]. case_decide as E; [by subst|].
    rewrite Hother by done. apply (rp_peak g w Hr).
Qed.

(** A block of a domain is stored, and counted. *)
Lemma represents_grant g (w w' : world) m d l data :
  represents g w -> heap_ok w' -> m !! l = None ->
  map_Forall (stored w') m -> stored w' l (d, data) ->
  (forall d', d' <> d -> held d' m = held d' (live g)) ->
  counted w w' d (metrics_raise (Metrics (wrap c (calls (counters (states w (state_for_domain d))) + 1))
    (frees (counters (states w (state_for_domain d)))) (wrap c (held d m + Z.of_nat (length data)))
    (high_water_bytes (counters (states w (state_for_domain d)))))) ->
  represents (grant d l data m g) w'.
Proof.
  intros Hr Hw' Hl Hst Hnew Hother Hc. unfold grant.
  assert (forall d', held d' (<[l := (d, data)]> m) = share d' (d, data) + held d' m) as Hh
    by (intros; by apply held_insert).
  assert (map_Forall (stored w') (<[l := (d, data)]> m)) as Hst' by (by apply map_Forall_insert).
  pose proof (held_bound w' _ d Hw' Hst') as Hb. rewrite Hh in Hb. unfold share in Hb.
  rewrite decide_True in Hb by done. cbn [snd] in Hb.
  rewrite (wrap_small (held d m + Z.of_nat (length data))) in Hc by lia.
  eapply represents_account; [exact Hr|done|done|..].
  - intros d' Hd. rewrite Hh. unfold share. rewrite decide_False by (cbn; congruence). cbn. by apply Hother.
  - rewrite Hh. unfold share. rewrite decide_True by done. cbn [snd].
    rewrite (rp_counters g w Hr) in Hc. cbn [account_metrics calls frees high_water_bytes] in Hc.
    rewrite (raise_counters (accounts g d) (held d (live g))) in Hc;
      [|pose proof (held_nonneg d m); lia|apply (rp_peak g w Hr)].
    replace (Z.of_nat (length data) + held d m) with (held d m + Z.of_nat (length data)) by lia. exact Hc.
  - cbn [peak]. lia.
Qed.

(** ** Injected failures and reports *)

Definition with_attempts (w : world) (n : Z) : world := World (mem w) (heap w) (states w) n (console w).
Definition with_console (w : world) (t : list string) : world :=
  World (mem w) (heap w) (states w) (ros_allocation_attempts w) t.
Definition with_heap (w : world) (h : H) : world :=
  World (mem w) h (states w) (ros_allocation_attempts w) (console w).

Lemma inject_run s (w : world) :
  exists b n, inject_allocation_failure c s w = Some (b, with_attempts w n).
Proof.
  unfold inject_allocation_failure. destruct (_ && _); [by do 2 eexists|].
  exists false, (ros_allocation_attempts w). by destruct w.
Qed.

Lemma heap_lines_run i l (w : world) : exists t, heap_lines i l w = Some (tt, with_console w (console w ++ t)).
Proof.
  revert i w. induction l as [|[x|] l IH]; intros i w; cbn [heap_lines].
  - exists []. rewrite app_nil_r. by destruct w.
  - unfold mbind, M_bind. cbn [printk].
    destruct (IH (S i) (with_console w (console w ++ [heap_line i x]))) as [t Ht].
    exists (heap_line i x :: t). unfold with_console in *. cbn in *. rewrite <- app_assoc in Ht. exact Ht.
  - apply IH.
Qed.

(** A report prints the failure line first, and changes nothing else. *)
Lemma report_run s size (w : world) :
  exists t, report_allocation_failure c s size w =
    Some (tt, with_console w (console w ++ failure_line (domain (states w s)) size
      (counters (states w (state_for_domain (domain (states w s))))) :: t)).
Proof.
  unfold report_allocation_failure, ros2_zephyr_allocation_metrics, mbind, M_bind, mret, M_ret, get_state, printk.
  cbn -[failure_line heap_lines]. destruct (heap_runtime_stats c).
  - unfold report_heaps. cbn [heap]. match goal with |- context [heap_lines 0 ?l ?w'] =>
      destruct (heap_lines_run 0 l w') as [t Ht]; rewrite Ht end.
    exists t. unfold with_console. cbn [mem heap states ros_allocation_attempts console].
    by rewrite <- app_assoc.
  - by exists [].
Qed.

(** ** Allocation *)

Context `{!HeapLaws (modulus c) H}.

Lemma pool_alloc_run p n (w : world) :
  heap_ok w ->
  (exists h, pool_alloc p n w = Some (None, with_heap w h) /\ heap_blocks h = heap_blocks (heap w)) \/
  (exists l fill h, pool_alloc p n w = Some (Some (Ptr l 0), with_mem (with_heap w h) (<[l := Block p fill]> (mem w))) /\
     mem w !! l = None /\ Z.of_nat (length fill) = n /\
     heap_ok (with_mem (with_heap w h) (<[l := Block p fill]> (mem w)))).
Proof.
  intros Hw. unfold pool_alloc. destruct (heap_alloc p n (heap w)) as [[[l fill]|] h] eqn:E.
  - right. apply alloc_some in E as (Hl & Hn & Hb & Hs). exists l, fill, h. split; [done|].
    split; [by apply heap_absent|]. split; [done|]. split; [|done].
    cbn. rewrite fmap_insert, (ho_blocks w Hw), Hb. cbn [owner bytes]. by rewrite Hn.
  - left. apply alloc_none in E. by exists h.
Qed.

(** A refused request reports, and leaves the ledger. *)
Lemma refused_run g (w : world) s size :
  represents g w ->
  exists w', (report_allocation_failure c s size ;; mret (@None ptr)) w = Some (None, w') /\ represents g w'.
Proof.
  intros Hr. unfold mbind, M_bind. destruct (report_run s size w) as [t ->].
  eexists. split; [done|]. by apply (represents_ext g w).
Qed.

Lemma refused_heap g (w : world) h s size :
  represents g w -> heap_blocks h = heap_blocks (heap w) ->
  exists w', (report_allocation_failure c s size ;; mret (@None ptr)) (with_heap w h) = Some (None, w') /\ represents g w'.
Proof. intros Hr Hh. apply refused_run. by apply (represents_ext g w). Qed.

(** A block with room for the header and the contents is laid out. *)
Lemma place_run {A} (k : M A) l p q size (w : world) fill :
  heap_ok w -> mem w !! l = Some (Block p fill) -> 0 <= size -> Z.of_nat (length fill) = sizeof_header c + size ->
  exists pad data, Z.of_nat (length pad) = word_bytes c - 4 /\ Z.of_nat (length data) = size /\
    data = drop (Z.to_nat (sizeof_header c)) fill /\
    let w' := with_mem w (<[l := Block p (layout q pad data)]> (mem w)) in
    (store_size c (Ptr l 0) size ;; store_pool c (Ptr l 0) q ;; k) w = k w' /\ heap_ok w'.
Proof.
  intros Hw E Hs0 Hn. destruct (split_fill fill size Hs0 Hn) as (pad & data & Hfill & Hpad & Hdata & Hd).
  exists pad, data. do 3 (split; [done|]). intros w'.
  pose proof (store_header_run l size q w p fill E ltac:(lia)) as Hst.
  rewrite Hfill, <- Hdata in Hst. unfold mbind at 1, M_bind at 1 in Hst.
  unfold mbind at 1, M_bind at 1. rewrite <- Hdata.
  destruct (store_size c (Ptr l 0) _ w) as [[[] w1]|]; [|done].
  unfold mbind at 1, M_bind at 1. rewrite Hst. split; [done|].
  apply (heap_ok_store w l p fill); [done..|]. apply Nat2Z.inj. rewrite layout_length by done. lia.
Qed.

(** What a granted request leaves: a fresh block, laid out and counted. *)
Lemma allocate_refines g (w : world) d size :
  represents g w -> size_ok size = true ->
  exists r w', ros2_zephyr_allocate c size (state_for_domain d) w = Some (r, w') /\
    ((r = None /\ represents g w') \/
     (exists l data, r = Some (user_ptr l) /\ live g !! l = None /\ Z.of_nat (length data) = size /\
        represents (grant d l data (live g) g) w')).
Proof.
  intros Hr Hs. apply size_ok_spec in Hs as [Hs0 Hs1].
  unfold ros2_zephyr_allocate. unfold mbind at 1, M_bind at 1.
  destruct (inject_run (state_for_domain d) w) as (b & n & ->). set (w1 := with_attempts w n).
  assert (represents g w1) as Hr1 by (by apply (represents_ext g w)). clearbody w1. destruct b.
  { destruct (refused_run g w1 (state_for_domain d) size Hr1) as (w' & -> & ?). eauto 10. }
  clear Hr w n. unfold mbind at 1, M_bind at 1, get_state.
  set (p := pool_for c _ size). unfold mbind at 1, M_bind at 1.
  assert (0 <= sizeof_header c) by (unfold sizeof_header; pose proof word_bytes_pos; lia).
  rewrite wrap_small by lia.
  destruct (pool_alloc_run p (sizeof_header c + size) w1 (rp_heap g w1 Hr1))
    as [(h & -> & Hh)|(l & fill & h & -> & Hl & Hn & Hok)].
  { destruct (refused_heap g w1 h (state_for_domain d) size Hr1 Hh) as (w' & -> & ?). eauto 10. }
  set (w2 := with_mem _ _) in *. pose proof (live_absent g w1 l Hr1 Hl) as Hfresh.
  destruct (place_run (metrics_add c (state_for_domain d) size ;; mret (Some (ptr_add (Ptr l 0) (sizeof_header c))))
    l p p size w2 fill Hok (lookup_insert_eq _ _ _) Hs0 Hn) as (pad & data & Hpad & Hdata & _ & -> & Hok3).
  eexists (Some (user_ptr l)), _. split; [done|]. right. exists l, data.
  split; [done|]. split; [done|]. split; [done|]. apply (represents_grant g w1); [done|by destruct Hok3|done|..].
  - intros l' x E. apply (stored_ext w1); [|..|by apply (stored_live g)].
    + intros s. cbn. by case_decide; subst.
    + cbn. assert (l' <> l) by (intros ->; congruence). by rewrite !lookup_insert_ne.
  - exists pad. split; [done|]. unfold pool_in. cbn. rewrite decide_True by done.
    rewrite lookup_insert_eq. unfold pool_for. cbn [external_threshold]. by rewrite Hdata.
  - done.
  - intros s. cbn [states with_mem with_heap w2 counters].
    case_decide as E; [subst s|done]. by rewrite (rp_counters g w1 Hr1), Hdata.
Qed.

(** ** Writing to a block *)

(** A write inside a block keeps the layout, and the other blocks. *)
Lemma write_stored (w : world) l off bs d old data :
  heap_ok w -> stored w l (d, old) -> 0 <= off -> write_at off bs old = Some data ->
  exists w', store_bytes (ptr_add (user_ptr l) off) bs w = Some (tt, w') /\ heap_ok w' /\ states w' = states w /\
    stored w' l (d, data) /\ (forall l', l' <> l -> mem w' !! l' = mem w !! l') /\
    (forall d', share d' (d, data) = share d' (d, old)).
Proof.
  intros Hok (pad & Hpad & E) Ho Hw. cbn [fst snd] in E. destruct (write_at_inv off bs old data Hw) as [Hlen _].
  assert (pool_in w d data = pool_in w d old) as Hpool by (unfold pool_in; by rewrite Hlen).
  eexists. split; [|split; [|split; [|split; [|split]]]].
  - unfold ptr_add, user_ptr. cbn [base offset]. eapply store_bytes_run; [exact E|].
    rewrite layout_app, write_at_app; [|done|by rewrite layout_header_length].
    rewrite Hw. cbn [fmap option_fmap option_map]. rewrite <- Hlen, <- layout_app. reflexivity.
  - eapply heap_ok_store; [done|exact E|]. apply Nat2Z.inj. rewrite !layout_length by done. lia.
  - done.
  - exists pad. split; [done|]. cbn [mem with_mem fst snd]. rewrite lookup_insert_eq.
    change (pool_in (with_mem w _) d data) with (pool_in w d data). by rewrite Hpool.
  - intros l' Hne. cbn. by rewrite lookup_insert_ne.
  - intros d'. unfold share. cbn. by rewrite Hlen.
Qed.

Lemma write_refines g (w : world) l off bs d old data :
  represents g w -> live g !! l = Some (d, old) -> 0 <= off -> write_at off bs old = Some data ->
  exists w', store_bytes (ptr_add (user_ptr l) off) bs w = Some (tt, w') /\
    represents (Ledger (<[l := (d, data)]> (live g)) (accounts g)) w'.
Proof.
  intros Hr El Ho Hw. pose proof (stored_live g w l (d, old) Hr El) as Hl. destruct Hr as [Hh Hst Hs Hc Hp].
  destruct (write_stored w l off bs d old data Hh Hl Ho Hw) as (w' & Hrun & Hok & Es & Hl' & Hm & Hsh).
  exists w'. split; [done|]. split; [done|..]; cbn [live accounts].
  - intros l' x E'. destruct (decide (l' = l)) as [->|Hne].
    + rewrite lookup_insert_eq in E'. by injection E' as <-.
    + rewrite lookup_insert_ne in E' by done. apply (stored_ext w); [by rewrite Es|by apply Hm|by apply Hst].
  - intros s. rewrite Es. apply Hs.
  - intros d'. rewrite Es, (held_overwrite d' (live g) l (d, old)); [apply Hc|done..].
  - intros d'. rewrite (held_overwrite d' (live g) l (d, old)); [apply Hp|done..].
Qed.

(** ** Zeroed allocation *)

Lemma grant_overwrite d l data data' m g :
  length data' = length data ->
  grant d l data' m g =
  Ledger (<[l := (d, data')]> (live (grant d l data m g))) (accounts (grant d l data m g)).
Proof.
  intros Hl. unfold grant, set_account. cbn [live accounts]. rewrite insert_insert_eq.
  rewrite <- (held_overwrite d (<[l := (d, data)]> m) l (d, data) (d, data')).
  - by rewrite insert_insert_eq.
  - apply lookup_insert_eq.
  - unfold share. cbn. by rewrite Hl.
Qed.

(** The guard is exact: it refuses the products that do not fit in a word. *)
Lemma zero_guard count size :
  0 <= count -> 0 <= size -> (negb (size =? 0) && (SIZE_MAX c / size <? count)) = (modulus c <=? count * size).
Proof.
  intros Hc Hs. unfold SIZE_MAX. pose proof modulus_pos. destruct (Z.eqb_spec size 0) as [->|Hn]; cbn [negb andb].
  { symmetry. apply Z.leb_gt. lia. }
  apply eq_true_iff_eq. rewrite Z.ltb_lt, Z.leb_le. split; intros Hlt.
  - pose proof (Z.mul_succ_div_gt (modulus c - 1) size). nia.
  - apply Z.div_lt_upper_bound; lia.
Qed.

Lemma zero_allocate_refines g (w : world) d count size :
  represents g w -> op_ok g (ZeroAllocate d count size) = true ->
  exists r w', ros2_zephyr_zero_allocate c count size (state_for_domain d) w = Some (r, w') /\
    ((r = None /\ represents g w') \/
     (exists l, r = Some (user_ptr l) /\ live g !! l = None /\
        represents (grant d l (replicate (Z.to_nat (count * size)) 0) (live g) g) w')).
Proof.
  intros Hr Ho. cbn [op_ok] in Ho. rewrite !andb_true_iff, !Z.leb_le, Z.ltb_lt, orb_true_iff, Z.leb_le in Ho.
  destruct Ho as [[[Hc Hs] Hs'] Ho]. unfold ros2_zephyr_zero_allocate. rewrite zero_guard by done.
  destruct (Z.leb_spec (modulus c) (count * size)) as [Hbig|Hsmall]; [by eauto 10|].
  destruct Ho as [Ho|Hok]; [lia|]. rewrite wrap_small by nia. unfold mbind at 1, M_bind at 1.
  destruct (allocate_refines g w d (count * size) Hr Hok) as (r & w1 & -> & [[-> Hr1]|(l & data & -> & Hl & Hd & Hr1)]);
    [by eauto 10|].
  assert (length (replicate (Z.to_nat (count * size)) 0) = length data) as Hlen by (rewrite length_replicate; lia).
  destruct (write_refines _ w1 l 0 (replicate (Z.to_nat (count * size)) 0) d data
    (replicate (Z.to_nat (count * size)) 0) Hr1) as (w2 & Hst & Hr2); [apply lookup_insert_eq|done|..].
  { rewrite write_at_prefix by lia. by rewrite Hlen, drop_all, app_nil_r. }
  unfold memset0. unfold mbind at 1, M_bind at 1.
  assert (ptr_add (user_ptr l) 0 = user_ptr l) as Hp by (unfold ptr_add, user_ptr; cbn; f_equal; lia).
  rewrite Hp in Hst. rewrite Hst. do 2 eexists. split; [done|]. right. exists l. split; [done|]. split; [done|].
  by rewrite (grant_overwrite d l data).
Qed.

(** ** Release *)

(** A header names the heap of its block. *)
Lemma pool_named_for st size : pool_named c (pool_code (pool_for c st size)) = pool_for c st size.
Proof. unfold pool_named, pool_for. by destruct (esp_spiram c), (external_threshold st <=? size). Qed.

Lemma total_nonneg (w : world) l : heap_ok w -> total (delete l (heap_blocks (heap w))) <= total (heap_blocks (heap w)).
Proof.
  intros Hw. destruct (heap_blocks (heap w) !! l) as [b|] eqn:E.
  - rewrite (total_delete _ l b E). rewrite <- (ho_blocks w Hw), lookup_fmap in E.
    destruct (mem w !! l); [|done]. injection E as <-. cbn. lia.
  - by rewrite delete_id.
Qed.

Lemma pool_free_run p l data (w : world) :
  heap_ok w -> mem w !! l = Some (Block p data) ->
  exists h, pool_free p (Ptr l 0) w = Some (tt, with_mem (with_heap w h) (delete l (mem w))) /\
    heap_ok (with_mem (with_heap w h) (delete l (mem w))).
Proof.
  intros Hw E. unfold pool_free, block_of. cbn [base offset]. rewrite E. cbn [mbind option_bind owner].
  rewrite bool_decide_true by done. exists (heap_free p l (heap w)). split; [done|].
  pose proof (free_blocks p l _ (heap w) (heap_block w l _ Hw E)) as Hf.
  split; cbn [mem heap with_mem with_heap]; rewrite Hf; [|pose proof (total_nonneg w l Hw); pose proof (ho_space w Hw); lia].
  by rewrite fmap_delete, (ho_blocks w Hw).
Qed.

Lemma user_header l : ptr_add (user_ptr l) (- sizeof_header c) = Ptr l 0.
Proof. unfold ptr_add, user_ptr. cbn. f_equal. lia. Qed.

Lemma holds_spec g d l : holds g d l = true <-> exists old, live g !! l = Some (d, old).
Proof.
  unfold holds. destruct (live g !! l) as [[d' old]|]; [|by split; [|intros [? ?]]].
  rewrite bool_decide_eq_true. split; [intros ->; by eexists|intros [? [= -> _]]; done].
Qed.

(** The bytes held without a block. *)
Lemma held_without d l old g :
  live g !! l = Some (d, old) ->
  held d (live g) = Z.of_nat (length old) + held d (delete l (live g)) /\
  (forall d', d' <> d -> held d' (delete l (live g)) = held d' (live g)).
Proof.
  intros E. split.
  - rewrite (held_delete d _ l _ E). unfold share. by rewrite decide_True.
  - intros d' Hd. rewrite (held_delete d' _ l _ E). unfold share. rewrite decide_False by (cbn; congruence). lia.
Qed.

Lemma live_length g (w : world) l d old :
  represents g w -> live g !! l = Some (d, old) -> Z.of_nat (length old) < modulus c.
Proof.
  intros Hr E. destruct (held_without d l old g E) as [Hh _].
  pose proof (held_bound w _ d (rp_heap g w Hr) (rp_stored g w Hr)).
  pose proof (held_nonneg d (delete l (live g))). lia.
Qed.

Lemma deallocate_refines g (w : world) d l old :
  represents g w -> live g !! l = Some (d, old) ->
  exists w', ros2_zephyr_deallocate c (Some (user_ptr l)) (state_for_domain d) w = Some (tt, w') /\
    represents (release d l g) w'.
Proof.
  intros Hr El. destruct (stored_live g w l _ Hr El) as (pad & Hpad & E). cbn [fst snd] in E.
  pose proof (live_length g w l d old Hr El) as Hlen. unfold ros2_zephyr_deallocate.
  rewrite user_header. unfold mbind at 1, M_bind at 1, get_state. unfold mbind at 1, M_bind at 1.
  rewrite (load_size_run l _ _ pad old w E Hlen). unfold mbind at 1, M_bind at 1, set_metrics.
  set (w1 := World _ _ _ _ _). change (mem w) with (mem w1) in E.
  assert (heap_ok w1) as Hok1 by (by destruct (rp_heap g w Hr)).
  destruct (pool_free_run _ l _ w1 Hok1 E) as (h & Hf & Hok2).
  assert ((if esp_spiram c then code ← load_pool c (Ptr l 0); pool_free (pool_named c code) (Ptr l 0)
           else pool_free Internal (Ptr l 0)) w1 = Some (tt, with_mem (with_heap w1 h) (delete l (mem w1)))) as ->.
  { destruct (esp_spiram c) eqn:Hsp.
    - unfold mbind, M_bind. rewrite (load_pool_run l _ _ pad old w1 E). unfold pool_in. by rewrite pool_named_for.
    - rewrite <- Hf. f_equal. unfold pool_in, pool_for. by rewrite Hsp. }
  eexists. split; [done|]. destruct (held_without d l old g El) as [Hh Hother].
  unfold release. apply (represents_account g w); [done|done| |done|..].
  - intros l' x E'. apply lookup_delete_Some in E' as [Hne E'].
    apply (stored_ext w); [|..|by apply (stored_live g)]; cbn; [intros s; by case_decide; subst|].
    by rewrite lookup_delete_ne.
  - intros s. cbn [states with_mem with_heap w1]. case_decide as Es; [subst s|done]. f_equal.
    rewrite (rp_counters g w Hr). unfold account_metrics. cbn [calls frees live_bytes high_water_bytes].
    rewrite wrap_succ, (wrap_small (held d (live g) - Z.of_nat (length old))); [cbn; f_equal; lia|]. pose proof (held_nonneg d (delete l (live g))).
    pose proof (held_bound w _ d (rp_heap g w Hr) (rp_stored g w Hr)). lia.
  - cbn [peak]. pose proof (rp_peak g w Hr d). lia.
Qed.

(** ** Reallocation *)

Lemma pool_realloc_run p l data n (w : world) :
  heap_ok w -> mem w !! l = Some (Block p data) ->
  (exists h, pool_realloc p (Ptr l 0) n w = Some (None, with_heap w h) /\ heap_blocks h = heap_blocks (heap w)) \/
  (exists l' fill h, let w' := with_mem (with_heap w h) (<[l' := Block p (resized data fill)]> (delete l (mem w))) in
     pool_realloc p (Ptr l 0) n w = Some (Some (Ptr l' 0), w') /\
     (l' = l \/ mem w !! l' = None) /\ Z.of_nat (length fill) = n /\ heap_ok w').
Proof.
  intros Hw E. unfold pool_realloc, block_of. cbn [base offset]. rewrite E. cbn [mbind option_bind owner].
  rewrite bool_decide_true by done. cbn [andb Z.eqb bytes].
  destruct (heap_realloc p l n (heap w)) as [[[l' fill]|] h] eqn:Er.
  - right. apply (realloc_some p l _ n (heap w) l' fill h (heap_block w l _ Hw E)) in Er as (Hl & Hn & Hb & Hs).
    exists l', fill, h. split; [done|]. split; [destruct Hl as [->|Hl]; [by left|right; by apply heap_absent]|].
    split; [done|]. split; [|done]. cbn [mem heap with_mem with_heap].
    rewrite fmap_insert, fmap_delete, (ho_blocks w Hw), Hb. cbn [owner bytes]. by rewrite resized_length, Hn.
  - left. apply realloc_none in Er. by exists h.
Qed.

(** The block has moved (perhaps to where it was): the new one has room, and the
    common part of the old contents in the right place; the other blocks are as
    they were. *)
Record moved (g : ledger) (w w' : world) (l : loc) (old : list Z) (l' : loc) (p : pool) (size : Z) : Prop := {
  mv_heap : heap_ok w';
  mv_states : states w' = states w;
  mv_place : l' = l \/ live g !! l' = None;
  mv_block : exists fill, mem w' !! l' = Some (Block p fill) /\
    Z.of_nat (length fill) = sizeof_header c + size /\
    take (min (length old) (Z.to_nat size)) (drop (Z.to_nat (sizeof_header c)) fill) =
    take (min (length old) (Z.to_nat size)) old;
  mv_others l2 x : l2 <> l -> live g !! l2 = Some x -> mem w' !! l2 = mem w !! l2
}.

(** The last steps of a reallocation: the counters and the header. *)
Definition conclude (s : slot) (old_size size : Z) (p : pool) (l' : loc) : M (H:=H) (option ptr) :=
  st ← get_state s;
  let m := counters st in
  set_metrics s (metrics_raise
    (Metrics (wrap c (calls m + 1)) (frees m) (wrap c (wrap c (live_bytes m - old_size) + size)) (high_water_bytes m))) ;;
  store_size c (Ptr l' 0) size ;;
  store_pool c (Ptr l' 0) p ;;
  mret (Some (ptr_add (Ptr l' 0) (sizeof_header c))).

Lemma conclude_refines g (w w' : world) d l old l' size :
  represents g w -> live g !! l = Some (d, old) -> 0 <= size ->
  moved g w w' l old l' (pool_for c (states w (state_for_domain d)) size) size ->
  exists data w2, conclude (state_for_domain d) (Z.of_nat (length old)) size
      (pool_for c (states w (state_for_domain d)) size) l' w' = Some (Some (user_ptr l'), w2) /\
    Z.of_nat (length data) = size /\
    take (min (length old) (length data)) data = take (min (length old) (length data)) old /\
    represents (grant d l' data (delete l (live g)) g) w2.
Proof.
  intros Hr El Hs0 [Hok Hst Hpl (fill & Eb & Hn & Hkeep) Hoth]. set (p := pool_for c _ size) in *.
  destruct (held_without d l old g El) as [Hh Hother].
  unfold conclude. unfold mbind at 1, M_bind at 1, get_state. unfold mbind at 1, M_bind at 1, set_metrics.
  set (w1 := World _ _ _ _ _). assert (heap_ok w1) as Hok1 by (by destruct Hok).
  destruct (place_run (mret (Some (ptr_add (Ptr l' 0) (sizeof_header c)))) l' p p size w1 fill Hok1 Eb Hs0 Hn)
    as (pad & data & Hpad & Hdata & Hd & -> & Hok2).
  exists data. eexists. split; [done|]. split; [done|].
  assert (Z.to_nat size = length data) as Hsz by lia. rewrite Hsz, <- Hd in Hkeep. split; [done|].
  assert (delete l (live g) !! l' = None) as Hfree.
  { destruct Hpl as [->|Hpl]; [apply lookup_delete_eq|]. by apply lookup_delete_None; right. }
  apply (represents_grant g w); [done|done|done|..|done|].
  - intros l2 x E. assert (l2 <> l') by (intros ->; congruence). apply lookup_delete_Some in E as [Hne E].
    apply (stored_ext w); [intros s; cbn; rewrite Hst; by case_decide; subst| |by apply (stored_live g)].
    cbn. rewrite lookup_insert_ne by done. by apply (Hoth l2 x).
  - exists pad. split; [done|]. unfold pool_in. cbn. rewrite decide_True, lookup_insert_eq, Hst by done.
    unfold pool_for. cbn [external_threshold]. by rewrite Hdata.
  - intros s. cbn [states with_mem w1]. rewrite Hst. case_decide as Es; [subst s|done].
    rewrite (rp_counters g w Hr). cbn [live_bytes account_metrics calls frees high_water_bytes]. do 3 f_equal.
    rewrite (wrap_small (held d (live g) - Z.of_nat (length old))); [rewrite Hdata; f_equal; lia|]. pose proof (held_nonneg d (delete l (live g))).
    pose proof (held_bound w _ d (rp_heap g w Hr) (rp_stored g w Hr)). lia.
Qed.

(** Resizing a block as a whole keeps the common part of its contents in place. *)
Lemma resized_body p pad old fill size :
  Z.of_nat (length pad) = word_bytes c - 4 -> 0 <= size -> Z.of_nat (length fill) = sizeof_header c + size ->
  take (min (length old) (Z.to_nat size)) (drop (Z.to_nat (sizeof_header c)) (resized (layout p pad old) fill)) =
  take (min (length old) (Z.to_nat size)) old.
Proof.
  intros Hpad Hs0 Hn. pose proof word_bytes_pos.
  pose proof (layout_header_length p pad (Z.of_nat (length old)) Hpad) as Hh.
  rewrite layout_app, resized_app by lia. rewrite drop_app_ge by lia.
  replace (Z.to_nat (sizeof_header c) - _)%nat with 0%nat by lia. rewrite drop_0.
  apply resized_prefix; [lia|]. rewrite length_drop. lia.
Qed.

(** The same heap resizes the block. *)
Lemma resize_moves g (w : world) d l old p pad size :
  represents g w -> live g !! l = Some (d, old) -> 0 <= size ->
  Z.of_nat (length pad) = word_bytes c - 4 -> mem w !! l = Some (Block p (layout p pad old)) ->
  (exists h, pool_realloc p (Ptr l 0) (sizeof_header c + size) w = Some (None, with_heap w h) /\
     heap_blocks h = heap_blocks (heap w)) \/
  (exists l' w', pool_realloc p (Ptr l 0) (sizeof_header c + size) w = Some (Some (Ptr l' 0), w') /\
     moved g w w' l old l' p size).
Proof.
  intros Hr El Hs0 Hpad E. pose proof word_bytes_pos.
  destruct (pool_realloc_run p l _ (sizeof_header c + size) w (rp_heap g w Hr) E)
    as [?|(l' & fill & h & Hrun & Hl & Hn & Hok)]; [by left|right].
  exists l'. eexists. split; [exact Hrun|]. split; [done|done|..].
  - destruct Hl as [->|Hl]; [by left|right; by apply (live_absent g w)].
  - eexists. split; [apply lookup_insert_eq|]. rewrite resized_length. split; [done|].
    by apply resized_body.
  - intros l2 x Hne E2. cbn. assert (l2 <> l') as Hne'.
    { intros ->. destruct Hl as [->|Hl]; [done|]. by rewrite (live_absent g w l' Hr Hl) in E2. }
    by rewrite lookup_insert_ne, lookup_delete_ne.
Qed.

(** Copying the common part behind the header of a new block. *)
Lemma copy_bytes (old fill : list Z) size :
  0 <= size -> Z.of_nat (length fill) = sizeof_header c + size ->
  let k := min (length old) (Z.to_nat size) in
  exists fill', write_at (sizeof_header c) (take k old) fill = Some fill' /\ length fill' = length fill /\
    take k (drop (Z.to_nat (sizeof_header c)) fill') = take k old.
Proof.
  intros Hs Hn k. pose proof word_bytes_pos. set (n := Z.to_nat (sizeof_header c)).
  assert (0 <= sizeof_header c) by (unfold sizeof_header; lia).
  assert (length (take n fill) = n) as Hh by (rewrite length_take; lia).
  exists (take n fill ++ take k old ++ drop k (drop n fill)). split; [|split].
  - rewrite <- (take_drop n fill) at 1. rewrite <- (Z.add_0_r (sizeof_header c)), write_at_app by lia.
    rewrite write_at_prefix by (rewrite length_take, length_drop; lia). cbn. do 3 f_equal.
    rewrite length_take. f_equal. lia.
  - rewrite !length_app, length_take, !length_drop, length_take. lia.
  - rewrite drop_app_ge by lia. replace (n - length (take n fill))%nat with 0%nat by lia.
    rewrite drop_0, take_app_le by (rewrite length_take; lia). rewrite take_take. f_equal. lia.
Qed.

Lemma memcpy_run (w : world) l q pad old l' p fill size :
  mem w !! l = Some (Block q (layout q pad old)) -> Z.of_nat (length pad) = word_bytes c - 4 ->
  mem w !! l' = Some (Block p fill) -> 0 <= size -> Z.of_nat (length fill) = sizeof_header c + size ->
  exists fill', length fill' = length fill /\
    take (min (length old) (Z.to_nat size)) (drop (Z.to_nat (sizeof_header c)) fill') =
    take (min (length old) (Z.to_nat size)) old /\
    memcpy (ptr_add (Ptr l' 0) (sizeof_header c)) (user_ptr l) (Z.min (Z.of_nat (length old)) size) w =
    Some (tt, with_mem w (<[l' := Block p fill']> (mem w))).
Proof.
  intros E Hpad E' Hs Hn. destruct (copy_bytes old fill size Hs Hn) as (fill' & Hw & Hlen & Hkeep).
  exists fill'. split; [done|]. split; [done|]. set (k := min _ _) in *.
  pose proof (layout_header_length q pad (Z.of_nat (length old)) Hpad) as Hh.
  assert (load (user_ptr l) (Z.of_nat k) (mem w) = Some (take k old)) as Hload.
  { erewrite load_lookup by exact E. cbn [bytes offset user_ptr].
    rewrite layout_app. rewrite <- (Z.add_0_r (sizeof_header c)), read_at_app by lia.
    rewrite <- (take_drop k old) at 1. apply read_at_prefix. rewrite length_take. lia. }
  assert (Z.min (Z.of_nat (length old)) size = Z.of_nat k) as -> by lia.
  unfold memcpy, with_memory. rewrite Hload. cbn [mbind option_bind].
  erewrite store_lookup by exact E'. cbn [ptr_add offset base bytes owner]. rewrite Z.add_0_l, Hw. done.
Qed.

(** Another heap gives a block: the common part is copied and the old block freed. *)
Lemma copy_moves g (w w1 : world) d l old p q pad fill l' h size :
  represents g w -> live g !! l = Some (d, old) -> 0 <= size ->
  Z.of_nat (length pad) = word_bytes c - 4 -> mem w !! l = Some (Block q (layout q pad old)) ->
  w1 = with_mem (with_heap w h) (<[l' := Block p fill]> (mem w)) -> heap_ok w1 ->
  mem w !! l' = None -> Z.of_nat (length fill) = sizeof_header c + size ->
  exists w', (memcpy (ptr_add (Ptr l' 0) (sizeof_header c)) (user_ptr l) (Z.min (Z.of_nat (length old)) size) ;;
              pool_free q (Ptr l 0)) w1 = Some (tt, w') /\ moved g w w' l old l' p size.
Proof.
  intros Hr El Hs0 Hpad E Hw1 Hok Hl' Hn. assert (l <> l') as Hne by (intros ->; congruence).
  assert (mem w1 !! l = Some (Block q (layout q pad old))) as E1 by (rewrite Hw1; cbn; by rewrite lookup_insert_ne).
  assert (mem w1 !! l' = Some (Block p fill)) as E1' by (rewrite Hw1; apply lookup_insert_eq).
  destruct (memcpy_run w1 l q pad old l' p fill size E1 Hpad E1' Hs0 Hn) as (fill' & Hlen & Hkeep & Hcp).
  set (w2 := with_mem w1 _) in Hcp. assert (heap_ok w2) as Hok2 by (by apply (heap_ok_store w1 l' p fill)).
  destruct (pool_free_run q l (layout q pad old) w2 Hok2) as (h' & Hf & Hok3).
  { cbn. by rewrite lookup_insert_ne. }
  eexists. split; [unfold mbind, M_bind; rewrite Hcp; exact Hf|].
  split; [done|unfold w2; by rewrite Hw1|right; by apply (live_absent g w)|..].
  - exists fill'. split; [cbn; rewrite lookup_delete_ne by done; apply lookup_insert_eq|]. by rewrite Hlen.
  - intros l2 x Hl2 E2. cbn. rewrite lookup_delete_ne by done.
    assert (l2 <> l') by (intros ->; by rewrite (live_absent g w l' Hr Hl') in E2).
    rewrite lookup_insert_ne by done. rewrite Hw1. cbn. by rewrite lookup_insert_ne.
Qed.

Lemma pool_code_inj p q : (pool_code p =? pool_code q) = bool_decide (p = q).
Proof. by destruct p, q. Qed.

Lemma reallocate_refines g (w : world) d l old size :
  represents g w -> live g !! l = Some (d, old) -> size_ok size = true ->
  exists r w', ros2_zephyr_reallocate c (Some (user_ptr l)) size (state_for_domain d) w = Some (r, w') /\
    ((r = None /\ represents g w') \/
     (exists l' data, r = Some (user_ptr l') /\ (l' = l \/ live g !! l' = None) /\ Z.of_nat (length data) = size /\
        take (min (length old) (length data)) data = take (min (length old) (length data)) old /\
        represents (grant d l' data (delete l (live g)) g) w')).
Proof.
  intros Hr El Hs. apply size_ok_spec in Hs as [Hs0 Hs1]. unfold ros2_zephyr_reallocate.
  unfold mbind at 1, M_bind at 1. destruct (inject_run (state_for_domain d) w) as (b & n & ->).
  set (w1 := with_attempts w n). assert (represents g w1) as Hr1 by (by apply (represents_ext g w)).
  clearbody w1. clear Hr w n. destruct b.
  { destruct (refused_run g w1 (state_for_domain d) size Hr1) as (w' & -> & ?). eauto 10. }
  rewrite user_header. destruct (stored_live g w1 l _ Hr1 El) as (pad & Hpad & E). cbn [fst snd] in E.
  unfold mbind at 1, M_bind at 1.
  rewrite (load_size_run l _ _ pad old w1 E) by (by apply (live_length g w1 l d)).
  unfold mbind at 1, M_bind at 1. rewrite (load_pool_run l _ _ pad old w1 E).
  unfold mbind at 1, M_bind at 1, get_state.
  set (p := pool_for c (states w1 (state_for_domain d)) size). set (q := pool_in w1 d old) in *.
  assert (pool_named c (pool_code q) = q) as -> by apply pool_named_for.
  assert (0 <= sizeof_header c) by (unfold sizeof_header; pose proof word_bytes_pos; lia).
  rewrite wrap_small by lia. unfold reallocate_block. rewrite pool_code_inj. unfold mbind at 1, M_bind at 1.
  case_bool_decide as Hpq; [rewrite Hpq in E|].
  - destruct (resize_moves g w1 d l old p pad size Hr1 El Hs0 Hpad E) as [(h & -> & Hh)|(l' & w' & -> & Hmv)].
    { destruct (refused_heap g w1 h (state_for_domain d) size Hr1 Hh) as (w' & -> & ?). eauto 10. }
    destruct (conclude_refines g w1 w' d l old l' size Hr1 El Hs0 Hmv) as (data & w2 & Hc & ?).
    do 2 eexists. split; [exact Hc|]. right. destruct Hmv. exists l', data. tauto.
  - destruct (pool_alloc_run p (sizeof_header c + size) w1 (rp_heap g w1 Hr1))
      as [(h & -> & Hh)|(l' & fill & h & -> & Hl & Hn & Hok)].
    { destruct (refused_heap g w1 h (state_for_domain d) size Hr1 Hh) as (w' & -> & ?). eauto 10. }
    destruct (copy_moves g w1 _ d l old p q pad fill l' h size Hr1 El Hs0 Hpad E eq_refl Hok Hl Hn)
      as (w' & Hcp & Hmv). unfold mbind at 1, M_bind at 1. rewrite Hcp.
    destruct (conclude_refines g w1 w' d l old l' size Hr1 El Hs0 Hmv) as (data & w2 & Hc & ?).
    do 2 eexists. split; [exact Hc|]. right. destruct Hmv. exists l', data. tauto.
Qed.

(** ** Every operation *)

Lemma run_op_refines g (w : world) o :
  represents g w -> op_ok g o = true ->
  exists r w' g', run_op o w = Some (user_ptr <$> r, w') /\ answers o r g g' /\ represents g' w'.
Proof.
  intros Hr Ho. destruct o as [d size|d count size|d l size|d l|l off bs].
  - destruct (allocate_refines g w d size Hr Ho) as (r & w' & Hrun & [[-> ?]|(l & data & -> & Hl & Hd & ?)]).
    + exists None, w', g. split; [by destruct d|]. split; [by constructor|done].
    + exists (Some l), w'. eexists. split; [by destruct d|]. split; [by constructor|done].
  - destruct (zero_allocate_refines g w d count size Hr Ho) as (r & w' & Hrun & [[-> ?]|(l & -> & Hl & ?)]).
    + exists None, w', g. split; [by destruct d|]. split; [by constructor|done].
    + exists (Some l), w'. eexists. split; [by destruct d|]. split; [constructor; [done|]|done].
      cbn in Ho. rewrite !andb_true_iff, !Z.leb_le in Ho. nia.
  - cbn [op_ok] in Ho. apply andb_true_iff in Ho as [Hs Hl]. destruct l as [l|].
    + apply holds_spec in Hl as [old El].
      destruct (reallocate_refines g w d l old size Hr El Hs) as (r & w' & Hrun & [[-> ?]|(l' & data & -> & Hp & Hd & Hk & ?)]).
      * exists None, w', g. split; [by destruct d|]. split; [by constructor|done].
      * exists (Some l'), w'. eexists. split; [by destruct d|]. split; [by econstructor|done].
    + destruct (allocate_refines g w d size Hr Hs) as (r & w' & Hrun & [[-> ?]|(l & data & -> & Hl' & Hd & ?)]).
      * exists None, w', g. split; [by destruct d|]. split; [by constructor|done].
      * exists (Some l), w'. eexists. split; [by destruct d|]. split; [by constructor|done].
  - cbn [op_ok] in Ho. destruct l as [l|].
    + apply holds_spec in Ho as [old El]. destruct (deallocate_refines g w d l old Hr El) as (w' & Hrun & ?).
      exists None, w', (release d l g). split; [|split; [by econstructor|done]].
      assert (op_deallocate (ops_of c d) (Some (user_ptr l)) w = Some (tt, w')) as Hd by (by destruct d).
      unfold run_op, mbind, M_bind. cbn [fmap option_fmap option_map]. by rewrite Hd.
    + exists None, w, g. split; [by destruct d|]. split; [apply ans_release_null|done].
  - cbn [op_ok] in Ho. destruct (live g !! l) as [[d old]|] eqn:El; [|done].
    destruct (write_at off bs old) as [data|] eqn:Hw; [|unfold write_at in Hw; by rewrite Ho in Hw].
    assert (0 <= off) as Hoff by (unfold in_bounds in Ho; rewrite !andb_true_iff, !Z.leb_le in Ho; lia).
    destruct (write_refines g w l off bs d old data Hr El Hoff Hw) as (w' & Hrun & ?).
    exists None, w'. eexists. split; [unfold run_op, mbind, M_bind; by rewrite Hrun|].
    split; [by econstructor|done].
Qed.

(** ** A session *)

(** What can be seen of the ledger: the counters, and the contents of the blocks. *)
Definition observed (g : ledger) (w : world) : Prop :=
  (forall d, ros2_zephyr_allocation_metrics d w = Some (account_metrics (accounts g d) (held d (live g)), w)) /\
  (forall l d data, live g !! l = Some (d, data) ->
     load (user_ptr l) (Z.of_nat (length data)) (mem w) = Some data).

Lemma represents_observed g (w : world) : represents g w -> observed g w.
Proof.
  intros Hr. split.
  - intros d. unfold ros2_zephyr_allocation_metrics, mbind, M_bind, mret, M_ret, get_state.
    by rewrite (rp_counters g w Hr).
  - intros l d data El. destruct (stored_live g w l _ Hr El) as (pad & Hpad & E).
    erewrite load_lookup by exact E. cbn [bytes offset user_ptr fst snd].
    rewrite layout_app. rewrite <- (Z.add_0_r (sizeof_header c)), read_at_app; [|lia|by rewrite layout_header_length].
    rewrite <- (app_nil_r data) at 2. by apply read_at_prefix.
Qed.

(** Other users of the heaps may take and give back blocks of their own. *)
Record elsewhere (g : ledger) (w w' : world) : Prop := {
  el_heap : heap_ok w';
  el_states s : states w' s = states w s;
  el_blocks l : is_Some (live g !! l) -> mem w' !! l = mem w !! l
}.

Lemma represents_elsewhere g (w w' : world) : represents g w -> elsewhere g w w' -> represents g w'.
Proof.
  intros [_ Hst Hs Hc Hp] [Hok Es Eb]. split; [done|..|done].
  - intros l x E. apply (stored_ext w); [intros; by rewrite Es|by apply Eb|by apply Hst].
  - intros s. rewrite Es. apply Hs.
  - intros d. rewrite Es. apply Hc.
Qed.

(** For [n] steps, whichever permitted operations the clients choose from what
    they have seen, and whatever other users of the heaps do in between, every
    operation returns, its answer is one of the ledger's, and the ledger is what
    can be seen. *)
Fixpoint session (n : nat) (g : ledger) (w : world) : Prop :=
  observed g w /\
  match n with
  | O => True
  | S n =>
      (forall o, op_ok g o = true -> exists r w' g',
         run_op o w = Some (user_ptr <$> r, w') /\ answers o r g g' /\ session n g' w') /\
      (forall w', elsewhere g w w' -> session n g w')
  end.

Lemma represents_session n g (w : world) : represents g w -> session n g w.
Proof.
  revert g w. induction n as [|n IH]; intros g w Hr; (split; [by apply represents_observed|]); [done|]. split.
  - intros o Ho. destruct (run_op_refines g w o Hr Ho) as (r & w' & g' & Hrun & Ha & Hr'). eauto 10.
  - intros w' He. apply IH. by apply (represents_elsewhere g w).
Qed.

(** The firmware at start: nothing is allocated, the counters are zero. *)
Record boot (w : world) : Prop := {
  bt_heap : heap_ok w;
  bt_states s : states w s = allocation_states s
}.

Lemma boot_represents (w : world) : boot w -> represents empty_ledger w.
Proof.
  intros [Hh Hs]. pose proof modulus_pos. split; [done|apply map_Forall_empty|..].
  - intros s. by rewrite Hs.
  - intros d. rewrite Hs. unfold account_metrics. cbn [accounts empty_ledger allocations releases peak].
    rewrite wrap_small by lia. by destruct d.
  - intros d. done.
Qed.

(** ** Refused requests *)

(** The next ROS request is the one the test build is to refuse. *)
Definition injected (s : slot) (w : world) : bool :=
  (0 <? failure_at c) && bool_decide (domain (states w s) = ALLOCATION_ROS) &&
  (wrap c (ros_allocation_attempts w + 1) =? failure_at c).

Lemma inject_spec s (w : world) :
  exists n, inject_allocation_failure c s w = Some (injected s w, with_attempts w n).
Proof.
  unfold inject_allocation_failure, injected. destruct (_ && bool_decide _); [by eexists|].
  exists (ros_allocation_attempts w). by destruct w.
Qed.

(** The heap's answer to a request. *)
Definition heap_answer (size : Z) (s : slot) (w : world) : option (loc * list Z) :=
  fst (heap_alloc (pool_for c (states w s) size) (wrap c (sizeof_header c + size)) (heap w)).

Lemma allocate_refused size s (w : world) :
  injected s w = true \/ heap_answer size s w = None ->
  exists w' t, ros2_zephyr_allocate c size s w = Some (None, w') /\ mem w' = mem w /\ states w' = states w /\
    console w' = console w ++ failure_line (domain (states w s)) size
      (counters (states w (state_for_domain (domain (states w s))))) :: t.
Proof.
  intros Hr. unfold ros2_zephyr_allocate. unfold mbind at 1, M_bind at 1.
  destruct (inject_spec s w) as [n ->]. destruct (injected s w).
  { unfold mbind, M_bind. destruct (report_run s size (with_attempts w n)) as [t ->]. by do 2 eexists. }
  destruct Hr as [?|Hh]; [done|]. unfold heap_answer in Hh.
  unfold mbind at 1, M_bind at 1, get_state. unfold mbind at 1, M_bind at 1, pool_alloc.
  cbn [states heap with_attempts mem]. destruct (heap_alloc _ _ _) as [[?|] h]; [done|]. cbn in Hh.
  unfold mbind, M_bind. match goal with |- context [report_allocation_failure c s size ?w'] =>
    destruct (report_run s size w') as [t ->] end. by do 2 eexists.
Qed.

(** ** Requests the header does not fit in front of *)

(** A place and fewer bytes than a header: no address of the allocation may be
    accessed. *)
Lemma overflowing_allocation size s (w : world) l fill :
  modulus c - sizeof_header c <= size < modulus c -> injected s w = false ->
  heap_answer size s w = Some (l, fill) -> Z.of_nat (length fill) = sizeof_header c + size - modulus c ->
  match ros2_zephyr_allocate c size s w with
  | None => True
  | Some (Some p, w') => lp64 c = true /\ load p 1 (mem w') = None
  | Some (None, _) => False
  end.
Proof.
  intros Hsize Hi Ha Hlen. pose proof word_bytes_pos. unfold heap_answer in Ha.
  unfold ros2_zephyr_allocate. unfold mbind at 1, M_bind at 1.
  destruct (inject_spec s w) as [n ->]. rewrite Hi.
  unfold mbind at 1, M_bind at 1, get_state. unfold mbind at 1, M_bind at 1, pool_alloc.
  cbn [states heap with_attempts mem]. destruct (heap_alloc _ _ _) as [[[l1 fill1]|] h]; [|done].
  cbn in Ha. injection Ha as -> ->. cbn [fst]. set (w1 := World _ _ _ _ _).
  set (p := pool_for c _ size) in *.
  assert (mem w1 !! l = Some (Block p fill)) as E by apply lookup_insert_eq. clearbody w1.
  unfold sizeof_header in *. unfold mbind at 1, M_bind at 1, store_size.
  unfold store_bytes at 1, with_memory at 1. erewrite store_lookup by exact E. cbn [offset bytes base owner].
  destruct (write_at 0 _ fill) as [fill'|] eqn:E1; [|done]. cbn [fmap option_fmap option_map mbind option_bind].
  apply write_at_inv in E1 as [Hf _].
  unfold mbind at 1, M_bind at 1, store_pool, store_bytes, with_memory. cbn [mem].
  erewrite store_lookup by apply lookup_insert_eq. cbn [offset bytes base owner ptr_add].
  destruct (write_at (0 + word_bytes c) _ fill') as [fill2|] eqn:E2; [|done].
  cbn [fmap option_fmap option_map mbind option_bind].
  apply write_at_inv in E2 as (Hf2 & _ & Hroom). rewrite le_bytes_length in Hroom.
  cbn. split; [unfold word_bytes in *; destruct (lp64 c); [done|lia]|].
  erewrite load_lookup by apply lookup_insert_eq. cbn [offset bytes ptr_add].
  unfold read_at, in_bounds. replace (0 + 2 * word_bytes c + 1 <=? Z.of_nat (length fill2)) with false; [by rewrite andb_false_r|].
  symmetry. apply Z.leb_gt. lia.
Qed.

End refinement.
End AllocatorSpec.

