(* ===== verification/AllocatorThreads.v ===== *)
(** * The allocator under several threads

    Threads run the allocator's operations at the same time.  An operation is cut
    where it touches what is shared (the heaps, the counters); in between other
    threads run.  Every block is a cell: held by a client, or in the hands of a
    thread inside an operation.  No interleaving has undefined behaviour, a held
    block is nobody's else, and when no thread is inside an operation the counters
    are exactly those of the held blocks. *)

From Stdlib Require Import String.
From S2P Require Import Prelude PyStr Allocator AllocatorSpec.

#[local] Open Scope Z_scope.

Module AllocatorThreads.
Import Heap Allocator AllocatorSpec.

(** ** Cells *)

(** A block that is held; one a thread copies from, or has still to free; a new
    one whose header is to be written; and one that was resized, of which the old
    contents are still the ones counted. *)
Inductive cell :=
  | Held (d : allocation_domain) (data : list Z)
  | Source (t : nat) (d : allocation_domain) (data : list Z)
  | Leaving (t : nat) (d : allocation_domain) (data : list Z)
  | Fresh (t : nat) (p : pool) (fill : list Z)
  | Moved (t : nat) (d : allocation_domain) (p : pool) (old fill : list Z).

Abbreviation cells := (gmap loc cell).

(** The thread a cell is in the hands of. *)
Definition worker (x : cell) : option nat :=
  match x with Held _ _ => None | Source t _ _ | Leaving t _ _ | Fresh t _ _ | Moved t _ _ _ _ => Some t end.

(** The bytes that are counted for a domain. *)
Definition weight (d : allocation_domain) (x : cell) : Z :=
  match x with
  | Held d' data | Source _ d' data => share d (d', data)
  | Moved _ d' _ old _ => share d (d', old)
  | Leaving _ _ _ | Fresh _ _ _ => 0
  end.

Definition weighed (d : allocation_domain) (m : cells) : Z := sum_of (weight d) m.

Abbreviation accounting := (allocation_domain -> account).

Definition set_acct (a : accounting) (d : allocation_domain) (x : account) : accounting :=
  fun d' => if decide (d' = d) then x else a d'.

Section threads.
Context (c : config) {H : Type} `{!HeapOps H}.
Abbreviation world := (@world H).

(** One more allocation; the live bytes, as the counter has them, may be a new peak. *)
Definition one_more (a : accounting) (d : allocation_domain) (m : cells) : accounting :=
  set_acct a d (Account (allocations (a d) + 1) (releases (a d)) (Z.max (peak (a d)) (wrap c (weighed d m)))).

Definition one_less (a : accounting) (d : allocation_domain) : accounting :=
  set_acct a d (Account (allocations (a d)) (releases (a d) + 1) (peak (a d))).

(** ** What the steps do to the cells *)

Definition pool_of (d : allocation_domain) (size : Z) : pool := pool_for c (allocation_states (state_for_domain d)) size.

(** The requests for a new block: the domain, the size, and whether zeroed. *)
Definition wants (x : call) : option (slot * Z * bool) :=
  match x with
  | CallAllocate s size | CallReallocate s None size => Some (s, size, false)
  | CallZeroAllocate s count size => Some (s, count * size, true)
  | _ => None
  end.

(** A call: it asks for a block, takes one to resize (out of the client's hands),
    gives one back, or ends at once. *)
Inductive starts (t : nat) : call -> phase * option ptr -> cells -> accounting -> cells -> accounting -> Prop :=
  | st_ask x d size zero ph m a :
      wants x = Some (state_for_domain d, size, zero) ->
      ph = Asking (state_for_domain d) size zero \/ ph = Reporting (state_for_domain d) size None ->
      starts t x (ph, None) m a m a
  | st_overflow s count size m a :
      modulus c <= count * size -> starts t (CallZeroAllocate s count size) (Outside, None) m a m a
  | st_resize d l size old ph m a :
      m !! l = Some (Held d old) ->
      ph = Resizing (state_for_domain d) size (user_ptr c l) \/
      ph = Reporting (state_for_domain d) size (Some (user_ptr c l)) ->
      starts t (CallReallocate (state_for_domain d) (Some (user_ptr c l)) size) (ph, None) m a
             (<[l := Source t d old]> m) a
  | st_release d l data m a :
      m !! l = Some (Held d data) ->
      starts t (CallDeallocate (state_for_domain d) (Some (user_ptr c l))) (Releasing (Ptr l 0), None) m a
             (<[l := Leaving t d data]> m) (one_less a d)
  | st_null s m a : starts t (CallDeallocate s None) (Outside, None) m a m a.

Inductive continues (t : nat) : phase -> phase * option ptr -> cells -> accounting -> cells -> accounting -> Prop :=
  | ct_outside m a : continues t Outside (Outside, None) m a m a
  | ct_given d size zero l fill m a :
      m !! l = None ->
      continues t (Asking (state_for_domain d) size zero)
                (Placing (state_for_domain d) size zero (pool_of d size) (Ptr l 0), None) m a
                (<[l := Fresh t (pool_of d size) fill]> m) a
  | ct_denied s size zero m a : continues t (Asking s size zero) (Reporting s size None, None) m a m a
  | ct_resized d l size l' old fill m a :
      m !! l = Some (Source t d old) -> (l' = l \/ m !! l' = None) ->
      continues t (Resizing (state_for_domain d) size (user_ptr c l))
                (Counting (state_for_domain d) size (Z.of_nat (length old)) (pool_of d size) (Ptr l' 0), None) m a
                (<[l' := Moved t d (pool_of d size) old fill]> (delete l m)) a
  | ct_elsewhere d l size l' old fill old_pool m a :
      m !! l = Some (Source t d old) -> m !! l' = None ->
      continues t (Resizing (state_for_domain d) size (user_ptr c l))
                (Copying (state_for_domain d) size (Z.of_nat (length old)) old_pool (pool_of d size) (user_ptr c l) (Ptr l' 0), None)
                m a (<[l' := Fresh t (pool_of d size) fill]> m) a
  | ct_not_resized s size q m a : continues t (Resizing s size q) (Reporting s size (Some q), None) m a m a
  | ct_place d size zero p l fill data m a :
      m !! l = Some (Fresh t p fill) -> Z.of_nat (length data) = size ->
      (zero = true -> data = replicate (Z.to_nat size) 0) ->
      continues t (Placing (state_for_domain d) size zero p (Ptr l 0)) (Outside, Some (user_ptr c l)) m a
                (<[l := Held d data]> m) (one_more a d (<[l := Held d data]> m))
  | ct_copy d size old_pool p l l' old fill fill' m a :
      m !! l = Some (Source t d old) -> m !! l' = Some (Fresh t p fill) ->
      continues t (Copying (state_for_domain d) size (Z.of_nat (length old)) old_pool p (user_ptr c l) (Ptr l' 0))
                (Counting (state_for_domain d) size (Z.of_nat (length old)) p (Ptr l' 0), None) m a
                (<[l' := Moved t d p old fill']> (delete l m)) a
  | ct_count d size p l' old fill data m a :
      m !! l' = Some (Moved t d p old fill) -> Z.of_nat (length data) = size ->
      take (min (length old) (length data)) data = take (min (length old) (length data)) old ->
      continues t (Counting (state_for_domain d) size (Z.of_nat (length old)) p (Ptr l' 0)) (Outside, Some (user_ptr c l')) m a
                (<[l' := Held d data]> m) (one_more a d (<[l' := Held d data]> m))
  | ct_free l d data m a :
      m !! l = Some (Leaving t d data) -> continues t (Releasing (Ptr l 0)) (Outside, None) m a (delete l m) a
  | ct_report s size m a : continues t (Reporting s size None) (Outside, None) m a m a
  | ct_keep s size d l old m a :
      m !! l = Some (Source t d old) ->
      continues t (Reporting s size (Some (user_ptr c l))) (Outside, None) m a (<[l := Held d old]> m) a.

(** How many steps an operation still takes, at most. *)
Definition phase_rank (ph : phase) : nat :=
  match ph with
  | Outside => 0
  | Placing _ _ _ _ _ | Counting _ _ _ _ _ | Releasing _ | Reporting _ _ _ => 1
  | Asking _ _ _ | Copying _ _ _ _ _ _ _ => 2
  | Resizing _ _ _ => 3
  end.

Lemma continues_rank t ph y m a m' a' :
  continues t ph y m a m' a' -> (phase_rank y.1 <= Nat.pred (phase_rank ph))%nat.
Proof. destruct 1; cbn; lia. Qed.

(** ** The invariant *)

Definition in_memory (w : world) (l : loc) (x : cell) : Prop :=
  match x with
  | Held d data | Source _ d data | Leaving _ d data => stored c w l (d, data)
  | Fresh _ p fill | Moved _ _ p _ fill => mem w !! l = Some (Block p fill)
  end.

Record shared_ok (m : cells) (a : accounting) (w : world) : Prop := {
  so_heap : heap_ok c w;
  so_cells : map_Forall (in_memory w) m;
  so_state s : domain (states w s) = domain (allocation_states s) /\
               external_threshold (states w s) = external_threshold (allocation_states s);
  so_counters d : counters (states w (state_for_domain d)) = account_metrics c (a d) (wrap c (weighed d m))
}.

(** Room for the header and for what was asked. *)
Definition roomy (fill : list Z) (size : Z) : Prop := Z.of_nat (length fill) = sizeof_header c + size.

(** A thread inside an operation has its cells. *)
Definition phase_ok (m : cells) (t : nat) (ph : phase) : Prop :=
  match ph with
  | Outside | Reporting _ _ None => True
  | Asking s size zero => exists d, s = state_for_domain d /\ size_ok c size = true
  | Resizing s size pointer => exists d l old,
      s = state_for_domain d /\ pointer = user_ptr c l /\ size_ok c size = true /\ m !! l = Some (Source t d old)
  | Placing s size zero p header => exists d l fill,
      s = state_for_domain d /\ header = Ptr l 0 /\ p = pool_of d size /\ 0 <= size /\
      m !! l = Some (Fresh t p fill) /\ roomy fill size
  | Copying s size old_size old_pool p pointer new_header => exists d l l' old fill,
      s = state_for_domain d /\ pointer = user_ptr c l /\ new_header = Ptr l' 0 /\ p = pool_of d size /\ 0 <= size /\
      old_size = Z.of_nat (length old) /\ old_pool = pool_code (pool_of d (Z.of_nat (length old))) /\
      m !! l = Some (Source t d old) /\ m !! l' = Some (Fresh t p fill) /\ roomy fill size
  | Counting s size old_size p new_header => exists d l' old fill,
      s = state_for_domain d /\ new_header = Ptr l' 0 /\ p = pool_of d size /\ 0 <= size /\
      old_size = Z.of_nat (length old) /\ m !! l' = Some (Moved t d p old fill) /\ roomy fill size /\
      take (min (length old) (Z.to_nat size)) (drop (Z.to_nat (sizeof_header c)) fill) =
      take (min (length old) (Z.to_nat size)) old
  | Releasing header => exists d l data, header = Ptr l 0 /\ m !! l = Some (Leaving t d data)
  | Reporting _ _ (Some pointer) => exists d l old, pointer = user_ptr c l /\ m !! l = Some (Source t d old)
  end.

(** The places a thread inside an operation works on. *)
Definition works_on (ph : phase) (l : loc) : Prop :=
  match ph with
  | Outside | Asking _ _ _ | Reporting _ _ None => False
  | Placing _ _ _ _ q | Counting _ _ _ _ q | Releasing q | Resizing _ _ q | Reporting _ _ (Some q) => l = base q
  | Copying _ _ _ _ _ q q' => l = base q \/ l = base q'
  end.

(** The threads, and who has which cell. *)
Record threads_ok (m : cells) (ph : nat -> phase) : Prop := {
  tk_phase t : phase_ok m t (ph t);
  tk_worker l x t : m !! l = Some x -> worker x = Some t -> works_on (ph t) l
}.

(** ** Calls a client may make *)

Definition client_holds (m : cells) (s : slot) (q : ptr) : bool :=
  bool_decide (q = user_ptr c (base q)) &&
  match m !! base q with Some (Held d _) => bool_decide (s = state_for_domain d) | _ => false end.

Definition call_ok (m : cells) (x : call) : bool :=
  match x with
  | CallAllocate _ size => size_ok c size
  | CallZeroAllocate _ count size =>
      (0 <=? count) && (0 <=? size) && (size <? modulus c) && ((modulus c <=? count * size) || size_ok c (count * size))
  | CallReallocate s q size => size_ok c size && match q with Some q => client_holds m s q | None => true end
  | CallDeallocate s q => match q with Some q => client_holds m s q | None => true end
  end.

(** ** Framing *)

Lemma slot_cases s : exists d, s = state_for_domain d.
Proof. destruct s; [by exists ALLOCATION_ROS|by exists ALLOCATION_MIDDLEWARE]. Qed.

Lemma in_memory_ext (w w' : world) l x :
  (forall s, external_threshold (states w' s) = external_threshold (states w s)) ->
  mem w' !! l = mem w !! l -> in_memory w l x -> in_memory w' l x.
Proof. intros Ht Hm. destruct x; cbn; try (by apply stored_ext); by rewrite Hm. Qed.

Lemma cell_absent m a (w : world) l : shared_ok m a w -> mem w !! l = None -> m !! l = None.
Proof.
  intros Hs E. destruct (m !! l) as [x|] eqn:Ex; [|done]. exfalso.
  pose proof (so_cells m a w Hs l x Ex) as Hx. destruct x; cbn in Hx;
    try (destruct Hx as (? & _ & Hx)); congruence.
Qed.

(** Cells that stay where they are, and cells the step has put in place. *)
Lemma shared_frame m a (w : world) m' a' (w' : world) :
  shared_ok m a w -> heap_ok c w' ->
  (forall s, domain (states w' s) = domain (states w s) /\
             external_threshold (states w' s) = external_threshold (states w s)) ->
  (forall l x, m' !! l = Some x -> (m !! l = Some x /\ mem w' !! l = mem w !! l) \/ in_memory w' l x) ->
  (forall d, counters (states w' (state_for_domain d)) = account_metrics c (a' d) (wrap c (weighed d m'))) ->
  shared_ok m' a' w'.
Proof.
  intros [_ Hc Hs _] Hok Hst Hcells Hcnt. split; [done| | |done].
  - intros l x E. destruct (Hcells l x E) as [[E' Em]|?]; [|done].
    apply (in_memory_ext w); [intros s; apply Hst|done|by apply Hc].
  - intros s. destruct (Hst s) as [-> ->]. apply Hs.
Qed.

Lemma shared_ext m a (w w' : world) :
  mem w' = mem w -> heap_blocks (heap w') = heap_blocks (heap w) -> (forall s, states w' s = states w s) ->
  shared_ok m a w -> shared_ok m a w'.
Proof.
  intros Em Eh Es Hs. apply (shared_frame m a w); [done|..].
  - destruct (so_heap m a w Hs). split; by rewrite ?Em, ?Eh.
  - intros s. by rewrite Es.
  - intros l x E. left. by rewrite Em.
  - intros d. rewrite Es. apply (so_counters m a w Hs).
Qed.

Lemma pool_for_slot m a (w : world) d size :
  shared_ok m a w -> pool_for c (states w (state_for_domain d)) size = pool_of d size.
Proof. intros Hs. unfold pool_of, pool_for. by rewrite (proj2 (so_state m a w Hs _)). Qed.

(** A step of thread [t] leaves the cells of the other threads. *)
Definition kept (t : nat) (m m' : cells) : Prop :=
  forall l x t', t' <> t -> worker x = Some t' -> m !! l = Some x <-> m' !! l = Some x.

Definition mine (t : nat) (x : cell) : Prop := worker x = None \/ worker x = Some t.

Definition at_hand (t : nat) (m : cells) (l : loc) : Prop := forall x, m !! l = Some x -> mine t x.

Lemma kept_refl t m : kept t m m.
Proof. done. Qed.

Lemma kept_trans t m1 m2 m3 : kept t m1 m2 -> kept t m2 m3 -> kept t m1 m3.
Proof. intros H1 H2 l x t' Ht Hw. rewrite (H1 l x t'), (H2 l x t') by done. done. Qed.

Lemma kept_insert t m l y : at_hand t m l -> mine t y -> kept t m (<[l := y]> m).
Proof.
  intros Hl Hy l' x t' Ht Hw. destruct (decide (l' = l)) as [->|Hne]; [|by rewrite lookup_insert_ne].
  rewrite lookup_insert_eq. split.
  - intros E. destruct (Hl x E) as [Hx|Hx]; congruence.
  - intros [= ->]. destruct Hy; congruence.
Qed.

Lemma kept_delete t m l : at_hand t m l -> kept t m (delete l m).
Proof.
  intros Hl l' x t' Ht Hw. destruct (decide (l' = l)) as [->|Hne]; [|by rewrite lookup_delete_ne].
  rewrite lookup_delete_eq. split; [|done]. intros E. destruct (Hl x E) as [Hx|Hx]; congruence.
Qed.

Lemma phase_kept t m m' t' ph : kept t m m' -> t' <> t -> phase_ok m t' ph -> phase_ok m' t' ph.
Proof.
  intros Hk Ht. assert (forall l x, worker x = Some t' -> m !! l = Some x -> m' !! l = Some x) as Hm
    by (intros l x Hx; by apply (Hk l x t')).
  destruct ph as [| | | | | | |s size [q|]]; cbn; try done; intros Hp;
    repeat match goal with
    | Hx : ex _ |- _ => destruct Hx
    | Hx : _ /\ _ |- _ => destruct Hx
    end; subst; do 5 try eexists; repeat split; eauto.
Qed.

Definition set_phase (ph : nat -> phase) (t : nat) (x : phase) : nat -> phase :=
  fun t' => if decide (t' = t) then x else ph t'.

Lemma threads_frame m m' ph t x :
  threads_ok m ph -> kept t m m' -> phase_ok m' t x ->
  (forall l y, m' !! l = Some y -> worker y = Some t -> works_on x l) ->
  threads_ok m' (set_phase ph t x).
Proof.
  intros [Hp Hw] Hk Hx Hl. unfold set_phase. split.
  - intros t'. case_decide as E; [by subst|]. by apply (phase_kept t m).
  - intros l y t' Ey Hy. case_decide as E; [subst; by apply (Hl l y)|]. apply (Hw l y t'); [|done].
    by apply (Hk l y t').
Qed.

(** A thread that works on nothing has no cell in hand. *)
Definition idle (ph : phase) : Prop := forall l, ~ works_on ph l.

Lemma idle_worker m ph t l x : threads_ok m ph -> idle (ph t) -> m !! l = Some x -> worker x <> Some t.
Proof. intros Hk Ho E Hx. by apply (Ho l), (tk_worker m ph Hk l x t). Qed.

Lemma outside_idle (ph : nat -> phase) t : ph t = Outside -> idle (ph t).
Proof. intros -> l []. Qed.

Lemma held_at_hand t m l d data : m !! l = Some (Held d data) -> at_hand t m l.
Proof. intros E x Ex. left. by simplify_eq. Qed.

Lemma absent_at_hand t m l : m !! l = None -> at_hand t m l.
Proof. intros E x Ex. congruence. Qed.

Lemma worker_at_hand t m l x : m !! l = Some x -> worker x = Some t -> at_hand t m l.
Proof. intros E Hx y Ey. right. by simplify_eq. Qed.

(** ** The counters *)

Lemma weighed_new d (m : cells) l x : m !! l = None -> weighed d (<[l := x]> m) = weight d x + weighed d m.
Proof. apply (sum_insert (weight d)). Qed.

Lemma weighed_replace d (m : cells) l x y :
  m !! l = Some x -> weighed d (<[l := y]> m) = weighed d m - weight d x + weight d y.
Proof. apply (sum_replace (weight d)). Qed.

Lemma weighed_gone d (m : cells) l x : m !! l = Some x -> weighed d (delete l m) = weighed d m - weight d x.
Proof. intros E. unfold weighed. rewrite (sum_delete (weight d) m l x E). lia. Qed.

(** The counters after one more allocation of the domain. *)
Lemma count_more m a (w w' : world) d m' :
  shared_ok m a w -> (forall d', d' <> d -> weighed d' m' = weighed d' m) ->
  (let k := counters (states w (state_for_domain d)) in
   counted w w' d (metrics_raise (Metrics (wrap c (calls k + 1)) (frees k) (wrap c (weighed d m')) (high_water_bytes k)))) ->
  forall d', counters (states w' (state_for_domain d')) =
             account_metrics c (one_more a d m' d') (wrap c (weighed d' m')).
Proof.
  intros Hs Hother Hc d'. rewrite Hc. unfold one_more, set_acct. case_decide as E.
  - apply state_for_domain_inj in E as ->. rewrite decide_True by done. cbn [counters].
    rewrite (so_counters m a w Hs). cbn [account_metrics calls frees high_water_bytes].
    apply (raise_counters c (a d) (peak (a d))); [|lia]. apply Z.mod_pos_bound, modulus_pos.
  - rewrite decide_False by congruence. rewrite Hother by congruence. apply (so_counters m a w Hs).
Qed.

Lemma wrap_add_l x y : wrap c (wrap c x + y) = wrap c (x + y).
Proof. unfold wrap. apply Zplus_mod_idemp_l. Qed.

Lemma wrap_sub_l x y : wrap c (wrap c x - y) = wrap c (x - y).
Proof. unfold wrap. apply Zminus_mod_idemp_l. Qed.

Lemma share_self d data : share d (d, data) = Z.of_nat (length data).
Proof. unfold share. by rewrite decide_True. Qed.

Lemma share_other d d' data : d' <> d -> share d' (d, data) = 0.
Proof. intros Hd. unfold share. by rewrite decide_False by (cbn; congruence). Qed.

(** ** The steps *)

Context `{!HeapLaws (modulus c) H}.

(** A step of thread [t]: it has a result, which is as [R] says, and the invariant
    goes on. *)
Definition steps (t : nat) (ph : nat -> phase) (code : M (phase * option ptr)) (w : world)
    (R : phase * option ptr -> cells -> accounting -> Prop) : Prop :=
  exists y w' m' a', code w = Some (y, w') /\ R y m' a' /\ shared_ok m' a' w' /\ threads_ok m' (set_phase ph t y.1).

(** A new block, as the cells see it. *)
Lemma shared_fresh m a (w w' : world) t l p fill :
  shared_ok m a w -> heap_ok c w' -> states w' = states w -> mem w !! l = None ->
  mem w' = <[l := Block p fill]> (mem w) -> shared_ok (<[l := Fresh t p fill]> m) a w'.
Proof.
  intros Hs Hok Est El Em. pose proof (cell_absent m a w l Hs El) as Hl.
  apply (shared_frame m a w); [done|done|intros s; by rewrite Est|..].
  - intros l' x E. destruct (decide (l' = l)) as [->|Hne].
    + rewrite lookup_insert_eq in E. injection E as <-. right. cbn. rewrite Em. apply lookup_insert_eq.
    + rewrite lookup_insert_ne in E by done. left. by rewrite Em, lookup_insert_ne.
  - intros d'. rewrite Est, weighed_new by done. apply (so_counters m a w Hs).
Qed.

(** The cells stay, the thread works on the same ones. *)
Lemma still_frame m ph t x :
  threads_ok m ph -> phase_ok m t x -> (forall l, works_on (ph t) l -> works_on x l) -> threads_ok m (set_phase ph t x).
Proof.
  intros Hk Hx Hl. apply (threads_frame m m); [done|apply kept_refl|done|].
  intros l y Ey Hy. by apply Hl, (tk_worker m ph Hk l y t).
Qed.

Lemma idle_frame m ph t x : threads_ok m ph -> idle (ph t) -> phase_ok m t x -> threads_ok m (set_phase ph t x).
Proof. intros Hk Ho Hx. apply still_frame; [done|done|]. intros l Hl. by destruct (Ho l). Qed.

(** A thread that works on one cell at most changes the role of a block. *)
Lemma relabel_frame m a ph t (w : world) l x y ph' :
  shared_ok m a w -> threads_ok m ph -> m !! l = Some x -> mine t x -> mine t y ->
  (in_memory w l x -> in_memory w l y) -> (forall d, weight d y = weight d x) ->
  (forall l', works_on (ph t) l' -> l' = l) ->
  phase_ok (<[l := y]> m) t ph' -> (worker y = Some t -> works_on ph' l) ->
  shared_ok (<[l := y]> m) a w /\ threads_ok (<[l := y]> m) (set_phase ph t ph').
Proof.
  intros Hs Hk El Hx Hy Hin Hweight Honly Hp Hw. split.
  - apply (shared_frame m a w); [done|by apply (so_heap m a w Hs)|done|..].
    + intros l' z E. destruct (decide (l' = l)) as [->|Hne].
      * rewrite lookup_insert_eq in E. injection E as <-. right. by apply Hin, (so_cells m a w Hs).
      * rewrite lookup_insert_ne in E by done. by left.
    + intros d. rewrite (weighed_replace d m l x y El), Hweight.
      replace (weighed d m - weight d x + weight d x) with (weighed d m) by lia. apply (so_counters m a w Hs).
  - apply (threads_frame m); [done|apply kept_insert; [|done]|done|].
    + intros z Ez. by simplify_eq.
    + intros l' z E Hz. destruct (decide (l' = l)) as [->|Hne].
      * rewrite lookup_insert_eq in E. injection E as <-. by apply Hw.
      * rewrite lookup_insert_ne in E by done. by destruct Hne; apply Honly, (tk_worker m ph Hk l' z t).
Qed.

(** ** Reports *)

Lemma report_steps m a ph t (w : world) s size q :
  shared_ok m a w -> threads_ok m ph -> ph t = Reporting s size q ->
  steps t ph (report_allocation_failure c s size ;; returns None) w (fun y => continues t (Reporting s size q) y m a).
Proof.
  intros Hs Hk Hph. pose proof (tk_phase m ph Hk t) as Hp. rewrite Hph in Hp. unfold steps.
  destruct (report_run c s size w) as [k Ek]. unfold mbind, M_bind. rewrite Ek.
  set (w' := with_console w _). assert (shared_ok m a w') as Hs' by (by apply (shared_ext m a w)).
  destruct q as [q|].
  - destruct Hp as (d & l & old & -> & El). eexists _, w', _, a. split; [done|]. split; [by apply ct_keep|].
    apply (relabel_frame m a ph t w' l (Source t d old)); try done; [by right|by left|].
    intros l'. by rewrite Hph.
  - eexists _, w', m, a. split; [done|]. split; [apply ct_report|]. split; [done|].
    apply idle_frame; [done|by rewrite Hph; intros l []|done].
Qed.

(** ** Allocation *)

Lemma allocate_start_steps m a ph t (w : world) d size zero x :
  shared_ok m a w -> threads_ok m ph -> ph t = Outside -> size_ok c size = true ->
  wants x = Some (state_for_domain d, size, zero) ->
  steps t ph (allocate_start c size zero (state_for_domain d)) w (fun y => starts t x y m a).
Proof.
  intros Hs Hk Ho Hsz Hx. unfold steps, allocate_start, goes_on.
  unfold mbind at 1, M_bind at 1. destruct (inject_run c (state_for_domain d) w) as (b & n & ->).
  eexists _, (with_attempts w n), m, a. split; [done|].
  split; [apply (st_ask t x d size zero); [done|destruct b; auto]|]. split; [by apply (shared_ext m a w)|].
  apply idle_frame; [done|by apply outside_idle|]. destruct b; [done|]. by exists d.
Qed.

(** A new block: fresh for everybody, in the hands of the thread. *)
Lemma fresh_frame m a ph t (w w' : world) d size zero l fill :
  shared_ok m a w -> threads_ok m ph -> idle (ph t) -> 0 <= size -> roomy fill size ->
  heap_ok c w' -> states w' = states w -> mem w !! l = None ->
  mem w' = <[l := Block (pool_of d size) fill]> (mem w) ->
  shared_ok (<[l := Fresh t (pool_of d size) fill]> m) a w' /\
  threads_ok (<[l := Fresh t (pool_of d size) fill]> m)
    (set_phase ph t (Placing (state_for_domain d) size zero (pool_of d size) (Ptr l 0))).
Proof.
  intros Hs Hk Ho H0 Hroom Hok Est El Em. pose proof (cell_absent m a w l Hs El) as Hl.
  split; [by apply (shared_fresh m a w)|]. apply (threads_frame m); [done|by apply kept_insert; [apply absent_at_hand|right]|..].
  - exists d, l, fill. repeat split; try done. apply lookup_insert_eq.
  - intros l' y E Hy. destruct (decide (l' = l)) as [->|Hne]; [done|]. rewrite lookup_insert_ne in E by done.
    by destruct (idle_worker m ph t l' y Hk Ho E).
Qed.

Lemma allocate_ask_steps m a ph t (w : world) s size zero :
  shared_ok m a w -> threads_ok m ph -> ph t = Asking s size zero ->
  steps t ph (allocate_ask c s size zero) w (fun y => continues t (Asking s size zero) y m a).
Proof.
  intros Hs Hk Hph. pose proof (tk_phase m ph Hk t) as Hp. rewrite Hph in Hp. destruct Hp as (d & -> & Hsz).
  assert (idle (ph t)) as Ho by (by rewrite Hph; intros l []).
  apply size_ok_spec in Hsz as [H0 H1]. unfold steps, allocate_ask, goes_on.
  unfold mbind at 1, M_bind at 1, get_state. rewrite (pool_for_slot m a w d size Hs).
  assert (0 <= sizeof_header c) by (unfold sizeof_header; pose proof (word_bytes_pos c); lia).
  rewrite wrap_small by lia. unfold mbind at 1, M_bind at 1.
  destruct (pool_alloc_run c (pool_of d size) (sizeof_header c + size) w (so_heap m a w Hs))
    as [(h & -> & Hh)|(l & fill & h & -> & Hl & Hn & Hok)].
  - eexists _, _, m, a. split; [done|]. split; [apply ct_denied|].
    split; [by apply (shared_ext m a w)|by apply idle_frame].
  - destruct (fresh_frame m a ph t w _ d size zero l fill Hs Hk Ho H0 Hn Hok eq_refl Hl eq_refl) as [Hs2 Hk2].
    eexists _, _, _, a. split; [done|]. split; [|by split]. by apply ct_given, (cell_absent m a w).
Qed.

(** ** Placing *)

(** A cell of the thread becomes a held block. *)
Lemma placed_frame m a ph t (w w' : world) d l x data :
  shared_ok m a w -> threads_ok m ph -> m !! l = Some x -> worker x = Some t ->
  (forall l', works_on (ph t) l' -> l' = l) ->
  (forall d', d' <> d -> weight d' x = 0) ->
  heap_ok c w' -> stored c w' l (d, data) -> (forall l', l' <> l -> mem w' !! l' = mem w !! l') ->
  (let k := counters (states w (state_for_domain d)) in
   counted w w' d (metrics_raise (Metrics (wrap c (calls k + 1)) (frees k)
     (wrap c (weighed d (<[l := Held d data]> m))) (high_water_bytes k)))) ->
  shared_ok (<[l := Held d data]> m) (one_more a d (<[l := Held d data]> m)) w' /\
  threads_ok (<[l := Held d data]> m) (set_phase ph t Outside).
Proof.
  intros Hs Hk Ex Hx Honly Hweight Hok Hst Hmem Hc. split.
  - apply (shared_frame m a w); [done|done|..].
    + intros s. rewrite (Hc s). by case_decide.
    + intros l' y E. destruct (decide (l' = l)) as [->|Hne].
      * rewrite lookup_insert_eq in E. injection E as <-. by right.
      * rewrite lookup_insert_ne in E by done. left. split; [done|by apply Hmem].
    + apply (count_more m a w); [done| |done]. intros d' Hd. rewrite (weighed_replace d' m l x) by done.
      rewrite Hweight by done. cbn [weight]. rewrite share_other by done. lia.
  - apply (threads_frame m); [done|apply kept_insert; [by apply (worker_at_hand t m l x)|by left]|done|].
    intros l' y E Hy. destruct (decide (l' = l)) as [->|Hne].
    + rewrite lookup_insert_eq in E. by injection E as <-.
    + rewrite lookup_insert_ne in E by done. by destruct Hne; apply Honly, (tk_worker m ph Hk l' y t).
Qed.

Lemma memset_run l p q pad data size (w : world) :
  mem w !! l = Some (Block p (layout c q pad data)) -> Z.of_nat (length pad) = word_bytes c - 4 ->
  Z.of_nat (length data) = size ->
  let zeros := replicate (Z.to_nat size) 0 in
  memset0 (ptr_add (Ptr l 0) (sizeof_header c)) size w =
  Some (tt, with_mem w (<[l := Block p (layout c q pad zeros)]> (mem w))).
Proof.
  intros E Hpad Hd zeros. assert (length zeros = length data) as Hlen by (unfold zeros; rewrite length_replicate; lia).
  unfold memset0, ptr_add. cbn [base offset]. apply (store_bytes_run l _ _ w p _ _ E). fold zeros.
  rewrite !layout_app, Hlen. replace (0 + sizeof_header c) with (sizeof_header c + 0) by lia.
  rewrite write_at_app; [|done|by rewrite layout_header_length].
  rewrite write_at_prefix by lia. cbn. by rewrite Hlen, drop_all, app_nil_r.
Qed.

(** The zeroing at the end of an allocation, when there is one. *)
Lemma finish_run (zero : bool) l p pad data size (w : world) :
  mem w !! l = Some (Block p (layout c p pad data)) -> heap_ok c w ->
  Z.of_nat (length pad) = word_bytes c - 4 -> Z.of_nat (length data) = size ->
  exists data', Z.of_nat (length data') = size /\ (zero = true -> data' = replicate (Z.to_nat size) 0) /\
    let w' := with_mem w (<[l := Block p (layout c p pad data')]> (mem w)) in
    (if zero then memset0 (ptr_add (Ptr l 0) (sizeof_header c)) size else mret tt) w = Some (tt, w') /\ heap_ok c w'.
Proof.
  intros E Hok Hpad Hd. destruct zero.
  - exists (replicate (Z.to_nat size) 0). assert (Z.of_nat (length (replicate (Z.to_nat size) 0)) = size) as Hl
      by (rewrite length_replicate; lia).
    split; [done|]. split; [done|]. split; [by apply (memset_run l p p pad data)|].
    apply (heap_ok_store c w l p (layout c p pad data)); [done|done|]. apply Nat2Z.inj. rewrite !layout_length by done. lia.
  - exists data. split; [done|]. split; [done|]. rewrite insert_id by done. by destruct w.
Qed.

Lemma allocate_place_steps m a ph t (w : world) s size zero p header :
  shared_ok m a w -> threads_ok m ph -> ph t = Placing s size zero p header ->
  steps t ph (allocate_place c s size zero p header) w
    (fun y => continues t (Placing s size zero p header) y m a).
Proof.
  intros Hs Hk Hph. pose proof (tk_phase m ph Hk t) as Hp. rewrite Hph in Hp.
  destruct Hp as (d & l & fill & -> & -> & -> & H0 & El & Hroom). set (p := pool_of d size) in *.
  pose proof (so_cells m a w Hs l _ El) as Emem. cbn in Emem. unfold steps, allocate_place.
  destruct (place_run c (metrics_add c (state_for_domain d) size ;;
      (if zero then memset0 (ptr_add (Ptr l 0) (sizeof_header c)) size else mret tt) ;;
      returns (Some (ptr_add (Ptr l 0) (sizeof_header c)))) l p p size w fill (so_heap m a w Hs) Emem H0 Hroom)
    as (pad & data & Hpad & Hdata & _ & -> & Hok). cbn zeta in *.
  unfold metrics_add, mbind at 1, M_bind at 1. unfold mbind at 1, M_bind at 1, get_state, set_metrics.
  set (w2 := World _ _ _ _ _). assert (heap_ok c w2) as Hok2 by (by destruct Hok).
  destruct (finish_run zero l p pad data size w2) as (data' & Hd' & Hz & Hrun & Hok3);
    [apply lookup_insert_eq|done..|]. unfold mbind at 1, M_bind at 1. rewrite Hrun. clear Hrun.
  set (w3 := with_mem w2 _) in *.
  destruct (placed_frame m a ph t w w3 d l (Fresh t p fill) data') as [Hs3 Hk3]; try done.
  - intros l' Hl. by rewrite Hph in Hl.
  - exists pad. split; [done|]. unfold pool_in. subst w3 w2. cbn. rewrite decide_True, lookup_insert_eq by done.
    unfold pool_for. cbn [external_threshold]. rewrite (proj2 (so_state m a w Hs _)), Hd'. done.
  - intros l' Hne. subst w3 w2. cbn. by rewrite !lookup_insert_ne.
  - intros k s. subst w3 w2. cbn [states with_mem]. case_decide as Es; [subst s|done].
    assert (wrap c (weighed d (<[l := Held d data']> m)) =
            wrap c (live_bytes (counters (states w (state_for_domain d))) + size)) as ->; [|done].
    rewrite (weighed_replace d m l (Fresh t p fill)) by done. cbn [weight]. rewrite share_self, Hd'.
    rewrite (so_counters m a w Hs). cbn [live_bytes account_metrics]. rewrite wrap_add_l. f_equal. lia.
  - eexists (Outside, Some (user_ptr c l)), _, _, _. split; [done|]. split; [|done]. by apply ct_place with (fill := fill).
Qed.

(** ** Reallocation *)

Lemma stored_length (w : world) l d data : heap_ok c w -> stored c w l (d, data) -> Z.of_nat (length data) < modulus c.
Proof.
  intros Hok Hst. pose proof (held_bound c w {[l := (d, data)]} d Hok) as Hb.
  rewrite <- insert_empty, held_insert, share_self in Hb by apply lookup_empty.
  change (held d ∅) with 0 in Hb. destruct Hb as [_ Hb]; [|lia].
  apply map_Forall_insert_2; [done|apply map_Forall_empty].
Qed.

Lemma reallocate_start_steps m a ph t (w : world) d l old size :
  shared_ok m a w -> threads_ok m ph -> ph t = Outside -> size_ok c size = true -> m !! l = Some (Held d old) ->
  steps t ph (reallocate_start c (user_ptr c l) size (state_for_domain d)) w
    (fun y => starts t (CallReallocate (state_for_domain d) (Some (user_ptr c l)) size) y m a).
Proof.
  intros Hs Hk Ho Hsz El. unfold steps, reallocate_start, goes_on.
  unfold mbind at 1, M_bind at 1. destruct (inject_run c (state_for_domain d) w) as (b & n & ->).
  eexists _, (with_attempts w n), (<[l := Source t d old]> m), a. split; [done|].
  split; [apply (st_resize t d l size old); [done|destruct b; auto]|].
  apply (relabel_frame m a ph t (with_attempts w n) l (Held d old));
    [by apply (shared_ext m a w)|done|done|by left|by right|done|done|by rewrite Ho|..].
  - destruct b; exists d, l, old; repeat split; try done; apply lookup_insert_eq.
  - by destruct b.
Qed.

(** The same heap has resized the block. *)
Lemma resized_frame m a ph t (w w' : world) d l l' old fill size :
  shared_ok m a w -> threads_ok m ph -> (forall l2, works_on (ph t) l2 -> l2 = l) ->
  m !! l = Some (Source t d old) -> 0 <= size -> roomy fill size ->
  take (min (length old) (Z.to_nat size)) (drop (Z.to_nat (sizeof_header c)) fill) =
  take (min (length old) (Z.to_nat size)) old ->
  heap_ok c w' -> states w' = states w -> (l' = l \/ mem w !! l' = None) ->
  mem w' = <[l' := Block (pool_of d size) fill]> (delete l (mem w)) ->
  let m' := <[l' := Moved t d (pool_of d size) old fill]> (delete l m) in
  shared_ok m' a w' /\
  threads_ok m' (set_phase ph t (Counting (state_for_domain d) size (Z.of_nat (length old)) (pool_of d size) (Ptr l' 0))).
Proof.
  intros Hs Hk Honly El H0 Hroom Hkeep Hok Est Hl' Em m'. assert (delete l m !! l' = None) as Hfree.
  { destruct Hl' as [->|Hl']; [apply lookup_delete_eq|]. apply lookup_delete_None. right. by apply (cell_absent m a w). }
  split.
  - apply (shared_frame m a w); [done|done|intros s; by rewrite Est|..].
    + intros l2 x E. unfold m' in E. destruct (decide (l2 = l')) as [->|Hne].
      * rewrite lookup_insert_eq in E. injection E as <-. right. cbn. rewrite Em. apply lookup_insert_eq.
      * rewrite lookup_insert_ne in E by done. apply lookup_delete_Some in E as [Hne2 E]. left.
        by rewrite Em, lookup_insert_ne, lookup_delete_ne.
    + intros d'. rewrite Est. unfold m'. rewrite weighed_new, (weighed_gone d' m l _ El) by done. cbn [weight].
      replace (share d' (d, old) + (weighed d' m - share d' (d, old))) with (weighed d' m) by lia.
      apply (so_counters m a w Hs).
  - apply (threads_frame m); [done|..].
    + apply (kept_trans t _ (delete l m)); [by eapply kept_delete, worker_at_hand|].
      apply kept_insert; [by apply absent_at_hand|by right].
    + exists d, l', old, fill. repeat split; try done. apply lookup_insert_eq.
    + intros l2 y E Hy. unfold m' in E. destruct (decide (l2 = l')) as [->|Hne]; [done|].
      rewrite lookup_insert_ne in E by done. apply lookup_delete_Some in E as [Hne2 E].
      by destruct Hne2; symmetry; apply Honly, (tk_worker m ph Hk l2 y t).
Qed.

(** Another heap has given a block to copy to. *)
Lemma copying_frame m a ph t (w w' : world) d l l' old fill size :
  shared_ok m a w -> threads_ok m ph -> (forall l2, works_on (ph t) l2 -> l2 = l) ->
  m !! l = Some (Source t d old) -> 0 <= size -> roomy fill size ->
  heap_ok c w' -> states w' = states w -> mem w !! l' = None ->
  mem w' = <[l' := Block (pool_of d size) fill]> (mem w) ->
  let m' := <[l' := Fresh t (pool_of d size) fill]> m in
  shared_ok m' a w' /\
  threads_ok m' (set_phase ph t (Copying (state_for_domain d) size (Z.of_nat (length old))
    (pool_code (pool_of d (Z.of_nat (length old)))) (pool_of d size) (user_ptr c l) (Ptr l' 0))).
Proof.
  intros Hs Hk Honly El H0 Hroom Hok Est El' Em m'. pose proof (cell_absent m a w l' Hs El') as Hl'.
  assert (l <> l') as Hne by (intros ->; congruence).
  split; [by apply (shared_fresh m a w)|]. apply (threads_frame m); [done|by apply kept_insert; [apply absent_at_hand|right]|..].
  - exists d, l, l', old, fill. repeat split; try done; unfold m'; [by rewrite lookup_insert_ne|apply lookup_insert_eq].
  - intros l2 y E Hy. unfold m' in E. cbn. destruct (decide (l2 = l')) as [->|Hne']; [by right|].
    rewrite lookup_insert_ne in E by done. left. by apply Honly, (tk_worker m ph Hk l2 y t).
Qed.

Lemma reallocate_ask_steps m a ph t (w : world) s size q :
  shared_ok m a w -> threads_ok m ph -> ph t = Resizing s size q ->
  steps t ph (reallocate_ask c s size q) w (fun y => continues t (Resizing s size q) y m a).
Proof.
  intros Hs Hk Hph. pose proof (tk_phase m ph Hk t) as Hp. rewrite Hph in Hp.
  destruct Hp as (d & l & old & -> & -> & Hsz & El). apply size_ok_spec in Hsz as [H0 H1].
  assert (forall l2, works_on (ph t) l2 -> l2 = l) as Honly by (by rewrite Hph).
  pose proof (so_cells m a w Hs l _ El) as Hst. cbn in Hst.
  pose proof (stored_length w l d old (so_heap m a w Hs) Hst) as Hlen.
  destruct Hst as (pad & Hpad & E). cbn [fst snd] in E. unfold pool_in in E.
  rewrite (pool_for_slot m a w d _ Hs) in E. unfold steps, reallocate_ask, goes_on.
  rewrite user_header. unfold mbind at 1, M_bind at 1. rewrite (load_size_run c l _ _ pad old w E Hlen).
  unfold mbind at 1, M_bind at 1. rewrite (load_pool_run c l _ _ pad old w E).
  unfold mbind at 1, M_bind at 1, get_state. rewrite (pool_for_slot m a w d size Hs).
  assert (0 <= sizeof_header c) by (unfold sizeof_header; pose proof (word_bytes_pos c); lia).
  rewrite wrap_small by lia. unfold reallocate_block. rewrite pool_code_inj. unfold mbind at 1, M_bind at 1.
  assert (phase_ok m t (Reporting (state_for_domain d) size (Some (user_ptr c l)))) as Hrep by (by exists d, l, old).
  case_bool_decide as Hpq; [rewrite Hpq in E|].
  - destruct (pool_realloc_run c (pool_of d size) l _ (sizeof_header c + size) w (so_heap m a w Hs) E)
      as [(h & -> & Hh)|(l' & fill & h & -> & Hl & Hn & Hok)].
    { eexists _, _, m, a. split; [done|]. split; [apply ct_not_resized|].
      split; [by apply (shared_ext m a w)|by apply (still_frame m ph t)]. }
    set (w2 := with_mem _ _) in *.
    destruct (resized_frame m a ph t w w2 d l l' old (resized (layout c (pool_of d size) pad old) fill) size Hs Hk Honly El H0)
      as [Hs2 Hk2]; [by unfold roomy; rewrite resized_length|by apply resized_body|exact Hok|done|exact Hl|done|].
    eexists _, _, _, a. split; [done|]. split; [|by split]. apply ct_resized; [done|].
    destruct Hl as [->|Hl]; [by left|right; by apply (cell_absent m a w)].
  - destruct (pool_alloc_run c (pool_of d size) (sizeof_header c + size) w (so_heap m a w Hs))
      as [(h & -> & Hh)|(l' & fill & h & -> & Hl & Hn & Hok)].
    { eexists _, _, m, a. split; [done|]. split; [apply ct_not_resized|].
      split; [by apply (shared_ext m a w)|by apply (still_frame m ph t)]. }
    destruct (copying_frame m a ph t w _ d l l' old fill size Hs Hk Honly El H0 Hn Hok eq_refl Hl eq_refl) as [Hs2 Hk2].
    eexists _, _, _, a. split; [done|]. split; [|by split]. by apply ct_elsewhere, (cell_absent m a w).
Qed.

(** The contents were copied and the old block is gone. *)
Lemma copied_frame m a ph t (w w' : world) d l l' old fill fill' size :
  shared_ok m a w -> threads_ok m ph ->
  (forall l2, works_on (ph t) l2 -> l2 = l \/ l2 = l') ->
  m !! l = Some (Source t d old) -> m !! l' = Some (Fresh t (pool_of d size) fill) ->
  0 <= size -> roomy fill' size ->
  take (min (length old) (Z.to_nat size)) (drop (Z.to_nat (sizeof_header c)) fill') =
  take (min (length old) (Z.to_nat size)) old ->
  heap_ok c w' -> states w' = states w -> mem w' = delete l (<[l' := Block (pool_of d size) fill']> (mem w)) ->
  let m' := <[l' := Moved t d (pool_of d size) old fill']> (delete l m) in
  shared_ok m' a w' /\
  threads_ok m' (set_phase ph t (Counting (state_for_domain d) size (Z.of_nat (length old)) (pool_of d size) (Ptr l' 0))).
Proof.
  intros Hs Hk Honly El El' H0 Hroom Hkeep Hok Est Em m'. assert (l <> l') as Hne by (intros ->; congruence).
  assert (delete l m !! l' = Some (Fresh t (pool_of d size) fill)) as El2 by (by rewrite lookup_delete_ne). split.
  - apply (shared_frame m a w); [done|done|intros s; by rewrite Est|..].
    + intros l2 x E. unfold m' in E. destruct (decide (l2 = l')) as [->|Hne'].
      * rewrite lookup_insert_eq in E. injection E as <-. right. cbn. rewrite Em, lookup_delete_ne by done.
        apply lookup_insert_eq.
      * rewrite lookup_insert_ne in E by done. apply lookup_delete_Some in E as [Hne2 E]. left.
        by rewrite Em, lookup_delete_ne, lookup_insert_ne.
    + intros d'. rewrite Est. unfold m'. rewrite (weighed_replace d' _ l' _ _ El2), (weighed_gone d' m l _ El).
      cbn [weight]. replace (weighed d' m - share d' (d, old) - 0 + share d' (d, old)) with (weighed d' m) by lia.
      apply (so_counters m a w Hs).
  - apply (threads_frame m); [done|..].
    + apply (kept_trans t _ (delete l m)); [by eapply kept_delete, worker_at_hand|].
      apply kept_insert; [by eapply worker_at_hand|by right].
    + exists d, l', old, fill'. repeat split; try done. apply lookup_insert_eq.
    + intros l2 y E Hy. unfold m' in E. cbn. destruct (decide (l2 = l')) as [->|Hne']; [done|].
      rewrite lookup_insert_ne in E by done. apply lookup_delete_Some in E as [Hne2 E].
      destruct (Honly l2) as [?|?]; [by apply (tk_worker m ph Hk l2 y t)|done|done].
Qed.

Lemma reallocate_copy_steps m a ph t (w : world) s size old_size old_pool p pointer new_header :
  shared_ok m a w -> threads_ok m ph -> ph t = Copying s size old_size old_pool p pointer new_header ->
  steps t ph (reallocate_copy c s size old_size old_pool p pointer new_header) w
    (fun y => continues t (Copying s size old_size old_pool p pointer new_header) y m a).
Proof.
  intros Hs Hk Hph. pose proof (tk_phase m ph Hk t) as Hp. rewrite Hph in Hp.
  destruct Hp as (d & l & l' & old & fill & -> & -> & -> & -> & H0 & -> & -> & El & El' & Hroom).
  assert (l <> l') as Hne by (intros ->; congruence).
  pose proof (so_cells m a w Hs l _ El) as Hst. cbn in Hst. destruct Hst as (pad & Hpad & E). cbn [fst snd] in E.
  unfold pool_in in E. rewrite (pool_for_slot m a w d _ Hs) in E.
  pose proof (so_cells m a w Hs l' _ El') as E'. cbn in E'. unfold steps, reallocate_copy.
  destruct (memcpy_run c w l _ pad old l' _ fill size E Hpad E' H0 Hroom) as (fill' & Hlen & Hkeep & Hcp).
  unfold mbind at 1, M_bind at 1. rewrite Hcp. set (w1 := with_mem w _).
  assert (heap_ok c w1) as Hok1 by (by apply (heap_ok_store c w l' _ fill); [apply (so_heap m a w Hs)|..]).
  assert (mem w1 !! l = Some (Block (pool_of d (Z.of_nat (length old))) (layout c (pool_of d (Z.of_nat (length old))) pad old)))
    as E1 by (cbn; by rewrite lookup_insert_ne).
  destruct (pool_free_run c _ l _ w1 Hok1 E1) as (h & Hf & Hok2). rewrite user_header.
  unfold pool_of in Hf at 1. rewrite <- pool_named_for in Hf. unfold mbind at 1, M_bind at 1.
  fold (pool_of d (Z.of_nat (length old))) in Hf. rewrite Hf.
  destruct (copied_frame m a ph t w (with_mem (with_heap w1 h) (delete l (mem w1))) d l l' old fill fill' size)
    as [Hs2 Hk2]; try done.
  - intros l2. by rewrite Hph.
  - unfold roomy. by rewrite Hlen.
  - eexists _, _, _, a. split; [done|]. split; [|by split]. by apply ct_copy with (fill := fill).
Qed.

Lemma reallocate_count_steps m a ph t (w : world) s size old_size p new_header :
  shared_ok m a w -> threads_ok m ph -> ph t = Counting s size old_size p new_header ->
  steps t ph (reallocate_count c s size old_size p new_header) w
    (fun y => continues t (Counting s size old_size p new_header) y m a).
Proof.
  intros Hs Hk Hph. pose proof (tk_phase m ph Hk t) as Hp. rewrite Hph in Hp.
  destruct Hp as (d & l' & old & fill & -> & -> & -> & H0 & -> & El & Hroom & Hkeep). set (p := pool_of d size) in *.
  pose proof (so_cells m a w Hs l' _ El) as E. cbn in E. unfold steps, reallocate_count.
  unfold mbind at 1, M_bind at 1, get_state. unfold mbind at 1, M_bind at 1, set_metrics. set (w1 := World _ _ _ _ _).
  assert (heap_ok c w1) as Hok1 by (by destruct (so_heap m a w Hs)).
  destruct (place_run c (returns (Some (ptr_add (Ptr l' 0) (sizeof_header c)))) l' p p size w1 fill Hok1 E H0 Hroom)
    as (pad & data & Hpad & Hdata & Hd & -> & Hok2). cbn zeta in *. set (w2 := with_mem w1 _) in *.
  destruct (placed_frame m a ph t w w2 d l' (Moved t d p old fill) data) as [Hs2 Hk2]; try done.
  - intros l2 Hl. by rewrite Hph in Hl.
  - intros d' Hd'. cbn. by apply share_other.
  - exists pad. split; [done|]. unfold pool_in. subst w2 w1. cbn. rewrite decide_True, lookup_insert_eq by done.
    unfold pool_for. cbn [external_threshold]. rewrite (proj2 (so_state m a w Hs _)), Hdata. done.
  - intros l2 Hne. subst w2 w1. cbn. by rewrite lookup_insert_ne.
  - intros k s. subst w2 w1. cbn [states with_mem]. case_decide as Es; [subst s|done].
    assert (wrap c (weighed d (<[l' := Held d data]> m)) =
            wrap c (wrap c (live_bytes (counters (states w (state_for_domain d))) - Z.of_nat (length old)) + size)) as ->; [|done].
    rewrite (weighed_replace d m l' _ _ El). cbn [weight]. rewrite !share_self, Hdata, (so_counters m a w Hs).
    cbn [live_bytes account_metrics]. by rewrite wrap_sub_l, wrap_add_l.
  - eexists (Outside, Some (user_ptr c l')), _, _, _. split; [done|]. split; [|done].
    apply ct_count with (fill := fill); [done|done|]. rewrite Hd in *.
    replace (Z.to_nat size) with (length (drop (Z.to_nat (sizeof_header c)) fill)) in Hkeep by lia. exact Hkeep.
Qed.

(** ** Deallocation *)

Lemma deallocate_start_steps m a ph t (w : world) d l data :
  shared_ok m a w -> threads_ok m ph -> ph t = Outside -> m !! l = Some (Held d data) ->
  steps t ph (deallocate_start c (user_ptr c l) (state_for_domain d)) w
    (fun y => starts t (CallDeallocate (state_for_domain d) (Some (user_ptr c l))) y m a).
Proof.
  intros Hs Hk Ho El. pose proof (so_cells m a w Hs l _ El) as Hst. cbn in Hst.
  pose proof (stored_length w l d data (so_heap m a w Hs) Hst) as Hlen. pose proof Hst as (pad & Hpad & E). cbn [fst snd] in E.
  unfold steps, deallocate_start. rewrite user_header. unfold mbind at 1, M_bind at 1, get_state.
  unfold mbind at 1, M_bind at 1. rewrite (load_size_run c l _ _ pad data w E Hlen).
  unfold mbind at 1, M_bind at 1, set_metrics. set (w1 := World _ _ _ _ _).
  eexists _, w1, (<[l := Leaving t d data]> m), (one_less a d). split; [done|]. split; [by apply st_release|].
  assert (forall d', weighed d' (<[l := Leaving t d data]> m) = weighed d' m - share d' (d, data)) as Hw
    by (intros d'; rewrite (weighed_replace d' m l _ _ El); cbn [weight]; lia).
  split.
  - apply (shared_frame m a w); [done|by destruct (so_heap m a w Hs)|intros s; cbn; by case_decide; subst|..].
    + intros l2 x Ex. destruct (decide (l2 = l)) as [->|Hne].
      * rewrite lookup_insert_eq in Ex. injection Ex as <-. right. cbn.
        apply (stored_ext c w); [intros s; cbn; by case_decide; subst|done|done].
      * rewrite lookup_insert_ne in Ex by done. by left.
    + intros d'. rewrite Hw. unfold one_less, set_acct. cbn [states w1]. case_decide as Es.
      * apply state_for_domain_inj in Es as ->. rewrite decide_True by done. cbn [counters].
        rewrite (so_counters m a w Hs). unfold account_metrics.
        cbn [calls frees live_bytes high_water_bytes allocations releases peak].
        by rewrite share_self, wrap_succ, wrap_sub_l.
      * rewrite decide_False by congruence. rewrite share_other, Z.sub_0_r by congruence.
        apply (so_counters m a w Hs).
  - apply (threads_frame m); [done|apply kept_insert; [by eapply held_at_hand|by right]|..].
    + exists d, l, data. split; [done|]. apply lookup_insert_eq.
    + intros l2 y Ey Hy. destruct (decide (l2 = l)) as [->|Hne]; [done|]. rewrite lookup_insert_ne in Ey by done.
      by destruct (idle_worker m ph t l2 y Hk (outside_idle ph t Ho) Ey).
Qed.

Lemma deallocate_free_steps m a ph t (w : world) header :
  shared_ok m a w -> threads_ok m ph -> ph t = Releasing header ->
  steps t ph (deallocate_free c header) w (fun y => continues t (Releasing header) y m a).
Proof.
  intros Hs Hk Hph. pose proof (tk_phase m ph Hk t) as Hp. rewrite Hph in Hp.
  destruct Hp as (d & l & data & -> & El). pose proof (so_cells m a w Hs l _ El) as Hst. cbn in Hst.
  destruct Hst as (pad & Hpad & E). cbn [fst snd] in E.
  destruct (pool_free_run c _ l _ w (so_heap m a w Hs) E) as (h & Hf & Hok).
  unfold steps, deallocate_free. unfold mbind at 1, M_bind at 1.
  assert ((if esp_spiram c then code ← load_pool c (Ptr l 0); pool_free (pool_named c code) (Ptr l 0)
           else pool_free Internal (Ptr l 0)) w = Some (tt, with_mem (with_heap w h) (delete l (mem w)))) as ->.
  { unfold pool_in in *. destruct (esp_spiram c) eqn:Hsp.
    - unfold mbind, M_bind. rewrite (load_pool_run c l _ _ pad data w E). by rewrite pool_named_for.
    - rewrite <- Hf. f_equal. unfold pool_for. by rewrite Hsp. }
  eexists _, _, (delete l m), a. split; [done|]. split; [by eapply ct_free|]. split.
  - apply (shared_frame m a w); [done|done|done|..].
    + intros l2 x Ex. apply lookup_delete_Some in Ex as [Hne Ex]. left. cbn. by rewrite lookup_delete_ne.
    + intros d'. rewrite (weighed_gone d' m l _ El). cbn [weight]. rewrite Z.sub_0_r. apply (so_counters m a w Hs).
  - apply (threads_frame m); [done|by eapply kept_delete, worker_at_hand|done|].
    intros l2 y Ey Hy. apply lookup_delete_Some in Ey as [Hne Ey].
    pose proof (tk_worker m ph Hk l2 y t Ey Hy) as Hw. rewrite Hph in Hw. by destruct Hne.
Qed.

(** ** Any step *)

Lemma client_holds_spec m s q :
  client_holds m s q = true -> exists d data, q = user_ptr c (base q) /\ m !! base q = Some (Held d data) /\ s = state_for_domain d.
Proof.
  unfold client_holds. rewrite andb_true_iff, bool_decide_eq_true. intros [Hq Hm].
  destruct (m !! base q) as [[d data| | | |]|]; try done. apply bool_decide_eq_true in Hm. by exists d, data.
Qed.

Lemma start_steps m a ph t (w : world) x :
  shared_ok m a w -> threads_ok m ph -> ph t = Outside -> call_ok m x = true ->
  steps t ph (call_start c x) w (fun y => starts t x y m a).
Proof.
  intros Hs Hk Ho Hx. assert (threads_ok m (set_phase ph t Outside)) as Hstay by (by apply idle_frame; [|apply outside_idle|]).
  destruct x as [s size|s count size|s [q|] size|s [q|]]; cbn [call_start call_ok] in *.
  - destruct (slot_cases s) as [d ->]. by apply allocate_start_steps.
  - rewrite !andb_true_iff, !Z.leb_le, Z.ltb_lt, orb_true_iff, Z.leb_le in Hx. destruct Hx as [[[Hc H0] H1] Hx].
    rewrite zero_guard by done. destruct (Z.leb_spec (modulus c) (count * size)) as [Hbig|Hsmall].
    { exists (Outside, None), w, m, a. split; [done|]. split; [by apply st_overflow|done]. }
    destruct Hx as [?|Hx]; [lia|]. destruct (slot_cases s) as [d ->]. rewrite wrap_small by nia.
    by apply (allocate_start_steps m a).
  - apply andb_true_iff in Hx as [Hsz Hq]. apply client_holds_spec in Hq as (d & data & Hq & El & ->). rewrite Hq.
    by apply (reallocate_start_steps m a ph t w d _ data).
  - apply andb_true_iff in Hx as [Hsz _]. destruct (slot_cases s) as [d ->]. by apply allocate_start_steps.
  - apply client_holds_spec in Hx as (d & data & Hq & El & ->). rewrite Hq. by apply (deallocate_start_steps m a ph t w d _ data).
  - exists (Outside, None), w, m, a. split; [done|]. split; [apply st_null|done].
Qed.

Lemma continue_steps m a ph t (w : world) :
  shared_ok m a w -> threads_ok m ph -> steps t ph (call_continue c (ph t)) w (fun y => continues t (ph t) y m a).
Proof.
  intros Hs Hk. destruct (ph t) eqn:E; cbn [call_continue];
    eauto using allocate_ask_steps, reallocate_ask_steps, allocate_place_steps, reallocate_copy_steps,
      reallocate_count_steps, deallocate_free_steps, report_steps.
  exists (Outside, None), w, m, a. split; [done|]. split; [apply ct_outside|].
  split; [done|]. by apply idle_frame; [|apply outside_idle|].
Qed.

(** The cuts are those of the operations: run without interruption, the steps of
    a call are the operation. *)
Ltac run_call :=
  repeat (match goal with
    | |- context [match ?m with Some _ => _ | None => _ end] =>
        lazymatch m with context [match _ with _ => _ end] => fail | _ => destruct m as [[? ?]|] end
    | |- context [if ?b then _ else _] => destruct b
    end; cbn [call_finish call_continue];
    unfold allocate_ask, allocate_place, reallocate_ask, reallocate_copy, reallocate_count, deallocate_free,
      returns, goes_on, mbind, M_bind, mret, M_ret, get_state; try done).

Lemma call_phases x (w : world) : (y ← call_start c x; call_finish c 3 y) w = call_whole c x w.
Proof.
  destruct x as [s size|s count size|s [p|] size|s [p|]]; cbn [call_start call_whole];
    unfold ros2_zephyr_zero_allocate, ros2_zephyr_reallocate, ros2_zephyr_allocate, ros2_zephyr_deallocate,
      allocate_start, reallocate_start, deallocate_start, returns, goes_on;
    unfold mbind, M_bind, mret, M_ret, get_state; run_call.
  done.
Qed.

(** ** Threads together *)

(** What can be seen: the contents of the held blocks, and the counters: modulo
    the width the counted bytes, and exactly the held ones when no thread is inside. *)
Definition all_outside (ph : nat -> phase) : Prop := forall t, ph t = Outside.

Definition held_bytes (d : allocation_domain) (m : cells) : Z :=
  sum_of (fun x => match x with Held d' data => share d (d', data) | _ => 0 end) m.

Record consistent (m : cells) (a : accounting) (ph : nat -> phase) (w : world) : Prop := {
  cs_contents l d data : m !! l = Some (Held d data) ->
    load (user_ptr c l) (Z.of_nat (length data)) (mem w) = Some data;
  cs_counters d : counters (states w (state_for_domain d)) = account_metrics c (a d) (wrap c (weighed d m));
  cs_quiet d : all_outside ph ->
    counters (states w (state_for_domain d)) = account_metrics c (a d) (held_bytes d m) /\ held_bytes d m < modulus c
}.

Lemma quiet_weight d m : (forall l x, m !! l = Some x -> worker x = None) -> weighed d m = held_bytes d m.
Proof.
  unfold weighed, held_bytes. induction m as [|l x m E IH] using map_ind; [done|]. intros Hall.
  rewrite !sum_insert by done. rewrite IH.
  - pose proof (Hall l x (lookup_insert_eq _ _ _)) as Hx. by destruct x.
  - intros l' x' E'. apply (Hall l'). assert (l' <> l) by (intros ->; congruence). by rewrite lookup_insert_ne.
Qed.

Lemma held_bytes_bound m a (w : world) d : shared_ok m a w -> 0 <= held_bytes d m < modulus c.
Proof.
  intros Hs. split; [apply sum_nonneg; intros []; [apply share_nonneg|done..]|].
  eapply Z.le_lt_trans; [|exact (ho_space c w (so_heap m a w Hs))]. pose proof (word_bytes_pos c).
  apply sum_le_total; [by apply (heap_sizes c), (so_heap m a w Hs)|]. intros l x E. pose proof (so_cells m a w Hs l x E) as Hx.
  destruct x as [d' data|t d' data|t d' data|t p fill|t d' p old fill]; cbn in Hx.
  1-3: destruct Hx as (pad & Hpad & Hx); rewrite (heap_block c w l _ (so_heap m a w Hs) Hx); eexists; (split; [done|]); cbn;
    rewrite layout_length by done; unfold share, sizeof_header; try case_decide; cbn; lia.
  all: rewrite (heap_block c w l _ (so_heap m a w Hs) Hx); eexists; (split; [done|]); cbn; lia.
Qed.

Lemma shared_consistent m a ph (w : world) : shared_ok m a w -> threads_ok m ph -> consistent m a ph w.
Proof.
  intros Hs Hk. split.
  - intros l d data E. pose proof (so_cells m a w Hs l _ E) as (pad & Hpad & Em).
    erewrite load_lookup by exact Em. cbn [bytes offset user_ptr fst snd].
    rewrite layout_app. rewrite <- (Z.add_0_r (sizeof_header c)), read_at_app; [|lia|by rewrite layout_header_length].
    rewrite <- (app_nil_r data) at 2. by apply read_at_prefix.
  - apply (so_counters m a w Hs).
  - intros d Hq. pose proof (held_bytes_bound m a w d Hs). split; [|lia]. rewrite (so_counters m a w Hs).
    rewrite quiet_weight, wrap_small; [done|done|]. intros l x E. destruct (worker x) as [t|] eqn:Ew; [|done].
    pose proof (tk_worker m ph Hk l x t E Ew) as Hw. by rewrite Hq in Hw.
Qed.

(** Other users of the heaps. *)
Record aside (m : cells) (w w' : world) : Prop := {
  as_heap : heap_ok c w';
  as_states s : states w' s = states w s;
  as_blocks l : is_Some (m !! l) -> mem w' !! l = mem w !! l
}.

Lemma shared_aside m a (w w' : world) : shared_ok m a w -> aside m w w' -> shared_ok m a w'.
Proof.
  intros Hs [Hok Es Em]. apply (shared_frame m a w); [done|done|intros s; by rewrite Es|..].
  - intros l x E. left. split; [done|]. by apply Em.
  - intros d. rewrite Es. apply (so_counters m a w Hs).
Qed.

(** A client writes to a block it holds. *)
Definition write_held (m : cells) (l : loc) (off : Z) (bs : list Z) : option cells :=
  match m !! l with
  | Some (Held d old) => data ← (if 0 <=? off then write_at off bs old else None); Some (<[l := Held d data]> m)
  | _ => None
  end.

Lemma write_steps m a ph (w : world) l off bs m' :
  shared_ok m a w -> threads_ok m ph -> write_held m l off bs = Some m' ->
  exists w', store_bytes (ptr_add (user_ptr c l) off) bs w = Some (tt, w') /\ shared_ok m' a w' /\ threads_ok m' ph.
Proof.
  intros Hs Hk Hw. unfold write_held in Hw. destruct (m !! l) as [[d old| | | |]|] eqn:El; try done.
  destruct (Z.leb_spec 0 off) as [Ho|]; [|done]. destruct (write_at off bs old) as [data|] eqn:Ed; [|done]. injection Hw as <-.
  destruct (write_stored c w l off bs d old data (so_heap m a w Hs) (so_cells m a w Hs l _ El) Ho Ed)
    as (w' & Hrun & Hok & Es & Hl & Hm & Hsh).
  exists w'. split; [done|]. split.
  - apply (shared_frame m a w); [done|done|intros s; by rewrite Es|..].
    + intros l' x E. destruct (decide (l' = l)) as [->|Hne].
      * rewrite lookup_insert_eq in E. injection E as <-. by right.
      * rewrite lookup_insert_ne in E by done. left. split; [done|by apply Hm].
    + intros d'. rewrite Es, (weighed_replace d' m l _ _ El). cbn [weight]. rewrite Hsh.
      replace (weighed d' m - share d' (d, old) + share d' (d, old)) with (weighed d' m) by lia. apply (so_counters m a w Hs).
  - assert (forall t, kept t m (<[l := Held d data]> m)) as Hkept
      by (intros t; apply kept_insert; [by eapply held_at_hand|by left]).
    split.
    + intros t. apply (phase_kept (S t) m); [apply Hkept|lia|apply (tk_phase m ph Hk)].
    + intros l' x t E Hx. apply (tk_worker m ph Hk l' x t); [|done]. by apply (Hkept (S t) l' x t); [lia|..].
Qed.

(** For [n] steps, in whatever order the threads run: a thread that is outside may
    make any permitted call; one that is inside goes on, and comes closer to its
    return; a client may write to a held block; others may use the heaps.  Each
    step has a result and moves the cells as [starts] and [continues] say, and
    what is seen is consistent. *)
Fixpoint interleaving (n : nat) (m : cells) (a : accounting) (ph : nat -> phase) (w : world) : Prop :=
  consistent m a ph w /\
  match n with
  | O => True
  | S n =>
      (forall t x, ph t = Outside -> call_ok m x = true -> exists y w' m' a',
         call_start c x w = Some (y, w') /\ starts t x y m a m' a' /\ interleaving n m' a' (set_phase ph t y.1) w') /\
      (forall t, exists y w' m' a',
         call_continue c (ph t) w = Some (y, w') /\ continues t (ph t) y m a m' a' /\
         (phase_rank y.1 <= Nat.pred (phase_rank (ph t)))%nat /\ interleaving n m' a' (set_phase ph t y.1) w') /\
      (forall l off bs m', write_held m l off bs = Some m' -> exists w',
         store_bytes (ptr_add (user_ptr c l) off) bs w = Some (tt, w') /\ interleaving n m' a ph w') /\
      (forall w', aside m w w' -> interleaving n m a ph w')
  end.

Lemma shared_interleaving n m a ph (w : world) : shared_ok m a w -> threads_ok m ph -> interleaving n m a ph w.
Proof.
  revert m a ph w. induction n as [|n IH]; intros m a ph w Hs Hk; (split; [by apply shared_consistent|]); [done|].
  split; [|split; [|split]].
  - intros t x Ho Hx. destruct (start_steps m a ph t w x Hs Hk Ho Hx) as (y & w' & m' & a' & H1 & H2 & H3 & H4). eauto 10.
  - intros t. destruct (continue_steps m a ph t w Hs Hk) as (y & w' & m' & a' & H1 & H2 & H3 & H4).
    exists y, w', m', a'. pose proof (continues_rank _ _ _ _ _ _ _ H2). eauto.
  - intros l off bs m' Hw. destruct (write_steps m a ph w l off bs m' Hs Hk Hw) as (w' & H1 & H2 & H3). eauto.
  - intros w' Ha. apply IH; [by apply (shared_aside m a w)|done].
Qed.

Lemma boot_shared (w : world) : boot c w -> shared_ok ∅ (fun _ => Account 0 0 0) w.
Proof.
  intros [Hh Hs]. pose proof (modulus_pos c). split; [done|apply map_Forall_empty|..].
  - intros s. by rewrite Hs.
  - intros d. rewrite Hs. unfold account_metrics. cbn [allocations releases peak].
    change (weighed d ∅) with 0. rewrite wrap_small by lia. by destruct d.
Qed.

Lemma boot_threads : threads_ok ∅ (fun _ => Outside).
Proof. by split. Qed.

End threads.
End AllocatorThreads.
