(* ===== verification/Control.v ===== *)
(** * The static-control thread

    [samples/static_control/src/control.c] and [plant.c]: a 100 Hz control thread
    that shares a command and a state with the ROS thread.  The thread is a
    program counter with its local variables, cut where it touches what is
    shared; the other thread, the timer and the clock act in between.  Each
    event carries what the environment supplies: times, cycle counts, the number
    of timer expiries. *)

From Stdlib Require Import SpecFloat.
From S2P Require Import Prelude.

#[local] Open Scope Z_scope.

Module Control.

(** ** Numbers *)

(** [float]: IEEE binary32, rounding to nearest. *)
Abbreviation f32 := spec_float.

Definition prec32 : Z := 24.
Definition emax32 : Z := 128.

Definition f32_of_Z (z : Z) : f32 := binary_normalize prec32 emax32 z 0 false.
Definition fadd (a b : f32) : f32 := SFadd prec32 emax32 a b.
Definition fsub (a b : f32) : f32 := SFsub prec32 emax32 a b.
Definition fmul (a b : f32) : f32 := SFmul prec32 emax32 a b.
Definition fdiv (a b : f32) : f32 := SFdiv prec32 emax32 a b.

(** [0.0F], [1.0F], [-1.0F] and [0.2F] *)
Definition f0 : f32 := f32_of_Z 0.
Definition f1 : f32 := f32_of_Z 1.
Definition fm1 : f32 := f32_of_Z (-1).
Definition f0_2 : f32 := fdiv f1 (f32_of_Z 5).

Definition isfinite (f : f32) : bool :=
  match f with S754_zero _ | S754_finite _ _ _ => true | _ => false end.

Definition UINT32_MAX : Z := 2 ^ 32 - 1.
Definition u32 (z : Z) : Z := z mod 2 ^ 32.

(** ** The plant *)

Definition PROPORTIONAL_GAIN : f32 := f32_of_Z 4.
Definition DAMPING_GAIN : f32 := f32_of_Z 1.

Definition clamp (value lower upper : f32) : f32 :=
  if SFltb value lower then lower else if SFltb upper value then upper else value.

Record plant := Plant { position : f32; velocity : f32 }.

Record plant_output := PlantOutput { out_position : f32; out_velocity : f32; out_effort : f32 }.

Definition static_control_plant_init : plant := Plant f0 f0.

Definition static_control_plant_step (p : plant) (target period_seconds : f32) (output_enabled : bool) :
    plant * plant_output :=
  let effort :=
    if output_enabled
    then clamp (fsub (fmul PROPORTIONAL_GAIN (fsub target (position p))) (fmul DAMPING_GAIN (velocity p))) fm1 f1
    else f0 in
  let acceleration := fsub effort (fmul f0_2 (velocity p)) in
  let velocity' := fadd (velocity p) (fmul acceleration period_seconds) in
  let position' := fadd (position p) (fmul velocity' period_seconds) in
  (Plant position' velocity', PlantOutput position' velocity' effort).

(** ** Commands and states *)

Definition CONTROL_PERIOD_MS : Z := 10.
Definition CONTROL_DEADLINE_MS : Z := 10.
Definition COMMAND_EXPIRY_MS : Z := 250.

(** [CONTROL_PERIOD_MS / 1000.0F] *)
Definition period_seconds : f32 := fdiv (f32_of_Z CONTROL_PERIOD_MS) (f32_of_Z 1000).

Inductive status := DISABLED | ACTIVE | STALE | FAULT.

#[export] Instance status_eq_dec : EqDecision status.
Proof. solve_decision. Defined.

(** The enumerators' values. *)
Definition status_code (s : status) : Z :=
  match s with DISABLED => 0 | ACTIVE => 1 | STALE => 2 | FAULT => 3 end.

Record command := Command { target : f32; sequence : Z }.

Record command_snapshot := CommandSnapshot { cmd_value : command; receipt_ms : Z; valid : bool }.

Record control_state := ControlState {
  st_position : f32;
  st_velocity : f32;
  st_effort : f32;
  command_sequence : Z;
  control_cycles : Z;
  skipped_releases : Z;
  max_release_lateness_us : Z;
  st_status : status
}.

(** [{.status = STATIC_CONTROL_DISABLED}] *)
Definition initial_state : control_state := ControlState f0 f0 f0 0 0 0 0 DISABLED.

(** ** Timing *)

Definition TIMING_BUCKET_US : Z := 100.
Definition TIMING_BUCKET_COUNT : Z := 102.

Record timing := Timing {
  last_release_cycles : Z;
  samples : Z;
  release_hist : list Z;
  completion_hist : list Z;
  release_max_us : Z;
  completion_max_us : Z
}.

(** [memset(&timing, 0, sizeof(timing))] *)
Definition no_timing : timing :=
  Timing 0 0 (replicate (Z.to_nat TIMING_BUCKET_COUNT) 0) (replicate (Z.to_nat TIMING_BUCKET_COUNT) 0) 0 0.

Definition release_expiry (cycles : Z) (t : timing) : timing :=
  Timing cycles (samples t) (release_hist t) (completion_hist t) (release_max_us t) (completion_max_us t).

(** [hist[bucket]++] *)
Definition hist_incr (bucket : Z) (hist : list Z) : list Z := alter (fun n => u32 (n + 1)) (Z.to_nat bucket) hist.

Definition bucket_of (us : Z) : Z := Z.min (us / TIMING_BUCKET_US) (TIMING_BUCKET_COUNT - 1).

(** [cyc_to_us] is the kernel's conversion of cycles to microseconds. *)
Definition timing_record (cyc_to_us : Z -> Z) (release_cycles start_cycles completion_cycles : Z) (t : timing) : timing :=
  let release_us_64 := cyc_to_us (u32 (start_cycles - release_cycles)) in
  let completion_us_64 := cyc_to_us (u32 (completion_cycles - release_cycles)) in
  let release_us := Z.min release_us_64 UINT32_MAX in
  let completion_late_us :=
    Z.min (if CONTROL_DEADLINE_MS * 1000 <? completion_us_64 then completion_us_64 - CONTROL_DEADLINE_MS * 1000 else 0)
          UINT32_MAX in
  Timing (last_release_cycles t) (u32 (samples t + 1))
    (hist_incr (bucket_of release_us) (release_hist t))
    (hist_incr (bucket_of completion_late_us) (completion_hist t))
    (Z.max (release_max_us t) release_us) (Z.max (completion_max_us t) completion_late_us).

(** The loop of [timing_percentile], from a bucket on. *)
Fixpoint percentile_loop (rank bucket cumulative : Z) (hist : list Z) : Z :=
  match hist with
  | [] => TIMING_BUCKET_COUNT * TIMING_BUCKET_US
  | n :: hist =>
      let cumulative := u32 (cumulative + n) in
      if rank <=? cumulative then u32 (u32 (bucket + 1) * TIMING_BUCKET_US)
      else percentile_loop rank (bucket + 1) cumulative hist
  end.

Definition timing_percentile (hist : list Z) (samples percentile : Z) : Z :=
  if samples =? 0 then 0
  else percentile_loop (u32 (u32 (samples * percentile) + 99) / 100) 0 0 hist.

Record timing_report := TimingReport {
  tr_samples : Z;
  release_p50_us : Z; release_p95_us : Z; release_p99_us : Z; tr_release_max_us : Z;
  completion_p50_us : Z; completion_p95_us : Z; completion_p99_us : Z; tr_completion_max_us : Z
}.

Definition static_control_timing_read (t : timing) : timing_report :=
  TimingReport (samples t)
    (timing_percentile (release_hist t) (samples t) 50) (timing_percentile (release_hist t) (samples t) 95)
    (timing_percentile (release_hist t) (samples t) 99) (release_max_us t)
    (timing_percentile (completion_hist t) (samples t) 50) (timing_percentile (completion_hist t) (samples t) 95)
    (timing_percentile (completion_hist t) (samples t) 99) (completion_max_us t).

(** ** One cycle of the thread *)

(** The thread's local variables that outlive a cycle. *)
Record locals := Locals {
  lc_plant : plant;
  lc_state : control_state;
  scheduled_release_ms : Z;
  faulted : bool
}.

(** What is known once the timer has expired. *)
Record wakeup := Wakeup { releases : Z; start_ms : Z; release_cycles : Z; start_cycles : Z }.

(** Before the loop. *)
Definition enter (uptime : Z) : locals := Locals static_control_plant_init initial_state (uptime + CONTROL_PERIOD_MS) false.

(** From the wake-up to [read_command]: lateness and skipped releases. *)
Definition account_release (k : wakeup) (l : locals) : locals :=
  let st := lc_state l in
  let lateness_ms := start_ms k - scheduled_release_ms l in
  let lateness :=
    if 0 <? lateness_ms then Z.max (max_release_lateness_us st) (u32 (u32 lateness_ms * 1000))
    else max_release_lateness_us st in
  let skipped := if 1 <? releases k then u32 (skipped_releases st + (releases k - 1)) else skipped_releases st in
  Locals (lc_plant l)
    (ControlState (st_position st) (st_velocity st) (st_effort st) (command_sequence st) (control_cycles st)
                  skipped lateness (st_status st))
    (scheduled_release_ms l + releases k * CONTROL_PERIOD_MS)
    (faulted l || (1 <? releases k)).

Definition command_fresh (k : wakeup) (c : command_snapshot) : bool :=
  valid c && (receipt_ms c <=? start_ms k) && (start_ms k - receipt_ms c <=? COMMAND_EXPIRY_MS).

(** From [read_command] to [publish_state]: the plant step and the new state. *)
Definition compute (k : wakeup) (c : command_snapshot) (completion_ms : Z) (l : locals) : locals :=
  let fresh := command_fresh k c in
  let faulted1 := faulted l || (scheduled_release_ms l <? start_ms k) in
  let '(plant', output) :=
    static_control_plant_step (lc_plant l) (target (cmd_value c)) period_seconds (fresh && negb faulted1) in
  let late := scheduled_release_ms l - CONTROL_PERIOD_MS + CONTROL_DEADLINE_MS <? completion_ms in
  let faulted2 := faulted1 || late in
  let effort := if late then f0 else out_effort output in
  let st := lc_state l in
  Locals plant'
    (ControlState (out_position output) (out_velocity output) (if faulted2 then f0 else effort)
       (sequence (cmd_value c)) (u32 (control_cycles st + 1)) (skipped_releases st) (max_release_lateness_us st)
       (if faulted2 then FAULT else if negb (valid c) then DISABLED else if negb fresh then STALE else ACTIVE))
    (scheduled_release_ms l) faulted2.

(** ** The system *)

(** Where the control thread is, with what it holds there. *)
Inductive thread :=
  | Absent
  | Created
  | Waiting (l : locals)
  | Awake (k : wakeup) (l : locals)
  | Loaded (k : wakeup) (c : command_snapshot) (l : locals)
  | Computed (l : locals)
  | Stopping
  | Finished.

Record system := System {
  commands : command_snapshot;
  published : control_state;
  stop_requested : bool;
  running : bool;
  test_delay_ms : Z;
  probe : timing;
  control_thread : thread
}.

(** The static variables before the program runs. *)
Definition power_on : system :=
  System (CommandSnapshot (Command f0 0) 0 false) initial_state false false 0 no_timing Absent.

(** The build: the test hooks, the timing probe, and the kernel's conversion. *)
Record firmware_build := FirmwareBuild { test_build : bool; timing_probe : bool; cyc_to_us : Z -> Z }.

Section system.
Context (b : firmware_build).

Definition set_thread (s : system) (t : thread) : system :=
  System (commands s) (published s) (stop_requested s) (running s) (test_delay_ms s) (probe s) t.

Definition publish_state (s : system) (st : control_state) (t : thread) : system :=
  System (commands s) st (stop_requested s) (running s) (test_delay_ms s) (probe s) t.

(** The calls of the ROS thread. *)

Definition static_control_start (s : system) : bool * system :=
  if running s then (false, s)
  else
    (true,
     System (CommandSnapshot (cmd_value (commands s)) (receipt_ms (commands s)) false) initial_state false true
            (if test_build b then 0 else test_delay_ms s) (if timing_probe b then no_timing else probe s) Created).

(** The request of [static_control_stop].  The call then re-arms the timer, so that the
    thread does not wait long, and returns when the thread has finished; it returns at
    once when nothing runs. *)
Definition static_control_stop (s : system) : system :=
  if running s then System (commands s) (published s) true (running s) (test_delay_ms s) (probe s) (control_thread s)
  else s.

Definition submit_ok (c : command) (receipt : Z) : bool :=
  isfinite (target c) && negb (SFltb (target c) fm1) && negb (SFltb f1 (target c)) && (0 <=? receipt).

(** [None] is a null pointer. *)
Definition static_control_submit (c : option command) (receipt : Z) (s : system) : bool * system :=
  match c with
  | Some c =>
      if submit_ok c receipt
      then (true, System (CommandSnapshot c receipt true) (published s) (stop_requested s) (running s)
                         (test_delay_ms s) (probe s) (control_thread s))
      else (false, s)
  | None => (false, s)
  end.

Definition static_control_read_state (s : system) : control_state := published s.

Definition static_control_test_delay_next_cycle (delay_ms : Z) (s : system) : system :=
  System (commands s) (published s) (stop_requested s) (running s) delay_ms (probe s) (control_thread s).

(** The steps of [control_entry]. *)

Definition thread_enter (uptime : Z) (s : system) : option system :=
  match control_thread s with
  | Created => Some (publish_state s initial_state (Waiting (enter uptime)))
  | _ => None
  end.

(** The head of the loop, the wait, and the second look at the stop request.
    A test build takes the delay it was given (and sleeps). *)
Definition thread_wake (n start start_cyc : Z) (s : system) : option system :=
  match control_thread s with
  | Waiting l =>
      if stop_requested s then Some (set_thread s Stopping)
      else Some (System (commands s) (published s) (stop_requested s) (running s)
                        (if test_build b then 0 else test_delay_ms s) (probe s)
                        (Awake (Wakeup n start (last_release_cycles (probe s)) start_cyc) l))
  | _ => None
  end.

Definition thread_read (s : system) : option system :=
  match control_thread s with
  | Awake k l => Some (set_thread s (Loaded k (commands s) (account_release k l)))
  | _ => None
  end.

Definition thread_compute (completion completion_cyc : Z) (s : system) : option system :=
  match control_thread s with
  | Loaded k c l =>
      let probe' :=
        if timing_probe b && (releases k =? 1)
        then timing_record (cyc_to_us b) (release_cycles k) (start_cycles k) completion_cyc (probe s) else probe s in
      Some (System (commands s) (published s) (stop_requested s) (running s) (test_delay_ms s) probe'
                   (Computed (compute k c completion l)))
  | _ => None
  end.

Definition thread_publish (s : system) : option system :=
  match control_thread s with
  | Computed l => Some (publish_state s (lc_state l) (Waiting l))
  | _ => None
  end.

(** After the loop: [running] is cleared. *)
Definition thread_exit (s : system) : option system :=
  match control_thread s with
  | Stopping => Some (System (commands s) (published s) (stop_requested s) false (test_delay_ms s) (probe s) Finished)
  | _ => None
  end.

(** What happens, and to whom. *)
Inductive event :=
  | Start
  | Stop
  | Submit (c : option command) (receipt : Z)
  | DelayNext (delay_ms : Z)
  | Expiry (cycles : Z)
  | Enter (uptime : Z)
  | Wake (n start start_cyc : Z)
  | Read
  | Compute (completion completion_cyc : Z)
  | Publish
  | Exit.

Definition control_step (e : event) (s : system) : option system :=
  match e with
  | Start => Some (snd (static_control_start s))
  | Stop => Some (static_control_stop s)
  | Submit c receipt => Some (snd (static_control_submit c receipt s))
  | DelayNext d => if test_build b then Some (static_control_test_delay_next_cycle d s) else None
  | Expiry cycles =>
      if timing_probe b
      then Some (System (commands s) (published s) (stop_requested s) (running s) (test_delay_ms s)
                        (release_expiry cycles (probe s)) (control_thread s))
      else None
  | Enter uptime => thread_enter uptime s
  | Wake n start start_cyc => thread_wake n start start_cyc s
  | Read => thread_read s
  | Compute completion completion_cyc => thread_compute completion completion_cyc s
  | Publish => thread_publish s
  | Exit => thread_exit s
  end.

Fixpoint run_events (es : list event) (s : system) : option system :=
  match es with
  | [] => Some s
  | e :: es => s' ← control_step e s; run_events es s'
  end.

(** Every state an execution can be in. *)
Inductive reachable : system -> Prop :=
  | reach_start : reachable power_on
  | reach_step s e s' : reachable s -> control_step e s = Some s' -> reachable s'.

End system.
End Control.
