(* ===== verification/ControlSpec.v ===== *)
(** * What the control thread does

    [observe] reads off the events of an execution, without the code, which command
    is in force and which cycles the current start has gone through: how many timer
    expiries each consumed, when it started, the command it read and when it was
    done.  What is published is a function of these cycles: the fault is latched at
    the first missed release or deadline, a command older than 250 ms is stale, the
    effort is the saturated control law in the active state and zero in every other,
    and position and velocity follow the efforts. *)

From Stdlib Require Import SpecFloat.
From S2P Require Import Prelude Control.

#[local] Open Scope Z_scope.

Module ControlSpec.
Import Control.

(** ** The cycles of a start *)

Record cycle := Cycle { cy_releases : Z; cy_start : Z; cy_command : command_snapshot; cy_completion : Z }.

(** The timer expiries consumed so far. *)
Definition releases_of (ys : list cycle) : Z := foldr (fun y n => cy_releases y + n) 0 ys.

(** When the output of the last cycle is due, after an entry at [t0]: at the next
    release, 10 ms after the last one. *)
Definition due (t0 : Z) (ys : list cycle) : Z := t0 + 10 + 10 * releases_of ys.

(** The last cycle [y] missed a release, or started or completed after its output
    was due. *)
Definition misses (t0 : Z) (ys : list cycle) (y : cycle) : Prop :=
  1 < cy_releases y \/ due t0 (ys ++ [y]) < cy_start y \/ due t0 (ys ++ [y]) < cy_completion y.

Definition missed (t0 : Z) (ys : list cycle) : Prop :=
  exists ys1 y ys2, ys = ys1 ++ y :: ys2 /\ misses t0 ys1 y.

(** Missed releases, over all cycles. *)
Definition skipped_of (ys : list cycle) : Z := foldr (fun y n => Z.max 0 (cy_releases y - 1) + n) 0 ys.

(** How late the last cycle [y] started after the release it was to start at, in
    microseconds of 32 bits. *)
Definition late_by (t0 : Z) (ys : list cycle) (y : cycle) : Z :=
  Z.max 0 (cy_start y - due t0 ys) * 1000 mod 2 ^ 32.

(** [m] is the greatest lateness of the cycles, 0 of none. *)
Definition worst_lateness (t0 : Z) (ys : list cycle) (m : Z) : Prop :=
  (forall ys1 y ys2, ys = ys1 ++ y :: ys2 -> late_by t0 ys1 y <= m) /\
  (m = 0 \/ exists ys1 y ys2, ys = ys1 ++ y :: ys2 /\ m = late_by t0 ys1 y).

(** A command as the thread obeys it: valid, and received at most 250 ms before the
    cycle started. *)
Definition fresh_in (y : cycle) : Prop :=
  valid (cy_command y) = true /\ 0 <= cy_start y - receipt_ms (cy_command y) <= 250.

#[export] Instance fresh_in_dec y : Decision (fresh_in y).
Proof. apply _. Defined.

(** The command drives the plant: it is fresh, and no release or deadline was missed
    before the plant is stepped. *)
Definition driven (t0 : Z) (ys : list cycle) (y : cycle) : Prop :=
  fresh_in y /\ ~ missed t0 ys /\ cy_releases y <= 1 /\ cy_start y <= due t0 (ys ++ [y]).

Definition saturate (u : f32) : f32 := if SFltb u fm1 then fm1 else if SFltb f1 u then f1 else u.

(** The control law: proportional gain 4, damping gain 1. *)
Definition law (target x v : f32) : f32 :=
  saturate (fsub (fmul (f32_of_Z 4) (fsub target x)) (fmul (f32_of_Z 1) v)).

(** The effort of the last cycle, with the plant at position [x] and velocity [v]. *)
Definition applied (t0 : Z) (ys : list cycle) (y : cycle) (x v u : f32) : Prop :=
  driven t0 ys y /\ u = law (target (cmd_value (cy_command y))) x v \/ ~ driven t0 ys y /\ u = f0.

(** A hundredth of a second under the effort [u], with friction 0.2. *)
Definition moved (x v u x' v' : f32) : Prop :=
  let dt := fdiv f1 (f32_of_Z 100) in
  v' = fadd v (fmul (fsub u (fmul (fdiv f1 (f32_of_Z 5)) v)) dt) /\ x' = fadd x (fmul v' dt).

(** The plant starts at rest and moves with every cycle. *)
Inductive trajectory (t0 : Z) : list cycle -> f32 -> f32 -> Prop :=
  | at_rest : trajectory t0 [] f0 f0
  | cycle_moves ys y x v u x' v' :
      trajectory t0 ys x v -> applied t0 ys y x v u -> moved x v u x' v' -> trajectory t0 (ys ++ [y]) x' v'.

(** A number that compares with the bounds lies between them. *)
Definition within_unit (f : f32) : Prop := f = S754_nan \/ (SFleb fm1 f = true /\ SFleb f f1 = true).

(** What a start has published after its cycles. *)
Record shows (t0 : Z) (ys : list cycle) (y : cycle) (st : control_state) : Prop := {
  sh_fault : st_status st = FAULT <-> missed t0 (ys ++ [y]);
  sh_active : st_status st = ACTIVE <-> ~ missed t0 (ys ++ [y]) /\ fresh_in y;
  sh_stale : st_status st = STALE <-> ~ missed t0 (ys ++ [y]) /\ valid (cy_command y) = true /\ ~ fresh_in y;
  sh_disabled : st_status st = DISABLED <-> ~ missed t0 (ys ++ [y]) /\ valid (cy_command y) = false;
  sh_idle : st_status st <> ACTIVE -> st_effort st = f0;
  sh_effort : within_unit (st_effort st);
  sh_motion : exists x v u, trajectory t0 ys x v /\ applied t0 ys y x v u /\
    moved x v u (st_position st) (st_velocity st) /\
    (st_status st = ACTIVE -> st_effort st = law (target (cmd_value (cy_command y))) x v);
  sh_sequence : command_sequence st = sequence (cmd_value (cy_command y));
  sh_cycles : control_cycles st = u32 (Z.of_nat (length (ys ++ [y])));
  sh_skipped : skipped_releases st = u32 (skipped_of (ys ++ [y]));
  sh_lateness : worst_lateness t0 (ys ++ [y]) (max_release_lateness_us st)
}.

(** ** What an execution went through *)

(** A cycle of the thread under way. *)
Inductive progress :=
  | Idle
  | Woken (releases start : Z)
  | Took (releases start : Z) (c : command_snapshot)
  | Done (y : cycle).

Record observation := Observation {
  in_force : command_snapshot;
  up : bool;
  told_to_stop : bool;
  entered : Z;
  under_way : progress;
  shown : list cycle
}.

Definition nothing_yet : observation := Observation (CommandSnapshot (Command f0 0) 0 false) false false 0 Idle [].

(** A command is accepted when its target is between -1 and 1 and its receipt time is
    not negative. *)
Definition acceptable (c : command) (receipt : Z) : bool :=
  SFleb fm1 (target c) && SFleb (target c) f1 && (0 <=? receipt).

Definition observe1 (o : observation) (e : event) : observation :=
  match e with
  | Start =>
      if up o then o
      else Observation (CommandSnapshot (cmd_value (in_force o)) (receipt_ms (in_force o)) false) true false 0 Idle []
  | Stop => Observation (in_force o) (up o) (told_to_stop o || up o) (entered o) (under_way o) (shown o)
  | Submit (Some c) receipt =>
      if acceptable c receipt
      then Observation (CommandSnapshot c receipt true) (up o) (told_to_stop o) (entered o) (under_way o) (shown o)
      else o
  | Enter t => Observation (in_force o) (up o) (told_to_stop o) t (under_way o) (shown o)
  | Wake n start _ =>
      if told_to_stop o then o
      else Observation (in_force o) (up o) (told_to_stop o) (entered o) (Woken n start) (shown o)
  | Read =>
      match under_way o with
      | Woken n start => Observation (in_force o) (up o) (told_to_stop o) (entered o) (Took n start (in_force o)) (shown o)
      | _ => o
      end
  | Compute completion _ =>
      match under_way o with
      | Took n start c =>
          Observation (in_force o) (up o) (told_to_stop o) (entered o) (Done (Cycle n start c completion)) (shown o)
      | _ => o
      end
  | Publish =>
      match under_way o with
      | Done y => Observation (in_force o) (up o) (told_to_stop o) (entered o) Idle (shown o ++ [y])
      | _ => o
      end
  | Exit => Observation (in_force o) false (told_to_stop o) (entered o) (under_way o) (shown o)
  | Submit None _ | DelayNext _ | Expiry _ => o
  end.

Definition observe (es : list event) : observation := foldl observe1 nothing_yet es.

(** ** The code's cycles *)

(** A cycle of the code; the cycle counters only go to the probe. *)
Definition run_cycle (l : locals) (y : cycle) : locals :=
  let k := Wakeup (cy_releases y) (cy_start y) 0 0 in
  compute k (cy_command y) (cy_completion y) (account_release k l).

Definition history (t0 : Z) (ys : list cycle) : locals := foldl run_cycle (enter t0) ys.

Lemma releases_of_snoc ys y : releases_of (ys ++ [y]) = releases_of ys + cy_releases y.
Proof. unfold releases_of. induction ys as [|x ys IH]; cbn in *; lia. Qed.

Lemma skipped_of_snoc ys y : skipped_of (ys ++ [y]) = skipped_of ys + Z.max 0 (cy_releases y - 1).
Proof. unfold skipped_of. induction ys as [|x ys IH]; cbn in *; lia. Qed.

Lemma history_snoc t0 ys y : history t0 (ys ++ [y]) = run_cycle (history t0 ys) y.
Proof. unfold history. by rewrite foldl_app. Qed.

(** A place in a history that has one cycle more. *)
Lemma place_snoc {A} (P : list A -> A -> Prop) ys y :
  (exists ys1 x ys2, ys ++ [y] = ys1 ++ x :: ys2 /\ P ys1 x) <->
  (exists ys1 x ys2, ys = ys1 ++ x :: ys2 /\ P ys1 x) \/ P ys y.
Proof.
  split.
  - intros (ys1 & x & ys2 & E & Hx). destruct ys2 as [|z ys2 _] using rev_ind.
    + apply app_inj_tail in E as [-> ->]. by right.
    + rewrite app_comm_cons, app_assoc in E. apply app_inj_tail in E as [-> ->]. left. by exists ys1, x, ys2.
  - intros [(ys1 & x & ys2 & -> & Hx)|Hy].
    + exists ys1, x, (ys2 ++ [y]). split; [by rewrite <- app_assoc|done].
    + by exists ys, y, [].
Qed.

Lemma missed_snoc t0 ys y : missed t0 (ys ++ [y]) <-> missed t0 ys \/ misses t0 ys y.
Proof. apply place_snoc. Qed.

Lemma missed_nil t0 : ~ missed t0 [].
Proof. intros (ys1 & y & ys2 & E & _). by destruct ys1. Qed.

Lemma worst_nil t0 : worst_lateness t0 [] 0.
Proof. split; [|by left]. by intros [|? ?] ? ? ?. Qed.

Lemma worst_snoc t0 ys y m : worst_lateness t0 ys m -> worst_lateness t0 (ys ++ [y]) (Z.max m (late_by t0 ys y)).
Proof.
  intros [Hm Ha]. split.
  - intros ys1 x ys2 E. assert (late_by t0 ys1 x <= m \/ late_by t0 ys1 x = late_by t0 ys y) as [|]; [|lia..].
    destruct (proj1 (place_snoc (fun a b => a = ys1 /\ b = x) ys y)) as [(l1 & z & l2 & -> & -> & ->)|[-> ->]];
      [by exists ys1, x, ys2|left; by eapply Hm|by right].
  - destruct (Z.max_spec m (late_by t0 ys y)) as [[_ ->]|[_ ->]].
    + right. by exists ys, y, [].
    + destruct Ha as [->|(ys1 & x & ys2 & -> & ->)]; [by left|right]. exists ys1, x, (ys2 ++ [y]).
      split; [by rewrite <- app_assoc|done].
Qed.

Lemma u32_add_l a b : u32 (u32 a + b) = u32 (a + b).
Proof. unfold u32. apply Zplus_mod_idemp_l. Qed.

(** ** One cycle *)

Lemma run_cycle_scheduled l y :
  scheduled_release_ms (run_cycle l y) = scheduled_release_ms l + 10 * cy_releases y.
Proof. unfold run_cycle, compute. destruct (static_control_plant_step _ _ _ _).
  cbn [scheduled_release_ms account_release releases]. unfold CONTROL_PERIOD_MS. lia. Qed.

Lemma run_cycle_faulted l y :
  faulted (run_cycle l y) = true <->
  faulted l = true \/ 1 < cy_releases y \/
  scheduled_release_ms (run_cycle l y) < cy_start y \/ scheduled_release_ms (run_cycle l y) < cy_completion y.
Proof.
  rewrite run_cycle_scheduled. unfold run_cycle, compute. destruct (static_control_plant_step _ _ _ _).
  cbn [faulted account_release scheduled_release_ms releases start_ms]. unfold CONTROL_PERIOD_MS, CONTROL_DEADLINE_MS.
  rewrite !orb_true_iff, !Z.ltb_lt.
  replace (scheduled_release_ms l + cy_releases y * 10 - 10 + 10)
    with (scheduled_release_ms l + 10 * cy_releases y) by lia.
  replace (scheduled_release_ms l + cy_releases y * 10)
    with (scheduled_release_ms l + 10 * cy_releases y) by lia. tauto.
Qed.

Lemma run_cycle_counts l y :
  control_cycles (lc_state (run_cycle l y)) = u32 (control_cycles (lc_state l) + 1) /\
  skipped_releases (lc_state (run_cycle l y)) =
    (if 1 <? cy_releases y then u32 (skipped_releases (lc_state l) + (cy_releases y - 1))
     else skipped_releases (lc_state l)) /\
  command_sequence (lc_state (run_cycle l y)) = sequence (cmd_value (cy_command y)).
Proof. unfold run_cycle, compute. by destruct (static_control_plant_step _ _ _ _). Qed.

Lemma run_cycle_lateness l y :
  0 <= max_release_lateness_us (lc_state l) ->
  max_release_lateness_us (lc_state (run_cycle l y)) =
  Z.max (max_release_lateness_us (lc_state l)) (Z.max 0 (cy_start y - scheduled_release_ms l) * 1000 mod 2 ^ 32).
Proof.
  intros H0. unfold run_cycle, compute. destruct (static_control_plant_step _ _ _ _).
  cbn [lc_state max_release_lateness_us account_release start_ms scheduled_release_ms].
  destruct (Z.ltb_spec 0 (cy_start y - scheduled_release_ms l)).
  - unfold u32. rewrite Zmult_mod_idemp_l, (Z.max_r 0) by lia. done.
  - rewrite (Z.max_l 0) by lia. change (0 * 1000 mod 2 ^ 32) with 0. lia.
Qed.

Lemma command_fresh_spec y :
  command_fresh (Wakeup (cy_releases y) (cy_start y) 0 0) (cy_command y) = true <-> fresh_in y.
Proof. unfold command_fresh, fresh_in, COMMAND_EXPIRY_MS. cbn [start_ms]. rewrite !andb_true_iff, !Z.leb_le. intuition lia. Qed.

(** The status, from the latch and the command. *)
Lemma run_cycle_status l y :
  let s := st_status (lc_state (run_cycle l y)) in
  (s = FAULT <-> faulted (run_cycle l y) = true) /\
  (s = ACTIVE <-> faulted (run_cycle l y) = false /\ fresh_in y) /\
  (s = STALE <-> faulted (run_cycle l y) = false /\ valid (cy_command y) = true /\ ~ fresh_in y) /\
  (s = DISABLED <-> faulted (run_cycle l y) = false /\ valid (cy_command y) = false).
Proof.
  cbn zeta. rewrite <- command_fresh_spec. unfold run_cycle, compute. destruct (static_control_plant_step _ _ _ _).
  cbn [lc_state st_status faulted]. set (late := _ || _). set (fr := command_fresh _ _).
  assert (fr = true -> valid (cy_command y) = true) as Hv.
  { subst fr. unfold command_fresh. rewrite !andb_true_iff. tauto. }
  destruct late, (valid (cy_command y)), fr; cbn; try discriminate (Hv eq_refl); intuition congruence.
Qed.

Lemma SFleb_not_ltb f g : f <> S754_nan -> g <> S754_nan -> SFltb f g = false <-> SFleb g f = true.
Proof.
  intros Hf Hg. unfold SFltb, SFleb. destruct f as [s|s| |s m e], g as [s'|s'| |s' m' e']; try done;
    cbn; try (by destruct s, s'); try (by destruct s); try (by destruct s').
  destruct s, s'; try done; rewrite (Z.compare_antisym e e'); destruct (e ?= e')%Z; cbn; try done;
    change (Pos.compare_cont Eq) with Pos.compare; rewrite (Pos.compare_antisym m m');
    by destruct (m ?= m')%positive.
Qed.

Lemma saturate_unit f : within_unit (saturate f).
Proof.
  unfold within_unit, saturate. destruct (SFltb f fm1) eqn:E1; [by right|].
  destruct (SFltb f1 f) eqn:E2; [by right|].
  assert (f = S754_nan \/ f <> S754_nan) as [Hn|Hn] by (destruct f; auto; by right); [by left|right].
  split; apply SFleb_not_ltb; done.
Qed.

(** The checks of a submitted command are those of [acceptable]. *)
Lemma submit_ok_spec c receipt : submit_ok c receipt = acceptable c receipt.
Proof.
  unfold submit_ok, acceptable. destruct (target c) as [s|s| |s m e] eqn:E; [by destruct s|by destruct s|done|].
  cbn [isfinite andb]. f_equal. f_equal; apply eq_true_iff_eq; rewrite negb_true_iff; apply SFleb_not_ltb; done.
Qed.

(** The plant of a cycle, and its effort. *)
Lemma run_cycle_plant l y :
  let u := if bool_decide (fresh_in y) && negb (faulted l || (1 <? cy_releases y) || (scheduled_release_ms (run_cycle l y) <? cy_start y))
           then law (target (cmd_value (cy_command y))) (position (lc_plant l)) (velocity (lc_plant l)) else f0 in
  let p' := lc_plant (run_cycle l y) in
  let st := lc_state (run_cycle l y) in
  moved (position (lc_plant l)) (velocity (lc_plant l)) u (position p') (velocity p') /\
  st_position st = position p' /\ st_velocity st = velocity p' /\
  st_effort st = (if faulted (run_cycle l y) then f0 else u).
Proof.
  assert (command_fresh (Wakeup (cy_releases y) (cy_start y) 0 0) (cy_command y) = bool_decide (fresh_in y)) as Hf.
  { apply eq_true_iff_eq. by rewrite command_fresh_spec, bool_decide_eq_true. }
  rewrite run_cycle_scheduled. unfold run_cycle, compute, static_control_plant_step. rewrite Hf.
  cbn [faulted account_release scheduled_release_ms releases start_ms lc_plant lc_state st_position st_velocity st_effort
    out_position out_velocity out_effort position velocity].
  replace (scheduled_release_ms l + cy_releases y * CONTROL_PERIOD_MS) with (scheduled_release_ms l + 10 * cy_releases y)
    by (unfold CONTROL_PERIOD_MS; lia).
  split; [by split|]. split; [done|]. split; [done|]. by destruct (_ <? cy_completion y); [rewrite orb_true_r|].
Qed.

(** ** The published state of a history *)

Lemma history_scheduled t0 ys : scheduled_release_ms (history t0 ys) = due t0 ys.
Proof.
  induction ys as [|y ys IH] using rev_ind; [unfold due, CONTROL_PERIOD_MS; cbn; unfold CONTROL_PERIOD_MS; lia|].
  rewrite history_snoc, run_cycle_scheduled, IH. unfold due. rewrite releases_of_snoc. lia.
Qed.

(** The latch is set exactly by a missed release or deadline. *)
Lemma history_faulted t0 ys : faulted (history t0 ys) = true <-> missed t0 ys.
Proof.
  induction ys as [|y ys IH] using rev_ind; [split; [done|by intros ?%missed_nil]|].
  rewrite missed_snoc, <- IH, history_snoc, run_cycle_faulted, <- history_snoc, history_scheduled. done.
Qed.

Lemma not_faulted t0 ys : faulted (history t0 ys) = false <-> ~ missed t0 ys.
Proof. rewrite <- history_faulted. by destruct (faulted _). Qed.

Lemma history_applied t0 ys y :
  let l := history t0 ys in
  applied t0 ys y (position (lc_plant l)) (velocity (lc_plant l))
    (if bool_decide (fresh_in y) && negb (faulted l || (1 <? cy_releases y) || (due t0 (ys ++ [y]) <? cy_start y))
     then law (target (cmd_value (cy_command y))) (position (lc_plant l)) (velocity (lc_plant l)) else f0).
Proof.
  cbn zeta. unfold applied, driven. rewrite <- not_faulted. destruct (_ && _) eqn:E; [left|right]; (split; [|done]).
  - apply andb_true_iff in E as [?%bool_decide_eq_true E]. apply negb_true_iff in E.
    apply orb_false_iff in E as [E ?%Z.ltb_ge]. by apply orb_false_iff in E as [? ?%Z.ltb_ge].
  - intros (Hf & Hm & Hr & Hs). rewrite bool_decide_true, Hm in E by done. apply negb_false_iff, orb_true_iff in E as [E|E];
      apply Z.ltb_lt in E; lia.
Qed.

Lemma history_trajectory t0 ys :
  trajectory t0 ys (position (lc_plant (history t0 ys))) (velocity (lc_plant (history t0 ys))).
Proof.
  induction ys as [|y ys IH] using rev_ind; [constructor|]. destruct (run_cycle_plant (history t0 ys) y) as [Hm _].
  rewrite <- history_snoc, history_scheduled in Hm. econstructor; [exact IH|apply history_applied|exact Hm].
Qed.

Lemma history_counts t0 ys :
  control_cycles (lc_state (history t0 ys)) = u32 (Z.of_nat (length ys)) /\
  skipped_releases (lc_state (history t0 ys)) = u32 (skipped_of ys).
Proof.
  induction ys as [|y ys [IH1 IH2]] using rev_ind; [done|].
  rewrite history_snoc. destruct (run_cycle_counts (history t0 ys) y) as (-> & -> & _).
  rewrite IH1, IH2, u32_add_l, length_app, skipped_of_snoc. cbn [length].
  split; [f_equal; lia|]. destruct (Z.ltb_spec 1 (cy_releases y)).
  - rewrite u32_add_l. f_equal. lia.
  - f_equal. lia.
Qed.

Lemma history_lateness t0 ys :
  0 <= max_release_lateness_us (lc_state (history t0 ys)) /\
  worst_lateness t0 ys (max_release_lateness_us (lc_state (history t0 ys))).
Proof.
  induction ys as [|y ys [H0 Hw]] using rev_ind; [split; [done|apply worst_nil]|].
  rewrite history_snoc, run_cycle_lateness, history_scheduled by done. split; [lia|by apply worst_snoc].
Qed.

Lemma history_shows t0 ys y : shows t0 ys y (lc_state (history t0 (ys ++ [y]))).
Proof.
  destruct (history_counts t0 (ys ++ [y])) as [Hc Hs]. destruct (history_lateness t0 (ys ++ [y])) as [_ Hl].
  pose proof (run_cycle_status (history t0 ys) y) as (Hf & Ha & Hst & Hd). cbn zeta in *.
  pose proof (run_cycle_counts (history t0 ys) y) as (_ & _ & Hq).
  pose proof (run_cycle_plant (history t0 ys) y) as (Hm & Hx & Hv & He). cbn zeta in *.
  pose proof (history_applied t0 ys y) as Hu. cbn zeta in *.
  rewrite <- history_snoc in *. rewrite history_scheduled in *. set (u := if _ && _ then _ else _) in *. clearbody u.
  assert (st_status (lc_state (history t0 (ys ++ [y]))) = ACTIVE -> u = law (target (cmd_value (cy_command y)))
    (position (lc_plant (history t0 ys))) (velocity (lc_plant (history t0 ys)))) as Hlaw.
  { intros (Hn & Hfr)%Ha. apply not_faulted in Hn. destruct Hu as [[_ Hu]|[Hu _]]; [done|]. exfalso. apply Hu.
    rewrite missed_snoc in Hn. unfold misses in Hn. split; [done|]. split; [tauto|]. lia. }
  rewrite history_faulted in Hf. rewrite not_faulted in Ha, Hst, Hd. split; try done.
  - intros Hna. rewrite He. destruct (faulted (history t0 (ys ++ [y]))) eqn:E; [done|]. destruct Hu as [[[Hfr _] _]|[_ Hu]]; [|done].
    exfalso. apply Hna, Ha. by rewrite <- not_faulted.
  - rewrite He. assert (within_unit f0) as H0 by (by right). destruct (faulted (history t0 (ys ++ [y]))); [done|].
    destruct Hu as [[_ ->]|[_ ->]]; [apply saturate_unit|done].
  - exists (position (lc_plant (history t0 ys))), (velocity (lc_plant (history t0 ys))), u.
    split; [apply history_trajectory|]. split; [done|]. rewrite Hx, Hv. split; [done|].
    intros Hact. rewrite He. rewrite <- (Hlaw Hact). apply Ha in Hact as [Hn _]. apply not_faulted in Hn. by rewrite Hn.
Qed.

(** ** The system *)

Section machine.
Context (b : firmware_build).

(** What a thread holds and what is published, by where the thread is and the cycles
    that were observed. *)
Definition tracks (o : observation) (t : thread) (st : control_state) : Prop :=
  let l0 := history (entered o) (shown o) in
  match t with
  | Absent | Created => under_way o = Idle /\ shown o = [] /\ st = initial_state
  | Waiting l => under_way o = Idle /\ l = l0 /\ st = lc_state l0
  | Awake k l => under_way o = Woken (releases k) (start_ms k) /\ l = l0 /\ st = lc_state l0
  | Loaded k c l =>
      under_way o = Took (releases k) (start_ms k) c /\ l = account_release k l0 /\ st = lc_state l0
  | Computed l => exists y, under_way o = Done y /\ l = run_cycle l0 y /\ st = lc_state l0
  | Stopping | Finished => under_way o = Idle /\ st = lc_state l0
  end.

(** The thread exists while [running] is set. *)
Definition alive (t : thread) : bool :=
  match t with Absent | Finished => false | _ => true end.

Record follows (o : observation) (s : system) : Prop := {
  fo_command : in_force o = commands s;
  fo_up : up o = running s;
  fo_stop : told_to_stop o = stop_requested s;
  fo_tracks : tracks o (control_thread s) (published s);
  fo_running : running s = alive (control_thread s)
}.

Lemma follows_init : follows nothing_yet power_on.
Proof. by split. Qed.

Lemma follows_thread o s e s' :
  follows o s -> control_step b e s = Some s' ->
  match e with Enter _ | Wake _ _ _ | Read | Compute _ _ | Publish | Exit => follows (observe1 o e) s' | _ => True end.
Proof.
  intros [Hc Hu Hs Ht Hr] H. destruct e; try done; cbn in H.
  - unfold thread_enter in H. destruct (control_thread s) eqn:E; try done. destruct Ht as (Hw & Hys & _).
    injection H as <-. split; try done. cbn. by rewrite Hys.
  - unfold thread_wake in H. destruct (control_thread s) eqn:E; try done. destruct Ht as (Hw & -> & Hp).
    cbn [observe1]. rewrite Hs. destruct (stop_requested s) eqn:Es; injection H as <-; split; cbn; congruence || done.
  - unfold thread_read in H. destruct (control_thread s) eqn:E; try done. destruct Ht as (Hw & -> & Hp).
    cbn [observe1]. rewrite Hw. injection H as <-. split; try done. cbn. by rewrite Hc.
  - unfold thread_compute in H. destruct (control_thread s) eqn:E; try done. destruct Ht as (Hw & -> & Hp).
    cbn [observe1]. rewrite Hw. injection H as <-. split; try done. cbn. by eexists.
  - unfold thread_publish in H. destruct (control_thread s) eqn:E; try done. destruct Ht as (y & Hw & -> & Hp).
    cbn [observe1]. rewrite Hw. injection H as <-. split; try done. unfold tracks. cbn -[history]. by rewrite history_snoc.
  - unfold thread_exit in H. destruct (control_thread s) eqn:E; try done. injection H as <-. by split.
Qed.

Lemma follows_step o s e s' : follows o s -> control_step b e s = Some s' -> follows (observe1 o e) s'.
Proof.
  intros Hf H. pose proof (follows_thread o s e s' Hf H) as Hthread. destruct Hf as [Hc Hu Hs Ht Hr]. destruct e; try done; cbn in H.
  - unfold static_control_start in H. cbn [observe1]. rewrite Hu.
    destruct (running s) eqn:E; injection H as <-; split; cbn; congruence || done.
  - unfold static_control_stop in H. cbn [observe1].
    destruct (running s) eqn:E; injection H as <-; split; cbn; rewrite ?Hu, ?Hs, ?E, ?orb_true_r, ?orb_false_r; congruence || done.
  - destruct c as [c|]; [|by injection H as <-]. unfold static_control_submit in H. rewrite submit_ok_spec in H. cbn [observe1].
    destruct (acceptable c receipt) eqn:E; injection H as <-; by split.
  - destruct (test_build b); [|done]. injection H as <-. by split.
  - destruct (timing_probe b); [|done]. injection H as <-. by split.
Qed.

Lemma follows_run es o s s' : follows o s -> run_events b es s = Some s' -> follows (foldl observe1 o es) s'.
Proof.
  revert o s. induction es as [|e es IH]; intros o s Hf H; [by injection H as <-|]. cbn [run_events] in H.
  destruct (control_step b e s) as [s1|] eqn:E; [|done]. cbn [mbind option_bind foldl] in *. eapply IH; [|exact H].
  by eapply follows_step.
Qed.

Lemma reachable_follows s : reachable b s -> exists o, follows o s.
Proof. induction 1 as [|s e s' _ [o Ho] H]; [eexists; apply follows_init|eexists; by eapply follows_step]. Qed.

Lemma control_running s : reachable b s -> running s = alive (control_thread s).
Proof. intros [o Ho]%reachable_follows. apply Ho. Qed.

(** What is published is the state after the cycles that were observed. *)
Lemma follows_published o s : follows o s -> published s = lc_state (history (entered o) (shown o)).
Proof.
  intros [_ _ _ Ht _]. unfold tracks in Ht.
  destruct (control_thread s); try (by destruct Ht as [_ ?]); try (by destruct Ht as (_ & _ & ?));
    try (by destruct Ht as (? & _ & _ & ?)); by destruct Ht as (_ & -> & ->).
Qed.

(** ** The latch *)

Lemma status_fault t0 ys : st_status (lc_state (history t0 ys)) = FAULT <-> missed t0 ys.
Proof.
  destruct ys as [|y ys _] using rev_ind.
  - split; [done|by intros ?%missed_nil].
  - apply (sh_fault t0 ys y), history_shows.
Qed.

(** A published fault stays published until a start takes effect. *)
Lemma fault_stays s e s' :
  reachable b s -> st_status (published s) = FAULT -> control_step b e s = Some s' ->
  st_status (published s') = FAULT \/ (e = Start /\ running s = false).
Proof.
  intros Hr Hf H. destruct (reachable_follows s Hr) as [o [_ _ _ Ht _]]. destruct e; cbn in H.
  - unfold static_control_start in H. destruct (running s); injection H as <-; [by left|by right].
  - unfold static_control_stop in H. left. by destruct (running s); injection H as <-.
  - left. destruct c as [c|]; [|by injection H as <-]. unfold static_control_submit in H.
    by destruct (submit_ok c receipt); injection H as <-.
  - left. by destruct (test_build b); [injection H as <-|].
  - left. by destruct (timing_probe b); [injection H as <-|].
  - unfold thread_enter in H. destruct (control_thread s); try done. destruct Ht as (_ & _ & Ht). by rewrite Ht in Hf.
  - left. unfold thread_wake in H. destruct (control_thread s); try done. by destruct (stop_requested s); injection H as <-.
  - left. unfold thread_read in H. destruct (control_thread s); try done. by injection H as <-.
  - left. unfold thread_compute in H. destruct (control_thread s); try done. by injection H as <-.
  - left. unfold thread_publish in H. destruct (control_thread s); try done. injection H as <-. cbn -[history run_cycle] in *.
    destruct Ht as (y & _ & -> & Hp). rewrite Hp in Hf. rewrite <- history_snoc. apply status_fault.
    apply status_fault in Hf. apply missed_snoc. by left.
  - left. unfold thread_exit in H. destruct (control_thread s); try done. by injection H as <-.
Qed.

(** ** Stopping *)

(** A step of the control thread. *)
Definition thread_event (e : event) : Prop :=
  match e with Enter _ | Wake _ _ _ | Read | Compute _ _ | Publish | Exit => True | _ => False end.

(** The steps the thread has left once a stop is requested. *)
Definition remaining (t : thread) : nat :=
  match t with
  | Absent | Finished => 0
  | Stopping => 1
  | Waiting _ => 2
  | Created | Computed _ => 3
  | Loaded _ _ _ => 4
  | Awake _ _ => 5
  end.

Lemma thread_step_remaining e s s' :
  thread_event e -> stop_requested s = true -> control_step b e s = Some s' ->
  stop_requested s' = true /\ remaining (control_thread s) = S (remaining (control_thread s')).
Proof.
  intros He Hs H. destruct e; try done; cbn in H;
    unfold thread_enter, thread_wake, thread_read, thread_compute, thread_publish, thread_exit in H;
    destruct (control_thread s); try done; rewrite ?Hs in H; injection H as <-; done.
Qed.

Lemma thread_steps_bound es s s' :
  Forall thread_event es -> stop_requested s = true -> run_events b es s = Some s' ->
  (length es + remaining (control_thread s') = remaining (control_thread s))%nat.
Proof.
  intros He. revert s. induction He as [|e es He _ IH]; intros s Hs H; [by injection H as ->|].
  cbn [run_events] in H. destruct (control_step b e s) as [s1|] eqn:E; [|done]. cbn [mbind option_bind] in H.
  destruct (thread_step_remaining e s s1 He Hs E) as [Hs1 Hr]. specialize (IH s1 Hs1 H). cbn [length]. lia.
Qed.

(** A thread that is not over has a step to take. *)
Lemma thread_progress s :
  remaining (control_thread s) <> 0%nat -> exists e s', thread_event e /\ control_step b e s = Some s'.
Proof.
  destruct (control_thread s) eqn:E; cbn; intros H; try done.
  - exists (Enter 0). eexists. split; [done|]. cbn. unfold thread_enter. by rewrite E.
  - exists (Wake 1 0 0). cbn. unfold thread_wake. rewrite E. destruct (stop_requested s); by eexists.
  - exists Read. eexists. split; [done|]. cbn. unfold thread_read. by rewrite E.
  - exists (Compute 0 0). eexists. split; [done|]. cbn. unfold thread_compute. by rewrite E.
  - exists Publish. eexists. split; [done|]. cbn. unfold thread_publish. by rewrite E.
  - exists Exit. eexists. split; [done|]. cbn. unfold thread_exit. by rewrite E.
Qed.

Lemma thread_finishes n s :
  reachable b s -> stop_requested s = true -> remaining (control_thread s) = n ->
  exists es s', Forall thread_event es /\ run_events b es s = Some s' /\ running s' = false.
Proof.
  revert s. induction n as [|n IH]; intros s Hr Hs Hn.
  - exists [], s. split; [constructor|]. split; [done|]. rewrite (control_running s Hr).
    by destruct (control_thread s).
  - destruct (thread_progress s) as (e & s1 & He & E); [lia|].
    destruct (thread_step_remaining e s s1 He Hs E) as [Hs1 Hr1].
    destruct (IH s1) as (es & s' & Hes & Hrun & Hf); [by econstructor|done|lia|].
    exists (e :: es), s'. split; [by constructor|]. cbn [run_events]. by rewrite E.
Qed.

(** ** Executions *)

Lemma run_reachable es s s' : reachable b s -> run_events b es s = Some s' -> reachable b s'.
Proof.
  revert s. induction es as [|e es IH]; intros s Hr H; [by injection H as <-|]. cbn [run_events] in H.
  destruct (control_step b e s) as [s1|] eqn:E; [|done]. cbn [mbind option_bind] in H. eapply IH; [|exact H].
  by econstructor.
Qed.

(** A state that is not active has no effort. *)
Lemma published_idle s : reachable b s -> st_status (published s) <> ACTIVE -> st_effort (published s) = f0.
Proof.
  intros [o E%follows_published]%reachable_follows Hs. rewrite E in *. destruct (shown o) as [|y ys _] using rev_ind; [done|].
  by apply (sh_idle (entered o) ys y), Hs; apply history_shows.
Qed.

Lemma fault_latched_run es s s' :
  reachable b s -> st_status (published s) = FAULT -> Start ∉ es -> run_events b es s = Some s' ->
  st_status (published s') = FAULT.
Proof.
  revert s. induction es as [|e es IH]; intros s Hr Hf Hn H; [by injection H as <-|]. cbn [run_events] in H.
  destruct (control_step b e s) as [s1|] eqn:E; [|done]. cbn [mbind option_bind] in H.
  apply not_elem_of_cons in Hn as [Hne Hn].
  destruct (fault_stays s e s1 Hr Hf E) as [Hf1|[-> _]]; [|done].
  eapply IH; [by econstructor|done|done|exact H].
Qed.

End machine.
End ControlSpec.

(** * What the timing probe reports

    The probe of [control.c] counts the measurements of a start in buckets of
    100 microseconds, and reports percentiles as the upper edge of a bucket.  As
    long as [99 * samples + 99] fits in 32 bits the reported value is the
    nearest-rank percentile of the measurements; beyond that the rank wraps. *)

Module ProbeSpec.
Import Control.

(** ** Sums of a histogram *)

Definition sumZ (l : list Z) : Z := foldr Z.add 0 l.

Lemma sumZ_cons x l : sumZ (x :: l) = x + sumZ l.
Proof. done. Qed.

Lemma sumZ_app l k : sumZ (l ++ k) = sumZ l + sumZ k.
Proof. unfold sumZ. induction l as [|x l IH]; cbn in *; lia. Qed.

Lemma sumZ_nonneg l : Forall (fun n => 0 <= n) l -> 0 <= sumZ l.
Proof. unfold sumZ. induction 1; cbn in *; lia. Qed.

Lemma sumZ_take_mono l i j :
  Forall (fun n => 0 <= n) l -> (i <= j)%nat -> sumZ (take i l) <= sumZ (take j l).
Proof.
  intros Hl Hij. replace j with (i + (j - i))%nat by lia.
  rewrite <- take_take_drop, sumZ_app.
  assert (0 <= sumZ (take (j - i) (drop i l))) by (by apply sumZ_nonneg, Forall_take, Forall_drop). lia.
Qed.

(** One more in a bucket adds one to every sum that covers it. *)
Lemma sumZ_incr l i k :
  (i < length l)%nat -> sumZ (take k (alter (fun n => n + 1) i l)) = sumZ (take k l) + (if decide (i < k)%nat then 1 else 0).
Proof.
  revert i k. induction l as [|x l IH]; intros i k Hi; [cbn in Hi; lia|].
  destruct k as [|k]; [done|]. cbn [length] in Hi. destruct i as [|i].
  - change (alter _ 0%nat (x :: l)) with (x + 1 :: l). cbn [take]. rewrite !sumZ_cons, decide_True by lia. lia.
  - change (alter _ (S i) (x :: l)) with (x :: alter (fun n => n + 1) i l). cbn [take].
    rewrite !sumZ_cons, IH by lia. case_decide; case_decide; lia.
Qed.

(** ** The histogram of a list of buckets *)

Definition hist_of (n : nat) (xs : list Z) : list Z := foldl (fun h x => hist_incr x h) (replicate n 0) xs.

(** How many are in a bucket below [k]. *)
Definition below (k : nat) (xs : list Z) : Z := Z.of_nat (length (filter (fun x => x < Z.of_nat k) xs)).

Lemma hist_incr_length x h : length (hist_incr x h) = length h.
Proof. apply length_alter. Qed.

(** Below 2^32 measurements no counter wraps. *)
Lemma alter_plain i h m :
  Forall (fun n => 0 <= n <= m) h -> m + 1 < 2 ^ 32 ->
  alter (fun n => u32 (n + 1)) i h = alter (fun n => n + 1) i h /\
  Forall (fun n => 0 <= n <= m + 1) (alter (fun n => n + 1) i h).
Proof.
  intros Hh Hm. revert i. induction Hh as [|x h Hx Hh IH]; intros i; [by split|].
  destruct i as [|i]; cbn.
  - unfold u32. rewrite Z.mod_small by lia. split; [done|]. constructor; [lia|].
    eapply Forall_impl; [exact Hh|]. cbn. lia.
  - destruct (IH i) as [E HF]. split; [by f_equal|]. constructor; [lia|done].
Qed.

Definition buckets : nat := Z.to_nat TIMING_BUCKET_COUNT.

Definition in_buckets (x : Z) : Prop := 0 <= x < TIMING_BUCKET_COUNT.

Lemma hist_of_snoc xs x : hist_of buckets (xs ++ [x]) = hist_incr x (hist_of buckets xs).
Proof. unfold hist_of. by rewrite foldl_app. Qed.

Lemma hist_of_length xs : length (hist_of buckets xs) = buckets.
Proof.
  induction xs as [|x xs IH] using rev_ind; [apply length_replicate|]. by rewrite hist_of_snoc, hist_incr_length.
Qed.

(** The counters are the numbers of measurements. *)
Lemma hist_of_spec xs :
  Forall in_buckets xs -> Z.of_nat (length xs) < 2 ^ 32 ->
  Forall (fun n => 0 <= n <= Z.of_nat (length xs)) (hist_of buckets xs) /\
  forall k, sumZ (take k (hist_of buckets xs)) = below k xs.
Proof.
  induction xs as [|x xs IH] using rev_ind; intros Hin Hlen.
  - split; [unfold hist_of; cbn [foldl]; apply Forall_replicate; cbn; lia|]. intros k. unfold hist_of, below. cbn [foldl].
    rewrite take_replicate. generalize (min k buckets). intros n. induction n as [|n IH]; [done|]. exact IH.
  - rewrite length_app in *. cbn [length] in *. apply Forall_app in Hin as [Hin Hx]. apply Forall_singleton in Hx as [Hx0 Hx1].
    destruct IH as [HF Hsum]; [done|lia|].
    destruct (alter_plain (Z.to_nat x) _ _ HF) as [E HF']; [lia|].
    rewrite hist_of_snoc. unfold hist_incr. rewrite E. split.
    { eapply Forall_impl; [exact HF'|]. cbn. lia. }
    intros k. rewrite sumZ_incr by (rewrite hist_of_length; unfold buckets; lia). rewrite Hsum. unfold below.
    rewrite filter_app, length_app, Nat2Z.inj_add. f_equal. rewrite filter_cons, filter_nil.
    case_decide; case_decide; cbn; lia.
Qed.

Lemma below_all xs : Forall in_buckets xs -> below buckets xs = Z.of_nat (length xs).
Proof.
  intros H. unfold below. f_equal. induction H as [|x xs [_ Hx] _ IH]; [done|].
  rewrite filter_cons, decide_True by (unfold buckets; lia). cbn. by rewrite IH.
Qed.

Lemma below_mono xs i j : (i <= j)%nat -> below i xs <= below j xs.
Proof.
  intros Hij. unfold below. induction xs as [|x xs IH]; [done|]. rewrite !filter_cons.
  case_decide; case_decide; cbn [length]; lia.
Qed.

(** ** The percentile *)

(** [v] is the upper edge of the first bucket up to which lie at least [p]
    percent of the values. *)
Definition nearest_rank (p : Z) (xs : list Z) (v : Z) : Prop :=
  exists k, 0 <= k < TIMING_BUCKET_COUNT /\ v = (k + 1) * TIMING_BUCKET_US /\
    p * Z.of_nat (length xs) <= 100 * below (Z.to_nat (k + 1)) xs /\
    forall j, 0 <= j < k -> 100 * below (Z.to_nat (j + 1)) xs < p * Z.of_nat (length xs).

(** The loop stops at the first bucket whose cumulative count reaches the rank. *)
Lemma percentile_loop_spec rank (pre hist : list Z) :
  let h := pre ++ hist in
  Forall (fun n => 0 <= n) h -> sumZ h < 2 ^ 32 -> Z.of_nat (length h) <= TIMING_BUCKET_COUNT ->
  sumZ pre < rank <= sumZ h ->
  exists k, Z.of_nat (length pre) <= k < Z.of_nat (length h) /\
    percentile_loop rank (Z.of_nat (length pre)) (sumZ pre) hist = (k + 1) * TIMING_BUCKET_US /\
    rank <= sumZ (take (Z.to_nat (k + 1)) h) /\ sumZ (take (Z.to_nat k) h) < rank.
Proof.
  intros h Hpos Hsum Hlen Hrank. revert pre h Hpos Hsum Hlen Hrank.
  induction hist as [|n hist IH]; intros pre h Hpos Hsum Hlen Hrank.
  { subst h. rewrite app_nil_r in *. lia. }
  assert (h = (pre ++ [n]) ++ hist) as Eh by (subst h; by rewrite <- app_assoc).
  assert (sumZ (pre ++ [n]) = sumZ pre + n) as Hn by (rewrite sumZ_app; unfold sumZ; cbn; lia).
  assert (0 <= sumZ (pre ++ [n]) <= sumZ h) as Hb.
  { rewrite Eh in *. apply Forall_app in Hpos as [H1 H2]. rewrite (sumZ_app (pre ++ [n])).
    pose proof (sumZ_nonneg _ H1). pose proof (sumZ_nonneg _ H2). lia. }
  assert (take (length pre) h = pre) as Etake by (subst h; by rewrite take_app_le, take_ge by lia).
  assert (take (S (length pre)) h = pre ++ [n]) as Etake'.
  { rewrite Eh, take_app_le, take_ge; [done|..]; rewrite length_app; cbn; lia. }
  assert (length pre < length h)%nat as Hl by (subst h; rewrite length_app; cbn; lia).
  cbn [percentile_loop]. unfold u32 at 1. rewrite Z.mod_small by lia. rewrite <- Hn.
  unfold TIMING_BUCKET_COUNT, TIMING_BUCKET_US in *. destruct (Z.leb_spec rank (sumZ (pre ++ [n]))) as [Hle|Hgt].
  - exists (Z.of_nat (length pre)). split; [lia|]. split; [|split].
    + unfold u32. rewrite !Z.mod_small by (rewrite ?Z.mod_small; lia). done.
    + replace (Z.to_nat (Z.of_nat (length pre) + 1)) with (S (length pre)) by lia. by rewrite Etake'.
    + rewrite Nat2Z.id, Etake. lia.
  - destruct (IH (pre ++ [n])) as (k & Hk & E & Hr1 & Hr2); rewrite <- ?Eh; try done; [lia|].
    rewrite <- Eh in Hk, Hr1, Hr2. rewrite length_app in Hk, E. cbn [length] in Hk, E.
    exists k. split; [lia|]. split; [|done].
    rewrite <- E. unfold u32. rewrite Z.mod_small by lia. f_equal; lia.
Qed.

Lemma timing_percentile_nearest p xs :
  0 < p <= 100 -> Forall in_buckets xs -> xs <> [] -> p * Z.of_nat (length xs) + 99 < 2 ^ 32 ->
  nearest_rank p xs (timing_percentile (hist_of buckets xs) (Z.of_nat (length xs)) p).
Proof.
  intros Hp Hin Hne Hfit. assert (0 < Z.of_nat (length xs)) as Hpos by (destruct xs; [done|cbn; lia]).
  destruct (hist_of_spec xs Hin ltac:(nia)) as [HF Hsum].
  set (n := Z.of_nat (length xs)) in *. set (h := hist_of buckets xs) in *.
  assert (sumZ h = n) as Htot.
  { rewrite <- (take_ge h buckets) by (unfold h; by rewrite hist_of_length). rewrite Hsum. by apply below_all. }
  unfold timing_percentile. destruct (Z.eqb_spec n 0); [lia|].
  assert (u32 (u32 (n * p) + 99) / 100 = (n * p + 99) / 100) as ->
    by (unfold u32; rewrite !Z.mod_small by (rewrite ?Z.mod_small; nia); done).
  set (rank := (n * p + 99) / 100). assert (100 * rank <= n * p + 99 < 100 * rank + 100) as Hrank.
  { unfold rank. pose proof (Z.div_mod (n * p + 99) 100). pose proof (Z.mod_pos_bound (n * p + 99) 100). lia. }
  destruct (percentile_loop_spec rank [] h) as (k & Hk & E & Hr1 & Hr2).
  - eapply Forall_impl; [exact HF|]. cbn. lia.
  - cbn [app]. nia.
  - cbn [app]. unfold h. rewrite hist_of_length. done.
  - cbn [app]. change (sumZ []) with 0. nia.
  - cbn [app] in *. change (sumZ []) with 0 in E. change (Z.of_nat (length [])) with 0 in *. rewrite E.
    exists k. unfold h in Hk. rewrite hist_of_length in Hk. rewrite Hsum in Hr1, Hr2.
    split; [exact Hk|]. split; [done|]. fold n. split; [lia|]. intros j Hj.
    pose proof (below_mono xs (Z.to_nat (j + 1)) (Z.to_nat k)). lia.
Qed.

(** One sample past the bound the rank of the 99th percentile is zero, and the
    first bucket reaches it. *)
Lemma wrapped_rank (xs : list Z) : timing_percentile (hist_of buckets xs) (u32 43383508) 99 = 100.
Proof.
  unfold timing_percentile. change (u32 43383508) with 43383508. cbn [Z.eqb].
  change (u32 (u32 (43383508 * 99) + 99) / 100) with 0. pose proof (hist_of_length xs) as Hl.
  destruct (hist_of buckets xs) as [|n h]; [done|]. cbn [percentile_loop].
  assert (0 <= u32 (0 + n)) as Hn by (unfold u32; apply Z.mod_pos_bound; lia).
  by rewrite (proj2 (Z.leb_le _ _) Hn).
Qed.

(** ** The report *)

(** The cycle counts of one measured cycle. *)
Record measurement := Measurement { m_release : Z; m_start : Z; m_completion : Z }.

(** How many values lie under a bound. *)
Definition under (v : Z) (us : list Z) : Z := Z.of_nat (length (filter (fun u => u < v) us)).

(** [v] is the [p]th percentile of the values, to the resolution of the buckets:
    at least [p] percent lie under [v] (unless [v] is the edge of the last
    bucket, which has no upper end), and fewer than [p] percent under [v - 100]. *)
Definition percentile_of (p : Z) (us : list Z) (v : Z) : Prop :=
  TIMING_BUCKET_US <= v <= TIMING_BUCKET_COUNT * TIMING_BUCKET_US /\
  (v < TIMING_BUCKET_COUNT * TIMING_BUCKET_US -> p * Z.of_nat (length us) <= 100 * under v us) /\
  100 * under (v - TIMING_BUCKET_US) us < p * Z.of_nat (length us).

Lemma bucket_below u k :
  0 <= u -> 0 <= k < TIMING_BUCKET_COUNT -> bucket_of u < k <-> u < k * TIMING_BUCKET_US.
Proof.
  unfold bucket_of, TIMING_BUCKET_US, TIMING_BUCKET_COUNT. intros Hu Hk.
  pose proof (Z.div_mod u 100). pose proof (Z.mod_pos_bound u 100). lia.
Qed.

Lemma below_under us k :
  Forall (fun u => 0 <= u) us -> 0 <= k < TIMING_BUCKET_COUNT ->
  below (Z.to_nat k) (bucket_of <$> us) = under (k * TIMING_BUCKET_US) us.
Proof.
  intros Hus Hk. unfold below, under. rewrite Z2Nat.id by lia. f_equal.
  induction Hus as [|u us Hu _ IH]; [done|]. rewrite fmap_cons, !filter_cons.
  pose proof (bucket_below u k Hu Hk). case_decide; case_decide; cbn [length]; [by f_equal|tauto|tauto|done].
Qed.

Lemma bucket_in us : Forall (fun u => 0 <= u) us -> Forall in_buckets (bucket_of <$> us).
Proof.
  intros H. apply Forall_fmap. eapply Forall_impl; [exact H|]. intros u Hu. cbn in *.
  unfold in_buckets, bucket_of, TIMING_BUCKET_US, TIMING_BUCKET_COUNT. pose proof (Z.div_pos u 100). lia.
Qed.

Lemma percentile_of_values p us :
  0 < p <= 100 -> Forall (fun u => 0 <= u) us -> us <> [] -> p * Z.of_nat (length us) + 99 < 2 ^ 32 ->
  percentile_of p us (timing_percentile (hist_of buckets (bucket_of <$> us)) (Z.of_nat (length us)) p).
Proof.
  intros Hp Hus Hne Hfit.
  assert (length (bucket_of <$> us) = length us) as El by apply length_fmap.
  destruct (timing_percentile_nearest p (bucket_of <$> us) Hp (bucket_in us Hus)) as (k & Hk & Ev & H1 & H2).
  { intros E. by apply fmap_nil_inv in E. }
  { by rewrite El. }
  rewrite El in *. set (v := timing_percentile _ _ _) in *.
  unfold percentile_of. replace (v - TIMING_BUCKET_US) with (k * TIMING_BUCKET_US) by lia.
  split; [unfold TIMING_BUCKET_US, TIMING_BUCKET_COUNT in *; lia|]. split.
  - intros Hv. rewrite below_under in H1; [by rewrite Ev|done|].
    unfold TIMING_BUCKET_US, TIMING_BUCKET_COUNT in *. lia.
  - destruct (decide (k = 0)) as [->|Hk0].
    + assert (under (0 * TIMING_BUCKET_US) us = 0) as ->.
      { unfold under. clear -Hus. induction Hus as [|u us Hu _ IH]; [done|]. rewrite filter_cons, decide_False by lia. done. }
      destruct us; [done|]. cbn [length]. lia.
    + specialize (H2 (k - 1)). rewrite Z.sub_add, below_under in H2 by (done || lia). lia.
Qed.

Section probe.
Context (cyc_to_us : Z -> Z).
Hypothesis cyc_to_us_nonneg : forall n, 0 <= n -> 0 <= cyc_to_us n.

Definition release_us (m : measurement) : Z := Z.min (cyc_to_us (u32 (m_start m - m_release m))) UINT32_MAX.

Definition late_us (m : measurement) : Z :=
  Z.min (Z.max 0 (cyc_to_us (u32 (m_completion m - m_release m)) - CONTROL_DEADLINE_MS * 1000)) UINT32_MAX.

Definition record_all (ms : list measurement) : timing :=
  foldl (fun t m => timing_record cyc_to_us (m_release m) (m_start m) (m_completion m) t) no_timing ms.

Definition maxZ (l : list Z) : Z := foldr Z.max 0 l.

Lemma maxZ_snoc l x : maxZ (l ++ [x]) = Z.max (maxZ l) x \/ x < 0.
Proof. unfold maxZ. induction l as [|y l IH]; cbn in *; lia. Qed.

Lemma release_us_nonneg m : 0 <= release_us m.
Proof.
  unfold release_us, UINT32_MAX. pose proof (cyc_to_us_nonneg (u32 (m_start m - m_release m))).
  assert (0 <= u32 (m_start m - m_release m)) by (unfold u32; apply Z.mod_pos_bound; lia). lia.
Qed.

Lemma late_us_nonneg m : 0 <= late_us m.
Proof. unfold late_us, UINT32_MAX. lia. Qed.

(** The probe holds the histograms of the measurements, and their maxima. *)
Lemma record_all_spec ms :
  samples (record_all ms) = u32 (Z.of_nat (length ms)) /\
  release_hist (record_all ms) = hist_of buckets (bucket_of <$> (release_us <$> ms)) /\
  completion_hist (record_all ms) = hist_of buckets (bucket_of <$> (late_us <$> ms)) /\
  release_max_us (record_all ms) = maxZ (release_us <$> ms) /\
  completion_max_us (record_all ms) = maxZ (late_us <$> ms).
Proof.
  induction ms as [|m ms (IH1 & IH2 & IH3 & IH4 & IH5)] using rev_ind; [done|].
  unfold record_all in *. rewrite foldl_app. cbn [foldl timing_record samples release_hist completion_hist
    release_max_us completion_max_us].
  rewrite IH1, IH2, IH3, IH4, IH5, !fmap_app, length_app. cbn [length fmap list_fmap]. rewrite !hist_of_snoc.
  assert ((if CONTROL_DEADLINE_MS * 1000 <? cyc_to_us (u32 (m_completion m - m_release m))
           then cyc_to_us (u32 (m_completion m - m_release m)) - CONTROL_DEADLINE_MS * 1000 else 0) =
          Z.max 0 (cyc_to_us (u32 (m_completion m - m_release m)) - CONTROL_DEADLINE_MS * 1000)) as ->
    by (destruct (Z.ltb_spec (CONTROL_DEADLINE_MS * 1000) (cyc_to_us (u32 (m_completion m - m_release m)))); lia).
  fold (late_us m) (release_us m).
  split; [unfold u32; rewrite Zplus_mod_idemp_l; f_equal; lia|]. split; [done|]. split; [done|].
  pose proof (release_us_nonneg m). pose proof (late_us_nonneg m).
  destruct (maxZ_snoc (release_us <$> ms) (release_us m)), (maxZ_snoc (late_us <$> ms) (late_us m)); lia.
Qed.

(** The report is right while the rank fits. *)
Record reports (ms : list measurement) (r : timing_report) : Prop := {
  re_samples : tr_samples r = Z.of_nat (length ms);
  re_release : percentile_of 50 (release_us <$> ms) (release_p50_us r) /\
    percentile_of 95 (release_us <$> ms) (release_p95_us r) /\ percentile_of 99 (release_us <$> ms) (release_p99_us r);
  re_completion : percentile_of 50 (late_us <$> ms) (completion_p50_us r) /\
    percentile_of 95 (late_us <$> ms) (completion_p95_us r) /\ percentile_of 99 (late_us <$> ms) (completion_p99_us r);
  re_max : tr_release_max_us r = maxZ (release_us <$> ms) /\ tr_completion_max_us r = maxZ (late_us <$> ms)
}.

Lemma timing_read_reports ms :
  ms <> [] -> 99 * Z.of_nat (length ms) + 99 < 2 ^ 32 ->
  reports ms (static_control_timing_read (record_all ms)).
Proof.
  intros Hne Hfit. destruct (record_all_spec ms) as (Hs & Hrh & Hch & Hrm & Hcm).
  unfold u32 in Hs. rewrite Z.mod_small in Hs by lia.
  assert (forall f p, (forall m, 0 <= f m) -> 0 < p <= 99 ->
    percentile_of p (f <$> ms) (timing_percentile (hist_of buckets (bucket_of <$> (f <$> ms))) (Z.of_nat (length ms)) p)) as Hall.
  { intros f p Hf Hp. assert (length (f <$> ms) = length ms) as El by apply length_fmap. rewrite <- El.
    apply percentile_of_values; [lia| |by intros E%fmap_nil_inv|rewrite El; nia].
    apply Forall_fmap, Forall_true. exact Hf. }
  pose proof release_us_nonneg. pose proof late_us_nonneg.
  split; cbn [static_control_timing_read tr_samples release_p50_us release_p95_us release_p99_us tr_release_max_us
    completion_p50_us completion_p95_us completion_p99_us tr_completion_max_us]; rewrite ?Hs, ?Hrh, ?Hch, ?Hrm, ?Hcm; [done|..|done].
  - split; [|split]; apply Hall; done || lia.
  - split; [|split]; apply Hall; done || lia.
Qed.

End probe.

End ProbeSpec.
