(* ===== verification/Firmware.v ===== *)
(** * The static-control application

    [samples/static_control/src/main.c]: start-up with its error exits and the
    cleanup, the loop that spins the executor, publishes the state and prints
    the reports, and the command callback.  What ROS, the network and the clock
    answer is the environment's; the Wi-Fi connection is one of its answers.

    Module [WifiStack] has the size of the vendor's Wi-Fi task stack in the
    ESP32-C6 image. *)

From Stdlib Require Import Ascii String.
From S2P Require Import Prelude PyStr PyFloat PyObj Process Config MapFile Inventory Admit AdmitSpec Allocator Control.

#[local] Open Scope Z_scope.

Module Firmware.
Import Control.

Abbreviation alloc_metrics := Allocator.metrics.

Definition ROS_SPIN_TIMEOUT_MS : Z := 20.
Definition TELEMETRY_PERIOD_MS : Z := 100.
Definition REPORT_PERIOD_MS : Z := 1000.
Definition UINT8_MAX : Z := 255.

(** [ key=value] for the numbers of a line *)
Definition field (k : string) (v : Z) : string := " " +:+ k +:+ "=" +:+ str_of_Z v.

(** ** Commands *)

(** The counters of the callback and the system it submits to. *)
Record inbox := Inbox { accepted_commands : Z; rejected_commands : Z; control : system }.

Definition command_callback (c : command) (uptime : Z) (i : inbox) : inbox :=
  match static_control_submit (Some c) uptime (control i) with
  | (true, s) => Inbox (u32 (accepted_commands i + 1)) (rejected_commands i) s
  | (false, s) => Inbox (accepted_commands i) (u32 (rejected_commands i + 1)) s
  end.

(** ** Reports *)

(** What a report is printed from. *)
Record snapshot := Snapshot {
  sn_accepted : Z;
  sn_rejected : Z;
  sn_ros : alloc_metrics;
  sn_middleware : alloc_metrics;
  sn_state : control_state;
  sn_stack : option Z;
  sn_timing : option timing_report
}.

Definition stack_fields (stack : option Z) : string :=
  match stack with
  | Some n => " control_stack_unused=measured" +:+ field "unused_bytes" n
  | None => " control_stack_unused=unavailable"
  end.

(** [prepared] are the counters after start-up; the differences are [size_t]. *)
Definition metrics_line (c : Allocator.config) (ros_prepared middleware_prepared : alloc_metrics) (r : snapshot) : string :=
  "STATIC_CONTROL_METRICS" +:+ field "accepted" (sn_accepted r) +:+ field "rejected" (sn_rejected r) +:+
  field "ros_steady_alloc_calls"
    (Allocator.wrap c (Allocator.calls (sn_ros r) - Allocator.calls ros_prepared)) +:+
  field "middleware_steady_alloc_calls"
    (Allocator.wrap c (Allocator.calls (sn_middleware r) - Allocator.calls middleware_prepared)) +:+
  field "ros_high_water" (Allocator.high_water_bytes (sn_ros r)) +:+
  field "middleware_high_water" (Allocator.high_water_bytes (sn_middleware r)) +:+
  field "max_lateness_us" (max_release_lateness_us (sn_state r)) +:+
  field "skipped" (skipped_releases (sn_state r)) +:+ stack_fields (sn_stack r).

Definition timing_line (t : timing_report) : string :=
  "STATIC_CONTROL_TIMING" +:+ field "samples" (tr_samples t) +:+
  field "release_p50_us" (release_p50_us t) +:+ field "release_p95_us" (release_p95_us t) +:+
  field "release_p99_us" (release_p99_us t) +:+ field "release_max_us" (tr_release_max_us t) +:+
  field "completion_p50_us" (completion_p50_us t) +:+ field "completion_p95_us" (completion_p95_us t) +:+
  field "completion_p99_us" (completion_p99_us t) +:+ field "completion_max_us" (tr_completion_max_us t).

Definition status_line (st : control_state) : string :=
  "STATIC_CONTROL_STATUS" +:+ field "status" (status_code (st_status st)) +:+
  field "sequence" (command_sequence st) +:+ field "cycles" (control_cycles st) +:+
  field "skipped" (skipped_releases st).

(** The [ControlState] message. *)
Record state_message := StateMessage {
  ms_position : f32; ms_velocity : f32; ms_effort : f32;
  ms_command_sequence : Z; ms_control_cycles : Z; ms_skipped_releases : Z; ms_status : Z
}.

Definition message_of (st : control_state) : state_message :=
  StateMessage (st_position st) (st_velocity st) (st_effort st) (command_sequence st) (control_cycles st)
               (skipped_releases st) (status_code (st_status st)).

Section firmware.
(** The results of the ROS client library and of its logging. *)
Context (RCL_RET_OK RCL_RET_TIMEOUT RCUTILS_RET_OK : Z) (c : Allocator.config).

(** [check]: the answer and what it prints, with the library's error text. *)
Definition check (result : Z) (operation detail : string) : bool * list string :=
  if result =? RCL_RET_OK then (true, [])
  else (false, ["STATIC_CONTROL_ERROR operation=" +:+ operation +:+ " code=" +:+ str_of_Z result +:+
                " detail=" +:+ detail]).

(** ** The loop *)

Record loop_state := LoopState { next_telemetry_ms : Z; next_report_ms : Z; previous_status : Z }.

(** What one turn of the loop meets: the state is read for the message, and again
    for the report. *)
Record turn := Turn {
  tn_spin : Z;
  tn_now : Z;
  tn_state : control_state;
  tn_publish : Z;
  tn_detail : string;
  tn_snapshot : snapshot
}.

Record turn_result := TurnResult { tr_lines : list string; tr_messages : list state_message; tr_state : loop_state }.

Definition spin_lines (t : turn) : list string :=
  if negb (tn_spin t =? RCL_RET_OK) && negb (tn_spin t =? RCL_RET_TIMEOUT)
  then snd (check (tn_spin t) "spin_some" (tn_detail t)) else [].

(** The state is published, and printed when its status is new. *)
Definition telemetry (t : turn) (s : loop_state) : turn_result :=
  if next_telemetry_ms s <=? tn_now t then
    let st := tn_state t in
    let code := status_code (st_status st) in
    TurnResult
      ((if negb (tn_publish t =? RCL_RET_OK) then snd (check (tn_publish t) "publish_state" (tn_detail t)) else []) ++
       (if negb (code =? previous_status s) then [status_line st] else []))
      [message_of st]
      (LoopState (tn_now t + TELEMETRY_PERIOD_MS) (next_report_ms s) code)
  else TurnResult [] [] s.

Definition report (ros_prepared middleware_prepared : alloc_metrics) (t : turn) (s : loop_state) : turn_result :=
  if next_report_ms s <=? tn_now t then
    TurnResult
      (metrics_line c ros_prepared middleware_prepared (tn_snapshot t) ::
       match sn_timing (tn_snapshot t) with Some r => [timing_line r] | None => [] end)
      [] (LoopState (next_telemetry_ms s) (tn_now t + REPORT_PERIOD_MS) (previous_status s))
  else TurnResult [] [] s.

Definition loop_turn (ros_prepared middleware_prepared : alloc_metrics) (t : turn) (s : loop_state) : turn_result :=
  let r1 := telemetry t s in
  let r2 := report ros_prepared middleware_prepared t (tr_state r1) in
  TurnResult (spin_lines t ++ tr_lines r1 ++ tr_lines r2) (tr_messages r1) (tr_state r2).

(** Many turns: what was printed and published, and the state. *)
Definition loop_turns (ros_prepared middleware_prepared : alloc_metrics) (ts : list turn) (s : loop_state) : turn_result :=
  foldl (fun acc t =>
    let r := loop_turn ros_prepared middleware_prepared t (tr_state acc) in
    TurnResult (tr_lines acc ++ tr_lines r) (tr_messages acc ++ tr_messages r) (tr_state r))
    (TurnResult [] [] s) ts.

(** ** Start-up and cleanup *)

(** The calls that acquire and release, in order. *)
Inductive call :=
  | SupportInit | DeploymentInit | ControlStart
  | ControlStop | DeploymentFini | SupportFini | LoggingShutdown.

#[export] Instance call_eq_dec : EqDecision call.
Proof. solve_decision. Defined.

Record start_env := StartEnv {
  board : string;
  network_ready : bool * list string;
  support_init : Z;
  deployment_init : Z;
  control_start : bool;
  detail : string;
  prepared : alloc_metrics * alloc_metrics;
  start_uptime : Z;
  deployment_fini : Z;
  support_fini : Z;
  logging_shutdown : Z;
  final_metrics : alloc_metrics * alloc_metrics
}.

(** How [main] goes on: it returns, or enters its loop. *)
Inductive outcome := Returns (code : Z) | Loops (s : loop_state).

Record start_result := StartResult { sr_calls : list call; sr_lines : list string; sr_outcome : outcome }.

(** The label [cleanup], with the three flags. *)
Definition cleanup (e : start_env) (support_initialized deployment_initialized control_started : bool) (result : Z) :
    start_result :=
  let stop := if control_started then [ControlStop] else [] in
  let deployment := if deployment_initialized then [DeploymentFini] else [] in
  let support := if support_initialized then [SupportFini] else [] in
  let result := if deployment_initialized && negb (deployment_fini e =? RCL_RET_OK) then 1 else result in
  let result := if support_initialized && negb (support_fini e =? RCL_RET_OK) then 1 else result in
  let result := if negb (logging_shutdown e =? RCUTILS_RET_OK) then 1 else result in
  StartResult (stop ++ deployment ++ support ++ [LoggingShutdown])
    ["STATIC_CONTROL_CLEANUP" +:+ field "result" result +:+
     field "ros_live" (Allocator.live_bytes (final_metrics e).1) +:+
     field "middleware_live" (Allocator.live_bytes (final_metrics e).2)]
    (Returns result).

Definition after (calls : list call) (lines : list string) (r : start_result) : start_result :=
  StartResult (calls ++ sr_calls r) (lines ++ sr_lines r) (sr_outcome r).

Definition ready_line (e : start_env) : string :=
  "STATIC_CONTROL_READY" +:+ field "ros_alloc_calls" (Allocator.calls (prepared e).1) +:+
  field "middleware_alloc_calls" (Allocator.calls (prepared e).2).

Definition main (e : start_env) : start_result :=
  after [] ["STATIC_CONTROL_START board=" +:+ board e +:+ " period_ms=10 expiry_ms=250 deadline_ms=10"] (
  after [] (network_ready e).2 (
  if negb (network_ready e).1 then StartResult [] [] (Returns 1)
  else
    let '(ok, lines) := check (support_init e) "support_init" (detail e) in
    after [SupportInit] lines (
    if negb ok then cleanup e false false false 1
    else
      let '(ok, lines) := check (deployment_init e) "deployment_init" (detail e) in
      after [DeploymentInit] lines (
      if negb ok then cleanup e true false false 1
      else
        if negb (control_start e) then
          after [ControlStart] ["STATIC_CONTROL_ERROR operation=control_start"] (cleanup e true true false 1)
        else
          StartResult [ControlStart] [ready_line e]
            (Loops (LoopState (start_uptime e) (start_uptime e + REPORT_PERIOD_MS) UINT8_MAX)))))).

End firmware.
End Firmware.

(** * The ESP32-C6 Wi-Fi stack provider

    [platform/esp32c6_wifi_stack.c] replaces the vendor's stack size by one with
    room for the image's TLS copy.  [tools/admit_esp32c6.py] computes the same
    number to judge the stack: here the two are compared. *)

Module WifiStack.
Import Admit AdmitSpec.

(** The linker's TLS symbols: sizes and alignments. *)
Record tls_symbols := TlsSymbols { tdata_size : Z; tbss_size : Z; tdata_align : Z; tbss_align : Z }.

Definition tls_size (t : tls_symbols) : Z := tdata_size t + tbss_size t.
Definition tls_align (t : tls_symbols) : Z := Z.max (tdata_align t) (tbss_align t).

(** [unsigned] *)
Definition u32 (z : Z) : Z := z mod 2 ^ 32.

Section provider.
(** [ROUND_UP] of [zephyr/sys/util.h]. *)
Context (ROUND_UP : Z -> Z -> Z).

Definition wrap_config_get_wifi_task_stack_size (real : Z) (t : tls_symbols) : Z :=
  let tls := u32 (tls_size t) in
  let align := u32 (tls_align t) in
  u32 (ROUND_UP (u32 (real + tls + align - 1 + 99 + 256)) 16).

(** The documented value, short of the end of the range. *)
Context (round_up_spec : forall x a, 0 < a -> 0 <= x -> x + a <= 2 ^ 32 -> ROUND_UP x a = (x + a - 1) / a * a).

(** An image whose TLS fits: sizes in range, alignments of at least one. *)
Record tls_ok (t : tls_symbols) : Prop := {
  to_data : 0 <= tdata_size t;
  to_bss : 0 <= tbss_size t;
  to_align : 1 <= tls_align t;
  to_small : tls_size t + tls_align t < 2 ^ 31
}.

(** The vendor's four answers, per the disassembly. *)
Definition vendor_sizes : list Z := [3072; 3584; 6144; 6656].

Lemma wrap_config_spec real t :
  tls_ok t -> 0 <= real <= 6656 ->
  wrap_config_get_wifi_task_stack_size real t =
  (real + (tls_size t + tls_align t - 1) + 99 + 256 + 15) / 16 * 16.
Proof using round_up_spec.
  intros [Hd Hb Ha Hs] Hr. unfold wrap_config_get_wifi_task_stack_size, u32.
  assert (0 <= tls_size t) by (unfold tls_size; lia).
  rewrite (Z.mod_small (tls_size t)), (Z.mod_small (tls_align t)) by lia.
  rewrite (Z.mod_small (real + _ + _ - 1 + 99 + 256)) by lia. rewrite round_up_spec by lia.
  replace (real + tls_size t + tls_align t - 1 + 99 + 256 + 16 - 1)
    with (real + (tls_size t + tls_align t - 1) + 99 + 256 + 15) by lia.
  set (x := real + _ + 99 + 256 + 15). apply Z.mod_small.
  pose proof (Z.div_mod x 16). pose proof (Z.mod_pos_bound x 16). lia.
Qed.

(** The provider leaves the vendor's size whole: TLS at any alignment, a frame
    overhead of up to 99 bytes and a margin of up to 256 fit besides. *)
Lemma wrap_config_holds real t overhead margin :
  tls_ok t -> 0 <= real <= 6656 -> overhead <= 99 -> margin <= 256 ->
  holds (wrap_config_get_wifi_task_stack_size real t) real (tls_size t) (tls_align t) overhead margin false.
Proof using round_up_spec.
  intros Ht Hr Ho Hm. rewrite wrap_config_spec by done. unfold holds, needs. set (x := real + _ + 99 + 256 + 15).
  pose proof (Z.div_mod x 16). pose proof (Z.mod_pos_bound x 16). lia.
Qed.

End provider.
End WifiStack.
