(* ===== verification/FirmwareSpec.v ===== *)
(** * What the application prints and leaves

    The reports are lines the host tools read: the metrics line gives the
    allocation check the number of allocations since start-up, the timing line
    gives the timing check the probe's report.  A start that fails releases
    exactly what it acquired. *)

From Stdlib Require Import Ascii String.
From S2P Require Import Prelude PyStr Regex RegexScan Fields PyFloat PyObj Process Config MapFile.
From S2P Require Import Metrics MetricsSpec Timing TimingSpec Allocator AllocatorSpec Control Firmware.

#[local] Open Scope Z_scope.

Module FirmwareSpec.
Import RegexScan Process Fields Firmware.

(** ** The metrics line *)

Section lines.
Context (c : Allocator.config).

Definition num (k : string) (v : Z) : word := Field k (str_of_Z v).

(** The words of the line, as the check's log format has them. *)
Definition metrics_words (ros0 mw0 : alloc_metrics) (r : snapshot) : list word :=
  [num "accepted" (sn_accepted r); num "rejected" (sn_rejected r);
   num "ros_steady_alloc_calls" (Allocator.wrap c (Allocator.calls (sn_ros r) - Allocator.calls ros0));
   num "middleware_steady_alloc_calls" (Allocator.wrap c (Allocator.calls (sn_middleware r) - Allocator.calls mw0));
   num "ros_high_water" (Allocator.high_water_bytes (sn_ros r));
   num "middleware_high_water" (Allocator.high_water_bytes (sn_middleware r));
   num "max_lateness_us" (Control.max_release_lateness_us (sn_state r));
   num "skipped" (Control.skipped_releases (sn_state r))] ++
  match sn_stack r with
  | Some n => [Skipped "control_stack_unused" "measured"; num "unused_bytes" n]
  | None => [Skipped "control_stack_unused" "unavailable"]
  end.

Lemma metrics_line_text ros0 mw0 r :
  metrics_line c ros0 mw0 r = MetricsSpec.log_text (MetricsSpec.Marker EmptyString (metrics_words ros0 mw0 r)).
Proof.
  unfold metrics_line, metrics_words, stack_fields, MetricsSpec.log_text.
  destruct (sn_stack r); cbn [app words_text word_text field_text num]; unfold field, field_text, num;
    cbn [fst snd]; rewrite ?str_app_assoc, ?str_app_nil_r; reflexivity.
Qed.

(** The counters are unsigned. *)
Record printable (r : snapshot) : Prop := {
  pr_accepted : 0 <= sn_accepted r;
  pr_rejected : 0 <= sn_rejected r;
  pr_ros : 0 <= Allocator.high_water_bytes (sn_ros r);
  pr_middleware : 0 <= Allocator.high_water_bytes (sn_middleware r);
  pr_lateness : 0 <= Control.max_release_lateness_us (sn_state r);
  pr_skipped : 0 <= Control.skipped_releases (sn_state r);
  pr_stack n : sn_stack r = Some n -> 0 <= n
}.

Lemma num_line k v : MetricsSpec.one_line k = true -> 0 <= v -> MetricsSpec.one_line (word_text (num k v)) = true.
Proof.
  intros Hk Hv. unfold MetricsSpec.one_line in *. cbn [num word_text]. unfold field_text. cbn [fst snd].
  assert (str_all (fun c => negb (is_linebreak c)) (str_of_Z v) = true) as Hn.
  { apply (str_all_impl is_digit); [ascii_class|]. pose proof (str_of_Z_word v Hv) as Hw. by destruct (str_of_Z v). }
  by rewrite !str_all_app, Hk, Hn.
Qed.

Lemma words_line l : Forall (fun w => MetricsSpec.one_line (word_text w) = true) l -> MetricsSpec.one_line (words_text l) = true.
Proof.
  induction 1 as [|w l Hw _ IH]; [done|]. unfold MetricsSpec.one_line in *. cbn [words_text]. by rewrite str_all_app, Hw, IH.
Qed.

Lemma num_ok k v : name_ok k = true -> 0 <= v -> word_ok is_digit (num k v) = true.
Proof. intros Hk Hv. cbn. unfold field_ok. cbn [fst snd]. rewrite Hk. by apply str_of_Z_word. Qed.

Lemma wrap_range z : 0 <= Allocator.wrap c z < Allocator.modulus c.
Proof. apply Z.mod_pos_bound, AllocatorSpec.modulus_pos. Qed.

(** The printed line is one of the log's. *)
Lemma metrics_line_ok ros0 mw0 r :
  printable r -> MetricsSpec.log_ok (MetricsSpec.Marker EmptyString (metrics_words ros0 mw0 r)) = true.
Proof.
  intros [H1 H2 H3 H4 H5 H6 H7]. unfold MetricsSpec.log_ok. pose proof wrap_range as Hw.
  set (ws := metrics_words ros0 mw0 r).
  assert (Forall (fun w => MetricsSpec.one_line (word_text w) = true /\ word_ok is_digit w = true) ws) as Hws.
  { assert (forall k v, MetricsSpec.one_line k = true -> name_ok k = true -> 0 <= v ->
      MetricsSpec.one_line (word_text (num k v)) = true /\ word_ok is_digit (num k v) = true) as Hn
      by (intros; split; [by apply num_line|by apply num_ok]).
    unfold ws, metrics_words. apply Forall_app. split.
    - repeat (apply Forall_cons; split; [apply Hn; [done|done|first [assumption|apply Hw]]|]). constructor.
    - destruct (sn_stack r) as [n|]; repeat apply Forall_cons_2; try done; [apply Hn; auto|..]; apply Forall_nil_2. }
  apply Forall_and in Hws as [Hl Hok]. cbn [MetricsSpec.log_text]. unfold MetricsSpec.one_line.
  rewrite !str_all_app. pose proof (words_line ws Hl) as Hwl. unfold MetricsSpec.one_line in Hwl. rewrite Hwl.
  cbn [andb]. apply andb_true_iff. split; [done|]. cbn [andb no_equals str_all]. apply forallb_forall.
  intros w Hin%list_elem_of_In. rewrite Forall_forall in Hok. by apply Hok.
Qed.

(** What the check reads from it. *)
Definition sample_of (ros0 mw0 : alloc_metrics) (r : snapshot) : Metrics.sample :=
  Metrics.Sample (Allocator.wrap c (Allocator.calls (sn_ros r) - Allocator.calls ros0))
                 (Allocator.wrap c (Allocator.calls (sn_middleware r) - Allocator.calls mw0)).

Lemma metrics_line_sample ros0 mw0 r :
  Metrics.records_sample (MetricsSpec.marker_values (metrics_words ros0 mw0 r)) (sample_of ros0 mw0 r).
Proof.
  unfold Metrics.records_sample, MetricsSpec.marker_values, metrics_words.
  pose proof (wrap_range (Allocator.calls (sn_ros r) - Allocator.calls ros0)) as [H1 _].
  pose proof (wrap_range (Allocator.calls (sn_middleware r) - Allocator.calls mw0)) as [H2 _].
  cbn [sample_of Metrics.ros_calls Metrics.middleware_calls].
  set (x := Allocator.wrap c (Allocator.calls (sn_ros r) - _)) in *.
  set (y := Allocator.wrap c (Allocator.calls (sn_middleware r) - _)) in *.
  rewrite <- (digits_value_str x H1) at 2. rewrite <- (digits_value_str y H2) at 3.
  destruct (sn_stack r); split; reflexivity.
Qed.

(** ** A log of a run *)

(** What stands in a log: a report, with the allocator's ledger when it was
    printed, and lines of other origin. *)
Inductive entry :=
  | Reported (g : AllocatorSpec.ledger) (r : snapshot)
  | Other (line : string).

(** The counters [ros2_zephyr_allocation_metrics] gives for a ledger. *)
Definition counters_of (g : AllocatorSpec.ledger) (d : Allocator.allocation_domain) : alloc_metrics :=
  AllocatorSpec.account_metrics c (AllocatorSpec.accounts g d) (AllocatorSpec.held d (AllocatorSpec.live g)).

Section run.
(** The ledger when start-up was done. *)
Context (g0 : AllocatorSpec.ledger).

(** The allocations of a domain since then. *)
Definition since (d : Allocator.allocation_domain) (g : AllocatorSpec.ledger) : Z :=
  AllocatorSpec.allocations (AllocatorSpec.accounts g d) - AllocatorSpec.allocations (AllocatorSpec.accounts g0 d).

(** The report is of its ledger, and fewer allocations were made since than a
    word counts. *)
Definition entry_ok (x : entry) : Prop :=
  match x with
  | Reported g r =>
      sn_ros r = counters_of g Allocator.ALLOCATION_ROS /\
      sn_middleware r = counters_of g Allocator.ALLOCATION_MIDDLEWARE /\
      printable r /\ forall d, 0 <= since d g < Allocator.modulus c
  | Other line => MetricsSpec.log_ok (MetricsSpec.Noise line) = true
  end.

Definition entry_text (x : entry) : string :=
  match x with
  | Reported g r => metrics_line c (counters_of g0 Allocator.ALLOCATION_ROS) (counters_of g0 Allocator.ALLOCATION_MIDDLEWARE) r
  | Other line => line
  end.

(** The allocations the reports stand for. *)
Definition entry_sample (x : entry) : option Metrics.sample :=
  match x with
  | Reported g _ => Some (Metrics.Sample (since Allocator.ALLOCATION_ROS g) (since Allocator.ALLOCATION_MIDDLEWARE g))
  | Other _ => None
  end.

Definition entry_line (x : entry) : MetricsSpec.log_line :=
  match x with
  | Reported g r => MetricsSpec.Marker EmptyString
      (metrics_words (counters_of g0 Allocator.ALLOCATION_ROS) (counters_of g0 Allocator.ALLOCATION_MIDDLEWARE) r)
  | Other line => MetricsSpec.Noise line
  end.

Lemma entry_line_text x : entry_text x = MetricsSpec.log_text (entry_line x).
Proof. destruct x as [g r|line]; [apply metrics_line_text|done]. Qed.

(** The difference of two counters is the number of allocations in between. *)
Lemma calls_since d g :
  0 <= since d g < Allocator.modulus c ->
  Allocator.wrap c (Allocator.calls (counters_of g d) - Allocator.calls (counters_of g0 d)) = since d g.
Proof.
  intros H. unfold counters_of, AllocatorSpec.account_metrics, Allocator.wrap. cbn [Allocator.calls].
  rewrite Zminus_mod_idemp_l, Zminus_mod_idemp_r. by apply Z.mod_small.
Qed.

Lemma run_samples es :
  Forall entry_ok es ->
  Forall (fun x => MetricsSpec.log_ok x = true) (entry_line <$> es) /\
  Forall2 Metrics.records_sample (omap MetricsSpec.log_values (entry_line <$> es)) (omap entry_sample es).
Proof.
  induction 1 as [|x es Hx _ [IH1 IH2]]; [by split; constructor|]. rewrite fmap_cons. destruct x as [g r|line].
  - destruct Hx as (Hr & Hm & Hp & Hs). split.
    + constructor; [by apply metrics_line_ok|done].
    + cbn [omap list_omap MetricsSpec.log_values entry_line entry_sample]. constructor; [|done].
      pose proof (metrics_line_sample (counters_of g0 Allocator.ALLOCATION_ROS)
        (counters_of g0 Allocator.ALLOCATION_MIDDLEWARE) r) as H.
      unfold sample_of in H. rewrite Hr, Hm, !calls_since in H by done. exact H.
  - split; [by constructor|exact IH2].
Qed.

(** The check's verdict on a log is one on the allocations. *)
Lemma run_verdict es (a : Metrics.args) :
  Forall entry_ok es -> 1 <= Metrics.minimum_samples a -> 0 <= Metrics.maximum_middleware_delta a ->
  let o := Metrics.main a (Ok (Config.text_of_lines (entry_text <$> es))) in
  let quiet := Metrics.steady (Metrics.minimum_samples a) (Metrics.maximum_middleware_delta a) (omap entry_sample es) in
  (exit o = Ok 0 /\ quiet) \/ (exit o = Ok 2 /\ ~ quiet).
Proof.
  intros Hes H1 H2. destruct (run_samples es Hes) as [Hok Hl].
  assert (entry_text <$> es = MetricsSpec.log_text <$> (entry_line <$> es)) as ->.
  { rewrite <- list_fmap_compose. apply list_fmap_ext. intros _ x _. apply entry_line_text. }
  by apply MetricsSpec.main_decides.
Qed.

End run.

(** ** The timing line *)

Definition probe_record (t : Control.timing_report) : Timing.timing :=
  Timing.Timing (Control.tr_samples t)
    (Control.release_p50_us t) (Control.release_p95_us t) (Control.release_p99_us t) (Control.tr_release_max_us t)
    (Control.completion_p50_us t) (Control.completion_p95_us t) (Control.completion_p99_us t)
    (Control.tr_completion_max_us t).

Lemma timing_line_text t : timing_line t = TimingSpec.timing_text (probe_record t).
Proof.
  unfold timing_line, TimingSpec.timing_text, field.
  cbn [TimingSpec.timing_values Timing.FIELDS probe_record zip_with Timing.t_samples Timing.release_p50 Timing.release_p95
    Timing.release_p99 Timing.release_max Timing.completion_p50 Timing.completion_p95 Timing.completion_p99
    Timing.completion_max]. unfold TimingSpec.field_value, str_join. cbn [String.concat].
  rewrite ?str_app_assoc. reflexivity.
Qed.

End lines.

(** ** Start-up *)

Section start.
Context (RCL_RET_OK RCUTILS_RET_OK : Z).
Abbreviation main := (Firmware.main RCL_RET_OK RCUTILS_RET_OK).

(** Everything the start needs succeeds. *)
Definition start_succeeds (e : start_env) : Prop :=
  (network_ready e).1 = true /\ support_init e = RCL_RET_OK /\ deployment_init e = RCL_RET_OK /\ control_start e = true.

(** What is acquired before the first failure, and what gives it back. *)
Definition acquired (e : start_env) : list call :=
  if (network_ready e).1 then
    if support_init e =? RCL_RET_OK then
      if deployment_init e =? RCL_RET_OK then
        if control_start e then [SupportInit; DeploymentInit; ControlStart] else [SupportInit; DeploymentInit]
      else [SupportInit]
    else []
  else [].

Definition undo (c : call) : option call :=
  match c with
  | SupportInit => Some SupportFini
  | DeploymentInit => Some DeploymentFini
  | ControlStart => Some ControlStop
  | _ => None
  end.

Lemma after_calls a b r : sr_calls (after a b r) = a ++ sr_calls r.
Proof. done. Qed.

Lemma after_outcome a b r : sr_outcome (after a b r) = sr_outcome r.
Proof. done. Qed.

Lemma check_ok result op text ok lines :
  check RCL_RET_OK result op text = (ok, lines) -> ok = (result =? RCL_RET_OK).
Proof. unfold check. by destruct (result =? RCL_RET_OK); intros [= <- _]. Qed.

(** The cleanup after a failed start fails. *)
Lemma cleanup_returns e a b d : sr_outcome (cleanup RCL_RET_OK RCUTILS_RET_OK e a b d 1) = Returns 1.
Proof.
  unfold cleanup. cbn [sr_outcome]. f_equal. by repeat match goal with |- context [if ?x then 1 else _] => destruct x end.
Qed.

Lemma cleanup_calls e a b d result :
  sr_calls (cleanup RCL_RET_OK RCUTILS_RET_OK e a b d result) =
  (if d then [ControlStop] else []) ++ (if b then [DeploymentFini] else []) ++
  (if a then [SupportFini] else []) ++ [LoggingShutdown].
Proof. done. Qed.

Lemma main_outcome e :
  match sr_outcome (main e) with
  | Returns code =>
      ~ start_succeeds e /\ code = 1 /\
      ((network_ready e).1 = false /\ sr_calls (main e) = [] \/
       (network_ready e).1 = true /\
       exists tried, sr_calls (main e) = acquired e ++ [tried] ++ omap undo (rev (acquired e)) ++ [LoggingShutdown] /\
         is_Some (undo tried) /\ tried ∉ acquired e)
  | Loops s =>
      start_succeeds e /\ sr_calls (main e) = acquired e /\
      s = LoopState (start_uptime e) (start_uptime e + REPORT_PERIOD_MS) UINT8_MAX
  end.
Proof.
  unfold start_succeeds, acquired, Firmware.main. rewrite !after_calls, !after_outcome. cbn [app].
  destruct (network_ready e) as [[] lines0]; cbn [fst snd negb]; [|by split; [intros [? _]|split; [|left]]].
  destruct (check RCL_RET_OK (support_init e) _ _) as [ok lines] eqn:E; apply check_ok in E as ->.
  rewrite after_calls, after_outcome. destruct (Z.eqb_spec (support_init e) RCL_RET_OK) as [H1|H1]; cbn [negb].
  2: { rewrite cleanup_returns, cleanup_calls. split; [by intros (_ & ? & _)|]. split; [done|]. right. split; [done|].
       exists SupportInit. split; [done|]. split; [by eexists|by apply not_elem_of_nil]. }
  clear lines. destruct (check RCL_RET_OK (deployment_init e) _ _) as [ok lines] eqn:E; apply check_ok in E as ->.
  rewrite after_calls, after_outcome. destruct (Z.eqb_spec (deployment_init e) RCL_RET_OK) as [H2|H2]; cbn [negb].
  2: { rewrite cleanup_returns, cleanup_calls. split; [by intros (_ & _ & ? & _)|]. split; [done|]. right. split; [done|].
       exists DeploymentInit. split; [done|]. split; [by eexists|by apply (bool_decide_unpack _)]. }
  destruct (control_start e) eqn:H3; cbn [negb sr_outcome sr_calls]; [done|].
  rewrite after_calls, after_outcome, cleanup_returns, cleanup_calls.
  split; [by intros (_ & _ & _ & ?)|]. split; [done|]. right. split; [done|].
  exists ControlStart. split; [done|]. split; [by eexists|by apply (bool_decide_unpack _)].
Qed.

End start.
(** ** The loop *)

Section loop.
Context (RCL_RET_OK RCL_RET_TIMEOUT : Z) (c : Allocator.config) (ros0 mw0 : alloc_metrics).

Abbreviation turn_of := (loop_turn RCL_RET_OK RCL_RET_TIMEOUT c ros0 mw0).

(** The times of the turns that published, and of those that reported. *)
Fixpoint message_times (ts : list turn) (s : loop_state) : list Z :=
  match ts with
  | [] => []
  | t :: ts => (if bool_decide (tr_messages (turn_of t s) = []) then [] else [tn_now t]) ++
               message_times ts (tr_state (turn_of t s))
  end.

Fixpoint report_times (ts : list turn) (s : loop_state) : list Z :=
  match ts with
  | [] => []
  | t :: ts => (if next_report_ms s <=? tn_now t then [tn_now t] else []) ++ report_times ts (tr_state (turn_of t s))
  end.

(** Each time is at least [period] after the one before. *)
Definition spaced (period : Z) : list Z -> Prop := StronglySorted (fun a b => a + period <= b).

Lemma turn_telemetry t s :
  (tr_messages (turn_of t s) = [] /\ next_telemetry_ms (tr_state (turn_of t s)) = next_telemetry_ms s) \/
  (tr_messages (turn_of t s) = [message_of (tn_state t)] /\ next_telemetry_ms s <= tn_now t /\
   next_telemetry_ms (tr_state (turn_of t s)) = tn_now t + TELEMETRY_PERIOD_MS).
Proof.
  unfold loop_turn, telemetry. destruct (Z.leb_spec (next_telemetry_ms s) (tn_now t)); [right|left];
    cbn [tr_messages tr_state]; unfold report; destruct (_ <=? _); done.
Qed.

Lemma turn_report t s :
  next_report_ms (tr_state (turn_of t s)) =
  if next_report_ms s <=? tn_now t then tn_now t + REPORT_PERIOD_MS else next_report_ms s.
Proof.
  unfold loop_turn, telemetry. destruct (Z.leb (next_telemetry_ms s) (tn_now t)); cbn [tr_state];
    unfold report; cbn [next_report_ms]; by destruct (next_report_ms s <=? tn_now t).
Qed.

Lemma message_times_spaced ts s :
  spaced TELEMETRY_PERIOD_MS (message_times ts s) /\ Forall (fun x => next_telemetry_ms s <= x) (message_times ts s).
Proof.
  revert s. induction ts as [|t ts IH]; intros s; [split; constructor|]. cbn [message_times].
  destruct (IH (tr_state (turn_of t s))) as [IH1 IH2].
  destruct (turn_telemetry t s) as [[Em Et]|(Em & Hle & Et)]; rewrite Et in IH2.
  - by rewrite bool_decide_true.
  - rewrite bool_decide_false by (by rewrite Em). cbn [app]. split; [by constructor|]. constructor; [done|].
    eapply Forall_impl; [exact IH2|]. cbn. unfold TELEMETRY_PERIOD_MS. lia.
Qed.

Lemma report_times_spaced ts s :
  spaced REPORT_PERIOD_MS (report_times ts s) /\ Forall (fun x => next_report_ms s <= x) (report_times ts s).
Proof.
  revert s. induction ts as [|t ts IH]; intros s; [split; constructor|]. cbn [report_times].
  destruct (IH (tr_state (turn_of t s))) as [IH1 IH2]. rewrite turn_report in IH2.
  destruct (Z.leb_spec (next_report_ms s) (tn_now t)); [|done]. cbn [app]. split; [by constructor|].
  constructor; [done|]. eapply Forall_impl; [exact IH2|]. cbn. unfold REPORT_PERIOD_MS. lia.
Qed.

End loop.

End FirmwareSpec.
