(* ===== verification/DeviceTheorems.v ===== *)
(** * The firmware: theorems

    The properties of the allocator, of the static-control thread and its timing
    probe, of the application, and of the ESP32-C6 Wi-Fi stack provider; and
    where the firmware meets the host tools. *)

From Stdlib Require Import Ascii String SpecFloat.
From S2P Require Import Prelude PyStr PyFloat PyObj Process Config MapFile Metrics MetricsSpec Inventory Admit AdmitSpec.
From S2P Require Import C6Theorems.
From S2P Require Import Allocator AllocatorSpec AllocatorThreads Control ControlSpec Firmware FirmwareSpec.

#[local] Open Scope Z_scope.

Module DeviceTheorems.
Import Heap.

(** ** A heap to run the allocator on *)

(** Blocks at increasing places; a resize that grows moves the block. *)
Record simple_heap := SimpleHeap { next : positive; given : gmap loc (pool * Z) }.

(** 32-bit size_t: what is handed out stays under 2^32 bytes. *)
Definition space32 : Z := 256 ^ 4.

Definition simple_alloc (p : pool) (n : Z) (h : simple_heap) : option (loc * list Z) * simple_heap :=
  if bool_decide (given h !! next h = None) && (0 <=? n) && (total (given h) + n <? space32)
  then (Some (next h, replicate (Z.to_nat n) 170), SimpleHeap (Pos.succ (next h)) (<[next h := (p, n)]> (given h)))
  else (None, h).

Definition simple_realloc (p : pool) (l : loc) (n : Z) (h : simple_heap) : option (loc * list Z) * simple_heap :=
  match given h !! l with
  | Some (_, m) =>
      let rest := delete l (given h) in
      if (0 <=? n) && (total rest + n <? space32) then
        if n <=? m then (Some (l, replicate (Z.to_nat n) 170), SimpleHeap (next h) (<[l := (p, n)]> rest))
        else if bool_decide (given h !! next h = None)
        then (Some (next h, replicate (Z.to_nat n) 170), SimpleHeap (Pos.succ (next h)) (<[next h := (p, n)]> rest))
        else (None, h)
      else (None, h)
  | None => (None, h)
  end.

#[export] Instance simple_ops : HeapOps simple_heap := {
  heap_alloc := simple_alloc;
  heap_realloc := simple_realloc;
  heap_free := fun _ l h => SimpleHeap (next h) (delete l (given h));
  heap_stats := fun _ => [Some (0, 0, 0)];
  heap_blocks := given
}.

#[export] Instance simple_laws : HeapLaws space32 simple_heap.
Proof.
  split; cbn [heap_alloc heap_realloc heap_free heap_blocks simple_ops]; unfold simple_alloc, simple_realloc.
  - intros p n h l fill h'. destruct (bool_decide _ && _ && _) eqn:E; [|done]. intros [= <- <- <-].
    rewrite !andb_true_iff, bool_decide_eq_true, Z.leb_le, Z.ltb_lt in E. destruct E as [[E1 E2] E3].
    split; [done|]. split; [rewrite length_replicate; lia|]. split; [done|]. cbn. rewrite total_insert by done. cbn. lia.
  - intros p n h h'. by destruct (_ && _); intros [= <-].
  - intros p l m n h l' fill h' E. rewrite E. destruct ((0 <=? n) && _) eqn:E2; [|done].
    rewrite andb_true_iff, Z.leb_le, Z.ltb_lt in E2. destruct E2 as [E2 E3].
    destruct (n <=? m).
    { intros [= <- <- <-]. split; [by left|]. split; [rewrite length_replicate; lia|]. split; [done|].
      cbn. rewrite total_insert by apply lookup_delete_eq. cbn. lia. }
    case_bool_decide as E4; [|done]. intros [= <- <- <-]. split; [by right|].
    split; [rewrite length_replicate; lia|]. split; [done|]. cbn.
    rewrite total_insert; [cbn; lia|]. by apply lookup_delete_None; right.
  - intros p l n h h'. by repeat case_match; intros [= <-].
  - done.
Qed.

(** The boards of the samples: 32-bit, with or without external RAM. *)
Definition board_config (spiram : bool) (fail_at : Z) : Allocator.config := Allocator.Config false spiram fail_at true.

Definition boot_world : Allocator.world (H := simple_heap) :=
  Allocator.World ∅ (SimpleHeap 1 ∅) Allocator.allocation_states 0 [].

Lemma boot_world_ok spiram fail_at : AllocatorSpec.boot (board_config spiram fail_at) boot_world.
Proof. by repeat split. Qed.

(** ** The allocator *)

#[local] Existing Instances Allocator.M_ret Allocator.M_bind.

(** C11: from the start of the firmware, whichever operations the clients choose
    (on blocks they hold, with sizes the header fits in front of) and whatever the
    other users of the heaps do in between, every operation returns without
    undefined behaviour and answers as the ledger says: an allocation is a fresh
    block of the size asked for, a zeroed one holds zeros, a resized one keeps the
    common contents, a refusal changes nothing, a block goes back to the heap it
    came from; the contents of all held blocks are untouched; and per domain the
    counters are the allocations and releases made, the bytes held and the most
    ever held. *)
Theorem allocator_session (c : Allocator.config) {H : Type} `{!HeapOps H} `{!HeapLaws (Allocator.modulus c) H}
    (n : nat) (w : Allocator.world) :
  AllocatorSpec.boot c w -> AllocatorSpec.session c n AllocatorSpec.empty_ledger w.
Proof. intros Hb. by apply AllocatorSpec.represents_session, AllocatorSpec.boot_represents. Qed.

(** A middleware block moves to external RAM when it grows past the threshold. *)
Lemma allocator_session_witness :
  AllocatorSpec.session (board_config true 0) 5 AllocatorSpec.empty_ledger boot_world /\
  (match AllocatorSpec.run_op (board_config true 0) (AllocatorSpec.Allocate Allocator.ALLOCATION_MIDDLEWARE 100) boot_world with
   | Some (Some (Ptr l _), w) =>
       match AllocatorSpec.run_op (board_config true 0)
               (AllocatorSpec.Reallocate Allocator.ALLOCATION_MIDDLEWARE (Some l) 9000) w with
       | Some (Some (Ptr l' _), w') => owner <$> (Allocator.mem w' !! l')
       | _ => None
       end
   | _ => None
   end = Some External).
Proof.
  split; [|vm_compute; reflexivity].
  apply (allocator_session (board_config true 0) 5 boot_world). apply boot_world_ok.
Defined.

(** C12: with any number of threads inside the allocator at once, in whatever order
    their steps between the locks follow each other, and with clients writing to
    their blocks and others using the heaps in between: every step has a result, so
    no interleaving has undefined behaviour; a call moves the blocks as [starts] and
    [continues] say, in particular a block handed out or taken back is in nobody
    else's hands; every operation returns within three more steps of its thread;
    the contents of a held block change only by its clients' writes; and when no
    thread is inside, the counters are exactly the calls made and the bytes held.
    The steps of a call that nobody interrupts are the operation itself. *)
Theorem allocator_interleaving (c : Allocator.config) {H : Type} `{!HeapOps H} `{!HeapLaws (Allocator.modulus c) H}
    (n : nat) (w : Allocator.world) :
  AllocatorSpec.boot c w ->
  AllocatorThreads.interleaving c n ∅ (fun _ => AllocatorSpec.Account 0 0 0) (fun _ => Allocator.Outside) w /\
  forall x w', (y ← Allocator.call_start c x; Allocator.call_finish c 3 y) w' = Allocator.call_whole c x w'.
Proof.
  intros Hb. split; [|intros x w'; apply AllocatorThreads.call_phases].
  apply (AllocatorThreads.shared_interleaving c); [by apply AllocatorThreads.boot_shared|apply AllocatorThreads.boot_threads].
Qed.

(** One thread has its block but has not counted it while another allocates, and
    gives back what it got. *)
Definition two_threads (c : Allocator.config) : Allocator.M (H := simple_heap) (list Z) :=
  let live := fun w => Some (Allocator.live_bytes (Allocator.counters (Allocator.states w Allocator.Slot0)), w) in
  x ← Allocator.call_start c (Allocator.CallAllocate Allocator.Slot0 100);
  x ← Allocator.call_continue c x.1;
  k0 ← live;
  q ← Allocator.call_whole c (Allocator.CallAllocate Allocator.Slot0 24);
  k1 ← live;
  y ← Allocator.call_start c (Allocator.CallDeallocate Allocator.Slot0 q);
  k2 ← live;
  x ← Allocator.call_continue c x.1;
  y ← Allocator.call_continue c y.1;
  k3 ← live;
  mret [k0; k1; k2; k3].

Lemma allocator_interleaving_witness :
  AllocatorThreads.interleaving (board_config false 0) 8 ∅ (fun _ => AllocatorSpec.Account 0 0 0)
    (fun _ => Allocator.Outside) boot_world /\
  fst <$> two_threads (board_config false 0) boot_world = Some [0; 24; 0; 100].
Proof.
  split; [|vm_compute; reflexivity].
  apply (allocator_interleaving (board_config false 0) 8 boot_world). apply boot_world_ok.
Defined.

(** C19: an allocation that is injected to fail, or that the heap refuses, returns
    [NULL], prints the failure with the domain, the size and the counters, and
    changes neither memory nor counters: refused requests are not counted. *)
Theorem allocation_refused (c : Allocator.config) {H : Type} `{!HeapOps H}
    (size : Z) (d : Allocator.allocation_domain) (w : Allocator.world) :
  let s := Allocator.state_for_domain d in
  Allocator.domain (Allocator.states w s) = d ->
  AllocatorSpec.injected c s w = true \/ AllocatorSpec.heap_answer c size s w = None ->
  exists w' t, Allocator.ros2_zephyr_allocate c size s w = Some (None, w') /\
    Allocator.mem w' = Allocator.mem w /\ Allocator.states w' = Allocator.states w /\
    Allocator.console w' = Allocator.console w ++
      Allocator.failure_line d size (Allocator.counters (Allocator.states w s)) :: t.
Proof.
  intros s Hd Hr. destruct (AllocatorSpec.allocate_refused c size s w Hr) as (w' & t & H1 & H2 & H3 & H4).
  rewrite Hd in H4. by exists w', t.
Qed.

(** The first ROS allocation is made to fail, as in the initialization test. *)
Lemma allocation_refused_witness :
  exists w' t, Allocator.ros2_zephyr_allocate (board_config false 1) 64 Allocator.Slot0 boot_world = Some (None, w') /\
    Allocator.mem w' = ∅ /\ Allocator.states w' = Allocator.allocation_states /\
    Allocator.console w' = "ROS2_ZEPHYR_ALLOC_FAILURE domain=ros requested=64 live=0 high_water=0" :: t.
Proof.
  apply (allocation_refused (board_config false 1) 64 Allocator.ALLOCATION_ROS boot_world).
  - reflexivity.
  - left. reflexivity.
Defined.

(** C18: for a size within the header's length of the end of the range the sum
    passed to the heap wraps, so a heap that answers gives less than a header: on
    a 32-bit target the header is then written outside the block, and on a 64-bit
    one the operation either does that or returns a pointer behind which not one
    byte may be accessed. *)
Theorem header_overflow (c : Allocator.config) {H : Type} `{!HeapOps H} `{!HeapLaws (Allocator.modulus c) H}
    (size : Z) (s : Allocator.slot) (w : Allocator.world) (l : loc) (fill : list Z) :
  Allocator.modulus c - Allocator.sizeof_header c <= size < Allocator.modulus c ->
  AllocatorSpec.injected c s w = false -> AllocatorSpec.heap_answer c size s w = Some (l, fill) ->
  match Allocator.ros2_zephyr_allocate c size s w with
  | None => True
  | Some (Some p, w') => Allocator.lp64 c = true /\ load p 1 (Allocator.mem w') = None
  | Some (None, _) => False
  end.
Proof.
  intros Hs Hi Ha. apply (AllocatorSpec.overflowing_allocation c size s w l fill); [done..|].
  unfold AllocatorSpec.heap_answer in Ha. destruct (heap_alloc _ _ _) as [r h] eqn:E. cbn in Ha. subst r.
  apply alloc_some in E as (_ & -> & _). unfold Allocator.wrap.
  pose proof (AllocatorSpec.header_small c). symmetry. apply (Zmod_unique _ _ 1); lia.
Qed.

Lemma header_overflow_witness :
  AllocatorSpec.heap_answer (board_config false 0) (2 ^ 32 - 1) Allocator.Slot0 boot_world = Some (1%positive, replicate 7 170) /\
  Allocator.ros2_zephyr_allocate (board_config false 0) (2 ^ 32 - 1) Allocator.Slot0 boot_world = None.
Proof.
  split; [vm_compute; reflexivity|].
  pose proof (header_overflow (board_config false 0) (2 ^ 32 - 1) Allocator.Slot0 boot_world 1 (replicate 7 170)) as H.
  destruct (Allocator.ros2_zephyr_allocate (board_config false 0) (2 ^ 32 - 1) Allocator.Slot0 boot_world)
    as [[[p|] w]|]; [..|reflexivity].
  - destruct H as [H _]; [split; vm_compute; [discriminate|reflexivity]|reflexivity|vm_compute; reflexivity|discriminate H].
  - destruct H; [split; vm_compute; [discriminate|reflexivity]|reflexivity|vm_compute; reflexivity].
Defined.

(** ** The control thread *)

Import Control ControlSpec.

(** C13: after any execution from power-on, what [static_control_read_state] returns is
    determined by the events alone: by the cycles since the last start that took
    effect, each with the timer expiries it consumed, the time it started, the last
    command accepted before it read (target in [-1, 1], receipt time not negative) and
    the time it completed.  Before the first cycle the state is the initial, disabled
    one.  Then it is FAULT exactly when some cycle missed a release or started or
    ended after its output was due; otherwise ACTIVE exactly when the last command
    read was received at most 250 ms before the cycle started and not after, STALE
    when it was received at another time, DISABLED when there is none.  The effort is
    the saturated control law of the plant's position and velocity when the status is
    ACTIVE and zero otherwise, the position and velocity are those the plant reaches
    from rest under the efforts of all cycles, and the counters and the greatest
    lateness are those of the cycles. *)
Theorem control_publishes (b : firmware_build) (es : list event) (s : system) :
  run_events b es power_on = Some s ->
  let o := observe es in
  running s = up o /\
  (shown o = [] -> static_control_read_state s = initial_state) /\
  (forall ys y, shown o = ys ++ [y] -> shows (entered o) ys y (static_control_read_state s)).
Proof.
  intros H o. pose proof (follows_run b es _ _ _ follows_init H) as Hf. fold (observe es) o in Hf.
  split; [symmetry; apply Hf|]. unfold static_control_read_state. rewrite (follows_published o s Hf).
  split; [by intros ->|]. intros ys y ->. apply history_shows.
Qed.

(** A start, a command with target 0.5, and one cycle that finds it fresh. *)
Definition half : f32 := fdiv f1 (f32_of_Z 2).

Definition plain_build : firmware_build := FirmwareBuild false false (fun n => n).

Definition active_run : list event :=
  [Start; Enter 0; Submit (Some (Command half 7)) 4; Wake 1 10 0; Read; Compute 12 0; Publish].

Definition active_system : system := default power_on (run_events plain_build active_run power_on).

Lemma active_reachable : reachable plain_build active_system.
Proof. apply (run_reachable plain_build active_run power_on); [constructor|vm_compute; reflexivity]. Qed.

Lemma control_publishes_witness :
  st_status (published active_system) = ACTIVE /\ st_effort (published active_system) = f1 /\
  shows 0 [] (Cycle 1 10 (CommandSnapshot (Command half 7) 4 true) 12) (published active_system).
Proof.
  split; [vm_compute; reflexivity|]. split; [vm_compute; reflexivity|].
  refine (proj2 (proj2 (control_publishes plain_build active_run active_system _)) [] _ _); vm_compute; reflexivity.
Defined.

(** A command received 250 ms before the cycle is obeyed, one of 251 ms is not, nor is
    one that is said to be received after the cycle started. *)
Definition aged_run (receipt : Z) : list event :=
  [Start; Enter 290; Submit (Some (Command half 7)) receipt; Wake 1 300 0; Read; Compute 310 0; Publish].

Lemma aged_status :
  (fun r => st_status (published (default power_on (run_events plain_build (aged_run r) power_on)))) <$> [50; 49; 300; 301] =
  [ACTIVE; STALE; ACTIVE; STALE].
Proof. vm_compute. reflexivity. Qed.

(** C15: once FAULT is published it stays published, with zero effort, through any
    events but a start, whatever commands are submitted and however the thread
    and the clock go on. *)
Theorem fault_latched (b : firmware_build) (s s' : system) (es : list event) :
  reachable b s -> st_status (published s) = FAULT -> Start ∉ es -> run_events b es s = Some s' ->
  st_status (published s') = FAULT /\ st_effort (published s') = f0.
Proof.
  intros Hr Hf Hn H. pose proof (fault_latched_run b es s s' Hr Hf Hn H) as Hf'. split; [done|].
  apply (published_idle b); [by eapply run_reachable|by rewrite Hf'].
Qed.

(** A missed release, then a cycle in time with a fresh command. *)
Definition fault_run : list event := [Start; Enter 0; Wake 2 20 0; Read; Compute 21 0; Publish].

Definition later_run : list event :=
  [Submit (Some (Command half 8)) 25; Wake 1 30 0; Read; Compute 31 0; Publish].

Lemma fault_latched_witness :
  exists s', run_events plain_build (fault_run ++ later_run) power_on = Some s' /\
    st_status (published s') = FAULT /\ st_effort (published s') = f0.
Proof.
  destruct (run_events plain_build fault_run power_on) as [s|] eqn:E; [|vm_compute in E; discriminate].
  destruct (run_events plain_build later_run s) as [s'|] eqn:E'.
  - exists s'. split.
    + vm_compute in E. injection E as <-. rewrite <- E'. vm_compute. reflexivity.
    + apply (fault_latched plain_build s s' later_run); [|..|exact E'].
      * apply (run_reachable plain_build fault_run power_on); [constructor|exact E].
      * vm_compute in E. injection E as <-. reflexivity.
      * unfold later_run. repeat (apply not_elem_of_cons; split; [discriminate|]). apply not_elem_of_nil.
  - vm_compute in E. injection E as <-. vm_compute in E'. discriminate E'.
Defined.

(** C16: once a stop is requested the thread takes at most five more steps, wherever
    it is, and can always take the next until it has ended and [running] is
    cleared, which is what [static_control_stop] waits for. *)
Theorem stop_finishes (b : firmware_build) (s : system) :
  reachable b s -> stop_requested s = true ->
  (forall es s', Forall thread_event es -> run_events b es s = Some s' -> (length es <= 5)%nat) /\
  (forall es s', Forall thread_event es -> run_events b es s = Some s' -> running s' = true ->
     exists e s2, thread_event e /\ control_step b e s' = Some s2) /\
  (exists es s', Forall thread_event es /\ run_events b es s = Some s' /\ running s' = false).
Proof.
  intros Hr Hs. split; [|split].
  - intros es s' He H. pose proof (thread_steps_bound b es s s' He Hs H).
    assert (remaining (control_thread s) <= 5)%nat by (destruct (control_thread s); cbn; lia). lia.
  - intros es s' He H Hrun. apply thread_progress. intros H0.
    assert (reachable b s') as Hr' by (by eapply run_reachable).
    rewrite (control_running b s' Hr') in Hrun. by destruct (control_thread s').
  - by apply (thread_finishes b (remaining (control_thread s))).
Qed.

Lemma stop_finishes_witness :
  exists es s', Forall thread_event es /\
    run_events plain_build es (static_control_stop active_system) = Some s' /\ running s' = false.
Proof.
  refine (proj2 (proj2 (stop_finishes plain_build (static_control_stop active_system) _ _))).
  - apply (run_reachable plain_build [Stop] active_system); [exact active_reachable|reflexivity].
  - vm_compute. reflexivity.
Defined.

(** ** The timing probe *)

Import ProbeSpec.

(** C17: as long as 99 times the samples and 99 more fit in 32 bits (43,383,507
    samples, five days at 100 Hz) the report after any measured cycles has their
    number, the maxima, and the percentiles of the release latency and of the
    completion lateness to the resolution of a bucket.  With one sample more the
    rank wraps to zero, and the 99th percentile is reported as 100 us whatever
    was measured. *)
Theorem timing_report_percentiles (cyc_to_us : Z -> Z) (ms : list measurement) :
  (forall n, 0 <= n -> 0 <= cyc_to_us n) -> ms <> [] ->
  (Z.of_nat (length ms) <= 43383507 ->
   reports cyc_to_us ms (static_control_timing_read (record_all cyc_to_us ms))) /\
  (Z.of_nat (length ms) = 43383508 ->
   release_p99_us (static_control_timing_read (record_all cyc_to_us ms)) = 100).
Proof.
  intros Hc Hne. split; intros Hlen.
  - apply timing_read_reports; [done|done|lia].
  - cbn [static_control_timing_read release_p99_us].
    destruct (record_all_spec cyc_to_us Hc ms) as (-> & -> & _). rewrite Hlen. by apply wrapped_rank.
Qed.

(** Cycles of one microsecond; four measurements, one of them late. *)
Definition four_cycles : list measurement :=
  [Measurement 0 120 900; Measurement 10000 10150 11000; Measurement 20000 20130 31500; Measurement 30000 30990 31000].

Lemma timing_report_percentiles_witness :
  let r := static_control_timing_read (record_all (fun n => n) four_cycles) in
  reports (fun n => n) four_cycles r /\ release_p50_us r = 200 /\ tr_completion_max_us r = 1500.
Proof.
  cbn zeta. split; [|split; vm_compute; reflexivity].
  refine (proj1 (timing_report_percentiles (fun n => n) four_cycles _ _) _).
  - intros n Hn. exact Hn.
  - discriminate.
  - vm_compute. discriminate.
Defined.

(** ** The reports and the host's check *)

Import Process FirmwareSpec.

(** C14: on a log of a run, with the lines the application prints at its reports
    and other lines around them, the metrics check ends with status 0 exactly when
    ROS made no allocation since start-up at any report and the number of the
    middleware's grew by at most the bound from one report to the next, as the
    allocator's ledger counts them; and with 2 otherwise. *)
Theorem metrics_end_to_end (c : Allocator.config) (g0 : AllocatorSpec.ledger) (es : list entry) (a : Metrics.args) :
  Forall (entry_ok c g0) es -> 1 <= Metrics.minimum_samples a -> 0 <= Metrics.maximum_middleware_delta a ->
  let o := Metrics.main a (Ok (Config.text_of_lines (entry_text c g0 <$> es))) in
  let quiet := Metrics.steady (Metrics.minimum_samples a) (Metrics.maximum_middleware_delta a)
                 (omap (entry_sample g0) es) in
  (exit o = Ok 0 /\ quiet) \/ (exit o = Ok 2 /\ ~ quiet).
Proof. apply run_verdict. Qed.

(** A run in which the middleware allocates ten times between two reports. *)
Definition ledger_with (ros middleware : Z) : AllocatorSpec.ledger :=
  AllocatorSpec.Ledger ∅ (fun d => AllocatorSpec.Account
    match d with Allocator.ALLOCATION_ROS => ros | Allocator.ALLOCATION_MIDDLEWARE => middleware end 0 512).

Definition report_of (middleware : Z) : entry :=
  let g := ledger_with 40 middleware in
  Reported g (Firmware.Snapshot 3 0 (counters_of (board_config true 0) g Allocator.ALLOCATION_ROS)
    (counters_of (board_config true 0) g Allocator.ALLOCATION_MIDDLEWARE) initial_state (Some 900) None).

Definition run_log : list entry := [Other "STATIC_CONTROL_READY"; report_of 120; Other "boot"; report_of 130].

Lemma metrics_end_to_end_witness : Metrics.steady 2 32 [Metrics.Sample 0 20; Metrics.Sample 0 30].
Proof.
  destruct (metrics_end_to_end (board_config true 0) (ledger_with 40 100) run_log (Metrics.Args "run.log" 2 32))
    as [[_ H]|[H _]].
  - unfold run_log. assert (forall m, 100 <= m < 1000 -> entry_ok (board_config true 0) (ledger_with 40 100) (report_of m)) as Hr.
    { intros m Hm. split; [reflexivity|]. split; [reflexivity|]. split; [split; cbn; try lia; by intros n [= <-]|].
      intros d. unfold since. cbn [ledger_with AllocatorSpec.accounts AllocatorSpec.allocations].
      change (Allocator.modulus (board_config true 0)) with 4294967296. destruct d; cbn; lia. }
    repeat constructor; try reflexivity; apply Hr; lia.
  - cbn. lia.
  - cbn. lia.
  - exact H.
  - exfalso. vm_compute in H. discriminate H.
Defined.

(** ** The Wi-Fi stack provider and the admission *)

(** C20: for an image whose TLS fits, the size the linked provider returns for the
    vendor's minimum is the backing the admission computes for the vendor's task,
    the admission's row passes, and for each of the vendor's four sizes what the
    provider returns holds that size besides the TLS copy, the overhead and the
    margin. *)
Theorem wifi_stack_admitted (ROUND_UP : Z -> Z -> Z) (t : WifiStack.tls_symbols) (p : Admit.stack_policy)
    (symbols : Admit.symbol_table) (dis : string) (rows rows' : list Admit.thread_row) (failures failures' : list string) :
  (forall x a, 0 < a -> 0 <= x -> x + a <= 2 ^ 32 -> ROUND_UP x a = (x + a - 1) / a * a) ->
  WifiStack.tls_ok t -> Admit.sp_tls p = WifiStack.tls_size t -> Admit.sp_align p = WifiStack.tls_align t ->
  0 <= Admit.sp_other p <= 99 -> 0 <= Admit.sp_margin p <= 256 ->
  Admit.vendor_known dis = true -> is_Some (Admit.symbol_get symbols "__wrap_config_get_wifi_task_stack_size") ->
  Admit.vendor_row p symbols true dis rows failures = Ok (rows', failures') ->
  exists row, rows' = rows ++ [row] /\
    Admit.backing_bytes (Admit.budget row) = WifiStack.wrap_config_get_wifi_task_stack_size ROUND_UP 3072 t /\
    Admit.row_pass (Admit.budget row) = true /\
    Forall (fun real => AdmitSpec.holds (WifiStack.wrap_config_get_wifi_task_stack_size ROUND_UP real t) real
      (Admit.sp_tls p) (Admit.sp_align p) (Admit.sp_other p) (Admit.sp_margin p) false) WifiStack.vendor_sizes.
Proof.
  intros Hru Ht Et Ea Ho Hm Hk [y Hy] H. unfold Admit.vendor_row in H. rewrite Hk, Hy in H.
  apply bind_Ok in H as (rows1 & Hadd & [= <- <-]). rewrite Et, Ea, <- (WifiStack.wrap_config_spec ROUND_UP Hru 3072 t Ht) in Hadd by lia.
  pose proof (WifiStack.wrap_config_holds ROUND_UP Hru 3072 t (Admit.sp_other p) (Admit.sp_margin p) Ht) as Hh.
  unfold Admit.add in Hadd. rewrite Et, Ea in Hadd. set (backing := WifiStack.wrap_config_get_wifi_task_stack_size _ _ _) in *.
  assert (AdmitSpec.holds backing 3072 (WifiStack.tls_size t) (WifiStack.tls_align t) (Admit.sp_other p) (Admit.sp_margin p) false)
    as Hholds by (apply Hh; lia).
  assert (0 <= WifiStack.tls_size t) by (destruct Ht; unfold WifiStack.tls_size; lia).
  assert (1 <= WifiStack.tls_align t) by (by destruct Ht).
  destruct (AdmitSpec.stack_budget_spec backing 3072 (WifiStack.tls_size t) (WifiStack.tls_align t)
    (Admit.sp_other p) (Admit.sp_margin p) false) as (row & Erow & Hb & _ & Hpass & _);
    [unfold AdmitSpec.holds, AdmitSpec.needs in Hholds; lia|lia..|].
  rewrite Erow in Hadd. injection Hadd as <-. eexists. split; [done|]. split; [exact Hb|]. split; [by apply Hpass|].
  rewrite Et, Ea. repeat constructor; apply WifiStack.wrap_config_holds; done || lia.
Qed.

(** The sample C6 build: 64 bytes of TLS aligned to 8, an 80-byte frame. *)
Definition c6_tls : WifiStack.tls_symbols := WifiStack.TlsSymbols 16 48 8 8.

Definition round_up (x a : Z) : Z := (x + a - 1) / a * a.

Definition c6_symbols : Admit.symbol_table :=
  Admit.symbols_of [Inventory.ElfSym "__wrap_config_get_wifi_task_stack_size" 1107296256 64 "STT_FUNC"].

Lemma wifi_stack_admitted_witness :
  exists rows failures row,
    Admit.vendor_row (Admit.StackPolicy 64 8 99 256) c6_symbols true C6Theorems.c6_disassembly [] [] = Ok (rows, failures) /\
    rows = [row] /\
    Admit.backing_bytes (Admit.budget row) = WifiStack.wrap_config_get_wifi_task_stack_size round_up 3072 c6_tls /\
    Admit.row_pass (Admit.budget row) = true.
Proof.
  destruct (Admit.vendor_row (Admit.StackPolicy 64 8 99 256) c6_symbols true C6Theorems.c6_disassembly [] [])
    as [[rows failures]|e] eqn:E; [|vm_compute in E; discriminate E].
  destruct (wifi_stack_admitted round_up c6_tls (Admit.StackPolicy 64 8 99 256) c6_symbols C6Theorems.c6_disassembly
    [] rows [] failures) as (row & H1 & H2 & H3 & _).
  - intros x a _ _ _. reflexivity.
  - split; vm_compute; congruence.
  - reflexivity.
  - reflexivity.
  - cbn. lia.
  - cbn. lia.
  - vm_compute. reflexivity.
  - eexists. vm_compute. reflexivity.
  - exact E.
  - exists rows, failures, row. split; [reflexivity|]. split; [exact H1|]. split; [exact H2|exact H3].
Defined.

(** ** Start-up *)

(** C21: the application enters its loop exactly when network, support, deployment
    and control all start, having acquired the three; otherwise [main] returns 1,
    and unless there was no network it has then released exactly what it acquired
    before the first failure, the last first, and shut the logging down. *)
Theorem start_failure_releases (RCL_RET_OK RCUTILS_RET_OK : Z) (e : Firmware.start_env) :
  match Firmware.sr_outcome (Firmware.main RCL_RET_OK RCUTILS_RET_OK e) with
  | Firmware.Returns code =>
      ~ start_succeeds RCL_RET_OK e /\ code = 1 /\
      ((Firmware.network_ready e).1 = false /\ Firmware.sr_calls (Firmware.main RCL_RET_OK RCUTILS_RET_OK e) = [] \/
       (Firmware.network_ready e).1 = true /\
       exists tried, Firmware.sr_calls (Firmware.main RCL_RET_OK RCUTILS_RET_OK e) =
           acquired RCL_RET_OK e ++ [tried] ++ omap undo (rev (acquired RCL_RET_OK e)) ++ [Firmware.LoggingShutdown] /\
         is_Some (undo tried) /\ tried ∉ acquired RCL_RET_OK e)
  | Firmware.Loops s =>
      start_succeeds RCL_RET_OK e /\
      Firmware.sr_calls (Firmware.main RCL_RET_OK RCUTILS_RET_OK e) = acquired RCL_RET_OK e /\
      s = Firmware.LoopState (Firmware.start_uptime e) (Firmware.start_uptime e + Firmware.REPORT_PERIOD_MS) Firmware.UINT8_MAX
  end.
Proof. apply main_outcome. Qed.

End DeviceTheorems.
